(* ===== verification/_CoqProject ===== *)
-Q . S2P
Prelude.v
Float64.v
GoStr.v
Crypto.v
Encoding.v
Net.v
Regexp.v
Json.v
Types.v
Targets.v
Rce.v
Xss.v
Sqli.v
SlidingWindow.v
RateLimit.v
Ddos.v
Performance.v
Confidence.v
Learning.v
Engine.v
WebSocket.v
Credential.v
Rules.v
GraphQL.v
Desync.v
ParserHardener.v
Protocol.v
Bot.v
ApiProtect.v
Adaptive.v
Behavioral.v
Config.v
Upload.v
Rewrite.v
Ja3.v
Mtls.v
Wasm.v
Auth.v
Pipeline.v
Proxy.v
Admin.v
Billing.v
Api.v
Ctl.v
ApiStore.v
Analytics.v
Tenant.v
Session.v
Compliance.v
Reputation.v
Siem.v
Ml.v
LogStream.v
Startup.v
ApiServer.v
