(* ===== verification/Prelude.v ===== *)
(** * FortressWAF verification library

    FortressWAF is a web application firewall in Go: a reverse proxy
    ([cmd/proxy/main.go]) passes each request to an inspection engine
    ([internal/engine]) whose inspectors give scored decisions, and an
    administration API edits rules, limits, tenants and licences;
    [cmd/ctl/main.go] is the command line client. This library
    models the packages that carry the firewall's own logic, as the code is
    written, and proves what they guarantee; where the code does not do what
    it means to, the theorem states what it does.

    ** How the program's parts interact

    The proxy builds a [RequestContext] from the request and calls
    [Engine.Inspect], which runs the configured inspectors in order. Each
    returns nil, an error or a decision; the engine names and scores the
    decision (confidence scorer), records it (learning mode), adds it to the
    context and stops at the first block. Inspectors keep their own state
    (counters, trackers) behind mutexes and see the context only. With
    performance isolation every call goes through the performance manager's
    circuit breakers. The rule engine, the rate limiter and the remaining
    packages are separate stores with their own operations. The control API
    changes the configuration, whose listeners rebuild the proxy's upstreams,
    and passes single rules on to the rule engine.

    ** Files, in dependency order

    Language and library models:
    - [Prelude] (this file): 64-bit integers, time, panics as outcomes,
      lists, maps ranged over in an unspecified order, automation.
    - [Float64]: Go's float64 on the Standard Library's [SpecFloat], with the
      exactness of whole-number scores below 2^53.
    - [GoStr]: Go strings as byte strings; [strings], UTF-8, case (Unicode
      tables are the class [Unicode]), number scanning, header keys.
    - [Crypto]: SHA-256, HMAC, hex and base64, with published test vectors.
    - [Encoding]: decimal printing, MD5, the DER sequences of object
      identifiers; [Net]: IP addresses and CIDR networks.
    - [Regexp]: Go's [regexp]: a parser of its syntax and a matcher, proved to
      decide the declarative relation [matches]; find-all and replacing.
    - [Json]: decoding as [encoding/json] does it.

    Shared data:
    - [Types]: decisions, requests and [NewRequestContext]
      ([internal/engine/engine.go]). Formatted text is kept as format and
      arguments.
    - [Targets]: the values of a request the pattern inspectors look at.
    - [SlidingWindow]: the class [WindowLimiter], what a log of admission
      instants promises; against it, once for all implementations, that the
      answers are those of a machine that never forgets and that no window
      holds more than the limit. [RateLimit] and [Ddos] are instances.

    Inspectors, each named as its source file in [internal/engine]:
    - [Rce], [Xss], [Sqli] (with its tokenizer), [GraphQL], [Desync],
      [ParserHardener] ([parser.go]), [Protocol] ([protocol.go] and
      [middleware.go]), [Bot], [ApiProtect] ([api_protect.go]), [Ddos],
      [Credential], [WebSocket], [Adaptive], [Behavioral], [Upload],
      [Rewrite] ([rewrite.go]), [Ja3], [Mtls] ([mtls.go]).

    The engine and what surrounds it:
    - [RateLimit]: [internal/ratelimit/ratelimit.go], the four algorithms,
      limits, priorities and cleanup.
    - [Performance]: [performance.go], circuit breakers, workers (a step
      relation for the interleavings), [Stats] with its locks.
    - [Confidence], [Learning]: [confidence.go] and [shadow.go].
    - [Engine]: the rest of [engine.go]: [New], [Inspect] as [inspect_loop]
      over [call], [annotate] and [log_decision], [finalDecision],
      [UpdateInspector]. Inspectors are any functions; what the engine needs of
      them is the class [LawfulInspector].
    - [Rules]: [internal/rules/rules.go], with the slice's backing arrays and
      the index of pointers into them as a heap.
    - [Config]: [internal/config/config.go].
    - [Wasm]: [internal/engine/wasm.go] and [ebpf.go]; wazero is a class.
    - [Pipeline]: [buildEngineConfig] of [cmd/proxy/main.go]: every inspector
      of the engine's slots, as an inspector of [Engine] over one world of
      states.
    - [Proxy]: the reverse proxy and the deciding handlers of
      [cmd/proxy/main.go], on top of the engine.
    - [Siem]: [internal/siem], exporters and the manager, whose senders, loop
      and [Close] are interleaved as steps. [Ml]: [internal/ml], the client with
      its breaker.
    - [Startup]: [main] of [cmd/proxy/main.go]: what is built, how TLS and the
      servers are set up, and how the signal, the servers and the requests end.

    The administration side:
    - [Admin]: routing (gorilla/mux is the class [Mux]), the administration
      server of [cmd/proxy/main.go] and the routes of [internal/api/server.go].
    - [Auth]: [internal/engine/auth.go], JSON web tokens and OAuth
      introspection with their caches.
    - [Api]: the handlers of [internal/api/handlers.go] that change sites,
      rules, patches and settings, over [Config] and [Rules]; [ApiStore]: those
      over the handlers' own stores (logs and figures, tenants, alerts,
      sessions and keys) and the middleware of [server.go]; [Analytics]: its
      rankings; [LogStream]: following and exporting logs; [ApiServer]: the server with all handlers
      over one state.
    - [Ctl]: [cmd/ctl/main.go], each command from its arguments to its exit
      status, against both servers.
    - [Billing]: [internal/billing], features, licences, usage, the payment
      webhook. [Tenant]: [internal/tenant]. [Session]: [internal/session].
    - [Compliance]: [internal/compliance], the audit log, the assessments and
      the masking of personal data. [Reputation]: [internal/reputation] and
      [internal/geo].

    ** Conventions

    An operation takes the state and returns the new one; a method that may
    panic returns an [outcome], one that returns an error a [result]; the engine,
    in which a fatal error of the runtime ends the process, gives an [ending], and
    with it what a panic leaves behind. Mutexes
    serialise the operations of a component, so a concurrent history is a list
    of operations in some order; theorems quantify over all of them. Each
    reading of the clock is an argument; where a method reads it several times
    in a row the model may share one reading, as the file says. Integers are
    [Z] with Go's wrap-around written out ([wrap64]) where the code can
    overflow. Services outside the program (DNS, CAPTCHA, files, YAML, URL
    parsing, Unicode tables beyond ASCII) are type classes; theorems hold for
    every instance and witnesses use concrete ones.

    Fuel: [Crypto.schedule] and [Crypto.blocks] have the number of words and
    bytes they read; [Regexp.star] and the matcher's loops one step per rune of
    the text and [Regexp.parse] one per byte of the pattern, which every pattern
    of the program is shown to need at most ([..._patterns_compile]);
    [Json.parse_value] twice the length of the text; [Sqli.tokenize_from] the
    number of runes, proved enough; [ParserHardener.decode_from] the length of
    the value, where running out is proved to be non-termination;
    the decoders of [Encoding] the length of their bytes, proved enough;
    [Net.groups] the eight groups an address can have; the replacing of
    [Compliance] one round per byte of the text. [Ml.attempts] and
    [Wasm.Ebpf.ticks] count rounds that the code counts too.

    ** What the theorems show

    Engine: the verdict is exactly the sum of the logged scores with the
    first block (outside shadow mode) taking precedence; shadow mode still
    blocks by score; isolation turns panics into errors and, without limits
    reached, changes nothing else; without decisions a request is judged by its
    timeouts alone and, up to two, allowed. Proxy: what reaches an upstream, what one request can do to the
    process, what reloads change, who is admitted to the administration API.
    Limiters: bounds on admissions in every window under every interleaving,
    refinement of the reference machine, exact conditions of the panics.
    Breakers: an open breaker leaks at most one call; the worker limit holds
    under every interleaving; [Stats] deadlocks. Credentials: closed form of
    the lockout, its duration, the permanent throttling of clients, rules that
    cannot fire. Frames: decoding inverts the RFC 6455 encoding, exact
    condition of the panic. Rules: the least matching rule decides in every
    reachable store; the index and the slice come apart. Pattern inspectors:
    exactly which requests they block, and inputs that hide from them.
    Escalation, velocity and percent decoding: closed forms, with the exact
    condition under which decoding does not end. Tokens: what is accepted was
    signed; what a cache outlives. Control API: which configurations a handler
    can leave behind, when an applied patch can be taken back, what reaches the
    rule engine, who passes the middleware for how long. Licences, usage and
    payments: what the validators accept, which limits stay. Tenants and
    sessions: schemas as PostgreSQL resolves them (the class [Tenant.Postgres]),
    scopes and indexes. Uploads, fingerprints and
    certificates: what is judged, and on which inputs the parsers panic. Audit:
    what is recorded and what a verification can see. Reputation: how long a
    verdict outlives its evidence. Events: in every interleaving each exporter
    gets each event once, a full buffer is always on its way, and what [Close]
    strands; the ML client's breaker and its retries. Start and stop: how the
    program listens for every TLS setting, that each request is answered once, and
    that the signal cuts off the requests at their upstreams. Servers and client: who gets past the
    routers and the middleware, through every history, and which commands of the
    client work against which server. Exports: CSV can be read back, CEF can be
    forged; a follower of the log loses nothing below a hundred unread entries.

    ** Not modelled

    Network and disk I/O, logging, the text of usage messages and of the
    challenge page that no code calls, the parsing of command lines (cobra) and
    the libraries that the code calls (mux, wazero, YAML, database drivers), which
    are classes where the code relies on them. A number beyond float64 is an error
    anywhere in a JSON text, also in a member that decoding into a struct skips; a
    request of the client has the headers the client sets, without those its
    library adds. Of the process, the requests of the administration server are not
    followed. The dashboard, the ML service and
    the deployment files are not Go code of the firewall. *)

From Stdlib Require Export ZArith Lia Ascii.
From stdpp Require Export prelude gmap strings list sorting.

#[global] Open Scope Z_scope.

(** ** Machine integers

    Go's [int] and [int64] are 64-bit two's complement on the supported
    platforms; arithmetic wraps around silently. *)

Definition min64 : Z := - 2 ^ 63.
Definition max64 : Z := 2 ^ 63 - 1.
Definition wrap64 (z : Z) : Z := (z + 2 ^ 63) mod 2 ^ 64 - 2 ^ 63.
Definition in64 (z : Z) : Prop := min64 <= z <= max64.

(** [x++] on an [int] or [int64]. *)
Definition incr (z : Z) : Z := wrap64 (z + 1).

Lemma wrap64_small z : in64 z -> wrap64 z = z.
Proof. unfold in64, min64, max64, wrap64. intros H. rewrite Z.mod_small; lia. Qed.

Lemma wrap64_in64 z : in64 (wrap64 z).
Proof.
  unfold in64, min64, max64, wrap64.
  pose proof (Z.mod_pos_bound (z + 2 ^ 63) (2 ^ 64) ltac:(lia)). lia.
Qed.

Lemma wrap64_add_r a b : wrap64 (a + wrap64 b) = wrap64 (a + b).
Proof.
  unfold wrap64. f_equal.
  replace (a + ((b + 2 ^ 63) mod 2 ^ 64 - 2 ^ 63) + 2 ^ 63) with (a + (b + 2 ^ 63) mod 2 ^ 64) by lia.
  rewrite Zplus_mod_idemp_r. f_equal. lia.
Qed.

Lemma wrap64_add_l a b : wrap64 (wrap64 a + b) = wrap64 (a + b).
Proof. by rewrite Z.add_comm, wrap64_add_r, Z.add_comm. Qed.

(** An unsigned sum read as an int64. *)
Lemma wrap64_unsigned z :
  0 <= z < 2 ^ 64 + 2 ^ 63 -> wrap64 z = if 2 ^ 63 <=? z then z - 2 ^ 64 else z.
Proof.
  intros Hz. unfold wrap64. destruct (Z.leb_spec (2 ^ 63) z).
  - replace (z + 2 ^ 63) with (z - 2 ^ 63 + 1 * 2 ^ 64) by lia. rewrite Z.mod_add, Z.mod_small; lia.
  - rewrite Z.mod_small; lia.
Qed.

Lemma incr_small z : min64 <= z < max64 -> incr z = z + 1.
Proof. intros. apply wrap64_small. unfold in64, min64, max64 in *. lia. Qed.

(** ** Time

    A [time.Time] is the number of nanoseconds since the Unix epoch, a
    [time.Duration] a number of nanoseconds. [Sub] saturates to the int64
    range, as the Go documentation says; the zero [time.Time] is the first
    instant of year 1. Readings of the clock are arguments of the
    operations. *)

Definition Nanosecond : Z := 1.
Definition Millisecond : Z := 1000000.
Definition Second : Z := 1000000000.
Definition Minute : Z := 60 * Second.
Definition Hour : Z := 60 * Minute.

Definition zero_time : Z := - 62135596800 * Second.
Definition time_sub (t u : Z) : Z := Z.max min64 (Z.min max64 (t - u)).
Definition time_after (t u : Z) : bool := u <? t.
Definition time_before (t u : Z) : bool := t <? u.
Definition time_unix (t : Z) : Z := t / Second.
(** [time.Unix(sec, 0)]: the seconds are counted from the year 1 in 64 bits. *)
Definition time_of_unix (sec : Z) : Z := (wrap64 (sec + 62135596800) - 62135596800) * Second.

Lemma time_sub_exact t u : in64 (t - u) -> time_sub t u = t - u.
Proof. unfold in64, time_sub. lia. Qed.

Lemma time_sub_gt t u d : d < max64 -> min64 <= d -> (d <? time_sub t u) = (d <? t - u).
Proof. unfold time_sub. intros. apply Bool.eq_iff_eq_true. rewrite !Z.ltb_lt. lia. Qed.

Lemma time_sub_lt t u d : d <= max64 -> min64 < d -> (time_sub t u <? d) = (t - u <? d).
Proof. unfold time_sub. intros. apply Bool.eq_iff_eq_true. rewrite !Z.ltb_lt. lia. Qed.

(** ** Outcomes

    [Returns] is a normal return, [Panics] a run-time panic (an index or a
    slice bound out of range, a division by zero). *)

Inductive outcome (A : Type) : Type :=
| Returns (a : A)
| Panics.
Arguments Returns {A} a.
Arguments Panics {A}.

(** A Go [(T, error)] pair whose two halves are exclusive. *)
Inductive result (E A : Type) : Type :=
| Ok (a : A)
| Err (e : E).
Arguments Ok {E A} a.
Arguments Err {E A} e.

Definition out_bind {A B} (o : outcome A) (f : A -> outcome B) : outcome B :=
  match o with Returns a => f a | Panics => Panics end.

Declare Scope go_scope.
Notation "'let!' x ':=' e 'in' k" := (out_bind e (fun x => k))
  (at level 10, x pattern, e at level 100, k at level 200) : go_scope.
#[global] Open Scope go_scope.

(** A run of foreign code in the process: it returns, panics and leaves behind
    what was done up to then, or meets a fatal error of the runtime, which no
    [recover] catches and which ends the process. *)
Inductive ending (S A : Type) : Type :=
| Returned (a : A)
| Panicked (s : S)
| Died.
Arguments Returned {S A} a.
Arguments Panicked {S A} s.
Arguments Died {S A}.

Definition end_bind {S A B} (o : ending S A) (f : A -> ending S B) : ending S B :=
  match o with Returned a => f a | Panicked s => Panicked s | Died => Died end.
Notation "'let?' x ':=' e 'in' k" := (end_bind e (fun x => k))
  (at level 10, x pattern, e at level 100, k at level 200) : go_scope.

(** First element of a Go slice, [l[0]]: panics on the empty slice. *)
Definition index0 {A} (l : list A) : outcome A :=
  match l with a :: _ => Returns a | [] => Panics end.

(** ** Lists and options *)

(** A Go [len] as an [int]. *)
Definition len {A} (l : list A) : Z := Z.of_nat (length l).

Lemma len_nonneg {A} (l : list A) : 0 <= len l.
Proof. unfold len. lia. Qed.

Lemma len_app {A} (l k : list A) : len (l ++ k) = len l + len k.
Proof. unfold len. rewrite length_app. lia. Qed.

Lemma len_cons {A} (a : A) l : len (a :: l) = 1 + len l.
Proof. unfold len. simpl. lia. Qed.

Lemma len_nil {A} : len (@nil A) = 0.
Proof. reflexivity. Qed.

Lemma len_zero_inv {A} (l : list A) : len l = 0 -> l = [].
Proof. unfold len. destruct l; simpl; [done | lia]. Qed.

(** The number of elements that pass a test. *)
Definition count_of {A} (p : A -> bool) (l : list A) : Z := len (filter (fun a => p a = true) l).

Lemma count_of_app {A} (p : A -> bool) l k : count_of p (l ++ k) = count_of p l + count_of p k.
Proof. unfold count_of. rewrite filter_app. apply len_app. Qed.

Lemma count_of_cons {A} (p : A -> bool) a l :
  count_of p (a :: l) = (if p a then 1 else 0) + count_of p l.
Proof.
  unfold count_of. rewrite filter_cons.
  destruct (p a); [rewrite decide_True by done; apply len_cons|rewrite decide_False by done; lia].
Qed.

Lemma count_of_nil {A} (p : A -> bool) : count_of p [] = 0.
Proof. done. Qed.

Lemma count_of_one {A} (p : A -> bool) a : count_of p [a] = if p a then 1 else 0.
Proof. rewrite count_of_cons, count_of_nil. lia. Qed.

Lemma count_of_le {A} (p : A -> bool) l : 0 <= count_of p l <= len l.
Proof. unfold count_of, len. pose proof (length_filter (fun a => p a = true) l). lia. Qed.

(** The first [Some] of a list of lazily evaluated checks: the shape of every
    [Inspect] method that runs detectors in order. *)
Definition or_else {A} (o : option A) (k : option A) : option A :=
  match o with Some a => Some a | None => k end.
Notation "o '<||>' k" := (or_else o k) (at level 60, right associativity) : go_scope.

Lemma or_else_None {A} (o k : option A) : o <||> k = None <-> o = None /\ k = None.
Proof. destruct o; simpl; naive_solver. Qed.

Lemma or_else_Some {A} (o k : option A) a :
  o <||> k = Some a <-> o = Some a \/ (o = None /\ k = Some a).
Proof. destruct o; simpl; naive_solver. Qed.

(** [for _, a := range l { if b := f(a); b != nil { return b } }] *)
Fixpoint first_some {A B} (f : A -> option B) (l : list A) : option B :=
  match l with [] => None | a :: l => f a <||> first_some f l end.

Lemma first_some_None {A B} (f : A -> option B) l :
  first_some f l = None <-> forall a, a ∈ l -> f a = None.
Proof.
  induction l as [|a l IH]; cbn [first_some].
  - split; [|done]. intros _ x Hx. by apply elem_of_nil in Hx.
  - rewrite or_else_None, IH. setoid_rewrite elem_of_cons. naive_solver.
Qed.

Lemma first_some_Some {A B} (f : A -> option B) l b :
  first_some f l = Some b -> exists a, a ∈ l /\ f a = Some b.
Proof.
  induction l as [|a l IH]; cbn [first_some]; [done|].
  rewrite or_else_Some. setoid_rewrite elem_of_cons. naive_solver.
Qed.

Definition prune (cutoff : Z) (ts : list Z) : list Z := filter (fun t => cutoff < t) ts.

Lemma prune_prune c d ts : c <= d -> prune d (prune c ts) = prune d ts.
Proof.
  intros H. unfold prune. induction ts as [|t ts IH]; [done|].
  rewrite filter_cons. case_decide; rewrite ?filter_cons.
  - rewrite IH. done.
  - rewrite IH. rewrite decide_False by lia. done.
Qed.

Lemma prune_all c ts : Forall (fun t => c < t) ts -> prune c ts = ts.
Proof. unfold prune. induction 1; [done|]. rewrite filter_cons, decide_True by done. congruence. Qed.

Lemma prune_none c ts : Forall (fun t => t <= c) ts -> prune c ts = [].
Proof. unfold prune. induction 1; [done|]. rewrite filter_cons, decide_False by lia. done. Qed.

Lemma prune_app c l k : prune c (l ++ k) = prune c l ++ prune c k.
Proof. apply filter_app. Qed.

Lemma prune_Forall c ts : Forall (fun t => c < t) (prune c ts).
Proof. unfold prune. apply Forall_forall. intros t. rewrite list_elem_of_filter. tauto. Qed.

Lemma prune_Forall_le m c ts : Forall (fun t => t <= m) ts -> Forall (fun t => t <= m) (prune c ts).
Proof.
  rewrite !Forall_forall. intros H t. unfold prune. rewrite list_elem_of_filter.
  intros [_ Ht]. by apply H.
Qed.

Lemma prune_len c ts : len (prune c ts) <= len ts.
Proof.
  unfold len, prune. induction ts as [|t ts IH]; [done|].
  rewrite filter_cons. case_decide; simpl; lia.
Qed.

(** ** Maps: [range] over a Go map

    Go leaves the iteration order of a map unspecified; a component that
    ranges over a map takes the order from an instance of this class. *)

Class MapRange (V : Type) : Type := {
  map_range : gmap string V -> list (string * V);
  map_range_perm : forall m, map_range m ≡ₚ map_to_list m
}.

#[export] Instance map_range_canonical V : MapRange V :=
  {| map_range := map_to_list; map_range_perm := fun m => reflexivity _ |}.

Lemma elem_of_map_range {V} `{MapRange V} (m : gmap string V) k v :
  (k, v) ∈ map_range m <-> m !! k = Some v.
Proof. rewrite map_range_perm. apply elem_of_map_to_list. Qed.

(** [m[k]] on a Go map with a default (zero) value. *)
Definition lookup_default {V} (d : V) (m : gmap string V) (k : string) : V := default d (m !! k).

(** The loops over a slice that stop at the first element of interest: the
    element is changed in place, or cut out; [None] when there is none. *)
Fixpoint update_first {A} (p : A -> bool) (f : A -> A) (l : list A) : option (list A) :=
  match l with
  | [] => None
  | a :: l => if p a then Some (f a :: l) else cons a <$> update_first p f l
  end.
Fixpoint delete_first {A} (p : A -> bool) (l : list A) : option (list A) :=
  match l with
  | [] => None
  | a :: l => if p a then Some l else cons a <$> delete_first p l
  end.

Lemma delete_first_Some {A} p (l l' : list A) :
  delete_first p l = Some l' -> exists k a m, l = (k ++ a :: m)%list /\ l' = (k ++ m)%list /\ p a = true.
Proof.
  revert l'. induction l as [|a l IH]; intros l'; cbn [delete_first]; [done|]. destruct (p a) eqn:Ha.
  - intros [= <-]. by exists [], a, l.
  - intros (r & Hr & ->)%fmap_Some. apply IH in Hr as (k & b & m & -> & -> & Hb). by exists (a :: k), b, m.
Qed.

Lemma update_first_None {A} p (f : A -> A) l : update_first p f l = None <-> Forall (fun a => p a = false) l.
Proof.
  induction l as [|a l IH]; [done|]. cbn [update_first]. rewrite Forall_cons, <- IH.
  destruct (p a); [naive_solver|]. destruct (update_first p f l); naive_solver.
Qed.

Lemma update_first_Some {A} p (f : A -> A) l l' :
  update_first p f l = Some l' <->
  exists k a m, l = (k ++ a :: m)%list /\ l' = (k ++ f a :: m)%list /\ p a = true /\ Forall (fun x => p x = false) k.
Proof.
  revert l'. induction l as [|a l IH]; intros l'; cbn [update_first].
  - split; [done|]. intros (k & b & m & E & _). by destruct k.
  - destruct (p a) eqn:Ha.
    + split.
      * intros [= <-]. by exists [], a, l.
      * intros ([|b k] & c & m & E & -> & Hc & Hk); simplify_list_eq; [done|]. apply Forall_cons in Hk as [Hk _]. congruence.
    + rewrite fmap_Some. split.
      * intros (r & Hr & ->). apply IH in Hr as (k & b & m & -> & -> & Hb & Hk). exists (a :: k), b, m. by rewrite Forall_cons.
      * intros ([|b k] & c & m & E & -> & Hc & Hk); simplify_list_eq; [congruence|].
        apply Forall_cons in Hk as [_ Hk]. eexists. split; [apply IH; eauto 8|done].
Qed.

(** ** Automation *)

Create HintDb go.
Create Rewrite HintDb go.
#[export] Hint Rewrite @len_app @len_cons @len_nil @prune_app @count_of_app @count_of_cons @count_of_nil : go.
#[export] Hint Resolve len_nonneg prune_Forall prune_Forall_le prune_len wrap64_in64 : go.

(** Case analysis on every [match] and [if] of the goal, with the trivial
    branches closed. *)
Ltac go_cases := repeat (case_match; simplify_eq/=; try done).

(** Boolean tests on [Z] turned into propositions. *)
Ltac b2p :=
  repeat match goal with
  | H : (_ <? _) = true |- _ => apply Z.ltb_lt in H
  | H : (_ <? _) = false |- _ => apply Z.ltb_ge in H
  | H : (_ <=? _) = true |- _ => apply Z.leb_le in H
  | H : (_ <=? _) = false |- _ => apply Z.leb_gt in H
  | H : (_ =? _) = true |- _ => apply Z.eqb_eq in H
  | H : (_ =? _) = false |- _ => apply Z.eqb_neq in H
  | H : (_ >? _) = _ |- _ => rewrite Z.gtb_ltb in H
  | H : (_ >=? _) = _ |- _ => rewrite Z.geb_leb in H
  | H : _ && _ = true |- _ => apply andb_true_iff in H as [? ?]
  | H : _ || _ = false |- _ => apply orb_false_iff in H as [? ?]
  | H : negb _ = true |- _ => apply negb_true_iff in H
  | H : negb _ = false |- _ => apply negb_false_iff in H
  end.
