(* ===== verification/Float64.v ===== *)
(** * IEEE 754 binary64, Go's [float64]

    The scores and confidences of the engine are [float64]. They are modelled
    by [SpecFloat], the Standard Library's executable specification of IEEE
    754 arithmetic on [Z], with 53 bits of precision and exponents below
    1024: no rounding is idealised. This file has the operations the source
    uses and the order lemmas the components share. *)

From S2P Require Import Prelude.
From Stdlib Require Import SpecFloat.

Abbreviation f64 := spec_float.
Definition f64_prec : Z := 53.
Definition f64_emax : Z := 1024.

Definition fadd (x y : f64) : f64 := SFadd f64_prec f64_emax x y.
Definition fsub (x y : f64) : f64 := SFsub f64_prec f64_emax x y.
Definition fmul (x y : f64) : f64 := SFmul f64_prec f64_emax x y.
Definition fdiv (x y : f64) : f64 := SFdiv f64_prec f64_emax x y.
Definition flt (x y : f64) : bool := SFltb x y.
Definition fle (x y : f64) : bool := SFleb x y.
Definition feq (x y : f64) : bool := SFeqb x y.
Definition fgt (x y : f64) : bool := flt y x.
Definition fge (x y : f64) : bool := fle y x.

(** [float64(z)] for an integer, rounded to nearest even. *)
Definition of_int (z : Z) : f64 := binary_normalize f64_prec f64_emax z 0 false.

(** A decimal constant [n / d], as the compiler rounds it. For [0 <= n < 2^53]
    and [0 < d < 2^53] the one division rounds the exact quotient. *)
Definition of_frac (n d : Z) : f64 := fdiv (of_int n) (of_int d).

(** The float64 nearest to [n / d] for [0 <= n] and [0 < d] of any size: the
    quotient is taken to at least 64 bits and its last bit is set when
    something was cut, which leaves one correct rounding. *)
Definition of_ratio (n d : Z) : f64 :=
  if n =? 0 then S754_zero false
  else let k := Z.max 0 (65 + Z.log2 d - Z.log2 n) in
       let a := Z.shiftl n k in
       binary_normalize f64_prec f64_emax (2 * (a / d) + (if a mod d =? 0 then 0 else 1)) (- k - 1) false.

Definition f0 : f64 := S754_zero false.

(** [int(x)]: truncation towards zero. Go leaves a result out of range to the
    implementation; amd64 gives the most negative integer. *)
Definition to_int (x : f64) : Z :=
  match x with
  | S754_finite s m e =>
      let a := if e <? 0 then Z.shiftr (Z.pos m) (- e) else Z.shiftl (Z.pos m) e in
      let z := if s then - a else a in
      if (min64 <=? z) && (z <=? max64) then z else min64
  | S754_zero _ => 0
  | _ => min64
  end.

Definition is_nan (x : f64) : bool := match x with S754_nan => true | _ => false end.
Definition f_sign (x : f64) : bool :=
  match x with S754_zero s | S754_infinity s | S754_finite s _ _ => s | S754_nan => false end.

(** [math.Max] and [math.Min], with Go's special cases in Go's order. *)
Definition fmax (x y : f64) : f64 :=
  match x, y with
  | S754_infinity false, _ | _, S754_infinity false => S754_infinity false
  | S754_nan, _ | _, S754_nan => S754_nan
  | S754_zero sx, S754_zero _ => if sx then y else x
  | _, _ => if fgt x y then x else y
  end.

Definition fmin (x y : f64) : f64 :=
  match x, y with
  | S754_infinity true, _ | _, S754_infinity true => S754_infinity true
  | S754_nan, _ | _, S754_nan => S754_nan
  | S754_zero sx, S754_zero _ => if sx then x else y
  | _, _ => if flt x y then x else y
  end.

(** [math.Sqrt]. *)
Definition fsqrt (x : f64) : f64 := SFsqrt f64_prec f64_emax x.

(** [Duration.Seconds()]: the whole seconds and the fraction are converted
    apart. *)
Definition Seconds (d : Z) : f64 :=
  fadd (of_int (Z.quot d Second)) (fdiv (of_int (Z.rem d Second)) (of_int Second)).

(** [math.Round]: half away from zero. *)
Definition fround (x : f64) : f64 :=
  match x with
  | S754_finite s m e =>
      if e <? 0 then
        let a := Z.shiftr (2 * Z.pos m + Z.shiftl 1 (- e)) (- e + 1) in
        match a with
        | 0 => S754_zero s
        | _ => if s then SFopp (of_int a) else of_int a
        end
      else x
  | _ => x
  end.

(** ** The order

    [fle] and [flt] are total on numbers and false on NaN. *)

Lemma fgt_flt x y : fgt x y = flt y x.
Proof. done. Qed.

Lemma fge_fle x y : fge x y = fle y x.
Proof. done. Qed.

Lemma SFcompare_antisym x y :
  SFcompare y x = option_map CompOpp (SFcompare x y).
Proof.
  destruct x as [[]|[]| |[] m e], y as [[]|[]| |[] m' e']; try done; simpl;
    rewrite (Z.compare_antisym e e'); destruct (e ?= e')%Z eqn:E; simpl; try done;
    change (Pos.compare_cont Eq m' m) with (m' ?= m)%positive;
    change (Pos.compare_cont Eq m m') with (m ?= m')%positive;
    rewrite (Pos.compare_antisym m m'); by destruct (m ?= m')%positive.
Qed.

Lemma flt_not_fle x y : flt x y = true -> fle y x = false.
Proof.
  unfold flt, fle, SFltb, SFleb. rewrite (SFcompare_antisym x y).
  by destruct (SFcompare x y) as [[]|].
Qed.

Lemma fle_not_flt x y : fle x y = true -> flt y x = false.
Proof.
  unfold flt, fle, SFltb, SFleb. rewrite (SFcompare_antisym x y).
  by destruct (SFcompare x y) as [[]|].
Qed.

Lemma flt_fle x y : flt x y = true -> fle x y = true.
Proof. unfold flt, fle, SFltb, SFleb. by destruct (SFcompare x y) as [[]|]. Qed.

Lemma SFcompare_refl x : is_nan x = false -> SFcompare x x = Some Eq.
Proof.
  destruct x as [[]|[]| |[] m e]; try done; simpl; rewrite Z.compare_refl;
    change (Pos.compare_cont Eq m m) with (m ?= m)%positive; by rewrite Pos.compare_refl.
Qed.

Lemma fle_refl x : is_nan x = false -> fle x x = true.
Proof. intros H. unfold fle, SFleb. by rewrite SFcompare_refl. Qed.

(** Numbers are totally ordered. *)
Lemma fle_total x y : is_nan x = false -> is_nan y = false -> flt x y = false -> fle y x = true.
Proof.
  unfold flt, fle, SFltb, SFleb. rewrite (SFcompare_antisym x y).
  destruct x as [[]|[]| |[] m e], y as [[]|[]| |[] m' e']; try done; simpl;
    destruct (e ?= e')%Z; simpl; try done; by destruct (Pos.compare_cont Eq m m').
Qed.

(** The order on finite numbers of the same sign is lexicographic on exponent
    and mantissa; the constants below are compared by it. *)
Lemma fmin_le_l x y : is_nan x = false -> is_nan y = false -> fle (fmin x y) x = true.
Proof.
  intros Hx Hy. assert (fle x x = true) as Hr by by apply fle_refl.
  destruct (flt x y) eqn:E; [|apply fle_total in E; [|done..]];
    destruct x as [[]|[]| |sx m e], y as [[]|[]| |sy m' e']; try done; simpl; unfold fmin;
    rewrite ?E; try done; destruct (flt _ _); done.
Qed.

Lemma is_nan_fmin x y : is_nan x = false -> is_nan y = false -> is_nan (fmin x y) = false.
Proof.
  destruct x as [[]|[]| |sx m e], y as [[]|[]| |sy m' e']; try done; simpl; intros _ _;
    unfold fmin; by destruct (flt _ _).
Qed.

(** ** Integers are exact

    Every integer below 2^53 in absolute value has one canonical
    representation, and addition, subtraction and comparison of such floats
    are those of the integers: the scores of the engine, whole numbers, are
    accumulated without rounding. *)

Definition exact_int (z : Z) : Prop := - 2 ^ 53 < z < 2 ^ 53.

Lemma digits2_log2 p : Z.pos (digits2_pos p) = Z.log2 (Z.pos p) + 1.
Proof.
  induction p as [p IH|p IH|]; simpl digits2_pos; [..|done].
  - rewrite Pos2Z.inj_succ, IH, (Pos2Z.inj_xI p), Z.log2_succ_double by lia. lia.
  - rewrite Pos2Z.inj_succ, IH, (Pos2Z.inj_xO p), Z.log2_double by lia. lia.
Qed.

Lemma shift_pos_mul d m : Z.pos (Pos.iter xO m d) = Z.pos m * 2 ^ Z.pos d.
Proof.
  revert m. induction d as [|d IH] using Pos.peano_ind; intros m; [simpl; lia|].
  rewrite Pos.iter_succ, Pos2Z.inj_xO, IH, Pos2Z.inj_succ, Z.pow_succ_r by lia. lia.
Qed.

Lemma shr_1_double m : 0 <= m ->
  shr_1 (Build_shr_record (m * 2) false false) = Build_shr_record m false false.
Proof. rewrite Z.mul_comm. by destruct m. Qed.

Lemma shr_exact n m : 0 <= m ->
  iter_pos shr_1 n (Build_shr_record (m * 2 ^ Z.pos n) false false) = Build_shr_record m false false.
Proof.
  revert m. induction n as [n IH|n IH|]; intros m Hm.
  - cbn [iter_pos]. rewrite (Pos2Z.inj_xI n), Z.pow_add_r, Z.pow_1_r, Z.mul_assoc, shr_1_double by lia.
    replace (2 * Z.pos n) with (Z.pos n + Z.pos n) by lia.
    rewrite Z.pow_add_r, Z.mul_assoc, !IH by lia. done.
  - cbn [iter_pos]. rewrite (Pos2Z.inj_xO n). replace (2 * Z.pos n) with (Z.pos n + Z.pos n) by lia.
    rewrite Z.pow_add_r, Z.mul_assoc, !IH by lia. done.
  - apply shr_1_double. done.
Qed.

(** The canonical float of sign [s] and magnitude [v < 2^53]. *)
Definition canon (s : bool) (v : positive) : f64 :=
  let d := Z.log2 (Z.pos v) + 1 in
  S754_finite s (Z.to_pos (Z.pos v * 2 ^ (53 - d))) (d - 53).

Lemma round_canonical s m e :
  Z.log2 (Z.pos m) = 52 -> -1074 <= e <= 971 ->
  binary_round_aux f64_prec f64_emax s (Z.pos m) e loc_Exact = S754_finite s m e.
Proof.
  intros Hm He. assert (fexp f64_prec f64_emax (Z.pos (digits2_pos m) + e) - e = 0) as H0.
  { rewrite digits2_log2, Hm. unfold fexp, emin, f64_prec, f64_emax. lia. }
  unfold binary_round_aux, shr_fexp, shr_record_of_loc, shr. cbn [Zdigits2].
  rewrite H0. cbn [shr_m loc_of_shr_record round_nearest_even Zdigits2].
  rewrite H0. cbn [shr_m]. by rewrite (proj2 (Z.leb_le e _)) by (unfold f64_prec, f64_emax; lia).
Qed.

Lemma round_shifted s m n e :
  Z.log2 (Z.pos m) = 52 -> -1074 <= e <= 971 -> 0 <= n ->
  binary_round_aux f64_prec f64_emax s (Z.pos m * 2 ^ n) (e - n) loc_Exact = S754_finite s m e.
Proof.
  intros Hm He Hn. destruct n as [|n|]; [|..|lia].
  - rewrite Z.pow_0_r, Z.mul_1_r, Z.sub_0_r. by apply round_canonical.
  - assert (0 < Z.pos m * 2 ^ Z.pos n) as Hpos by (apply Z.mul_pos_pos; lia).
    destruct (Z.pos m * 2 ^ Z.pos n) as [|q|] eqn:Eq; [lia| |lia].
    assert (fexp f64_prec f64_emax (Z.pos (digits2_pos q) + (e - Z.pos n)) - (e - Z.pos n)
            = Z.pos n) as H0.
    { rewrite digits2_log2, <- Eq, Z.log2_mul_pow2, Hm by lia.
      unfold fexp, emin, f64_prec, f64_emax. lia. }
    pose proof (round_canonical s m e Hm He) as Hc.
    unfold binary_round_aux, shr_fexp at 1, shr_record_of_loc at 1. cbn [Zdigits2].
    rewrite H0. unfold shr at 1. rewrite <- Eq, shr_exact by lia.
    cbn [shr_m loc_of_shr_record round_nearest_even].
    replace (e - Z.pos n + Z.pos n) with e by lia.
    unfold binary_round_aux in Hc. unfold shr_fexp in Hc at 1.
    assert (fexp f64_prec f64_emax (Zdigits2 (Z.pos m) + e) - e = 0) as H1.
    { cbn [Zdigits2]. rewrite digits2_log2, Hm. unfold fexp, emin, f64_prec, f64_emax. lia. }
    rewrite H1 in Hc. cbn [shr shr_record_of_loc shr_m loc_of_shr_record round_nearest_even] in Hc.
    exact Hc.
Qed.

Lemma log2_canon v : Z.log2 (Z.pos v) <= 52 ->
  let M := Z.to_pos (Z.pos v * 2 ^ (53 - (Z.log2 (Z.pos v) + 1))) in
  Z.pos M = Z.pos v * 2 ^ (53 - (Z.log2 (Z.pos v) + 1)) /\ Z.log2 (Z.pos M) = 52.
Proof.
  intros Hd M. assert (0 < 2 ^ (53 - (Z.log2 (Z.pos v) + 1))) by (apply Z.pow_pos_nonneg; lia).
  assert (Z.pos M = Z.pos v * 2 ^ (53 - (Z.log2 (Z.pos v) + 1))) as HM
    by (unfold M; rewrite Z2Pos.id; lia).
  split; [done|]. rewrite HM, Z.log2_mul_pow2 by lia. lia.
Qed.

(** Rounding a multiple of a power of two back to the integer it stands for. *)
Lemma binary_round_exact s v k :
  Z.log2 (Z.pos v) <= 52 -> 0 <= k ->
  binary_round f64_prec f64_emax s (Z.to_pos (Z.pos v * 2 ^ k)) (- k) = canon s v.
Proof.
  intros Hd Hk. pose proof (Z.log2_nonneg (Z.pos v)) as Hd0.
  destruct (log2_canon v Hd) as [HM HlM]. unfold canon.
  set (M := Z.to_pos (Z.pos v * 2 ^ (53 - (Z.log2 (Z.pos v) + 1)))) in *.
  set (d := Z.log2 (Z.pos v) + 1) in *.
  assert (0 < 2 ^ k) by (apply Z.pow_pos_nonneg; lia).
  set (p := Z.to_pos (Z.pos v * 2 ^ k)).
  assert (Z.pos p = Z.pos v * 2 ^ k) as Hp by (unfold p; rewrite Z2Pos.id; lia).
  assert (fexp f64_prec f64_emax (Z.pos (digits2_pos p) + - k) = d - 53) as Hf.
  { rewrite digits2_log2, Hp, Z.log2_mul_pow2 by lia.
    unfold fexp, emin, f64_prec, f64_emax. lia. }
  unfold binary_round. rewrite Hf. unfold shl_align.
  replace (d - 53 - - k) with (k - (53 - d)) by lia.
  destruct (k - (53 - d)) as [|n|n] eqn:En.
  - replace (Z.pos p) with (Z.pos M * 2 ^ 0) by (rewrite Hp, HM, Z.mul_1_r; do 2 f_equal; lia).
    replace (- k) with (d - 53 - 0) by lia. apply round_shifted; lia.
  - replace (Z.pos p) with (Z.pos M * 2 ^ Z.pos n)
      by (rewrite Hp, HM, <- Z.mul_assoc, <- Z.pow_add_r by lia; do 2 f_equal; lia).
    replace (- k) with (d - 53 - Z.pos n) by lia. apply round_shifted; lia.
  - assert (Pos.iter xO p n = M) as ->.
    { apply Pos2Z.inj. rewrite shift_pos_mul, Hp, HM, <- Z.mul_assoc, <- Z.pow_add_r by lia.
      do 2 f_equal; lia. }
    apply round_canonical; lia.
Qed.

Lemma normalize_exact z k sz :
  exact_int z -> 0 <= k ->
  binary_normalize f64_prec f64_emax (z * 2 ^ k) (- k) sz =
    match z with 0 => S754_zero sz | Z.pos v => canon false v | Z.neg v => canon true v end.
Proof.
  unfold exact_int. intros Hz Hk. assert (0 < 2 ^ k) by (apply Z.pow_pos_nonneg; lia).
  assert (forall v, Z.pos v < 2 ^ 53 -> Z.log2 (Z.pos v) <= 52) as Hlog.
  { intros v Hv. apply Z.lt_succ_r, Z.log2_lt_pow2; lia. }
  unfold binary_normalize. destruct z as [|v|v]; [done|..].
  - rewrite <- (binary_round_exact false v k) by (apply Hlog || lia; lia).
    destruct (Z.pos v * 2 ^ k) eqn:E; [lia|done|lia].
  - rewrite <- (binary_round_exact true v k) by (apply Hlog || lia; lia).
    destruct (Z.neg v * 2 ^ k) as [|q|q] eqn:E; [lia|lia|].
    replace (Z.pos v * 2 ^ k) with (Z.pos q) by lia. done.
Qed.

Lemma of_int_canon z : exact_int z ->
  of_int z = match z with 0 => f0 | Z.pos v => canon false v | Z.neg v => canon true v end.
Proof.
  intros Hz. unfold of_int. pose proof (normalize_exact z 0 false Hz ltac:(lia)) as H.
  rewrite Z.pow_0_r, Z.mul_1_r in H. exact H.
Qed.

(** The mantissa of a canonical float, aligned to a smaller exponent. *)
Lemma align_canon v ez :
  Z.log2 (Z.pos v) <= 52 -> ez <= Z.log2 (Z.pos v) + 1 - 53 ->
  let '(m, e) := (Z.to_pos (Z.pos v * 2 ^ (53 - (Z.log2 (Z.pos v) + 1))), Z.log2 (Z.pos v) + 1 - 53) in
  Z.pos (fst (shl_align m e ez)) = Z.pos v * 2 ^ (- ez).
Proof.
  intros Hd He. destruct (log2_canon v Hd) as [HM _]. unfold shl_align.
  set (d := Z.log2 (Z.pos v) + 1) in *.
  destruct (ez - (d - 53)) as [|n|n] eqn:E; simpl fst; [|lia|].
  - rewrite HM. do 2 f_equal. lia.
  - rewrite shift_pos_mul, HM, <- Z.mul_assoc, <- Z.pow_add_r by lia. do 2 f_equal. lia.
Qed.

Lemma log2_exact v : Z.pos v < 2 ^ 53 -> 0 <= Z.log2 (Z.pos v) <= 52.
Proof. intros Hv. split; [apply Z.log2_nonneg|]. apply Z.lt_succ_r, Z.log2_lt_pow2; lia. Qed.

Ltac exact_sum va vb :=
  let Ha := fresh in let Hb := fresh in
  pose proof (log2_exact va ltac:(lia)) as Ha; pose proof (log2_exact vb ltac:(lia)) as Hb;
  unfold canon; cbn [fadd fsub SFadd SFsub cond_Zopp];
  set (ez := Z.min (Z.log2 (Z.pos va) + 1 - 53) (Z.log2 (Z.pos vb) + 1 - 53));
  pose proof (align_canon va ez ltac:(lia) ltac:(lia)) as ->;
  pose proof (align_canon vb ez ltac:(lia) ltac:(lia)) as ->.

Lemma of_int_fadd a b :
  exact_int a -> exact_int b -> exact_int (a + b) -> fadd (of_int a) (of_int b) = of_int (a + b).
Proof.
  intros Ha Hb Hab. rewrite (of_int_canon a Ha), (of_int_canon b Hb), (of_int_canon _ Hab).
  destruct a as [|va|va]; [by destruct b|..];
    (destruct b as [|vb|vb]; [by rewrite Z.add_0_r|..]); unfold exact_int in *; unfold fadd;
    exact_sum va vb; (eapply eq_trans; [|eapply (normalize_exact _ (- ez) false Hab); lia]);
    f_equal; lia.
Qed.

Lemma of_int_fsub a b :
  exact_int a -> exact_int b -> exact_int (a - b) -> fsub (of_int a) (of_int b) = of_int (a - b).
Proof.
  intros Ha Hb Hab. rewrite (of_int_canon a Ha), (of_int_canon b Hb), (of_int_canon _ Hab).
  destruct a as [|va|va]; [by destruct b|..];
    (destruct b as [|vb|vb]; [by rewrite Z.sub_0_r|..]); unfold exact_int in *; unfold fsub;
    exact_sum va vb; (eapply eq_trans; [|eapply (normalize_exact _ (- ez) false Hab); lia]);
    f_equal; lia.
Qed.

Lemma canon_compare s v w :
  Z.pos v < 2 ^ 53 -> Z.pos w < 2 ^ 53 ->
  SFcompare (canon s v) (canon s w)
  = Some (if s then CompOpp (Z.pos v ?= Z.pos w) else (Z.pos v ?= Z.pos w)).
Proof.
  intros Hv Hw. pose proof (log2_exact v Hv). pose proof (log2_exact w Hw).
  destruct (log2_canon v) as [HMv _]; [lia|]. destruct (log2_canon w) as [HMw _]; [lia|].
  unfold canon, SFcompare.
  set (M := Z.to_pos (Z.pos v * _)) in *. set (N := Z.to_pos (Z.pos w * _)) in *.
  assert (forall c, Pos.compare_cont Eq M N = c -> (Z.pos M ?= Z.pos N) = c) as Hc by done.
  destruct (Z.compare_spec (Z.log2 (Z.pos v) + 1 - 53) (Z.log2 (Z.pos w) + 1 - 53)) as [E|E|E].
  - assert ((Z.pos v ?= Z.pos w) = Pos.compare_cont Eq M N) as ->; [|by destruct s].
    change (Pos.compare_cont Eq M N) with (Z.pos M ?= Z.pos N). rewrite HMv, HMw.
    replace (Z.log2 (Z.pos w)) with (Z.log2 (Z.pos v)) by lia.
    apply Zmult_compare_compat_r. apply Z.lt_gt, Z.pow_pos_nonneg; lia.
  - assert (Z.pos v < Z.pos w) as Hlt by (apply Z.log2_lt_cancel; lia).
    rewrite (proj2 (Z.compare_lt_iff _ _) Hlt). by destruct s.
  - assert (Z.pos w < Z.pos v) as Hlt by (apply Z.log2_lt_cancel; lia).
    rewrite (proj2 (Z.compare_gt_iff _ _) Hlt). by destruct s.
Qed.

Lemma of_int_compare a b : exact_int a -> exact_int b ->
  SFcompare (of_int a) (of_int b) = Some (a ?= b).
Proof.
  intros Ha Hb. rewrite (of_int_canon a Ha), (of_int_canon b Hb). unfold exact_int in *.
  destruct a as [|v|v], b as [|w|w]; try done.
  - apply canon_compare; lia.
  - rewrite canon_compare by lia. done.
Qed.

Lemma of_int_fle a b : exact_int a -> exact_int b -> fle (of_int a) (of_int b) = (a <=? b).
Proof. intros Ha Hb. unfold fle, SFleb, Z.leb. by rewrite of_int_compare by done; destruct (a ?= b). Qed.

Lemma of_int_flt a b : exact_int a -> exact_int b -> flt (of_int a) (of_int b) = (a <? b).
Proof. intros Ha Hb. unfold flt, SFltb, Z.ltb. by rewrite of_int_compare by done; destruct (a ?= b). Qed.

Lemma of_int_not_nan a : exact_int a -> is_nan (of_int a) = false.
Proof. intros Ha. rewrite of_int_canon by done. by destruct a. Qed.

#[export] Hint Resolve fle_refl flt_fle is_nan_fmin of_int_not_nan : go.

Example of_frac_085 : of_frac 85 100 = S754_finite false 7656119366529843 (-53).
Proof. by vm_compute. Qed.

Example to_int_95 : to_int (of_int 95) = 95.
Proof. by vm_compute. Qed.

Example fround_half : fround (of_frac 5 2) = of_int 3.
Proof. by vm_compute. Qed.
