(* ===== verification/GoStr.v ===== *)
(** * Go strings and the [strings] package

    A Go [string] (and a [[]byte] that is only read) is a byte sequence: the
    model uses [string], whose characters are bytes. This file defines the
    functions of [strings], [unicode/utf8] and [net/textproto] that the
    source calls, on bytes, and their lemmas. The Unicode case tables are an
    instance of the class [Unicode]; ASCII is built in, as in Go. *)

From S2P Require Import Prelude.

#[local] Open Scope string_scope.
#[local] Open Scope Z_scope.

(** ** Bytes *)

Definition byte_of (c : ascii) : Z := Z.of_N (N_of_ascii c).
Definition chr (b : Z) : ascii := ascii_of_N (Z.to_N (b mod 256)).
Fixpoint bytes_of (s : string) : list Z :=
  match s with "" => [] | String c s' => byte_of c :: bytes_of s' end.
Fixpoint of_bytes (l : list Z) : string :=
  match l with [] => "" | b :: l' => String (chr b) (of_bytes l') end.

(** [len(s)] of a Go string. *)
Definition slen (s : string) : Z := Z.of_nat (String.length s).

Definition is_digit (c : ascii) : bool := (48 <=? byte_of c) && (byte_of c <=? 57).
Definition is_upper (c : ascii) : bool := (65 <=? byte_of c) && (byte_of c <=? 90).
Definition is_lower (c : ascii) : bool := (97 <=? byte_of c) && (byte_of c <=? 122).
Definition ascii_lower (c : ascii) : ascii := if is_upper c then chr (byte_of c + 32) else c.
Definition ascii_upper (c : ascii) : ascii := if is_lower c then chr (byte_of c - 32) else c.

Fixpoint smap (f : ascii -> ascii) (s : string) : string :=
  match s with "" => "" | String c s' => String (f c) (smap f s') end.
Fixpoint sall (f : ascii -> bool) (s : string) : bool :=
  match s with "" => true | String c s' => f c && sall f s' end.
Definition is_ascii (s : string) : bool := sall (fun c => byte_of c <? 128) s.

(** ** Searching *)

Definition HasPrefix (s p : string) : bool := String.prefix p s.

Fixpoint Contains (s sub : string) : bool :=
  String.prefix sub s || match s with "" => false | String _ s' => Contains s' sub end.

(** [strings.Index]: [None] for -1. *)
Fixpoint Index (s sub : string) : option nat :=
  if String.prefix sub s then Some 0%nat
  else match s with "" => None | String _ s' => S <$> Index s' sub end.

Fixpoint drop_str (n : nat) (s : string) : string :=
  match n, s with O, _ => s | S n', String _ s' => drop_str n' s' | S _, "" => "" end.
Fixpoint take_str (n : nat) (s : string) : string :=
  match n, s with S n', String c s' => String c (take_str n' s') | _, _ => "" end.

Definition HasSuffix (s p : string) : bool :=
  (String.length p <=? String.length s)%nat
  && String.eqb (drop_str (String.length s - String.length p) s) p.

Definition TrimPrefix (s p : string) : string := if HasPrefix s p then drop_str (String.length p) s else s.
Definition TrimSuffix (s p : string) : string :=
  if HasSuffix s p then take_str (String.length s - String.length p) s else s.

(** [strings.Count], [ReplaceAll] and [Split] for a non-empty separator: the
    number of bytes still to skip of the occurrence found last is [skip]. *)
Fixpoint count_from (skip : nat) (s sub : string) : Z :=
  match s with
  | "" => 0
  | String _ s' =>
      match skip with
      | S k => count_from k s' sub
      | O => if String.prefix sub s then 1 + count_from (String.length sub - 1) s' sub
             else count_from 0 s' sub
      end
  end.
Definition Count (s sub : string) : Z := count_from 0 s sub.

Fixpoint replace_from (skip : nat) (s old new : string) : string :=
  match s with
  | "" => ""
  | String c s' =>
      match skip with
      | S k => replace_from k s' old new
      | O => if String.prefix old s
             then new ++ replace_from (String.length old - 1) s' old new
             else String c (replace_from 0 s' old new)
      end
  end.
Definition ReplaceAll (s old new : string) : string := replace_from 0 s old new.

(** The pieces before each occurrence; [acc] is the current piece, reversed. *)
Fixpoint split_from (skip : nat) (n : option nat) (acc : string) (s sep : string) : list string :=
  match s with
  | "" => [String.rev acc]
  | String c s' =>
      match skip with
      | S k => split_from k n acc s' sep
      | O =>
          if String.prefix sep s && match n with Some O => false | _ => true end
          then String.rev acc :: split_from (String.length sep - 1) (pred <$> n) "" s' sep
          else split_from 0 n (String c acc) s' sep
      end
  end.
Definition Split (s sep : string) : list string := split_from 0 None "" s sep.
(** [SplitN(s, sep, n)] for [n > 0]: at most [n - 1] cuts. *)
Definition SplitN (s sep : string) (n : nat) : list string := split_from 0 (Some (pred n)) "" s sep.

(** ** UTF-8 *)

Definition RuneError : Z := 65533.
Definition cont (b : Z) : bool := (128 <=? b) && (b <=? 191).

(** [utf8.DecodeRune]: the rune and its width; an invalid byte is
    [RuneError] of width 1. *)
Definition decode_rune (l : list Z) : Z * nat :=
  match l with
  | [] => (RuneError, 0%nat)
  | b0 :: t =>
      if b0 <? 128 then (b0, 1%nat)
      else
        match t with
        | b1 :: t1 =>
            if (194 <=? b0) && (b0 <=? 223) && cont b1
            then (Z.land b0 31 * 64 + Z.land b1 63, 2%nat)
            else
              match t1 with
              | b2 :: t2 =>
                  let lo := if b0 =? 224 then 160 else 128 in
                  let hi := if b0 =? 237 then 159 else 191 in
                  if (224 <=? b0) && (b0 <=? 239) && (lo <=? b1) && (b1 <=? hi) && cont b2
                  then (Z.land b0 15 * 4096 + Z.land b1 63 * 64 + Z.land b2 63, 3%nat)
                  else
                    match t2 with
                    | b3 :: _ =>
                        let lo := if b0 =? 240 then 144 else 128 in
                        let hi := if b0 =? 244 then 143 else 191 in
                        if (240 <=? b0) && (b0 <=? 244) && (lo <=? b1) && (b1 <=? hi)
                           && cont b2 && cont b3
                        then (Z.land b0 7 * 262144 + Z.land b1 63 * 4096
                              + Z.land b2 63 * 64 + Z.land b3 63, 4%nat)
                        else (RuneError, 1%nat)
                    | [] => (RuneError, 1%nat)
                    end
              | [] => (RuneError, 1%nat)
              end
        | [] => (RuneError, 1%nat)
        end
  end.

(** [utf8.AppendRune]. *)
Definition encode_rune (r : Z) : list Z :=
  if (0 <=? r) && (r <? 128) then [r]
  else if (128 <=? r) && (r <? 2048) then [192 + r / 64; 128 + r mod 64]
  else if (2048 <=? r) && (r <? 65536) && negb ((55296 <=? r) && (r <=? 57343))
  then [224 + r / 4096; 128 + (r / 64) mod 64; 128 + r mod 64]
  else if (65536 <=? r) && (r <? 1114112)
  then [240 + r / 262144; 128 + (r / 4096) mod 64; 128 + (r / 64) mod 64; 128 + r mod 64]
  else [239; 191; 189].

(** The runes of [for _, r := range s], with the bytes each was read from.
    [skip] counts the bytes of the current rune still to pass. *)
Fixpoint runes_from (skip : nat) (l : list Z) : list (Z * list Z) :=
  match l with
  | [] => []
  | b :: t =>
      match skip with
      | S k => runes_from k t
      | O => let '(r, w) := decode_rune l in (r, take w l) :: runes_from (pred w) t
      end
  end.
Definition rune_segments (s : string) : list (Z * list Z) := runes_from 0 (bytes_of s).
Definition runes_of (s : string) : list Z := (rune_segments s).*1.

(** [utf8.ValidString]. *)
Definition ValidString (s : string) : bool :=
  forallb (fun p => negb ((fst p =? RuneError) && (length (snd p) =? 1)%nat)) (rune_segments s).

(** ** Case *)

Class Unicode : Type := {
  rune_lower : Z -> Z;
  rune_upper : Z -> Z;
  (** a representative of the rune's case-folding orbit ([unicode.SimpleFold]) *)
  rune_fold : Z -> Z
}.

Definition map_runes (f : Z -> Z) (s : string) : string :=
  of_bytes (flat_map (fun r => encode_rune (f r)) (runes_of s)).

Definition ToLower `{Unicode} (s : string) : string :=
  if is_ascii s then smap ascii_lower s else map_runes rune_lower s.
Definition ToUpper `{Unicode} (s : string) : string :=
  if is_ascii s then smap ascii_upper s else map_runes rune_upper s.

(** [strings.EqualFold]. *)
Definition EqualFold `{Unicode} (s t : string) : bool :=
  bool_decide (rune_fold <$> runes_of s = rune_fold <$> runes_of t).

(** An instance for examples: no case outside ASCII. *)
Definition ascii_rune_lower (r : Z) : Z := if (65 <=? r) && (r <=? 90) then r + 32 else r.
Definition ascii_rune_upper (r : Z) : Z := if (97 <=? r) && (r <=? 122) then r - 32 else r.
Definition unicode_ascii : Unicode :=
  {| rune_lower := ascii_rune_lower; rune_upper := ascii_rune_upper; rune_fold := ascii_rune_lower |}.

(** ** White space: [unicode.IsSpace] and [strings.TrimSpace] *)

Definition is_space (r : Z) : bool :=
  (9 <=? r) && (r <=? 13) || (r =? 32) || (r =? 133) || (r =? 160) || (r =? 5760)
  || (8192 <=? r) && (r <=? 8202) || (r =? 8232) || (r =? 8233) || (r =? 8239)
  || (r =? 8287) || (r =? 12288).

Fixpoint drop_while {A} (f : A -> bool) (l : list A) : list A :=
  match l with [] => [] | a :: t => if f a then drop_while f t else l end.

Definition trim_segments (f : Z -> bool) (l : list (Z * list Z)) : list (Z * list Z) :=
  reverse (drop_while (fun p => f (fst p)) (reverse (drop_while (fun p => f (fst p)) l))).
Definition TrimSpace (s : string) : string :=
  of_bytes (flat_map snd (trim_segments is_space (rune_segments s))).

(** ** Decimal numbers *)

Fixpoint digits_val (acc : Z) (s : string) : Z :=
  match s with "" => acc | String c s' => digits_val (acc * 10 + (byte_of c - 48)) s' end.

(** [strconv.ParseInt(s, 10, 64)] and [strconv.Atoi]: an optional sign and at
    least one decimal digit, in the range of an int64; [None] is an error. *)
Definition ParseInt (s : string) : option Z :=
  let '(neg, d) := match s with
                   | String "+" d => (false, d)
                   | String "-" d => (true, d)
                   | _ => (false, s)
                   end in
  match d with
  | "" => None
  | _ => if sall is_digit d then
           let v := if neg then - digits_val 0 d else digits_val 0 d in
           if (min64 <=? v) && (v <=? max64) then Some v else None
         else None
  end.

(** [fmt.Sscanf(s, "%d", &x)] into an int64: the value stored, 0 when the scan
    fails. Spaces before the number are skipped (a newline fails), a sign and
    the longest run of digits are read, and what follows is ignored. *)
Fixpoint digit_prefix (l : list Z) : list Z :=
  match l with
  | b :: t => if (48 <=? b) && (b <=? 57) then b :: digit_prefix t else []
  | [] => []
  end.
Fixpoint skip_spaces (l : list Z) : option (list Z) :=
  match l with
  | 13 :: 10 :: _ => None
  | 10 :: _ => None
  | r :: t => if is_space r then skip_spaces t else Some l
  | [] => Some []
  end.
Definition Sscanf_d (s : string) : Z :=
  match skip_spaces (runes_of s) with
  | None => 0
  | Some l =>
      let '(sign, t) := match l with
                        | 43 :: t => ([43], t)
                        | 45 :: t => ([45], t)
                        | _ => ([], l)
                        end in
      default 0 (ParseInt (of_bytes (sign ++ digit_prefix t)%list))
  end.

Example scan_length : Sscanf_d " 2097152;x" = 2097152.
Proof. reflexivity. Qed.
Example scan_overflow : Sscanf_d "99999999999999999999" = 0.
Proof. reflexivity. Qed.

(** ** Canonical header keys: [textproto.CanonicalMIMEHeaderKey]

    A key with a byte that is not a token byte is left as it is. *)

Definition token_byte (c : ascii) : bool :=
  is_digit c || is_upper c || is_lower c
  || existsb (fun b => byte_of c =? b) [33; 35; 36; 37; 38; 39; 42; 43; 45; 46; 94; 95; 96; 124; 126].

Fixpoint canon_from (upper : bool) (s : string) : string :=
  match s with
  | "" => ""
  | String c s' =>
      String (if upper then ascii_upper c else ascii_lower c) (canon_from (byte_of c =? 45) s')
  end.
Definition CanonicalHeaderKey (s : string) : string :=
  if sall token_byte s then canon_from true s else s.

(** ** Lemmas *)

Lemma slen_nonneg s : 0 <= slen s.
Proof. unfold slen. lia. Qed.

Lemma byte_of_range c : 0 <= byte_of c < 256.
Proof.
  unfold byte_of. pose proof (N_ascii_bounded c). lia.
Qed.

(** A test that holds of every byte value, by evaluation. *)
Lemma byte_forall (P : Z -> bool) :
  forallb P (seqZ 0 256) = true -> forall b, 0 <= b < 256 -> P b = true.
Proof.
  rewrite forallb_forall. intros HP b Hb. apply HP. apply list_elem_of_In, elem_of_seqZ. lia.
Qed.

(** A byte shifted in above an [n]-bit remainder. *)
Lemma lor_shiftl a n r : 0 <= n -> 0 <= r < 2 ^ n -> Z.lor (Z.shiftl a n) r = a * 2 ^ n + r.
Proof.
  intros Hn Hr. rewrite <- Z.shiftl_mul_pow2 by done. symmetry. apply Z.add_nocarry_lor.
  apply Z.bits_inj'. intros i Hi. rewrite Z.land_spec, Z.bits_0.
  destruct (Z.lt_ge_cases i n).
  - by rewrite Z.shiftl_spec_low.
  - replace (Z.testbit r i) with false; [by rewrite andb_false_r|]. symmetry.
    destruct (Z.eq_dec r 0) as [->|]; [apply Z.bits_0|].
    apply Z.bits_above_log2; [lia|]. apply Z.lt_le_trans with n; [|done].
    apply Z.log2_lt_pow2; lia.
Qed.

Lemma byte_of_chr b : 0 <= b < 256 -> byte_of (chr b) = b.
Proof.
  intros Hb. unfold byte_of, chr. rewrite Z.mod_small by lia.
  rewrite N_ascii_embedding by lia. lia.
Qed.

Lemma chr_byte_of c : chr (byte_of c) = c.
Proof.
  unfold chr. rewrite Z.mod_small by apply byte_of_range.
  unfold byte_of. rewrite N2Z.id. apply ascii_N_embedding.
Qed.

Lemma of_bytes_of s : of_bytes (bytes_of s) = s.
Proof. induction s as [|c s IH]; simpl; [done|]. by rewrite chr_byte_of, IH. Qed.

Lemma prefix_refl s : String.prefix s s = true.
Proof. induction s as [|c s IH]; simpl; [done|]. by destruct (ascii_dec c c). Qed.

Lemma sapp_cons x (a b : string) : String x a ++ b = String x (a ++ b).
Proof. reflexivity. Qed.

Lemma prefix_app p s : String.prefix p (p ++ s) = true.
Proof. induction p as [|c p IH]; simpl; [by destruct s|]. by destruct (ascii_dec c c). Qed.

Lemma prefix_spec p s : String.prefix p s = true <-> exists t, s = p ++ t.
Proof.
  split.
  - revert s. induction p as [|c p IH]; intros s; simpl; [by exists s|].
    destruct s as [|d s]; [done|]; simpl. destruct (ascii_dec c d) as [->|]; [|discriminate].
    intros [t ->]%IH. by exists t.
  - intros [t ->]. apply prefix_app.
Qed.

Lemma Contains_prefix s sub : String.prefix sub s = true -> Contains s sub = true.
Proof. intros H. destruct s; simpl in *; by rewrite H. Qed.

Lemma Contains_spec s sub : Contains s sub = true <-> exists a b, s = a ++ sub ++ b.
Proof.
  split.
  - induction s as [|c s IH]; simpl; intros H; apply orb_true_iff in H as [H|H].
    + destruct sub; [|done]. by exists "", "".
    + done.
    + apply (prefix_spec sub (String c s)) in H as [t Ht]. exists "", t. by rewrite Ht.
    + destruct (IH H) as (a & b & ->). by exists (String c a), b.
  - intros (a & b & ->). induction a as [|c a IH]; simpl.
    + apply Contains_prefix, (prefix_app sub b).
    + rewrite IH. apply orb_true_r.
Qed.

Lemma sapp_assoc (a b c : string) : (a ++ b) ++ c = a ++ b ++ c.
Proof. induction a as [|x a IH]; [done|]. by rewrite !sapp_cons, IH. Qed.

Lemma sapp_nil_r (a : string) : a ++ "" = a.
Proof. induction a as [|x a IH]; [done|]. by rewrite sapp_cons, IH. Qed.

Lemma slen_app (a b : string) : slen (a ++ b) = slen a + slen b.
Proof.
  unfold slen. induction a as [|x a IH]; [done|]. rewrite sapp_cons. cbn [String.length]. lia.
Qed.

Lemma Contains_app_r s t sub : Contains t sub = true -> Contains (s ++ t) sub = true.
Proof.
  rewrite !Contains_spec. intros (a & b & ->). exists (s ++ a), b. by rewrite sapp_assoc.
Qed.

Lemma runes_of_ascii_cons c s : byte_of c < 128 -> runes_of (String c s) = byte_of c :: runes_of s.
Proof.
  intros H. unfold runes_of, rune_segments. simpl. by rewrite (proj2 (Z.ltb_lt _ _) H).
Qed.

Lemma bytes_of_app a b : bytes_of (a ++ b) = (bytes_of a ++ bytes_of b)%list.
Proof. induction a as [|c a IH]; [done|]. rewrite sapp_cons. cbn [bytes_of app]. by rewrite IH. Qed.

Lemma cont_ascii b : b < 128 -> cont b = false.
Proof. intros. unfold cont. by rewrite (proj2 (Z.leb_gt 128 b)). Qed.

(** An ASCII byte ends the rune before it, complete or not. *)
Lemma decode_rune_ascii l b t :
  b < 128 -> l <> [] -> decode_rune (l ++ b :: t)%list = decode_rune l.
Proof.
  intros Hb Hl. pose proof (cont_ascii b Hb) as Hc. unfold decode_rune.
  destruct l as [|b0 [|b1 [|b2 [|b3 l]]]]; [done| | | |]; cbn [app].
  - destruct (b0 <? 128); [done|]. rewrite Hc, andb_false_r.
    destruct t as [|b2 [|b3 t]]; [done| |];
      destruct (b0 =? 224), (b0 =? 237), (b0 =? 240), (b0 =? 244);
      rewrite ?(proj2 (Z.leb_gt 160 b)), ?(proj2 (Z.leb_gt 128 b)), ?(proj2 (Z.leb_gt 144 b)) by lia;
      by rewrite ?andb_false_r.
  - destruct (b0 <? 128); [done|]. destruct (_ && _ && cont b1); [done|]. rewrite Hc, andb_false_r.
    destruct t as [|b3 t]; [done|]. by rewrite andb_false_r.
  - destruct (b0 <? 128); [done|]. destruct (_ && _ && cont b1); [done|].
    destruct (_ && _ && _ && _ && cont b2); [done|]. by rewrite Hc, andb_false_r.
  - done.
Qed.

Lemma decode_rune_width l : (snd (decode_rune l) <= length l)%nat.
Proof. unfold decode_rune. repeat case_match; simpl; lia. Qed.

Lemma decode_rune_pos c l : (1 <= snd (decode_rune (c :: l)))%nat.
Proof. unfold decode_rune. repeat case_match; simpl; lia. Qed.

Lemma runes_from_app skip l b t :
  b < 128 -> (skip <= length l)%nat ->
  runes_from skip (l ++ b :: t)%list = (runes_from skip l ++ runes_from 0 (b :: t))%list.
Proof.
  intros Hb. revert skip. induction l as [|c l IH]; intros skip Hs.
  { simpl in Hs. by replace skip with 0%nat by lia. }
  destruct skip as [|k].
  - cbn [runes_from app]. pose proof (decode_rune_ascii (c :: l) b t Hb ltac:(done)) as Hd.
    pose proof (decode_rune_width (c :: l)) as Hw. cbn [app length] in Hd, Hw. rewrite Hd.
    destruct (decode_rune (c :: l)) as [r n]. cbn [snd app] in *.
    change (c :: (l ++ b :: t)%list) with ((c :: l) ++ b :: t)%list. rewrite take_app_le by (cbn [length]; lia).
    f_equal. apply IH. lia.
  - cbn [runes_from app]. apply IH. simpl in Hs. lia.
Qed.

(** The bytes of the runes are the bytes of the text. *)
Lemma segments_bytes skip l : flat_map snd (runes_from skip l) = drop skip l.
Proof.
  revert skip. induction l as [|c l IH]; intros skip; [by destruct skip|].
  destruct skip as [|k]; [|apply IH]. cbn [runes_from].
  pose proof (decode_rune_pos c l) as Hw. destruct (decode_rune (c :: l)) as [r [|n]]; cbn [snd] in Hw; [lia|].
  cbn [flat_map snd take drop pred]. rewrite IH. cbn [app]. f_equal. by rewrite take_drop.
Qed.

Lemma rune_segments_app_ascii a c b :
  byte_of c < 128 ->
  rune_segments (a ++ String c b) = (rune_segments a ++ rune_segments (String c b))%list.
Proof.
  intros Hc. unfold rune_segments. rewrite bytes_of_app. cbn [bytes_of].
  apply runes_from_app; [done|lia].
Qed.

Lemma runes_of_app_ascii a c b :
  byte_of c < 128 -> runes_of (a ++ String c b) = (runes_of a ++ runes_of (String c b))%list.
Proof.
  intros Hc. unfold runes_of. by rewrite rune_segments_app_ascii, fmap_app.
Qed.

Lemma runes_of_ascii_app p s : is_ascii p = true -> runes_of (p ++ s) = (bytes_of p ++ runes_of s)%list.
Proof.
  induction p as [|c p IH]; [done|]. unfold is_ascii. cbn [sall]. intros [Hc Hp]%andb_true_iff.
  rewrite sapp_cons, runes_of_ascii_cons by (by apply Z.ltb_lt). cbn [bytes_of app]. by rewrite IH.
Qed.

(** An ASCII text is found again among the runes. *)
Lemma runes_of_infix a p b :
  p <> "" -> is_ascii p = true ->
  runes_of (a ++ p ++ b) = (runes_of a ++ bytes_of p ++ runes_of b)%list.
Proof.
  intros Hp Ha. rewrite <- (runes_of_ascii_app p b Ha). destruct p as [|c p]; [done|].
  rewrite sapp_cons. apply runes_of_app_ascii. unfold is_ascii in Ha. cbn [sall] in Ha.
  by apply andb_true_iff in Ha as [?%Z.ltb_lt _].
Qed.

(** The order of strings, [<], on bytes. *)
Lemma compare_refl s : String.compare s s = Eq.
Proof. pose proof (String.compare_antisym s s). by destruct (String.compare s s). Qed.

Lemma compare_trans s t u :
  String.compare s t = Lt -> String.compare t u = Lt -> String.compare s u = Lt.
Proof.
  revert t u. induction s as [|a s IH]; intros [|b t] [|c u]; try done.
  cbn [String.compare]. unfold Ascii.compare.
  destruct (N.compare_spec (N_of_ascii a) (N_of_ascii b)) as [E1|E1|E1]; try done;
    destruct (N.compare_spec (N_of_ascii b) (N_of_ascii c)) as [E2|E2|E2]; try done; intros Hst Htu;
    destruct (N.compare_spec (N_of_ascii a) (N_of_ascii c)) as [E3|E3|E3]; try done; try lia; eauto.
Qed.

Example split_key : Split "fw-tenant-42" "-" = ["fw"; "tenant"; "42"].
Proof. reflexivity. Qed.
Example splitN_field : SplitN "headers.x.y" "." 2 = ["headers"; "x.y"].
Proof. reflexivity. Qed.
Example splitN_none : SplitN "path" "." 2 = ["path"].
Proof. reflexivity. Qed.
Example replace_percent : ReplaceAll "%252e%25" "%25" "%" = "%2e%".
Proof. reflexivity. Qed.
Example count_marker : Count "aaaa" "aa" = 2.
Proof. reflexivity. Qed.
Example trim_ex : TrimSpace "  a b	" = "a b".
Proof. reflexivity. Qed.
Example canon_te : CanonicalHeaderKey "TE" = "Te".
Proof. reflexivity. Qed.
Example canon_ws : CanonicalHeaderKey "Sec-WebSocket-Version" = "Sec-Websocket-Version".
Proof. reflexivity. Qed.
Example parse_neg : ParseInt "-12" = Some (-12).
Proof. reflexivity. Qed.
Example runes_e_acute : runes_of (of_bytes [97; 195; 169; 255]) = [97; 233; RuneError].
Proof. reflexivity. Qed.

#[export] Hint Resolve slen_nonneg byte_of_range prefix_refl prefix_app : go.

(** A double quote, for string constants. *)
Definition dq : string := String (ascii_of_nat 34) "".

(** [unicode.IsLetter] and [unicode.IsDigit]: the tables beyond ASCII are an
    instance of this class. *)
Class RuneClasses : Type := { letter_rune : Z -> bool; digit_rune : Z -> bool }.
Definition rune_digit (r : Z) : bool := (48 <=? r) && (r <=? 57).
Definition rune_letter (r : Z) : bool := (65 <=? r) && (r <=? 90) || (97 <=? r) && (r <=? 122).
Definition IsDigit `{RuneClasses} (r : Z) : bool := if r <? 128 then rune_digit r else digit_rune r.
Definition IsLetter `{RuneClasses} (r : Z) : bool := if r <? 128 then rune_letter r else letter_rune r.
Definition rune_classes_ascii : RuneClasses :=
  {| letter_rune := fun _ => false; digit_rune := fun _ => false |}.

(** [string(runes)] for a [[]rune]. *)
Definition of_runes (l : list Z) : string := of_bytes (flat_map encode_rune l).

(** [fmt.Sscanf(s, "%02x", &b)] into a byte: blanks are skipped, at most two
    hexadecimal digits are read, and what follows is ignored; [None] is an
    error. *)
Definition hex_rune_val (r : Z) : option Z :=
  if (48 <=? r) && (r <=? 57) then Some (r - 48)
  else if (97 <=? r) && (r <=? 102) then Some (r - 87)
  else if (65 <=? r) && (r <=? 70) then Some (r - 55)
  else None.
Definition Sscanf_02x (s : string) : option Z :=
  match skip_spaces (runes_of s) with
  | Some (a :: l) =>
      x ← hex_rune_val a;
      match l with
      | b :: _ => match hex_rune_val b with Some y => Some (x * 16 + y) | None => Some x end
      | [] => Some x
      end
  | _ => None
  end.

Definition crlf : string := String (ascii_of_nat 13) (String (ascii_of_nat 10) "").

(** [strings.IndexAny(s, chars)] for ASCII [chars]. *)
Fixpoint IndexAny (s chars : string) : option nat :=
  match s with
  | "" => None
  | String c t => if Contains chars (String c "") then Some 0%nat else S <$> IndexAny t chars
  end.

Fixpoint trim_left (c : ascii) (s : string) : string :=
  match s with String d t => if Ascii.eqb d c then trim_left c t else s | "" => "" end.
(** [strings.Trim(s, c)] for one ASCII character. *)
Definition Trim (c : ascii) (s : string) : string := String.rev (trim_left c (String.rev (trim_left c s))).

(** [filepath.Ext] with the separator of Unix: the text from the last dot of
    the last element. *)
Fixpoint ext_from (acc rev : string) : string :=
  match rev with
  | "" => ""
  | String c t =>
      if Ascii.eqb c "/" then "" else if Ascii.eqb c "." then String c acc else ext_from (String c acc) t
  end.
Definition Ext (path : string) : string := ext_from "" (String.rev path).


Lemma srev_cons c s : String.rev (String c s) = String.rev s ++ String c "".
Proof.
  assert (forall s a b, String.rev_app s (a ++ b) = String.rev_app s a ++ b) as Hg.
  { clear s. induction s as [|x s IH]; intros a b; [done|]. exact (IH (String x a) b). }
  exact (Hg s "" (String c "")).
Qed.

Lemma srev_app s t : String.rev (s ++ t) = String.rev t ++ String.rev s.
Proof.
  induction s as [|c s IH]; [by rewrite sapp_nil_r|]. change (String c s ++ t) with (String c (s ++ t)).
  by rewrite !srev_cons, IH, sapp_assoc.
Qed.

Lemma srev_involutive s : String.rev (String.rev s) = s.
Proof. induction s as [|c s IH]; [done|]. by rewrite srev_cons, srev_app, IH. Qed.

Lemma length_sapp a b : String.length (a ++ b) = (String.length a + String.length b)%nat.
Proof. induction a as [|c a IH]; [done|]. rewrite sapp_cons. cbn [String.length]. by rewrite IH. Qed.

Lemma take_str_app s t : take_str (String.length s) (s ++ t) = s.
Proof. induction s as [|c s IH]; [by destruct t|]. rewrite sapp_cons. cbn [String.length take_str]. by rewrite IH. Qed.

(** The first piece of a split starts with what was read before. *)
Lemma split_head s sep : forall skip n acc, exists p rest, split_from skip n acc s sep = (String.rev acc ++ p) :: rest.
Proof.
  induction s as [|c s IH]; intros skip n acc.
  - exists "", []. cbn [split_from]. by rewrite sapp_nil_r.
  - cbn [split_from]. destruct skip as [|k].
    + destruct (_ && _); [exists "", (split_from (String.length sep - 1) (pred <$> n) "" s sep); by rewrite sapp_nil_r|].
      destruct (IH 0%nat n (String c acc)) as (p & rest & ->). exists (String c p), rest.
      rewrite srev_cons, sapp_assoc. done.
    + apply IH.
Qed.
