(* ===== verification/Crypto.v ===== *)
(** * Hashes and encodings of Go's standard library

    [crypto/sha256] and [crypto/sha512] (FIPS 180-4), [crypto/hmac], [encoding/hex] and
    [encoding/base64], executable on bytes. Words are integers below 2^32, or
    2^64 for SHA-512. *)

From S2P Require Import Prelude GoStr.

#[local] Open Scope string_scope.
#[local] Open Scope Z_scope.

(** ** SHA-256 *)

Definition w32 (z : Z) : Z := z mod 2 ^ 32.
Definition add32 (a b : Z) : Z := w32 (a + b).
Definition not32 (x : Z) : Z := Z.lxor x (2 ^ 32 - 1).
Definition rotr (n x : Z) : Z := Z.lor (Z.shiftr x n) (w32 (Z.shiftl x (32 - n))).
Definition xor3 (a b c : Z) : Z := Z.lxor a (Z.lxor b c).

Definition sha_ch (x y z : Z) : Z := Z.lxor (Z.land x y) (Z.land (not32 x) z).
Definition sha_maj (x y z : Z) : Z := xor3 (Z.land x y) (Z.land x z) (Z.land y z).
Definition big_sigma0 (x : Z) : Z := xor3 (rotr 2 x) (rotr 13 x) (rotr 22 x).
Definition big_sigma1 (x : Z) : Z := xor3 (rotr 6 x) (rotr 11 x) (rotr 25 x).
Definition small_sigma0 (x : Z) : Z := xor3 (rotr 7 x) (rotr 18 x) (Z.shiftr x 3).
Definition small_sigma1 (x : Z) : Z := xor3 (rotr 17 x) (rotr 19 x) (Z.shiftr x 10).

Definition sha_k : list Z :=
  [1116352408; 1899447441; 3049323471; 3921009573; 961987163; 1508970993; 2453635748; 2870763221;
   3624381080; 310598401; 607225278; 1426881987; 1925078388; 2162078206; 2614888103; 3248222580;
   3835390401; 4022224774; 264347078; 604807628; 770255983; 1249150122; 1555081692; 1996064986;
   2554220882; 2821834349; 2952996808; 3210313671; 3336571891; 3584528711; 113926993; 338241895;
   666307205; 773529912; 1294757372; 1396182291; 1695183700; 1986661051; 2177026350; 2456956037;
   2730485921; 2820302411; 3259730800; 3345764771; 3516065817; 3600352804; 4094571909; 275423344;
   430227734; 506948616; 659060556; 883997877; 958139571; 1322822218; 1537002063; 1747873779;
   1955562222; 2024104815; 2227730452; 2361852424; 2428436474; 2756734187; 3204031479; 3329325298].

Definition sha_init : list Z :=
  [1779033703; 3144134277; 1013904242; 2773480762; 1359893119; 2600822924; 528734635; 1541459225].

Fixpoint words_of (l : list Z) : list Z :=
  match l with
  | a :: b :: c :: d :: t => (a * 2 ^ 24 + b * 2 ^ 16 + c * 2 ^ 8 + d) :: words_of t
  | _ => []
  end.

(** The message schedule: [fuel] further words, each from the last sixteen,
    kept newest first. *)
Fixpoint schedule (fuel : nat) (rev : list Z) : list Z :=
  match fuel with
  | O => reverse rev
  | S fuel =>
      let w := add32 (add32 (small_sigma1 (nth 1 rev 0)) (nth 6 rev 0))
                 (add32 (small_sigma0 (nth 14 rev 0)) (nth 15 rev 0)) in
      schedule fuel (w :: rev)
  end.

Definition sha_round (s : list Z) (kw : Z * Z) : list Z :=
  match s with
  | [a; b; c; d; e; f; g; h] =>
      let t1 := add32 (add32 h (big_sigma1 e)) (add32 (sha_ch e f g) (add32 (fst kw) (snd kw))) in
      let t2 := add32 (big_sigma0 a) (sha_maj a b c) in
      [add32 t1 t2; a; b; c; add32 d t1; e; f; g]
  | _ => s
  end.

Definition sha_block (h : list Z) (block : list Z) : list Z :=
  let w := schedule 48 (reverse (words_of block)) in
  zip_with add32 h (fold_left sha_round (zip sha_k w) h).

Fixpoint blocks (fuel : nat) (l : list Z) : list (list Z) :=
  match fuel, l with
  | S fuel, _ :: _ => take 64 l :: blocks fuel (drop 64 l)
  | _, _ => []
  end.

Definition be_bytes (n : nat) (v : Z) : list Z :=
  (fun i => (v / 2 ^ (8 * Z.of_nat i)) mod 256) <$> reverse (seq 0 n).

Definition sha_pad (msg : list Z) : list Z :=
  let n := len msg in
  (msg ++ [128] ++ replicate (Z.to_nat ((55 - n) mod 64)) 0 ++ be_bytes 8 (8 * n))%list.

(** [sha256.Sum256]. *)
Definition sha256 (msg : list Z) : list Z :=
  let p := sha_pad msg in
  flat_map (be_bytes 4) (fold_left sha_block (blocks (length p) p) sha_init).

(** ** SHA-512 and SHA-384 *)

Definition w64 (z : Z) : Z := z mod 2 ^ 64.
Definition add64 (a b : Z) : Z := w64 (a + b).
Definition not64 (x : Z) : Z := Z.lxor x (2 ^ 64 - 1).
Definition rotr64 (n x : Z) : Z := Z.lor (Z.shiftr x n) (w64 (Z.shiftl x (64 - n))).

Definition sha512_k : list Z :=
  [4794697086780616226; 8158064640168781261; 13096744586834688815; 16840607885511220156; 4131703408338449720;
   6480981068601479193; 10538285296894168987; 12329834152419229976; 15566598209576043074;
   1334009975649890238; 2608012711638119052; 6128411473006802146; 8268148722764581231; 9286055187155687089;
   11230858885718282805; 13951009754708518548; 16472876342353939154; 17275323862435702243;
   1135362057144423861; 2597628984639134821; 3308224258029322869; 5365058923640841347; 6679025012923562964;
   8573033837759648693; 10970295158949994411; 12119686244451234320; 12683024718118986047;
   13788192230050041572; 14330467153632333762; 15395433587784984357; 489312712824947311; 1452737877330783856;
   2861767655752347644; 3322285676063803686; 5560940570517711597; 5996557281743188959; 7280758554555802590;
   8532644243296465576; 9350256976987008742; 10552545826968843579; 11727347734174303076;
   12113106623233404929; 14000437183269869457; 14369950271660146224; 15101387698204529176;
   15463397548674623760; 17586052441742319658; 1182934255886127544; 1847814050463011016; 2177327727835720531;
   2830643537854262169; 3796741975233480872; 4115178125766777443; 5681478168544905931; 6601373596472566643;
   7507060721942968483; 8399075790359081724; 8693463985226723168; 9568029438360202098; 10144078919501101548;
   10430055236837252648; 11840083180663258601; 13761210420658862357; 14299343276471374635;
   14566680578165727644; 15097957966210449927; 16922976911328602910; 17689382322260857208;
   500013540394364858; 748580250866718886; 1242879168328830382; 1977374033974150939; 2944078676154940804;
   3659926193048069267; 4368137639120453308; 4836135668995329356; 5532061633213252278; 6448918945643986474;
   6902733635092675308; 7801388544844847127].

Definition sha512_init : list Z :=
  [7640891576956012808; 13503953896175478587; 4354685564936845355; 11912009170470909681; 5840696475078001361;
   11170449401992604703; 2270897969802886507; 6620516959819538809].
Definition sha384_init : list Z :=
  [14680500436340154072; 7105036623409894663; 10473403895298186519; 1526699215303891257; 7436329637833083697;
   10282925794625328401; 15784041429090275239; 5167115440072839076].

Fixpoint words64_of (fuel : nat) (l : list Z) : list Z :=
  match fuel, l with
  | S fuel, _ :: _ => fold_left (fun a b => a * 256 + b) (take 8 l) 0 :: words64_of fuel (drop 8 l)
  | _, _ => []
  end.

Fixpoint schedule64 (fuel : nat) (rev : list Z) : list Z :=
  match fuel with
  | O => reverse rev
  | S fuel =>
      let s0 x := xor3 (rotr64 1 x) (rotr64 8 x) (Z.shiftr x 7) in
      let s1 x := xor3 (rotr64 19 x) (rotr64 61 x) (Z.shiftr x 6) in
      let w := add64 (add64 (s1 (nth 1 rev 0)) (nth 6 rev 0)) (add64 (s0 (nth 14 rev 0)) (nth 15 rev 0)) in
      schedule64 fuel (w :: rev)
  end.

Definition sha512_round (s : list Z) (kw : Z * Z) : list Z :=
  match s with
  | [a; b; c; d; e; f; g; h] =>
      let t1 := add64 (add64 h (xor3 (rotr64 14 e) (rotr64 18 e) (rotr64 41 e)))
                  (add64 (Z.lxor (Z.land e f) (Z.land (not64 e) g)) (add64 (fst kw) (snd kw))) in
      let t2 := add64 (xor3 (rotr64 28 a) (rotr64 34 a) (rotr64 39 a)) (sha_maj a b c) in
      [add64 t1 t2; a; b; c; add64 d t1; e; f; g]
  | _ => s
  end.

Definition sha512_block (h : list Z) (block : list Z) : list Z :=
  let w := schedule64 64 (reverse (words64_of 16 block)) in
  zip_with add64 h (fold_left sha512_round (zip sha512_k w) h).

Fixpoint blocks128 (fuel : nat) (l : list Z) : list (list Z) :=
  match fuel, l with
  | S fuel, _ :: _ => take 128 l :: blocks128 fuel (drop 128 l)
  | _, _ => []
  end.

Definition sha512_from (init msg : list Z) : list Z :=
  let n := len msg in
  let p := (msg ++ [128] ++ replicate (Z.to_nat ((111 - n) mod 128)) 0 ++ be_bytes 16 (8 * n))%list in
  flat_map (be_bytes 8) (fold_left sha512_block (blocks128 (length p) p) init).
Definition sha512 (msg : list Z) : list Z := sha512_from sha512_init msg.
Definition sha384 (msg : list Z) : list Z := take 48 (sha512_from sha384_init msg).

(** ** HMAC *)

(** [hmac.New(hash, key)] for a hash of the given block size. *)
Definition hmac (block : nat) (hash : list Z -> list Z) (key msg : list Z) : list Z :=
  let k := if Z.of_nat block <? len key then hash key else key in
  let k := (k ++ replicate (block - length k) 0)%list in
  hash ((Z.lxor 92 <$> k) ++ hash ((Z.lxor 54 <$> k) ++ msg))%list.
Definition hmac_sha256 (key msg : list Z) : list Z := hmac 64 sha256 key msg.

(** ** Hexadecimal: [%x] and [%X] of bytes *)

Definition hex_digit (upper : bool) (d : Z) : Z :=
  if d <? 10 then 48 + d else if upper then 55 + d else 87 + d.
Definition hex_bytes (upper : bool) (l : list Z) : list Z :=
  flat_map (fun b => [hex_digit upper (b / 16); hex_digit upper (b mod 16)]) l.
Definition hex (l : list Z) : string := of_bytes (hex_bytes false l).
Definition HEX (l : list Z) : string := of_bytes (hex_bytes true l).

(** [fmt.Sprintf("%x", sha256.Sum256([]byte(s)))] *)
Definition sha256_hex (s : string) : string := hex (sha256 (bytes_of s)).

(** ** Base64 *)

(** The value of a character: the standard alphabet, or the URL-safe one. *)
Definition b64_value (url : bool) (c : Z) : option Z :=
  if (65 <=? c) && (c <=? 90) then Some (c - 65)
  else if (97 <=? c) && (c <=? 122) then Some (c - 71)
  else if (48 <=? c) && (c <=? 57) then Some (c + 4)
  else if c =? (if url then 45 else 43) then Some 62
  else if c =? (if url then 95 else 47) then Some 63
  else None.

Definition b64_char (url : bool) (v : Z) : Z :=
  if v <? 26 then v + 65
  else if v <? 52 then v + 71
  else if v <? 62 then v - 4
  else if v =? 62 then (if url then 45 else 43)
  else (if url then 95 else 47).

Fixpoint b64_groups (vs : list Z) : option (list Z) :=
  match vs with
  | [] => Some []
  | [a; b] => Some [Z.lor (Z.shiftl a 2) (Z.shiftr b 4)]
  | [a; b; c] =>
      Some [Z.lor (Z.shiftl a 2) (Z.shiftr b 4);
            Z.lor (Z.shiftl (Z.land b 15) 4) (Z.shiftr c 2)]
  | a :: b :: c :: d :: t =>
      r ← b64_groups t;
      Some (Z.lor (Z.shiftl a 2) (Z.shiftr b 4)
            :: Z.lor (Z.shiftl (Z.land b 15) 4) (Z.shiftr c 2)
            :: Z.lor (Z.shiftl (Z.land c 3) 6) d :: r)
  | _ => None
  end.

Definition not_newline (c : Z) : bool := negb ((c =? 10) || (c =? 13)).

(** [base64.RawURLEncoding.DecodeString]: no padding; line breaks are
    skipped. *)
Definition b64_raw_decode (url : bool) (s : string) : option (list Z) :=
  vs ← mapM (b64_value url) (filter (fun c => not_newline c = true) (bytes_of s));
  b64_groups vs.

(** The same with padding: the length is a multiple of four and at most two
    [=] end the last group. *)
Definition b64_decode (url : bool) (s : string) : option (list Z) :=
  let l := filter (fun c => not_newline c = true) (bytes_of s) in
  if negb (len l mod 4 =? 0) then None
  else
    let body := match reverse l with
                | 61 :: 61 :: t => reverse t
                | 61 :: t => reverse t
                | _ => l
                end in
    vs ← mapM (b64_value url) body;
    b64_groups vs.

Fixpoint b64_encode_bytes (url : bool) (l : list Z) : list Z :=
  match l with
  | [] => []
  | [a] => [b64_char url (Z.shiftr a 2); b64_char url (Z.shiftl (Z.land a 3) 4); 61; 61]
  | [a; b] =>
      [b64_char url (Z.shiftr a 2); b64_char url (Z.lor (Z.shiftl (Z.land a 3) 4) (Z.shiftr b 4));
       b64_char url (Z.shiftl (Z.land b 15) 2); 61]
  | a :: b :: c :: t =>
      b64_char url (Z.shiftr a 2)
      :: b64_char url (Z.lor (Z.shiftl (Z.land a 3) 4) (Z.shiftr b 4))
      :: b64_char url (Z.lor (Z.shiftl (Z.land b 15) 2) (Z.shiftr c 6))
      :: b64_char url (Z.land c 63) :: b64_encode_bytes url t
  end.
(** [EncodeToString] with padding. *)
Definition b64_encode (url : bool) (l : list Z) : string := of_bytes (b64_encode_bytes url l).

(** [base64.RawURLEncoding.EncodeToString]: the same without the padding. *)
Definition b64_raw_encode (url : bool) (l : list Z) : string :=
  of_bytes (filter (fun c => c <> 61) (b64_encode_bytes url l)).

(** ** Test vectors *)

Example sha256_abc :
  sha256_hex "abc" = "ba7816bf8f01cfea414140de5dae2223b00361a396177a9cb410ff61f20015ad".
Proof. vm_compute. reflexivity. Qed.

Example sha256_two_blocks :
  sha256_hex "abcdbcdecdefdefgefghfghighijhijkijkljklmklmnlmnomnopnopq"
  = "248d6a61d20638b8e5c026930c3e6039a33ce45964ff2167f6ecedd419db06c1".
Proof. vm_compute. reflexivity. Qed.

(** RFC 4231, test case 2. *)
Example hmac_jefe :
  hex (hmac_sha256 (bytes_of "Jefe") (bytes_of "what do ya want for nothing?"))
  = "5bdcc146bf60754e6a042426089575c75a003f089d2739839dec58b964ec3843".
Proof. vm_compute. reflexivity. Qed.

Example sha512_abc : hex (sha512 (bytes_of "abc"))
  = "ddaf35a193617abacc417349ae20413112e6fa4e89a97ea20a9eeee64b55d39a2192992a274fc1a836ba3c23a3feebbd454d4423643ce80e2a9ac94fa54ca49f".
Proof. vm_compute. reflexivity. Qed.
Example hmac_sha384_jefe :
  hex (hmac 128 sha384 (bytes_of "Jefe") (bytes_of "what do ya want for nothing?"))
  = "af45d2e376484031617f78d2b58a6b1b9c7ef464f5a01b47e42ec3736322445e8e2240ca5e69e2c78b3239ecfab21649".
Proof. vm_compute. reflexivity. Qed.
Example b64_foobar : b64_encode false (bytes_of "foobar") = "Zm9vYmFy".
Proof. vm_compute. reflexivity. Qed.
Example b64_foob : b64_decode false "Zm9vYg==" = Some (bytes_of "foob").
Proof. vm_compute. reflexivity. Qed.
