(* ===== verification/Encoding.v ===== *)
(** * Further encodings of Go's standard library

    [strconv.Itoa], [crypto/md5] (RFC 1321) and the part of [encoding/asn1]
    that decodes a sequence of object identifiers, each executable, with test
    vectors; and, for statements, the DER encoding the decoder reads. *)

From Stdlib Require Import DecimalString.
From S2P Require Import Prelude GoStr Crypto.

#[local] Open Scope string_scope.
#[local] Open Scope Z_scope.

(** [strconv.Itoa]. *)
Definition Itoa (z : Z) : string := NilZero.string_of_int (Z.to_int z).

(** ** MD5 *)

Module MD5.

Definition K : list Z :=
  [3614090360; 3905402710; 606105819; 3250441966; 4118548399; 1200080426; 2821735955; 4249261313;
   1770035416; 2336552879; 4294925233; 2304563134; 1804603682; 4254626195; 2792965006; 1236535329;
   4129170786; 3225465664; 643717713; 3921069994; 3593408605; 38016083; 3634488961; 3889429448;
   568446438; 3275163606; 4107603335; 1163531501; 2850285829; 4243563512; 1735328473; 2368359562;
   4294588738; 2272392833; 1839030562; 4259657740; 2763975236; 1272893353; 4139469664; 3200236656;
   681279174; 3936430074; 3572445317; 76029189; 3654602809; 3873151461; 530742520; 3299628645;
   4096336452; 1126891415; 2878612391; 4237533241; 1700485571; 2399980690; 4293915773; 2240044497;
   1873313359; 4264355552; 2734768916; 1309151649; 4149444226; 3174756917; 718787259; 3951481745].
Definition shifts : list Z :=
  flat_map (fun l => concat (replicate 4 l)) [[7; 12; 17; 22]; [5; 9; 14; 20]; [4; 11; 16; 23]; [6; 10; 15; 21]].
Definition init : list Z := [1732584193; 4023233417; 2562383102; 271733878].

Definition rotl (n x : Z) : Z := Z.lor (w32 (Z.shiftl x n)) (Z.shiftr x (32 - n)).

Fixpoint words (l : list Z) : list Z :=
  match l with
  | a :: b :: c :: d :: t => (a + b * 2 ^ 8 + c * 2 ^ 16 + d * 2 ^ 24) :: words t
  | _ => []
  end.
Definition le_bytes (n : nat) (v : Z) : list Z := reverse (be_bytes n v).

(** The function of step [i] and the word it reads. *)
Definition mix (i b c d : Z) : Z * Z :=
  if i <? 16 then (Z.lor (Z.land b c) (Z.land (not32 b) d), i)
  else if i <? 32 then (Z.lor (Z.land d b) (Z.land (not32 d) c), (5 * i + 1) mod 16)
  else if i <? 48 then (xor3 b c d, (3 * i + 5) mod 16)
  else (Z.lxor c (Z.lor b (not32 d)), (7 * i) mod 16).

Definition step (m : list Z) (s : list Z) (ik : Z * (Z * Z)) : list Z :=
  match s with
  | [a; b; c; d] =>
      let '(i, (k, r)) := ik in
      let '(f, g) := mix i b c d in
      let x := add32 (add32 f a) (add32 k (nth (Z.to_nat g) m 0)) in
      [d; add32 b (rotl r x); b; c]
  | _ => s
  end.

Definition block (s l : list Z) : list Z :=
  zip_with add32 s (fold_left (step (words l)) (zip (Z.of_nat <$> seq 0 64) (zip K shifts)) s).

(** [md5.Sum]. *)
Definition Sum (msg : list Z) : list Z :=
  let n := len msg in
  let p := (msg ++ [128] ++ replicate (Z.to_nat ((55 - n) mod 64)) 0 ++ le_bytes 8 (w64 (8 * n)))%list in
  flat_map (le_bytes 4) (fold_left block (blocks (length p) p) init).

(** [fmt.Sprintf("%x", md5.Sum([]byte(s)))]. *)
Definition hex_sum (s : string) : string := hex (Sum (bytes_of s)).

Example md5_empty : hex_sum "" = "d41d8cd98f00b204e9800998ecf8427e".
Proof. vm_compute. reflexivity. Qed.
Example md5_digits :
  hex_sum "12345678901234567890123456789012345678901234567890123456789012345678901234567890" = "57edf4a22be3c955ac49da2e2107b67a".
Proof. vm_compute. reflexivity. Qed.
Example md5_alphabet : hex_sum "abcdefghijklmnopqrstuvwxyz" = "c3fcd3d76192e4007dfb496cca67e13b".
Proof. vm_compute. reflexivity. Qed.

End MD5.

(** ** DER: [encoding/asn1] *)

Module Asn1.

(** [parseBase128Int]: the value and what follows it; at most five bytes, the
    first not 0x80, and no more than a 31-bit value. *)
Fixpoint base128 (fuel : nat) (acc : Z) (first : bool) (l : list Z) : option (Z * list Z) :=
  match fuel, l with
  | S fuel, b :: l =>
      if first && (b =? 128) then None
      else
        let v := Z.lor (Z.shiftl acc 7) (Z.land b 127) in
        if Z.land b 128 =? 0 then (if 2 ^ 31 - 1 <? v then None else Some (v, l)) else base128 fuel v false l
  | _, _ => None
  end.
Definition parseBase128Int (l : list Z) : option (Z * list Z) := base128 5 0 true l.

(** The loop over [n] length bytes. *)
Fixpoint long_length (n : nat) (acc : Z) (l : list Z) : option (Z * list Z) :=
  match n with
  | O => Some (acc, l)
  | S n =>
      match l with
      | [] => None
      | b :: l =>
          if 2 ^ 23 <=? acc then None
          else let v := Z.lor (Z.shiftl acc 8) b in if v =? 0 then None else long_length n v l
      end
  end.

Record header : Type := mkHeader { class : Z; tag : Z; is_compound : bool; content_length : Z }.

(** [parseTagAndLength]: the header and what follows it. *)
Definition parseTagAndLength (l : list Z) : option (header * list Z) :=
  match l with
  | [] => None
  | b :: l =>
      '(t, l) ← (if Z.land b 31 =? 31
                 then '(t, l) ← parseBase128Int l; if t <? 31 then None else Some (t, l)
                 else Some (Z.land b 31, l));
      match l with
      | [] => None
      | n :: l =>
          '(len, l) ← (if Z.land n 128 =? 0 then Some (Z.land n 127, l)
                       else if Z.land n 127 =? 0 then None
                       else '(len, l) ← long_length (Z.to_nat (Z.land n 127)) 0 l; if len <? 128 then None else Some (len, l));
          Some (mkHeader (Z.shiftr b 6) t (negb (Z.land b 32 =? 0)) len, l)
      end
  end.

(** A header of universal class with the tag, and its content; [None] when the
    content is cut short. *)
Definition element (t : Z) (compound : bool) (l : list Z) : option (list Z * list Z) :=
  '(h, l) ← parseTagAndLength l;
  if (class h =? 0) && (tag h =? t) && Bool.eqb (is_compound h) compound && (content_length h <=? len l)
  then Some (take (Z.to_nat (content_length h)) l, drop (Z.to_nat (content_length h)) l) else None.

(** [parseSequenceOf] for object identifiers: the contents of its elements,
    each of which takes two bytes at least. *)
Fixpoint elements (fuel : nat) (t : Z) (l : list Z) : option (list (list Z)) :=
  match fuel, l with
  | _, [] => Some []
  | O, _ => None
  | S fuel, _ => '(c, l) ← element t false l; cs ← elements fuel t l; Some (c :: cs)
  end.

Fixpoint base128s (fuel : nat) (l : list Z) : option (list Z) :=
  match fuel, l with
  | _, [] => Some []
  | O, _ => None
  | S fuel, _ => '(v, l) ← parseBase128Int l; vs ← base128s fuel l; Some (v :: vs)
  end.

(** [parseObjectIdentifier]: the first two numbers share one. *)
Definition parseObjectIdentifier (l : list Z) : option (list Z) :=
  '(v, l) ← parseBase128Int l;
  vs ← base128s (length l) l;
  Some (if v <? 80 then v / 40 :: v mod 40 :: vs else 2 :: v - 80 :: vs).

(** [asn1.Unmarshal(value, &oids)] for [oids []asn1.ObjectIdentifier]; what
    follows the sequence is not looked at. *)
Definition unmarshal_oids (value : list Z) : option (list (list Z)) :=
  '(body, _) ← element 16 true value;
  cs ← elements (length body) 6 body;
  mapM parseObjectIdentifier cs.

(** [ObjectIdentifier.String]. *)
Fixpoint oid_string (oid : list Z) : string :=
  match oid with [] => "" | [n] => Itoa n | n :: oid => Itoa n ++ "." ++ oid_string oid end.

(** *** Encoding *)

(** An element with the given identifier byte, for contents below 65536
    bytes. *)
Definition der_length (n : Z) : list Z :=
  if n <? 128 then [n] else if n <? 256 then [129; n] else [130; n / 256; n mod 256].
Definition der (id : Z) (content : list Z) : list Z := (id :: der_length (len content) ++ content)%list.

Example oids_decoded :
  unmarshal_oids (der 48 (der 6 [42; 134; 72; 134; 247; 13] ++ der 6 [85; 29; 32; 0])%list) = Some [[1; 2; 840; 113549]; [2; 5; 29; 32; 0]].
Proof. reflexivity. Qed.

(** The header of an encoded element is read back, for identifiers of one
    byte. *)
Lemma long_length_one b l : 0 < b -> long_length 1 0 (b :: l) = Some (b, l).
Proof.
  intros Hb. unfold long_length. change (2 ^ 23 <=? 0) with false. change (Z.shiftl 0 8) with 0. rewrite Z.lor_0_l.
  by rewrite (proj2 (Z.eqb_neq b 0)) by lia.
Qed.
Lemma long_length_two a b l : 0 < a < 256 -> 0 <= b < 256 -> long_length 2 0 (a :: b :: l) = Some (a * 256 + b, l).
Proof.
  intros Ha Hb. unfold long_length. cbn [Z.leb Z.pow Z.compare].
  change (Z.shiftl 0 8) with 0. rewrite Z.lor_0_l. rewrite (proj2 (Z.eqb_neq a 0)) by lia.
  rewrite (proj2 (Z.leb_gt (2 ^ 23) a)) by lia. rewrite lor_shiftl by lia. rewrite (proj2 (Z.eqb_neq _ 0)) by lia. done.
Qed.

Lemma short_byte n : 0 <= n < 128 -> Z.land n 128 = 0 /\ Z.land n 127 = n.
Proof.
  intros Hn. pose proof (byte_forall (fun n => negb (n <? 128) || ((Z.land n 128 =? 0) && (Z.land n 127 =? n))) eq_refl n) as Hb.
  cbv beta in Hb. rewrite (proj2 (Z.ltb_lt n 128)) in Hb by lia. b2p. specialize (Hb ltac:(lia)).
  apply andb_true_iff in Hb as [?%Z.eqb_eq ?%Z.eqb_eq]. done.
Qed.

Lemma parse_der id content rest :
  Z.land id 31 <> 31 -> len content < 65536 ->
  parseTagAndLength (der id content ++ rest)
  = Some (mkHeader (Z.shiftr id 6) (Z.land id 31) (negb (Z.land id 32 =? 0)) (len content), (content ++ rest)%list).
Proof.
  intros Hid Hlen. pose proof (len_nonneg content) as H0. unfold der. cbn [app parseTagAndLength].
  rewrite (proj2 (Z.eqb_neq _ _) Hid). cbn [mbind option_bind]. rewrite <- app_assoc. unfold der_length.
  destruct (Z.ltb_spec (len content) 128); [|destruct (Z.ltb_spec (len content) 256)]; cbn [app].
  - destruct (short_byte (len content)) as [-> ->]; [lia|]. done.
  - change (Z.land 129 128 =? 0) with false. change (Z.land 129 127) with 1. cbn [Z.eqb]. change (Z.to_nat 1) with 1%nat.
    rewrite long_length_one by lia. cbn [mbind option_bind]. by rewrite (proj2 (Z.ltb_ge (len content) 128)) by lia.
  - change (Z.land 130 128 =? 0) with false. change (Z.land 130 127) with 2. cbn [Z.eqb].
    change (Z.to_nat 2) with 2%nat. pose proof (Z.div_mod (len content) 256). pose proof (Z.mod_pos_bound (len content) 256).
    rewrite long_length_two; [|split; [apply Z.div_str_pos; lia|apply Z.div_lt_upper_bound; lia]|lia]. cbn [mbind option_bind].
    replace (len content / 256 * 256 + len content mod 256) with (len content) by lia.
    by rewrite (proj2 (Z.ltb_ge (len content) 128)) by lia.
Qed.

(** *** The fuel is enough: every round consumes a byte *)

Lemma base128_shrinks fuel acc first l v r : base128 fuel acc first l = Some (v, r) -> (length r < length l)%nat.
Proof.
  revert acc first l. induction fuel as [|fuel IH]; intros acc first [|b l]; cbn [base128]; try done.
  destruct (first && (b =? 128)); [done|]. destruct (Z.land b 128 =? 0).
  - destruct (2 ^ 31 - 1 <? _); [done|]. intros [= _ <-]. cbn. lia.
  - intros Hb%IH. cbn [length]. lia.
Qed.

Lemma long_length_shrinks n acc l v r : long_length n acc l = Some (v, r) -> (length r <= length l)%nat.
Proof.
  revert acc l. induction n as [|n IH]; intros acc l; cbn [long_length]; [by intros [= _ <-]|].
  destruct l as [|b l]; [done|]. destruct (2 ^ 23 <=? acc); [done|]. destruct (_ =? 0); [done|]. intros Hb%IH. cbn [length]. lia.
Qed.

Lemma header_shrinks l h r : parseTagAndLength l = Some (h, r) -> (length r < length l)%nat.
Proof.
  destruct l as [|b l]; [done|]. cbn [parseTagAndLength]. intros ([t k] & Ht & Hr)%bind_Some.
  assert (length k <= length l)%nat as Hk.
  { destruct (Z.land b 31 =? 31); [|by injection Ht as _ <-]. apply bind_Some in Ht as ([x y] & Hx & Hy).
    apply base128_shrinks in Hx. destruct (x <? 31); [done|]. injection Hy as _ <-. lia. }
  destruct k as [|n k]; [done|]. apply bind_Some in Hr as ([x y] & Hx & [= _ <-]). cbn [length] in *.
  assert (length y <= length k)%nat; [|lia]. destruct (Z.land n 128 =? 0); [by injection Hx as _ <-|].
  destruct (Z.land n 127 =? 0); [done|]. apply bind_Some in Hx as ([x' y'] & Hl & Hy). apply long_length_shrinks in Hl.
  destruct (x' <? 128); [done|]. by injection Hy as _ <-.
Qed.

Lemma element_shrinks t c l body r : element t c l = Some (body, r) -> (length r < length l)%nat.
Proof.
  unfold element. intros ([h k] & Hh%header_shrinks & Hr)%bind_Some. case_match; [|done]. injection Hr as _ <-.
  rewrite length_drop. lia.
Qed.

Lemma elements_fuel fuel t l : (length l <= fuel)%nat -> elements fuel t l = elements (length l) t l.
Proof.
  revert l. induction fuel as [fuel IH] using lt_wf_ind. intros l Hl. destruct l as [|b l]; [by destruct fuel|].
  destruct fuel as [|fuel]; [cbn in Hl; lia|]. cbn [elements length]. destruct (element t false (b :: l)) as [[c r]|] eqn:E; [|done].
  apply element_shrinks in E. cbn [length] in *. cbn [mbind option_bind].
  rewrite (IH fuel), (IH (length l)) by lia. done.
Qed.

Lemma base128s_fuel fuel l : (length l <= fuel)%nat -> base128s fuel l = base128s (length l) l.
Proof.
  revert l. induction fuel as [fuel IH] using lt_wf_ind. intros l Hl. destruct l as [|b l]; [by destruct fuel|].
  destruct fuel as [|fuel]; [cbn in Hl; lia|]. cbn [base128s length]. destruct (parseBase128Int (b :: l)) as [[v r]|] eqn:E; [|done].
  apply base128_shrinks in E. cbn [length] in *. cbn [mbind option_bind].
  rewrite (IH fuel), (IH (length l)) by lia. done.
Qed.

(** The element is read back with its tag, or refused for another one. *)
Lemma element_der id content rest t compound :
  Z.land id 31 <> 31 -> len content < 65536 ->
  element t compound (der id content ++ rest)
  = (if (Z.shiftr id 6 =? 0) && (Z.land id 31 =? t) && Bool.eqb (negb (Z.land id 32 =? 0)) compound
     then Some (content, rest) else None).
Proof.
  intros Hid Hlen. unfold element. rewrite parse_der by done. cbn [mbind option_bind class tag is_compound content_length].
  rewrite (proj2 (Z.leb_le (len content) _)) by (rewrite len_app; pose proof (len_nonneg rest); lia). rewrite andb_true_r.
  unfold len. rewrite Nat2Z.id. by rewrite take_app_length, drop_app_length.
Qed.

End Asn1.
