(* ===== verification/Net.v ===== *)
(** * Addresses and networks of Go's [net]

    [ParseIP], [ParseCIDR] and [IPNet.Contains], as [net/netip] parses: an
    address is its sixteen bytes, those of IPv4 after the prefix of mapped
    addresses. Texts with zones are refused. *)

From S2P Require Import Prelude GoStr.

#[local] Open Scope string_scope.
#[local] Open Scope Z_scope.

Definition IP : Type := list Z.

Definition v4InV6Prefix : list Z := (replicate 10 0 ++ [255; 255])%list.
Definition IPv4 (l : list Z) : IP := (v4InV6Prefix ++ l)%list.

(** [ip.To4()]: the last four bytes of a mapped address. *)
Definition To4 (ip : IP) : option (list Z) :=
  if bool_decide (take 12 ip = v4InV6Prefix) then Some (drop 12 ip) else None.

(** A field of a dotted address: one to three digits, no leading zero, at most
    255. *)
Definition octet (s : string) : option Z :=
  if sall is_digit s && negb (String.eqb s "") && (String.length s <=? 3)%nat
     && negb ((1 <? String.length s)%nat && HasPrefix s "0") && (digits_val 0 s <=? 255)
  then Some (digits_val 0 s) else None.
Definition parseIPv4Fields (s : string) : option (list Z) :=
  match Split s "." with
  | [a; b; c; d] => a ← octet a; b ← octet b; c ← octet c; d ← octet d; Some [a; b; c; d]
  | _ => None
  end.

Definition hex_value (c : ascii) : option Z :=
  let b := byte_of c in
  if (48 <=? b) && (b <=? 57) then Some (b - 48)
  else if (97 <=? b) && (b <=? 102) then Some (b - 87)
  else if (65 <=? b) && (b <=? 70) then Some (b - 55)
  else None.

(** The hexadecimal digits at the front: their number, value and what
    follows. *)
Fixpoint hex_group (n : nat) (acc : Z) (s : string) : nat * Z * string :=
  match s with
  | String c t => match hex_value c with Some v => hex_group (S n) (acc * 16 + v) t | None => (n, acc, s) end
  | "" => (n, acc, "")
  end.

(** The loop of [parseIPv6]: the bytes so far, where the ellipsis was found;
    each round reads two bytes or ends, so eight rounds are enough. *)
Fixpoint groups (fuel : nat) (ip : list Z) (ellipsis : option nat) (s : string) : option (list Z * option nat) :=
  match fuel with
  | O => if String.eqb s "" then Some (ip, ellipsis) else None
  | S fuel =>
      let '(n, acc, rest) := hex_group 0 0 s in
      if (n =? 0)%nat || (4 <? n)%nat then None
      else if HasPrefix rest "." then
        if bool_decide (ellipsis = None) && negb (length ip =? 12)%nat then None
        else if (12 <? length ip)%nat then None
        else l ← parseIPv4Fields s; Some (ip ++ l, ellipsis)%list
      else
        let ip := (ip ++ [acc / 256; acc mod 256])%list in
        match rest with
        | "" => Some (ip, ellipsis)
        | String c t =>
            if negb (Ascii.eqb c ":") then None
            else match t with
                 | "" => None
                 | String c' t' =>
                     if Ascii.eqb c' ":" then
                       match ellipsis with
                       | Some _ => None
                       | None => if String.eqb t' "" then Some (ip, Some (length ip)) else groups fuel ip (Some (length ip)) t'
                       end
                     else groups fuel ip ellipsis t
                 end
        end
  end.

Definition parseIPv6 (s : string) : option IP :=
  if Contains s "%" then None
  else if String.eqb s "::" then Some (replicate 16 0)
  else
    '(ip, ellipsis) ← (if HasPrefix s "::" then groups 8 [] (Some 0%nat) (drop_str 2 s) else groups 8 [] None s);
    match ellipsis with
    | None => if (length ip =? 16)%nat then Some ip else None
    | Some e => if (length ip <? 16)%nat then Some (take e ip ++ replicate (16 - length ip) 0 ++ drop e ip)%list else None
    end.

(** [netip.ParseAddr] by the first dot or colon; whether it is IPv4. *)
Fixpoint address_kind (s : string) : option bool :=
  match s with
  | "" => None
  | String c t =>
      if Ascii.eqb c "." then Some true else if Ascii.eqb c ":" then Some false else if Ascii.eqb c "%" then None else address_kind t
  end.
Definition ParseAddr (s : string) : option (bool * IP) :=
  match address_kind s with
  | Some true => l ← parseIPv4Fields s; Some (true, IPv4 l)
  | Some false => ip ← parseIPv6 s; Some (false, ip)
  | None => None
  end.
Definition ParseIP (s : string) : option IP := snd <$> ParseAddr s.

(** A network: address and mask, both of four or of sixteen bytes. *)
Record IPNet : Type := mkNet { net_IP : list Z; net_Mask : list Z }.

(** [CIDRMask(ones, 8 * n)] and [ip.Mask]. *)
Definition mask_byte (ones : Z) (i : nat) : Z := 256 - 2 ^ (8 - Z.max 0 (Z.min 8 (ones - 8 * Z.of_nat i))).
Definition CIDRMask (ones : Z) (n : nat) : list Z := mask_byte ones <$> seq 0 n.
Definition masked (ip mask : list Z) : list Z := zip_with Z.land ip mask.

(** The prefix length is digits alone. *)
Definition ParseCIDR (s : string) : option IPNet :=
  match SplitN s "/" 2 with
  | [addr; bits] =>
      match ParseAddr addr with
      | None => None
      | Some (v4, ip) =>
          if sall is_digit bits && negb (String.eqb bits "") then
            let n := digits_val 0 bits in
            if v4 then if n <=? 32 then Some (mkNet (masked (drop 12 ip) (CIDRMask n 4)) (CIDRMask n 4)) else None
            else if n <=? 128 then Some (mkNet (masked ip (CIDRMask n 16)) (CIDRMask n 16)) else None
          else None
      end
  | _ => None
  end.

(** A network of sixteen bytes never holds a mapped address, and one whose
    address is a mapped one counts as IPv4 with the last bytes of its mask. *)
Definition network_number (n : IPNet) : list Z * list Z :=
  if (length (net_IP n) =? 16)%nat
  then match To4 (net_IP n) with Some ip => (ip, drop 12 (net_Mask n)) | None => (net_IP n, net_Mask n) end
  else (net_IP n, net_Mask n).
Definition net_Contains (n : IPNet) (ip : IP) : bool :=
  let '(nn, m) := network_number n in
  let ip := default ip (To4 ip) in
  (length ip =? length nn)%nat && bool_decide (masked nn m = masked ip m).

Example parse_dotted : ParseIP "192.168.0.1" = Some (IPv4 [192; 168; 0; 1]).
Proof. reflexivity. Qed.
Example parse_leading_zero : ParseIP "192.168.00.1" = None.
Proof. reflexivity. Qed.
Example parse_loopback : ParseIP "::1" = Some (replicate 15 0 ++ [1])%list.
Proof. reflexivity. Qed.
Example parse_full : ParseIP "2001:db8:0:0:1::ff" = Some [32; 1; 13; 184; 0; 0; 0; 0; 0; 1; 0; 0; 0; 0; 0; 255].
Proof. reflexivity. Qed.
Example parse_mapped : ParseIP "::ffff:10.0.0.1" = ParseIP "10.0.0.1".
Proof. reflexivity. Qed.
Example parse_bad : (ParseIP "1::2::3", ParseIP "1:2:3:4:5:6:7", ParseIP "12345::", ParseIP "1:2:3:4:5:6:7:8:9", ParseIP "fe80::1%eth0", ParseIP "") = (None, None, None, None, None, None).
Proof. reflexivity. Qed.
Example net_in : (fun n => (net_Contains n (IPv4 [10; 1; 2; 3]), net_Contains n (IPv4 [11; 0; 0; 0]))) <$> ParseCIDR "10.9.9.9/8" = Some (true, false).
Proof. reflexivity. Qed.
Example net_in6 : (fun n => net_Contains n (IPv4 [10; 1; 2; 3])) <$> ParseCIDR "::/0" = Some false.
Proof. reflexivity. Qed.
