(* ===== verification/Regexp.v ===== *)
(** * Regular expressions: Go's [regexp]

    The source's patterns are kept as the strings they are in the code: this
    file parses Go's syntax ([compile]) and matches on the runes of the text.
    [matches] is the meaning of an expression, a relation between positions;
    [ends] computes the positions where a match can end, in the order of
    preference of Go's leftmost-first search, and [ends_spec] shows it
    decides the relation. Covered is the syntax the source uses: literals,
    escapes, classes, groups, flags i, m and s, alternation, greedy and lazy
    repetition, anchors and word boundaries; [compile] answers [None] on
    anything else. Where a repeated body can match the empty text the
    preference order may differ from Go's; the set of matches does not. *)

From S2P Require Import Prelude GoStr.

#[local] Open Scope string_scope.
#[local] Open Scope Z_scope.

(** ** Expressions *)

Inductive anchor : Type := BeginText | EndText | BeginLine | EndLine | WordB | NoWordB.

(** A character class: items are sets of ranges, possibly complemented
    ([\W]); [cls_fold] is the flag i. *)
Record cls : Type := mkCls {
  cls_fold : bool;
  cls_neg : bool;
  cls_items : list (bool * list (Z * Z))
}.

Inductive re : Type :=
| Eps
| Chr (c : cls)
| Look (a : anchor)
| Cat (r1 r2 : re)
| Alt (r1 r2 : re)
| Star (greedy : bool) (r : re).

(** ** Meaning *)

Definition in_range (p : Z * Z) (r : Z) : bool := (fst p <=? r) && (r <=? snd p).
Definition in_range_fold `{Unicode} (p : Z * Z) (r : Z) : bool :=
  if in_range p r then true
  else existsb (fun c => rune_fold c =? rune_fold r) (seqZ (fst p) (snd p - fst p + 1)).
Definition cls_test `{Unicode} (c : cls) (r : Z) : bool :=
  let test := if cls_fold c then in_range_fold else in_range in
  xorb (cls_neg c)
    (existsb (fun it => xorb (fst it) (existsb (fun p => test p r) (snd it))) (cls_items c)).

Definition is_word (r : Z) : bool :=
  (48 <=? r) && (r <=? 57) || (65 <=? r) && (r <=? 90) || (97 <=? r) && (r <=? 122) || (r =? 95).

Definition rune_before (w : list Z) (i : nat) : option Z :=
  match i with O => None | S k => w !! k end.
Definition word_at (o : option Z) : bool := match o with Some r => is_word r | None => false end.
Definition newline_at (o : option Z) : bool := match o with Some r => r =? 10 | None => true end.

Definition look (w : list Z) (a : anchor) (i : nat) : bool :=
  match a with
  | BeginText => (i =? 0)%nat
  | EndText => (i =? length w)%nat
  | BeginLine => newline_at (rune_before w i)
  | EndLine => newline_at (w !! i)
  | WordB => xorb (word_at (rune_before w i)) (word_at (w !! i))
  | NoWordB => negb (xorb (word_at (rune_before w i)) (word_at (w !! i)))
  end.

Inductive matches `{Unicode} (w : list Z) : re -> nat -> nat -> Prop :=
| M_eps i : matches w Eps i i
| M_chr c i r : w !! i = Some r -> cls_test c r = true -> matches w (Chr c) i (S i)
| M_look a i : look w a i = true -> matches w (Look a) i i
| M_cat r1 r2 i j k : matches w r1 i j -> matches w r2 j k -> matches w (Cat r1 r2) i k
| M_alt_l r1 r2 i j : matches w r1 i j -> matches w (Alt r1 r2) i j
| M_alt_r r1 r2 i j : matches w r2 i j -> matches w (Alt r1 r2) i j
| M_star_nil g r i : matches w (Star g r) i i
| M_star_cons g r i j k : matches w r i j -> matches w (Star g r) j k -> matches w (Star g r) i k.

(** ** Search *)

(** Duplicates dropped, first occurrences kept. *)
Fixpoint dedup (seen l : list nat) : list nat :=
  match l with
  | [] => []
  | x :: t => if existsb (Nat.eqb x) seen then dedup seen t else x :: dedup (x :: seen) t
  end.

(** Ends of a repetition; every round goes forward, so as many rounds as
    there are runes left are enough. *)
Fixpoint star (step : nat -> list nat) (greedy : bool) (fuel i : nat) : list nat :=
  match fuel with
  | O => [i]
  | S f =>
      let more := flat_map (star step greedy f) (filter (fun j => i < j)%nat (step i)) in
      dedup [] (if greedy then (more ++ [i])%list else i :: more)
  end.

Fixpoint ends `{Unicode} (w : list Z) (r : re) (i : nat) : list nat :=
  match r with
  | Eps => [i]
  | Chr c => match w !! i with
             | Some x => if cls_test c x then [S i] else []
             | None => []
             end
  | Look a => if look w a i then [i] else []
  | Cat r1 r2 => dedup [] (flat_map (ends w r2) (ends w r1 i))
  | Alt r1 r2 => dedup [] (ends w r1 i ++ ends w r2 i)%list
  | Star g r1 => star (ends w r1) g (length w - i) i
  end.

(** The leftmost match that starts at [i] or later, with [fuel] more starts. *)
Fixpoint find_from `{Unicode} (w : list Z) (r : re) (i fuel : nat) : option (nat * nat) :=
  match ends w r i with
  | j :: _ => Some (i, j)
  | [] => match fuel with O => None | S f => find_from w r (S i) f end
  end.
Definition find `{Unicode} (w : list Z) (r : re) (i : nat) : option (nat * nat) :=
  if (i <=? length w)%nat then find_from w r i (length w - i) else None.

Definition match_runes `{Unicode} (r : re) (w : list Z) : bool :=
  match find w r 0 with Some _ => true | None => false end.

(** ** Syntax *)

Record flags : Type := mkFlags { f_fold : bool; f_multi : bool; f_dot : bool }.

Definition lit_cls (fl : flags) (r : Z) : re := Chr (mkCls (f_fold fl) false [(false, [(r, r)])]).
Definition set_cls (fl : flags) (neg : bool) (items : list (bool * list (Z * Z))) : re :=
  Chr (mkCls (f_fold fl) neg items).
Definition dot (fl : flags) : re := Chr (mkCls false true (if f_dot fl then [] else [(false, [(10, 10)])])).

Definition digit_ranges : list (Z * Z) := [(48, 57)].
Definition space_ranges : list (Z * Z) := [(9, 10); (12, 13); (32, 32)].
Definition word_ranges : list (Z * Z) := [(48, 57); (65, 90); (95, 95); (97, 122)].

Inductive escape : Type :=
| ERune (r : Z)
| EClass (neg : bool) (ranges : list (Z * Z))
| EAnchor (a : anchor).

Definition hex_val (c : ascii) : option Z :=
  if is_digit c then Some (byte_of c - 48)
  else let l := byte_of (ascii_lower c) in
       if (97 <=? l) && (l <=? 102) then Some (l - 87) else None.

(** [\x{...}]: hexadecimal digits up to the brace. *)
Fixpoint hex_braced (acc : Z) (s : string) : option (Z * string) :=
  match s with
  | String c t =>
      if Ascii.eqb c "}" then Some (acc, t)
      else match hex_val c with Some d => hex_braced (acc * 16 + d) t | None => None end
  | "" => None
  end.

Definition is_punct (c : ascii) : bool :=
  (byte_of c <? 128) && negb (is_word (byte_of c)) || Ascii.eqb c "_".

(** What follows a backslash. *)
Definition parse_escape (s : string) : option (escape * string) :=
  match s with
  | "" => None
  | String c t =>
      let isc (d : ascii) := Ascii.eqb c d in
      if isc "d"%char then Some (EClass false digit_ranges, t)
      else if isc "D"%char then Some (EClass true digit_ranges, t)
      else if isc "s"%char then Some (EClass false space_ranges, t)
      else if isc "S"%char then Some (EClass true space_ranges, t)
      else if isc "w"%char then Some (EClass false word_ranges, t)
      else if isc "W"%char then Some (EClass true word_ranges, t)
      else if isc "b"%char then Some (EAnchor WordB, t)
      else if isc "B"%char then Some (EAnchor NoWordB, t)
      else if isc "A"%char then Some (EAnchor BeginText, t)
      else if isc "z"%char then Some (EAnchor EndText, t)
      else if isc "n"%char then Some (ERune 10, t)
      else if isc "t"%char then Some (ERune 9, t)
      else if isc "r"%char then Some (ERune 13, t)
      else if isc "f"%char then Some (ERune 12, t)
      else if isc "v"%char then Some (ERune 11, t)
      else if isc "x"%char then
        match t with
        | String a t' =>
            if Ascii.eqb a "{" then '(r, rest) ← hex_braced 0 t'; Some (ERune r, rest)
            else match t' with
                 | String b t'' => h ← hex_val a; l ← hex_val b; Some (ERune (h * 16 + l), t'')
                 | "" => None
                 end
        | "" => None
        end
      else if is_punct c then Some (ERune (byte_of c), t)
      else None
  end.

(** One end of a range, or a class escape, inside brackets. *)
Definition class_atom (s : string) : option (escape * string) :=
  match s with
  | String c t => if Ascii.eqb c "\" then parse_escape t else Some (ERune (byte_of c), t)
  | "" => None
  end.

Fixpoint class_items (fuel : nat) (first : bool) (s : string)
    : option (list (bool * list (Z * Z)) * string) :=
  match fuel, s with
  | S f, String c t =>
      if Ascii.eqb c "]" && negb first then Some ([], t)
      else
        '(lo, rest) ← class_atom s;
        match lo with
        | EAnchor _ => None
        | EClass neg ranges =>
            '(items, rest) ← class_items f false rest;
            Some ((neg, ranges) :: items, rest)
        | ERune lo =>
            let single :=
              '(items, rest) ← class_items f false rest;
              Some ((false, [(lo, lo)]) :: items, rest) in
            match rest with
            | String d (String e _ as after) =>
                if Ascii.eqb d "-" && negb (Ascii.eqb e "]") then
                  '(hi, rest) ← class_atom after;
                  match hi with
                  | ERune hi =>
                      if lo <=? hi then
                        '(items, rest) ← class_items f false rest;
                        Some ((false, [(lo, hi)]) :: items, rest)
                      else None
                  | _ => None
                  end
                else single
            | _ => single
            end
        end
  | _, _ => None
  end.

Definition Opt (greedy : bool) (r : re) : re := if greedy then Alt r Eps else Alt Eps r.
Fixpoint times (n : nat) (r : re) : re :=
  match n with O => Eps | S O => r | S m => Cat r (times m r) end.
Fixpoint up_to (greedy : bool) (n : nat) (r : re) : re :=
  match n with O => Eps | S O => Opt greedy r | S m => Opt greedy (Cat r (up_to greedy m r)) end.

Fixpoint read_nat (acc : nat) (s : string) : nat * string :=
  match s with
  | String c t => if is_digit c then read_nat (acc * 10 + Z.to_nat (byte_of c - 48)) t else (acc, s)
  | "" => (acc, s)
  end.

(** [{n}], [{n,}] and [{n,m}], after the brace: the bounds. *)
Definition parse_bounds (s : string) : option (nat * option nat * string) :=
  match s with
  | String c _ =>
      if is_digit c then
        let '(n, rest) := read_nat 0 s in
        match rest with
        | String d t =>
            if Ascii.eqb d "}" then Some (n, Some n, t)
            else if Ascii.eqb d "," then
              match t with
              | String e t' =>
                  if Ascii.eqb e "}" then Some (n, None, t')
                  else if is_digit e then
                    let '(m, rest) := read_nat 0 t in
                    match rest with
                    | String g t'' => if Ascii.eqb g "}" && (n <=? m)%nat then Some (n, Some m, t'') else None
                    | "" => None
                    end
                  else None
              | "" => None
              end
            else None
        | "" => None
        end
      else None
  | "" => None
  end.

Definition parse_lazy (s : string) : bool * string :=
  match s with
  | String c t => if Ascii.eqb c "?" then (false, t) else (true, s)
  | "" => (true, s)
  end.

(** The repetition operator that may follow an atom. *)
Definition quantify (r : re) (s : string) : re * string :=
  match s with
  | String c t =>
      if Ascii.eqb c "*" then let '(g, t) := parse_lazy t in (Star g r, t)
      else if Ascii.eqb c "+" then let '(g, t) := parse_lazy t in (Cat r (Star g r), t)
      else if Ascii.eqb c "?" then let '(g, t) := parse_lazy t in (Opt g r, t)
      else if Ascii.eqb c "{" then
        match parse_bounds t with
        | Some (n, m, t) =>
            let '(g, t) := parse_lazy t in
            let rest := match m with
                        | None => Star g r
                        | Some m => up_to g (m - n) r
                        end in
            (match n, m with
             | O, _ => rest
             | _, Some m => if (m =? n)%nat then times n r else Cat (times n r) rest
             | _, None => Cat (times n r) rest
             end, t)
        | None => (r, s)
        end
      else (r, s)
  | "" => (r, s)
  end.

Definition cat_rev (acc : list re) : re :=
  match acc with [] => Eps | r :: acc => fold_left (fun k r => Cat r k) acc r end.

(** The flags of [(?ims)] and [(?ims:], after the question mark. *)
Fixpoint parse_flags (fl : flags) (s : string) : option (flags * bool * string) :=
  match s with
  | String c t =>
      if Ascii.eqb c ")" then Some (fl, true, t)
      else if Ascii.eqb c ":" then Some (fl, false, t)
      else if Ascii.eqb c "i" then parse_flags (mkFlags true (f_multi fl) (f_dot fl)) t
      else if Ascii.eqb c "m" then parse_flags (mkFlags (f_fold fl) true (f_dot fl)) t
      else if Ascii.eqb c "s" then parse_flags (mkFlags (f_fold fl) (f_multi fl) true) t
      else None
  | "" => None
  end.

(** One alternation up to the closing parenthesis or the end; [acc] is the
    current concatenation, reversed. Each call reads a character. *)
Fixpoint parse (fuel : nat) (fl : flags) (acc : list re) (s : string) : option (re * string) :=
  match fuel, s with
  | O, _ => None
  | S _, "" => Some (cat_rev acc, "")
  | S f, String c t =>
      let isc (d : ascii) := Ascii.eqb c d in
      let atom (r : re) (rest : string) :=
        let '(r, rest) := quantify r rest in parse f fl (r :: acc) rest in
      let group (fl' : flags) (body : string) :=
        '(r, rest) ← parse f fl' [] body;
        match rest with
        | String _ rest => let '(r, rest) := quantify r rest in parse f fl (r :: acc) rest
        | "" => None
        end in
      if isc ")"%char then Some (cat_rev acc, s)
      else if isc "|"%char then
        '(r, rest) ← parse f fl [] t;
        Some (Alt (cat_rev acc) r, rest)
      else if isc "("%char then
        match t with
        | String d t' =>
            if Ascii.eqb d "?" then
              match parse_flags fl t' with
              | Some (fl', true, rest) => parse f fl' acc rest
              | Some (fl', false, rest) => group fl' rest
              | None => None
              end
            else group fl t
        | "" => None
        end
      else if isc "["%char then
        let '(neg, body) := match t with
                            | String d t' => if Ascii.eqb d "^" then (true, t') else (false, t)
                            | "" => (false, t)
                            end in
        '(items, rest) ← class_items f true body;
        atom (set_cls fl neg items) rest
      else if isc "."%char then atom (dot fl) t
      else if isc "^"%char then atom (Look (if f_multi fl then BeginLine else BeginText)) t
      else if isc "$"%char then atom (Look (if f_multi fl then EndLine else EndText)) t
      else if isc "\"%char then
        '(e, rest) ← parse_escape t;
        match e with
        | ERune r => atom (lit_cls fl r) rest
        | EClass neg ranges => atom (set_cls fl false [(neg, ranges)]) rest
        | EAnchor a => atom (Look a) rest
        end
      else if isc "*"%char || isc "+"%char || isc "?"%char then None
      else atom (lit_cls fl (byte_of c)) t
  end.

(** [regexp.Compile]. *)
Definition compile (p : string) : option re :=
  match parse (S (String.length p)) (mkFlags false false false) [] p with
  | Some (r, "") => Some r
  | _ => None
  end.

Definition compiles (p : string) : bool := match compile p with Some _ => true | None => false end.

(** [regexp.MustCompile(p).MatchString(s)]; the files that use it check that
    their patterns compile. *)
Definition MatchString `{Unicode} (p s : string) : bool :=
  match compile p with Some r => match_runes r (runes_of s) | None => false end.

(** ** Replacing and finding all *)

Definition segment_text (l : list (Z * list Z)) (i j : nat) : list Z :=
  flat_map snd (take (j - i) (drop i l)).

(** The loop of [Regexp.replaceAll]: [pos] is [searchPos], [last] is
    [lastMatchEnd]; the replacement has no [$]. *)
Fixpoint replace_loop `{Unicode} (fuel : nat) (r : re) (repl : list Z) (segs : list (Z * list Z))
    (w : list Z) (last pos : nat) : list Z :=
  match fuel with
  | O => segment_text segs last (length w)
  | S f =>
      match find w r pos with
      | None => segment_text segs last (length w)
      | Some (a, b) =>
          (segment_text segs last a
           ++ (if (last <? b)%nat || (a =? 0)%nat then repl else [])
           ++ replace_loop f r repl segs w b (Nat.max (S pos) b))%list
      end
  end.

(** [ReplaceAllString]: one round per position at most. *)
Definition ReplaceAllString `{Unicode} (p s repl : string) : string :=
  match compile p with
  | Some r =>
      let segs := rune_segments s in
      of_bytes (replace_loop (S (length segs)) r (bytes_of repl) segs segs.*1 0 0)
  | None => s
  end.

(** The loop of [Regexp.allMatches]; [prev] is [prevMatchEnd]. *)
Fixpoint all_loop `{Unicode} (fuel : nat) (r : re) (w : list Z) (pos : nat) (prev : option nat)
    : list (nat * nat) :=
  match fuel with
  | O => []
  | S f =>
      match find w r pos with
      | None => []
      | Some (a, b) =>
          let accept := negb ((b =? pos)%nat && bool_decide (prev = Some a)) in
          ((if accept then [(a, b)] else [])
           ++ all_loop f r w (if (b =? pos)%nat then S pos else b) (Some b))%list
      end
  end.
Definition FindAll `{Unicode} (p s : string) : list (nat * nat) :=
  match compile p with
  | Some r => let w := runes_of s in all_loop (S (length w)) r w 0 None
  | None => []
  end.

(** ** Lemmas: [ends] decides [matches] *)

Section spec.
Context `{Unicode} (w : list Z).

Lemma elem_of_dedup seen l j : j ∈ dedup seen l <-> j ∈ l /\ j ∉ seen.
Proof.
  revert seen. induction l as [|x l IH]; intros seen; cbn [dedup].
  - rewrite elem_of_nil. tauto.
  - destruct (existsb (Nat.eqb x) seen) eqn:E.
    + apply existsb_exists in E as (y & Hy & ->%Nat.eqb_eq). apply list_elem_of_In in Hy.
      rewrite IH, elem_of_cons. naive_solver.
    + assert (x ∉ seen) as Hx.
      { intros Hx%list_elem_of_In. apply not_true_iff_false in E. apply E, existsb_exists.
        exists x. by rewrite Nat.eqb_refl. }
      rewrite elem_of_cons, IH, !elem_of_cons. destruct (decide (j = x)); naive_solver.
Qed.

Lemma elem_of_dedup_nil l j : j ∈ dedup [] l <-> j ∈ l.
Proof. rewrite elem_of_dedup, elem_of_nil. tauto. Qed.

Lemma elem_of_flat_map {A} (f : nat -> list A) l (j : A) :
  j ∈ flat_map f l <-> exists i, i ∈ l /\ j ∈ f i.
Proof. rewrite list_elem_of_In, in_flat_map. setoid_rewrite list_elem_of_In. done. Qed.

(** A match goes forward and stays in the text. *)
Lemma matches_range r i j : matches w r i j -> (i <= length w -> i <= j <= length w)%nat.
Proof.
  induction 1 as [| ? ? ? E | | | | | |]; intros; try lia.
  apply lookup_lt_Some in E. lia.
Qed.

Lemma star_spec r g fuel i k :
  (forall i j, (i <= length w)%nat -> j ∈ ends w r i <-> matches w r i j) ->
  (i <= length w)%nat -> (length w - i <= fuel)%nat ->
  k ∈ star (ends w r) g fuel i <-> matches w (Star g r) i k.
Proof.
  intros Hr Hi Hf. split.
  - clear Hf. revert i Hi. induction fuel as [|f IH]; intros i Hi; cbn [star].
    { intros ->%list_elem_of_singleton. constructor. }
    rewrite elem_of_dedup_nil. intros Hk.
    assert (k = i \/ k ∈ flat_map (star (ends w r) g f) (filter (fun j => i < j)%nat (ends w r i)))
      as [->|Hk']; [|constructor|].
    { destruct g; [apply elem_of_app in Hk as [Hk|Hk%list_elem_of_singleton]|apply elem_of_cons in Hk]; tauto. }
    apply elem_of_flat_map in Hk' as (j & [_ Hj]%list_elem_of_filter & Hk').
    apply Hr in Hj; [|done]. pose proof (matches_range _ _ _ Hj Hi).
    apply M_star_cons with j; [done|]. apply IH; [lia|done].
  - remember (Star g r) as s eqn:Es. intros Hm. revert fuel Hi Hf.
    induction Hm as [| | | | | |? ? ?|? ? i j k Hij _ Hjk IH]; try done; intros fuel Hi Hf; simplify_eq.
    + destruct fuel as [|f]; cbn [star]; [by apply list_elem_of_singleton|].
      rewrite elem_of_dedup_nil. destruct g; [rewrite elem_of_app, elem_of_cons|rewrite elem_of_cons]; tauto.
    + pose proof (matches_range _ _ _ Hij Hi) as Hj.
      destruct (Nat.eq_dec j i) as [->|]; [by apply IH|].
      destruct fuel as [|f]; [lia|]. cbn [star]. rewrite elem_of_dedup_nil.
      assert (k ∈ flat_map (star (ends w r) g f) (filter (fun j => i < j)%nat (ends w r i))) as Hk.
      { apply elem_of_flat_map. exists j. split.
        - apply list_elem_of_filter. split; [lia|by apply Hr].
        - apply IH; [done|lia|lia]. }
      destruct g; [rewrite elem_of_app|rewrite elem_of_cons]; tauto.
Qed.

(** [ends] computes exactly the ends of the matches that start at [i]. *)
Lemma ends_spec r i j : (i <= length w)%nat -> j ∈ ends w r i <-> matches w r i j.
Proof.
  revert i j. induction r as [|c|a|r1 IH1 r2 IH2|r1 IH1 r2 IH2|g r IH]; intros i j Hi; cbn [ends].
  - rewrite list_elem_of_singleton. split; [intros ->; constructor|by inversion 1].
  - split.
    + destruct (w !! i) as [x|] eqn:E; [|by intros ?%elem_of_nil].
      destruct (cls_test c x) eqn:T; [|by intros ?%elem_of_nil].
      intros ->%list_elem_of_singleton. by apply M_chr with x.
    + inversion 1 as [|c' i' x E T| | | | | |]; subst. rewrite E, T. by apply list_elem_of_singleton.
  - split.
    + destruct (look w a i) eqn:E; [|by intros ?%elem_of_nil].
      intros ->%list_elem_of_singleton. by constructor.
    + inversion 1 as [| |a' i' E| | | | |]; subst. rewrite E. by apply list_elem_of_singleton.
  - rewrite elem_of_dedup_nil, elem_of_flat_map. split.
    + intros (k & Hk & Hj). apply IH1 in Hk; [|done]. pose proof (matches_range _ _ _ Hk Hi).
      apply IH2 in Hj; [|lia]. by apply M_cat with k.
    + inversion 1 as [| | |? ? ? k ? Hk Hj| | | |]; subst. exists k.
      pose proof (matches_range _ _ _ Hk Hi). split; [by apply IH1|]. apply IH2; [lia|done].
  - rewrite elem_of_dedup_nil, elem_of_app, IH1, IH2 by done. split.
    + intros [?|?]; [by apply M_alt_l|by apply M_alt_r].
    + inversion 1; subst; tauto.
  - apply star_spec; [done|done|lia].
Qed.

(** [find]: the leftmost start, and one of its ends. *)
Lemma find_from_Some r i f a b :
  (i + f = length w)%nat -> find_from w r i f = Some (a, b) ->
  (i <= a)%nat /\ matches w r a b /\ forall k j, (i <= k < a)%nat -> ~ matches w r k j.
Proof.
  revert i. induction f as [|f IH]; intros i Hf; cbn [find_from];
    destruct (ends w r i) as [|e t] eqn:E; try done.
  - intros [= -> ->]. split; [lia|]. split; [|lia]. apply ends_spec; [lia|]. rewrite E. left.
  - intros Hr. destruct (IH (S i) ltac:(lia) Hr) as (Ha & Hm & Hl). split; [lia|]. split; [done|].
    intros k j Hk Hkj. destruct (Nat.eq_dec k i) as [->|]; [|by apply (Hl k j); [lia|]].
    apply ends_spec in Hkj; [|lia]. rewrite E in Hkj. by apply elem_of_nil in Hkj.
  - intros [= -> ->]. split; [lia|]. split; [|lia]. apply ends_spec; [lia|]. rewrite E. left.
Qed.

Lemma find_from_None r i f k j :
  (i + f = length w)%nat -> find_from w r i f = None -> (i <= k <= length w)%nat -> ~ matches w r k j.
Proof.
  revert i. induction f as [|f IH]; intros i Hf; cbn [find_from];
    destruct (ends w r i) as [|e t] eqn:E; try done; intros Hn Hk Hm.
  - replace k with i in Hm by lia. apply ends_spec in Hm; [|lia]. rewrite E in Hm. by apply elem_of_nil in Hm.
  - destruct (Nat.eq_dec k i) as [->|].
    + apply ends_spec in Hm; [|lia]. rewrite E in Hm. by apply elem_of_nil in Hm.
    + by apply (IH (S i)) in Hm; [|lia|done|lia].
Qed.

Lemma find_Some r i a b :
  find w r i = Some (a, b) ->
  (i <= a)%nat /\ matches w r a b /\ forall k j, (i <= k < a)%nat -> ~ matches w r k j.
Proof.
  unfold find. destruct (Nat.leb_spec i (length w)); [|done]. intros. apply find_from_Some with (length w - i)%nat; [lia|done].
Qed.

(** A match at the start of the search whose only end is [b]. *)
Lemma find_here r i b :
  (i <= length w)%nat -> (forall j, matches w r i j <-> j = b) -> find w r i = Some (i, b).
Proof.
  intros Hi Hb. unfold find. rewrite (proj2 (Nat.leb_le _ _)) by done.
  assert (forall j, j ∈ ends w r i <-> j = b) as He by (intros; rewrite ends_spec by done; apply Hb).
  destruct (length w - i)%nat; cbn [find_from]; destruct (ends w r i) as [|e t] eqn:E;
    try (by pose proof (proj2 (He b) eq_refl) as X; apply elem_of_nil in X);
    pose proof (proj1 (He e) ltac:(left)); by subst.
Qed.

(** [MatchString] is the existence of a match. *)
Lemma match_runes_spec r :
  match_runes r w = true <-> exists i j, (i <= length w)%nat /\ matches w r i j.
Proof.
  unfold match_runes, find. cbn [Nat.leb]. rewrite Nat.sub_0_r. split.
  - destruct (find_from w r 0 (length w)) as [[a b]|] eqn:E; [|done]. intros _.
    destruct (find_from_Some r 0 (length w) a b ltac:(lia) E) as (_ & Hm & _). exists a, b. split; [|done].
    clear -E. assert (forall i f, find_from w r i f = Some (a, b) -> a <= i + f)%nat as Hg.
    { intros i f. revert i. induction f as [|f IH]; intros i; cbn [find_from];
        destruct (ends w r i); try done; try (intros [= -> ->]; lia).
      intros X%IH. lia. }
    by apply (Hg 0%nat).
  - intros (i & j & Hi & Hm). destruct (find_from w r 0 (length w)) as [[a b]|] eqn:E; [done|].
    by destruct (find_from_None r 0 (length w) i j ltac:(lia) E ltac:(lia)).
Qed.

End spec.

(** ** Lemmas: the preferred match *)

Lemma head_dedup l : head (dedup [] l) = head l.
Proof. by destruct l. Qed.

Lemma head_alt `{Unicode} w r1 r2 i :
  head (ends w (Alt r1 r2) i) = match head (ends w r1 i) with Some j => Some j | None => head (ends w r2 i) end.
Proof. cbn [ends]. rewrite head_dedup. by destruct (ends w r1 i). Qed.

Lemma head_none `{Unicode} w r i : (forall j, ~ matches w r i j) -> (i <= length w)%nat -> head (ends w r i) = None.
Proof.
  intros Hn Hi. destruct (ends w r i) as [|j t] eqn:E; [done|].
  destruct (Hn j). apply ends_spec; [done|]. rewrite E. left.
Qed.

Lemma head_unique `{Unicode} w r i j :
  (i <= length w)%nat -> matches w r i j -> (forall k, matches w r i k -> k = j) -> head (ends w r i) = Some j.
Proof.
  intros Hi Hm Hu. destruct (ends w r i) as [|k t] eqn:E.
  - apply ends_spec in Hm; [|done]. rewrite E in Hm. by apply elem_of_nil in Hm.
  - simpl. f_equal. apply Hu, ends_spec; [done|]. rewrite E. left.
Qed.

Lemma find_at `{Unicode} w r i a b :
  (i <= a <= length w)%nat -> (forall k j, (i <= k < a)%nat -> ~ matches w r k j) ->
  head (ends w r a) = Some b -> find w r i = Some (a, b).
Proof.
  intros Hi Hn Hb. unfold find. rewrite (proj2 (Nat.leb_le _ _)) by lia.
  assert (length w - i = (a - i) + (length w - a))%nat as -> by lia.
  assert (exists d, a = i + d)%nat as [d ->] by (exists (a - i)%nat; lia).
  replace (i + d - i)%nat with d by lia. generalize (length w - (i + d))%nat as f. intros f.
  revert i Hi Hn Hb. induction d as [|d IH]; intros i Hi Hn Hb.
  - rewrite Nat.add_0_r in *. destruct f; cbn [find_from Nat.add]; destruct (ends w r i); naive_solver.
  - cbn [find_from Nat.add]. pose proof (head_none w r i (fun j => Hn i j ltac:(lia)) ltac:(lia)) as Hh.
    destruct (ends w r i); [|done]. replace (i + S d)%nat with (S i + d)%nat in * by lia.
    apply IH; [lia| |done]. intros k j Hk. apply Hn. lia.
Qed.

(** A class that every rune passes, repeated, reaches every position. *)
Lemma star_any `{Unicode} w g c i j :
  (forall r, cls_test c r = true) -> (i <= j <= length w)%nat -> matches w (Star g (Chr c)) i j.
Proof.
  intros Hc Hij. assert (exists d, j = i + d)%nat as [d ->] by (exists (j - i)%nat; lia).
  revert i Hij. induction d as [|d IH]; intros i Hij; [rewrite Nat.add_0_r; constructor|].
  destruct (lookup_lt_is_Some_2 w i ltac:(lia)) as [x Hx].
  apply M_star_cons with (S i); [by apply M_chr with x|].
  replace (i + S d)%nat with (S i + d)%nat by lia. apply IH. lia.
Qed.

Lemma MatchString_spec `{Unicode} p r s :
  compile p = Some r ->
  MatchString p s = true <->
  exists i j, (i <= length (runes_of s))%nat /\ matches (runes_of s) r i j.
Proof. unfold MatchString. intros ->. apply match_runes_spec. Qed.

(** A rune range contains its ends, whatever the case folding. *)
Lemma cls_test_lit `{Unicode} fl r : cls_test (mkCls fl false [(false, [(r, r)])]) r = true.
Proof.
  assert (in_range (r, r) r = true) as Hr.
  { unfold in_range. cbn [fst snd]. by rewrite Z.leb_refl. }
  unfold cls_test. cbn [cls_fold cls_neg cls_items existsb fst snd].
  destruct fl; unfold in_range_fold; by rewrite Hr.
Qed.

(** [flit c]: the literal rune [c] under the flag i. Below the ASCII letters
    case folding is the identity, as Unicode has it. *)
Definition flit (c : Z) : re := Chr (mkCls true false [(false, [(c, c)])]).

Class FoldLaws `{Unicode} : Prop :=
  fold_nonletter : forall r r', 0 <= r < 65 -> rune_fold r = rune_fold r' -> r' = r.

Lemma flit_inv `{FoldLaws} w c i j :
  0 <= c < 65 -> matches w (flit c) i j -> w !! i = Some c /\ j = S i.
Proof.
  intros Hc. inversion 1 as [|c' i' r Hr Ht| | | | | |]; subst. split; [|done].
  unfold cls_test in Ht. cbn [cls_fold cls_neg cls_items existsb fst snd] in Ht.
  unfold in_range_fold, in_range in Ht. cbn [fst snd] in Ht.
  destruct ((c <=? r) && (r <=? c)) eqn:E.
  { apply andb_true_iff in E as [?%Z.leb_le ?%Z.leb_le]. rewrite Hr. f_equal. lia. }
  replace (c - c + 1) with 1 in Ht by lia. change (seqZ c 1) with [c] in Ht.
  cbn [existsb] in Ht. rewrite !orb_false_r in Ht. cbn [xorb] in Ht.
  apply Z.eqb_eq, fold_nonletter in Ht; [|done]. by subst.
Qed.

Lemma flit_intro `{Unicode} w c i : w !! i = Some c -> matches w (flit c) i (S i).
Proof. intros Hc. apply M_chr with c; [done|apply cls_test_lit]. Qed.

Lemma cat_inv `{Unicode} w r1 r2 i k :
  matches w (Cat r1 r2) i k <-> exists j, matches w r1 i j /\ matches w r2 j k.
Proof. split; [inversion 1; subst; eauto|intros (j & ? & ?); by apply M_cat with j]. Qed.

Lemma alt_inv `{Unicode} w r1 r2 i k :
  matches w (Alt r1 r2) i k <-> matches w r1 i k \/ matches w r2 i k.
Proof. split; [inversion 1; subst; tauto|intros [?|?]; [by apply M_alt_l|by apply M_alt_r]]. Qed.

#[export] Instance unicode_ascii_fold : @FoldLaws unicode_ascii.
Proof.
  intros r r' Hr. unfold rune_fold, unicode_ascii, ascii_rune_lower.
  repeat case_match; b2p; lia.
Qed.

(** ** Texts that contain a literal

    [lits cs] is the expression [compile] gives for the literal [cs] under
    the flag i: it matches at every occurrence of [cs]. *)

Fixpoint lits (cs : list Z) : re :=
  match cs with
  | [] => Eps
  | [c] => Chr (mkCls true false [(false, [(c, c)])])
  | c :: cs => Cat (Chr (mkCls true false [(false, [(c, c)])])) (lits cs)
  end.

Lemma matches_lits `{Unicode} a cs b :
  matches (a ++ cs ++ b) (lits cs) (length a) (length a + length cs).
Proof.
  revert a. induction cs as [|c cs IH]; intros a.
  { rewrite Nat.add_0_r. constructor. }
  assert (matches (a ++ (c :: cs) ++ b) (Chr (mkCls true false [(false, [(c, c)])])) (length a)
            (S (length a))) as Hc.
  { apply M_chr with c; [|apply cls_test_lit]. by apply list_lookup_middle. }
  destruct cs as [|d cs].
  { cbn [lits length]. rewrite Nat.add_1_r. exact Hc. }
  change (lits (c :: d :: cs)) with (Cat (Chr (mkCls true false [(false, [(c, c)])])) (lits (d :: cs))).
  apply M_cat with (S (length a)); [exact Hc|].
  specialize (IH (a ++ [c])%list). rewrite length_app, <- app_assoc in IH. cbn [length app] in IH.
  replace (S (length a)) with (length a + 1)%nat by lia.
  replace (length a + length (c :: d :: cs))%nat with (length a + 1 + S (length cs))%nat by (cbn [length]; lia).
  exact IH.
Qed.

(** ** Examples *)

Module Examples.
#[local] Existing Instance unicode_ascii.

Definition test (p s : string) : bool := MatchString p s.

Example re_union : test "(?i)(?:\b(?:union|union\s+all)\s+select\b)" "1 UNION  select 2" = true.
Proof. vm_compute. reflexivity. Qed.
Example re_word : test "(?i)\bselect\b" "selected" = false.
Proof. vm_compute. reflexivity. Qed.
Example re_bounds : test "^\d{3}[- ]?\d{2,4}$" "123-4567" = true.
Proof. vm_compute. reflexivity. Qed.
Example re_bounds' : test "^\d{3}[- ]?\d{2,4}$" "123-45678" = false.
Proof. vm_compute. reflexivity. Qed.
Example re_lazy : ReplaceAllString "(?is)(?:/\*.*?\*|--.*?$|#.*?$|--\s)" "a/*b*/c -- d" " " = "a /c  ".
Proof. vm_compute. reflexivity. Qed.
Example re_all : FindAll "(\w+)\s*:" "{ a : user b: c }" = [(2, 5); (11, 13)]%nat.
Proof. vm_compute. reflexivity. Qed.
Example re_neg : test "<[^>]*>x{,2}" "a<b c>x{,2}" = true.
Proof. vm_compute. reflexivity. Qed.
Example re_hex : test "[\x{200B}-\x{200D}]" (of_bytes [65; 226; 128; 140]) = true.
Proof. vm_compute. reflexivity. Qed.
Example re_empty : ReplaceAllString "a*" "baac" "x" = "xbxcx".
Proof. vm_compute. reflexivity. Qed.
End Examples.
