(* ===== verification/Json.v ===== *)
(** * JSON: what the source uses of Go's [encoding/json]

    [Unmarshal] into [interface{}], maps and slices of maps. A number keeps
    its text; a number outside the range of a float64 is an error, as in Go.
    Strings are decoded as Go decodes them: escapes, surrogate pairs, and
    U+FFFD for what is not UTF-8. The parser's fuel is the length of the text:
    every call reads a byte. *)

From S2P Require Import Prelude Float64 GoStr.
From Stdlib Require Import SpecFloat.

#[local] Open Scope string_scope.
#[local] Open Scope Z_scope.

Inductive json : Type :=
| JNull
| JBool (b : bool)
| JNumber (text : string)
| JString (s : string)
| JArray (l : list json)
| JObject (l : list (string * json)).

Definition json_space (c : ascii) : bool :=
  Ascii.eqb c " " || (byte_of c =? 9) || (byte_of c =? 10) || (byte_of c =? 13).
Fixpoint skip_ws (s : string) : string :=
  match s with String c t => if json_space c then skip_ws t else s | "" => "" end.

(** ** Strings *)

Definition hex_digit (c : ascii) : option Z :=
  if is_digit c then Some (byte_of c - 48)
  else let l := byte_of (ascii_lower c) in
       if (97 <=? l) && (l <=? 102) then Some (l - 87) else None.

(** Four hexadecimal digits. *)
Definition hex4 (s : string) : option (Z * string) :=
  match s with
  | String a (String b (String c (String d t))) =>
      a ← hex_digit a; b ← hex_digit b; c ← hex_digit c; d ← hex_digit d;
      Some (a * 4096 + b * 256 + c * 16 + d, t)
  | _ => None
  end.

Definition is_surrogate (r : Z) : bool := (55296 <=? r) && (r <? 57344).

(** The rune of [\uXXXX], with the second half of a surrogate pair when it
    follows; a lone half is U+FFFD and only itself is consumed. *)
Definition unicode_escape (s : string) : option (Z * string) :=
  '(r, t) ← hex4 s;
  if is_surrogate r then
    match t with
    | String bs (String u t') =>
        if Ascii.eqb bs "\" && Ascii.eqb u "u" then
          '(r2, t'') ← hex4 t';
          if (r <? 56320) && (56320 <=? r2) && (r2 <? 57344)
          then Some ((r - 55296) * 1024 + (r2 - 56320) + 65536, t'')
          else Some (RuneError, t)
        else Some (RuneError, t)
    | _ => Some (RuneError, t)
    end
  else Some (r, t).

Definition simple_escape (c : ascii) : option Z :=
  let isc (d : ascii) := Ascii.eqb c d in
  if (byte_of c =? 34) || isc "\"%char || isc "/"%char then Some (byte_of c)
  else if isc "b"%char then Some 8
  else if isc "f"%char then Some 12
  else if isc "n"%char then Some 10
  else if isc "r"%char then Some 13
  else if isc "t"%char then Some 9
  else None.

(** The rest of a string after its opening quote: the raw bytes decoded so
    far are kept reversed in [acc]. *)
Fixpoint string_tail (fuel : nat) (acc : list Z) (s : string) : option (list Z * string) :=
  match fuel, s with
  | S f, String c t =>
      if byte_of c =? 34 then Some (reverse acc, t)
      else if byte_of c <? 32 then None
      else if Ascii.eqb c "\" then
        match t with
        | String e t' =>
            if Ascii.eqb e "u" then
              '(r, t'') ← unicode_escape t';
              string_tail f (reverse (encode_rune r) ++ acc) t''
            else b ← simple_escape e; string_tail f (b :: acc) t'
        | "" => None
        end
      else string_tail f (byte_of c :: acc) t
  | _, _ => None
  end.

(** Bytes that are not UTF-8 become U+FFFD. *)
Definition coerce_utf8 (l : list Z) : string := of_runes (runes_of (of_bytes l)).
Definition parse_string (s : string) : option (string * string) :=
  '(l, t) ← string_tail (String.length s) [] s; Some (coerce_utf8 l, t).

(** ** Numbers *)

Fixpoint span_digits (s : string) : string * string :=
  match s with
  | String c t => if is_digit c then let '(d, r) := span_digits t in (String c d, r) else ("", s)
  | "" => ("", "")
  end.

(** [int frac? exp?]: integer digits, fraction digits, exponent, and the rest. *)
Definition parse_number (s : string) : option (bool * string * string * Z * string) :=
  let '(neg, s) := match s with
                   | String c t => if Ascii.eqb c "-" then (true, t) else (false, s)
                   | "" => (false, s)
                   end in
  let '(int, s) := span_digits s in
  if String.eqb int "" || (HasPrefix int "0" && negb (String.eqb int "0")) then None
  else
    r ← match s with
        | String c t =>
            if Ascii.eqb c "." then
              let '(frac, s) := span_digits t in if String.eqb frac "" then None else Some (frac, s)
            else Some ("", s)
        | "" => Some ("", s)
        end;
    let '(frac, s) := r in
    e ← match s with
        | String c t =>
            if Ascii.eqb c "e" || Ascii.eqb c "E" then
              let '(sign, t) := match t with
                                | String d t' => if Ascii.eqb d "+" then (1, t') else
                                                 if Ascii.eqb d "-" then (-1, t') else (1, t)
                                | "" => (1, t)
                                end in
              let '(ds, s) := span_digits t in
              if String.eqb ds "" then None else Some (sign * digits_val 0 ds, s)
            else Some (0, s)
        | "" => Some (0, s)
        end;
    let '(exp, s) := e in
    Some (neg, int, frac, exp, s).

(** [strconv.ParseFloat] reports a range error: the value rounds above the
    largest float64, 2^1024 - 2^970 or more. With a leading digit at 10^309
    or above it does, below 10^308 it does not. *)
Definition float_overflow (int frac : string) (exp : Z) : bool :=
  let m := digits_val 0 (int ++ frac) in
  let e := exp - slen frac in
  let digits := slen (int ++ frac) in
  if m =? 0 then false
  else if 0 <=? e then
    if 309 <? e then true else 2 ^ 1024 - 2 ^ 970 <=? m * 10 ^ e
  else if digits + e <? 308 then false
  else (2 ^ 1024 - 2 ^ 970) * 10 ^ (- e) <=? m.

Fixpoint take_until (s rest : string) : string :=
  match s with
  | String c t => if (String.length s <=? String.length rest)%nat then "" else String c (take_until t rest)
  | "" => ""
  end.

(** ** Values *)

Definition maxNestingDepth : Z := 10000.

Fixpoint parse_value (fuel : nat) (depth : Z) (s : string) : option (json * string) :=
  match fuel with
  | O => None
  | S f =>
      match skip_ws s with
      | "" => None
      | String c t as s' =>
          if Ascii.eqb c "{" then
            if maxNestingDepth <? depth + 1 then None
            else match skip_ws t with
                 | String d r => if Ascii.eqb d "}" then Some (JObject [], r)
                                 else '(l, r) ← parse_members f (depth + 1) t; Some (JObject l, r)
                 | "" => None
                 end
          else if Ascii.eqb c "[" then
            if maxNestingDepth <? depth + 1 then None
            else match skip_ws t with
                 | String d r => if Ascii.eqb d "]" then Some (JArray [], r)
                                 else '(l, r) ← parse_elements f (depth + 1) t; Some (JArray l, r)
                 | "" => None
                 end
          else if byte_of c =? 34 then '(v, r) ← parse_string t; Some (JString v, r)
          else if HasPrefix s' "null" then Some (JNull, drop_str 4 s')
          else if HasPrefix s' "true" then Some (JBool true, drop_str 4 s')
          else if HasPrefix s' "false" then Some (JBool false, drop_str 5 s')
          else
            match parse_number s' with
            | Some (neg, int, frac, exp, r) =>
                if float_overflow int frac exp then None else Some (JNumber (take_until s' r), r)
            | None => None
            end
      end
  end
with parse_elements (fuel : nat) (depth : Z) (s : string) : option (list json * string) :=
  match fuel with
  | O => None
  | S f =>
      '(v, r) ← parse_value f depth s;
      match skip_ws r with
      | String c t =>
          if Ascii.eqb c "," then '(l, r) ← parse_elements f depth t; Some (v :: l, r)
          else if Ascii.eqb c "]" then Some ([v], t)
          else None
      | "" => None
      end
  end
with parse_members (fuel : nat) (depth : Z) (s : string) : option (list (string * json) * string) :=
  match fuel with
  | O => None
  | S f =>
      match skip_ws s with
      | String q t =>
          if byte_of q =? 34 then
            '(k, r) ← parse_string t;
            match skip_ws r with
            | String c r =>
                if Ascii.eqb c ":" then
                  '(v, r) ← parse_value f depth r;
                  match skip_ws r with
                  | String c t =>
                      if Ascii.eqb c "," then '(l, r) ← parse_members f depth t; Some ((k, v) :: l, r)
                      else if Ascii.eqb c "}" then Some ([(k, v)], t)
                      else None
                  | "" => None
                  end
                else None
            | "" => None
            end
          else None
      | "" => None
      end
  end.

(** [json.Unmarshal(data, &v)] for an [interface{}]; [None] is an error. *)
Definition Unmarshal (s : string) : option json :=
  match parse_value (2 * String.length s + 2) 0 s with
  | Some (v, r) => if String.eqb (skip_ws r) "" then Some v else None
  | None => None
  end.

(** A [map[string]interface{}] of an object: the last of equal keys wins. *)
Definition object_map (l : list (string * json)) : gmap string json :=
  fold_left (fun m p => <[fst p := snd p]> m) l ∅.

(** Decoding a value into a [map[string]interface{}] and into a slice of
    them; null gives nil. *)
Definition as_map (v : json) : option (gmap string json) :=
  match v with JObject l => Some (object_map l) | JNull => Some ∅ | _ => None end.
Definition as_maps (v : json) : option (list (gmap string json)) :=
  match v with JArray l => mapM as_map l | JNull => Some [] | _ => None end.

(** [v, ok := m[k].(string)] *)
Definition string_field (m : gmap string json) (k : string) : option string :=
  match m !! k with Some (JString s) => Some s | _ => None end.

(** Decoding an object into a struct: a key selects the field of that name
    without regard to case, the last one wins, null leaves the field as it is
    and a value of another type is an error. The field names of a struct are
    distinct without regard to case. *)
Definition member `{Unicode} {A} (decode : json -> option A) (name : string) (zero : A)
    (l : list (string * json)) : option A :=
  fold_left
    (fun acc p =>
       a ← acc;
       if EqualFold (fst p) name
       then match snd p with JNull => Some a | v => decode v end
       else Some a)
    l (Some zero).
Definition as_string (v : json) : option string := match v with JString s => Some s | _ => None end.
(** An int64 field: the number must be an integer literal in range. *)
Definition as_int64 (v : json) : option Z := match v with JNumber t => ParseInt t | _ => None end.

(** A [[]string] field; a null element is the empty string. *)
Definition as_strings (v : json) : option (list string) :=
  match v with
  | JArray l => mapM (fun e => match e with JString s => Some s | JNull => Some "" | _ => None end) l
  | _ => None
  end.
(** The members of an object that is decoded into a struct; null has none. *)
Definition as_members (v : json) : option (list (string * json)) :=
  match v with JObject l => Some l | JNull => Some [] | _ => None end.

(** [json.NewDecoder(r).Decode]: the first value; what follows is not read. *)
Definition Decode (s : string) : option json := fst <$> parse_value (2 * String.length s + 2) 0 s.

(** A number of a [map[string]interface{}]: the float64 nearest to the text. *)
Definition number_value (text : string) : f64 :=
  match parse_number text with
  | Some (neg, int, frac, exp, _) =>
      let m := digits_val 0 (int ++ frac) in
      let e := exp - slen frac in
      let x := if 0 <=? e then of_ratio (m * 10 ^ e) 1 else of_ratio m (10 ^ (- e)) in
      if neg then SFopp x else x
  | None => f0
  end.

(** ** Examples *)

Definition quoted (s : string) : string := dq ++ s ++ dq.

Example json_object :
  Unmarshal ("{" ++ quoted "a" ++ ": [1, -2.5e3, true, null], " ++ quoted "b\n\u00e9" ++ ":{} } ")
  = Some (JObject [("a", JArray [JNumber "1"; JNumber "-2.5e3"; JBool true; JNull]);
                   (of_bytes [98; 10; 195; 169], JObject [])]).
Proof. vm_compute. reflexivity. Qed.
Example json_pair : Unmarshal (quoted "\ud83d\ude00\ud83d!") = Some (JString (of_bytes [240; 159; 152; 128; 239; 191; 189; 33])).
Proof. vm_compute. reflexivity. Qed.
Example json_bad_number : Unmarshal "01" = None /\ Unmarshal "1." = None /\ Unmarshal "1e400" = None.
Proof. vm_compute. done. Qed.
Example json_largest : Unmarshal "1.7976931348623157e308" = Some (JNumber "1.7976931348623157e308").
Proof. vm_compute. reflexivity. Qed.
Example number_thirds : number_value "0.1" = of_frac 1 10 /\ number_value "-2.5e3" = of_int (-2500)
  /\ number_value "9007199254740993" = of_int 9007199254740993 /\ number_value "5e-324" = S754_finite false 1 (-1074)
  /\ number_value "1e23" = S754_finite false 5960464477539062 24.
Proof. vm_compute. done. Qed.
Example json_rest : Unmarshal "{} x" = None.
Proof. vm_compute. reflexivity. Qed.
