(* ===== verification/Types.v ===== *)
(** * Data shared by the inspectors

    The types of [internal/engine/engine.go]: actions, decisions, the parts of
    [net/http]'s request the engine reads, and the request context, with
    [NewRequestContext]. Fields that only carry handles ([mu], [Context]) are
    left out. *)

From S2P Require Import Prelude Float64 GoStr.

#[local] Open Scope string_scope.
#[local] Open Scope Z_scope.

(** ** Formatted text

    A call of [fmt.Sprintf] is kept as its format and arguments; a component
    that depends on the rendered text takes the rendering as a parameter. *)

Inductive fmt_arg : Type :=
| AInt (z : Z)
| AStr (s : string)
| AFloat (x : f64)
| ADur (d : Z)
| ATime (t : Z)
| AStrs (l : list string).

Record text : Type := Sprintf { format : string; args : list fmt_arg }.
Definition lit (s : string) : text := Sprintf s [].

(** ** Actions and decisions *)

Inductive Action : Type :=
| ActionBlock
| ActionAllow
| ActionChallenge
| ActionMonitor
| ActionRateLimit
| ActionOther (s : string).

#[export] Instance Action_eq_dec : EqDecision Action.
Proof. solve_decision. Defined.

Definition is_block (a : Action) : bool := match a with ActionBlock => true | _ => false end.
Definition is_rate_limit (a : Action) : bool :=
  match a with ActionRateLimit => true | _ => false end.

Lemma is_block_true a : is_block a = true <-> a = ActionBlock.
Proof. by destruct a. Qed.

Record Decision : Type := mkDecision {
  d_Action : Action;
  RuleID : string;
  RuleName : string;
  Severity : string;
  Score : f64;
  Evidence : text;
  Blocked : bool;
  ConfidenceScore : f64;
  Explainability : text;
  InspectorName : string
}.

(** The composite literal [&Decision{Action: ..., RuleID: ..., RuleName: ...,
    Severity: ..., Score: ..., Evidence: ...}] most detectors return. *)
Definition decision (a : Action) (id name sev : string) (score : Z) (ev : text) : Decision :=
  mkDecision a id name sev (of_int score) ev false f0 (lit "") "".

(** The same literal with an explicit [ConfidenceScore], in hundredths. *)
Definition decision_conf (a : Action) (id name sev : string) (score conf : Z) (ev : text) : Decision :=
  mkDecision a id name sev (of_int score) ev false (of_frac conf 100) (lit "") "".

(** [&Decision{Action: ActionAllow}] *)
Definition allow_decision : Decision :=
  mkDecision ActionAllow "" "" "" f0 (lit "") false f0 (lit "") "".

Definition with_action (a : Action) (b : bool) (d : Decision) : Decision :=
  mkDecision a (RuleID d) (RuleName d) (Severity d) (Score d) (Evidence d) b
    (ConfidenceScore d) (Explainability d) (InspectorName d).
Definition with_confidence (c : f64) (d : Decision) : Decision :=
  mkDecision (d_Action d) (RuleID d) (RuleName d) (Severity d) (Score d) (Evidence d) (Blocked d)
    c (Explainability d) (InspectorName d).
Definition with_explainability (e : text) (d : Decision) : Decision :=
  mkDecision (d_Action d) (RuleID d) (RuleName d) (Severity d) (Score d) (Evidence d) (Blocked d)
    (ConfidenceScore d) e (InspectorName d).
Definition with_inspector (n : string) (d : Decision) : Decision :=
  mkDecision (d_Action d) (RuleID d) (RuleName d) (Severity d) (Score d) (Evidence d) (Blocked d)
    (ConfidenceScore d) (Explainability d) n.

(** ** Requests *)

(** What [io.ReadAll] can see of a body: its bytes, and whether the stream
    ends in an error instead of EOF. *)
Record body_stream : Type := mkBody { content : string; read_fails : bool }.

(** [http.Request] as [net/http] hands it to a handler: header keys are
    canonical; cookies and the query are given parsed. *)
Record http_Request : Type := mkRequest {
  Header : gmap string (list string);
  req_Method : string;
  req_URL_Path : string;
  req_Host : string;
  RemoteAddr : string;
  Proto : string;
  ContentLength : Z;
  req_Cookies : list (string * string);
  req_Query : gmap string (list string);
  req_Body : option body_stream
}.

(** [Header.Get] and [Header.Values]. *)
Definition Values (h : gmap string (list string)) (key : string) : list string :=
  default [] (h !! CanonicalHeaderKey key).
Definition Get (h : gmap string (list string)) (key : string) : string :=
  match Values h key with v :: _ => v | [] => "" end.

Record http_Response : Type := mkResponse { StatusCode : Z }.

Record RequestContext : Type := mkContext {
  Request : option http_Request;
  Response : option http_Response;
  Site : string;
  RealIP : string;
  UserAgent : string;
  Path : string;
  Method : string;
  Headers : gmap string string;
  Cookies : gmap string string;
  QueryParams : gmap string (list string);
  FormParams : gmap string (list string);
  Body : option string;
  ContentType : string;
  SessionID : string;
  UserID : string;
  APIKey : string;
  Country : string;
  ASN : Z;
  BotScore : f64;
  ThreatScore : f64;
  Decisions : list Decision;
  IsBot : bool;
  IsKnownAttack : bool;
  StartedAt : Z;
  RequestID : text;
  Host : string;
  TLSVersion : string;
  TLSCipherSuite : string;
  JA3Hash : string
}.

(** [ctx.Headers[k]], [ctx.FormParams[k]]. *)
Definition header (ctx : RequestContext) (k : string) : string := lookup_default "" (Headers ctx) k.
Definition form (ctx : RequestContext) (k : string) : list string :=
  lookup_default [] (FormParams ctx) k.
Definition query (ctx : RequestContext) (k : string) : list string :=
  lookup_default [] (QueryParams ctx) k.

(** [ctx.Request.Header] for the inspectors that use it without a nil check:
    a nil request panics. *)
Definition request_header (ctx : RequestContext) (k : string) : outcome string :=
  match Request ctx with Some r => Returns (Get (Header r) k) | None => Panics end.

(** [len(ctx.Body)]; a nil slice has length 0. *)
Definition body_len (ctx : RequestContext) : Z :=
  match Body ctx with Some b => slen b | None => 0 end.
Definition body_str (ctx : RequestContext) : string := default "" (Body ctx).

(** The fields the engine updates. *)
Definition set_inspection (d : list Decision) (threat bot : f64) (attack : bool)
    (c : RequestContext) : RequestContext :=
  mkContext (Request c) (Response c) (Site c) (RealIP c) (UserAgent c) (Path c) (Method c)
    (Headers c) (Cookies c) (QueryParams c) (FormParams c) (Body c) (ContentType c) (SessionID c)
    (UserID c) (APIKey c) (Country c) (ASN c) bot threat d (IsBot c) attack (StartedAt c)
    (RequestID c) (Host c) (TLSVersion c) (TLSCipherSuite c) (JA3Hash c).

(** ** NewRequestContext *)

Definition maxBodySize : Z := 10 * 2 ^ 20.

(** The first [n] bytes of a string. *)
Fixpoint stake (n : Z) (s : string) : string :=
  match s with
  | "" => ""
  | String c s' => if 0 <? n then String c (stake (n - 1) s') else ""
  end.

(** [io.ReadAll(io.LimitReader(b, n))]: the bytes read and whether the read
    failed; a body longer than the limit ends at the limit without error. *)
Definition read_limited (n : Z) (b : body_stream) : string * bool :=
  if n <=? slen (content b) then (stake n (content b), false)
  else (content b, read_fails b).

(** What [NewRequestContext] makes of the body: the context's copy and the
    request's replacement stream. *)
Definition read_body (b : option body_stream) : option string * option body_stream :=
  match b with
  | None => (None, None)
  | Some bs =>
      let '(body, fails) := read_limited (maxBodySize + 1) bs in
      if fails then (None, Some (mkBody "" true))
      else
        ((if maxBodySize <? slen body then Some (stake maxBodySize body) else Some body),
         Some (mkBody body false))
  end.

(** [for k, v := range r.Header { ctx.Headers[k] = v[0] }]: an empty value
    list would panic. *)
Definition header_firsts (h : gmap string (list string)) : outcome (gmap string string) :=
  if forallb (fun p => match snd p with [] => false | _ => true end) (map_to_list h)
  then Returns (omap (fun v => head v) h)
  else Panics.

Definition cookie_map (cs : list (string * string)) : gmap string string :=
  fold_left (fun m p => <[fst p := snd p]> m) cs ∅.

(** [NewRequestContext(r)] with the two clock readings it makes; the request
    comes back with its body replaced. *)
Definition NewRequestContext (now1 now2 : Z) (r : http_Request)
    : outcome (RequestContext * http_Request) :=
  let xff := Get (Header r) "X-Forwarded-For" in
  let xri := Get (Header r) "X-Real-IP" in
  let realIP := if String.eqb xff "" then if String.eqb xri "" then RemoteAddr r else xri else xff in
  let! headers := header_firsts (Header r) in
  let '(body, stream) := read_body (req_Body r) in
  let r' := mkRequest (Header r) (req_Method r) (req_URL_Path r) (req_Host r) (RemoteAddr r)
              (Proto r) (ContentLength r) (req_Cookies r) (req_Query r) stream in
  Returns
    (mkContext (Some r') None "" realIP (Get (Header r) "User-Agent") (req_URL_Path r)
       (req_Method r) headers (cookie_map (req_Cookies r)) (req_Query r) ∅ body
       (Get (Header r) "Content-Type") "" "" "" "" 0 f0 f0 [] false false now1
       (Sprintf "%x" [AInt now2]) (req_Host r) "" "" "", r').

(** ** Lemmas *)

Lemma slen_cons c s : slen (String c s) = 1 + slen s.
Proof. unfold slen. cbn [String.length]. lia. Qed.

Lemma slen_stake n s : slen (stake n s) = Z.max 0 (Z.min n (slen s)).
Proof.
  revert n. induction s as [|c s IH]; intros n; [cbn [stake]; change (slen "") with 0; lia|].
  cbn [stake]. pose proof (slen_nonneg s). destruct (Z.ltb_spec 0 n).
  - rewrite !slen_cons, IH. lia.
  - rewrite slen_cons. change (slen "") with 0. lia.
Qed.

Lemma stake_all n s : slen s <= n -> stake n s = s.
Proof.
  revert n. induction s as [|c s IH]; intros n Hn; [done|]. unfold slen in *.
  cbn [stake String.length] in *. rewrite (proj2 (Z.ltb_lt 0 n)) by lia.
  rewrite IH; [done|lia].
Qed.

Lemma stake_stake m n s : m <= n -> stake m (stake n s) = stake m s.
Proof.
  revert m n. induction s as [|c s IH]; intros m n H; [done|]. cbn [stake].
  destruct (Z.ltb_spec 0 n), (Z.ltb_spec 0 m); cbn [stake]; try done; try lia.
  - rewrite (proj2 (Z.ltb_lt 0 m)) by lia. by rewrite IH by lia.
  - rewrite (proj2 (Z.ltb_ge 0 m)) by lia. done.
Qed.

