(* ===== verification/Targets.v ===== *)
(** * The values the injection engines look at

    [extractTargets] of [sqli.go], [rce.go] and [xss.go]: query and form
    values, the body, header and cookie values, each with its source. The
    three engines build the same list, but for the headers the XSS engine
    keeps. Maps are ranged over in the order of their [MapRange] instance;
    [elem_of_targets] is the order-independent content of the list. *)

From S2P Require Import Prelude GoStr Types Regexp.

#[local] Open Scope string_scope.
#[local] Open Scope Z_scope.

Record targetValue : Type := mkTarget { value : string; source : string }.

Section targets.
Context `{MapRange (list string)} `{MapRange string}.

Definition multi_targets (prefix : string) (m : gmap string (list string)) : list targetValue :=
  flat_map (fun p => map (fun val => mkTarget val (prefix ++ fst p)) (snd p)) (map_range m).
Definition single_targets (prefix : string) (keep : string -> bool) (m : gmap string string)
    : list targetValue :=
  flat_map (fun p => if keep (fst p) then [mkTarget (snd p) (prefix ++ fst p)] else []) (map_range m).

(** [keep] tells which headers are looked at. *)
Definition extractTargets (keep : string -> bool) (ctx : RequestContext) : list targetValue :=
  (multi_targets "query:" (QueryParams ctx)
   ++ multi_targets "form:" (FormParams ctx)
   ++ match Body ctx with Some b => [mkTarget b "body"] | None => [] end
   ++ single_targets "header:" keep (Headers ctx)
   ++ single_targets "cookie:" (fun _ => true) (Cookies ctx))%list.

(** A request carries a value. *)
Definition carries (keep : string -> bool) (ctx : RequestContext) (v : string) : Prop :=
  (exists k vs, QueryParams ctx !! k = Some vs /\ v ∈ vs)
  \/ (exists k vs, FormParams ctx !! k = Some vs /\ v ∈ vs)
  \/ Body ctx = Some v
  \/ (exists k, keep k = true /\ Headers ctx !! k = Some v)
  \/ (exists k, Cookies ctx !! k = Some v).

Lemma elem_of_multi prefix m v :
  (exists src, mkTarget v src ∈ multi_targets prefix m) <-> exists k vs, m !! k = Some vs /\ v ∈ vs.
Proof.
  unfold multi_targets. setoid_rewrite list_elem_of_In. setoid_rewrite in_flat_map. split.
  - intros (src & [k vs] & Hk%list_elem_of_In & Hv). apply elem_of_map_range in Hk. cbn [fst snd] in Hv.
    apply in_map_iff in Hv as (x & [= <- _] & Hx). eauto.
  - intros (k & vs & Hk & Hv). exists (prefix ++ k), (k, vs). split.
    + apply list_elem_of_In. by apply elem_of_map_range.
    + cbn [fst snd]. apply in_map_iff. eauto.
Qed.

Lemma elem_of_single prefix keep m v :
  (exists src, mkTarget v src ∈ single_targets prefix keep m)
  <-> exists k, keep k = true /\ m !! k = Some v.
Proof.
  unfold single_targets. setoid_rewrite list_elem_of_In. setoid_rewrite in_flat_map. split.
  - intros (src & [k x] & Hk%list_elem_of_In & Hv). apply elem_of_map_range in Hk. cbn [fst snd] in Hv.
    destruct (keep k) eqn:E; [|done]. destruct Hv as [[= <- _]|[]]. eauto.
  - intros (k & E & Hk). exists (prefix ++ k), (k, v). split.
    + apply list_elem_of_In. by apply elem_of_map_range.
    + cbn [fst snd]. rewrite E. by left.
Qed.

Lemma elem_of_targets keep ctx v :
  (exists src, mkTarget v src ∈ extractTargets keep ctx) <-> carries keep ctx v.
Proof.
  unfold extractTargets, carries. rewrite <- (elem_of_multi "query:" (QueryParams ctx)), <- (elem_of_multi "form:" (FormParams ctx)).
  rewrite <- (elem_of_single "header:" keep). setoid_rewrite elem_of_app. setoid_rewrite elem_of_app.
  setoid_rewrite elem_of_app. setoid_rewrite elem_of_app.
  assert ((exists k, Cookies ctx !! k = Some v)
          <-> exists src, mkTarget v src ∈ single_targets "cookie:" (fun _ => true) (Cookies ctx)) as ->.
  { rewrite elem_of_single. naive_solver. }
  assert ((exists src, mkTarget v src ∈ match Body ctx with Some b => [mkTarget b "body"] | None => [] end)
          <-> Body ctx = Some v) as <-.
  { destruct (Body ctx); setoid_rewrite list_elem_of_In; cbn; naive_solver. }
  naive_solver.
Qed.

End targets.

(** [for _, target := range targets { if dec := f(target); dec != nil ... }] *)
Definition first_decision (f : targetValue -> option Decision) (ts : list targetValue) : option Decision :=
  first_some f ts.

Lemma first_decision_None f ts : first_decision f ts = None <-> forall t, t ∈ ts -> f t = None.
Proof. apply first_some_None. Qed.

Lemma first_decision_Some f ts d :
  first_decision f ts = Some d -> exists t, t ∈ ts /\ f t = Some d.
Proof. apply first_some_Some. Qed.

(** [for _, pattern := range patterns { if pattern.MatchString(value) ... }] *)
Definition any_match `{Unicode} (patterns : list string) (v : string) : bool :=
  existsb (fun p => MatchString p v) patterns.

Lemma any_match_intro `{Unicode} patterns p v :
  p ∈ patterns -> MatchString p v = true -> any_match patterns v = true.
Proof. intros Hp Hm. apply existsb_exists. exists p. by rewrite <- list_elem_of_In. Qed.

(** An alternative of a pattern is an ASCII literal the value contains. *)
Lemma match_literal `{Unicode} p r cs v :
  compile p = Some r -> cs <> "" -> is_ascii cs = true -> Contains v cs = true ->
  (forall w i j, matches w (lits (bytes_of cs)) i j -> matches w r i j) ->
  MatchString p v = true.
Proof.
  intros Hp Hcs Ha (a & b & ->)%Contains_spec Hr. apply (MatchString_spec p r); [done|].
  rewrite runes_of_infix by done. eexists _, _. split; [|apply Hr, matches_lits].
  rewrite length_app. lia.
Qed.
