(* ===== verification/Rce.v ===== *)
(** * Remote code execution: [internal/engine/rce.go]

    The pattern groups of [compilePatterns] and [Inspect]. The patterns are
    the strings of the source; [rce_patterns_compile] checks that each of them is
    in the covered syntax. *)

From S2P Require Import Prelude Float64 GoStr Regexp Types Targets.

#[local] Open Scope string_scope.
#[local] Open Scope Z_scope.

Definition shellPatterns : list string :=
  ["(?i)(?:;\s*(?:id|whoami|pwd|ls|cat|nc|bash|sh|cmd|powershell|wget|curl|python|perl|ruby|php)\b)";
   "(?i)(?:\|\s*(?:id|whoami|pwd|ls|cat|nc|bash|sh|cmd|powershell|wget|curl)\b)";
   "(?i)(?:`[^`]*?(?:id|whoami|pwd|ls|cat|nc|bash|sh|cmd|powershell|wget|curl)[^`]*?`)";
   "(?i)(?:\$\([^)]*?(?:id|whoami|pwd|ls|cat|nc|bash|sh|cmd|powershell)[^)]*?\))";
   "(?i)(?:\b(?:exec|passthru|shell_exec|system|proc_open|popen|pcntl_exec|eval|assert|create_function|call_user_func|array_map|preg_replace)\s*\()";
   "(?i)(?:cmd\.exe|command\.com|%COMSPEC%)";
   "(?i)(?:\|\||&&)\s*(?:id|whoami|pwd|dir|type|more|find)";
   "(?i)(?:;\s*(?:echo|print|cat|type|dir)\s+[\w/\\:.~-]+)";
   "(?i)(?:\$\(<\([\w\s/\\.-]+\)\))";
   "(?i)(?:<(?:[\w/\\]+\s)*[\w/\\]+)";
   "(?i)(?:>(?:[\w/\\]+\s)*[\w/\\]+)"].

Definition sstiPatterns : list string :=
  ["(?i)(?:{{[\s\S]*?(?:config|self|request|app|g|class|base|subclasses|import|open|popen|os|system|eval|exec|mro|__builtins__)[\s\S]*?}})";
   "(?i)(?:{%[\s\S]*?(?:config|self|request|app|g|class|base|subclasses|import|open|popen|os|system|eval|exec)[\s\S]*?%})";
   "(?i)(?:\$\{[\s\S]*?(?:class|forName|getRuntime|exec|invoke|newInstance|getMethod|access|process)[\s\S]*?\})";
   "(?i)(?:#{[\s\S]*?(?:exec|system|eval|import|os|subprocess|open|read)[\s\S]*?})";
   "(?i)(?:<%=?[\s\S]*?(?:exec|system|eval|Runtime|Process|cmd)[\s\S]*?%>)";
   "(?i)(?:\${{[\s\S]*?(?:exec|system|eval|import|os|subprocess)[\s\S]*?}})"].

Definition elPatterns : list string :=
  ["(?i)(?:\$\{[\s\S]*?(?:T\(|jndi|ldap|rmi|iiop|corba)[\s\S]*?\})";
   "(?i)(?:\$\{[\s\S]*?(?:Runtime|ProcessBuilder|getRuntime|exec|forName|getMethod|invoke|newInstance)[\s\S]*?\})";
   "(?i)(?:\$\{[\s\S]*?(?:application|session|request|pageContext|facesContext)[\s\S]*?\})";
   "(?i)(?:%\{[\s\S]*?(?:exec|system|eval|java\.lang|Runtime)[\s\S]*?\})";
   "(?i)(?:\$\{[\s\S]*?(?:@org\.apache|@java\.lang|@javax\.script)[\s\S]*?\})";
   "(?i)(?:\#\{[\s\S]*?(?:exec|system|eval|java\.lang|Runtime)[\s\S]*?\})"].

Definition deserPatterns : list string :=
  ["(?i)(?:rO0|aced0005|H4sI|BAMARQ)";
   "(?i)(?:\b(?:ObjectInputStream|readObject|unserialize|unserialize|deserialize|deserialize|pickle|loads)\b)";
   "(?i)(?:ysoserial|gadget|commons-collections|commons-collections4|C3P0|javassist|jython|rome|spring|hibernate)";
   "(?i)(?:\xac\xed\x00\x05|#002|#003)";
   "(?i)(?:O:[0-9]+:" ++ dq ++ "[^" ++ dq ++ "]+" ++ dq ++ ":[0-9]+:\{)";
   "(?i)(?:a:[0-9]+:\{i:[0-9]+;s:[0-9]+:" ++ dq ++ ")";
   "(?i)(?:%00\*|%00[0-9a-f]{2}|\\\\x00)";
   "(?i)(?:Dcs\.run|System\.Runtime|Microsoft\.CodeAnalysis)"].

Definition log4jPatterns : list string :=
  ["(?i)(?:\$\{jndi:ldap://[\s\S]*?\})";
   "(?i)(?:\$\{jndi:rmi://[\s\S]*?\})";
   "(?i)(?:\$\{jndi:dns://[\s\S]*?\})";
   "(?i)(?:\$\{jndi:iiop://[\s\S]*?\})";
   "(?i)(?:\$\{jndi:corba://[\s\S]*?\})";
   "(?i)(?:\$\{jndi:nis://[\s\S]*?\})";
   "(?i)(?:\$\{jndi:nds://[\s\S]*?\})";
   "(?i)(?:\$\{jndi:[\s\S]*?\})";
   "(?i)(?:\$\{(?:lower|upper|env|sys|log4j|ctx|date|bundle):[\s\S]*?\})"].

Definition fileInclusion : list string :=
  ["(?i)(?:file://[\s\S]*?\})";
   "(?i)(?:php://(?:input|filter|memory|temp|expect)\})";
   "(?i)(?:\.\./\.\./|\.\.\\\.\.\\)";
   "(?i)(?:/etc/passwd|/etc/shadow|/etc/hosts|/etc/hostname|/proc/self|/proc/environ)";
   "(?i)(?:/windows/win\.ini|/boot\.ini|/autoexec\.bat|/windows/system32)";
   "(?i)(?:include\(|include_once\(|require\(|require_once\(|fopen\(|file_get_contents\(|readfile\(|file\(|parse_ini_file\(|show_source\(|highlight_file\(\))";
   "(?i)(?:data://|expect://|zip://|compress.zlib://|compress.bzip2://|phar://)"].

Definition group `{Unicode} (patterns : list string) (value : string) (d : Decision) : option Decision :=
  if any_match patterns value then Some d else None.

Definition inspectValue `{Unicode} (value source : string) : option Decision :=
  if String.eqb value "" then None
  else
    group shellPatterns value
      (decision ActionBlock "RCE001" "OS Command Injection" "critical" 95
         (Sprintf "shell metacharacter injection in %s" [AStr source]))
    <||> group sstiPatterns value
      (decision ActionBlock "RCE002" "SSTI Detected" "critical" 90
         (Sprintf "SSTI pattern in %s" [AStr source]))
    <||> group elPatterns value
      (decision ActionBlock "RCE003" "EL Injection" "critical" 90
         (Sprintf "EL injection pattern in %s" [AStr source]))
    <||> group deserPatterns value
      (decision ActionBlock "RCE004" "Deserialization Attack" "critical" 95
         (Sprintf "deserialization gadget chain in %s" [AStr source]))
    <||> group log4jPatterns value
      (decision ActionBlock "RCE005" "Log4Shell/JNDI Injection" "critical" 100
         (Sprintf "Log4Shell JNDI injection in %s" [AStr source]))
    <||> group fileInclusion value
      (decision ActionBlock "RCE006" "File Inclusion" "critical" 85
         (Sprintf "file inclusion detected in %s" [AStr source])).

Definition Inspect `{Unicode} `{MapRange (list string)} `{MapRange string} (ctx : RequestContext)
    : option Decision :=
  first_decision (fun t => inspectValue (value t) (source t)) (extractTargets (fun _ => true) ctx).

(** ** Lemmas *)

Definition all_patterns : list string :=
  (shellPatterns ++ sstiPatterns ++ elPatterns ++ deserPatterns ++ log4jPatterns ++ fileInclusion)%list.

Lemma rce_patterns_compile : forallb compiles all_patterns = true.
Proof. by vm_compute. Qed.

Lemma inspectValue_Some `{Unicode} v src :
  v <> "" -> any_match all_patterns v = true ->
  exists d, inspectValue v src = Some d.
Proof.
  intros Hv%String.eqb_neq. unfold inspectValue, group, all_patterns, any_match.
  rewrite !existsb_app, Hv. intros Hm.
  repeat match goal with |- context [existsb ?f ?l] => destruct (existsb f l) end;
    try discriminate Hm; eexists; reflexivity.
Qed.

Lemma inspectValue_inv `{Unicode} v src d :
  inspectValue v src = Some d ->
  v <> "" /\ any_match all_patterns v = true /\ d_Action d = ActionBlock
  /\ exists score, 85 <= score <= 100 /\ Score d = of_int score.
Proof.
  unfold inspectValue, group, all_patterns, any_match. rewrite !existsb_app.
  destruct (String.eqb_spec v ""); [done|].
  repeat match goal with |- context [existsb ?f ?l] => destruct (existsb f l) end;
    intros [= <-]; (split; [done|split; [done|split; [done|]]]); cbn [Score decision];
    eexists; (split; [|reflexivity]); lia.
Qed.

Lemma Inspect_carries `{Unicode} `{MapRange (list string)} `{MapRange string} ctx v :
  carries (fun _ => true) ctx v -> v <> "" -> any_match all_patterns v = true ->
  exists d, Inspect ctx = Some d /\ d_Action d = ActionBlock.
Proof.
  intros [src Ht]%elem_of_targets Hv Hm. destruct (Inspect ctx) as [d|] eqn:E.
  - exists d. split; [done|].
    by apply first_decision_Some in E as ([w s] & _ & (_ & _ & Hd & _)%inspectValue_inv).
  - destruct (inspectValue_Some v src Hv Hm) as [d Hd].
    apply (proj1 (first_decision_None _ _)) with (t := mkTarget v src) in E; [|done].
    cbn [value source] in E. congruence.
Qed.

Lemma all_patterns_deser `{Unicode} v : any_match deserPatterns v = true -> any_match all_patterns v = true.
Proof.
  unfold any_match, all_patterns. rewrite !existsb_app. intros ->. by rewrite !orb_true_r.
Qed.

(** ** Properties *)

(** The RCE engine blocks a request exactly when some non-empty query,
    form, header, cookie or body value matches one of its patterns, whatever
    order the maps are ranged over in; every decision is a block of score 85
    to 100. *)
Theorem rce_blocks_iff `{Unicode} `{MapRange (list string)} `{MapRange string} ctx :
  (Inspect ctx <> None
   <-> exists v, carries (fun _ => true) ctx v /\ v <> "" /\ any_match all_patterns v = true)
  /\ (forall d, Inspect ctx = Some d ->
       d_Action d = ActionBlock /\ exists score, 85 <= score <= 100 /\ Score d = of_int score).
Proof.
  split; [split|].
  - intros Hd. destruct (Inspect ctx) as [d|] eqn:E; [|done].
    apply first_decision_Some in E as ([v src] & Ht & (Hv & Hm & _)%inspectValue_inv).
    exists v. split; [|done]. apply elem_of_targets. by exists src.
  - intros (v & Hc & Hv & Hm). by destruct (Inspect_carries ctx v Hc Hv Hm) as (d & -> & _).
  - intros d ([v src] & _ & (_ & _ & Hd)%inspectValue_inv)%first_decision_Some. exact Hd.
Qed.

Lemma rome_matches `{Unicode} v :
  Contains v "rome" = true -> any_match deserPatterns v = true.
Proof.
  intros Hv.
  apply any_match_intro with "(?i)(?:ysoserial|gadget|commons-collections|commons-collections4|C3P0|javassist|jython|rome|spring|hibernate)".
  { unfold deserPatterns. rewrite !elem_of_cons. tauto. }
  eapply match_literal with (cs := "rome"); [by vm_compute|done|done|exact Hv|].
  intros w i j Hm. repeat first [exact Hm | apply M_alt_l; exact Hm | apply M_alt_r].
Qed.

(** Every request that carries the text "rome" in any value is blocked,
    by the gadget pattern at the latest: among them every request of a browser
    whose User-Agent header names Chrome. *)
Theorem rce_blocks_chrome `{Unicode} `{MapRange (list string)} `{MapRange string} ctx k v :
  Headers ctx !! k = Some v -> Contains v "rome" = true ->
  exists d, Inspect ctx = Some d /\ d_Action d = ActionBlock.
Proof.
  intros Hk Hv. apply (Inspect_carries ctx v).
  - right. right. right. left. by exists k.
  - by intros ->.
  - by apply all_patterns_deser, rome_matches.
Qed.

(** ** Witnesses *)

#[local] Existing Instance unicode_ascii.

Definition firefox : string :=
  "Mozilla/5.0 (X11; Linux x86_64; rv:128.0) Gecko/20100101 Firefox/128.0".
Definition chrome : string :=
  "Mozilla/5.0 (X11; Linux x86_64) AppleWebKit/537.36 (KHTML, like Gecko) Chrome/126.0.0.0 Safari/537.36".
Definition browser_request (ua : string) : RequestContext :=
  mkContext None None "" "" ua "/" "GET" {["User-Agent" := ua]} ∅ ∅ ∅ None "" "" "" "" "" 0 f0 f0 []
    false false 0 (lit "") "" "" "" "".

Lemma rce_blocks_chrome_witness :
  Contains chrome "rome" = true
  /\ exists d, Inspect (browser_request chrome) = Some d /\ d_Action d = ActionBlock.
Proof. split; [done|]. by apply (rce_blocks_chrome (browser_request chrome) "User-Agent" chrome). Defined.

Lemma rce_blocks_iff_witness :
  Inspect (browser_request chrome) <> None
  /\ (exists v, carries (fun _ => true) (browser_request chrome) v /\ v <> "" /\ any_match all_patterns v = true).
Proof.
  assert (Inspect (browser_request chrome) <> None) as Hn by by vm_compute.
  split; [done|]. by apply (rce_blocks_iff (browser_request chrome)).
Defined.
