(* ===== verification/Xss.v ===== *)
(** * Cross-site scripting: [internal/engine/xss.go]

    The pattern groups, [Inspect], [ScanResponse] and [GenerateCSP].
    [reflectedXSS] is never set and never read. *)

From S2P Require Import Prelude Float64 GoStr Regexp Types Targets.

#[local] Open Scope string_scope.
#[local] Open Scope Z_scope.

Definition htmlTags : list string :=
  ["(?i)(?:<script[^>]*>[^<]*</script>)";
   "(?i)(?:<iframe[^>]*>)";
   "(?i)(?:<object[^>]*>)";
   "(?i)(?:<embed[^>]*>)";
   "(?i)(?:<applet[^>]*>)";
   "(?i)(?:<meta[^>]*http-equiv[^>]*>)";
   "(?i)(?:<link[^>]*href[^>]*>)";
   "(?i)(?:<base[^>]*href[^>]*>)";
   "(?i)(?:<form[^>]*action[^>]*>)";
   "(?i)(?:<img[^>]*onerror[^>]*>)";
   "(?i)(?:<body[^>]*onload[^>]*>)";
   "(?i)(?:<svg[^>]*/svg>)";
   "(?i)(?:<math[^>]*>)"].

Definition eventHandlers : list string :=
  ["(?i)(?:onabort|onautocomplete|onautocompleteerror|onblur|oncancel|oncanplay|oncanplaythrough|onchange|onclick|onclose|oncontextmenu|oncuechange|ondblclick|ondrag|ondragend|ondragenter|ondragleave|ondragover|ondragstart|ondrop|ondurationchange|onemptied|onended|onerror|onfocus|onfocusin|onfocusout|ongotpointercapture|oninput|oninvalid|onkeydown|onkeypress|onkeyup|onload|onloadeddata|onloadedmetadata|onloadstart|onlostpointercapture|onmousedown|onmousemove|onmouseout|onmouseover|onmouseup|onmousewheel|onpause|onplay|onplaying|onpointercancel|onpointerdown|onpointerenter|onpointerleave|onpointermove|onpointerout|onpointerover|onpointerup|onprogress|onratechange|onreset|onresize|onscroll|onseeked|onseeking|onselect|onselectionchange|onselectstart|onshow|onstalled|onsubmit|onsuspend|ontimeupdate|ontoggle|onvolumechange|onwaiting|onwheel)";
   "(?i)(?:onmouseenter|onmouseleave|onpointerrawupdate|onbeforeinput|onbeforetoggle|oncontentvisibilityautostatechange)";
   "(?i)(?:onpageshow|onpagehide|onpopstate|onhashchange|onbeforeunload|onunload)"].

Definition jsProtocols : list string :=
  ["(?i)(?:javascript\s*:)";
   "(?i)(?:vbscript\s*:)";
   "(?i)(?:data\s*:\s*(?:text/html|application/xhtml))";
   "(?i)(?:livescript\s*:)";
   "(?i)(?:mocha\s*:)"].

Definition polyglot : list string :=
  ["(?i)(?:jaVasCript:[\s\S]*?[<\" ++ dq ++ "'])";
   "(?i)(?:\\x22.*onerror\\x3d)";
   "(?i)(?:\\x3Cscript\\x3E)";
   "(?i)(?:<[^>]*>[\s\S]*?<)"].

Definition svgPatterns : list string :=
  ["(?i)(?:<svg[^>]*>[\s\S]*?<script)";
   "(?i)(?:<svg[^>]*onload)";
   "(?i)(?:<svg[^>]*>[\s\S]*?<animate)";
   "(?i)(?:<svg[^>]*>[\s\S]*?<set)";
   "(?i)(?:<svg[^>]*>[\s\S]*?<use)";
   "(?i)(?:<svg[^>]*>[\s\S]*?<desc>)"].

Definition cssInjection : list string :=
  ["(?i)(?:expression\s*\()";
   "(?i)(?:-moz-binding)";
   "(?i)(?:behavior\s*:)";
   "(?i)(?:@import\s+url)";
   "(?i)(?:url\s*\(\s*['" ++ dq ++ "]?\s*javascript:)";
   "(?i)(?:position\s*:\s*fixed)"].

Definition encodedXSS : string :=
  "(?i)(?:\\x[0-9a-f]{2}|\\u[0-9a-f]{4}|%[0-9a-f]{2}|&#x?[0-9a-f]+;).*(?:script|alert|prompt|confirm|onerror|onload)".

Definition customCSP : string :=
  "default-src 'self'; "
  ++ "script-src 'self' 'strict-dynamic' 'nonce-{nonce}' 'unsafe-inline' http: https:; "
  ++ "object-src 'none'; " ++ "base-uri 'self'; " ++ "require-trusted-types-for 'script';".

Definition GenerateCSP (nonce : string) : string := ReplaceAll customCSP "{nonce}" nonce.

(** The first HTML pattern that matches is named in the evidence. *)
Definition html_tag `{Unicode} (value source : string) : option Decision :=
  match List.find (fun p => MatchString p value) htmlTags with
  | Some p =>
      Some (decision ActionBlock "XSS001" "HTML Tag Injection" "critical" 90
              (Sprintf "HTML tag injection in %s: %s" [AStr source; AStr p]))
  | None => None
  end.

Definition inspectValue `{Unicode} (value source : string) : option Decision :=
  let group patterns d := if any_match patterns value then Some d else None in
  if String.eqb value "" then None
  else
    html_tag value source
    <||> group eventHandlers
      (decision ActionBlock "XSS002" "Event Handler Injection" "critical" 90
         (Sprintf "event handler injection in %s" [AStr source]))
    <||> group jsProtocols
      (decision ActionBlock "XSS003" "JavaScript Protocol" "critical" 85
         (Sprintf "javascript protocol detected in %s" [AStr source]))
    <||> group polyglot
      (decision ActionBlock "XSS004" "Polyglot XSS Payload" "critical" 90
         (Sprintf "polyglot XSS payload in %s" [AStr source]))
    <||> group svgPatterns
      (decision ActionBlock "XSS005" "SVG Injection" "critical" 85
         (Sprintf "SVG injection in %s" [AStr source]))
    <||> group cssInjection
      (decision ActionBlock "XSS006" "CSS Injection" "high" 75
         (Sprintf "CSS injection in %s" [AStr source]))
    <||> group [encodedXSS]
      (decision ActionBlock "XSS007" "Encoded XSS" "high" 75
         (Sprintf "encoded XSS pattern in %s" [AStr source])).

(** The headers [extractTargets] keeps. *)
Definition keep_header `{Unicode} (k : string) : bool :=
  let lower := ToLower k in
  String.eqb lower "referer" || String.eqb lower "origin" || String.eqb lower "x-forwarded-for".

Definition Inspect `{Unicode} `{MapRange (list string)} `{MapRange string} (ctx : RequestContext)
    : option Decision :=
  first_decision (fun t => inspectValue (value t) (source t)) (extractTargets keep_header ctx).

Definition ScanResponse `{Unicode} (body : string) : option Decision :=
  if String.eqb body "" then None
  else if any_match htmlTags body
  then Some (decision ActionBlock "XSS008" "Reflected XSS" "critical" 95
               (lit "reflected XSS detected in response body"))
  else None.

(** ** Lemmas *)

Definition all_patterns : list string :=
  (htmlTags ++ eventHandlers ++ jsProtocols ++ polyglot ++ svgPatterns ++ cssInjection ++ [encodedXSS])%list.

Lemma html_tag_any `{Unicode} v src :
  match html_tag v src with
  | Some d => any_match htmlTags v = true /\ d_Action d = ActionBlock /\ Score d = of_int 90
  | None => any_match htmlTags v = false
  end.
Proof.
  unfold html_tag, any_match. generalize htmlTags as l. intros l.
  destruct (List.find _ l) as [p|] eqn:E.
  - apply find_some in E as [Hp Hm]. split; [|done]. apply existsb_exists. eauto.
  - apply not_true_iff_false. intros (p & Hp & Hm)%existsb_exists. by rewrite (find_none _ _ E p Hp) in Hm.
Qed.

Lemma xss_patterns_compile : forallb compiles all_patterns = true.
Proof. by vm_compute. Qed.

(** What the groups after the HTML tags decide. *)
Lemma inspectValue_spec `{Unicode} v src :
  match inspectValue v src with
  | Some d => v <> "" /\ any_match all_patterns v = true /\ d_Action d = ActionBlock
              /\ exists score, 75 <= score <= 90 /\ Score d = of_int score
  | None => v = "" \/ any_match all_patterns v = false
  end.
Proof.
  unfold inspectValue. destruct (String.eqb_spec v "") as [|Hv]; [by left|].
  pose proof (html_tag_any v src) as Ht. unfold all_patterns, any_match in *. rewrite !existsb_app.
  destruct (html_tag v src) as [d|].
  { destruct Ht as (-> & Ha & Hs). cbn [or_else]. repeat split; try done. exists 90. split; [lia|done]. }
  rewrite Ht. cbn [or_else orb].
  repeat match goal with |- context [existsb ?f ?l] => destruct (existsb f l) end; cbn [or_else orb];
    first [by right | split; [done|split; [done|split; [done|]]]];
    eexists; (split; [|reflexivity]); lia.
Qed.

(** ** Properties *)

(** The XSS engine blocks a request exactly when a non-empty query,
    form, cookie or body value, or the value of a Referer, Origin or
    X-Forwarded-For header in any case, matches one of its patterns, whatever
    order the maps are ranged over in; every decision is a block of score 75
    to 90. *)
Theorem xss_blocks_iff `{Unicode} `{MapRange (list string)} `{MapRange string} ctx :
  match Inspect ctx with
  | Some d => d_Action d = ActionBlock
              /\ (exists score, 75 <= score <= 90 /\ Score d = of_int score)
              /\ exists v, carries keep_header ctx v /\ v <> "" /\ any_match all_patterns v = true
  | None => forall v, carries keep_header ctx v -> v = "" \/ any_match all_patterns v = false
  end.
Proof.
  destruct (Inspect ctx) as [d|] eqn:E.
  - apply first_decision_Some in E as ([v src] & Ht & Hd). cbn [value source] in Hd.
    pose proof (inspectValue_spec v src) as Hs. rewrite Hd in Hs. destruct Hs as (Hv & Hm & Ha & Hs).
    split; [done|]. split; [done|]. exists v. split; [|done]. apply elem_of_targets. by exists src.
  - intros v [src Ht]%elem_of_targets.
    apply (proj1 (first_decision_None _ _)) with (t := mkTarget v src) in E; [|done].
    pose proof (inspectValue_spec v src) as Hs. cbn [value source] in E. by rewrite E in Hs.
Qed.

Lemma GenerateCSP_nonce nonce :
  GenerateCSP nonce =
  "default-src 'self'; script-src 'self' 'strict-dynamic' 'nonce-" ++ nonce
  ++ "' 'unsafe-inline' http: https:; object-src 'none'; base-uri 'self'; require-trusted-types-for 'script';".
Proof. reflexivity. Qed.
