(* ===== verification/Sqli.v ===== *)
(** * SQL injection: [internal/engine/sqli.go]

    [Inspect] with its encoding checks, normalisation, tokenizer, token
    analysis and patterns. A slice expression of the tokenizer may reach one
    past the length of the rune slice; whether that panics depends on the
    slice's capacity, which the Go runtime chooses: [RuneCap]. *)

From S2P Require Import Prelude Float64 GoStr Regexp Types Targets.

#[local] Open Scope string_scope.
#[local] Open Scope Z_scope.

(** [cap([]rune(s))] for a string of [n] runes. The runtime clears the
    elements between length and capacity. *)
Class RuneCap : Type := { rune_cap : nat -> nat; rune_cap_ge : forall n, (n <= rune_cap n)%nat }.

(** ** Tokens *)

Inductive TokenType : Type :=
| TokenKeyword | TokenOperator | TokenString | TokenNumber | TokenIdentifier | TokenComment
| TokenPunctuation | TokenFunction | TokenUnknown.

Record Token : Type := mkToken { Type_ : TokenType; Value : string; Pos : nat }.

Definition keywords : list string :=
  ["SELECT"; "UNION"; "FROM"; "WHERE"; "INSERT"; "UPDATE"; "DELETE"; "DROP"; "CREATE"; "ALTER";
   "TABLE"; "INTO"; "VALUES"; "SET"; "AND"; "OR"; "NOT"; "NULL"; "LIKE"; "BETWEEN"; "IN"; "EXISTS";
   "HAVING"; "GROUP"; "ORDER"; "BY"; "LIMIT"; "OFFSET"; "JOIN"; "LEFT"; "RIGHT"; "INNER"; "OUTER";
   "ON"; "AS"; "CASE"; "WHEN"; "THEN"; "ELSE"; "END"; "EXEC"; "EXECUTE"; "SLEEP"; "BENCHMARK";
   "PG_SLEEP"; "WAITFOR"; "DELAY"].

(** [strings.ContainsRune(set, r)] for an ASCII set. *)
Definition rune_in (set : string) (r : Z) : bool := existsb (Z.eqb r) (bytes_of set).

(** How far the scans go from the text after their first runes. The string
    scan counts a backslash and the rune it escapes even when there is none
    left. *)
Fixpoint scan_string (q : Z) (l : list Z) : nat :=
  match l with
  | [] => 0%nat
  | c :: t =>
      if c =? q then 0%nat
      else if c =? 92 then match t with [] => 2%nat | _ :: t' => (2 + scan_string q t')%nat end
      else S (scan_string q t)
  end.
Fixpoint scan_block (l : list Z) : nat :=
  match l with
  | a :: ((b :: _) as t) => if (a =? 42) && (b =? 47) then 2%nat else S (scan_block t)
  | _ => 0%nat
  end.
Fixpoint scan_while (f : Z -> bool) (l : list Z) : nat :=
  match l with c :: t => if f c then S (scan_while f t) else 0%nat | [] => 0%nat end.

Definition next_is (f : Z -> bool) (l : list Z) : bool :=
  match l with c :: _ => f c | [] => false end.

Section tokenizer.
Context `{Unicode} `{RuneClasses} `{RuneCap}.

(** [string(runes[pos:pos+n])], [l] being what follows [pos]. *)
Definition slice_runes (pos : nat) (l : list Z) (n : nat) : outcome string :=
  if (pos + n <=? rune_cap (pos + length l))%nat
  then Returns (of_runes (take n (l ++ repeat 0 n)%list))
  else Panics.

Definition is_keyword (word : string) : bool := bool_decide (ToUpper word ∈ keywords).

(** One round of the loop of [tokenize] on the runes [ch :: t] at position
    [pos]: the token, if any, and the number of runes passed. *)
Definition next_token (pos : nat) (ch : Z) (t : list Z) : outcome (option Token * nat) :=
  let token (ty : TokenType) (n : nat) :=
    let! v := slice_runes pos (ch :: t) n in Returns (Some (mkToken ty v pos), n) in
  if is_space ch then Returns (None, 1%nat)
  else if (ch =? 39) || (ch =? 34) then
    let n := S (scan_string ch t) in
    token TokenString (if (n <? S (length t))%nat then S n else n)
  else if (ch =? 47) && next_is (Z.eqb 42) t then token TokenComment (2 + scan_block (tail t))%nat
  else if (ch =? 45) && next_is (Z.eqb 45) t then
    token TokenComment (S (S (scan_while (fun c => negb (c =? 10)) (tail t))))
  else if (ch =? 35) && next_is (fun _ => true) t then
    token TokenComment (S (scan_while (fun c => negb (c =? 10)) t))
  else if IsDigit ch || (ch =? 46) && next_is IsDigit t then
    token TokenNumber (scan_while (fun c => IsDigit c || (c =? 46)) (ch :: t))
  else if IsLetter ch || (ch =? 95) then
    let n := scan_while (fun c => IsLetter c || IsDigit c || (c =? 95)) (ch :: t) in
    let! word := slice_runes pos (ch :: t) n in
    Returns
      (Some (mkToken (if is_keyword word then TokenKeyword
                      else if next_is (Z.eqb 40) (drop n (ch :: t)) then TokenFunction
                      else TokenIdentifier) word pos), n)
  else if rune_in "=<>!+-*/%&|^~" ch then
    token TokenOperator (if next_is (rune_in "=<>") t then 2%nat else 1%nat)
  else if rune_in "()[]{};," ch then Returns (Some (mkToken TokenPunctuation (of_runes [ch]) pos), 1%nat)
  else Returns (Some (mkToken TokenUnknown (of_runes [ch]) pos), 1%nat).

(** The loop; every round passes a rune ([tokenize_fuel]). *)
Fixpoint tokenize_from (fuel pos : nat) (l : list Z) : outcome (list Token) :=
  match fuel, l with
  | S f, ch :: t =>
      let! (tok, n) := next_token pos ch t in
      let! rest := tokenize_from f (pos + n) (drop n l) in
      Returns (match tok with Some k => k :: rest | None => rest end)
  | _, _ => Returns []
  end.
Definition tokenize (input : string) : outcome (list Token) :=
  let runes := runes_of input in tokenize_from (length runes) 0 runes.

(** ** Token analysis *)

Definition dangerous : list string := ["UNION"; "SELECT"; "DROP"; "EXEC"; "EXECUTE"].

(** The loop of [analyzeTokens]: the keyword it stops at, or the counts of
    keywords and strings and whether a semicolon was seen. *)
Fixpoint count_tokens (tokens : list Token) (keywordCount stringCount : Z) (hasSemicolon : bool)
    : Token + Z * Z * bool :=
  match tokens with
  | [] => inr (keywordCount, stringCount, hasSemicolon)
  | t :: rest =>
      match Type_ t with
      | TokenKeyword =>
          if bool_decide (ToUpper (Value t) ∈ dangerous) then inl t
          else count_tokens rest (incr keywordCount) stringCount hasSemicolon
      | TokenString => count_tokens rest keywordCount (incr stringCount) hasSemicolon
      | TokenPunctuation => count_tokens rest keywordCount stringCount (hasSemicolon || String.eqb (Value t) ";")
      | _ => count_tokens rest keywordCount stringCount hasSemicolon
      end
  end.

Definition analyzeTokens (tokens : list Token) (source : string) : option Decision :=
  match count_tokens tokens 0 0 false with
  | inl t =>
      Some (decision ActionBlock "SQLI021" "SQL Keyword Injection" "critical" 90
              (Sprintf "dangerous SQL keyword %q in %s" [AStr (Value t); AStr source]))
  | inr (keywordCount, stringCount, hasSemicolon) =>
      if hasSemicolon && (0 <? keywordCount) then
        Some (decision ActionBlock "SQLI022" "SQL Statement Chaining" "critical" 85
                (Sprintf "SQL statement chaining detected in %s" [AStr source]))
      else if (2 <=? keywordCount) && (1 <=? stringCount) then
        Some (decision ActionMonitor "SQLI023" "SQL-like Injection Pattern" "high" 60
                (Sprintf "SQL-like token pattern in %s: %d keywords, %d strings"
                   [AStr source; AInt keywordCount; AInt stringCount]))
      else None
  end.

End tokenizer.

(** ** Patterns *)

Definition encodingRE : string := "(?i)(?:\\x[0-9a-f]{2}|\\u[0-9a-f]{4}|%[0-9a-f]{2}|&#x?[0-9a-f]+;)".
Definition commentRE : string := "(?is)(?:/\*.*?\*|--.*?$|#.*?$|--\s)".
Definition hexRE : string := "(?i)(?:0x[0-9a-f]+|x'[0-9a-f]+'|unhex\(|hex\(|char\()".
Definition nullByteRE : string := "\x00".
Definition doubleEncRE : string := "(?:%25[0-9a-f]{2}|%25[0-9a-f]{2}%[0-9a-f]{2})".
Definition base64RE : string := "(?i)(?:base64_decode|base64_encode|from_base64|to_base64)".

Definition patterns : list string :=
  ["(?i)(?:\b(?:union|union\s+all)\s+select\b)";
   "(?i)(?:select\s+.*?\bfrom\b.*?\bwhere\b)";
   "(?i)(?:\b(?:insert|update|delete|drop|truncate|alter|create|replace)\b)";
   "(?i)(?:\b(?:exec|execute|exec_sp|xp_cmdshell|sp_executesql)\b)";
   "(?i)(?:'.*\b(?:or|and)\b.*['\" ++ dq ++ "])";
   "(?i)(?:'.*\s*=\s*'.*--|'.*=\s*'.*#)";
   "(?i)(?:sleep|waitfor\s+delay|pg_sleep|benchmark)\s*\(";
   "(?i)(?:or\s+1\s*=\s*1|and\s+1\s*=\s*1)";
   "(?i)(?:';.*--|';.*#|'\)\s*;?\s*--)";
   "(?i)(?:pg_sleep|waitfor|delay|sleep|benchmark|if)\s*\(";
   "(?i)(?:\b(?:information_schema|mysql\.|pg_catalog|sys\.|sqlite_master)\b)";
   "(?i)(?:@@version|version\(\)|@@servername|db_name\(\))";
   "(?i)(?:into\s+(?:outfile|dumpfile|load_file)\b)";
   "(?i)(?:conv|char|nchar|hex|unhex|ord|ascii)\s*\(";
   "(?i)(?:admin'|'admin|\bor\b.*\badmin\b|\badmin\b.*\bor\b)"].

Lemma sqli_patterns_compile :
  forallb compiles ([encodingRE; commentRE; hexRE; nullByteRE; doubleEncRE; base64RE] ++ patterns)%list = true.
Proof. by vm_compute. Qed.

(** ** Inspection *)

Definition detectEncodingBypass `{Unicode} (value source : string) : option Decision :=
  (if MatchString nullByteRE value
   then Some (decision ActionBlock "SQLI017" "Null Byte Injection" "high" 70
                (Sprintf "null byte detected in %s" [AStr source])) else None)
  <||> (if MatchString doubleEncRE value
        then Some (decision ActionBlock "SQLI018" "Double Encoding" "high" 75
                     (Sprintf "double encoding detected in %s" [AStr source])) else None)
  <||> (if MatchString hexRE value
        then Some (decision ActionMonitor "SQLI019" "Hex Encoding" "medium" 40
                     (Sprintf "hex encoding detected in %s" [AStr source])) else None)
  <||> (if MatchString base64RE value
        then Some (decision ActionMonitor "SQLI020" "Base64 Encoding" "medium" 35
                     (Sprintf "base64 function detected in %s" [AStr source])) else None).

Definition normalizeInput `{Unicode} (input : string) : string :=
  ReplaceAllString encodingRE (ReplaceAllString commentRE input " ") "X".

Section inspect.
Context `{Unicode} `{RuneClasses} `{RuneCap}.

Definition inspectValue (value source : string) : outcome (option Decision) :=
  if String.eqb value "" then Returns None
  else
    match detectEncodingBypass value source with
    | Some dec => Returns (Some dec)
    | None =>
        let normal := normalizeInput value in
        let! tokens := tokenize normal in
        Returns
          (analyzeTokens tokens source
           <||> if any_match patterns normal
                then Some (decision ActionBlock "SQLI016" "SQL Pattern Match" "high" 75
                             (Sprintf "SQL injection pattern matched in %s: %q"
                                [AStr source; AStr (stake 200 value)]))
                else None)
    end.

Fixpoint inspect_targets (ts : list targetValue) : outcome (option Decision) :=
  match ts with
  | [] => Returns None
  | t :: ts =>
      let! dec := inspectValue (value t) (source t) in
      match dec with Some d => Returns (Some d) | None => inspect_targets ts end
  end.

Definition Inspect `{MapRange (list string)} `{MapRange string} (ctx : RequestContext)
    : outcome (option Decision) :=
  inspect_targets (extractTargets (fun _ => true) ctx).

End inspect.

(** ** Lemmas: the tokenizer *)

Lemma scan_while_le f l : (scan_while f l <= length l)%nat.
Proof. induction l as [|c l IH]; cbn [scan_while length]; [lia|]. case_match; lia. Qed.

Lemma scan_block_le l : (scan_block l <= length l)%nat.
Proof.
  induction l as [|a t IH]; [done|]. destruct t as [|b t]; [cbn; lia|].
  change (scan_block (a :: b :: t)) with (if (a =? 42) && (b =? 47) then 2%nat else S (scan_block (b :: t))).
  cbn [length] in *. destruct (_ && _); lia.
Qed.

Lemma scan_string_le q l : (scan_string q l <= S (length l))%nat.
Proof.
  induction l as [l IH] using (induction_ltof1 _ (@length Z)).
  destruct l as [|c t]; cbn [scan_string length]; [lia|].
  destruct (c =? q); [lia|]. destruct (c =? 92).
  - destruct t as [|d t]; cbn [length]; [lia|].
    specialize (IH t ltac:(unfold ltof; cbn [length]; lia)). lia.
  - specialize (IH t ltac:(unfold ltof; cbn [length]; lia)). lia.
Qed.

Section tokens.
Context `{Unicode} `{RuneClasses} `{RuneCap}.

Lemma slice_runes_ok pos l n :
  (n <= length l)%nat -> slice_runes pos l n = Returns (of_runes (take n (l ++ repeat 0 n)%list)).
Proof.
  intros Hn. unfold slice_runes. pose proof (rune_cap_ge (pos + length l)).
  by rewrite (proj2 (Nat.leb_le _ _)) by lia.
Qed.

Lemma slice_runes_cases pos l n :
  (n <= S (length l))%nat ->
  (exists v, slice_runes pos l n = Returns v)
  \/ slice_runes pos l n = Panics /\ rune_cap (pos + length l) = (pos + length l)%nat.
Proof.
  intros Hn. unfold slice_runes. pose proof (rune_cap_ge (pos + length l)).
  destruct (Nat.leb_spec (pos + n) (rune_cap (pos + length l))); [eauto|]. right. split; [done|lia].
Qed.

(** Every round passes at least one rune and at most one too many. *)
Lemma next_token_spec pos ch t :
  (exists tok n, next_token pos ch t = Returns (tok, n) /\ (1 <= n <= S (S (length t)))%nat)
  \/ next_token pos ch t = Panics
     /\ rune_cap (pos + S (length t)) = (pos + S (length t))%nat.
Proof.
  pose proof (scan_string_le ch t) as Hs. pose proof (scan_block_le (tail t)) as Hb.
  pose proof (fun f => scan_while_le f (tail t)) as Hw. pose proof (fun f => scan_while_le f t) as Hv.
  pose proof (slice_runes_cases pos (ch :: t)) as Hc. cbn [length] in Hc.
  assert (length (tail t) = pred (length t)) as Ht by (by destruct t).
  assert (forall ty n, (1 <= n <= S (S (length t)))%nat ->
    (exists tok m, (let! v := slice_runes pos (ch :: t) n in Returns (Some (mkToken ty v pos), n))
                   = Returns (tok, m) /\ (1 <= m <= S (S (length t)))%nat)
    \/ (let! v := slice_runes pos (ch :: t) n in Returns (Some (mkToken ty v pos), n)) = Panics
       /\ rune_cap (pos + S (length t)) = (pos + S (length t))%nat) as Htok.
  { intros ty n Hn. destruct (Hc n) as [[v ->]|[-> ?]]; [lia| |by right].
    left. cbn [out_bind]. eauto. }
  unfold next_token. case_match; [left; eexists _, _; split; [done|lia]|].
  case_match. { apply Htok. destruct (Nat.ltb_spec (S (scan_string ch t)) (S (length t))); lia. }
  case_match. { apply Htok. destruct t; [by rewrite andb_false_r in *|]. cbn [length tail] in *. lia. }
  case_match. { apply Htok. destruct t; [by rewrite andb_false_r in *|]. cbn [length tail] in *.
                specialize (Hw (fun c => negb (c =? 10))). lia. }
  case_match. { apply Htok. specialize (Hv (fun c => negb (c =? 10))). lia. }
  case_match eqn:E. { apply Htok. cbn [scan_while].
    assert (IsDigit ch || (ch =? 46) = true) as ->.
    { apply orb_true_iff in E as [->|[-> _]%andb_true_iff]; by rewrite ?orb_true_r. }
    specialize (Hv (fun c => IsDigit c || (c =? 46))). lia. }
  case_match eqn:E'.
  { cbn [scan_while]. assert (IsLetter ch || IsDigit ch || (ch =? 95) = true) as ->.
    { apply orb_true_iff in E' as [->| ->]; by rewrite ?orb_true_r. }
    specialize (Hv (fun c => IsLetter c || IsDigit c || (c =? 95))).
    destruct (Hc (S (scan_while (fun c => IsLetter c || IsDigit c || (c =? 95)) t))) as [[v ->]|[-> ?]];
      [lia| |by right]. left. cbn [out_bind]. eexists _, _. split; [done|lia]. }
  case_match. { apply Htok. case_match; lia. }
  case_match; left; eexists _, _; (split; [done|lia]).
Qed.

(** As many rounds as runes are enough: the loop of the code ends. *)
Lemma tokenize_fuel f pos l :
  (length l <= f)%nat -> tokenize_from f pos l = tokenize_from (length l) pos l.
Proof.
  remember (length l) as k eqn:Ek. revert f pos l Ek.
  induction k as [k IH] using lt_wf_ind; intros f pos l -> Hf.
  destruct f as [|f], l as [|ch t]; cbn [length] in *; try done; try lia. cbn [tokenize_from].
  destruct (next_token_spec pos ch t) as [(tok & n & -> & Hn)|[-> _]]; [|done]. cbn [out_bind].
  assert (length (drop n (ch :: t)) <= length t)%nat as Hd by (rewrite length_drop; cbn [length]; lia).
  rewrite (IH (length (drop n (ch :: t)))) by (cbn [length] in *; lia || done).
  by rewrite (IH (length (drop n (ch :: t))) ltac:(lia) (length t)).
Qed.

Lemma tokenize_from_panics f pos l :
  tokenize_from f pos l = Panics -> rune_cap (pos + length l) = (pos + length l)%nat.
Proof.
  revert pos l. induction f as [|f IH]; intros pos [|ch t]; try done. cbn [tokenize_from].
  destruct (next_token_spec pos ch t) as [(tok & n & -> & Hn)|[-> ?]]; [|done]. cbn [out_bind].
  destruct (tokenize_from f (pos + n) (drop n (ch :: t))) eqn:E; [done|]. intros _.
  pose proof (IH _ _ E) as Hc. rewrite length_drop in Hc. cbn [length] in *.
  destruct (Nat.le_gt_cases n (S (length t))).
  - by replace (pos + S (length t))%nat with (pos + n + (S (length t) - n))%nat by lia.
  - exfalso. rewrite drop_ge in E by (cbn [length]; lia). by destruct f.
Qed.

(** The string scan of a text without quotes and backslashes that ends in a
    backslash runs past its end. *)
Lemma scan_string_overrun q l :
  q <> 92 -> q ∉ l -> 92 ∉ l -> scan_string q (l ++ [92])%list = S (S (length l)).
Proof.
  intros Hq. induction l as [|c l IH]; cbn [scan_string app length].
  - intros _ _. by rewrite (proj2 (Z.eqb_neq 92 q)).
  - rewrite !not_elem_of_cons. intros [Hc Hl] [Hb Hk].
    rewrite (proj2 (Z.eqb_neq c q)), (proj2 (Z.eqb_neq c 92)) by done. by rewrite IH.
Qed.

End tokens.

(** ** Lemmas: what the comment pattern removes *)

Definition anything : re := Chr (mkCls false true []).
Definition to_end : re := Cat (Star false anything) (Look EndText).
Definition block_alt : re := Cat (flit 47) (Cat (flit 42) (Cat (Star false anything) (flit 42))).
Definition dash_alt : re := Cat (flit 45) (Cat (flit 45) to_end).
Definition hash_alt : re := Cat (flit 35) to_end.
Definition blank_alt : re := Cat (flit 45) (Cat (flit 45) (Chr (mkCls true false [(false, space_ranges)]))).
Definition comment_re : re := Alt block_alt (Alt dash_alt (Alt hash_alt blank_alt)).

Lemma compile_comment : compile commentRE = Some comment_re.
Proof. by vm_compute. Qed.

(** The runes a comment can start with. *)
Definition opener (r : Z) : bool := (r =? 47) || (r =? 45) || (r =? 35).

Section comments.
Context `{FoldLaws}.

Lemma to_end_spec w i j : (i <= length w)%nat -> matches w to_end i j <-> j = length w.
Proof.
  intros Hi. unfold to_end. rewrite cat_inv. split.
  - intros (k & Hk & Hl). inversion Hl as [| |a i' E| | | | |]; subst. by apply Nat.eqb_eq in E.
  - intros ->. exists (length w). split; [apply star_any; [done|lia]|]. constructor. apply Nat.eqb_refl.
Qed.

Lemma comment_start w i j : matches w comment_re i j -> exists r, w !! i = Some r /\ opener r = true.
Proof.
  unfold comment_re, block_alt, dash_alt, hash_alt, blank_alt. rewrite !alt_inv, !cat_inv.
  intros [(k & [Hk _]%flit_inv & _)|[(k & [Hk _]%flit_inv & _)|[(k & [Hk _]%flit_inv & _)|
    (k & [Hk _]%flit_inv & _)]]]; try done; eauto.
Qed.

(** Two dashes or a hash sign: the match runs to the end of the text. *)
Lemma comment_head x op y :
  op = [45; 45] \/ op = [35] ->
  head (ends (x ++ op ++ y) comment_re (length x)) = Some (length (x ++ op ++ y)).
Proof.
  intros Hop. set (w := (x ++ op ++ y)%list).
  assert (length x <= length w)%nat as Hx by (unfold w; rewrite length_app; lia).
  assert (w !! length x = head op) as Hw0.
  { unfold w. destruct Hop as [-> | ->]; by apply list_lookup_middle. }
  unfold comment_re. rewrite !head_alt.
  rewrite (head_none w block_alt); [|intros j [k [[Hk _]%flit_inv _]]%cat_inv;
    [rewrite Hw0 in Hk; destruct Hop as [-> | ->]; done|done]|done].
  destruct Hop as [-> | ->].
  - assert (w !! S (length x) = Some 45) as Hw1.
    { unfold w. rewrite lookup_app_r by lia. by replace (S (length x) - length x)%nat with 1%nat by lia. }
    pose proof (lookup_lt_Some _ _ _ Hw1) as Hl.
    rewrite (head_unique w dash_alt _ (length w)); [done|done| |].
    + unfold dash_alt. rewrite cat_inv. exists (S (length x)). split; [by apply flit_intro|].
      rewrite cat_inv. exists (S (S (length x))). split; [by apply flit_intro|]. by apply to_end_spec.
    + intros k (a & [_ ->]%flit_inv & (b & [_ ->]%flit_inv & Hb)%cat_inv)%cat_inv; [|done..].
      by apply to_end_spec in Hb.
  - pose proof (lookup_lt_Some _ _ _ Hw0) as Hl.
    rewrite (head_none w dash_alt); [|intros j [k [[Hk _]%flit_inv _]]%cat_inv; [by rewrite Hw0 in Hk|done]|done].
    rewrite (head_unique w hash_alt _ (length w)); [done|done| |].
    + unfold hash_alt. rewrite cat_inv. exists (S (length x)). split; [by apply flit_intro|].
      by apply to_end_spec.
    + intros k (a & [_ ->]%flit_inv & Hb)%cat_inv; [|done]. by apply to_end_spec in Hb.
Qed.

Lemma comment_find x op y :
  op = [45; 45] \/ op = [35] -> Forall (fun r => opener r = false) x ->
  find (x ++ op ++ y) comment_re 0 = Some (length x, length (x ++ op ++ y)).
Proof.
  intros Hop Hx. apply find_at; [rewrite length_app; lia| |by apply comment_head].
  intros k j Hk (r & Hr & Ho)%comment_start. rewrite lookup_app_l in Hr by lia.
  rewrite Forall_lookup in Hx. by rewrite (Hx k r Hr) in Ho.
Qed.

Lemma comment_none w i : (length w <= i)%nat -> find w comment_re i = None.
Proof.
  intros Hi. destruct (find w comment_re i) as [[a b]|] eqn:E; [|done].
  apply find_Some in E as (Ha & (r & Hr & _)%comment_start & _).
  apply lookup_lt_Some in Hr. lia.
Qed.

(** Everything from the first comment opener on is replaced by one blank. *)
Lemma comment_replace a op b :
  op = "--" \/ op = "#" -> Forall (fun r => opener r = false) (runes_of a) ->
  ReplaceAllString commentRE (a ++ op ++ b) " " = a ++ " ".
Proof.
  intros Hop Ha. unfold ReplaceAllString. rewrite compile_comment.
  set (segs := rune_segments (a ++ op ++ b)).
  assert (exists y, segs.*1 = runes_of a ++ bytes_of op ++ y)%list as [y Hw].
  { exists (runes_of b). change segs.*1 with (runes_of (a ++ op ++ b)).
    apply runes_of_infix; by destruct Hop as [-> | ->]. }
  assert (exists t, segs = rune_segments a ++ t)%list as [t Hsegs].
  { unfold segs. destruct Hop as [-> | ->]; rewrite sapp_cons; eexists; by apply rune_segments_app_ascii. }
  assert (bytes_of op = [45; 45] \/ bytes_of op = [35]) as Hop' by (destruct Hop as [-> | ->]; auto).
  assert (length segs = length segs.*1) as Hl by (by rewrite length_fmap).
  assert (length (runes_of a) = length (rune_segments a)) as Hla by apply length_fmap.
  assert (1 <= length segs)%nat as Hs1.
  { rewrite Hl, Hw, !length_app. destruct Hop' as [-> | ->]; cbn [length]; lia. }
  cbn [replace_loop]. rewrite Hw, comment_find, <- Hw by done.
  assert (segment_text segs 0 (length (runes_of a)) = bytes_of a) as ->.
  { unfold segment_text. rewrite Hla, Nat.sub_0_r, drop_0, Hsegs, take_app_length.
    apply (segments_bytes 0 (bytes_of a)). }
  rewrite (proj2 (Nat.ltb_lt 0 (length segs.*1))) by lia. cbn [orb].
  assert (replace_loop (length segs) comment_re (bytes_of " ") segs segs.*1 (length segs.*1)
            (1 `max` length segs.*1) = []) as ->.
  { assert (segment_text segs (length segs.*1) (length segs.*1) = []) as Ht.
    { unfold segment_text. by rewrite Nat.sub_diag. }
    destruct (length segs) as [|f]; cbn [replace_loop]; [done|]. by rewrite comment_none by lia. }
  rewrite app_nil_r, <- bytes_of_app. apply of_bytes_of.
Qed.

End comments.

(** ** Lemmas: the verdicts *)

Definition is_kind_keyword (t : Token) : bool := match Type_ t with TokenKeyword => true | _ => false end.
Definition is_kind_string (t : Token) : bool := match Type_ t with TokenString => true | _ => false end.
Definition is_semicolon (t : Token) : bool :=
  match Type_ t with TokenPunctuation => String.eqb (Value t) ";" | _ => false end.
Definition is_dangerous `{Unicode} (t : Token) : bool :=
  is_kind_keyword t && bool_decide (ToUpper (Value t) ∈ dangerous).

Lemma count_tokens_spec `{Unicode} tokens kc sc semi :
  0 <= kc -> 0 <= sc -> kc + len tokens < max64 -> sc + len tokens < max64 ->
  count_tokens tokens kc sc semi =
  match List.find is_dangerous tokens with
  | Some t => inl t
  | None => inr (kc + count_of is_kind_keyword tokens, sc + count_of is_kind_string tokens,
                 semi || existsb is_semicolon tokens)
  end.
Proof.
  revert kc sc semi. induction tokens as [|[ty v p] ts IH]; intros kc sc semi Hk Hs Bk Bs.
  - cbn [count_tokens List.find existsb]. by rewrite !count_of_nil, !Z.add_0_r, orb_false_r.
  - rewrite len_cons in Bk, Bs. pose proof (len_nonneg ts).
    cbn [count_tokens List.find existsb]. rewrite !count_of_cons.
    unfold is_dangerous at 1, is_kind_keyword at 1 2, is_kind_string at 1, is_semicolon at 1.
    destruct ty; cbn [Type_ Value andb orb]; rewrite ?Z.add_0_l, ?incr_small by (unfold min64 in *; lia);
      try (apply IH; lia).
    + destruct (bool_decide _); [done|]. rewrite IH by lia. destruct (List.find _ ts); [done|].
      by rewrite Z.add_assoc.
    + rewrite IH by lia. destruct (List.find _ ts); [done|]. by rewrite Z.add_assoc.
    + rewrite IH by lia. destruct (List.find _ ts); [done|]. by rewrite orb_assoc.
Qed.

Section properties.
Context `{Unicode} `{RuneClasses} `{RuneCap}.

Lemma inspectValue_masked v src d :
  v <> "" -> detectEncodingBypass v src = Some d -> inspectValue v src = Returns (Some d).
Proof. intros Hv%String.eqb_neq Hd. unfold inspectValue. by rewrite Hv, Hd. Qed.

Lemma char_matches v : Contains v "char(" = true -> MatchString hexRE v = true.
Proof.
  intros Hv. eapply match_literal with (cs := "char("); [by vm_compute|done|done|exact Hv|].
  intros w i j Hm. repeat first [exact Hm | apply M_alt_l; exact Hm | apply M_alt_r].
Qed.

Lemma map_range_singleton {V} `{MapRange V} k (v : V) : map_range {[k := v]} = [(k, v)].
Proof.
  apply Permutation_singleton_r. rewrite map_range_perm. by rewrite map_to_list_singleton.
Qed.

Lemma runes_overrun w :
  runes_of ("'" ++ w ++ "\") = (39 :: runes_of w ++ [92])%list.
Proof.
  change ("'" ++ w ++ "\") with (String "'" (w ++ String "\" "")).
  rewrite runes_of_ascii_cons by done. by rewrite runes_of_app_ascii.
Qed.

End properties.

(** ** Properties *)

(** The tokenizer always ends; it panics on no input whose rune slice
    has spare capacity, and it does panic on every unclosed quote that ends in
    a backslash when there is none: the string scan steps over the rune the
    backslash would escape and slices one past the end. *)
Theorem sqli_tokenizer_panics `{Unicode} `{RuneClasses} `{RuneCap} :
  (forall input, tokenize input = Panics ->
     rune_cap (length (runes_of input)) = length (runes_of input))
  /\ (forall w, 39 ∉ runes_of w -> 92 ∉ runes_of w ->
     rune_cap (2 + length (runes_of w)) = (2 + length (runes_of w))%nat ->
     tokenize ("'" ++ w ++ "\") = Panics).
Proof.
  split.
  - intros input. apply tokenize_from_panics.
  - intros w Hq Hb Hc. unfold tokenize. rewrite runes_overrun. set (l := (runes_of w ++ [92])%list).
    assert (length l = S (length (runes_of w))) as Hl by (unfold l; rewrite length_app; cbn [length]; lia).
    assert (scan_string 39 l = S (S (length (runes_of w)))) as Hs by (by apply scan_string_overrun).
    cbn [length tokenize_from]. unfold next_token. change (is_space 39) with false.
    change ((39 =? 39) || (39 =? 34)) with true. cbn iota.
    rewrite Hs, Hl, (proj2 (Nat.ltb_ge _ _)) by lia.
    unfold slice_runes. cbn [length Nat.add] in *. rewrite Hl, Hc.
    rewrite (proj2 (Nat.leb_gt _ _)); [done|]. lia.
Qed.

(** A query value that contains "char(" hides the whole request from the
    engine: whatever else the value, the headers, the cookies and the body
    hold, the verdict is to monitor with score 40. *)
Theorem sqli_hex_masks `{Unicode} `{RuneClasses} `{RuneCap} `{MapRange (list string)} `{MapRange string}
    ctx k v :
  QueryParams ctx = {[k := [v]]} -> Contains v "char(" = true ->
  MatchString nullByteRE v = false -> MatchString doubleEncRE v = false ->
  Inspect ctx = Returns (Some (decision ActionMonitor "SQLI019" "Hex Encoding" "medium" 40
                                 (Sprintf "hex encoding detected in %s" [AStr ("query:" ++ k)]))).
Proof.
  intros Hq Hv Hn Hd. unfold Inspect, extractTargets, multi_targets.
  rewrite Hq, map_range_singleton. cbn [flat_map map fst snd app inspect_targets value source].
  erewrite inspectValue_masked; [reflexivity|by intros ->|].
  unfold detectEncodingBypass. by rewrite Hn, Hd, (char_matches v Hv).
Qed.

(** Everything after the first "--" or "#" of a value is dropped before
    the analysis, line breaks included: if the engine lets the text up to the
    comment pass, it lets every continuation pass that triggers none of the
    encoding checks. In MySQL the comment ends with the line and the rest is
    executed. *)
Theorem sqli_comment_hides `{FoldLaws} `{RuneClasses} `{RuneCap} a op b src :
  op = "--" \/ op = "#" -> Forall (fun r => opener r = false) (runes_of a) ->
  inspectValue (a ++ op) src = Returns None ->
  detectEncodingBypass (a ++ op ++ b) src = None ->
  inspectValue (a ++ op ++ b) src = Returns None.
Proof.
  intros Hop Ha Hp Hd. pose proof (comment_replace a op b Hop Ha) as Hb.
  pose proof (comment_replace a op "" Hop Ha) as He. rewrite sapp_nil_r in He.
  unfold inspectValue in *. rewrite Hd.
  assert (forall s, String.eqb (a ++ op ++ s) "" = false) as Hne.
  { intros s. apply String.eqb_neq. by destruct Hop as [-> | ->], a. }
  rewrite Hne. specialize (Hne ""). rewrite sapp_nil_r in Hne. rewrite Hne in Hp.
  destruct (detectEncodingBypass (a ++ op) src); [done|].
  unfold normalizeInput in *. rewrite Hb. rewrite He in Hp.
  destruct (tokenize _) as [tokens|]; [|done]. cbn [out_bind] in *.
  destruct (analyzeTokens tokens src); [done|]. by destruct (any_match patterns _).
Qed.

(** The token analysis in closed form: the first of UNION, SELECT, DROP,
    EXEC and EXECUTE blocks; without one a semicolon next to any keyword
    blocks; without that two keywords and a string are monitored; anything
    else passes. *)
Theorem sql_tokens_verdict `{Unicode} tokens src :
  len tokens < max64 ->
  analyzeTokens tokens src =
  match List.find is_dangerous tokens with
  | Some t => Some (decision ActionBlock "SQLI021" "SQL Keyword Injection" "critical" 90
                      (Sprintf "dangerous SQL keyword %q in %s" [AStr (Value t); AStr src]))
  | None =>
      if existsb is_semicolon tokens && (0 <? count_of is_kind_keyword tokens) then
        Some (decision ActionBlock "SQLI022" "SQL Statement Chaining" "critical" 85
                (Sprintf "SQL statement chaining detected in %s" [AStr src]))
      else if (2 <=? count_of is_kind_keyword tokens) && (1 <=? count_of is_kind_string tokens) then
        Some (decision ActionMonitor "SQLI023" "SQL-like Injection Pattern" "high" 60
                (Sprintf "SQL-like token pattern in %s: %d keywords, %d strings"
                   [AStr src; AInt (count_of is_kind_keyword tokens); AInt (count_of is_kind_string tokens)]))
      else None
  end.
Proof.
  intros Hl. unfold analyzeTokens. rewrite count_tokens_spec by lia.
  by destruct (List.find is_dangerous tokens).
Qed.

(** ** Witnesses *)

#[local] Existing Instance unicode_ascii.
#[local] Existing Instance rune_classes_ascii.

(** A runtime that keeps small slices in a buffer of 32 runes. *)
#[local] Instance cap_32 : RuneCap.
Proof. refine {| rune_cap := Nat.max 32 |}. intros; lia. Defined.

Definition newline : string := String (ascii_of_nat 10) "".

Definition thirty : string := "123456789012345678901234567890".

Lemma sqli_tokenizer_panics_witness : tokenize ("'" ++ thirty ++ "\") = Panics.
Proof.
  apply (proj2 sqli_tokenizer_panics).
  - apply (bool_decide_unpack _). by vm_compute.
  - apply (bool_decide_unpack _). by vm_compute.
  - by vm_compute.
Defined.

Definition attack_request : RequestContext :=
  mkContext None None "" "" "" "/" "POST" ∅ ∅ {["q" := ["char("]]} ∅
    (Some "name=x' UNION SELECT password FROM users") "" "" "" "" "" 0 f0 f0 [] false false 0 (lit "") "" "" "" "".

Lemma sqli_hex_masks_witness :
  Inspect attack_request = Returns (Some (decision ActionMonitor "SQLI019" "Hex Encoding" "medium" 40
                                 (Sprintf "hex encoding detected in %s" [AStr "query:q"]))).
Proof.
  apply (sqli_hex_masks attack_request "q" "char("); [done|done|by vm_compute..].
Defined.

Lemma sqli_comment_hides_witness :
  inspectValue ("id=1 " ++ "#" ++ newline ++ "UNION SELECT password FROM users") "body" = Returns None.
Proof.
  apply sqli_comment_hides; [by right|by repeat constructor|by vm_compute..].
Defined.

Definition chrome_tokens : list Token :=
  [mkToken TokenIdentifier "Linux" 0; mkToken TokenPunctuation ";" 5; mkToken TokenKeyword "like" 7;
   mkToken TokenIdentifier "Gecko" 12].

Lemma sql_tokens_verdict_witness :
  tokenize "Linux; like Gecko" = Returns chrome_tokens
  /\ analyzeTokens chrome_tokens "header:User-Agent" =
     Some (decision ActionBlock "SQLI022" "SQL Statement Chaining" "critical" 85
             (Sprintf "SQL statement chaining detected in %s" [AStr "header:User-Agent"])).
Proof. split; [by vm_compute|]. by rewrite sql_tokens_verdict by done. Defined.

Example sqli_blocks_chrome :
  exists ev, inspectValue
    "Mozilla/5.0 (X11; Linux x86_64) AppleWebKit/537.36 (KHTML, like Gecko) Chrome/126.0.0.0 Safari/537.36"
    "header:User-Agent" = Returns (Some (decision ActionBlock "SQLI022" "SQL Statement Chaining" "critical" 85 ev)).
Proof. eexists. vm_compute. reflexivity. Qed.
