(* ===== verification/SlidingWindow.v ===== *)
(** * Sliding-window admission

    Three components keep a log of the instants they admitted and admit a new
    one while fewer than a limit lie in the window that ends now
    ([ratelimit.checkSlidingWindow], [engine.checkRate]). This file states
    what such a component promises as a class, gives the reference machine
    that never forgets an admission, and proves once, against the class, that
    every implementation answers as the reference machine and never admits
    more than the limit in any window. *)

From S2P Require Import Prelude.

(** [I] is the type of the operations of the component; the ones for which
    [wl_check] holds in the current state are the admission checks of the key
    that is followed, the others (checks of other keys, requests refused
    before they reach the check, cleanups) may run in between and must not
    change what the followed key's later windows see. *)
Class WindowLimiter (S I : Type) : Type := {
  wl_window : Z;
  wl_limit : Z;
  wl_time : I -> Z;
  wl_check : I -> S -> bool;
  (** one operation: the answer of a check and the next state *)
  wl_step : I -> S -> bool * S;
  (** the instants the state remembers for the key *)
  wl_log : S -> list Z;
  (** well-formed states, at an instant of the clock *)
  wl_ok : Z -> S -> Prop;
  wl_ok_later : forall m m' s, wl_ok m s -> m <= m' -> wl_ok m' s;
  wl_step_ok : forall i s, wl_ok (wl_time i) s -> wl_ok (wl_time i) (wl_step i s).2;
  wl_check_spec : forall i s, wl_ok (wl_time i) s -> wl_check i s = true ->
    let kept := prune (wl_time i - wl_window) (wl_log s) in
    if len kept <? wl_limit
    then (wl_step i s).1 = true /\ wl_log (wl_step i s).2 = kept ++ [wl_time i]
    else (wl_step i s).1 = false /\ wl_log (wl_step i s).2 = kept;
  wl_other_spec : forall i s, wl_ok (wl_time i) s -> wl_check i s = false ->
    prune (wl_time i - wl_window) (wl_log (wl_step i s).2)
    = prune (wl_time i - wl_window) (wl_log s)
}.

(** ** The reference machine: the whole history of admissions *)

Definition hist_step (window limit now : Z) (h : list Z) : bool * list Z :=
  if len (prune (now - window) h) <? limit then (true, h ++ [now]) else (false, h).

Fixpoint hist_run (window limit : Z) (times h : list Z) : list bool * list Z :=
  match times with
  | [] => ([], h)
  | now :: ts =>
      let '(b, h1) := hist_step window limit now h in
      let '(bs, h2) := hist_run window limit ts h1 in (b :: bs, h2)
  end.

(** Admissions of a history in the window [(t - w, t]] that ends at [t]. *)
Definition in_window (w t : Z) (h : list Z) : Z :=
  len (filter (fun a => t - w < a /\ a <= t) h).

(** Instants in the order of the clock. *)
Fixpoint from (m : Z) (times : list Z) : Prop :=
  match times with [] => True | t :: ts => m <= t /\ from t ts end.

Lemma from_weaken m m' ts : from m' ts -> m <= m' -> from m ts.
Proof. destruct ts; simpl; [done|]. intros [? ?] ?. split; [lia|done]. Qed.

(** ** Facts about histories *)

Lemma in_window_le_prune w t c h : c <= t - w -> in_window w t h <= len (prune c h).
Proof.
  intros Hc. unfold in_window, prune, len. induction h as [|a h IH]; [done|].
  rewrite !filter_cons. destruct (decide (t - w < a /\ a <= t)).
  - rewrite decide_True by lia. simpl. lia.
  - case_decide; simpl; lia.
Qed.

Lemma in_window_app w t h k : in_window w t (h ++ k) = in_window w t h + in_window w t k.
Proof. unfold in_window. rewrite filter_app. apply len_app. Qed.

Lemma in_window_one w t a :
  in_window w t [a] = if decide (t - w < a /\ a <= t) then 1 else 0.
Proof. unfold in_window. rewrite filter_cons, filter_nil. by case_decide. Qed.

Lemma prune_window_spec w m h :
  Forall (fun a => a <= m) h -> len (prune (m - w) h) = in_window w m h.
Proof.
  unfold in_window, prune, len. induction 1 as [|a h Ha Hh IH]; [done|].
  rewrite !filter_cons. case_decide; case_decide; simpl; lia.
Qed.

Section history.
  Context (w limit : Z).

  (** The history never has more than [limit] admissions in a window, and
      nothing later than the clock. *)
Definition hist_ok (m : Z) (h : list Z) : Prop :=
    Forall (fun a => a <= m) h /\ forall t, in_window w t h <= limit.

Lemma hist_ok_later m m' h : hist_ok m h -> m <= m' -> hist_ok m' h.
  Proof. intros [Hm Hw] ?. split; [|done]. eapply Forall_impl; [done|]. simpl. lia. Qed.

Lemma hist_step_ok m now h :
    hist_ok m h -> m <= now -> hist_ok now (hist_step w limit now h).2.
  Proof.
    intros Hok Hnow. assert (hist_ok now h) as [Hm Hw] by by eapply hist_ok_later.
    unfold hist_step. destruct (Z.ltb_spec (len (prune (now - w) h)) limit); [|done].
    split; simpl.
    - apply Forall_app. split; [done|]. by apply Forall_singleton.
    - intros t. rewrite in_window_app, in_window_one. case_decide; [|specialize (Hw t); lia].
      assert (in_window w t h <= in_window w now h); [|rewrite (prune_window_spec w) in * by done; lia].
      rewrite <- (prune_window_spec w now) by done. apply in_window_le_prune. lia.
  Qed.

Lemma hist_run_ok m times h :
    hist_ok m h -> from m times -> forall t, in_window w t (hist_run w limit times h).2 <= limit.
  Proof.
    revert m h. induction times as [|now ts IH]; intros m h Hok; simpl.
    - intros _. apply Hok.
    - intros [Hnow Hts]. pose proof (hist_step_ok _ _ _ Hok Hnow) as Hok'.
      destruct (hist_step w limit now h) as [b h1]. specialize (IH now h1 Hok' Hts).
      by destruct (hist_run w limit ts h1).
  Qed.
End history.

(** ** Every implementation refines the reference machine *)

Section refinement.
  Context {S I : Type} `{WindowLimiter S I}.

  (** The answers of the checks of a run, in order. *)
Fixpoint wl_run (ops : list I) (s : S) : list bool :=
    match ops with
    | [] => []
    | i :: rest =>
        let '(b, s1) := wl_step i s in
        if wl_check i s then b :: wl_run rest s1 else wl_run rest s1
    end.

Fixpoint check_times (ops : list I) (s : S) : list Z :=
    match ops with
    | [] => []
    | i :: rest =>
        if wl_check i s then wl_time i :: check_times rest (wl_step i s).2
        else check_times rest (wl_step i s).2
    end.

  (** The simulation relation at clock [m]: what the state remembers and the
      history agree on every window that ends at [m] or later. *)
Definition wl_sim (m : Z) (s : S) (h : list Z) : Prop :=
    wl_ok m s /\ prune (m - wl_window) (wl_log s) = prune (m - wl_window) h.

Lemma wl_sim_later m m' s h : wl_sim m s h -> m <= m' -> wl_sim m' s h.
  Proof.
    intros [Hok Hs] Hm. split; [by eapply wl_ok_later|].
    rewrite <- (prune_prune (m - wl_window) (m' - wl_window)), Hs by lia.
    apply prune_prune. lia.
  Qed.

Lemma wl_check_sim m i s h :
    wl_sim m s h -> m <= wl_time i -> wl_check i s = true ->
    (wl_step i s).1 = (hist_step wl_window wl_limit (wl_time i) h).1 /\
    wl_sim (wl_time i) (wl_step i s).2 (hist_step wl_window wl_limit (wl_time i) h).2.
  Proof.
    intros Hs Hm Hc. apply (wl_sim_later _ (wl_time i)) in Hs as [Hok Hs]; [|done].
    pose proof (wl_check_spec i s Hok Hc) as Hstep. pose proof (wl_step_ok i s Hok) as Hok'.
    unfold wl_sim, hist_step in *. simpl in Hstep. rewrite Hs in Hstep.
    destruct (len (prune (wl_time i - wl_window) h) <? wl_limit); destruct Hstep as [-> Hlog];
      rewrite Hlog; simpl; split_and!; try done; rewrite ?prune_app, prune_prune by lia; done.
  Qed.

Lemma wl_other_sim m i s h :
    wl_sim m s h -> m <= wl_time i -> wl_check i s = false -> wl_sim (wl_time i) (wl_step i s).2 h.
  Proof.
    intros Hs Hm Hc. apply (wl_sim_later _ (wl_time i)) in Hs as [Hok Hs]; [|done].
    split; [by apply wl_step_ok|]. by rewrite wl_other_spec.
  Qed.

Lemma wl_run_sim m ops s h :
    wl_sim m s h -> from m (wl_time <$> ops) ->
    wl_run ops s = (hist_run wl_window wl_limit (check_times ops s) h).1.
  Proof.
    revert m s h. induction ops as [|i ops IH]; intros m s h Hs; [done|].
    cbn [wl_run check_times fmap list_fmap from]. intros [Hm Hts].
    destruct (wl_check i s) eqn:Hc.
    - destruct (wl_check_sim m i s h Hs Hm Hc) as [Hb Hs1]. cbn [hist_run].
      destruct (wl_step i s) as [b s1], (hist_step _ _ (wl_time i) h) as [b' h1]. simpl in *.
      specialize (IH _ s1 h1 Hs1 Hts). destruct (hist_run _ _ _ h1). simpl in *. congruence.
    - pose proof (wl_other_sim m i s h Hs Hm Hc) as Hs1.
      destruct (wl_step i s) as [b s1]. by apply (IH _ s1 h Hs1).
  Qed.
End refinement.

(** The instants of [times] that a run answered [true] to. *)
Fixpoint admitted (times : list Z) (answers : list bool) : list Z :=
  match times, answers with
  | t :: ts, b :: bs => if b then t :: admitted ts bs else admitted ts bs
  | _, _ => []
  end.

Lemma hist_run_admitted w limit times h :
  (hist_run w limit times h).2 = h ++ admitted times (hist_run w limit times h).1.
Proof.
  revert h. induction times as [|now ts IH]; intros h; simpl; [by rewrite app_nil_r|].
  unfold hist_step. destruct (_ <? limit).
  - specialize (IH (h ++ [now])). destruct (hist_run _ _ ts (h ++ [now])). simpl in *.
    rewrite IH, <- app_assoc. done.
  - specialize (IH h). destruct (hist_run _ _ ts h). simpl in *. done.
Qed.

Section promises.
  Context {S I : Type} `{WindowLimiter S I}.

  (** The answers from a state with an empty log are the reference machine's,
      whatever other operations run in between. *)
Lemma wl_refines s m ops :
    wl_ok m s -> wl_log s = [] -> from m (wl_time <$> ops) ->
    wl_run ops s = (hist_run wl_window wl_limit (check_times ops s) []).1.
  Proof. intros Hok Hs. apply wl_run_sim. unfold wl_sim. by rewrite Hs. Qed.

Lemma from_check_times m ops s : from m (wl_time <$> ops) -> from m (check_times ops s).
  Proof.
    revert m s. induction ops as [|i ops IH]; intros m s; [done|].
    cbn [check_times fmap list_fmap from]. intros [Hm Hts]. destruct (wl_check i s).
    - cbn [from]. auto.
    - apply IH. by apply (from_weaken _ (wl_time i)).
  Qed.

  (** No window holds more than [wl_limit] admissions. *)
Lemma wl_bound s m ops t :
    0 <= wl_limit -> wl_ok m s -> wl_log s = [] -> from m (wl_time <$> ops) ->
    in_window wl_window t (admitted (check_times ops s) (wl_run ops s)) <= wl_limit.
  Proof.
    intros Hl Hok Hs Hm. rewrite (wl_refines s m) by done.
    pose proof (hist_run_admitted wl_window wl_limit (check_times ops s) []) as Ha. simpl in Ha.
    rewrite <- Ha. apply hist_run_ok with (m := m); [|by apply from_check_times].
    by split; [constructor|].
  Qed.
End promises.
