(* ===== verification/RateLimit.v ===== *)
(** * internal/ratelimit/ratelimit.go

    The rate limiter: per-key fixed windows, sliding windows, token buckets
    and leaky buckets, the per-granularity rates, the priority bursts and the
    cleanup of stale entries. Each check takes the clock readings it makes;
    the mutexes serialise the operations, so a trace of calls is a list.
    A run-time panic is an outcome. *)

From S2P Require Import Prelude Float64 GoStr SlidingWindow.
From stdpp Require Import pretty.

#[local] Open Scope string_scope.
#[local] Open Scope Z_scope.

Inductive Algorithm : Type := FixedWindow | SlidingWindow | TokenBucket | LeakyBucket
                            | OtherAlgorithm (s : string).
Inductive Granularity : Type := PerIP | PerUser | PerSession | PerAPIKey | PerEndpoint | PerGeo
                              | OtherGranularity (s : string).

Record windowEntry : Type := mkEntry { we_timestamp : Z; we_count : Z }.

Record tokenBucket : Type := mkTokenBucket {
  tokens : f64; tb_capacity : f64; refillRate : f64; lastRefill : Z
}.

Record leakyBucket : Type := mkLeakyBucket {
  lb_queue : list Z; lb_capacity : Z; leakRate : Z; lastLeak : Z
}.

Record RateLimiter : Type := mkRateLimiter {
  algorithm : Algorithm;
  defaultRate : Z;
  defaultBurst : Z;
  windowSize : Z;
  cleanupTick : Z;
  fixedWindows : gmap string windowEntry;
  slidingWindows : gmap string (list Z);
  tokenBuckets : gmap string tokenBucket;
  leakyBuckets : gmap string leakyBucket;
  perIPLimits : gmap string Z;
  perUserLimits : gmap string Z;
  perEndpointLimits : gmap string Z;
  perGeoLimits : gmap string Z;
  perAPIKeyLimits : gmap string Z;
  priorityQueues : gmap string bool
}.

Record Decision : Type := mkRLDecision {
  Allowed : bool; RetryAfter : Z; Remaining : Z; Limit : Z; ResetAt : Z
}.

Definition NewRateLimiter (alg : Algorithm) (rate burst : Z) : RateLimiter :=
  mkRateLimiter alg rate burst Second (5 * Minute) ∅ ∅ ∅ ∅ ∅ ∅ ∅ ∅ ∅ ∅.

Definition set_fixed (m : gmap string windowEntry) (rl : RateLimiter) : RateLimiter :=
  mkRateLimiter (algorithm rl) (defaultRate rl) (defaultBurst rl) (windowSize rl) (cleanupTick rl)
    m (slidingWindows rl) (tokenBuckets rl) (leakyBuckets rl) (perIPLimits rl) (perUserLimits rl)
    (perEndpointLimits rl) (perGeoLimits rl) (perAPIKeyLimits rl) (priorityQueues rl).
Definition set_sliding (m : gmap string (list Z)) (rl : RateLimiter) : RateLimiter :=
  mkRateLimiter (algorithm rl) (defaultRate rl) (defaultBurst rl) (windowSize rl) (cleanupTick rl)
    (fixedWindows rl) m (tokenBuckets rl) (leakyBuckets rl) (perIPLimits rl) (perUserLimits rl)
    (perEndpointLimits rl) (perGeoLimits rl) (perAPIKeyLimits rl) (priorityQueues rl).
Definition set_tokens (m : gmap string tokenBucket) (rl : RateLimiter) : RateLimiter :=
  mkRateLimiter (algorithm rl) (defaultRate rl) (defaultBurst rl) (windowSize rl) (cleanupTick rl)
    (fixedWindows rl) (slidingWindows rl) m (leakyBuckets rl) (perIPLimits rl) (perUserLimits rl)
    (perEndpointLimits rl) (perGeoLimits rl) (perAPIKeyLimits rl) (priorityQueues rl).
Definition set_leaky (m : gmap string leakyBucket) (rl : RateLimiter) : RateLimiter :=
  mkRateLimiter (algorithm rl) (defaultRate rl) (defaultBurst rl) (windowSize rl) (cleanupTick rl)
    (fixedWindows rl) (slidingWindows rl) (tokenBuckets rl) m (perIPLimits rl) (perUserLimits rl)
    (perEndpointLimits rl) (perGeoLimits rl) (perAPIKeyLimits rl) (priorityQueues rl).
Definition set_limits (ip user ep geo api : gmap string Z) (prio : gmap string bool)
    (rl : RateLimiter) : RateLimiter :=
  mkRateLimiter (algorithm rl) (defaultRate rl) (defaultBurst rl) (windowSize rl) (cleanupTick rl)
    (fixedWindows rl) (slidingWindows rl) (tokenBuckets rl) (leakyBuckets rl) ip user ep geo api prio.

(** ** Rates *)

Definition getRate (rl : RateLimiter) (key : string) (g : Granularity) : Z :=
  match g with
  | PerIP => default (defaultRate rl) (perIPLimits rl !! key)
  | PerUser => default (defaultRate rl) (perUserLimits rl !! key)
  | PerEndpoint => default (defaultRate rl) (perEndpointLimits rl !! key)
  | PerGeo => default (defaultRate rl) (perGeoLimits rl !! key)
  | PerAPIKey => default (defaultRate rl) (perAPIKeyLimits rl !! key)
  | PerSession | OtherGranularity _ => defaultRate rl
  end.

Definition getBurst (rl : RateLimiter) (key : string) : Z :=
  if lookup_default false (priorityQueues rl) key then wrap64 (defaultBurst rl * 2)
  else defaultBurst rl.

Definition SetRateLimit (g : Granularity) (key : string) (rate : Z) (rl : RateLimiter) : RateLimiter :=
  let ins m := <[key := rate]> m in
  let ip := perIPLimits rl in let user := perUserLimits rl in
  let ep := perEndpointLimits rl in let geo := perGeoLimits rl in
  let api := perAPIKeyLimits rl in let prio := priorityQueues rl in
  match g with
  | PerIP => set_limits (ins ip) user ep geo api prio rl
  | PerUser => set_limits ip (ins user) ep geo api prio rl
  | PerEndpoint => set_limits ip user (ins ep) geo api prio rl
  | PerGeo => set_limits ip user ep (ins geo) api prio rl
  | PerAPIKey => set_limits ip user ep geo (ins api) prio rl
  | PerSession | OtherGranularity _ => rl
  end.

Definition SetPriority (key : string) (premium : bool) (rl : RateLimiter) : RateLimiter :=
  set_limits (perIPLimits rl) (perUserLimits rl) (perEndpointLimits rl) (perGeoLimits rl)
    (perAPIKeyLimits rl) (<[key := premium]> (priorityQueues rl)) rl.

(** ** Fixed windows *)

(** [fmt.Sprintf("%s:%d", key, now.Unix())] *)
Definition windowKey (key : string) (now : Z) : string := key ++ ":" ++ pretty (time_unix now).

Definition fixed_entry (entry : option windowEntry) (now rate burst : Z)
    : windowEntry * (bool * Decision) :=
  let limit := wrap64 (rate + burst) in
  let fresh := (mkEntry now 1, (true, mkRLDecision true 0 (wrap64 (limit - 1)) limit (now + Second))) in
  match entry with
  | None => fresh
  | Some e =>
      if Second <? time_sub now (we_timestamp e) then fresh
      else
        let count := incr (we_count e) in
        (mkEntry (we_timestamp e) count,
         if limit <? count then (false, mkRLDecision false 1 0 limit (now + Second))
         else (true, mkRLDecision true 0 (wrap64 (limit - count)) limit (now + Second)))
  end.

Definition checkFixedWindow (key : string) (rate burst now : Z) (rl : RateLimiter)
    : (bool * Decision) * RateLimiter :=
  let wk := windowKey key now in
  let '(e, d) := fixed_entry (fixedWindows rl !! wk) now rate burst in
  (d, set_fixed (<[wk := e]> (fixedWindows rl)) rl).

(** ** Sliding windows *)

(** [retryAfter := int(rl.windowSize - now.Sub(oldest))], not below 0: a
    number of nanoseconds. *)
Definition checkSlidingWindow (key : string) (rate burst now : Z) (rl : RateLimiter)
    : outcome ((bool * Decision) * RateLimiter) :=
  let cutoff := now - windowSize rl in
  let valid := prune cutoff (lookup_default [] (slidingWindows rl) key) in
  let count := len valid in
  let limit := wrap64 (rate + burst) in
  if limit <=? count then
    let rl1 := set_sliding (<[key := valid]> (slidingWindows rl)) rl in
    let! oldest := index0 valid in
    let retryAfter := wrap64 (windowSize rl - time_sub now oldest) in
    let retryAfter := if retryAfter <? 0 then 0 else retryAfter in
    Returns ((false, mkRLDecision false retryAfter 0 limit (oldest + windowSize rl)), rl1)
  else
    let rl1 := set_sliding (<[key := (valid ++ [now])%list]> (slidingWindows rl)) rl in
    Returns ((true, mkRLDecision true 0 (wrap64 (limit - count - 1)) limit (now + windowSize rl)), rl1).

(** ** Token buckets *)

(** [time.Duration(x) * time.Millisecond] of a float. *)
Definition refill_time (refill : f64) : Z :=
  wrap64 (to_int (fmul (fdiv (of_int 1) refill) (of_int 1000)) * Millisecond).

Definition take_token (b : tokenBucket) (rate burst now : Z) : tokenBucket * (bool * Decision) :=
  let elapsed := Seconds (time_sub now (lastRefill b)) in
  let filled := fmin (tb_capacity b) (fadd (tokens b) (fmul elapsed (refillRate b))) in
  let limit := wrap64 (rate + burst) in
  if flt filled (of_int 1) then
    let refillTime := refill_time (refillRate b) in
    (mkTokenBucket filled (tb_capacity b) (refillRate b) now,
     (false, mkRLDecision false (Z.quot refillTime Millisecond) 0 limit (now + refillTime)))
  else
    let left := fsub filled (of_int 1) in
    (mkTokenBucket left (tb_capacity b) (refillRate b) now,
     (true, mkRLDecision true 0 (to_int left) limit (now + Second))).

(** [now1] is read when a bucket is created, [now2] for the refill. *)
Definition checkTokenBucket (key : string) (rate burst now1 now2 : Z) (rl : RateLimiter)
    : (bool * Decision) * RateLimiter :=
  let rate := if rate <=? 0 then 1 else rate in
  let bucket := default (mkTokenBucket (of_int burst) (of_int burst) (of_int rate) now1)
                        (tokenBuckets rl !! key) in
  let '(b, d) := take_token bucket rate burst now2 in
  (d, set_tokens (<[key := b]> (tokenBuckets rl)) rl).

(** ** Leaky buckets *)

(** [make([]time.Time, 0, burst)] panics for a negative capacity, and
    [time.Second / time.Duration(rate)] is 0 for a rate above 10^9, by which
    the elapsed time is then divided. *)
Definition new_leaky (rate burst now1 : Z) : outcome leakyBucket :=
  if burst <? 0 then Panics else Returns (mkLeakyBucket [] burst (Z.quot Second rate) now1).

Definition leak (b : leakyBucket) (now : Z) : outcome leakyBucket :=
  if leakRate b =? 0 then Panics
  else
    let leakCount := Z.quot (time_sub now (lastLeak b)) (leakRate b) in
    Returns
      (if 0 <? leakCount then
         mkLeakyBucket (if len (lb_queue b) <=? leakCount then []
                        else drop (Z.to_nat leakCount) (lb_queue b))
           (lb_capacity b) (leakRate b) now
       else b).

Definition pour (b : leakyBucket) (burst now : Z) : outcome (leakyBucket * (bool * Decision)) :=
  if lb_capacity b <=? len (lb_queue b) then
    let! oldest := index0 (lb_queue b) in
    let retryAfter :=
      Z.quot (wrap64 (leakRate b * (len (lb_queue b) - lb_capacity b + 1))) Millisecond in
    Returns (b, (false, mkRLDecision false retryAfter 0 burst (oldest + wrap64 (leakRate b * burst))))
  else
    let queue := (lb_queue b ++ [now])%list in
    let left := lb_capacity b - len queue in
    Returns (mkLeakyBucket queue (lb_capacity b) (leakRate b) (lastLeak b),
             (true, mkRLDecision true 0 left burst (now + wrap64 (leakRate b * left)))).

Definition checkLeakyBucket (key : string) (rate burst now1 now2 : Z) (rl : RateLimiter)
    : outcome ((bool * Decision) * RateLimiter) :=
  let rate := if rate <=? 0 then 1 else rate in
  let! bucket := match leakyBuckets rl !! key with
                 | Some b => Returns b
                 | None => new_leaky rate burst now1
                 end in
  let! leaked := leak bucket now2 in
  let! (b, d) := pour leaked burst now2 in
  Returns (d, set_leaky (<[key := b]> (leakyBuckets rl)) rl).

(** ** Inspect *)

Definition Inspect (key : string) (g : Granularity) (now1 now2 : Z) (rl : RateLimiter)
    : outcome ((bool * Decision) * RateLimiter) :=
  let rate := getRate rl key g in
  let burst := getBurst rl key in
  match algorithm rl with
  | FixedWindow => Returns (checkFixedWindow key rate burst now2 rl)
  | SlidingWindow => checkSlidingWindow key rate burst now2 rl
  | TokenBucket => Returns (checkTokenBucket key rate burst now1 now2 rl)
  | LeakyBucket => checkLeakyBucket key rate burst now1 now2 rl
  | OtherAlgorithm _ => Returns (checkFixedWindow key rate burst now2 rl)
  end.


(** ** Cleanup: one tick of [cleanupLoop] *)

Definition cleanup_sliding (now window : Z) (ts : list Z) : option (list Z) :=
  let valid := prune (now - window * 2) ts in
  if len valid =? 0 then None else Some valid.

Definition cleanup (now : Z) (rl : RateLimiter) : RateLimiter :=
  mkRateLimiter (algorithm rl) (defaultRate rl) (defaultBurst rl) (windowSize rl) (cleanupTick rl)
    (filter (fun p => (windowSize rl * 2 <? time_sub now (we_timestamp p.2)) = false)
       (fixedWindows rl))
    (omap (cleanup_sliding now (windowSize rl)) (slidingWindows rl))
    (filter (fun p => (cleanupTick rl * 2 <? time_sub now (lastRefill p.2)) = false)
       (tokenBuckets rl))
    (filter (fun p => (cleanupTick rl * 2 <? time_sub now (lastLeak p.2))
                      && (len (lb_queue p.2) =? 0) = false)
       (leakyBuckets rl))
    (perIPLimits rl) (perUserLimits rl) (perEndpointLimits rl) (perGeoLimits rl)
    (perAPIKeyLimits rl) (priorityQueues rl).

(** * Sliding windows: the admission contract *)

Section sliding.
  Context (k : string) (g : Granularity).

  (** Traffic of any keys at granularity [g], and cleanup ticks. *)
Inductive sw_op : Type := SwCheck (key : string) (now : Z) | SwCleanup (now : Z).
Definition sw_time (o : sw_op) : Z := match o with SwCheck _ now | SwCleanup now => now end.
Definition sw_check (o : sw_op) : bool :=
    match o with SwCheck key _ => String.eqb key k | SwCleanup _ => false end.

  (** One operation; a check that panics admits nothing. *)
Definition sw_step (o : sw_op) (rl : RateLimiter) : bool * RateLimiter :=
    match o with
    | SwCheck key now =>
        match Inspect key g now now rl with
        | Returns ((allowed, _), rl') => (allowed, rl')
        | Panics => (false, rl)
        end
    | SwCleanup now => (false, cleanup now rl)
    end.

  (** The instants at which a trace admitted key [k]. *)
Fixpoint admissions (ops : list sw_op) (rl : RateLimiter) : list Z :=
    match ops with
    | [] => []
    | o :: rest =>
        let '(b, rl') := sw_step o rl in
        if sw_check o && b then sw_time o :: admissions rest rl' else admissions rest rl'
    end.

Definition sw_log (rl : RateLimiter) : list Z := lookup_default [] (slidingWindows rl) k.

Lemma sliding_lookup key key' v m :
    lookup_default (V := list Z) [] (<[key := v]> m) key'
    = if String.eqb key key' then v else lookup_default [] m key'.
  Proof.
    unfold lookup_default. destruct (String.eqb_spec key key') as [->|Hne].
    - by rewrite lookup_insert_eq.
    - by rewrite lookup_insert_ne.
  Qed.

  (** What one check does to the log of [k]. *)
Lemma check_log key rate burst now rl :
    match checkSlidingWindow key rate burst now rl with
    | Returns ((allowed, _), rl') =>
        let kept := prune (now - windowSize rl) (lookup_default [] (slidingWindows rl) key) in
        allowed = negb (wrap64 (rate + burst) <=? len kept) /\
        rl' = set_sliding (<[key := if allowed then (kept ++ [now])%list else kept]>
                             (slidingWindows rl)) rl
    | Panics => wrap64 (rate + burst) <= 0
    end.
  Proof.
    unfold checkSlidingWindow. set (kept := prune _ _).
    destruct (wrap64 (rate + burst) <=? len kept) eqn:E; [|done].
    destruct kept as [|t ts]; simpl; [|done]. b2p. exact E.
  Qed.

Lemma cleanup_log now rl : 0 <= windowSize rl ->
    prune (now - windowSize rl) (sw_log (cleanup now rl)) = prune (now - windowSize rl) (sw_log rl).
  Proof.
    intros HW. unfold sw_log, lookup_default. cbn [cleanup slidingWindows].
    rewrite lookup_omap. destruct (slidingWindows rl !! k) as [ts|]; simpl; [|done].
    unfold cleanup_sliding. destruct (Z.eqb_spec (len (prune (now - windowSize rl * 2) ts)) 0) as [E|E].
    - apply len_zero_inv in E. rewrite <- (prune_prune (now - windowSize rl * 2) (now - windowSize rl) ts), E by lia. done.
    - simpl. apply prune_prune. lia.
  Qed.

  Context (W r b : Z) (HW : 0 <= W) (Hlim : 0 < wrap64 (r + b)).

  (** The configuration is the same throughout the trace. *)
Definition sw_ok (rl : RateLimiter) : Prop :=
    algorithm rl = SlidingWindow /\ windowSize rl = W /\ getRate rl k g = r /\ getBurst rl k = b.

Lemma sw_step_ok o rl : sw_ok rl -> sw_ok (sw_step o rl).2.
  Proof.
    intros (Ha & Hw & Hr & Hb). destruct o as [key now|now]; simpl; [|by repeat split].
    unfold Inspect. rewrite Ha. pose proof (check_log key (getRate rl key g) (getBurst rl key) now rl) as H.
    destruct (checkSlidingWindow _ _ _ _ _) as [[[a d] rl']|]; simpl; [|done].
    destruct H as [_ ->]. done.
  Qed.

Lemma sw_check_step o rl : sw_ok rl -> sw_check o = true ->
    let kept := prune (sw_time o - W) (sw_log rl) in
    if len kept <? wrap64 (r + b)
    then (sw_step o rl).1 = true /\ sw_log (sw_step o rl).2 = (kept ++ [sw_time o])%list
    else (sw_step o rl).1 = false /\ sw_log (sw_step o rl).2 = kept.
  Proof.
    intros (Ha & Hw & Hr & Hb) Hc. destruct o as [key now|]; [|done]. simpl in Hc.
    apply String.eqb_eq in Hc as ->. simpl. unfold Inspect. rewrite Ha, Hr, Hb.
    pose proof (check_log k r b now rl) as H.
    destruct (checkSlidingWindow _ _ _ _ _) as [[[a d] rl']|]; simpl in *; [|lia].
    destruct H as [-> ->]. rewrite Hw. unfold sw_log. cbn [slidingWindows set_sliding].
    rewrite sliding_lookup, String.eqb_refl, Z.leb_antisym, negb_involutive.
    by destruct (_ <? _).
  Qed.

Lemma sw_other_step o rl : sw_ok rl -> sw_check o = false ->
    prune (sw_time o - W) (sw_log (sw_step o rl).2) = prune (sw_time o - W) (sw_log rl).
  Proof.
    intros (Ha & Hw & Hr & Hb) Hc. destruct o as [key now|now]; simpl in *.
    - unfold Inspect. rewrite Ha.
      pose proof (check_log key (getRate rl key g) (getBurst rl key) now rl) as H.
      destruct (checkSlidingWindow _ _ _ _ _) as [[[a d] rl']|]; simpl; [|done].
      destruct H as [_ ->]. unfold sw_log. cbn [slidingWindows set_sliding].
      by rewrite sliding_lookup, Hc.
    - rewrite <- Hw. apply cleanup_log. lia.
  Qed.

#[local] Instance sliding_limiter : WindowLimiter RateLimiter sw_op := {|
    wl_window := W; wl_limit := wrap64 (r + b); wl_time := sw_time; wl_check := fun o _ => sw_check o;
    wl_step := sw_step; wl_log := sw_log; wl_ok := fun _ => sw_ok;
    wl_ok_later := fun _ _ _ Hs _ => Hs; wl_step_ok := sw_step_ok; wl_check_spec := sw_check_step; wl_other_spec := sw_other_step
  |}.

Lemma admissions_admitted ops rl :
    admissions ops rl = admitted (check_times ops rl) (wl_run ops rl).
  Proof.
    revert rl. induction ops as [|o ops IH]; intros rl; [done|].
    cbn [admissions wl_run check_times].
    change (wl_step o rl) with (sw_step o rl). change (wl_check o rl) with (sw_check o).
    destruct (sw_step o rl) as [a rl']. rewrite IH. by destruct (sw_check o), a.
  Qed.

Lemma check_times_filter ops rl :
    check_times ops rl = sw_time <$> filter (fun o => sw_check o = true) ops.
  Proof.
    revert rl. induction ops as [|o ops IH]; intros rl; [done|].
    cbn [check_times]. rewrite filter_cons. change (wl_check o rl) with (sw_check o).
    destruct (sw_check o); [rewrite decide_True by done|rewrite decide_False by done];
      rewrite IH; done.
  Qed.
End sliding.

(** [C39] No window of the configured size ever holds more admissions of a key
    than its limit [rate + burst], in any trace of [Inspect] calls of that and
    other keys interleaved with cleanup ticks. *)
Theorem sliding_window_bound rl k g ops m t :
  algorithm rl = SlidingWindow -> 0 <= windowSize rl -> slidingWindows rl !! k = None ->
  0 < wrap64 (getRate rl k g + getBurst rl k) -> from m (sw_time <$> ops) ->
  in_window (windowSize rl) t (admissions k g ops rl) <= wrap64 (getRate rl k g + getBurst rl k).
Proof.
  intros Ha HW Hk Hlim Hm.
  set (H := sliding_limiter k g (windowSize rl) (getRate rl k g) (getBurst rl k) HW Hlim).
  rewrite (admissions_admitted k g _ _ _ HW Hlim).
  apply (wl_bound (H := H) rl m); [simpl; lia|done| |done].
  unfold wl_log; simpl. unfold sw_log, lookup_default. by rewrite Hk.
Qed.

Definition sw_example_ops : list sw_op :=
  [SwCheck "a" 10; SwCheck "b" 11; SwCheck "a" 12; SwCheck "a" 13; SwCleanup (4 * Second);
   SwCheck "a" (4 * Second)].
Definition sw_example : RateLimiter := NewRateLimiter SlidingWindow 1 1.

Lemma sliding_window_bound_witness :
  admissions "a" PerIP sw_example_ops sw_example = [10; 12; 4 * Second] /\
  in_window Second 13 (admissions "a" PerIP sw_example_ops sw_example) <= 2.
Proof.
  split; [by vm_compute|].
  apply (sliding_window_bound sw_example "a" PerIP sw_example_ops 0 13);
    by vm_compute.
Defined.

(** [C38] The limiter that prunes and forgets decides like one that remembers
    the whole history: the sequence of answers to key [k] in any interleaving
    is the one of the reference machine that counts the admissions in the
    window [(now - windowSize, now]]. *)
Theorem sliding_window_refines rl k g ops m :
  algorithm rl = SlidingWindow -> 0 <= windowSize rl -> slidingWindows rl !! k = None ->
  0 < wrap64 (getRate rl k g + getBurst rl k) -> from m (sw_time <$> ops) ->
  admissions k g ops rl
  = let times := sw_time <$> filter (fun o => sw_check k o = true) ops in
    admitted times
      (hist_run (windowSize rl) (wrap64 (getRate rl k g + getBurst rl k)) times []).1.
Proof.
  intros Ha HW Hk Hlim Hm.
  set (H := sliding_limiter k g (windowSize rl) (getRate rl k g) (getBurst rl k) HW Hlim).
  rewrite (admissions_admitted k g _ _ _ HW Hlim), <- (check_times_filter k g _ _ _ HW Hlim _ rl).
  simpl. f_equal.
  apply (wl_refines (H := H) rl m); [done| |done].
  unfold wl_log; simpl. unfold sw_log, lookup_default. by rewrite Hk.
Qed.

Lemma sliding_window_refines_witness :
  admissions "a" PerIP sw_example_ops sw_example
  = admitted [10; 12; 13; 4 * Second] (hist_run Second 2 [10; 12; 13; 4 * Second] []).1.
Proof.
  apply (sliding_window_refines sw_example "a" PerIP sw_example_ops 0); by vm_compute.
Defined.

(** The sliding-window check panics exactly when the limit is not
    positive and no entry of the key is left in the window: it then indexes
    [valid[0]] of an empty slice. *)
Theorem sliding_window_panics key rate burst now rl :
  checkSlidingWindow key rate burst now rl = Panics <->
  wrap64 (rate + burst) <= 0 /\
  prune (now - windowSize rl) (lookup_default [] (slidingWindows rl) key) = [].
Proof.
  unfold checkSlidingWindow. set (valid := prune _ _). split.
  - destruct (_ <=? _) eqn:E; [|done]. destruct valid; [|done]. intros _. b2p. by split.
  - intros [Hl Hv]. rewrite Hv. rewrite (proj2 (Z.leb_le _ _)); [done|]. by rewrite len_nil.
Qed.

(** * Fixed windows *)

Fixpoint has_colon (s : string) : bool :=
  match s with "" => false | String c s' => (byte_of c =? 58) || has_colon s' end.

Lemma has_colon_app a b : has_colon (a ++ b) = has_colon a || has_colon b.
Proof. induction a as [|x a IH]; [done|]. rewrite sapp_cons. simpl. by rewrite IH, orb_assoc. Qed.

Lemma colon_split a b c d :
  has_colon b = false -> has_colon d = false ->
  a ++ String ":" b = c ++ String ":" d -> a = c /\ b = d.
Proof.
  intros Hb Hd. revert c. induction a as [|x a IH]; intros [|y c]; rewrite ?sapp_cons.
  - by intros [= ->].
  - intros [= <- ->]. rewrite has_colon_app, orb_true_r in Hb. done.
  - intros [= -> <-]. rewrite has_colon_app, orb_true_r in Hd. done.
  - intros [= -> Heq]. by destruct (IH c Heq) as [-> ->].
Qed.

Lemma pretty_N_no_colon n s : has_colon s = false -> has_colon (pretty_N_go n s) = false.
Proof.
  revert s. induction (N.lt_wf_0 n) as [n _ IH]; intros s Hs.
  destruct (decide (0 < n)%N) as [Hn|Hn].
  - rewrite pretty_N_go_step by done. apply IH; [by apply N.div_lt|].
    assert (forall c, byte_of c <> 58 -> has_colon (String c s) = false) as Hc.
    { intros c Hc. simpl. by rewrite (proj2 (Z.eqb_neq _ _) Hc), Hs. }
    apply Hc. unfold pretty_N_char. by repeat case_match.
  - assert (n = 0)%N as -> by lia. by rewrite pretty_N_go_0.
Qed.

Lemma pretty_no_colon (z : Z) : has_colon (pretty z) = false.
Proof.
  assert (forall n : N, has_colon (pretty n) = false) as HN.
  { intros n. unfold pretty, pretty_N. case_decide; [done|]. by apply pretty_N_no_colon. }
  unfold pretty, pretty_Z. destruct z as [|p|p]; [done|apply HN|]. simpl. apply HN.
Qed.

Lemma windowKey_inj k t k' t' :
  windowKey k t = windowKey k' t' -> k = k' /\ time_unix t = time_unix t'.
Proof.
  unfold windowKey. intros H.
  change (k ++ String ":" (pretty (time_unix t)) = k' ++ String ":" (pretty (time_unix t'))) in H.
  destruct (colon_split k (pretty (time_unix t)) k' (pretty (time_unix t'))) as [-> Hp];
    [apply pretty_no_colon..|done|].
  split; [done|]. by apply (inj pretty).
Qed.

Section fixed.
  Context (k : string) (g : Granularity) (u L : Z).

  (** The admissions of a history that fall in second [u]. *)
Definition in_second (h : list Z) : Z := len (filter (fun a => time_unix a = u) h).

Definition fw_slot (rl : RateLimiter) : option windowEntry :=
    fixedWindows rl !! (k ++ ":" ++ pretty u).

  (** At clock [m], with [n] admissions of [k] in second [u] so far and [left]
      operations to come. *)
Definition fw_inv (m left n : Z) (rl : RateLimiter) : Prop :=
    (0 <= n <= Z.max 1 L /\ left <= 2 ^ 62) /\
    match fw_slot rl with
    | None => n = 0 \/ u < time_unix m
    | Some e => time_unix (we_timestamp e) = u /\ n <= we_count e /\
                1 <= we_count e <= max64 - left
    end.

Definition fw_ok (rl : RateLimiter) : Prop :=
    algorithm rl = FixedWindow /\ windowSize rl = Second /\
    wrap64 (getRate rl k g + getBurst rl k) = L.

Lemma same_second a b : time_unix a = time_unix b -> - Second < a - b < Second.
  Proof.
    unfold time_unix, Second. intros H.
    pose proof (Z.div_mod a 1000000000 ltac:(lia)). pose proof (Z.div_mod b 1000000000 ltac:(lia)).
    pose proof (Z.mod_pos_bound a 1000000000 ltac:(lia)).
    pose proof (Z.mod_pos_bound b 1000000000 ltac:(lia)). lia.
  Qed.

Lemma time_unix_mono a b : a <= b -> time_unix a <= time_unix b.
  Proof. intros. unfold time_unix, Second. by apply Z.div_le_mono. Qed.

  (** A check of [k] in second [u]. *)
Lemma fw_check_inv now m left n rl :
    fw_ok rl -> fw_inv m (1 + left) n rl -> 0 <= left -> m <= now -> time_unix now = u ->
    let res := checkFixedWindow k (getRate rl k g) (getBurst rl k) now rl in
    fw_inv now left (if res.1.1 then n + 1 else n) res.2.
  Proof.
    intros (_ & _ & HL) [Hn Hs] Hleft Hm Hu. unfold checkFixedWindow.
    assert (windowKey k now = k ++ ":" ++ pretty u) as -> by (unfold windowKey; by rewrite Hu).
    unfold fw_slot in Hs. unfold fixed_entry. rewrite HL.
    destruct (fixedWindows rl !! _) as [e|].
    - destruct Hs as (Hts & Hne & Hc). pose proof (same_second now (we_timestamp e) ltac:(lia)).
      rewrite (proj2 (Z.ltb_ge _ _)) by (unfold time_sub, min64, max64, Second in *; lia).
      rewrite incr_small by (unfold min64 in *; lia).
      destruct (Z.ltb_spec L (we_count e + 1)); unfold fw_inv, fw_slot;
        cbn [fixedWindows set_fixed fst snd]; rewrite lookup_insert_eq;
        cbn [we_timestamp we_count]; unfold max64 in *; lia.
    - pose proof (time_unix_mono m now Hm). assert (n = 0) as -> by lia.
      unfold fw_inv, fw_slot. cbn [fixedWindows set_fixed fst snd]. rewrite lookup_insert_eq.
      cbn [we_timestamp we_count]. unfold max64. lia.
  Qed.

  (** A check of another key, or in another second. *)
Lemma fw_other_inv key rate burst now m left n rl :
    fw_inv m (1 + left) n rl -> 0 <= left -> m <= now -> key <> k \/ time_unix now <> u ->
    fw_inv now left n (checkFixedWindow key rate burst now rl).2.
  Proof.
    intros [Hn Hs] Hleft Hm Hne. pose proof (time_unix_mono m now Hm).
    unfold checkFixedWindow. destruct (fixed_entry _ _ _ _) as [e d]. simpl.
    unfold fw_inv, fw_slot in *. cbn [fixedWindows set_fixed].
    rewrite lookup_insert_ne.
    - destruct (fixedWindows rl !! _); lia.
    - intros Heq. change (k ++ ":" ++ pretty u) with (k ++ String ":" (pretty u)) in Heq.
      apply colon_split in Heq as [-> Hp]; [|apply pretty_no_colon..].
      apply (inj pretty) in Hp. destruct Hne; [done|lia].
  Qed.

Lemma fw_cleanup_inv now m left n rl :
    fw_ok rl -> fw_inv m (1 + left) n rl -> 0 <= left -> m <= now ->
    fw_inv now left n (cleanup now rl).
  Proof.
    intros (_ & HW & _) [Hn Hs] Hleft Hm. pose proof (time_unix_mono m now Hm).
    split; [lia|]. unfold fw_slot in *. cbn [fixedWindows cleanup].
    rewrite map_lookup_filter. destruct (fixedWindows rl !! _) as [e|]; simpl; [|lia].
    case_guard as H1; simpl; [lia|]. right. apply not_false_is_true in H1. rewrite HW in H1. b2p.
    destruct Hs as (Hts & _). rewrite <- Hts. unfold time_unix, time_sub, Second, max64, min64 in *.
    pose proof (Z.div_mod (we_timestamp e) 1000000000 ltac:(lia)).
    pose proof (Z.div_mod now 1000000000 ltac:(lia)).
    pose proof (Z.mod_pos_bound now 1000000000 ltac:(lia)).
    pose proof (Z.mod_pos_bound (we_timestamp e) 1000000000 ltac:(lia)). lia.
  Qed.

Lemma in_second_cons a h : in_second (a :: h) = (if decide (time_unix a = u) then 1 else 0) + in_second h.
  Proof. unfold in_second. rewrite filter_cons. case_decide; [by rewrite len_cons|lia]. Qed.

Lemma fw_step key now rl : fw_ok rl ->
    let res := checkFixedWindow key (getRate rl key g) (getBurst rl key) now rl in
    sw_step g (SwCheck key now) rl = (res.1.1, res.2) /\ fw_ok res.2.
  Proof.
    intros Hok. pose proof Hok as (Ha & _). unfold sw_step, Inspect. rewrite Ha.
    unfold checkFixedWindow. destruct (fixed_entry _ _ _ _) as [e [b d]]. by split.
  Qed.

Lemma fw_run_inv ops m n rl :
    fw_ok rl -> fw_inv m (len ops) n rl -> from m (sw_time <$> ops) ->
    n + in_second (admissions k g ops rl) <= Z.max 1 L.
  Proof.
    revert m n rl. induction ops as [|o ops IH]; intros m n rl Hok Hinv.
    { intros _. destruct Hinv as [[? _] _]. cbn [admissions]. unfold in_second.
      rewrite filter_nil, len_nil. lia. }
    rewrite len_cons in Hinv. cbn [fmap list_fmap from admissions]. intros [Hm Hfrom].
    pose proof (len_nonneg ops) as Hleft.
    destruct o as [key now|now]; cbn [sw_check sw_time] in *.
    - destruct (fw_step key now rl Hok) as [-> Hok'].
      set (res := checkFixedWindow _ _ _ _ _) in *. cbn [fst snd].
      destruct (decide (key = k /\ time_unix now = u)) as [[-> Hu]|Hne].
      + pose proof (fw_check_inv now m (len ops) n rl Hok Hinv Hleft Hm Hu) as Hstep.
        fold res in Hstep. simpl in Hstep. rewrite String.eqb_refl. cbn [andb].
        specialize (IH now _ _ Hok' Hstep Hfrom).
        destruct res.1.1; [rewrite in_second_cons, decide_True by done|]; lia.
      + assert (fw_inv now (len ops) n res.2) as Hstep.
        { apply (fw_other_inv key _ _ now m (len ops) n rl Hinv Hleft Hm).
          destruct (decide (key = k)); naive_solver. }
        specialize (IH now _ _ Hok' Hstep Hfrom).
        destruct (String.eqb_spec key k) as [->|]; [|done]. cbn [andb].
        destruct res.1.1; [rewrite in_second_cons, decide_False by naive_solver|]; lia.
    - cbn [sw_step andb]. eapply (IH now n); [done|by apply (fw_cleanup_inv now m)|done].
  Qed.
End fixed.

(** A fixed window admits at most [max 1 (rate + burst)] requests of a key
    in any second of the clock, in any trace of checks and cleanup ticks of
    fewer than 2^62 operations. The first request of a second is admitted even
    when the limit is 0 or negative, hence the 1. *)
Theorem fixed_window_bound rl k g ops m u :
  algorithm rl = FixedWindow -> windowSize rl = Second -> fixedWindows rl = ∅ ->
  len ops < 2 ^ 62 -> from m (sw_time <$> ops) ->
  in_second u (admissions k g ops rl) <= Z.max 1 (wrap64 (getRate rl k g + getBurst rl k)).
Proof.
  intros Ha HW He Hl Hm. apply (fw_run_inv k g u _ ops m 0 rl); [done| |done].
  split; [lia|]. unfold fw_slot. rewrite He, lookup_empty. by left.
Qed.

Definition fw_example : RateLimiter := NewRateLimiter FixedWindow 1 1.
Definition fw_example_ops : list sw_op :=
  [SwCheck "a" 10; SwCheck "a" 11; SwCheck "b" 12; SwCheck "a" 13; SwCleanup 14;
   SwCheck "a" (Second + 1)].

Lemma fixed_window_bound_witness :
  admissions "a" PerIP fw_example_ops fw_example = [10; 11; Second + 1] /\
  in_second 0 (admissions "a" PerIP fw_example_ops fw_example) <= 2.
Proof.
  split; [by vm_compute|].
  apply (fixed_window_bound fw_example "a" PerIP fw_example_ops 0 0); by vm_compute.
Defined.

(** * Leaky buckets *)

(** The first leaky-bucket check of a key panics exactly when the burst is
    not positive (an empty queue is indexed, or allocated with a negative
    capacity) or the rate is above 10^9 (the leak period is 0 and divides). *)
Theorem leaky_bucket_panics key rate burst now1 now2 rl :
  leakyBuckets rl !! key = None ->
  checkLeakyBucket key rate burst now1 now2 rl = Panics <-> burst <= 0 \/ Second < rate.
Proof.
  intros Hk. unfold checkLeakyBucket. rewrite Hk. unfold new_leaky.
  set (r := if rate <=? 0 then 1 else rate).
  assert (1 <= r /\ (Second < r <-> Second < rate)) as [Hr1 Hr].
  { unfold r, Second. destruct (Z.leb_spec rate 0); lia. }
  destruct (Z.ltb_spec burst 0); simpl; [split; [lia|done]|]. unfold leak. cbn [leakRate].
  destruct (Z.eqb_spec (Z.quot Second r) 0) as [Hq|Hq]; simpl.
  - apply Z.quot_small_iff in Hq; [|unfold Second in *; lia]. split; [lia|done].
  - assert (r <= Second).
    { apply Z.nlt_ge. intros Hlt. apply Hq, Z.quot_small. unfold Second in *; lia. }
    set (b1 := if 0 <? _ then _ else _).
    assert (lb_queue b1 = [] /\ lb_capacity b1 = burst) as [Hq1 Hc1].
    { unfold b1. destruct (0 <? _); [|done]. cbn [lb_queue lb_capacity].
      rewrite drop_nil. by case_match. }
    unfold pour. rewrite Hq1, Hc1, len_nil.
    destruct (Z.leb_spec burst 0); simpl; (split; [|intros]); done || lia.
Qed.

Lemma leaky_bucket_panics_witness :
  checkLeakyBucket "a" 5 0 0 0 (NewRateLimiter LeakyBucket 5 0) = Panics.
Proof.
  apply (leaky_bucket_panics "a" 5 0 0 0 (NewRateLimiter LeakyBucket 5 0)); [by vm_compute|by left].
Defined.

Definition lb_ok (cap period : Z) (b : leakyBucket) : Prop :=
  lb_capacity b = cap /\ leakRate b = period /\ len (lb_queue b) <= cap.

(** What [n] admissions since [t0] leave behind: the ones no longer queued were
    leaked at most one per period. *)
Definition lb_inv (cap period t0 m n : Z) (b : leakyBucket) : Prop :=
  lb_ok cap period b /\ t0 <= lastLeak b <= m /\
  (n - len (lb_queue b)) * period <= lastLeak b - t0.

Lemma leak_inv cap period t0 m n b now :
  0 < period -> lb_inv cap period t0 m n b -> m <= now ->
  exists b', leak b now = Returns b' /\ lb_inv cap period t0 now n b'.
Proof.
  intros Hp ((Hc & Hr & Hq) & Hl & Hn) Hm. unfold leak. rewrite Hr.
  rewrite (proj2 (Z.eqb_neq _ _)) by lia. eexists. split; [done|].
  set (c := Z.quot (time_sub now (lastLeak b)) period).
  destruct (Z.ltb_spec 0 c) as [Hc0|Hc0]; [|by repeat split; try lia].
  assert (c * period <= now - lastLeak b) as Hcp.
  { unfold c in *. pose proof (Z.mul_quot_le (time_sub now (lastLeak b)) period).
    unfold time_sub, max64, min64 in *. lia. }
  pose proof (len_nonneg (lb_queue b)).
  unfold lb_inv, lb_ok. cbn [lb_capacity leakRate lb_queue lastLeak].
  destruct (Z.leb_spec (len (lb_queue b)) c).
  - rewrite len_nil. split_and!; try done; nia.
  - assert (len (drop (Z.to_nat c) (lb_queue b)) = len (lb_queue b) - c) as ->.
    { unfold len in *. rewrite length_drop. lia. }
    split_and!; try done; nia.
Qed.

Lemma pour_inv cap period t0 now n b burst :
  0 < cap -> lb_inv cap period t0 now n b ->
  exists b' a d, pour b burst now = Returns (b', (a, d)) /\
    lb_inv cap period t0 now (if (a : bool) then n + 1 else n) b'.
Proof.
  intros Hcap ((Hc & Hr & Hq) & Hl & Hn). unfold pour.
  destruct (Z.leb_spec (lb_capacity b) (len (lb_queue b))) as [Hle|Hlt].
  - destruct (lb_queue b) as [|o q] eqn:Eq; [rewrite len_nil in *; lia|]. simpl.
    do 3 eexists. split; [done|]. unfold lb_inv, lb_ok. rewrite Eq in *. split_and!; done || lia.
  - do 3 eexists. split; [done|]. unfold lb_inv, lb_ok.
    cbn [lb_capacity leakRate lb_queue lastLeak]. rewrite len_app, len_cons, len_nil.
    split_and!; try done; lia.
Qed.

(** Consecutive checks of one key: the number admitted. *)
Fixpoint lb_run (key : string) (rate burst : Z) (ts : list Z) (rl : RateLimiter)
    : outcome (Z * RateLimiter) :=
  match ts with
  | [] => Returns (0, rl)
  | t :: ts =>
      let! ((a, _), rl1) := checkLeakyBucket key rate burst t t rl in
      let! (n, rl2) := lb_run key rate burst ts rl1 in
      Returns ((if (a : bool) then 1 else 0) + n, rl2)
  end.

Lemma lb_run_inv key rate burst cap period t0 t1 ts m n rl b :
  0 < period -> 0 < cap -> leakyBuckets rl !! key = Some b -> lb_inv cap period t0 m n b ->
  from m ts -> Forall (fun t => t <= t1) ts -> m <= t1 ->
  exists k rl', lb_run key rate burst ts rl = Returns (k, rl') /\ n + k <= cap + (t1 - t0) / period.
Proof.
  intros Hp Hcap. revert m n rl b. induction ts as [|t ts IH]; intros m n rl b Hb Hinv.
  - intros _ _ Hm. do 2 eexists. split; [done|]. destruct Hinv as ((_ & _ & Hq) & Hl & Hn).
    assert (n - len (lb_queue b) <= (t1 - t0) / period); [|lia].
    apply Z.div_le_lower_bound; [done|]. lia.
  - intros [Hm Hfrom] [Ht Hts]%Forall_cons _. cbn [lb_run]. unfold checkLeakyBucket. rewrite Hb.
    cbn [out_bind]. destruct (leak_inv cap period t0 m n b t Hp Hinv Hm) as (b1 & -> & Hinv1).
    cbn [out_bind]. destruct (pour_inv cap period t0 t n b1 burst Hcap Hinv1) as (b2 & a & d & -> & Hinv2).
    cbn [out_bind]. destruct (IH t (if a then n + 1 else n) (set_leaky (<[key:=b2]> (leakyBuckets rl)) rl) b2) as (k & rl' & -> & Hk);
      [|done..|].
    + cbn [leakyBuckets set_leaky]. apply lookup_insert_eq.
    + cbn [out_bind]. do 2 eexists. split; [done|]. destruct a; lia.
Qed.

(** A leaky bucket of capacity [burst > 0] and rate [0 < rate <= 10^9]
    never panics, and among checks between [t0] and [t1] it admits at most
    [burst] plus one request per leak period. *)
Theorem leaky_bucket_bound key rate burst ts t0 t1 rl :
  leakyBuckets rl !! key = None -> 0 < burst -> 0 < rate <= Second ->
  from t0 ts -> Forall (fun t => t <= t1) ts -> t0 <= t1 ->
  exists n rl', lb_run key rate burst ts rl = Returns (n, rl') /\
    n <= burst + (t1 - t0) / Z.quot Second rate.
Proof.
  intros Hk Hb Hr Hfrom Ht Ht01.
  assert (0 < Z.quot Second rate) as Hp by (apply Z.quot_str_pos; unfold Second in *; lia).
  destruct ts as [|t ts].
  { do 2 eexists. split; [done|]. pose proof (Z.div_pos (t1 - t0) _ ltac:(lia) Hp). lia. }
  destruct Hfrom as [Ht0 Hfrom]. apply Forall_cons in Ht as [Ht Hts].
  cbn [lb_run]. unfold checkLeakyBucket. rewrite Hk, (proj2 (Z.leb_gt rate 0)) by lia.
  unfold new_leaky. rewrite (proj2 (Z.ltb_ge burst 0)) by lia. cbn [out_bind].
  set (b := mkLeakyBucket [] burst (Z.quot Second rate) t).
  assert (lb_inv burst (Z.quot Second rate) t0 t 0 b) as Hinv.
  { unfold lb_inv, lb_ok, b. cbn [lb_capacity leakRate lb_queue lastLeak]. rewrite len_nil.
    split_and!; try done; lia. }
  destruct (leak_inv _ _ _ _ _ b t Hp Hinv ltac:(lia)) as (b1 & -> & Hinv1). cbn [out_bind].
  destruct (pour_inv _ _ _ _ _ b1 burst Hb Hinv1) as (b2 & a & d & -> & Hinv2). cbn [out_bind].
  destruct (lb_run_inv key rate burst burst (Z.quot Second rate) t0 t1 ts t (if a then 0 + 1 else 0)
    (set_leaky (<[key:=b2]> (leakyBuckets rl)) rl) b2 Hp Hb) as (n & rl' & -> & Hn); [|done..|].
  - cbn [leakyBuckets set_leaky]. apply lookup_insert_eq.
  - cbn [out_bind]. do 2 eexists. split; [done|]. destruct a; lia.
Qed.

Lemma leaky_bucket_bound_witness :
  exists n rl', lb_run "a" 10 2 [0; 1; 2; 100000001] (NewRateLimiter LeakyBucket 10 2) = Returns (n, rl')
    /\ n <= 2 + 100000001 / 100000000.
Proof.
  apply (leaky_bucket_bound "a" 10 2 [0; 1; 2; 100000001] 0 100000001);
    [by vm_compute|lia|by vm_compute|by vm_compute|repeat constructor; lia|lia].
Defined.

(** * Token buckets *)

(** Consecutive checks of one key at one instant: the number admitted. *)
Fixpoint tb_run (key : string) (rate burst t : Z) (n : nat) (rl : RateLimiter) : Z * RateLimiter :=
  match n with
  | O => (0, rl)
  | S n =>
      let '((a, _), rl1) := checkTokenBucket key rate burst t t rl in
      let '(k, rl2) := tb_run key rate burst t n rl1 in
      ((if (a : bool) then 1 else 0) + k, rl2)
  end.

Lemma Seconds_0 : Seconds 0 = f0.
Proof. by vm_compute. Qed.

Lemma fmul_0_pos z : 0 < z -> exact_int z -> fmul f0 (of_int z) = f0.
Proof. intros Hz He. rewrite of_int_canon by done. by destruct z. Qed.

Lemma fadd_f0_r z : exact_int z -> 0 <= z -> fadd (of_int z) f0 = of_int z.
Proof. intros He Hz. rewrite of_int_canon by done. by destruct z. Qed.

Lemma fmin_of_int a b : exact_int a -> exact_int b -> 0 <= b -> b <= a -> fmin (of_int a) (of_int b) = of_int b.
Proof.
  intros Ha Hb Hb0 Hab. pose proof (of_int_flt a b Ha Hb) as Hlt.
  rewrite (proj2 (Z.ltb_ge a b)) in Hlt by lia.
  rewrite (of_int_canon a Ha), (of_int_canon b Hb) in *.
  destruct a as [|p|p], b as [|q|q]; try lia; try done; unfold fmin, canon, f0 in *; by rewrite Hlt.
Qed.

(** A bucket with [n] whole tokens, checked at the instant of its last refill. *)
Lemma take_token_now cap r n t rate burst :
  exact_int cap -> exact_int r -> 0 < r -> 0 <= n <= cap ->
  let res := take_token (mkTokenBucket (of_int n) (of_int cap) (of_int r) t) rate burst t in
  res.1 = mkTokenBucket (of_int (if n <? 1 then n else n - 1)) (of_int cap) (of_int r) t /\
  res.2.1 = negb (n <? 1).
Proof.
  intros Hcap Hr Hr0 Hn. assert (exact_int n) as He by (unfold exact_int in *; lia).
  unfold take_token. cbn [tokens tb_capacity refillRate lastRefill].
  replace (time_sub t t) with 0 by (unfold time_sub, min64, max64; lia).
  rewrite Seconds_0, fmul_0_pos, fadd_f0_r, fmin_of_int, of_int_flt by (done || lia || (unfold exact_int; lia)).
  destruct (Z.ltb_spec n 1); [done|].
  rewrite of_int_fsub by (unfold exact_int in *; lia). done.
Qed.

Lemma tb_run_count key r burst cap t n k rl :
  exact_int cap -> exact_int r -> 0 < r -> 0 <= n <= cap ->
  tokenBuckets rl !! key = Some (mkTokenBucket (of_int n) (of_int cap) (of_int r) t) ->
  (tb_run key r burst t k rl).1 = Z.min n (Z.of_nat k).
Proof.
  intros Hcap Hr Hr0. revert n rl. induction k as [|k IH]; intros n rl Hn Hb; [cbn; lia|].
  cbn [tb_run]. unfold checkTokenBucket. rewrite Hb, (proj2 (Z.leb_gt r 0)) by lia. simpl default.
  destruct (take_token_now cap r n t r burst Hcap Hr Hr0 Hn) as [H1 H2].
  destruct (take_token _ _ _ _) as [b [a d]]. simpl in H1, H2. subst b a.
  set (n' := if n <? 1 then n else n - 1) in *.
  specialize (IH n' (set_tokens (<[key:=mkTokenBucket (of_int n') (of_int cap) (of_int r) t]>
                      (tokenBuckets rl)) rl)).
  destruct (tb_run _ _ _ _ k _) as [j rl']. simpl in *.
  rewrite IH; [|unfold n'; destruct (Z.ltb_spec n 1); lia|apply lookup_insert_eq].
  unfold n'. destruct (Z.ltb_spec n 1); simpl; lia.
Qed.

(** A fresh token bucket admits exactly [burst] of the requests that
    arrive at one instant (burst and rate below 2^53, so that the float64
    counts are exact), and refuses the rest. *)
Theorem token_bucket_burst key rate burst t k rl :
  tokenBuckets rl !! key = None -> 0 <= burst < 2 ^ 53 -> 0 < rate < 2 ^ 53 ->
  (tb_run key rate burst t k rl).1 = Z.min burst (Z.of_nat k).
Proof.
  intros Hk Hb Hr. destruct k as [|k]; [cbn; lia|].
  assert (exact_int burst) as Heb by (unfold exact_int; lia).
  assert (exact_int rate) as Her by (unfold exact_int; lia).
  cbn [tb_run]. unfold checkTokenBucket. rewrite Hk, (proj2 (Z.leb_gt rate 0)) by lia. simpl default.
  destruct (take_token_now burst rate burst t rate burst Heb Her ltac:(lia) ltac:(lia)) as [H1 H2].
  destruct (take_token _ _ _ _) as [b [a d]]. simpl in H1, H2. subst b a.
  set (n' := if burst <? 1 then burst else burst - 1) in *.
  pose proof (tb_run_count key rate burst burst t n' k (set_tokens
    (<[key:=mkTokenBucket (of_int n') (of_int burst) (of_int rate) t]> (tokenBuckets rl)) rl)
    Heb Her ltac:(lia)) as Hrun.
  destruct (tb_run _ _ _ _ k _) as [j rl']. simpl in *.
  rewrite Hrun; [|unfold n'; destruct (Z.ltb_spec burst 1); lia|apply lookup_insert_eq].
  unfold n'. destruct (Z.ltb_spec burst 1); simpl; lia.
Qed.

Lemma token_bucket_burst_witness :
  (tb_run "a" 10 3 0 5 (NewRateLimiter TokenBucket 10 3)).1 = 3.
Proof.
  apply (token_bucket_burst "a" 10 3 0 5 (NewRateLimiter TokenBucket 10 3)); [by vm_compute|lia..].
Defined.
