(* ===== verification/Ddos.v ===== *)
(** * DDoS protection: [internal/engine/ddos.go]

    Sliding-window counters per IP, endpoint and session and a global one,
    the slowloris and slow-POST timers, cache busting, the adaptive rate and
    one tick of the cleanup. A clock gives the readings of one [Inspect]; the
    mutex [d.mu] serialises the operations. *)

From S2P Require Import Prelude Float64 GoStr Types SlidingWindow.

#[local] Open Scope string_scope.
#[local] Open Scope Z_scope.

(** ** State *)

Record SlidingWindowCounter : Type := mkCounter {
  timestamps : list Z;
  window : Z;
  maxCount : Z
}.

Record DDoSProtection : Type := mkDDoS {
  globalRate : Z;
  perIPRate : Z;
  perEndpointRate : Z;
  perSessionRate : Z;
  burstAllowance : Z;
  windowSize : Z;
  ipCounters : gmap string SlidingWindowCounter;
  sessionCounters : gmap string SlidingWindowCounter;
  endpointCounters : gmap string SlidingWindowCounter;
  slowLorisTimers : gmap string Z;
  slowPOSTTimers : gmap string Z;
  globalCounter : SlidingWindowCounter
}.

Definition NewDDoSProtection : DDoSProtection :=
  mkDDoS 10000 100 500 200 20 Second ∅ ∅ ∅ ∅ ∅ (mkCounter [] Second 10020).

Definition set_counters (ip se ep : gmap string SlidingWindowCounter) (g : SlidingWindowCounter)
    (d : DDoSProtection) : DDoSProtection :=
  mkDDoS (globalRate d) (perIPRate d) (perEndpointRate d) (perSessionRate d) (burstAllowance d)
    (windowSize d) ip se ep (slowLorisTimers d) (slowPOSTTimers d) g.
Definition set_timers (loris post : gmap string Z) (d : DDoSProtection) : DDoSProtection :=
  mkDDoS (globalRate d) (perIPRate d) (perEndpointRate d) (perSessionRate d) (burstAllowance d)
    (windowSize d) (ipCounters d) (sessionCounters d) (endpointCounters d) loris post (globalCounter d).

(** The readings of the clock that one [Inspect] can make. *)
Record clock : Type := mkClock {
  t_global : Z; t_ip : Z; t_endpoint : Z; t_session : Z; t_loris : Z; t_post : Z
}.
Definition at_once (t : Z) : clock := mkClock t t t t t t.

(** ** Rate checks *)

Definition getOrCreateCounter (d : DDoSProtection) (counters : gmap string SlidingWindowCounter)
    (key : string) : SlidingWindowCounter :=
  default (mkCounter [] (windowSize d) (wrap64 (perIPRate d + burstAllowance d))) (counters !! key).

Definition checkRate (windowSize now limit : Z) (counter : SlidingWindowCounter)
    : bool * SlidingWindowCounter :=
  let valid := prune (now - windowSize) (timestamps counter) in
  if limit <=? len valid
  then (false, mkCounter valid (window counter) (maxCount counter))
  else (true, mkCounter (valid ++ [now])%list (window counter) (maxCount counter)).

Definition checkGlobalRate (now : Z) (d : DDoSProtection) : option Decision * DDoSProtection :=
  let '(ok, c) := checkRate (windowSize d) now (globalRate d) (globalCounter d) in
  ((if ok then None
    else Some (decision ActionRateLimit "DDoS000" "HTTP Flood - Global" "critical" 90
                 (Sprintf "global rate limit exceeded: %d req/s" [AInt (globalRate d)]))),
   set_counters (ipCounters d) (sessionCounters d) (endpointCounters d) c d).

Definition checkIP (now : Z) (ip : string) (d : DDoSProtection) : bool * DDoSProtection :=
  let '(ok, c) := checkRate (windowSize d) now (perIPRate d) (getOrCreateCounter d (ipCounters d) ip) in
  (ok, set_counters (<[ip := c]> (ipCounters d)) (sessionCounters d) (endpointCounters d)
         (globalCounter d) d).

Definition checkEndpoint (now : Z) (path : string) (d : DDoSProtection) : bool * DDoSProtection :=
  let '(ok, c) := checkRate (windowSize d) now (perEndpointRate d)
                    (getOrCreateCounter d (endpointCounters d) path) in
  (ok, set_counters (ipCounters d) (sessionCounters d) (<[path := c]> (endpointCounters d))
         (globalCounter d) d).

Definition checkSession (now : Z) (session : string) (d : DDoSProtection) : bool * DDoSProtection :=
  let '(ok, c) := checkRate (windowSize d) now (perSessionRate d)
                    (getOrCreateCounter d (sessionCounters d) session) in
  (ok, set_counters (ipCounters d) (<[session := c]> (sessionCounters d)) (endpointCounters d)
         (globalCounter d) d).

(** The endpoint and session checks of [detectHTTPFlood]. *)
Definition checkEndpointSession (clk : clock) (ctx : RequestContext) (d : DDoSProtection)
    : option Decision * DDoSProtection :=
  match checkEndpoint (t_endpoint clk) (Path ctx) d with
  | (false, d) =>
      (Some (decision ActionRateLimit "DDoS002" "HTTP Flood - Endpoint" "high" 60
               (Sprintf "Endpoint %s exceeded rate: %d req/s"
                  [AStr (Path ctx); AInt (perEndpointRate d)])), d)
  | (true, d) =>
      if String.eqb (SessionID ctx) "" then (None, d)
      else
        match checkSession (t_session clk) (SessionID ctx) d with
        | (false, d) =>
            (Some (decision ActionRateLimit "DDoS003" "HTTP Flood - Session" "medium" 50
                     (Sprintf "Session %s exceeded rate: %d req/s"
                        [AStr (SessionID ctx); AInt (perSessionRate d)])), d)
        | (true, d) => (None, d)
        end
  end.

Definition detectHTTPFlood (clk : clock) (ctx : RequestContext) (d : DDoSProtection)
    : option Decision * DDoSProtection :=
  match checkGlobalRate (t_global clk) d with
  | (Some dec, d) => (Some dec, d)
  | (None, d) =>
      match checkIP (t_ip clk) (RealIP ctx) d with
      | (false, d) =>
          (Some (decision ActionRateLimit "DDoS001" "HTTP Flood - IP" "high" 65
                   (Sprintf "IP %s exceeded rate limit: %d req/s"
                      [AStr (RealIP ctx); AInt (perIPRate d)])), d)
      | (true, d) => checkEndpointSession clk ctx d
      end
  end.

(** ** Slow requests *)

Definition detectSlowloris (now : Z) (ctx : RequestContext) (d : DDoSProtection)
    : outcome (option Decision * DDoSProtection) :=
  let start_timer := set_timers (<[RealIP ctx := now]> (slowLorisTimers d)) (slowPOSTTimers d) d in
  if negb (String.eqb (header ctx "Expect") "") then Returns (None, start_timer)
  else
    let! contentLength := request_header ctx "Content-Length" in
    if String.eqb contentLength "" && String.eqb (Method ctx) "POST" then
      match slowLorisTimers d !! RealIP ctx with
      | None => Returns (None, start_timer)
      | Some start =>
          let elapsed := time_sub now start in
          Returns ((if 30 * Second <? elapsed
                    then Some (decision ActionBlock "DDoS004" "Slowloris Attack" "high" 85
                                 (Sprintf "slowloris detected from %s, elapsed: %v"
                                    [AStr (RealIP ctx); ADur elapsed]))
                    else None), d)
      end
    else Returns (None, d).

Definition detectSlowPOST (now : Z) (ctx : RequestContext) (d : DDoSProtection)
    : outcome (option Decision * DDoSProtection) :=
  match Body ctx with
  | None => Returns (None, d)
  | Some body =>
      if negb (String.eqb (Method ctx) "POST") then Returns (None, d)
      else
        let! contentLengthStr := request_header ctx "Content-Length" in
        if String.eqb contentLengthStr "" then Returns (None, d)
        else if 1024 * 1024 <? Sscanf_d contentLengthStr then
          match slowPOSTTimers d !! RealIP ctx with
          | None =>
              Returns (None, set_timers (slowLorisTimers d) (<[RealIP ctx := now]> (slowPOSTTimers d)) d)
          | Some start =>
              let elapsed := time_sub now start in
              let rate := fdiv (of_int (slen body)) (Seconds elapsed) in
              Returns ((if (10 * Second <? elapsed) && flt rate (of_int 1024)
                        then Some (decision ActionBlock "DDoS005" "Slow POST Attack" "high" 80
                                     (Sprintf "slow POST from %s, rate: %.0f b/s, elapsed: %v"
                                        [AStr (RealIP ctx); AFloat rate; ADur elapsed]))
                        else None), d)
          end
        else Returns (None, d)
  end.

(** ** Cache busting *)

Definition hex_rune (c : Z) : bool :=
  (48 <=? c) && (c <=? 57) || (97 <=? c) && (c <=? 102) || (65 <=? c) && (c <=? 70).

Definition random_value (val : string) : bool :=
  (8 <=? slen val) && (slen val <=? 32) && (forallb hex_rune (runes_of val) || (16 <=? slen val)).

Definition busting_key `{Unicode} (k : string) : bool :=
  let lowerK := ToLower k in
  Contains lowerK "cache" || Contains lowerK "rand" || Contains lowerK "t"
  || Contains lowerK "_" && (slen k <=? 3).

(** [randomPatterns]: a sum over the map, the same in every order. *)
Definition random_patterns `{Unicode} (qp : gmap string (list string)) : Z :=
  map_fold (fun k v n => n + (if busting_key k then len (filter (fun val => random_value val = true) v) else 0))
    0 qp.

Definition detectCacheBusting `{Unicode} (ctx : RequestContext) : option Decision :=
  let paramCount := Z.of_nat (size (QueryParams ctx)) in
  let randomPatterns := random_patterns (QueryParams ctx) in
  if (5 <=? paramCount) && (Z.quot paramCount 2 <=? randomPatterns)
  then Some (decision ActionMonitor "DDoS006" "Cache Busting Attack" "medium" 40
               (Sprintf "cache busting detected, params: %d, random: %d"
                  [AInt paramCount; AInt randomPatterns]))
  else None.

(** ** Inspect *)

Definition Inspect `{Unicode} (clk : clock) (ctx : RequestContext) (d : DDoSProtection)
    : outcome (option Decision * DDoSProtection) :=
  match detectHTTPFlood clk ctx d with
  | (Some dec, d) => Returns (Some dec, d)
  | (None, d) =>
      let! (loris, d) := detectSlowloris (t_loris clk) ctx d in
      match loris with
      | Some dec => Returns (Some dec, d)
      | None =>
          let! (post, d) := detectSlowPOST (t_post clk) ctx d in
          match post with
          | Some dec => Returns (Some dec, d)
          | None => Returns (detectCacheBusting ctx, d)
          end
      end
  end.

(** ** Adaptive rates and cleanup *)

Definition GetAdaptiveRate (ip : string) (currentRate : Z) (d : DDoSProtection) : Z :=
  match ipCounters d !! ip with
  | None => currentRate
  | Some counter =>
      let count := len (timestamps counter) in
      if wrap64 (currentRate * 2) <? count
      then to_int (fmax (fmul (of_int currentRate) (of_frac 5 10)) (of_int 10))
      else if currentRate <? count
      then to_int (fmax (fmul (of_int currentRate) (of_frac 8 10)) (of_int 10))
      else currentRate
  end.

Definition stale_counter (now : Z) (c : SlidingWindowCounter) : bool :=
  match last (timestamps c) with
  | None => true
  | Some t => 10 * Minute <? time_sub now t
  end.

(** One tick of [cleanup]; the endpoint and session counters are kept. *)
Definition cleanup (now : Z) (d : DDoSProtection) : DDoSProtection :=
  mkDDoS (globalRate d) (perIPRate d) (perEndpointRate d) (perSessionRate d) (burstAllowance d)
    (windowSize d)
    (filter (fun p => stale_counter now (snd p) = false) (ipCounters d))
    (sessionCounters d) (endpointCounters d)
    (filter (fun p => (5 * Minute <? time_sub now (snd p)) = false) (slowLorisTimers d))
    (filter (fun p => (5 * Minute <? time_sub now (snd p)) = false) (slowPOSTTimers d))
    (globalCounter d).

(** ** Traffic

    Requests of any clients and cleanup ticks. A panic of the later detectors
    (a nil [ctx.Request]) leaves the counters as the flood check left them. *)

Inductive op : Type :=
| Request (clk : clock) (ctx : RequestContext)
| Tick (now : Z).

Definition after `{Unicode} (o : op) (d : DDoSProtection) : DDoSProtection :=
  match o with
  | Request clk ctx =>
      match Inspect clk ctx d with
      | Returns (_, d') => d'
      | Panics => (detectHTTPFlood clk ctx d).2
      end
  | Tick now => cleanup now d
  end.

(** The decision of the flood check has one of the given rule ids. *)
Definition flooded (ids : list string) (o : option Decision) : bool :=
  match o with Some dec => existsb (String.eqb (RuleID dec)) ids | None => false end.

(** ** Lemmas *)

Definition same_config (d d' : DDoSProtection) : Prop :=
  globalRate d' = globalRate d /\ perIPRate d' = perIPRate d /\ windowSize d' = windowSize d.

Lemma checkRate_spec w now limit c :
  let kept := prune (now - w) (timestamps c) in
  (checkRate w now limit c).1 = (len kept <? limit) /\
  timestamps (checkRate w now limit c).2 = (if len kept <? limit then (kept ++ [now])%list else kept).
Proof.
  unfold checkRate. simpl. rewrite (Z.leb_antisym _ limit). by destruct (_ <? limit).
Qed.

(** The instants remembered for a client, and the check on them. *)
Definition ip_log (k : string) (d : DDoSProtection) : list Z :=
  match ipCounters d !! k with Some c => timestamps c | None => [] end.

Definition kept (d : DDoSProtection) (now : Z) (log : list Z) : list Z := prune (now - windowSize d) log.

(** What each stage of the flood check touches. *)
Lemma checkGlobalRate_spec now d :
  let r := checkGlobalRate now d in
  let k := kept d now (timestamps (globalCounter d)) in
  same_config d r.2 /\ ipCounters r.2 = ipCounters d /\
  if len k <? globalRate d
  then r.1 = None /\ timestamps (globalCounter r.2) = (k ++ [now])%list
  else flooded ["DDoS000"] r.1 = true /\ flooded ["DDoS001"] r.1 = false /\
       timestamps (globalCounter r.2) = k.
Proof.
  cbv zeta. unfold checkGlobalRate.
  pose proof (checkRate_spec (windowSize d) now (globalRate d) (globalCounter d)) as [H1 H2].
  destruct (checkRate _ _ _ _) as [ok c]. unfold kept. simpl in *. rewrite H2, H1.
  by destruct (_ <? globalRate d).
Qed.

Lemma checkIP_spec now ip d k :
  let r := checkIP now ip d in
  let l := kept d now (ip_log ip d) in
  same_config d r.2 /\ globalCounter r.2 = globalCounter d /\ r.1 = (len l <? perIPRate d) /\
  ip_log k r.2 = (if String.eqb ip k then (if len l <? perIPRate d then (l ++ [now])%list else l)
                  else ip_log k d).
Proof.
  cbv zeta. unfold checkIP.
  pose proof (checkRate_spec (windowSize d) now (perIPRate d) (getOrCreateCounter d (ipCounters d) ip))
    as [H1 H2].
  assert (timestamps (getOrCreateCounter d (ipCounters d) ip) = ip_log ip d) as E.
  { unfold getOrCreateCounter, ip_log. by destruct (_ !! ip). }
  rewrite E in *. destruct (checkRate _ _ _ _) as [ok c]. unfold kept, ip_log at 2. simpl in *.
  split_and!; [done..|]. destruct (String.eqb_spec ip k) as [->|Hne].
  - by rewrite lookup_insert_eq.
  - by rewrite lookup_insert_ne.
Qed.

(** Neither the configuration nor the followed counters change. *)
Definition same_counters (d d' : DDoSProtection) : Prop :=
  same_config d d' /\ globalCounter d' = globalCounter d /\ ipCounters d' = ipCounters d.

Lemma same_counters_trans d1 d2 d3 :
  same_counters d1 d2 -> same_counters d2 d3 -> same_counters d1 d3.
Proof. unfold same_counters, same_config. intros (H1 & H2 & H3) (H4 & H5 & H6). intuition congruence. Qed.

Lemma checkEndpointSession_spec clk ctx d :
  let r := checkEndpointSession clk ctx d in
  same_counters d r.2 /\ flooded ["DDoS000"] r.1 = false /\ flooded ["DDoS001"] r.1 = false.
Proof.
  cbv zeta. unfold checkEndpointSession, checkEndpoint, checkSession.
  destruct (checkRate _ _ _ _) as [[] c1]; [|done]. destruct (String.eqb _ _); [done|].
  by destruct (checkRate _ _ _ _) as [[] c2].
Qed.

Lemma detectSlowloris_counters now ctx d r d' :
  detectSlowloris now ctx d = Returns (r, d') -> same_counters d d'.
Proof.
  unfold detectSlowloris, request_header.
  repeat (case_match; simpl); intros; simplify_eq; done.
Qed.

Lemma detectSlowPOST_counters now ctx d r d' :
  detectSlowPOST now ctx d = Returns (r, d') -> same_counters d d'.
Proof.
  unfold detectSlowPOST, request_header.
  repeat (case_match; simpl); intros; simplify_eq; done.
Qed.

(** The whole inspection moves the counters as the flood check does. *)
Lemma after_counters `{Unicode} clk ctx d :
  same_counters (detectHTTPFlood clk ctx d).2 (after (Request clk ctx) d).
Proof.
  simpl. unfold Inspect. destruct (detectHTTPFlood clk ctx d) as [[dec|] d1]; [done|].
  destruct (detectSlowloris _ ctx d1) as [[[dec|] d2]|] eqn:E1; simpl; [..|done];
    apply detectSlowloris_counters in E1; [done|].
  destruct (detectSlowPOST _ ctx d2) as [[[dec|] d3]|] eqn:E2; simpl; [..|done];
    apply detectSlowPOST_counters in E2; by apply (same_counters_trans _ d2).
Qed.

(** The flood check: the global counter always moves; the counter of the
    client moves when the global check passes. *)
Lemma flood_spec clk ctx d k :
  let r := detectHTTPFlood clk ctx d in
  let g := kept d (t_global clk) (timestamps (globalCounter d)) in
  let l := kept d (t_ip clk) (ip_log (RealIP ctx) d) in
  same_config d r.2 /\
  if len g <? globalRate d then
    flooded ["DDoS000"] r.1 = false /\ timestamps (globalCounter r.2) = (g ++ [t_global clk])%list /\
    flooded ["DDoS001"] r.1 = negb (len l <? perIPRate d) /\
    ip_log k r.2 = (if String.eqb (RealIP ctx) k
                    then (if len l <? perIPRate d then (l ++ [t_ip clk])%list else l)
                    else ip_log k d)
  else flooded ["DDoS000"] r.1 = true /\ timestamps (globalCounter r.2) = g /\
       ip_log k r.2 = ip_log k d.
Proof.
  cbv zeta. unfold detectHTTPFlood.
  destruct (checkGlobalRate_spec (t_global clk) d) as (G1 & G2 & G3).
  destruct (checkGlobalRate (t_global clk) d) as [o d1]. cbn [fst snd] in *.
  assert (forall k, ip_log k d1 = ip_log k d) as El by (intros k'; unfold ip_log; by rewrite G2).
  destruct (len (kept d _ _) <? globalRate d); [|destruct G3 as (G4 & G5 & G6); destruct o; done].
  destruct G3 as [-> G4]. destruct (checkIP_spec (t_ip clk) (RealIP ctx) d1 k) as (I1 & I2 & I3 & I4).
  destruct (checkIP (t_ip clk) (RealIP ctx) d1) as [ok d2]. cbn [fst snd] in *.
  assert (kept d1 (t_ip clk) (ip_log (RealIP ctx) d1) = kept d (t_ip clk) (ip_log (RealIP ctx) d)) as Ek.
  { unfold kept. by rewrite El, (proj2 (proj2 G1)). }
  rewrite Ek, El, (proj1 (proj2 G1)) in *.
  assert (same_config d d2) as Hc by (unfold same_config in *; intuition congruence).
  rewrite <- I3 in I4 |- *. rewrite <- G4, <- I2. clear I3. destruct ok; cbn [fst snd negb]; [|done].
  destruct (checkEndpointSession_spec clk ctx d2) as ((C1 & C2 & C3) & F1 & F2).
  rewrite C2, F1, F2. split; [unfold same_config in *; intuition congruence|].
  split_and!; [done..|]. unfold ip_log at 1. by rewrite C3.
Qed.

(** *** Logs in the order of the clock *)

Definition ordered (m : Z) (log : list Z) : Prop :=
  StronglySorted Z.le log /\ Forall (fun t => t <= m) log.

Lemma ordered_later m m' log : ordered m log -> m <= m' -> ordered m' log.
Proof. intros [? Hm] ?. split; [done|]. eapply Forall_impl; [done|]. simpl. lia. Qed.

Lemma ordered_prune m c log : ordered m log -> ordered m (prune c log).
Proof.
  intros [Hs Hm]. split; [|by apply prune_Forall_le]. unfold prune. clear Hm.
  induction Hs as [|t l Hs IH Ht]; [constructor|]. rewrite filter_cons.
  case_decide; [|done]. constructor; [done|].
  apply Forall_forall. intros x Hx. apply list_elem_of_filter in Hx as [_ Hx].
  rewrite Forall_forall in Ht. auto.
Qed.

Lemma ordered_snoc m log : ordered m log -> ordered m (log ++ [m])%list.
Proof.
  intros [Hs Hm]. split.
  - induction Hs as [|t l Hs IH Ht]; simpl; [repeat constructor|].
    apply Forall_cons in Hm as [? Hm]. constructor; [by apply IH|].
    apply Forall_app. split; [done|by apply Forall_singleton].
  - apply Forall_app. split; [done|]. by apply Forall_singleton.
Qed.

Lemma ordered_last m log t : ordered m log -> last log = Some t -> Forall (fun x => x <= t) log.
Proof.
  intros [Hs _] Hl. induction Hs as [|x l Hs IH Hx]; [done|].
  destruct l as [|y l]; [simplify_eq/=; by repeat constructor|].
  rewrite last_cons_cons in Hl. constructor; [|by apply IH].
  rewrite Forall_forall in Hx. apply Hx. by apply last_Some_elem_of.
Qed.

#[export] Hint Resolve ordered_prune ordered_snoc : go.

(** A cleanup forgets no instant of the last ten minutes. *)
Lemma ddos_cleanup_log now d k :
  windowSize d <= 10 * Minute -> ordered now (ip_log k d) ->
  (ip_log k (cleanup now d) = ip_log k d \/ ip_log k (cleanup now d) = []) /\
  prune (now - windowSize d) (ip_log k (cleanup now d)) = prune (now - windowSize d) (ip_log k d).
Proof.
  intros Hw Hlog. unfold ip_log in *. simpl. rewrite map_lookup_filter.
  destruct (ipCounters d !! k) as [c|] eqn:E; simpl; [|auto].
  case_guard as Hg; simpl; [by auto|]. split; [by right|].
  apply not_false_iff_true in Hg. unfold stale_counter in Hg. simpl in Hg.
  destruct (last (timestamps c)) as [t|] eqn:Hl; [|by apply last_None in Hl as ->].
  symmetry. apply prune_none. pose proof (ordered_last now _ t Hlog Hl) as Ht.
  rewrite time_sub_gt in Hg by (vm_compute; (split; [discriminate|reflexivity]) || done). b2p.
  eapply Forall_impl; [exact Ht|]. simpl. lia.
Qed.

(** ** The admission contract of a client *)

Section client.
  Context `{Unicode} (k : string) (W limit : Z).
  Hypothesis HW : W <= 10 * Minute.

Definition op_ip_time (o : op) : Z := match o with Request clk _ => t_ip clk | Tick now => now end.

  (** A request of [k] that the global limit lets reach the check. *)
Definition reaches_ip (o : op) (d : DDoSProtection) : bool :=
    match o with
    | Request clk ctx =>
        String.eqb (RealIP ctx) k && negb (flooded ["DDoS000"] (detectHTTPFlood clk ctx d).1)
    | Tick _ => false
    end.

Definition ip_step (o : op) (d : DDoSProtection) : bool * DDoSProtection :=
    (match o with
     | Request clk ctx => negb (flooded ["DDoS001"] (detectHTTPFlood clk ctx d).1)
     | Tick _ => false
     end, after o d).

Definition ip_ok (m : Z) (d : DDoSProtection) : Prop :=
    windowSize d = W /\ perIPRate d = limit /\ ordered m (ip_log k d).

Lemma ip_ok_later m m' d : ip_ok m d -> m <= m' -> ip_ok m' d.
  Proof. intros (? & ? & ?) ?. split_and!; [done..|]. by eapply ordered_later. Qed.

  (** One request: the configuration stays, the log of [k] moves only at the
      check of [k]. *)
Lemma ip_request clk ctx d :
    ip_ok (t_ip clk) d ->
    let l := prune (t_ip clk - W) (ip_log k d) in
    let d' := after (Request clk ctx) d in
    windowSize d' = W /\ perIPRate d' = limit /\
    if reaches_ip (Request clk ctx) d then
      (ip_step (Request clk ctx) d).1 = (len l <? limit) /\
      ip_log k d' = (if len l <? limit then (l ++ [t_ip clk])%list else l)
    else ip_log k d' = ip_log k d.
  Proof.
    intros (Hw & Hr & _). cbv zeta. destruct (after_counters clk ctx d) as ((A1 & A2 & A3) & _ & A5).
    destruct (flood_spec clk ctx d k) as ((F1 & F2 & F3) & F4).
    unfold reaches_ip, ip_step. cbn [fst snd].
    rewrite A2, A3, F2, F3. split_and!; [done|done|].
    assert (ip_log k (after (Request clk ctx) d) = ip_log k (detectHTTPFlood clk ctx d).2) as ->.
    { unfold ip_log. by rewrite A5. }
    unfold kept in F4. rewrite Hw, Hr in F4.
    destruct (len (prune _ (timestamps _)) <? globalRate d).
    - destruct F4 as (-> & _ & -> & ->). simpl. rewrite andb_true_r.
      destruct (String.eqb_spec (RealIP ctx) k) as [->|]; [|done].
      by rewrite negb_involutive.
    - destruct F4 as (-> & _ & ->). by rewrite andb_false_r.
  Qed.

Lemma ip_step_ok o d : ip_ok (op_ip_time o) d -> ip_ok (op_ip_time o) (ip_step o d).2.
  Proof.
    intros Hok. destruct o as [clk ctx|now]; cbn [ip_step fst snd op_ip_time] in *.
    - destruct (ip_request clk ctx d Hok) as (H1 & H2 & H3). destruct Hok as (? & ? & Ho).
      split_and!; [done..|]. destruct (reaches_ip _ _); [destruct H3 as [_ ->]|by rewrite H3].
      case_match; auto with go.
    - destruct Hok as (Hw & Hr & Ho). split_and!; [done..|]. simpl.
      destruct (ddos_cleanup_log now d k) as [[->| ->] _]; [lia|done|done|split; constructor].
  Qed.

Lemma ip_check_spec o d : ip_ok (op_ip_time o) d -> reaches_ip o d = true ->
    let kept := prune (op_ip_time o - W) (ip_log k d) in
    if len kept <? limit
    then (ip_step o d).1 = true /\ ip_log k (ip_step o d).2 = (kept ++ [op_ip_time o])%list
    else (ip_step o d).1 = false /\ ip_log k (ip_step o d).2 = kept.
  Proof.
    intros Hok Hr. destruct o as [clk ctx|now]; [|done].
    destruct (ip_request clk ctx d Hok) as (_ & _ & H3). rewrite Hr in H3.
    change (ip_step (Request clk ctx) d).2 with (after (Request clk ctx) d).
    destruct H3 as [-> ->]. simpl. by destruct (_ <? limit).
  Qed.

Lemma ip_other_spec o d : ip_ok (op_ip_time o) d -> reaches_ip o d = false ->
    prune (op_ip_time o - W) (ip_log k (ip_step o d).2) = prune (op_ip_time o - W) (ip_log k d).
  Proof.
    intros Hok Hr. destruct o as [clk ctx|now]; cbn [ip_step fst snd op_ip_time] in *.
    - destruct (ip_request clk ctx d Hok) as (_ & _ & H3). rewrite Hr in H3. by rewrite H3.
    - destruct Hok as (Hw & _ & Ho). rewrite <- Hw. apply ddos_cleanup_log; [lia|done].
  Qed.

#[local] Instance client_limiter : WindowLimiter DDoSProtection op := {|
    wl_window := W; wl_limit := limit; wl_time := op_ip_time; wl_check := reaches_ip;
    wl_step := ip_step; wl_log := ip_log k; wl_ok := ip_ok;
    wl_ok_later := ip_ok_later; wl_step_ok := ip_step_ok; wl_check_spec := ip_check_spec;
    wl_other_spec := ip_other_spec
  |}.

  (** The instants at which requests of [k] passed the client's check. *)
Fixpoint passed (ops : list op) (d : DDoSProtection) : list Z :=
    match ops with
    | [] => []
    | o :: rest =>
        if reaches_ip o d && (ip_step o d).1 then op_ip_time o :: passed rest (after o d)
        else passed rest (after o d)
    end.

Lemma passed_admitted ops d : passed ops d = admitted (check_times ops d) (wl_run ops d).
  Proof.
    revert d. induction ops as [|o ops IH]; intros d; [done|].
    cbn [passed wl_run check_times]. change (wl_step o d) with (ip_step o d).
    change (wl_check o d) with (reaches_ip o d). rewrite IH.
    unfold ip_step at 1 2. destruct (reaches_ip o d); [|done]. simpl.
    unfold ip_step. simpl. by destruct o as [clk ctx|]; [destruct (flooded _ _)|].
  Qed.
End client.

(** *** The slowloris timer of a client *)

(** What leaves the timer of [ip], started at [t0], running: any request that
    has no Expect header or comes from elsewhere, and any cleanup within five
    minutes. *)
Definition keeps_timer (ip : string) (t0 : Z) (o : op) : Prop :=
  match o with
  | Request _ ctx => RealIP ctx = ip -> header ctx "Expect" = ""
  | Tick now => time_sub now t0 <= 5 * Minute
  end.

Lemma flood_timers clk ctx d :
  slowLorisTimers (detectHTTPFlood clk ctx d).2 = slowLorisTimers d /\
  slowPOSTTimers (detectHTTPFlood clk ctx d).2 = slowPOSTTimers d.
Proof.
  unfold detectHTTPFlood, checkGlobalRate, checkIP, checkEndpointSession, checkEndpoint, checkSession.
  repeat match goal with
  | |- context [checkRate ?a ?b ?c ?e] => destruct (checkRate a b c e) as [[] ?]; simpl; try done
  | |- context [String.eqb ?a ?b] => destruct (String.eqb a b); [done|]
  end; done.
Qed.

Lemma slowloris_timer now ctx d r d' ip t0 :
  (RealIP ctx = ip -> header ctx "Expect" = "") -> slowLorisTimers d !! ip = Some t0 ->
  detectSlowloris now ctx d = Returns (r, d') -> slowLorisTimers d' !! ip = Some t0.
Proof.
  intros He Ht. unfold detectSlowloris.
  destruct (String.eqb_spec (header ctx "Expect") "") as [_|Hne]; simpl.
  - destruct (request_header ctx "Content-Length") as [cl|]; simpl; [|done].
    destruct (_ && _); [|by intros; simplify_eq].
    destruct (slowLorisTimers d !! RealIP ctx) eqn:E; intros; simplify_eq; [done|].
    simpl. destruct (decide (RealIP ctx = ip)) as [<-|]; [congruence|]. by rewrite lookup_insert_ne.
  - intros; simplify_eq. simpl. rewrite lookup_insert_ne; naive_solver.
Qed.

Lemma slowPOST_timer now ctx d r d' :
  detectSlowPOST now ctx d = Returns (r, d') -> slowLorisTimers d' = slowLorisTimers d.
Proof.
  unfold detectSlowPOST, request_header. repeat (case_match; simpl); intros; simplify_eq; done.
Qed.

Lemma after_timer `{Unicode} o d ip t0 :
  keeps_timer ip t0 o -> slowLorisTimers d !! ip = Some t0 ->
  slowLorisTimers (after o d) !! ip = Some t0.
Proof.
  destruct o as [clk ctx|now]; simpl; intros Hk Ht.
  - unfold Inspect. destruct (flood_timers clk ctx d) as [E _].
    destruct (detectHTTPFlood clk ctx d) as [[dec|] d1]; simpl in *; [by rewrite E|].
    rewrite <- E in Ht. destruct (detectSlowloris _ ctx d1) as [[[dec|] d2]|] eqn:E1; simpl; [..|done];
      eapply slowloris_timer in E1; try done.
    destruct (detectSlowPOST _ ctx d2) as [[[dec|] d3]|] eqn:E2; simpl; [..|done];
      apply slowPOST_timer in E2; by rewrite E2.
  - rewrite map_lookup_filter, Ht. simpl. case_guard as Hg; [done|].
    apply not_false_iff_true in Hg. simpl in Hg. b2p. lia.
Qed.

Definition afters `{Unicode} (ops : list op) (d : DDoSProtection) : DDoSProtection :=
  fold_left (fun d o => after o d) ops d.

Lemma afters_timer `{Unicode} ops d ip t0 :
  Forall (keeps_timer ip t0) ops -> slowLorisTimers d !! ip = Some t0 ->
  slowLorisTimers (afters ops d) !! ip = Some t0.
Proof.
  intros Hops. revert d. induction Hops as [|o ops Ho Hops IH]; intros d Ht; [done|].
  simpl. apply IH. by apply after_timer.
Qed.

(** A POST without a Content-Length header (a chunked upload, say). *)
Definition lengthless_post (ctx : RequestContext) : Prop :=
  Method ctx = "POST" /\ header ctx "Expect" = "" /\
  request_header ctx "Content-Length" = Returns "".

(** ** Properties *)

(** [C40] A client passes its rate check at most [perIPRate] times in any
    window of [windowSize], whatever the traffic of all clients and the
    cleanup ticks in between (the burst allowance is not used). *)
Theorem client_rate_bound `{Unicode} k d ops m t :
  windowSize d <= 10 * Minute -> 0 <= perIPRate d -> ipCounters d !! k = None ->
  from m (op_ip_time <$> ops) ->
  in_window (windowSize d) t (passed k ops d) <= perIPRate d.
Proof.
  intros HW Hl Hk Hm. rewrite (passed_admitted k _ (perIPRate d) HW).
  assert (ip_log k d = []) as Hlog by (unfold ip_log; by rewrite Hk).
  apply (wl_bound (H := client_limiter k _ (perIPRate d) HW) d m); [done| |done|done].
  split_and!; [done|done|]. rewrite Hlog. split; constructor.
Qed.

(** The slowloris timer of a client is never disarmed by its own
    completed requests: after a client's first POST without a Content-Length
    (at [t0]), every later such POST more than thirty seconds on is blocked
    as a Slowloris attack, whatever requests without Expect and whatever
    cleanups within five minutes of [t0] come in between. *)
Theorem second_lengthless_post_blocked `{Unicode} d ctx0 t0 ops ctx now :
  lengthless_post ctx0 -> lengthless_post ctx -> RealIP ctx = RealIP ctx0 ->
  slowLorisTimers d !! RealIP ctx0 = None ->
  Forall (keeps_timer (RealIP ctx0) t0) ops -> 30 * Second < now - t0 ->
  exists d0 dec d', detectSlowloris t0 ctx0 d = Returns (None, d0) /\
    detectSlowloris now ctx (afters ops d0) = Returns (Some dec, d') /\
    d_Action dec = ActionBlock /\ RuleID dec = "DDoS004".
Proof.
  intros (M0 & E0 & C0) (M1 & E1 & C1) Hip Hd Hops Hnow.
  unfold detectSlowloris. rewrite M0, E0, C0, M1, E1, C1. cbn [out_bind]. simpl. rewrite Hd.
  eexists _, _, _. split; [done|].
  rewrite Hip, (afters_timer ops _ (RealIP ctx0) t0) by (done || (simpl; by rewrite lookup_insert_eq)).
  rewrite time_sub_gt, (proj2 (Z.ltb_lt _ _)) by (done || lia || (vm_compute; done)). done.
Qed.

(** ** Witnesses *)

Definition example_context (ip method : string) : RequestContext :=
  mkContext (Some (mkRequest ∅ method "/" "h" ip "HTTP/1.1" (-1) [] ∅ None)) None "" ip "" "/" method
    ∅ ∅ ∅ ∅ None "" "" "" "" "" 0 f0 f0 [] false false 0 (lit "") "h" "" "" "".
Definition two_per_second : DDoSProtection :=
  mkDDoS 100 2 500 200 20 Second ∅ ∅ ∅ ∅ ∅ (mkCounter [] Second 10020).
Definition example_traffic : list op :=
  [Request (at_once 10) (example_context "a" "GET"); Request (at_once 20) (example_context "b" "GET");
   Request (at_once 30) (example_context "a" "GET"); Request (at_once 40) (example_context "a" "GET");
   Tick (11 * Minute); Request (at_once (11 * Minute)) (example_context "a" "GET")].

#[local] Existing Instance unicode_ascii.

Lemma client_rate_bound_witness :
  passed "a" example_traffic two_per_second = [10; 30; 11 * Minute] /\
  in_window Second 40 (passed "a" example_traffic two_per_second) <= 2.
Proof.
  split; [vm_compute; reflexivity|].
  apply (client_rate_bound "a" two_per_second example_traffic 0 40); vm_compute;
    repeat split; discriminate.
Defined.

Lemma second_lengthless_post_blocked_witness :
  exists d0 dec d',
    detectSlowloris 0 (example_context "a" "POST") NewDDoSProtection = Returns (None, d0) /\
    detectSlowloris (31 * Second) (example_context "a" "POST")
      (afters [Request (at_once (20 * Second)) (example_context "a" "POST"); Tick (25 * Second)] d0)
    = Returns (Some dec, d') /\ d_Action dec = ActionBlock /\ RuleID dec = "DDoS004".
Proof.
  apply (second_lengthless_post_blocked NewDDoSProtection (example_context "a" "POST") 0
    [Request (at_once (20 * Second)) (example_context "a" "POST"); Tick (25 * Second)]
    (example_context "a" "POST") (31 * Second)).
  - repeat split.
  - repeat split.
  - reflexivity.
  - reflexivity.
  - repeat constructor; vm_compute; discriminate.
  - vm_compute. reflexivity.
Defined.
