(* ===== verification/Performance.v ===== *)
(** * Performance isolation: [internal/engine/performance.go]

    A circuit breaker per inspector ([canProceed], [recordFailure],
    [recordSuccess], [CircuitState]), the count of workers in flight and the
    per-inspector timeouts of the [PerformanceManager], its [Inspect], and
    [Stats] with the locks it takes. The inspector's own run is given as what
    the [select] receives from it; the readings of the clock and of the heap
    are arguments. Logging and the watchdog (which only logs) are left out. *)

From S2P Require Import Prelude Float64 GoStr Types.

#[local] Open Scope string_scope.
#[local] Open Scope Z_scope.

(** ** State *)

Record CircuitBreaker : Type := mkBreaker {
  failures : Z;
  threshold : Z;
  trips : Z;
  lastTrip : Z;
  halfOpen : bool;
  halfOpenAt : Z;
  recoveryTime : Z;
  resets : Z
}.

Inductive CircuitState_ : Type := CircuitClosed | CircuitHalfOpen | CircuitOpen.

Record PerformanceManager : Type := mkPM {
  regexTimeout : Z;
  wasmTimeout : Z;
  circuitBreakers : gmap string CircuitBreaker;
  activeWorkers : Z;
  maxWorkers : Z;
  memoryLimit : Z
}.

Definition set_breakers (m : gmap string CircuitBreaker) (pm : PerformanceManager) :=
  mkPM (regexTimeout pm) (wasmTimeout pm) m (activeWorkers pm) (maxWorkers pm) (memoryLimit pm).
(** [atomic.AddInt64(&pm.activeWorkers, d)] *)
Definition add_workers (d : Z) (pm : PerformanceManager) :=
  mkPM (regexTimeout pm) (wasmTimeout pm) (circuitBreakers pm) (wrap64 (activeWorkers pm + d))
    (maxWorkers pm) (memoryLimit pm).

(** [procs] is [runtime.GOMAXPROCS(0)]. *)
Definition NewPerformanceManager (procs regexTimeoutMs wasmTimeoutMs : Z) : PerformanceManager :=
  let reTimeout := wrap64 (regexTimeoutMs * Millisecond) in
  let reTimeout := if reTimeout <=? 0 then 1000 * Millisecond else reTimeout in
  let waTimeout := wrap64 (wasmTimeoutMs * Millisecond) in
  let waTimeout := if waTimeout <=? 0 then 5000 * Millisecond else waTimeout in
  mkPM reTimeout waTimeout ∅ 0 (procs * 4) (512 * 1024 * 1024).

Definition getTimeout (pm : PerformanceManager) (name : string) : Z :=
  if String.eqb name "wasm" then wasmTimeout pm else regexTimeout pm.

(** ** The breaker *)

(** The body of [canProceed] once the breaker is found. The model takes one
    reading of the clock for the up to three that the code makes in a row. *)
Definition breaker_admits (now : Z) (cb : CircuitBreaker) : bool * CircuitBreaker :=
  if halfOpen cb && (recoveryTime cb <? time_sub now (halfOpenAt cb)) then
    (true, mkBreaker 0 (threshold cb) (trips cb) (lastTrip cb) false (halfOpenAt cb)
             (recoveryTime cb) (resets cb))
  else if recoveryTime cb <? time_sub now (lastTrip cb) then
    (true, mkBreaker (failures cb) (threshold cb) (trips cb) (lastTrip cb) true now
             (recoveryTime cb) (resets cb))
  else (false, cb).

Definition canProceed (now : Z) (name : string) (pm : PerformanceManager)
    : bool * PerformanceManager :=
  match circuitBreakers pm !! name with
  | None => (true, pm)
  | Some cb =>
      let '(b, cb) := breaker_admits now cb in
      (b, set_breakers (<[name := cb]> (circuitBreakers pm)) pm)
  end.

Definition new_breaker : CircuitBreaker :=
  mkBreaker 0 5 0 zero_time false zero_time (30 * Second) 0.

Definition breaker_fails (now : Z) (cb : CircuitBreaker) : CircuitBreaker :=
  let f := incr (failures cb) in
  if threshold cb <=? f
  then mkBreaker f (threshold cb) (incr (trips cb)) now (halfOpen cb) (halfOpenAt cb)
         (recoveryTime cb) (resets cb)
  else mkBreaker f (threshold cb) (trips cb) (lastTrip cb) (halfOpen cb) (halfOpenAt cb)
         (recoveryTime cb) (resets cb).

Definition recordFailure (now : Z) (name : string) (pm : PerformanceManager) : PerformanceManager :=
  let cb := default new_breaker (circuitBreakers pm !! name) in
  set_breakers (<[name := breaker_fails now cb]> (circuitBreakers pm)) pm.

Definition breaker_succeeds (cb : CircuitBreaker) : CircuitBreaker :=
  if 0 <? failures cb
  then mkBreaker (failures cb - 1) (threshold cb) (trips cb) (lastTrip cb) (halfOpen cb)
         (halfOpenAt cb) (recoveryTime cb) (resets cb)
  else cb.

Definition recordSuccess (name : string) (pm : PerformanceManager) : PerformanceManager :=
  match circuitBreakers pm !! name with
  | None => pm
  | Some cb => set_breakers (<[name := breaker_succeeds cb]> (circuitBreakers pm)) pm
  end.

Definition breaker_state (now : Z) (cb : CircuitBreaker) : CircuitState_ :=
  if halfOpen cb then CircuitHalfOpen
  else if (time_sub now (lastTrip cb) <? recoveryTime cb) && (threshold cb <=? failures cb)
       then CircuitOpen
       else CircuitClosed.

Definition CircuitState (now : Z) (name : string) (pm : PerformanceManager) : CircuitState_ :=
  match circuitBreakers pm !! name with
  | None => CircuitClosed
  | Some cb => breaker_state now cb
  end.

(** ** Inspect *)

(** What the goroutine that runs the inspector does, as the [select] sees it:
    a decision, an error, a panic (whose deferred handler reports an error and
    records a failure of its own), or nothing before the timeout. *)
Inductive ran : Type :=
| RanDecision (d : option Decision)
| RanError (e : text)
| RanPanic (r : text)
| RanTimeout.

Definition perf_decision (id name sev : string) (score conf : Z) (ev : text) : Decision :=
  decision_conf ActionMonitor id name sev score conf ev.

(** A call up to the start of the goroutine: [inl] is the decision of an early
    return. [alloc] is the reading of [m.Alloc]. *)
Definition enter (now alloc : Z) (name : string) (pm : PerformanceManager)
    : (Decision + unit) * PerformanceManager :=
  let '(ok, pm) := canProceed now name pm in
  if negb ok then
    (inl (perf_decision "PERF_001" "Inspector Circuit Open" "low" 0 0
            (Sprintf "inspector %q circuit breaker open, skipping" [AStr name])), pm)
  else
    let pm := add_workers 1 pm in
    if maxWorkers pm <? activeWorkers pm then
      (inl (perf_decision "PERF_002" "Max Concurrent Inspectors Exceeded" "low" 0 0
              (Sprintf "max concurrent workers (%d) exceeded, skipping %q"
                 [AInt (maxWorkers pm); AStr name])), add_workers (-1) pm)
    else if memoryLimit pm <? alloc then
      (inl (perf_decision "PERF_003" "Memory Limit Reached" "low" 0 0
              (Sprintf "memory alloc %d exceeds limit %d, skipping %q"
                 [AInt alloc; AInt (memoryLimit pm); AStr name])), add_workers (-1) pm)
    else (inr tt, pm).

(** The [select], and the panic handler that runs beside it. *)
Definition leave (now : Z) (name : string) (r : ran) (pm : PerformanceManager)
    : result text (option Decision) * PerformanceManager :=
  let pm := add_workers (-1) pm in
  match r with
  | RanDecision d => (Ok d, recordSuccess name pm)
  | RanError e => (Err e, recordFailure now name pm)
  | RanPanic e =>
      (Err (Sprintf "panic in inspector %s: %v" (AStr name :: args e)),
       recordFailure now name (recordFailure now name pm))
  | RanTimeout =>
      (Ok (Some (perf_decision "PERF_004" "Inspector Timeout" "medium" 20 50
                   (Sprintf "inspector %q timed out after %v"
                      [AStr name; ADur (getTimeout pm name)]))),
       recordFailure now name pm)
  end.

Definition Inspect (now1 alloc now2 : Z) (name : string) (r : ran) (pm : PerformanceManager)
    : result text (option Decision) * PerformanceManager :=
  match enter now1 alloc name pm with
  | (inl d, pm) => (Ok (Some d), pm)
  | (inr _, pm) => leave now2 name r pm
  end.

(** ** Stats and its locks

    [Lock] on a mutex its own goroutine holds never returns: [None] is that
    deadlock. [held] is the set of breakers whose mutex the goroutine holds. *)

Definition lock (name : string) (held : gset string) : option (gset string) :=
  if decide (name ∈ held) then None else Some ({[name]} ∪ held).

Definition CircuitState_locked (now : Z) (name : string) (held : gset string)
    (pm : PerformanceManager) : option CircuitState_ :=
  match circuitBreakers pm !! name with
  | None => Some CircuitClosed
  | Some cb => _ ← lock name held; Some (breaker_state now cb)
  end.

Definition breaker_stats (now : Z) (pm : PerformanceManager) (p : string * CircuitBreaker)
    : option (string * (Z * Z * CircuitState_ * Z)) :=
  let '(name, cb) := p in
  held ← lock name ∅;
  st ← CircuitState_locked now name held pm;
  Some (name, (failures cb, trips cb, st, resets cb)).

Definition Stats `{MapRange CircuitBreaker} (now : Z) (pm : PerformanceManager)
    : option (Z * Z * Z * Z * list (string * (Z * Z * CircuitState_ * Z))) :=
  cbs ← mapM (breaker_stats now pm) (map_range (circuitBreakers pm));
  Some (activeWorkers pm, maxWorkers pm, regexTimeout pm / Millisecond,
        wasmTimeout pm / Millisecond, cbs).

(** ** The breaker as a machine *)

Inductive breaker_op : Type :=
| CanProceed (now : Z)
| Failure (now : Z)
| Success (now : Z).

Definition op_time (o : breaker_op) : Z :=
  match o with CanProceed t | Failure t | Success t => t end.

(** One operation: the answer of a [canProceed] and the next breaker. *)
Definition breaker_step (o : breaker_op) (cb : CircuitBreaker) : option bool * CircuitBreaker :=
  match o with
  | CanProceed now => let '(b, cb) := breaker_admits now cb in (Some b, cb)
  | Failure now => (None, breaker_fails now cb)
  | Success _ => (None, breaker_succeeds cb)
  end.

Fixpoint breaker_run (ops : list breaker_op) (cb : CircuitBreaker) : list bool * CircuitBreaker :=
  match ops with
  | [] => ([], cb)
  | o :: rest =>
      let '(a, cb1) := breaker_step o cb in
      let '(bs, cb2) := breaker_run rest cb1 in
      (match a with Some b => b :: bs | None => bs end, cb2)
  end.

(** ** Workers in flight

    Concurrent calls of [Inspect]: the atomic increment, the check of the
    limit and the decrement are separate steps of each goroutine. *)

Inductive worker : Type := Counted | Running.

#[export] Instance worker_eq_dec : EqDecision worker.
Proof. solve_decision. Defined.

Inductive worker_step (max : Z) : Z * list worker -> Z * list worker -> Prop :=
| step_enter n ws : worker_step max (n, ws) (wrap64 (n + 1), Counted :: ws)
| step_pass n ws1 ws2 : (max <? n) = false ->
    worker_step max (n, (ws1 ++ Counted :: ws2)%list) (n, (ws1 ++ Running :: ws2)%list)
| step_reject n ws1 ws2 :
    worker_step max (n, (ws1 ++ Counted :: ws2)%list) (wrap64 (n + -1), (ws1 ++ ws2)%list)
| step_done n ws1 ws2 :
    worker_step max (n, (ws1 ++ Running :: ws2)%list) (wrap64 (n + -1), (ws1 ++ ws2)%list).

Definition running (ws : list worker) : Z :=
  len (filter (fun w => w = Running) ws).

(** ** Lemmas *)

Section breaker.
  Context (t0 rt : Z).
  Hypothesis rt_range : min64 <= rt < max64.

  (** After a trip at [t0], within the recovery time. *)
Definition tripped (cb : CircuitBreaker) : Prop :=
    t0 <= lastTrip cb /\ recoveryTime cb = rt.

Lemma trip_is_recent cb now : tripped cb -> now <= t0 + rt ->
    (recoveryTime cb <? time_sub now (lastTrip cb)) = false.
  Proof.
    intros [? ->] ?. rewrite time_sub_gt by lia. apply Z.ltb_ge. lia.
  Qed.

Lemma breaker_step_tripped o cb a cb' :
    tripped cb -> t0 <= op_time o <= t0 + rt -> breaker_step o cb = (a, cb') ->
    tripped cb' /\ (a = Some true -> halfOpen cb = true) /\
    (halfOpen cb' = true -> halfOpen cb = true /\ a <> Some true).
  Proof.
    intros Ht Hn. destruct o as [now|now|now]; simpl in *; intros E.
    - unfold breaker_admits in E. rewrite trip_is_recent in E by (done || lia).
      destruct (halfOpen cb) eqn:Hh; simpl in E;
        [destruct (recoveryTime cb <? _)|]; simplify_eq/=; naive_solver.
    - unfold breaker_fails in E. case_match; simplify_eq/=; unfold tripped in *; simpl; naive_solver lia.
    - unfold breaker_succeeds in E. case_match; simplify_eq/=; unfold tripped in *; naive_solver.
  Qed.

Lemma breaker_run_tripped ops cb :
    tripped cb -> Forall (fun o => t0 <= op_time o <= t0 + rt) ops ->
    len (filter (fun b => b = true) (breaker_run ops cb).1) <= (if halfOpen cb then 1 else 0).
  Proof.
    intros Ht Hops. revert cb Ht.
    induction Hops as [|o ops Ho Hops IH]; intros cb Ht; [simpl; case_match; vm_compute; done|].
    cbn [breaker_run]. destruct (breaker_step o cb) as [a cb1] eqn:E.
    destruct (breaker_step_tripped _ _ _ _ Ht Ho E) as (Ht1 & Ha & Hh).
    specialize (IH cb1 Ht1). destruct (breaker_run ops cb1) as [bs cb2]. cbn [fst snd] in *.
    assert (len (filter (fun b => b = true) match a with Some b => b :: bs | None => bs end)
            <= (match a with Some true => 1 | _ => 0 end) + len (filter (fun b => b = true) bs))
      as Hf by (destruct a as [[]|]; rewrite ?filter_cons; simpl; autorewrite with go; lia).
    etransitivity; [exact Hf|].
    destruct a as [[]|], (halfOpen cb) eqn:E1, (halfOpen cb1) eqn:E2; naive_solver lia.
  Qed.
End breaker.

(** Before any trip the breaker admits everything. *)
Definition untripped (n : Z) (cb : CircuitBreaker) : Prop :=
  0 <= failures cb <= n /\ threshold cb = 5 /\ lastTrip cb = zero_time /\
  recoveryTime cb = 30 * Second.

Definition is_failure (o : breaker_op) : bool :=
  match o with Failure _ => true | _ => false end.
Definition count_failures (ops : list breaker_op) : Z := count_of is_failure ops.

Lemma breaker_step_untripped n o cb a cb' :
  untripped n cb -> n + (if is_failure o then 1 else 0) < 5 ->
  zero_time + 30 * Second < op_time o -> breaker_step o cb = (a, cb') ->
  untripped (n + (if is_failure o then 1 else 0)) cb' /\ a <> Some false.
Proof.
  intros (Hf & Ht & Hl & Hr) Hn Hop E. destruct o as [now|now|now]; simpl in *.
  - assert ((recoveryTime cb <? time_sub now (lastTrip cb)) = true) as Hrec.
    { rewrite Hr, Hl, time_sub_gt by (vm_compute; done). apply Z.ltb_lt. lia. }
    unfold breaker_admits in E. rewrite Hrec in E. destruct (halfOpen cb && _); simplify_eq/=;
      (split; [|done]); unfold untripped; simpl; repeat split; (lia || done).
  - unfold breaker_fails in E. rewrite incr_small in E by (unfold min64, max64; lia).
    rewrite (proj2 (Z.leb_gt _ _)) in E by lia. simplify_eq/=. split; [|done].
    unfold untripped; simpl; repeat split; (lia || done).
  - unfold breaker_succeeds in E. case_match; simplify_eq/=; b2p; (split; [|done]);
      unfold untripped; simpl; repeat split; (lia || done).
Qed.

Lemma breaker_run_untripped n ops cb :
  untripped n cb -> n + count_failures ops < 5 ->
  Forall (fun o => zero_time + 30 * Second < op_time o) ops ->
  Forall (fun b => b = true) (breaker_run ops cb).1.
Proof.
  intros Hcb Hn Hops. revert n cb Hcb Hn.
  induction Hops as [|o ops Ho Hops IH]; intros n cb Hcb Hn; [constructor|].
  unfold count_failures in *. rewrite count_of_cons in Hn. cbn [breaker_run].
  destruct (breaker_step o cb) as [a cb1] eqn:E.
  pose proof (count_of_le is_failure ops).
  destruct (breaker_step_untripped n o cb a cb1 Hcb ltac:(lia) Ho E) as [Hcb1 Ha].
  specialize (IH _ cb1 Hcb1 ltac:(lia)).
  destruct (breaker_run ops cb1) as [bs cb2]. simpl in *.
  destruct a as [[]|]; [by constructor|done|done].
Qed.

(** Every exit of [Inspect] gives the worker back. *)
Lemma set_breakers_workers m pm : activeWorkers (set_breakers m pm) = activeWorkers pm.
Proof. done. Qed.

Lemma recordFailure_workers now name pm :
  activeWorkers (recordFailure now name pm) = activeWorkers pm.
Proof. done. Qed.

Lemma recordSuccess_workers name pm : activeWorkers (recordSuccess name pm) = activeWorkers pm.
Proof. unfold recordSuccess. by case_match. Qed.

Lemma canProceed_workers now name pm : activeWorkers (canProceed now name pm).2 = activeWorkers pm.
Proof. unfold canProceed. case_match; [|done]. by destruct (breaker_admits now _). Qed.

Lemma wrap64_back z : in64 z -> wrap64 (wrap64 (z + 1) + -1) = z.
Proof.
  intros Hz. unfold wrap64 at 1.
  replace (wrap64 (z + 1) + -1 + 2 ^ 63) with (wrap64 (z + 1) + 2 ^ 63 - 1) by lia.
  unfold wrap64. replace ((z + 1 + 2 ^ 63) mod 2 ^ 64 - 2 ^ 63 + 2 ^ 63 - 1)
    with ((z + 1 + 2 ^ 63) mod 2 ^ 64 - 1) by lia.
  rewrite Zminus_mod_idemp_l. replace (z + 1 + 2 ^ 63 - 1) with (z + 2 ^ 63) by lia.
  unfold in64, min64, max64 in Hz. rewrite Z.mod_small; lia.
Qed.

#[export] Hint Rewrite recordFailure_workers recordSuccess_workers canProceed_workers : go.

Lemma Inspect_workers now1 alloc now2 name r pm :
  in64 (activeWorkers pm) ->
  activeWorkers (Inspect now1 alloc now2 name r pm).2 = activeWorkers pm.
Proof.
  intros Hpm. unfold Inspect, enter.
  pose proof (canProceed_workers now1 name pm) as Hcp.
  destruct (canProceed now1 name pm) as [ok pm1]. simpl in Hcp.
  repeat case_match; simplify_eq/=; rewrite ?Hcp; try done;
    unfold leave; repeat case_match; simpl; autorewrite with go; simpl; rewrite ?Hcp;
    by apply wrap64_back.
Qed.

(** *** Workers *)

(** ** A call that is let in *)

(** A worker is free. *)
Definition idle (pm : PerformanceManager) : Prop :=
  min64 <= activeWorkers pm < maxWorkers pm /\ maxWorkers pm <= max64.

(** Equal but for the breaker of one inspector. *)
Definition same_but (name : string) (pm pm' : PerformanceManager) : Prop :=
  activeWorkers pm' = activeWorkers pm /\ maxWorkers pm' = maxWorkers pm /\ memoryLimit pm' = memoryLimit pm
  /\ forall n, n <> name -> circuitBreakers pm' !! n = circuitBreakers pm !! n.

Lemma same_memory name pm pm' : same_but name pm pm' -> memoryLimit pm' = memoryLimit pm.
Proof. by intros (_ & _ & ? & _). Qed.

Lemma same_idle name pm pm' : same_but name pm pm' -> idle pm -> idle pm'.
Proof. unfold idle. by intros (-> & -> & _). Qed.

Lemma canProceed_other now name n pm pm' :
  same_but name pm pm' -> n <> name -> fst (canProceed now n pm') = fst (canProceed now n pm).
Proof.
  intros (_ & _ & _ & Hb) Hn. unfold canProceed. rewrite Hb by done.
  destruct (circuitBreakers pm !! n); [|done]. by destruct (breaker_admits _ _).
Qed.

Lemma same_trans name pm1 pm2 pm3 : same_but name pm1 pm2 -> same_but name pm2 pm3 -> same_but name pm1 pm3.
Proof.
  intros (A1 & A2 & A3 & H1) (B1 & B2 & B3 & H2). split_and!; [congruence..|]. intros n Hn. by rewrite H2, H1.
Qed.

Lemma canProceed_same now name pm : same_but name pm (canProceed now name pm).2.
Proof.
  unfold canProceed. destruct (circuitBreakers pm !! name); [|by split_and!]. destruct (breaker_admits _ _).
  split_and!; [done..|]. intros n Hn. cbn. by rewrite lookup_insert_ne.
Qed.

Lemma recordFailure_same now name pm : same_but name pm (recordFailure now name pm).
Proof. split_and!; [done..|]. intros n Hn. cbn. by rewrite lookup_insert_ne. Qed.

Lemma recordSuccess_same name pm : same_but name pm (recordSuccess name pm).
Proof.
  unfold recordSuccess. destruct (circuitBreakers pm !! name); [|by split_and!].
  split_and!; [done..|]. intros n Hn. cbn. by rewrite lookup_insert_ne.
Qed.

Lemma leave_same now name r pm : same_but name (add_workers (-1) pm) (leave now name r pm).2.
Proof.
  destruct r; cbn [leave snd];
    [apply recordSuccess_same|apply recordFailure_same| |apply recordFailure_same].
  eapply same_trans; apply recordFailure_same.
Qed.

(** With a worker free, memory left and a breaker that admits, the inspector
    is run, and its run moves no breaker but its own. *)
Lemma enter_idle now alloc name pm :
  idle pm -> alloc <= memoryLimit pm -> fst (canProceed now name pm) = true ->
  exists pm1, enter now alloc name pm = (inr tt, pm1) /\ forall now2 r, same_but name pm (leave now2 name r pm1).2.
Proof.
  intros Hi Ha Hc. pose proof (canProceed_same now name pm) as Hs. unfold enter.
  destruct (canProceed now name pm) as [ok pm0]. cbn [fst snd] in *. subst ok. cbn [negb].
  assert (idle pm0) as Hi0 by (by eapply same_idle). pose proof Hi0 as [Hw Hm]. destruct Hs as (H1 & H2 & H3 & H4).
  assert (wrap64 (activeWorkers pm0 + 1) = activeWorkers pm0 + 1) as Hwrap
    by (apply wrap64_small; unfold in64; unfold min64, max64 in *; lia).
  cbn [activeWorkers maxWorkers memoryLimit add_workers]. rewrite Hwrap, (proj2 (Z.ltb_ge _ _)), (proj2 (Z.ltb_ge _ _)) by lia.
  eexists. split; [done|]. intros now2 r. eapply same_trans; [|apply leave_same].
  assert (wrap64 (activeWorkers pm0 + 1 + -1) = activeWorkers pm0) as Hback
    by (rewrite wrap64_small by (unfold in64; unfold min64, max64 in *; lia); lia).
  split_and!; cbn; [|done..]. by rewrite Hwrap, Hback.
Qed.

Lemma running_app ws1 ws2 : running (ws1 ++ ws2)%list = running ws1 + running ws2.
Proof. unfold running. rewrite filter_app. apply len_app. Qed.
Lemma running_counted ws : running (Counted :: ws) = running ws.
Proof. unfold running. by rewrite filter_cons. Qed.
Lemma running_cons ws : running (Running :: ws) = 1 + running ws.
Proof. unfold running. rewrite filter_cons, decide_True by done. apply len_cons. Qed.
Lemma running_le_len ws : running ws <= len ws.
Proof. unfold running, len. pose proof (length_filter (fun w => w = Running) ws). lia. Qed.

#[export] Hint Rewrite running_app running_counted running_cons : go.

(** Fewer goroutines than an int64 can count. *)
Definition bounded_step (max : Z) (s s' : Z * list worker) : Prop :=
  worker_step max s s' /\ len s'.2 <= max64.

Definition workers_inv (max : Z) (s : Z * list worker) : Prop :=
  s.1 = len s.2 /\ len s.2 <= max64 /\ running s.2 <= max.

Lemma workers_inv_step max s s' : workers_inv max s -> bounded_step max s s' -> workers_inv max s'.
Proof.
  intros (Hn & Hl & Hr) [Hstep Hb]. unfold workers_inv.
  pose proof (len_nonneg s.2) as Hp. pose proof (len_nonneg s'.2) as Hp'.
  destruct Hstep; simpl in *; autorewrite with go in *; simpl in *; b2p;
    try rewrite wrap64_small by (unfold in64, min64, max64 in *; lia); split_and!; try lia.
  pose proof (running_le_len ws1). pose proof (running_le_len ws2). lia.
Qed.

(** ** Properties *)

(** An open breaker leaks at most one call: after a trip at [t0], in any
    sequence of [canProceed], [recordFailure] and [recordSuccess] within the
    recovery time, at most one [canProceed] lets its call through, and none
    does unless the breaker was already half open when it tripped. *)
Theorem open_breaker_admits_at_most_one t0 cb ops :
  threshold cb <= incr (failures cb) -> min64 <= recoveryTime cb < max64 ->
  Forall (fun o => t0 <= op_time o <= t0 + recoveryTime cb) ops ->
  len (filter (fun b => b = true) (breaker_run ops (breaker_fails t0 cb)).1)
  <= (if halfOpen cb then 1 else 0).
Proof.
  intros Hf Hr Hops. unfold breaker_fails. rewrite (proj2 (Z.leb_le _ _)) by done.
  refine (breaker_run_tripped t0 (recoveryTime cb) Hr ops
            (mkBreaker _ _ _ _ (halfOpen cb) _ _ _) _ Hops).
  split; simpl; [lia|done].
Qed.

Definition half_open_example : CircuitBreaker :=
  mkBreaker 4 5 0 zero_time true (10 * Second) (30 * Second) 0.

Lemma open_breaker_admits_at_most_one_witness :
  len (filter (fun b => b = true)
    (breaker_run [CanProceed (101 * Second); CanProceed (102 * Second); CanProceed (120 * Second)]
       (breaker_fails (100 * Second) half_open_example)).1) <= 1.
Proof.
  apply (open_breaker_admits_at_most_one (100 * Second) half_open_example
           [CanProceed (101 * Second); CanProceed (102 * Second); CanProceed (120 * Second)]).
  - vm_compute. discriminate.
  - vm_compute. split; [discriminate|reflexivity].
  - repeat constructor; vm_compute; discriminate.
Defined.

(** The call that leaks, in that example. *)
Example open_breaker_leak :
  (breaker_run [CanProceed (101 * Second); CanProceed (102 * Second); CanProceed (120 * Second)]
     (breaker_fails (100 * Second) half_open_example)).1 = [true; false; false].
Proof. reflexivity. Qed.

(** A breaker that has recorded fewer than five failures since it was
    created refuses no call, whatever the order of checks, failures and
    successes (clock later than thirty seconds after year 1). *)
Theorem untripped_breaker_admits ops :
  count_failures ops < 5 ->
  Forall (fun o => zero_time + 30 * Second < op_time o) ops ->
  Forall (fun b => b = true) (breaker_run ops new_breaker).1.
Proof.
  intros Hc Hops. apply (breaker_run_untripped 0); [|lia|done].
  unfold untripped, new_breaker; simpl. repeat split; lia.
Qed.

Lemma untripped_breaker_admits_witness :
  Forall (fun b => b = true)
    (breaker_run [Failure 0; CanProceed 1; Failure 2; Failure 3; Success 4; Failure 5; CanProceed 6]
       new_breaker).1.
Proof.
  apply untripped_breaker_admits; [vm_compute; reflexivity|].
  repeat constructor; vm_compute; reflexivity.
Defined.

(** Five failures in a row do trip it. *)
Example five_failures_trip :
  (breaker_run [Failure 1; Failure 2; Failure 3; Failure 4; Failure 5; CanProceed (5 + 30 * Second);
                CanProceed (6 + 30 * Second)] new_breaker).1 = [false; true].
Proof. reflexivity. Qed.

(** [Stats] deadlocks exactly when some inspector has ever failed: it
    calls [CircuitState] with the breaker's own mutex held. *)
Theorem stats_deadlocks `{MapRange CircuitBreaker} now pm :
  Stats now pm = None <-> circuitBreakers pm <> ∅.
Proof.
  unfold Stats. split.
  - intros HS Hm. destruct (map_range (circuitBreakers pm)) as [|[k v] l] eqn:E; [done|].
    assert ((k, v) ∈ map_range (circuitBreakers pm)) as Hk by (rewrite E; left).
    apply elem_of_map_range in Hk. by rewrite Hm in Hk.
  - intros Hm. destruct (map_range (circuitBreakers pm)) as [|[name cb] l] eqn:E.
    + destruct Hm. apply map_empty. intros k. destruct (_ !! k) as [v|] eqn:Hk; [|done].
      apply elem_of_map_range in Hk. rewrite E in Hk. by apply not_elem_of_nil in Hk.
    + assert (circuitBreakers pm !! name = Some cb) as Hn.
      { apply elem_of_map_range. rewrite E. left. }
      simpl. unfold breaker_stats, lock. rewrite decide_False by set_solver. simpl.
      unfold CircuitState_locked, lock. rewrite Hn, decide_True by set_solver. done.
Qed.

(** However the goroutines of concurrent inspections interleave, never
    more than [maxWorkers] of them run an inspector. *)
Theorem workers_bounded max n ws :
  0 <= max -> rtc (bounded_step max) (0, []) (n, ws) -> running ws <= max /\ n = len ws.
Proof.
  intros Hmax Hr. assert (workers_inv max (n, ws)) as (? & ? & ?); [|done].
  revert Hr. apply (rtc_ind_r (workers_inv max) (0, [])).
  - split_and!; simpl; [done|vm_compute; discriminate|done].
  - intros s s' _ Hs Hi. by apply (workers_inv_step _ s).
Qed.

Lemma workers_bounded_witness : running [Counted; Running] <= 1 /\ 2 = len [Counted; Running].
Proof.
  apply (workers_bounded 1 2 [Counted; Running]); [lia|].
  apply (rtc_l _ _ (1, [Counted])); [split; [apply (step_enter 1 0 [])|vm_compute; discriminate]|].
  apply (rtc_l _ _ (1, [Running]));
    [split; [by apply (step_pass 1 1 [] [])|vm_compute; discriminate]|].
  apply rtc_once. split; [apply (step_enter 1 1 [Running])|vm_compute; discriminate].
Defined.
