(* ===== verification/Confidence.v ===== *)
(** * Confidence scores: [internal/engine/confidence.go]

    The per-rule statistics of the [ConfidenceScorer] and the confidence it
    gives to a decision. The score depends on the evidence only through the
    length of the text, so the length of a formatted text is a parameter
    ([TextLen]) of [ScoreDecision]. *)

From S2P Require Import Prelude Float64 GoStr Types.

#[local] Open Scope string_scope.
#[local] Open Scope Z_scope.

Record ruleConfidence : Type := mkRC {
  totalDecisions : Z;
  confirmedBad : Z;
  falsePositives : Z;
  baseConfidence : f64;
  lastUpdated : Z
}.

(** [cs.stability]; the key is the [ruleID] field too. *)
Abbreviation ConfidenceScorer := (gmap string ruleConfidence).
Definition NewConfidenceScorer : ConfidenceScorer := ∅.

(** The length in bytes of a formatted text. *)
Class TextLen : Type := {
  text_len : text -> Z;
  text_len_nonneg : forall t, 0 <= text_len t
}.

(** An instance for examples: the length of the format itself, which is the
    length of a text without arguments. *)
Definition format_len : TextLen :=
  {| text_len := fun t => slen (format t); text_len_nonneg := fun t => slen_nonneg _ |}.

Definition severityWeight (sev : string) : f64 :=
  if String.eqb sev "critical" then of_int 1
  else if String.eqb sev "high" then of_frac 85 100
  else if String.eqb sev "medium" then of_frac 65 100
  else if String.eqb sev "low" then of_frac 40 100
  else if String.eqb sev "info" then of_frac 20 100
  else of_frac 50 100.

Definition confidence_of `{TextLen} (cs : ConfidenceScorer) (dec : Decision) : f64 :=
  let base := match cs !! RuleID dec with
              | Some rc => baseConfidence rc
              | None => of_frac 85 100
              end in
  let score := fdiv (Score dec) (of_int 100) in
  let sw := severityWeight (Severity dec) in
  let evidenceLen := text_len (Evidence dec) in
  let evidenceQuality := if 10 <? evidenceLen
                         then fmin (of_int 1) (fdiv (of_int evidenceLen) (of_int 200))
                         else of_frac 5 10 in
  let confidence := fadd (fadd (fadd (fmul base (of_frac 4 10)) (fmul score (of_frac 3 10)))
                            (fmul sw (of_frac 2 10))) (fmul evidenceQuality (of_frac 1 10)) in
  fmax (of_frac 1 10) (fmin (of_int 1) confidence).

Definition ScoreDecision `{TextLen} (cs : ConfidenceScorer) (dec : Decision) : Decision :=
  if fgt (ConfidenceScore dec) f0 then dec
  else with_confidence
         (fdiv (fround (fmul (confidence_of cs dec) (of_int 100))) (of_int 100)) dec.

Definition new_rule (now : Z) : ruleConfidence := mkRC 0 0 0 (of_frac 85 100) now.

(** [getOrCreate]: the entry of a rule, created when it is missing. *)
Definition getOrCreate (now : Z) (ruleID : string) (cs : ConfidenceScorer)
    : ruleConfidence * ConfidenceScorer :=
  match cs !! ruleID with
  | Some rc => (rc, cs)
  | None => (new_rule now, <[ruleID := new_rule now]> cs)
  end.

Definition RecordTruePositive (now : Z) (ruleID : string) (cs : ConfidenceScorer)
    : ConfidenceScorer :=
  let '(rc, cs) := getOrCreate now ruleID cs in
  <[ruleID := mkRC (incr (totalDecisions rc)) (incr (confirmedBad rc)) (falsePositives rc)
                (fmin (of_frac 99 100) (fadd (baseConfidence rc) (of_frac 1 100))) now]> cs.

Definition RecordFalsePositive (now : Z) (ruleID : string) (cs : ConfidenceScorer)
    : ConfidenceScorer :=
  let '(rc, cs) := getOrCreate now ruleID cs in
  let total := incr (totalDecisions rc) in
  let fp := incr (falsePositives rc) in
  let penalty := fmul (fdiv (of_int fp) (of_int total)) (of_frac 2 10) in
  <[ruleID := mkRC total (confirmedBad rc) fp
                (fmax (of_frac 5 10) (fsub (baseConfidence rc) penalty)) now]> cs.

Definition GetConfidence (ruleID : string) (cs : ConfidenceScorer) : f64 :=
  match cs !! ruleID with
  | None => of_frac 85 100
  | Some rc =>
      let accuracy := if 0 <? totalDecisions rc
                      then fdiv (of_int (confirmedBad rc)) (of_int (totalDecisions rc))
                      else of_int 1 in
      fmul (baseConfidence rc) accuracy
  end.

(** One tick of [cleanupLoop]. *)
Definition cleanup (now : Z) (cs : ConfidenceScorer) : ConfidenceScorer :=
  filter (fun p => (time_after now (lastUpdated (snd p) + 24 * Hour)
                    && (totalDecisions (snd p) =? 0)) = false) cs.

(** ** Feedback

    The operations that change a scorer, and the feedback of one rule in a
    sequence of them. *)

Inductive feedback : Type :=
| TruePositive (now : Z) (ruleID : string)
| FalsePositive (now : Z) (ruleID : string)
| Tick (now : Z).

Definition apply_feedback (cs : ConfidenceScorer) (f : feedback) : ConfidenceScorer :=
  match f with
  | TruePositive now r => RecordTruePositive now r cs
  | FalsePositive now r => RecordFalsePositive now r cs
  | Tick now => cleanup now cs
  end.

Definition is_tp (r : string) (f : feedback) : bool :=
  match f with TruePositive _ r' => String.eqb r' r | _ => false end.
Definition is_fp (r : string) (f : feedback) : bool :=
  match f with FalsePositive _ r' => String.eqb r' r | _ => false end.
(** ** Lemmas *)

(** The statistics of a rule after the feedback [l]. *)
Definition stats_of (r : string) (l : list feedback) (cs : ConfidenceScorer) : Prop :=
  match cs !! r with
  | Some rc => confirmedBad rc = count_of (is_tp r) l /\ falsePositives rc = count_of (is_fp r) l /\
               totalDecisions rc = count_of (is_tp r) l + count_of (is_fp r) l
  | None => count_of (is_tp r) l = 0 /\ count_of (is_fp r) l = 0
  end.

Lemma stats_of_getOrCreate now r r' l cs rc cs' :
  stats_of r l cs -> getOrCreate now r' cs = (rc, cs') ->
  stats_of r l cs' /\ cs' !! r' = Some rc.
Proof.
  unfold getOrCreate, stats_of. intros Hs E. destruct (cs !! r') as [rc0|] eqn:Hr; simplify_eq; [done|].
  destruct (decide (r = r')) as [<-|Hne].
  - rewrite lookup_insert_eq. rewrite Hr in Hs. simpl. naive_solver lia.
  - by rewrite lookup_insert_ne, lookup_insert_eq by done.
Qed.

(** A rule's entry replaced by one with [dt] more true and [df] more false
    positives. *)
Lemma stats_of_insert r r' l cs rc rc' f :
  stats_of r l cs -> cs !! r' = Some rc -> is_tp r f || is_fp r f = String.eqb r' r ->
  (r' = r -> confirmedBad rc' = confirmedBad rc + (if is_tp r f then 1 else 0) /\
             falsePositives rc' = falsePositives rc + (if is_fp r f then 1 else 0) /\
             totalDecisions rc' = totalDecisions rc + 1) ->
  is_tp r f && is_fp r f = false ->
  stats_of r (l ++ [f])%list (<[r' := rc']> cs).
Proof.
  unfold stats_of. rewrite !count_of_app, !count_of_one. intros Hs Hr Hf Hrc Hd.
  destruct (String.eqb_spec r' r) as [->|Hne].
  - rewrite lookup_insert_eq. rewrite Hr in Hs. destruct (is_tp r f), (is_fp r f); naive_solver lia.
  - rewrite lookup_insert_ne by done. destruct (is_tp r f), (is_fp r f); try done.
    by rewrite !Z.add_0_r.
Qed.

Lemma tp_fp_le r l : count_of (is_tp r) l + count_of (is_fp r) l <= len l.
Proof.
  unfold count_of, len. induction l as [|f l IH]; [done|]. rewrite !filter_cons.
  destruct f; simpl in *; repeat case_decide; simpl; simplify_eq/=; lia.
Qed.

(** No counter of a followed rule overflows in fewer than 2^63 events. *)
Lemma stats_small r l cs rc :
  stats_of r l cs -> cs !! r = Some rc -> len l < max64 ->
  incr (confirmedBad rc) = confirmedBad rc + 1 /\ incr (falsePositives rc) = falsePositives rc + 1 /\
  incr (totalDecisions rc) = totalDecisions rc + 1.
Proof.
  unfold stats_of. intros Hs Hr Hl. rewrite Hr in Hs. pose proof (tp_fp_le r l).
  pose proof (count_of_le (is_tp r) l). pose proof (count_of_le (is_fp r) l).
  unfold max64 in *. rewrite !incr_small by (unfold min64, max64; lia). done.
Qed.

Lemma stats_of_apply r l cs f :
  stats_of r l cs -> len l < max64 -> stats_of r (l ++ [f])%list (apply_feedback cs f).
Proof.
  intros Hs Hl. destruct f as [now r'|now r'|now]; simpl.
  - unfold RecordTruePositive. destruct (getOrCreate now r' cs) as [rc cs'] eqn:E.
    destruct (stats_of_getOrCreate now r r' l cs rc cs' Hs E) as [Hs' Hr'].
    apply (stats_of_insert r r' l cs' rc); simpl; rewrite ?orb_false_r, ?andb_false_r; try done.
    intros ->. rewrite String.eqb_refl. destruct (stats_small r l cs' rc) as (-> & _ & ->); naive_solver lia.
  - unfold RecordFalsePositive. destruct (getOrCreate now r' cs) as [rc cs'] eqn:E.
    destruct (stats_of_getOrCreate now r r' l cs rc cs' Hs E) as [Hs' Hr'].
    apply (stats_of_insert r r' l cs' rc); simpl; try done.
    intros ->. rewrite String.eqb_refl. destruct (stats_small r l cs' rc) as (_ & -> & ->); naive_solver lia.
  - unfold stats_of, cleanup in *. rewrite !count_of_app, !count_of_one. simpl.
    rewrite map_lookup_filter. destruct (cs !! r) as [rc|]; simpl; [|lia].
    case_guard as Hg; simpl; [by rewrite !Z.add_0_r|].
    apply not_false_iff_true in Hg. simpl in Hg. b2p.
    pose proof (count_of_le (is_tp r) l). pose proof (count_of_le (is_fp r) l). lia.
Qed.

Lemma stats_of_run r l l0 cs :
  stats_of r l0 cs -> len l0 + len l <= max64 -> stats_of r (l0 ++ l)%list (fold_left apply_feedback l cs).
Proof.
  revert l0 cs. induction l as [|f l IH]; intros l0 cs Hs Hl; [by rewrite app_nil_r|].
  rewrite len_cons in Hl. pose proof (len_nonneg l). simpl.
  replace (l0 ++ f :: l)%list with ((l0 ++ [f]) ++ l)%list by by rewrite <- app_assoc.
  apply IH; [apply stats_of_apply; [done|lia]|]. autorewrite with go. lia.
Qed.

(** ** Properties *)

(** The counters of a rule are its feedback: after any sequence of
    true-positive and false-positive reports on any rules and of cleanup
    ticks, the scorer holds for each rule exactly the numbers of reports it
    received; in particular a cleanup never forgets a report. *)
Theorem feedback_counts r l :
  len l <= max64 -> stats_of r l (fold_left apply_feedback l NewConfidenceScorer).
Proof. intros Hl. by apply (stats_of_run r l []). Qed.

Lemma feedback_counts_witness :
  stats_of "R1"
    [TruePositive 5 "R1"; FalsePositive 6 "R2"; Tick (48 * Hour); FalsePositive (49 * Hour) "R1"]
    (fold_left apply_feedback
       [TruePositive 5 "R1"; FalsePositive 6 "R2"; Tick (48 * Hour); FalsePositive (49 * Hour) "R1"]
       NewConfidenceScorer).
Proof. apply feedback_counts. vm_compute. discriminate. Defined.
