(* ===== verification/Learning.v ===== *)
(** * Learning mode: [internal/engine/shadow.go]

    The baselines per path and the automatic whitelist of the
    [LearningEngine]. Logging, the text of the whitelist's reason and [Stats]
    are left out; [time.Now] is read by the operation's arguments. *)

From S2P Require Import Prelude Float64 GoStr Types Confidence.

#[local] Open Scope string_scope.
#[local] Open Scope Z_scope.

Record pathBaseline : Type := mkBaseline {
  bl_path : string;
  totalCount : Z;
  allowedCount : Z;
  meanRate : f64;
  stdDev : f64;
  sumSquares : f64;
  lastSeen : Z;
  statusCodes : gmap Z Z;
  methods : gmap string Z
}.

Record whitelistEntry : Type := mkEntry {
  pattern : string;
  expiresAt : Z;
  hits : Z;
  createdAt : Z
}.

Record LearningEngine : Type := mkLearner {
  baselines : gmap string pathBaseline;
  whitelist : gmap string whitelistEntry;
  evaluation : bool
}.

Definition NewLearningEngine : LearningEngine := mkLearner ∅ ∅ true.

Definition autoWhitelist (now : Z) (path : string) (wl : gmap string whitelistEntry)
    : gmap string whitelistEntry :=
  match wl !! path with
  | Some _ => wl
  | None => <[path := mkEntry path (now + 7 * 24 * Hour) 0 now]> wl
  end.

(** The counters every record moves: total, last seen, method and status. *)
Definition touch (now : Z) (method : string) (status : Z) (bl : pathBaseline) : pathBaseline :=
  mkBaseline (bl_path bl) (incr (totalCount bl)) (allowedCount bl) (meanRate bl) (stdDev bl)
    (sumSquares bl) now
    (if 0 <? status then <[status := incr (default 0 (statusCodes bl !! status))]> (statusCodes bl)
     else statusCodes bl)
    (<[method := incr (default 0 (methods bl !! method))]> (methods bl)).

Definition allow_one (bl : pathBaseline) : pathBaseline :=
  mkBaseline (bl_path bl) (totalCount bl) (incr (allowedCount bl)) (meanRate bl) (stdDev bl)
    (sumSquares bl) (lastSeen bl) (statusCodes bl) (methods bl).

(** The running mean and deviation of the rate. *)
Definition update_rate (now : Z) (bl : pathBaseline) : pathBaseline :=
  let rate := fdiv (of_int (allowedCount bl))
                (fmax (of_int 1) (Seconds (time_sub now (lastSeen bl)))) in
  let n := of_int (totalCount bl) in
  if fgt (meanRate bl) f0 then
    let oldMean := meanRate bl in
    let mean := fadd oldMean (fdiv (fsub rate oldMean) n) in
    let sq := fadd (sumSquares bl) (fmul (fsub rate oldMean) (fsub rate mean)) in
    mkBaseline (bl_path bl) (totalCount bl) (allowedCount bl) mean (fsqrt (fdiv sq n)) sq
      (lastSeen bl) (statusCodes bl) (methods bl)
  else
    mkBaseline (bl_path bl) (totalCount bl) (allowedCount bl) rate (stdDev bl) (sumSquares bl)
      (lastSeen bl) (statusCodes bl) (methods bl).

Definition mostly_allowed (total allowed : Z) : bool :=
  (100 <? total) && (Z.quot (wrap64 (total * 90)) 100 <? allowed).

(** [Record(inspector, ctx, dec)]: [seen] is the reading stored in
    [lastSeen], [now] the later one of [time.Since]. *)
Definition Record_ (seen now : Z) (ctx : RequestContext) (dec : option Decision)
    (le : LearningEngine) : LearningEngine :=
  let path := Path ctx in
  let status := match Response ctx with Some r => StatusCode r | None => 0 end in
  let bl := default (mkBaseline path 0 0 f0 f0 f0 seen ∅ ∅) (baselines le !! path) in
  let bl := touch seen (Method ctx) status bl in
  let allowed := match dec with
                 | Some d => match d_Action d with ActionAllow => true | _ => false end
                 | None => false
                 end in
  let bl := if allowed then allow_one bl else bl in
  if allowed && negb (evaluation le) then
    mkLearner (<[path := bl]> (baselines le)) (whitelist le) (evaluation le)
  else
    let bl := if allowed then update_rate now bl else bl in
    mkLearner (<[path := bl]> (baselines le))
      (if evaluation le && mostly_allowed (totalCount bl) (allowedCount bl)
       then autoWhitelist now path (whitelist le) else whitelist le)
      (evaluation le).

Definition Baseline (path : string) (le : LearningEngine) : option pathBaseline :=
  baselines le !! path.

Definition IsWhitelisted (now : Z) (path : string) (le : LearningEngine) : bool :=
  match whitelist le !! path with
  | None => false
  | Some e => negb (time_after now (expiresAt e))
  end.

(** One tick of [cleanupLoop]. *)
Definition cleanup (now : Z) (le : LearningEngine) : LearningEngine :=
  mkLearner
    (filter (fun p => time_after now (lastSeen (snd p) + 72 * Hour) = false) (baselines le))
    (filter (fun p => time_after now (expiresAt (snd p)) = false) (whitelist le))
    (evaluation le).

(** ** Histories *)

Inductive event : Type :=
| Recorded (seen now : Z) (ctx : RequestContext) (dec : option Decision)
| Tick (now : Z).

Definition step (le : LearningEngine) (e : event) : LearningEngine :=
  match e with
  | Recorded seen now ctx dec => Record_ seen now ctx dec le
  | Tick now => cleanup now le
  end.

Definition of_path (p : string) (e : event) : bool :=
  match e with Recorded _ _ ctx _ => String.eqb (Path ctx) p | Tick _ => false end.
Definition allows (dec : option Decision) : bool :=
  match dec with
  | Some d => match d_Action d with ActionAllow => true | _ => false end
  | None => false
  end.
Definition allowed_of_path (p : string) (e : event) : bool :=
  match e with
  | Recorded _ _ ctx dec => String.eqb (Path ctx) p && allows dec
  | Tick _ => false
  end.

(** ** Lemmas *)

Lemma update_rate_counts now bl :
  totalCount (update_rate now bl) = totalCount bl /\
  allowedCount (update_rate now bl) = allowedCount bl.
Proof. unfold update_rate. by case_match. Qed.

(** What a record does to its own path and to the others. *)
Lemma Record_baseline seen now ctx dec le p :
  evaluation le = true ->
  baselines (Record_ seen now ctx dec le) !! p =
  if String.eqb (Path ctx) p then
    let bl := touch seen (Method ctx) (match Response ctx with Some r => StatusCode r | None => 0 end)
      (default (mkBaseline p 0 0 f0 f0 f0 seen ∅ ∅) (baselines le !! p)) in
    Some (if allows dec then update_rate now (allow_one bl) else bl)
  else baselines le !! p.
Proof.
  intros He. unfold Record_. rewrite He, andb_false_r. fold (allows dec). cbn [baselines].
  destruct (String.eqb_spec (Path ctx) p) as [<-|Hne].
  - rewrite lookup_insert_eq. by destruct (allows dec).
  - by rewrite lookup_insert_ne.
Qed.

(** The segment of the history a baseline was learnt from. *)
Definition learnt (p : string) (h : list event) (bl : pathBaseline) : Prop :=
  exists pre seg, h = (pre ++ seg)%list /\ totalCount bl = count_of (of_path p) seg /\
    allowedCount bl = count_of (allowed_of_path p) seg.

Definition mostly_allowed_in (p : string) (h : list event) : Prop :=
  exists pre seg post, h = (pre ++ seg ++ post)%list /\ 100 < count_of (of_path p) seg /\
    count_of (of_path p) seg * 90 / 100 < count_of (allowed_of_path p) seg.

Definition learner_inv (h : list event) (le : LearningEngine) : Prop :=
  evaluation le = true /\
  (forall p bl, baselines le !! p = Some bl -> learnt p h bl) /\
  (forall p e, whitelist le !! p = Some e -> mostly_allowed_in p h).

Lemma mostly_allowed_in_snoc p h e : mostly_allowed_in p h -> mostly_allowed_in p (h ++ [e])%list.
Proof.
  intros (pre & seg & post & -> & H). exists pre, seg, (post ++ [e])%list.
  by rewrite <- !app_assoc.
Qed.

Lemma learnt_counts p h bl :
  learnt p h bl -> 0 <= totalCount bl <= len h /\ 0 <= allowedCount bl <= len h.
Proof.
  intros (pre & seg & -> & -> & ->). rewrite len_app. pose proof (len_nonneg pre).
  pose proof (count_of_le (of_path p) seg). pose proof (count_of_le (allowed_of_path p) seg). lia.
Qed.

(** One more record of the path extends the segment. *)
Lemma learnt_record p h bl ctx dec seen now status :
  learnt p h bl -> len h < max64 -> Path ctx = p ->
  let bl1 := touch seen (Method ctx) status bl in
  learnt p (h ++ [Recorded seen now ctx dec])%list
    (if allows dec then update_rate now (allow_one bl1) else bl1).
Proof.
  intros Hl Hh Hp bl1. pose proof (learnt_counts _ _ _ Hl) as [Ht Ha].
  destruct Hl as (pre & seg & -> & Htot & Hall).
  exists pre, (seg ++ [Recorded seen now ctx dec])%list. rewrite <- app_assoc.
  rewrite !count_of_app, !count_of_one. simpl. rewrite Hp, String.eqb_refl. simpl.
  unfold min64, max64 in *.
  destruct (allows dec); simpl;
    [destruct (update_rate_counts now (allow_one bl1)) as [-> ->]; simpl|];
    rewrite ?incr_small by (unfold min64, max64; lia); split_and!; done || lia.
Qed.

Lemma learnt_fresh p h seen : learnt p h (mkBaseline p 0 0 f0 f0 f0 seen ∅ ∅).
Proof. exists h, []. by rewrite app_nil_r. Qed.

Lemma learnt_other p h bl e : of_path p e = false -> learnt p h bl -> learnt p (h ++ [e])%list bl.
Proof.
  intros He (pre & seg & -> & Ht & Ha). exists pre, (seg ++ [e])%list.
  rewrite <- app_assoc, !count_of_app, !count_of_one, He.
  assert (allowed_of_path p e = false) as ->.
  { destruct e; simpl in *; [|done]. by rewrite He. }
  rewrite !Z.add_0_r. done.
Qed.

Lemma mostly_allowed_sound p h bl :
  learnt p h bl -> len h * 90 <= max64 -> mostly_allowed (totalCount bl) (allowedCount bl) = true ->
  mostly_allowed_in p h.
Proof.
  intros Hl Hh Hm. pose proof (learnt_counts _ _ _ Hl) as [Ht Ha].
  destruct Hl as (pre & seg & -> & Htot & Hall). exists pre, seg, []. rewrite app_nil_r.
  unfold mostly_allowed in Hm. b2p. unfold max64 in *.
  rewrite wrap64_small, Z.quot_div_nonneg in * by (unfold in64, min64, max64; lia).
  rewrite Htot, Hall in *. done.
Qed.

Lemma learner_inv_record h le seen now ctx dec :
  learner_inv h le -> (len h + 1) * 90 <= max64 ->
  learner_inv (h ++ [Recorded seen now ctx dec])%list (Record_ seen now ctx dec le).
Proof.
  intros (He & Hb & Hw) Hh. pose proof (len_nonneg h).
  assert (Hb' : forall p bl, baselines (Record_ seen now ctx dec le) !! p = Some bl ->
    learnt p (h ++ [Recorded seen now ctx dec])%list bl).
  { intros p bl. rewrite Record_baseline by done. destruct (String.eqb_spec (Path ctx) p) as [Hp|Hp].
    - intros [= <-]. apply learnt_record; [|unfold max64 in *; lia|done].
      destruct (baselines le !! p) eqn:E; simpl; [by apply Hb|apply learnt_fresh].
    - intros E. apply learnt_other; [|by apply Hb]. simpl. by apply String.eqb_neq. }
  split_and!; [| done |].
  - unfold Record_. rewrite He, andb_false_r. done.
  - intros p e. pose proof (Hb' (Path ctx)) as Hown. revert Hown. unfold Record_.
    rewrite He, andb_false_r. fold (allows dec). cbn [baselines whitelist]. rewrite lookup_insert_eq.
    set (bl := if allows dec then _ else _). intros Hown. specialize (Hown bl eq_refl).
    cbn [andb]. destruct (mostly_allowed _ _) eqn:Hm; [|intros Hp; by eapply mostly_allowed_in_snoc, Hw].
    unfold autoWhitelist. destruct (whitelist le !! Path ctx) eqn:Hx;
      [intros Hp; by eapply mostly_allowed_in_snoc, Hw|].
    destruct (decide (p = Path ctx)) as [->|Hne];
      [|rewrite lookup_insert_ne by done; intros Hp; by eapply mostly_allowed_in_snoc, Hw].
    intros _. apply (mostly_allowed_sound _ _ bl); [done| |done]. autorewrite with go. lia.
Qed.

Lemma learner_inv_tick h le now : learner_inv h le -> learner_inv (h ++ [Tick now])%list (cleanup now le).
Proof.
  intros (He & Hb & Hw). unfold cleanup. split_and!; [done| |]; cbn [baselines whitelist].
  - intros p bl Hp%map_lookup_filter_Some. apply learnt_other; [done|]. naive_solver.
  - intros p e Hp%map_lookup_filter_Some. eapply mostly_allowed_in_snoc, Hw. naive_solver.
Qed.

Lemma learner_inv_run h h' le :
  learner_inv h le -> (len h + len h') * 90 <= max64 -> learner_inv (h ++ h')%list (fold_left step h' le).
Proof.
  revert h le. induction h' as [|e h' IH]; intros h le Hi Hl; [by rewrite app_nil_r|].
  rewrite len_cons in Hl. pose proof (len_nonneg h').
  replace (h ++ e :: h')%list with ((h ++ [e]) ++ h')%list by by rewrite <- app_assoc.
  simpl. apply IH; [|autorewrite with go; lia].
  destruct e; simpl; [apply learner_inv_record|apply learner_inv_tick]; done || (unfold max64 in *; lia).
Qed.

(** ** Properties *)

(** The automatic whitelist is earned: a path that [IsWhitelisted]
    accepts after any history of records and cleanups had a stretch of more
    than a hundred recorded decisions of which more than nine in ten (in
    whole-number arithmetic) were Allow, and the entry has not expired. *)
Theorem whitelist_is_earned now p h :
  len h * 90 <= max64 -> IsWhitelisted now p (fold_left step h NewLearningEngine) = true ->
  mostly_allowed_in p h.
Proof.
  intros Hl. assert (learner_inv h (fold_left step h NewLearningEngine)) as (_ & _ & Hw).
  { apply (learner_inv_run []); [|done]. split_and!; [done|done|done]. }
  unfold IsWhitelisted. destruct (_ !! p) eqn:E; [|done]. intros _. by eapply Hw.
Qed.

Definition example_context (path : string) : RequestContext :=
  mkContext None (Some (mkResponse 200)) "" "" "" path "GET" ∅ ∅ ∅ ∅ None "" "" "" "" "" 0 f0 f0 []
    false false 0 (lit "") "" "" "" "".
Definition allowed_record : event :=
  Recorded 1000 1001 (example_context "/health") (Some allow_decision).

Lemma whitelist_is_earned_witness : mostly_allowed_in "/health" (replicate 101 allowed_record).
Proof.
  apply (whitelist_is_earned 2000 "/health" (replicate 101 allowed_record)).
  - vm_compute. discriminate.
  - vm_compute. reflexivity.
Defined.

(** A hundred are not enough. *)
Example hundred_records_not_enough :
  IsWhitelisted 2000 "/health" (fold_left step (replicate 100 allowed_record) NewLearningEngine) = false.
Proof. vm_compute. reflexivity. Qed.

(** The stored rate is the number of allowed requests: [lastSeen] is written
    just before [time.Since(lastSeen)] is read. *)
Example mean_rate_is_count :
  meanRate <$> Baseline "/health" (fold_left step [allowed_record] NewLearningEngine) = Some (of_int 1).
Proof. vm_compute. reflexivity. Qed.
