(* ===== verification/Engine.v ===== *)
(** * The inspection engine: [internal/engine/engine.go]

    [New], [Inspect] with its decision log, threat score, shadow and learning
    modes, [enrichExplainability], [finalDecision], [InspectRequest] and
    [UpdateInspector]. An inspector is what the Go interface says: a name and
    a function that may change the request context and the world [W] (the
    inspectors' own state, the clock) and returns a decision, nil, an error,
    panics, or meets a fatal error. The engine composes the performance manager
    ([Performance]), the confidence scorer ([Confidence]) and the learner
    ([Learning]). Logging is left out. *)

From S2P Require Import Prelude Float64 GoStr Types Confidence.
From S2P Require Performance Learning.

#[local] Open Scope string_scope.
#[local] Open Scope Z_scope.

(** ** Slots

    The named fields of [Engine] and of [EngineConfig]. *)

Inductive Slot : Type :=
| SParser | SDesync | SJA3 | SBehavioral | SAdaptive | SWASM | SCAPTCHA | SJWT | SOAuth | SMTLS
| SGraphQL | SGRPC | SSOAP | SBot | SDDoS | SSQLI | SXSS | SAPIProtect | SRCE | SProtocol | SUpload
| SCredential | SWebSocket | SRespInspect | SEBPF.

#[export] Instance Slot_eq_dec : EqDecision Slot.
Proof. solve_decision. Defined.

(** The order in which [New] lists the inspectors. *)
Definition inspection_order : list Slot :=
  [SParser; SDesync; SJA3; SBehavioral; SAdaptive; SWASM; SCAPTCHA; SJWT; SOAuth; SMTLS; SGraphQL;
   SGRPC; SSOAP; SBot; SDDoS; SSQLI; SXSS; SAPIProtect; SRCE; SProtocol; SUpload; SCredential;
   SWebSocket; SRespInspect; SEBPF].

(** The names [UpdateInspector] switches on. *)
Definition slot_key (s : Slot) : string :=
  match s with
  | SBot => "bot" | SDDoS => "ddos" | SSQLI => "sqli" | SXSS => "xss" | SAPIProtect => "api_protect"
  | SRCE => "rce" | SProtocol => "protocol" | SUpload => "upload" | SCredential => "credential"
  | SJWT => "jwt" | SOAuth => "oauth" | SGraphQL => "graphql" | SMTLS => "mtls"
  | SWebSocket => "websocket" | SCAPTCHA => "captcha" | SSOAP => "soap" | SGRPC => "grpc"
  | SRespInspect => "response_inspect" | SJA3 => "ja3" | SBehavioral => "behavioral"
  | SWASM => "wasm" | SDesync => "desync" | SAdaptive => "adaptive" | SEBPF => "ebpf"
  | SParser => "parser_hardener"
  end.

(** What [Name()] of the inspector that [buildEngineConfig] puts in each slot
    returns. *)
Definition builtin_name (s : Slot) : string :=
  match s with
  | SBot => "bot_detector" | SDDoS => "ddos_protection" | SSQLI => "sqli" | SXSS => "xss"
  | SAPIProtect => "api_protection" | SRCE => "rce" | SProtocol => "protocol_anomaly"
  | SUpload => "file_upload" | SCredential => "credential_protection" | SJWT => "jwt_validation"
  | SOAuth => "oauth_introspection" | SGraphQL => "graphql_protection" | SMTLS => "mtls_inspection"
  | SWebSocket => "websocket_inspection" | SCAPTCHA => "captcha" | SSOAP => "soap" | SGRPC => "grpc"
  | SRespInspect => "response_inspect" | SJA3 => "ja3" | SBehavioral => "behavioral"
  | SWASM => "wasm" | SDesync => "desync" | SAdaptive => "adaptive" | SEBPF => "ebpf"
  | SParser => "parser_hardener"
  end.

(** ** Inspectors *)

(** What [Inspect] of an inspector comes to: a decision or nil, an error, a
    panic, or an error of the runtime that no [recover] catches, as the
    overflow of a goroutine's stack. *)
Inductive inspection : Type :=
| Decided (d : option Decision)
| Failed (e : text)
| Crashed (r : text)
| Fatal.

Record Inspector (W : Type) : Type := mkInspector {
  Name : string;
  inspect : RequestContext -> W -> inspection * RequestContext * W
}.
Arguments mkInspector {W} _ _.
Arguments Name {W} _.
Arguments inspect {W} _ _ _.

Record EngineConfig (W : Type) : Type := mkConfig {
  DevMode : bool;
  ShadowMode : bool;
  LearningMode : bool;
  MaxRegexDuration : Z;
  MaxWASMDuration : Z;
  PerformanceIsolation : bool;
  cfg_inspector : Slot -> option (Inspector W)
}.
Arguments mkConfig {W} _ _ _ _ _ _ _.
Arguments DevMode {W} _.
Arguments ShadowMode {W} _.
Arguments LearningMode {W} _.
Arguments MaxRegexDuration {W} _.
Arguments MaxWASMDuration {W} _.
Arguments PerformanceIsolation {W} _.
Arguments cfg_inspector {W} _ _.

Record Engine (W : Type) : Type := mkEngine {
  inspectors : list (option (Inspector W));
  slots : Slot -> option (Inspector W);
  devMode : bool;
  shadowMode : bool;
  learningMode : bool;
  perfMgmt : option Performance.PerformanceManager;
  learner : Learning.LearningEngine;
  confScorer : ConfidenceScorer
}.
Arguments mkEngine {W} _ _ _ _ _ _ _ _.
Arguments inspectors {W} _.
Arguments slots {W} _ _.
Arguments devMode {W} _.
Arguments shadowMode {W} _.
Arguments learningMode {W} _.
Arguments perfMgmt {W} _.
Arguments learner {W} _.
Arguments confScorer {W} _.

(** [procs] is [runtime.GOMAXPROCS(0)]. *)
Definition New {W} (procs : Z) (cfg : EngineConfig W) : Engine W :=
  mkEngine (cfg_inspector cfg <$> inspection_order) (cfg_inspector cfg)
    (DevMode cfg) (ShadowMode cfg) (LearningMode cfg)
    (if PerformanceIsolation cfg
     then Some (Performance.NewPerformanceManager procs (MaxRegexDuration cfg) (MaxWASMDuration cfg))
     else None)
    Learning.NewLearningEngine NewConfidenceScorer.

Definition set_perf {W} (pm : option Performance.PerformanceManager) (e : Engine W) : Engine W :=
  mkEngine (inspectors e) (slots e) (devMode e) (shadowMode e) (learningMode e) pm (learner e)
    (confScorer e).
Definition set_learner {W} (le : Learning.LearningEngine) (e : Engine W) : Engine W :=
  mkEngine (inspectors e) (slots e) (devMode e) (shadowMode e) (learningMode e) (perfMgmt e) le
    (confScorer e).

(** What the environment contributes to one inspector call: the readings of
    the performance manager and the learner, and, when the call times out,
    what the abandoned goroutine has done so far: [None] if a fatal error of
    it has ended the process. *)
Record call_env (W : Type) : Type := mkEnv {
  ce_now1 : Z;
  ce_alloc : Z;
  ce_now2 : Z;
  ce_timeout : option (RequestContext -> W -> option (RequestContext * W));
  ce_seen : Z;
  ce_since : Z
}.
Arguments mkEnv {W} _ _ _ _ _ _.
Arguments ce_now1 {W} _.
Arguments ce_alloc {W} _.
Arguments ce_now2 {W} _.
Arguments ce_timeout {W} _.
Arguments ce_seen {W} _.
Arguments ce_since {W} _.

(** ** One inspector call *)

(** What reaches the [select]; a fatal error does not. *)
Definition ran_of (r : inspection) : option Performance.ran :=
  match r with
  | Decided d => Some (Performance.RanDecision d)
  | Failed e => Some (Performance.RanError e)
  | Crashed e => Some (Performance.RanPanic e)
  | Fatal => None
  end.

Definition call_result (W : Type) : Type := result text (option Decision) * Engine W * RequestContext * W.

(** [inspector.Inspect(ctx)] on the request's own goroutine. *)
Definition call_directly {W} (ins : Inspector W) (e : Engine W) (ctx : RequestContext) (w : W)
    : ending (Engine W * W) (call_result W) :=
  match inspect ins ctx w with
  | (Decided d, ctx, w) => Returned (Ok d, e, ctx, w)
  | (Failed er, ctx, w) => Returned (Err er, e, ctx, w)
  | (Crashed _, _, w) => Panicked (e, w)
  | (Fatal, _, _) => Died
  end.

(** The goroutine of [e.perfMgmt.Inspect] up to the [select]: what that
    receives, or [None] if the process has ended. The deferred [recover]
    catches a panic, not a fatal error. *)
Definition goroutine {W} (env : call_env W) (ins : Inspector W) (ctx : RequestContext) (w : W)
    : option (Performance.ran * RequestContext * W) :=
  match ce_timeout env with
  | Some f => '(ctx, w) ← f ctx w; Some (Performance.RanTimeout, ctx, w)
  | None => let '(r, ctx, w) := inspect ins ctx w in r ← ran_of r; Some (r, ctx, w)
  end.

(** [e.perfMgmt.Inspect(inspector, ctx)] *)
Definition call_isolated {W} (env : call_env W) (ins : Inspector W) (pm : Performance.PerformanceManager)
    (e : Engine W) (ctx : RequestContext) (w : W) : ending (Engine W * W) (call_result W) :=
  match Performance.enter (ce_now1 env) (ce_alloc env) (Name ins) pm with
  | (inl d, pm) => Returned (Ok (Some d), set_perf (Some pm) e, ctx, w)
  | (inr _, pm) =>
      match goroutine env ins ctx w with
      | None => Died
      | Some (r, ctx, w) =>
          let '(res, pm) := Performance.leave (ce_now2 env) (Name ins) r pm in
          Returned (res, set_perf (Some pm) e, ctx, w)
      end
  end.

Definition call {W} (env : call_env W) (ins : Inspector W) (e : Engine W) (ctx : RequestContext) (w : W)
    : ending (Engine W * W) (call_result W) :=
  match perfMgmt e with
  | Some pm => call_isolated env ins pm e ctx w
  | None => call_directly ins e ctx w
  end.

(** ** A decision taken up *)

Section engine.
  Context {W : Type} `{TextLen}.

Definition explanation (dec : Decision) : text :=
  match d_Action dec with
  | ActionBlock =>
      if fge (Score dec) (of_int 90)
      then lit "Critical threat detected with high confidence. Immediate blocking required."
      else lit "Request matched blocking rule pattern with sufficient certainty."
  | ActionChallenge =>
      lit "Request exhibits suspicious characteristics requiring additional verification."
  | ActionMonitor => lit "Request flagged for observation. No action taken."
  | ActionRateLimit => lit "Request rate exceeds configured threshold for this endpoint."
  | _ => lit "No actionable threat detected."
  end.

Definition enrichExplainability (e : Engine W) (ctx : RequestContext) (dec : Decision) : Decision :=
  if negb (text_len (Explainability dec) =? 0) then dec
  else
    let dec := with_explainability (explanation dec) dec in
    if learningMode e && match d_Action dec with ActionAllow => true | _ => false end then
      match Learning.Baseline (Path ctx) (learner e) with
      | Some bsl =>
          with_explainability
            (Sprintf "Request matches learned baseline for %s (mean=%.2f, std=%.2f)"
               [AStr (Path ctx); AFloat (Learning.meanRate bsl); AFloat (Learning.stdDev bsl)]) dec
      | None => dec
      end
    else dec.

(** The decision as it is logged: named, scored and explained, with what the
    learner records of it. *)
Definition annotate (env : call_env W) (ins : Inspector W) (e : Engine W) (ctx : RequestContext)
    (dec : Decision) : Decision * Engine W :=
  let dec := ScoreDecision (confScorer e) (with_inspector (Name ins) dec) in
  let e := if learningMode e
           then set_learner (Learning.Record_ (ce_seen env) (ce_since env) ctx (Some dec) (learner e)) e
           else e in
  (enrichExplainability e ctx dec, e).

(** The update of the context under its lock. *)
Definition log_decision (dec : Decision) (ctx : RequestContext) : RequestContext :=
  let threat := fadd (ThreatScore ctx) (Score dec) in
  if is_block (d_Action dec)
  then set_inspection (Decisions ctx ++ [dec])%list threat (Score dec) true ctx
  else set_inspection (Decisions ctx ++ [dec])%list threat (BotScore ctx) (IsKnownAttack ctx) ctx.

(** ** Inspect *)

Definition final (a : Action) (score : f64) (ev : string) : Decision :=
  mkDecision a "" "" "" score (lit ev) false f0 (lit "") "".

Definition finalDecision (ctx : RequestContext) : Decision :=
  let score := ThreatScore ctx in
  if fge score (of_int 90)
  then final ActionBlock score "cumulative threat score exceeded threshold"
  else if fge score (of_int 50)
  then final ActionChallenge score "elevated threat score requires challenge"
  else if existsb (fun d => is_rate_limit (d_Action d)) (Decisions ctx)
  then final ActionRateLimit score "rate limit exceeded"
  else final ActionAllow f0 "".

(** The loop over the inspectors; [envs] gives the environment of the i-th. *)
Fixpoint inspect_loop (envs : nat -> call_env W) (l : list (option (Inspector W))) (e : Engine W)
    (ctx : RequestContext) (w : W) : ending (Engine W * W) (Decision * Engine W * RequestContext * W) :=
  match l with
  | [] => Returned (finalDecision ctx, e, ctx, w)
  | None :: l => inspect_loop (fun i => envs (S i)) l e ctx w
  | Some ins :: l =>
      let? (res, e, ctx, w) := call (envs 0%nat) ins e ctx w in
      match res with
      | Err _ | Ok None => inspect_loop (fun i => envs (S i)) l e ctx w
      | Ok (Some dec) =>
          let '(dec, e) := annotate (envs 0%nat) ins e ctx dec in
          let ctx := log_decision dec ctx in
          if is_block (d_Action dec) && negb (shadowMode e) then Returned (dec, e, ctx, w)
          else inspect_loop (fun i => envs (S i)) l e ctx w
      end
  end.

Definition Inspect (envs : nat -> call_env W) (e : Engine W) (ctx : RequestContext) (w : W)
    : ending (Engine W * W) (Decision * Engine W * RequestContext * W) :=
  inspect_loop envs (inspectors e) e ctx w.

Definition InspectRequest (envs : nat -> call_env W) (now1 now2 : Z) (e : Engine W) (r : http_Request) (w : W)
    : ending (Engine W * W) (Decision * Engine W * RequestContext * W) :=
  match NewRequestContext now1 now2 r with
  | Returns (ctx, _) => Inspect envs e ctx w
  | Panics => Panicked (e, w)
  end.

(** ** UpdateInspector *)

Definition slot_of_key (name : string) : option Slot :=
  find (fun s => String.eqb (slot_key s) name) inspection_order.

Fixpoint replace_named (name : string) (ins : option (Inspector W)) (l : list (option (Inspector W)))
    : list (option (Inspector W)) :=
  match l with
  | [] => []
  | Some i :: l =>
      if String.eqb (Name i) name then ins :: l else Some i :: replace_named name ins l
  | None :: l => None :: replace_named name ins l
  end.

Definition UpdateInspector (name : string) (ins : option (Inspector W)) (e : Engine W) : Engine W :=
  mkEngine (replace_named name ins (inspectors e))
    (match slot_of_key name with
     | Some s => fun s' => if decide (s' = s) then ins else slots e s'
     | None => slots e
     end)
    (devMode e) (shadowMode e) (learningMode e) (perfMgmt e) (learner e) (confScorer e).

(** ** Laws of inspectors

    What the engine relies on: an inspector leaves the decision log and the
    threat score to the engine, and its scores are whole numbers from 0 to
    [max_score]. *)

Definition max_score : Z := 1000.

Definition int_scored (d : Decision) : Prop :=
  exists z, Score d = of_int z /\ 0 <= z <= max_score.

Definition same_log (ctx ctx' : RequestContext) : Prop :=
  Decisions ctx' = Decisions ctx /\ ThreatScore ctx' = ThreatScore ctx.

Class LawfulInspector (ins : Inspector W) : Prop := {
  lawful_log : forall ctx w, same_log ctx (inspect ins ctx w).1.2;
  lawful_score : forall ctx w d, (inspect ins ctx w).1.1 = Decided (Some d) -> int_scored d
}.

Definition lawful_slot (o : option (Inspector W)) : Prop :=
  match o with Some ins => LawfulInspector ins | None => True end.

(** An abandoned goroutine is held to the same law. *)
Definition lawful_env (env : call_env W) : Prop :=
  match ce_timeout env with
  | Some f => forall ctx w ctx' w', f ctx w = Some (ctx', w') -> same_log ctx ctx'
  | None => True
  end.

(** ** Lemmas *)


Lemma ScoreDecision_action cs d :
  d_Action (ScoreDecision cs d) = d_Action d /\ Score (ScoreDecision cs d) = Score d.
Proof. unfold ScoreDecision. by destruct (fgt _ _). Qed.

Lemma enrich_action e ctx d :
  d_Action (enrichExplainability e ctx d) = d_Action d /\
  Score (enrichExplainability e ctx d) = Score d.
Proof. unfold enrichExplainability. by repeat case_match. Qed.

Lemma annotate_spec env ins e ctx d :
  d_Action (annotate env ins e ctx d).1 = d_Action d /\
  Score (annotate env ins e ctx d).1 = Score d /\
  shadowMode (annotate env ins e ctx d).2 = shadowMode e /\
  perfMgmt (annotate env ins e ctx d).2 = perfMgmt e.
Proof.
  unfold annotate. cbn [fst snd].
  match goal with |- context [enrichExplainability ?e' ctx ?d'] =>
    destruct (enrich_action e' ctx d') as [-> ->] end.
  match goal with |- context [ScoreDecision ?cs ?d'] =>
    destruct (ScoreDecision_action cs d') as [-> ->] end.
  by destruct (learningMode e).
Qed.

Lemma log_decision_spec d ctx :
  Decisions (log_decision d ctx) = (Decisions ctx ++ [d])%list /\
  ThreatScore (log_decision d ctx) = fadd (ThreatScore ctx) (Score d).
Proof. unfold log_decision. by destruct (is_block _). Qed.

Lemma perf_decision_scored id name sev score conf ev :
  0 <= score <= max_score -> int_scored (Performance.perf_decision id name sev score conf ev).
Proof. intros Hs. by exists score. Qed.

Lemma enter_scored now alloc name pm d pm' :
  Performance.enter now alloc name pm = (inl d, pm') -> int_scored d.
Proof.
  unfold Performance.enter. destruct (Performance.canProceed now name pm) as [ok pm1].
  repeat case_match; intros; simplify_eq/=; apply perf_decision_scored; by vm_compute.
Qed.

Lemma leave_scored now name r pm d pm' :
  Performance.leave now name r pm = (Ok (Some d), pm') ->
  r = Performance.RanDecision (Some d) \/ int_scored d.
Proof.
  unfold Performance.leave. destruct r; intros; simplify_eq; [by left|right].
  apply perf_decision_scored. by vm_compute.
Qed.

Lemma goroutine_lawful env ins ctx w r ctx' w' :
  LawfulInspector ins -> lawful_env env -> goroutine env ins ctx w = Some (r, ctx', w') ->
  same_log ctx ctx' /\ (forall d, r = Performance.RanDecision (Some d) -> int_scored d).
Proof.
  intros Hins Henv. unfold goroutine, lawful_env in *. destruct (ce_timeout env) as [f|].
  - destruct (f ctx w) as [[ctx1 w1]|] eqn:Hf; [|done]. intros [= <- <- <-]. split; [by eapply Henv|done].
  - pose proof (lawful_log ctx w) as Hl. pose proof (lawful_score ctx w) as Hs.
    destruct (inspect ins ctx w) as [[[d|er|x|] ctx1] w1]; intros [= <- <- <-]; (split; [done|]);
      intros ? [=]; subst; by apply Hs.
Qed.

(** One call leaves the log alone and its decision is scored as the law says. *)
Lemma call_lawful env ins e ctx w res e' ctx' w' :
  LawfulInspector ins -> lawful_env env ->
  call env ins e ctx w = Returned (res, e', ctx', w') ->
  same_log ctx ctx' /\ shadowMode e' = shadowMode e /\ (perfMgmt e' = None <-> perfMgmt e = None) /\
  (forall d, res = Ok (Some d) -> int_scored d).
Proof.
  intros Hins Henv. unfold call. destruct (perfMgmt e) as [pm|] eqn:Hpm.
  - unfold call_isolated. destruct (Performance.enter _ _ _ pm) as [[d|[]] pm1] eqn:He.
    + intros; simplify_eq. split_and!; [done|done|naive_solver|].
      intros d0 [= <-]. by eapply enter_scored.
    + destruct (goroutine env ins ctx w) as [[[r ctx1] w1]|] eqn:Hg; [|done].
      destruct (goroutine_lawful _ _ _ _ _ _ _ Hins Henv Hg) as [Hl Hs].
      destruct (Performance.leave _ _ _ pm1) as [res' pm2] eqn:Hlv. intros; simplify_eq.
      split_and!; [done|done|naive_solver|]. intros d0 ->. apply leave_scored in Hlv as [->|]; [|done]. by apply Hs.
  - pose proof (lawful_log ctx w) as Hl. pose proof (lawful_score ctx w) as Hs. unfold call_directly.
    destruct (inspect ins ctx w) as [[[d|er|r|] ctx1] w1]; intros; simplify_eq/=;
      (split_and!; [done|done|done|]); intros; simplify_eq; by apply Hs.
Qed.

Definition blocking (d : Decision) : bool := is_block (d_Action d).

(** What the loop adds to a context, and the decision it returns. *)
Definition loop_post (shadow : bool) (n : nat) (ctx ctx' : RequestContext) (d : Decision) : Prop :=
  exists new, Decisions ctx' = (Decisions ctx ++ new)%list /\ (length new <= n)%nat /\
    Forall int_scored new /\
    ThreatScore ctx' = fold_left fadd (Score <$> new) (ThreatScore ctx) /\
    ((shadow || forallb (fun d => negb (blocking d)) new = true /\ d = finalDecision ctx') \/
     (shadow = false /\ exists pre, new = (pre ++ [d])%list /\
        forallb (fun d => negb (blocking d)) pre = true /\ blocking d = true)).

Lemma loop_post_skip shadow n ctx ctx1 ctx' d :
  same_log ctx ctx1 -> loop_post shadow n ctx1 ctx' d -> loop_post shadow (S n) ctx ctx' d.
Proof.
  intros [H1 H2] (new & Hd & Hn & Hs & Ht & Hv). exists new. rewrite <- H1, <- H2.
  split_and!; auto with lia.
Qed.

Lemma loop_post_log shadow n ctx ctx1 ctx' d d1 :
  same_log ctx ctx1 -> int_scored d1 -> shadow || negb (blocking d1) = true ->
  loop_post shadow n (log_decision d1 ctx1) ctx' d -> loop_post shadow (S n) ctx ctx' d.
Proof.
  intros [H1 H2] Hi Hb (new & Hd & Hn & Hs & Ht & Hv). exists (d1 :: new).
  destruct (log_decision_spec d1 ctx1) as [E1 E2]. rewrite E1, H1, <- app_assoc in Hd.
  rewrite E2, H2 in Ht. split_and!; [done|simpl; lia|by constructor|done|].
  destruct Hv as [[Hv ->]|(-> & pre & -> & Hp & Hd')].
  - left. split; [|done]. simpl. destruct shadow; [done|]. simpl in *. by rewrite Hb.
  - right. split; [done|]. exists (d1 :: pre). simpl in Hb. split_and!; [done|simpl; by rewrite Hb|done].
Qed.

Lemma inspect_loop_post envs l e ctx w d e' ctx' w' :
  Forall lawful_slot l -> (forall i, lawful_env (envs i)) ->
  inspect_loop envs l e ctx w = Returned (d, e', ctx', w') ->
  loop_post (shadowMode e) (length l) ctx ctx' d.
Proof.
  intros Hl. revert envs e ctx w. induction Hl as [|o l Ho Hl IH]; intros envs e ctx w Henv; cbn [inspect_loop length].
  - intros; simplify_eq. exists []. rewrite app_nil_r. simpl. rewrite orb_true_r.
    split_and!; auto.
  - destruct o as [ins|]; [|intros Hr; apply (loop_post_skip _ _ ctx ctx); [by split|by eapply IH; [intros i; apply (Henv (S i))|]]].
    destruct (call _ ins e ctx w) as [[[[res e1] ctx1] w1]| |] eqn:Hc; [|done..]. cbn [end_bind].
    destruct (call_lawful _ _ _ _ _ _ _ _ _ Ho (Henv 0%nat) Hc) as (Hlog & Hsh & _ & Hsc).
    rewrite <- Hsh.
    destruct res as [[dec|]|er];
      [|intros Hr; eapply loop_post_skip; [done|by eapply IH; [intros i; apply (Henv (S i))|]]..].
    destruct (annotate_spec (envs 0%nat) ins e1 ctx1 dec) as (Ha & Hs & Hsh2 & _).
    destruct (annotate _ ins e1 ctx1 dec) as [dec1 e2]. cbn [fst snd] in *. rewrite <- Hsh2.
    assert (int_scored dec1) as Hi.
    { destruct (Hsc dec eq_refl) as (z & Hz & ?). exists z. by rewrite Hs. }
    destruct (is_block (d_Action dec1) && negb (shadowMode e2)) eqn:Hb; intros Hr.
    + simplify_eq. b2p. exists [d]. destruct (log_decision_spec d ctx1) as [-> ->].
      destruct Hlog as [-> ->]. split_and!; [done|simpl; lia|by constructor|done|].
      right. split; [done|]. by exists [].
    + eapply loop_post_log; [done|done| |by eapply IH; [intros i; apply (Henv (S i))|]]. unfold blocking.
      by destruct (is_block _), (shadowMode e2).
Qed.
(** *** Exact scores *)

Definition sumZ (zs : list Z) : Z := foldr Z.add 0 zs.

Lemma int_scored_list new : Forall int_scored new ->
  exists zs, Score <$> new = of_int <$> zs /\ Forall (fun z => 0 <= z <= max_score) zs /\
    length zs = length new.
Proof.
  induction 1 as [|d new (z & Hz & Hr) _ (zs & IH & Hf & Hl)]; [by exists []|].
  exists (z :: zs). rewrite !fmap_cons, Hz, IH. split_and!; [done|by constructor|simpl; by rewrite Hl].
Qed.

Lemma sumZ_bounds zs : Forall (fun z => 0 <= z <= max_score) zs -> 0 <= sumZ zs <= max_score * len zs.
Proof. unfold max_score. induction 1; autorewrite with go; simpl; lia. Qed.

Lemma sum_exact zs s :
  Forall (fun z => 0 <= z <= max_score) zs -> 0 <= s -> s + max_score * len zs < 2 ^ 53 ->
  fold_left fadd (of_int <$> zs) (of_int s) = of_int (s + sumZ zs).
Proof.
  intros Hz. revert s. induction Hz as [|z zs Hr Hz IH]; intros s Hs Hb; simpl; [by rewrite Z.add_0_r|].
  rewrite len_cons in Hb. unfold max_score in *. pose proof (len_nonneg zs).
  rewrite of_int_fadd by (unfold exact_int; lia). rewrite IH by lia. f_equal. lia.
Qed.

(** The verdict on the scores and actions of a log, in whole numbers. *)
Definition score_verdict (acts : list Action) (total : Z) : Action :=
  if 90 <=? total then ActionBlock
  else if 50 <=? total then ActionChallenge
  else if existsb is_rate_limit acts then ActionRateLimit
  else ActionAllow.

Definition verdict (shadow : bool) (acts : list Action) (total : Z) : Action :=
  if negb shadow && existsb is_block acts then ActionBlock else score_verdict acts total.

Lemma finalDecision_verdict ctx total :
  ThreatScore ctx = of_int total -> exact_int total ->
  d_Action (finalDecision ctx) = score_verdict (d_Action <$> Decisions ctx) total.
Proof.
  intros Ht He. unfold finalDecision, score_verdict. rewrite Ht, !fge_fle, !of_int_fle
    by (done || (unfold exact_int; lia)).
  destruct (90 <=? total); [done|]. destruct (50 <=? total); [done|].
  assert (existsb (fun d => is_rate_limit (d_Action d)) (Decisions ctx)
          = existsb is_rate_limit (d_Action <$> Decisions ctx)) as ->.
  { induction (Decisions ctx) as [|d l IH]; simpl; [done|]. by rewrite IH. }
  by destruct (existsb _ _).
Qed.

Lemma no_block_actions l :
  forallb (fun d => negb (blocking d)) l = true <-> existsb is_block (d_Action <$> l) = false.
Proof.
  induction l as [|d l IH]; simpl; [done|]. unfold blocking in *.
  destruct (is_block (d_Action d)); simpl; [done|exact IH].
Qed.

Lemma existsb_block_last pre d :
  blocking d = true -> existsb is_block (d_Action <$> (pre ++ [d])%list) = true.
Proof. intros Hd. rewrite fmap_app, existsb_app. simpl. unfold blocking in Hd. by rewrite Hd, orb_true_r. Qed.

(** A context fresh from [NewRequestContext]. *)
Definition fresh (ctx : RequestContext) : Prop := Decisions ctx = [] /\ ThreatScore ctx = f0.

Lemma loop_post_verdict shadow n ctx ctx' d :
  fresh ctx -> Z.of_nat n <= 2 ^ 40 -> loop_post shadow n ctx ctx' d ->
  exists zs, Score <$> Decisions ctx' = of_int <$> zs /\ ThreatScore ctx' = of_int (sumZ zs) /\
    d_Action d = verdict shadow (d_Action <$> Decisions ctx') (sumZ zs).
Proof.
  intros [Hd0 Ht0] Hn (new & Hd & Hlen & Hs & Ht & Hv). rewrite Hd0 in Hd. simpl in Hd.
  destruct (int_scored_list new Hs) as (zs & Hz & Hr & Hlz). exists zs. rewrite Hd.
  pose proof (sumZ_bounds zs Hr) as Hb. unfold len, max_score in Hb.
  assert (ThreatScore ctx' = of_int (sumZ zs)) as Ht'.
  { rewrite Ht, Ht0, Hz. change f0 with (of_int 0).
    rewrite sum_exact by (done || (unfold len, max_score; lia)). done. }
  split_and!; [done|done|]. unfold verdict. destruct Hv as [[Hv ->]|(-> & pre & -> & Hp & Hblk)].
  - rewrite (finalDecision_verdict _ _ Ht'), Hd by (unfold exact_int; lia).
    destruct shadow; [done|]. simpl in Hv. apply no_block_actions in Hv. by rewrite Hv.
  - rewrite existsb_block_last by done. by apply is_block_true.
Qed.

(** *** Isolation *)

(** An inspector whose panics are errors. *)
Definition shielded (ins : Inspector W) : Inspector W :=
  mkInspector (Name ins) (fun ctx w =>
    match inspect ins ctx w with (Crashed r, ctx, w) => (Failed r, ctx, w) | o => o end).

(** The engine without isolation whose inspectors do not panic. *)
Definition unisolated (e : Engine W) : Engine W :=
  mkEngine (option_map shielded <$> inspectors e) (slots e) (devMode e) (shadowMode e) (learningMode e) None (learner e)
    (confScorer e).

(** All of a run but the engine's breakers and list. *)
Definition seen (o : ending (Engine W * W) (Decision * Engine W * RequestContext * W))
    : ending (Learning.LearningEngine * W) (Decision * Learning.LearningEngine * RequestContext * W) :=
  match o with
  | Returned (d, e, ctx, w) => Returned (d, learner e, ctx, w)
  | Panicked (e, w) => Panicked (learner e, w)
  | Died => Died
  end.

(** The call is let in and ends in time. *)
Definition undisturbed (env : call_env W) (pm : Performance.PerformanceManager) (ins : Inspector W) : Prop :=
  ce_timeout env = None /\ ce_alloc env <= Performance.memoryLimit pm
  /\ fst (Performance.canProceed (ce_now1 env) (Name ins) pm) = true.

Definition names (l : list (option (Inspector W))) : list string := omap (option_map Name) l.

(** What a run with isolation needs of one without. *)
Record alike (e e' : Engine W) : Prop := {
  alike_shadow : shadowMode e' = shadowMode e;
  alike_learning : learningMode e' = learningMode e;
  alike_learner : learner e' = learner e;
  alike_scorer : confScorer e' = confScorer e;
  alike_plain : perfMgmt e' = None
}.

Lemma annotate_alike env ins e e' ctx d :
  alike e e' ->
  (annotate env (shielded ins) e' ctx d).1 = (annotate env ins e ctx d).1
  /\ alike (annotate env ins e ctx d).2 (annotate env (shielded ins) e' ctx d).2.
Proof.
  intros [Hs Hm Hl Hc Hp]. unfold annotate. cbn [Name shielded fst snd]. rewrite Hm, Hc, Hl.
  destruct (learningMode e) eqn:Em; (split; [|split; cbn; congruence]);
    unfold enrichExplainability; cbn [learningMode learner set_learner]; by rewrite ?Hm, ?Em, ?Hl.
Qed.

Lemma call_isolated_alike env ins pm e e' ctx w :
  Performance.idle pm -> undisturbed env pm ins -> alike e e' ->
  match call_isolated env ins pm e ctx w, call_directly (shielded ins) e' ctx w with
  | Returned (res, e1, ctx1, w1), Returned (res', e1', ctx1', w1') =>
      match res, res' with Ok d, Ok d' => d = d' | Err _, Err _ => True | _, _ => False end
      /\ ctx1 = ctx1' /\ w1 = w1' /\ alike e1 e1' /\ shadowMode e1 = shadowMode e
      /\ exists pm1, perfMgmt e1 = Some pm1 /\ Performance.same_but (Name ins) pm pm1
  | Died, Died => True
  | _, _ => False
  end.
Proof.
  intros Hi (Ht & Ha & Hc) Hal. destruct (Performance.enter_idle _ _ _ _ Hi Ha Hc) as (pm1 & He & Hb).
  unfold call_isolated, call_directly, goroutine. rewrite He, Ht. cbn [inspect shielded].
  pose proof (Hb (ce_now2 env)) as Hb'.
  destruct (inspect ins ctx w) as [[[d|er|r|] ctx1] w1]; cbn; [..|done].
  all: split_and!; [done..|by destruct Hal|done|eexists; split; [reflexivity|]].
  - by apply (Hb' (Performance.RanDecision d)).
  - by apply (Hb' (Performance.RanError er)).
  - by apply (Hb' (Performance.RanPanic r)).
Qed.

Lemma undisturbed_other env pm pm1 n ins :
  Performance.same_but n pm pm1 -> Name ins <> n -> undisturbed env pm ins -> undisturbed env pm1 ins.
Proof.
  intros Hb Hn (Ht & Ha & Hc). split_and!; [done|by rewrite (Performance.same_memory _ _ _ Hb)|].
  by rewrite (Performance.canProceed_other _ _ _ _ _ Hb Hn).
Qed.

Lemma loop_alike envs l e e' pm ctx w :
  perfMgmt e = Some pm -> Performance.idle pm -> NoDup (names l) ->
  (forall i ins, l !! i = Some (Some ins) -> undisturbed (envs i) pm ins) -> alike e e' ->
  seen (inspect_loop envs l e ctx w) = seen (inspect_loop envs (option_map shielded <$> l) e' ctx w).
Proof.
  revert envs e e' pm ctx w. induction l as [|[ins|] l IH]; intros envs e e' pm ctx w Hpm Hi Hnd Hu Hal.
  - cbn. by rewrite (alike_learner _ _ Hal).
  - cbn [fmap list_fmap option_fmap option_map inspect_loop]. unfold call. rewrite Hpm, (alike_plain _ _ Hal).
    change (names (Some ins :: l)) with (Name ins :: names l) in Hnd. apply NoDup_cons in Hnd as [Hn Hnd].
    pose proof (call_isolated_alike (envs 0%nat) ins pm e e' ctx w Hi (Hu 0%nat ins eq_refl) Hal) as Hc.
    destruct (call_isolated _ ins pm e ctx w) as [[[[res e1] ctx1] w1]|s|],
      (call_directly (shielded ins) e' ctx w) as [[[[res' e1'] ctx1'] w1']|s'|]; try done.
    destruct Hc as (Hres & -> & -> & Hal1 & _ & pm1 & Hpm1 & Hb). cbn [end_bind].
    assert (forall i ins', l !! i = Some (Some ins') -> undisturbed (envs (S i)) pm1 ins') as Hu1.
    { intros i ins' Hl. eapply undisturbed_other; [done| |by apply (Hu (S i))]. intros E. apply Hn. rewrite <- E.
      apply list_elem_of_omap. exists (Some ins'). split; [by eapply list_elem_of_lookup_2|done]. }
    pose proof (Performance.same_idle _ _ _ Hb Hi) as Hi1.
    destruct res as [[d|]|er], res' as [d'|er']; try done; simplify_eq; [|by eapply IH..].
    destruct (annotate_alike (envs 0%nat) ins e1 e1' ctx1' d Hal1) as [Hd Hal2].
    destruct (annotate_spec (envs 0%nat) ins e1 ctx1' d) as (_ & _ & _ & Hp).
    destruct (annotate _ ins e1 ctx1' d) as [d1 e2], (annotate _ (shielded ins) e1' ctx1' d) as [d1' e2'].
    cbn [fst snd] in *. subst d1'. rewrite (alike_shadow _ _ Hal2).
    destruct (_ && _); [cbn; by rewrite (alike_learner _ _ Hal2)|]. apply (IH _ _ _ pm1); [congruence|done..].
  - apply (IH _ _ _ pm); [done..|intros i ins Hl; by apply (Hu (S i))|done].
Qed.

Lemma call_never_panics env ins (e : Engine W) ctx w s :
  perfMgmt e <> None -> call env ins e ctx w <> Panicked s.
Proof.
  intros Hpm. unfold call, call_isolated. destruct (perfMgmt e) as [pm|]; [|done].
  destruct (Performance.enter _ _ _ pm) as [[d|[]] pm1]; [done|]. destruct (goroutine _ _ _ _) as [[[r ctx1] w1]|]; [|done].
  by destruct (Performance.leave _ _ _ pm1).
Qed.

Lemma call_stays_isolated env ins (e : Engine W) ctx w res e' ctx' w' :
  call env ins e ctx w = Returned (res, e', ctx', w') -> (perfMgmt e' = None <-> perfMgmt e = None).
Proof.
  unfold call. destruct (perfMgmt e) as [pm|] eqn:Hp.
  - unfold call_isolated. repeat case_match; intros; simplify_eq; done.
  - unfold call_directly. repeat case_match; intros; simplify_eq; done.
Qed.

Lemma loop_never_panics envs l (e : Engine W) ctx w s :
  perfMgmt e <> None -> inspect_loop envs l e ctx w <> Panicked s.
Proof.
  revert envs e ctx w. induction l as [|[ins|] l IH]; intros envs e ctx w Hpm;
    cbn [inspect_loop]; [done| |by apply IH].
  destruct (call (envs 0%nat) ins e ctx w) as [[[[res e1] ctx1] w1]|s1|] eqn:Hc; [|by eapply call_never_panics in Hc|done].
  apply call_stays_isolated in Hc. cbn [end_bind]. destruct res as [[dec|]|]; [|apply IH; tauto..].
  destruct (annotate_spec (envs 0%nat) ins e1 ctx1 dec) as (_ & _ & _ & Hp).
  destruct (annotate _ ins e1 ctx1 dec) as [dec1 e2]. cbn [fst snd] in Hp.
  destruct (_ && _); [done|]. apply IH. rewrite Hp. tauto.
Qed.

(** *** Inspectors that give no answer *)

(** No decision, an error or, under isolation, a panic. *)
Definition silent (isolated : bool) (ins : Inspector W) : Prop :=
  forall ctx w, match inspect ins ctx w with
                | (Decided None, ctx', _) | (Failed _, ctx', _) => same_log ctx ctx'
                | (Crashed _, ctx', _) => isolated = true /\ same_log ctx ctx'
                | _ => False
                end.
Definition silent_slot (isolated : bool) (o : option (Inspector W)) : Prop :=
  match o with Some ins => silent isolated ins | None => True end.
Definition is_isolated (e : Engine W) : bool := match perfMgmt e with Some _ => true | None => false end.

(** An abandoned goroutine does not end the process. *)
Definition steady_env (env : call_env W) : Prop :=
  match ce_timeout env with
  | Some f => forall ctx w, exists ctx' w', f ctx w = Some (ctx', w') /\ same_log ctx ctx'
  | None => True
  end.
Definition timed_out (env : call_env W) : bool := match ce_timeout env with Some _ => true | None => false end.

(** The entries for inspectors that ran out of time. *)
Definition is_timeout (d : Decision) : bool := String.eqb (RuleID d) "PERF_004".
Definition timeouts (l : list Decision) : Z := count_of is_timeout l.

Definition perf_entry (d : Decision) : Prop :=
  Score d = of_int (if is_timeout d then 20 else 0) /\ d_Action d = ActionMonitor.

Lemma enter_entry now alloc name pm d pm' :
  Performance.enter now alloc name pm = (inl d, pm') -> perf_entry d /\ is_timeout d = false.
Proof.
  unfold Performance.enter. destruct (Performance.canProceed now name pm) as [ok pm1].
  repeat case_match; intros; simplify_eq/=; done.
Qed.

Lemma annotate_entry env ins e ctx d :
  is_timeout (annotate env ins e ctx d).1 = is_timeout d /\ (perf_entry d -> perf_entry (annotate env ins e ctx d).1).
Proof.
  destruct (annotate_spec env ins e ctx d) as (Ha & Hs & _).
  assert (RuleID (annotate env ins e ctx d).1 = RuleID d) as Hr.
  { unfold annotate, enrichExplainability, ScoreDecision. cbn [fst]. by repeat case_match. }
  unfold perf_entry, is_timeout. by rewrite Ha, Hs, Hr.
Qed.

(** A silent call answers nothing, or an entry of the performance manager. *)
Lemma call_silent env ins e ctx w :
  silent (is_isolated e) ins -> steady_env env ->
  exists res e' ctx' w', call env ins e ctx w = Returned (res, e', ctx', w') /\ is_isolated e' = is_isolated e
    /\ same_log ctx ctx'
    /\ forall d, res = Ok (Some d) ->
         perf_entry d /\ is_isolated e = true /\ (is_timeout d = true -> timed_out env = true).
Proof.
  intros Hs Henv. unfold call, is_isolated in *. destruct (perfMgmt e) as [pm|] eqn:Hp.
  - unfold call_isolated. destruct (Performance.enter _ _ _ pm) as [[d|[]] pm1] eqn:He.
    { eexists _, _, _, _. split; [done|]. split_and!; [done|done|]. intros ? [= <-].
      apply enter_entry in He as [? Hf]. split_and!; [done..|by rewrite Hf]. }
    unfold goroutine, steady_env, timed_out in *. destruct (ce_timeout env) as [f|].
    + destruct (Henv ctx w) as (ctx' & w' & -> & Hl). cbn. eexists _, _, _, _. split; [done|]. split_and!; [done..|].
      by intros ? [= <-].
    + specialize (Hs ctx w). destruct (inspect ins ctx w) as [[[[d|]|er|r|] ctx'] w']; try done; cbn;
        eexists _, _, _, _; (split; [done|]); split_and!; (done || by destruct Hs || by intros ? [=]).
  - specialize (Hs ctx w). unfold call_directly. destruct (inspect ins ctx w) as [[[[d|]|er|r|] ctx'] w']; try done;
      [..|by destruct Hs]; eexists _, _, _, _; (split; [done|]); rewrite Hp; split_and!; (done || by intros ? [=]).
Qed.

Lemma loop_silent envs l (e : Engine W) ctx w :
  Forall (silent_slot (is_isolated e)) l -> (forall i, steady_env (envs i)) ->
  exists e' ctx' w' new, inspect_loop envs l e ctx w = Returned (finalDecision ctx', e', ctx', w')
    /\ Decisions ctx' = (Decisions ctx ++ new)%list /\ ThreatScore ctx' = fold_left fadd (Score <$> new) (ThreatScore ctx)
    /\ Forall perf_entry new /\ timeouts new <= count_of timed_out (envs <$> seq 0 (length l))
    /\ (length new <= length l)%nat /\ (is_isolated e = false -> new = []).
Proof.
  revert envs e ctx w. induction l as [|o l IH]; intros envs e ctx w Hl Henv.
  { exists e, ctx, w, []. rewrite app_nil_r. by repeat constructor. }
  apply Forall_cons in Hl as [Ho Hl]. cbn [length seq]. rewrite <- (fmap_S_seq 0), fmap_cons, <- list_fmap_compose, count_of_cons.
  change (envs ∘ S) with (fun i => envs (S i)). assert (0 <= (if timed_out (envs 0%nat) then 1 else 0)) by by case_match.
  assert (forall i, steady_env (envs (S i))) as Henv' by (intros i; apply Henv).
  destruct o as [ins|]; cbn [inspect_loop].
  2:{ destruct (IH (fun i => envs (S i)) e ctx w Hl Henv') as (e' & ctx' & w' & new & -> & ? & ? & ? & ? & ? & ?).
      exists e', ctx', w', new. split_and!; (done || lia). }
  destruct (call_silent (envs 0%nat) ins e ctx w Ho (Henv 0%nat)) as (res & e1 & ctx1 & w1 & -> & Hi & [H1 H2] & Hd).
  cbn [end_bind]. rewrite <- Hi in Hl. destruct res as [[d|]|er].
  2-3: destruct (IH (fun i => envs (S i)) e1 ctx1 w1 Hl Henv') as (e' & ctx' & w' & new & -> & ? & ? & ? & ? & ? & ?);
    exists e', ctx', w', new; rewrite <- H1, <- H2, <- Hi; split_and!; (done || lia).
  destruct (Hd d eq_refl) as (Hp & He & Ht). destruct (annotate_entry (envs 0%nat) ins e1 ctx1 d) as [Hto Hpe].
  destruct (annotate_spec (envs 0%nat) ins e1 ctx1 d) as (Ha & _ & _ & Hpm).
  destruct (annotate (envs 0%nat) ins e1 ctx1 d) as [d1 e2]. cbn [fst snd] in *.
  rewrite Ha, (proj2 Hp). cbn [is_block andb].
  assert (is_isolated e2 = is_isolated e1) as Hi2 by (unfold is_isolated; by rewrite Hpm). rewrite <- Hi2 in Hl.
  destruct (IH (fun i => envs (S i)) e2 (log_decision d1 ctx1) w1 Hl Henv')
    as (e' & ctx' & w' & new & -> & Hd' & Ht' & ? & Hc & ? & ?).
  destruct (log_decision_spec d1 ctx1) as [E1 E2]. rewrite E1, H1, <- app_assoc in Hd'. rewrite E2, H2 in Ht'.
  exists e', ctx', w', (d1 :: new). split_and!; [done..|constructor; auto| |cbn; lia|congruence].
  unfold timeouts in *. rewrite count_of_cons, Hto. destruct (is_timeout d); [rewrite Ht by done|]; lia.
Qed.

Lemma entries_sum new :
  Forall perf_entry new ->
  exists zs, Score <$> new = of_int <$> zs /\ Forall (fun z => 0 <= z <= max_score) zs /\ sumZ zs = 20 * timeouts new
    /\ length zs = length new /\ existsb is_rate_limit (d_Action <$> new) = false.
Proof.
  unfold timeouts. induction 1 as [|d new [Hs Ha] _ (zs & Hz & Hr & Hsum & Hl & Hx)]; [by exists []|].
  exists ((if is_timeout d then 20 else 0) :: zs). rewrite !fmap_cons, Hs, Hz, Ha. unfold max_score in *.
  split_and!; [done|constructor; [destruct (is_timeout d); lia|done]| |cbn; by rewrite Hl|done].
  cbn [sumZ foldr]. fold (sumZ zs). rewrite count_of_cons, Hsum. destruct (is_timeout d); lia.
Qed.

(** ** Properties *)

(** [C1] The verdict of the engine. With lawful inspectors (errors, timeouts,
    open breakers and learning included) the threat score of the request is
    exactly the sum of the scores in its decision log, and the returned action
    is: Block for a blocking decision outside shadow mode; otherwise Block
    from a total of 90, Challenge from 50, RateLimit if some inspector asked
    for it, and Allow. *)
Theorem engine_verdict envs e ctx w d e' ctx' w' :
  Forall lawful_slot (inspectors e) -> (forall i, lawful_env (envs i)) ->
  len (inspectors e) <= 2 ^ 40 -> fresh ctx ->
  Inspect envs e ctx w = Returned (d, e', ctx', w') ->
  exists zs, Score <$> Decisions ctx' = of_int <$> zs /\ ThreatScore ctx' = of_int (sumZ zs) /\
    d_Action d = verdict (shadowMode e) (d_Action <$> Decisions ctx') (sumZ zs).
Proof.
  intros Hl Henv Hn Hf Hi. eapply loop_post_verdict; [done|exact Hn|].
  by apply (inspect_loop_post envs _ e _ w _ e' _ w').
Qed.

(** [C2] Outside shadow mode the engine stops at the first blocking decision
    and returns it: the log grows by decisions of which only the last may
    block; if none blocks the answer is [finalDecision]'s. *)
Theorem engine_stops_at_first_block envs e ctx w d e' ctx' w' :
  Forall lawful_slot (inspectors e) -> (forall i, lawful_env (envs i)) ->
  shadowMode e = false -> Inspect envs e ctx w = Returned (d, e', ctx', w') ->
  exists new, Decisions ctx' = (Decisions ctx ++ new)%list /\
    ((exists pre, new = (pre ++ [d])%list /\ blocking d = true /\
        Forall (fun d => blocking d = false) pre) \/
     (Forall (fun d => blocking d = false) new /\ d = finalDecision ctx')).
Proof.
  intros Hl Henv Hs Hi. destruct (inspect_loop_post envs _ e _ w _ e' _ w' Hl Henv Hi)
    as (new & Hd & _ & _ & _ & Hv). exists new. split; [done|]. rewrite Hs in Hv.
  assert (Hall : forall l, forallb (fun d => negb (blocking d)) l = true ->
    Forall (fun d => blocking d = false) l).
  { intros l. rewrite forallb_forall, Forall_forall. intros Hp x Hx.
    apply negb_true_iff, Hp. by apply list_elem_of_In. }
  destruct Hv as [[Hv ->]|(_ & pre & -> & Hp & Hblk)]; [right|left]; eauto.
Qed.

(** [C3] Shadow mode still blocks: a shadow-mode engine answers Block exactly
    when the scores of the request sum to 90 or more, although no inspector's
    blocking decision is returned. *)
Theorem shadow_mode_blocks_by_score envs e ctx w d e' ctx' w' :
  Forall lawful_slot (inspectors e) -> (forall i, lawful_env (envs i)) ->
  len (inspectors e) <= 2 ^ 40 -> fresh ctx -> shadowMode e = true ->
  Inspect envs e ctx w = Returned (d, e', ctx', w') ->
  exists zs, Score <$> Decisions ctx' = of_int <$> zs /\
    (d_Action d = ActionBlock <-> 90 <= sumZ zs).
Proof.
  intros Hl Henv Hn Hf Hs Hi.
  destruct (loop_post_verdict (shadowMode e) (length (inspectors e)) ctx ctx' d) as (zs & Hz & _ & Hv);
    [done|exact Hn|by apply (inspect_loop_post envs _ e _ w _ e' _ w')|].
  exists zs. split; [done|]. rewrite Hv, Hs. unfold verdict, score_verdict. simpl.
  destruct (Z.leb_spec 90 (sumZ zs)); [done|]. split; [|lia]. by repeat case_match.
Qed.

(** [C4] What performance isolation changes, apart from its limits: it turns an
    inspector's panic into an error, and nothing else. No panic ever leaves an
    isolated engine; and as long as its calls are let in (breakers closed, a
    worker free, memory below the limit) and end in time, its answer, its
    decision log, the inspectors' states and what the learner knows are those
    of the engine without isolation whose inspectors return an error instead
    of panicking. A fatal error, as the stack overflow of the parser hardener,
    ends the process with isolation as without. *)
Theorem isolation_only_catches_panics envs e pm ctx w :
  perfMgmt e = Some pm ->
  (forall s, Inspect envs e ctx w <> Panicked s)
  /\ (Performance.idle pm -> NoDup (names (inspectors e)) ->
      (forall i ins, inspectors e !! i = Some (Some ins) -> undisturbed (envs i) pm ins) ->
      seen (Inspect envs e ctx w) = seen (Inspect envs (unisolated e) ctx w)).
Proof.
  intros Hpm. split; [intros s; apply loop_never_panics; by rewrite Hpm|].
  intros Hi Hn Hu. by apply (loop_alike envs _ e (unisolated e) pm).
Qed.

(** [C8] The engine fails open, up to two timeouts. When every inspector fails
    or gives no decision - or, under isolation, panics, times out or is not let
    in - a fresh request is answered by the number of timeouts logged alone,
    each of which counts 20 points: with none, one or two it is allowed, with
    three or four challenged, from five on blocked. No more timeouts are logged
    than calls timed out, and without isolation none. *)
Theorem engine_fails_open envs e ctx w :
  fresh ctx -> len (inspectors e) <= 2 ^ 40 ->
  Forall (silent_slot (is_isolated e)) (inspectors e) -> (forall i, steady_env (envs i)) ->
  exists d e' ctx' w', Inspect envs e ctx w = Returned (d, e', ctx', w') /\
    let t := timeouts (Decisions ctx') in
    d_Action d = (if 5 <=? t then ActionBlock else if 3 <=? t then ActionChallenge else ActionAllow)
    /\ t <= count_of timed_out (envs <$> seq 0 (length (inspectors e)))
    /\ (is_isolated e = false -> t = 0).
Proof.
  intros [Hd Ht] Hlen Hl Henv. unfold Inspect, len in *.
  destruct (loop_silent envs _ e ctx w Hl Henv) as (e' & ctx' & w' & new & -> & Hd' & Ht' & Hp & Hc & Hn & Hni).
  eexists _, e', ctx', w'. split; [done|]. cbv zeta. rewrite Hd in Hd'. cbn [app] in Hd'. rewrite Hd'.
  split_and!; [|done|by intros ->%Hni]. destruct (entries_sum new Hp) as (zs & Hz & Hr & Hs & Hlz & Hx).
  pose proof (sumZ_bounds zs Hr) as Hb. unfold len, max_score in Hb.
  assert (ThreatScore ctx' = of_int (20 * timeouts new)) as Hth.
  { rewrite Ht', Ht, Hz, <- Hs. change f0 with (of_int 0). rewrite sum_exact by (done || (unfold len, max_score; lia)). done. }
  rewrite (finalDecision_verdict _ _ Hth) by (unfold exact_int; lia). unfold score_verdict. rewrite Hd', Hx.
  destruct (Z.leb_spec 5 (timeouts new)), (Z.leb_spec 3 (timeouts new));
    destruct (Z.leb_spec 90 (20 * timeouts new)), (Z.leb_spec 50 (20 * timeouts new)); (done || lia).
Qed.

End engine.

(** ** Updating the built-in inspectors *)

(** The keys of [UpdateInspector] that are the name of the inspector in
    their slot. *)
Definition updatable (s : Slot) : bool := String.eqb (slot_key s) (builtin_name s).

Lemma builtin_names_NoDup : NoDup (builtin_name <$> inspection_order).
Proof. vm_compute. repeat (constructor; [set_solver|]). constructor. Qed.

Lemma slot_in_order s : s ∈ inspection_order.
Proof. destruct s; set_solver. Qed.

Lemma key_not_builtin s s' : builtin_name s' = slot_key s -> s' = s.
Proof. destruct s, s'; vm_compute; congruence. Qed.

(** An engine whose slots hold inspectors that carry their built-in names. *)
Definition builtin {W} (cfg : EngineConfig W) : Prop :=
  forall s ins, cfg_inspector cfg s = Some ins -> Name ins = builtin_name s.

Lemma replace_named_new {W} (cfg : EngineConfig W) s ins l :
  builtin cfg ->
  replace_named (slot_key s) ins (cfg_inspector cfg <$> l)
  = (if updatable s then replace_named (slot_key s) ins (cfg_inspector cfg <$> l)
     else cfg_inspector cfg <$> l).
Proof.
  intros Hb. destruct (updatable s) eqn:Hu; [done|].
  induction l as [|s' l IH]; [done|]. rewrite fmap_cons. cbn [replace_named].
  destruct (cfg_inspector cfg s') as [i|] eqn:Hi; [|by rewrite IH].
  destruct (String.eqb_spec (Name i) (slot_key s)) as [E|E]; [|by rewrite IH].
  rewrite (Hb _ _ Hi) in E. pose proof (key_not_builtin _ _ E) as ->.
  unfold updatable in Hu. rewrite E, String.eqb_refl in Hu. done.
Qed.

(** [UpdateInspector] does not reach eleven of the built-in inspectors:
    for a slot whose key is not the built-in inspector's name, the list that
    [Inspect] runs through is unchanged. *)
Theorem update_misses_renamed {W} procs (cfg : EngineConfig W) s ins :
  builtin cfg -> updatable s = false ->
  inspectors (UpdateInspector (slot_key s) ins (New procs cfg)) = inspectors (New procs cfg).
Proof.
  intros Hb Hs. unfold UpdateInspector, New. cbn [inspectors].
  by rewrite replace_named_new, Hs by done.
Qed.

(** The eleven. *)
Example not_updatable :
  filter (fun s => updatable s = false) inspection_order
  = [SJWT; SOAuth; SMTLS; SGraphQL; SBot; SDDoS; SAPIProtect; SProtocol; SUpload; SCredential; SWebSocket].
Proof. reflexivity. Qed.

(** ** Witnesses *)

(** An inspector that always gives the same decision, and a request. *)
Definition constant (name : string) (r : inspection) : Inspector unit :=
  mkInspector name (fun ctx w => (r, ctx, w)).

Definition example_env : call_env unit := mkEnv 0 0 0 None 0 0.

Definition example_engine (shadow : bool) (l : list (Inspector unit)) : Engine unit :=
  mkEngine (Some <$> l) (fun _ => None) false shadow false None
    Learning.NewLearningEngine NewConfidenceScorer.

Definition example_request : RequestContext :=
  mkContext None None "" "10.0.0.1" "" "/" "GET" ∅ ∅ ∅ ∅ None "" "" "" "" "" 0 f0 f0 [] false false 0
    (lit "") "" "" "" "".

Definition sqli_hit : Decision :=
  decision ActionBlock "SQLI001" "SQL Injection" "critical" 95 (lit "union select").
Definition bot_hit : Decision :=
  decision ActionChallenge "BOT001" "Bot" "medium" 40 (lit "curl").

Lemma constant_lawful name r :
  match r with Decided (Some d) => int_scored d | _ => True end -> LawfulInspector (constant name r).
Proof. intros Hr. split; intros; simpl in *; [by split|]. by subst. Qed.

Lemma bot_sqli_lawful :
  Forall lawful_slot (inspectors (example_engine false
    [constant "bot_detector" (Decided (Some bot_hit)); constant "sqli" (Decided (Some sqli_hit))])).
Proof.
  repeat constructor; apply constant_lawful; eexists; (split; [reflexivity|vm_compute; split; discriminate]).
Defined.

#[local] Existing Instance format_len.

Definition run_example (shadow : bool) :=
  Inspect (fun _ => example_env) (example_engine shadow
    [constant "bot_detector" (Decided (Some bot_hit)); constant "sqli" (Decided (Some sqli_hit))])
    example_request tt.
Definition example_result (shadow : bool) : Decision * Engine unit * RequestContext * unit :=
  match run_example shadow with
  | Returned r => r
  | _ => (allow_decision, example_engine shadow [], example_request, tt)
  end.

Lemma engine_verdict_witness :
  exists zs, Score <$> Decisions (example_result false).1.2 = of_int <$> zs /\
    ThreatScore (example_result false).1.2 = of_int (sumZ zs) /\
    d_Action (example_result false).1.1.1
    = verdict false (d_Action <$> Decisions (example_result false).1.2) (sumZ zs).
Proof.
  apply (engine_verdict (fun _ => example_env) (example_engine false
    [constant "bot_detector" (Decided (Some bot_hit)); constant "sqli" (Decided (Some sqli_hit))])
    example_request tt _ (example_result false).1.1.2 _ (example_result false).2).
  - apply bot_sqli_lawful.
  - done.
  - vm_compute. discriminate.
  - done.
  - vm_compute. reflexivity.
Defined.

Lemma engine_stops_at_first_block_witness :
  exists new, Decisions (example_result false).1.2 = ([] ++ new)%list /\
    ((exists pre, new = (pre ++ [(example_result false).1.1.1])%list /\
        blocking (example_result false).1.1.1 = true /\ Forall (fun d => blocking d = false) pre) \/
     (Forall (fun d => blocking d = false) new /\
      (example_result false).1.1.1 = finalDecision (example_result false).1.2)).
Proof.
  apply (engine_stops_at_first_block (fun _ => example_env) (example_engine false
    [constant "bot_detector" (Decided (Some bot_hit)); constant "sqli" (Decided (Some sqli_hit))])
    example_request tt _ (example_result false).1.1.2 _ (example_result false).2).
  - apply bot_sqli_lawful.
  - done.
  - done.
  - vm_compute. reflexivity.
Defined.

Lemma shadow_mode_blocks_by_score_witness :
  exists zs, Score <$> Decisions (example_result true).1.2 = of_int <$> zs /\
    (d_Action (example_result true).1.1.1 = ActionBlock <-> 90 <= sumZ zs).
Proof.
  apply (shadow_mode_blocks_by_score (fun _ => example_env) (example_engine true
    [constant "bot_detector" (Decided (Some bot_hit)); constant "sqli" (Decided (Some sqli_hit))])
    example_request tt _ (example_result true).1.1.2 _ (example_result true).2).
  - apply bot_sqli_lawful.
  - done.
  - vm_compute. discriminate.
  - done.
  - done.
  - vm_compute. reflexivity.
Defined.

(** The shadow-mode block. *)
Example shadow_block :
  d_Action (example_result true).1.1.1 = ActionBlock /\ blocking (example_result true).1.1.1 = true.
Proof. vm_compute. split; reflexivity. Qed.

Definition isolated_example : Engine unit :=
  set_perf (Some (Performance.NewPerformanceManager 2 0 0))
    (example_engine false [constant "rce" (Crashed (lit "index out of range")); constant "sqli" (Decided (Some sqli_hit))]).

Lemma isolation_only_catches_panics_witness :
  seen (Inspect (fun _ => example_env) isolated_example example_request tt)
  = seen (Inspect (fun _ => example_env) (unisolated isolated_example) example_request tt).
Proof.
  apply (isolation_only_catches_panics (fun _ => example_env) isolated_example (Performance.NewPerformanceManager 2 0 0));
    [done|by vm_compute| |].
  - apply (bool_decide_unpack _). by vm_compute.
  - intros [|[|i]] ins [= <-]; by split_and!.
Defined.

(** Without the shield the panic would have got out. *)
Example panic_gets_out :
  Inspect (fun _ => example_env) (set_perf None isolated_example) example_request tt
  = Panicked (set_perf None isolated_example, tt).
Proof. reflexivity. Qed.

(** Three inspectors that run out of time. *)
Definition slow_engine : Engine unit :=
  set_perf (Some (Performance.NewPerformanceManager 2 0 0))
    (example_engine false [constant "a" (Decided None); constant "b" (Failed (lit "bad")); constant "c" (Crashed (lit "nil"))]).
Definition slow_env : call_env unit := mkEnv 0 0 0 (Some (fun ctx w => Some (ctx, w))) 0 0.

Lemma engine_fails_open_witness :
  exists d e' ctx' w', Inspect (fun _ => slow_env) slow_engine example_request tt = Returned (d, e', ctx', w') /\
    d_Action d = (if 5 <=? timeouts (Decisions ctx') then ActionBlock
                  else if 3 <=? timeouts (Decisions ctx') then ActionChallenge else ActionAllow).
Proof.
  destruct (engine_fails_open (fun _ => slow_env) slow_engine example_request tt) as (d & e' & ctx' & w' & Hi & Hd & _);
    [done|by vm_compute|by repeat constructor|intros i ctx w; by exists ctx, w|by exists d, e', ctx', w'].
Defined.
Example three_timeouts_challenge :
  match Inspect (fun _ => slow_env) slow_engine example_request tt with
  | Returned (d, _, ctx, _) => d_Action d = ActionChallenge /\ timeouts (Decisions ctx) = 3
  | _ => False
  end.
Proof. vm_compute. by split. Qed.

Definition builtin_example : EngineConfig unit :=
  mkConfig false false false 0 0 false (fun s => Some (constant (builtin_name s) (Decided None))).

Lemma update_misses_renamed_witness :
  inspectors (UpdateInspector "bot" None (New 4 builtin_example)) = inspectors (New 4 builtin_example).
Proof.
  apply (update_misses_renamed 4 builtin_example SBot None).
  - by intros s ins [= <-].
  - reflexivity.
Defined.
