(* ===== verification/WebSocket.v ===== *)
(** * WebSocket inspection: [internal/engine/websocket.go]

    Frame parsing with its in-place unmasking, the per-client frame
    statistics, the message checks and the origin check of the upgrader. The
    message type constants come from gorilla/websocket and are an instance of
    [MessageTypes]. A frame's bytes are integers below 256; a run-time panic
    is an outcome. Two first messages of a client handled at once can each
    create its statistics and one count is lost; the model handles calls one
    after the other. *)

From S2P Require Import Prelude Float64 GoStr Types.

#[local] Open Scope string_scope.
#[local] Open Scope Z_scope.

(** gorilla/websocket's message types: distinct integers. *)
Class MessageTypes : Type := {
  TextMessage : Z; BinaryMessage : Z; CloseMessage : Z; PingMessage : Z; PongMessage : Z;
  message_types_distinct :
    NoDup [TextMessage; BinaryMessage; CloseMessage; PingMessage; PongMessage]
}.

(** The opcodes of RFC 6455, for examples. *)
Definition rfc6455 : MessageTypes.
Proof.
  refine {| TextMessage := 1; BinaryMessage := 2; CloseMessage := 8; PingMessage := 9;
            PongMessage := 10 |}.
  apply (bool_decide_unpack _). by vm_compute.
Defined.

(** ** State *)

Record WebSocketConfig : Type := mkWSConfig {
  MaxFrameSize : Z;
  MaxDepth : Z;
  MaxFramesPerMin : Z;
  BlockOnLimit : bool;
  AllowedTypes : list Z;
  StrictMode : bool;
  EnablePing : bool;
  EnablePong : bool;
  EnableClose : bool
}.

Record FrameStats : Type := mkStats {
  Count : Z;
  Bytes : Z;
  LastSeen : Z;
  TypeCounts : gmap Z Z
}.

Record Frame : Type := mkFrame { Type_ : Z; Payload : list Z; Finished : bool }.

(** [maxMessageSize], [maxBytesPerMin] and [connectionTimeout] are stored and
    read nowhere. *)
Record WebSocketInspector : Type := mkWS {
  maxFrameSize : Z;
  maxDepth : Z;
  maxFramesPerMin : Z;
  blockOnLimit : bool;
  frameLog : gmap string FrameStats;
  allowedTypes : Z -> bool;
  strictMode : bool;
  enablePing : bool;
  enablePong : bool;
  enableClose : bool
}.

Definition set_log (m : gmap string FrameStats) (w : WebSocketInspector) : WebSocketInspector :=
  mkWS (maxFrameSize w) (maxDepth w) (maxFramesPerMin w) (blockOnLimit w) m (allowedTypes w)
    (strictMode w) (enablePing w) (enablePong w) (enableClose w).

Definition NewWebSocketInspector `{MessageTypes} (cfg : WebSocketConfig) : WebSocketInspector :=
  let types := match AllowedTypes cfg with
               | [] => [TextMessage; BinaryMessage]
               | ts => ts
               end in
  mkWS (MaxFrameSize cfg) (MaxDepth cfg) (MaxFramesPerMin cfg) (BlockOnLimit cfg) ∅
    (fun t => bool_decide (t ∈ types)) (StrictMode cfg) (EnablePing cfg) (EnablePong cfg) (EnableClose cfg).

(** ** The handshake *)

Definition isWebSocket `{Unicode} (ctx : RequestContext) : bool :=
  Contains (ToLower (header ctx "Upgrade")) "websocket"
  && Contains (ToLower (header ctx "Connection")) "upgrade"
  && negb (String.eqb (header ctx "Sec-Websocket-Key") "")
  && String.eqb (header ctx "Sec-Websocket-Version") "13".

(** [getStats]: the client's statistics, created when missing, with the count
    restarted when its last message is more than a minute old. *)
Definition getStats (now : Z) (ip : string) (w : WebSocketInspector) : FrameStats * WebSocketInspector :=
  let stats := default (mkStats 0 0 zero_time ∅) (frameLog w !! ip) in
  let stats := if Minute <? time_sub now (LastSeen stats)
               then mkStats 0 0 (LastSeen stats) (TypeCounts stats) else stats in
  (stats, set_log (<[ip := stats]> (frameLog w)) w).

Definition Inspect `{Unicode} (now : Z) (ctx : RequestContext) (w : WebSocketInspector)
    : Decision * WebSocketInspector :=
  if negb (isWebSocket ctx) then (allow_decision, w)
  else
    let '(stats, w) := getStats now (RealIP ctx) w in
    if (0 <? maxFramesPerMin w) && (maxFramesPerMin w <? Count stats) then
      let ev := Sprintf "frames_per_min=%d, limit=%d" [AInt (Count stats); AInt (maxFramesPerMin w)] in
      if blockOnLimit w
      then (decision ActionBlock "WS-001" "WebSocket frame rate limit exceeded" "high" 80 ev, w)
      else (decision ActionMonitor "WS-001" "WebSocket frame rate limit exceeded" "medium" 40 ev, w)
    else (allow_decision, w).

(** ** Messages *)

Definition injPatterns : list string :=
  ["<script"; "javascript:"; "onerror="; "onload="; "onclick="; "onmouseover="; "eval("; "document.";
   "window."; "expression("; "url("; "href="].

Definition checkInjection `{Unicode} (payload : list Z) : option Decision :=
  let lower := ToLower (of_bytes payload) in
  match find (fun p => Contains lower p) injPatterns with
  | Some p => Some (decision ActionBlock "WS-INJ-001" "WebSocket injection pattern detected" "critical"
                      95 (Sprintf "pattern=%s" [AStr p]))
  | None => None
  end.

Definition is_opening (b : Z) : bool := (b =? 123) || (b =? 91).

Fixpoint depth_from (maxDepth nested : Z) (payload : list Z) : option Decision :=
  match payload with
  | [] => None
  | b :: rest =>
      if is_opening b then
        let nested := incr nested in
        if maxDepth <? nested
        then Some (decision ActionBlock "WS-JSON-001" "WebSocket JSON depth exceeded" "high" 75
                     (Sprintf "depth=%d, limit=%d" [AInt nested; AInt maxDepth]))
        else depth_from maxDepth nested rest
      else depth_from maxDepth nested rest
  end.
Definition checkJSONDepth (payload : list Z) (w : WebSocketInspector) : option Decision :=
  depth_from (maxDepth w) 0 payload.

(** The checks of [InspectMessage] once the statistics are updated. *)
Definition message_decision `{Unicode} `{MessageTypes} (frame : Frame) (w : WebSocketInspector) : Decision :=
  if (Type_ frame =? CloseMessage) && negb (enableClose w)
  then decision ActionBlock "WS-002" "WebSocket close not allowed" "medium" 50 (lit "")
  else if (Type_ frame =? PingMessage) && negb (enablePing w)
  then decision ActionBlock "WS-003" "WebSocket PING not allowed" "low" 30 (lit "")
  else if (Type_ frame =? PongMessage) && negb (enablePong w)
  then decision ActionBlock "WS-004" "WebSocket PONG not allowed" "low" 30 (lit "")
  else if negb (allowedTypes w (Type_ frame))
  then decision ActionBlock "WS-005" "WebSocket message type not allowed" "high" 75
         (Sprintf "type=%d" [AInt (Type_ frame)])
  else if maxFrameSize w <? len (Payload frame)
  then decision ActionBlock "WS-006" "WebSocket frame size exceeded" "high" 70
         (Sprintf "frame_size=%d, limit=%d" [AInt (len (Payload frame)); AInt (maxFrameSize w)])
  else
    default allow_decision
      ((if strictMode w && (Type_ frame =? TextMessage) then checkInjection (Payload frame) else None)
       <||>
       (if (0 <? maxDepth w) && (Type_ frame =? TextMessage) then checkJSONDepth (Payload frame) w
        else None)).

(** [now1] is read by [getStats], [now2] for [LastSeen]. *)
Definition InspectMessage `{Unicode} `{MessageTypes} (now1 now2 : Z) (ctx : RequestContext) (frame : Frame)
    (w : WebSocketInspector) : Decision * WebSocketInspector :=
  let '(s, w) := getStats now1 (RealIP ctx) w in
  let s := mkStats (incr (Count s)) (wrap64 (Bytes s + len (Payload frame))) now2
             (<[Type_ frame := incr (default 0 (TypeCounts s !! Type_ frame))]> (TypeCounts s)) in
  let w := set_log (<[RealIP ctx := s]> (frameLog w)) w in
  (message_decision frame w, w).

(** ** Parsing a frame *)

(** [data[i]] in range. *)
Definition byte_at (data : list Z) (i : Z) : Z := nth (Z.to_nat i) data 0.

(** The length field: [None] for a truncated extended length. The shift of
    the first byte into bit 63 makes the int negative. *)
Definition frame_length (data : list Z) : option (Z * Z) :=
  let payloadLen := Z.land (byte_at data 1) 127 in
  if payloadLen =? 126 then
    if len data <? 4 then None
    else Some (Z.lor (Z.shiftl (byte_at data 2) 8) (byte_at data 3), 4)
  else if payloadLen =? 127 then
    if len data <? 10 then None
    else Some (Z.lor (wrap64 (Z.shiftl (byte_at data 2) 56))
              (Z.lor (Z.shiftl (byte_at data 3) 48) (Z.lor (Z.shiftl (byte_at data 4) 40)
              (Z.lor (Z.shiftl (byte_at data 5) 32) (Z.lor (Z.shiftl (byte_at data 6) 24)
              (Z.lor (Z.shiftl (byte_at data 7) 16) (Z.lor (Z.shiftl (byte_at data 8) 8)
                 (byte_at data 9))))))), 10)
  else Some (payloadLen, 2).

(** [data[lo:hi]]; the caller has checked [hi <= len(data)]. *)
Definition slice (data : list Z) (lo hi : Z) : outcome (list Z) :=
  if (0 <=? lo) && (lo <=? hi) then Returns (take (Z.to_nat (hi - lo)) (drop (Z.to_nat lo) data))
  else Panics.

Definition xor_key (key : list Z) (payload : list Z) : list Z :=
  imap (fun i b => Z.lxor b (nth (i mod 4) key 0)) payload.

(** [ParseFrame(data)]: the frame or an error, and the caller's buffer after
    the in-place unmasking. *)
Definition ParseFrame (data : list Z) : outcome (result string Frame * list Z) :=
  if len data <? 2 then Returns (Err "frame too small", data)
  else
    let fin := negb (Z.land (byte_at data 0) 128 =? 0) in
    let opcode := Z.land (byte_at data 0) 15 in
    let mask := negb (Z.land (byte_at data 1) 128 =? 0) in
    match frame_length data with
    | None => Returns (Err "invalid extended length", data)
    | Some (payloadLen, idx) =>
        let idx := if mask then idx + 4 else idx in
        let hi := wrap64 (idx + payloadLen) in
        if len data <? hi then Returns (Err "unexpected EOF", data)
        else
          let! payload := slice data idx hi in
          if mask then
            let key := take 4 (drop (Z.to_nat (idx - 4)) data) in
            let plain := xor_key key payload in
            Returns (Ok (mkFrame opcode plain fin),
                     (take (Z.to_nat idx) data ++ plain ++ drop (Z.to_nat hi) data)%list)
          else Returns (Ok (mkFrame opcode payload fin), data)
    end.

(** ** The origin check of [Upgrader] *)

Definition CheckOrigin `{Unicode} (allowedOrigins : list string) (r : http_Request) : bool :=
  match allowedOrigins with
  | [] => true
  | _ =>
      let origin := Get (Header r) "Origin" in
      String.eqb origin ""
      || existsb (fun allowed => EqualFold origin allowed || Contains origin allowed) allowedOrigins
  end.

(** ** Reference encoder: RFC 6455, section 5.2 *)

Definition byte (b : Z) : Prop := 0 <= b < 256.

(** Big-endian value, and the eight bytes of a length. *)
Definition be_value (l : list Z) : Z := fold_left (fun acc b => acc * 256 + b) l 0.
Definition be8 (v : Z) : list Z :=
  [v / 2 ^ 56 mod 256; v / 2 ^ 48 mod 256; v / 2 ^ 40 mod 256; v / 2 ^ 32 mod 256;
   v / 2 ^ 24 mod 256; v / 2 ^ 16 mod 256; v / 2 ^ 8 mod 256; v mod 256].

Definition length_bytes (mask : bool) (n : Z) : list Z :=
  let m := if mask then 128 else 0 in
  if n <? 126 then [m + n]
  else if n <? 65536 then [m + 126; n / 256; n mod 256]
  else (m + 127 :: be8 n).

Definition header_bytes (fin : bool) (opcode : Z) (key : option (list Z)) (n : Z) : list Z :=
  (((if fin then 128 else 0) + opcode)
     :: length_bytes (match key with Some _ => true | None => false end) n ++ default [] key)%list.

(** Section 5.3: each octet is combined with the next octet of the masking key,
    whose four are used in turn. *)
Fixpoint mask_octets (key payload : list Z) : list Z :=
  match key, payload with
  | k :: key, b :: payload => Z.lxor b k :: mask_octets (key ++ [k]) payload
  | _, _ => []
  end.

Definition build_frame (fin : bool) (opcode : Z) (key : option (list Z)) (payload : list Z) : list Z :=
  (header_bytes fin opcode key (len payload)
   ++ match key with Some k => mask_octets k payload | None => payload end)%list.

(** ** Lemmas: parsing *)

Lemma land_128 b : byte b -> (Z.land b 128 =? 0) = (b <? 128).
Proof.
  intros Hb. apply Bool.eqb_prop. revert b Hb.
  apply (byte_forall (fun b => Bool.eqb (Z.land b 128 =? 0) (b <? 128))). by vm_compute.
Qed.

Lemma land_127 b : Z.land b 127 = b mod 128.
Proof. apply (Z.land_ones b 7). done. Qed.

Lemma land_15 b : Z.land b 15 = b mod 16.
Proof. apply (Z.land_ones b 4). done. Qed.

Lemma be_byte b n r :
  byte b -> 0 <= n -> 0 <= r < 2 ^ n ->
  Z.lor (Z.shiftl b n) r = b * 2 ^ n + r /\ 0 <= b * 2 ^ n + r < 2 ^ (n + 8).
Proof.
  intros Hb Hn Hr. split; [by apply lor_shiftl|]. unfold byte in Hb.
  rewrite Z.pow_add_r by lia. change (2 ^ 8) with 256. nia.
Qed.

(** The eight length bytes as the code reads them: the unsigned value as an
    int. *)
Lemma long_length b2 b3 b4 b5 b6 b7 b8 b9 :
  Forall byte [b2; b3; b4; b5; b6; b7; b8; b9] ->
  Z.lor (wrap64 (Z.shiftl b2 56)) (Z.lor (Z.shiftl b3 48) (Z.lor (Z.shiftl b4 40)
    (Z.lor (Z.shiftl b5 32) (Z.lor (Z.shiftl b6 24) (Z.lor (Z.shiftl b7 16)
    (Z.lor (Z.shiftl b8 8) b9))))))
  = wrap64 (be_value [b2; b3; b4; b5; b6; b7; b8; b9]).
Proof.
  rewrite !Forall_cons. intros (H2 & H3 & H4 & H5 & H6 & H7 & H8 & H9 & _).
  destruct (be_byte b8 8 b9) as [-> B8]; [done..|].
  destruct (be_byte b7 16 _ H7 ltac:(done) B8) as [-> B7].
  destruct (be_byte b6 24 _ H6 ltac:(done) B7) as [-> B6].
  destruct (be_byte b5 32 _ H5 ltac:(done) B6) as [-> B5].
  destruct (be_byte b4 40 _ H4 ltac:(done) B5) as [-> B4].
  destruct (be_byte b3 48 _ H3 ltac:(done) B4) as [-> B3].
  set (a := if b2 <? 128 then b2 else b2 - 256).
  assert (wrap64 (Z.shiftl b2 56) = Z.shiftl a 56) as ->.
  { rewrite !Z.shiftl_mul_pow2 by done. unfold wrap64, a, byte in *.
    destruct (Z.ltb_spec b2 128).
    - rewrite Z.mod_small; lia.
    - replace (b2 * 2 ^ 56 + 2 ^ 63) with ((b2 - 256) * 2 ^ 56 + 2 ^ 63 + 1 * 2 ^ 64) by lia.
      rewrite Z.mod_add, Z.mod_small by lia. lia. }
  rewrite lor_shiftl by (done || exact B3). unfold be_value. cbn [fold_left].
  match goal with |- _ = wrap64 ?v => replace v with (b2 * 2 ^ 56 + (b3 * 2 ^ 48 + (b4 * 2 ^ 40 +
    (b5 * 2 ^ 32 + (b6 * 2 ^ 24 + (b7 * 2 ^ 16 + (b8 * 2 ^ 8 + b9))))))) by lia end.
  change (48 + 8) with 56 in B3. set (r := b3 * 2 ^ 48 + _) in *. unfold wrap64, a, byte in *.
  destruct (Z.ltb_spec b2 128).
  - rewrite Z.mod_small; lia.
  - replace (b2 * 2 ^ 56 + r + 2 ^ 63) with ((b2 - 256) * 2 ^ 56 + r + 2 ^ 63 + 1 * 2 ^ 64) by lia.
    rewrite Z.mod_add, Z.mod_small by lia. lia.
Qed.

Lemma be_value_range l : Forall byte l -> 0 <= be_value l < 256 ^ len l.
Proof.
  unfold be_value. assert (forall acc, 0 <= acc -> Forall byte l ->
    0 <= fold_left (fun acc b => acc * 256 + b) l acc < (acc + 1) * 256 ^ len l) as Hg.
  { induction l as [|b l IH]; intros acc Ha Hl; [simpl; change (len (@nil Z)) with 0; lia|].
    apply Forall_cons in Hl as [Hb Hl]. unfold byte in Hb. cbn [fold_left].
    specialize (IH (acc * 256 + b) ltac:(lia) Hl).
    rewrite len_cons, Z.pow_add_r by (pose proof (len_nonneg l); lia).
    assert (0 < 256 ^ len l) by (apply Z.pow_pos_nonneg; [lia|apply len_nonneg]). nia. }
  intros Hl. specialize (Hg 0 ltac:(lia) Hl). lia.
Qed.

Lemma be_value_be8 v : 0 <= v < 2 ^ 64 -> be_value (be8 v) = v.
Proof.
  intros Hv. unfold be_value, be8. cbn [fold_left].
  assert (forall k, 0 <= k -> v / 2 ^ (k + 8) * 256 + v / 2 ^ k mod 256 = v / 2 ^ k) as Hk.
  { intros k Hk. rewrite Z.pow_add_r, <- Z.div_div, Z.mul_comm by lia. symmetry. by apply Z.div_mod. }
  assert (0 * 256 + v / 2 ^ 56 mod 256 = v / 2 ^ 56) as ->.
  { apply Z.mod_small. split; [apply Z.div_pos; lia|]. apply Z.div_lt_upper_bound; lia. }
  rewrite (Hk 48 ltac:(done) : v / 2 ^ 56 * 256 + v / 2 ^ 48 mod 256 = _).
  rewrite (Hk 40 ltac:(done) : v / 2 ^ 48 * 256 + v / 2 ^ 40 mod 256 = _).
  rewrite (Hk 32 ltac:(done) : v / 2 ^ 40 * 256 + v / 2 ^ 32 mod 256 = _).
  rewrite (Hk 24 ltac:(done) : v / 2 ^ 32 * 256 + v / 2 ^ 24 mod 256 = _).
  rewrite (Hk 16 ltac:(done) : v / 2 ^ 24 * 256 + v / 2 ^ 16 mod 256 = _).
  rewrite (Hk 8 ltac:(done) : v / 2 ^ 16 * 256 + v / 2 ^ 8 mod 256 = _).
  rewrite (Z.mul_comm _ 256). symmetry. by apply Z.div_mod.
Qed.

Lemma be8_bytes v : Forall byte (be8 v).
Proof. unfold be8. repeat constructor; apply Z.mod_pos_bound; done. Qed.

Lemma mask_byte (m : bool) n : 0 <= n < 128 ->
  negb (Z.land ((if m then 128 else 0) + n) 128 =? 0) = m /\
  Z.land ((if m then 128 else 0) + n) 127 = n.
Proof.
  intros Hn. rewrite land_128, land_127 by (unfold byte; destruct m; lia). split.
  - destruct m, (Z.ltb_spec (128 + n) 128), (Z.ltb_spec (0 + n) 128); done || lia.
  - destruct m.
    + replace (128 + n) with (n + 1 * 128) by lia. rewrite Z.mod_add, Z.mod_small; lia.
    + rewrite Z.mod_small; lia.
Qed.

Lemma first_byte (fin : bool) op : 0 <= op < 16 ->
  negb (Z.land ((if fin then 128 else 0) + op) 128 =? 0) = fin /\
  Z.land ((if fin then 128 else 0) + op) 15 = op.
Proof.
  intros Ho. destruct (mask_byte fin op) as [-> _]; [lia|]. split; [done|].
  rewrite land_15. destruct fin.
  - replace (128 + op) with (op + 8 * 16) by lia. rewrite Z.mod_add, Z.mod_small; lia.
  - rewrite Z.mod_small; lia.
Qed.

Lemma byte_at_0 b l : byte_at (b :: l) 0 = b.
Proof. done. Qed.

(** The length field of a built frame is read back, with its offset. *)
Lemma frame_length_built b0 m n rest :
  0 <= n < 2 ^ 63 ->
  frame_length (b0 :: length_bytes m n ++ rest)%list = Some (n, 1 + len (length_bytes m n)) /\
  negb (Z.land (byte_at (b0 :: length_bytes m n ++ rest)%list 1) 128 =? 0) = m.
Proof.
  intros Hn. unfold length_bytes. destruct (Z.ltb_spec n 126); [|destruct (Z.ltb_spec n 65536)].
  - unfold frame_length, byte_at. simpl. destruct (mask_byte m n) as [-> ->]; [lia|].
    rewrite !(proj2 (Z.eqb_neq _ _)) by lia. done.
  - unfold frame_length, byte_at. simpl. destruct (mask_byte m 126) as [-> ->]; [lia|].
    rewrite !len_cons, (proj2 (Z.ltb_ge _ _)) by (pose proof (len_nonneg rest); lia). simpl.
    rewrite lor_shiftl by (done || apply Z.mod_pos_bound; done). change (2 ^ 8) with 256.
    rewrite (Z.mul_comm _ 256), <- Z.div_mod by done. done.
  - unfold frame_length, byte_at. unfold be8 at 1 2. simpl. destruct (mask_byte m 127) as [-> ->]; [lia|].
    rewrite !len_cons, (proj2 (Z.ltb_ge _ 10)) by (pose proof (len_nonneg rest); lia). simpl.
    split; [|done]. rewrite long_length by apply be8_bytes.
    change (be_value _) with (be_value (be8 n)).
    rewrite be_value_be8, wrap64_small by (unfold in64, min64, max64; lia). done.
Qed.

Lemma slice_app (h b : list Z) : slice (h ++ b)%list (len h) (len h + len b) = Returns b.
Proof.
  unfold slice. pose proof (len_nonneg h). pose proof (len_nonneg b).
  rewrite !(proj2 (Z.leb_le _ _)) by lia. simpl.
  replace (Z.to_nat (len h)) with (length h) by (unfold len; lia).
  replace (Z.to_nat (len h + len b - len h)) with (length b) by (unfold len; lia).
  by rewrite drop_app_length, firstn_all.
Qed.

Lemma xor_key_involutive key p : xor_key key (xor_key key p) = p.
Proof.
  apply list_eq. intros i. unfold xor_key. rewrite !list_lookup_imap.
  destruct (p !! i); simpl; [|done]. f_equal. by rewrite Z.lxor_assoc, Z.lxor_nilpotent, Z.lxor_0_r.
Qed.

(** The code's indexing of the key is the specification's turn of it. *)
Lemma xor_key_turn k0 k1 k2 k3 b p :
  xor_key [k0; k1; k2; k3] (b :: p) = Z.lxor b k0 :: xor_key [k1; k2; k3; k0] p.
Proof.
  unfold xor_key. rewrite imap_cons. f_equal. apply imap_ext. intros i c _. cbn [compose]. f_equal.
  rewrite <- Nat.add_1_r, <- Nat.Div0.add_mod_idemp_l. pose proof (Nat.mod_upper_bound i 4).
  destruct (i mod 4)%nat as [|[|[|[|r]]]]; (done || lia).
Qed.

Lemma mask_octets_xor_key key p : len key = 4 -> mask_octets key p = xor_key key p.
Proof.
  intros Hk. destruct key as [|k0 [|k1 [|k2 [|k3 [|k4 key]]]]]; try (vm_compute in Hk; done).
  - clear Hk. revert k0 k1 k2 k3. induction p as [|b p IH]; intros k0 k1 k2 k3; [done|].
    rewrite xor_key_turn. cbn [mask_octets app]. by rewrite IH.
  - rewrite !len_cons in Hk. pose proof (len_nonneg key). lia.
Qed.

Lemma len_xor_key key p : len (xor_key key p) = len p.
Proof. unfold len, xor_key. by rewrite length_imap. Qed.

Lemma len_length_bytes m n : 1 <= len (length_bytes m n) <= 9.
Proof. unfold length_bytes. repeat case_match; vm_compute; split; discriminate. Qed.

(** ** Properties *)

(** [C37] [ParseFrame] decodes what RFC 6455 encodes: for every opcode,
    payload (shorter than 2^63 - 14 bytes) and optional masking key of four
    octets, parsing the frame that sections 5.2 and 5.3 build - the shortest
    form of the length, and the payload combined with the octets of the key in
    turn - gives the frame back, and leaves the caller's buffer with the payload
    unmasked in place. *)
Theorem ParseFrame_roundtrip fin opcode key payload :
  0 <= opcode < 16 -> len payload < 2 ^ 63 - 14 ->
  match key with Some k => len k = 4 | None => True end ->
  ParseFrame (build_frame fin opcode key payload)
  = Returns (Ok (mkFrame opcode payload fin),
             (header_bytes fin opcode key (len payload) ++ payload)%list).
Proof.
  intros Ho Hp Hk. pose proof (len_nonneg payload) as Hp0.
  set (n := len payload) in *. set (m := match key with Some _ => true | None => false end).
  pose proof (len_length_bytes m n) as Hlb.
  set (body := match key with Some k => xor_key k payload | None => payload end).
  assert (match key with Some k => mask_octets k payload | None => payload end = body) as Hmo
    by (unfold body; destruct key; [by apply mask_octets_xor_key|done]).
  assert (len body = n) as Hbody by (unfold body; destruct key; [apply len_xor_key|done]).
  destruct (first_byte fin opcode Ho) as [Hfin Hop].
  destruct (frame_length_built ((if fin then 128 else 0) + opcode) m n (default [] key ++ body)%list)
    as [Hlen Hmask]; [lia|].
  unfold build_frame, header_bytes. rewrite Hmo. fold m n. rewrite <- app_comm_cons, <- app_assoc.
  unfold ParseFrame. rewrite Hlen, Hmask. rewrite !byte_at_0, Hfin, Hop.
  set (h := ((if fin then 128 else 0) + opcode) :: length_bytes m n).
  change (((if fin then 128 else 0) + opcode) :: length_bytes m n ++ default [] key ++ body)%list
    with (h ++ default [] key ++ body)%list.
  assert (1 + len (length_bytes m n) = len h) as Hh by (unfold h; by rewrite len_cons).
  rewrite Hh. rewrite !len_app. rewrite (proj2 (Z.ltb_ge _ 2)) by (pose proof (len_nonneg (default [] key)); lia).
  set (hk := (h ++ default [] key)%list).
  assert ((if m then len h + 4 else len h) = len hk) as ->.
  { unfold m, hk. rewrite len_app. destruct key as [k|]; simpl; autorewrite with go; lia. }
  assert (len hk <= 14).
  { unfold hk. rewrite len_app. destruct key as [k|]; simpl; autorewrite with go; lia. }
  pose proof (len_nonneg hk).
  rewrite wrap64_small by (unfold in64, min64, max64; lia).
  rewrite (proj2 (Z.ltb_ge _ _)) by (unfold hk; rewrite len_app; lia).
  rewrite app_assoc. fold hk. 
  assert (slice (hk ++ body)%list (len hk) (len hk + n) = Returns body) as ->
    by (rewrite <- Hbody; apply slice_app). cbn [out_bind].
  destruct key as [k|]; unfold m; [|unfold body, hk; simpl; rewrite !app_nil_r; done].
  replace (Z.to_nat (len hk - 4)) with (length h) by (unfold hk, len in *; rewrite length_app; simpl; lia).
  assert (take 4 (drop (length h) (hk ++ body)%list) = k) as ->.
  { unfold hk. rewrite <- app_assoc, drop_app_length. simpl. 
    replace 4%nat with (length k) by (unfold len in Hk; lia). by rewrite take_app_length. }
  rewrite (drop_ge _ (Z.to_nat (len hk + n))) by (rewrite length_app; unfold len in *; lia).
  replace (Z.to_nat (len hk)) with (length hk) by (unfold len; lia).
  unfold body. by rewrite take_app_length, xor_key_involutive, app_nil_r.
Qed.

(** ** Panics of the parser *)

(** The 64-bit length of a frame, unsigned as RFC 6455 defines it, and the
    offset of its payload. *)
Definition long_frame (data : list Z) : bool :=
  (10 <=? len data) && (Z.land (byte_at data 1) 127 =? 127).
Definition declared_length (data : list Z) : Z := be_value (take 8 (drop 2 data)).
Definition payload_offset (data : list Z) : Z :=
  if Z.land (byte_at data 1) 128 =? 0 then 10 else 14.

Lemma frame_length_cases data p idx :
  Forall byte data -> 2 <= len data -> frame_length data = Some (p, idx) ->
  (long_frame data = false /\ 0 <= idx <= 4 /\ 0 <= p < 65536) \/
  (long_frame data = true /\ idx = 10 /\ p = wrap64 (declared_length data) /\
   0 <= declared_length data < 2 ^ 64).
Proof.
  intros Hb Hl. unfold frame_length, long_frame.
  assert (forall i, byte (byte_at data i)) as Hbyte.
  { intros i. unfold byte_at. destruct (nth_in_or_default (Z.to_nat i) data 0) as [Hin| ->];
      [|done]. rewrite Forall_forall in Hb. apply Hb. by apply list_elem_of_In. }
  pose proof (land_127 (byte_at data 1)) as E1.
  pose proof (Z.mod_pos_bound (byte_at data 1) 128 ltac:(done)).
  destruct (Z.eqb_spec (Z.land (byte_at data 1) 127) 126) as [E|E];
    [|destruct (Z.eqb_spec (Z.land (byte_at data 1) 127) 127) as [E'|E']].
  - destruct (len data <? 4); [done|]. intros [= <- <-]. left. rewrite E. simpl.
    rewrite andb_false_r. rewrite lor_shiftl by (done || apply Hbyte). change (2 ^ 8) with 256.
    pose proof (Hbyte 2). pose proof (Hbyte 3). unfold byte in *. lia.
  - destruct (Z.ltb_spec (len data) 10); [done|]. intros [= <- <-]. right.
    rewrite (proj2 (Z.leb_le _ _)) by lia. simpl.
    destruct data as [|b0 [|b1 [|b2 [|b3 [|b4 [|b5 [|b6 [|b7 [|b8 [|b9 rest]]]]]]]]]];
      try (exfalso; vm_compute in H0; by apply H0).
    rewrite !Forall_cons in Hb. destruct Hb as (_ & _ & H2 & H3 & H4 & H5 & H6 & H7 & H8 & H9 & _).
    unfold byte_at, declared_length. simpl nth. simpl drop. simpl take. rewrite long_length by (rewrite !Forall_cons; done).
    pose proof (be_value_range [b2; b3; b4; b5; b6; b7; b8; b9]) as Hv.
    rewrite !Forall_cons in Hv. split; [done|]. split; [done|]. split; [done|]. apply Hv. done.
  - intros [= <- <-]. left. rewrite andb_false_r. lia.
Qed.

(** [ParseFrame] panics, on bytes from the network, exactly when the
    64-bit length field is present and so large that the int sum
    [idx+payloadLen] wraps around to at most the length of the data. *)
Theorem ParseFrame_panics data :
  Forall byte data -> len data < 2 ^ 62 ->
  ParseFrame data = Panics <->
  long_frame data = true /\ 2 ^ 63 <= payload_offset data + declared_length data
  /\ payload_offset data + declared_length data - 2 ^ 64 <= len data.
Proof.
  intros Hb Hlen. unfold ParseFrame. pose proof (len_nonneg data).
  destruct (Z.ltb_spec (len data) 2) as [Hl|Hl].
  { split; [done|]. unfold long_frame. intros [H1 _]. b2p. lia. }
  destruct (frame_length data) as [[p idx]|] eqn:Hf.
  2:{ split; [done|]. unfold long_frame, frame_length in *. intros [H1 _]. b2p.
      rewrite H1 in Hf. simpl in Hf. destruct (Z.ltb_spec (len data) 10); [lia|done]. }
  destruct (frame_length_cases data p idx Hb Hl Hf) as [(HF & Hi & Hp)|(HT & -> & Hp & Hd)].
  - rewrite HF. set (idx' := if negb _ then _ else _).
    assert (0 <= idx' <= 8) by (unfold idx'; case_match; lia).
    rewrite wrap64_small by (unfold in64, min64, max64; lia).
    destruct (len data <? _); [split; [done|naive_solver]|].
    unfold slice. rewrite !(proj2 (Z.leb_le _ _)) by lia. simpl. split; [case_match; done|naive_solver].
  - rewrite HT. set (idx' := if negb _ then _ else _).
    assert (idx' = payload_offset data) as -> by (unfold idx', payload_offset; by destruct (_ =? 0)).
    assert (payload_offset data = 10 \/ payload_offset data = 14) as Ho
      by (unfold payload_offset; case_match; auto).
    set (o := payload_offset data) in *. set (v := declared_length data) in *.
    rewrite Hp, wrap64_add_r, wrap64_unsigned by lia.
    destruct (Z.leb_spec (2 ^ 63) (o + v)).
    + destruct (Z.ltb_spec (len data) (o + v - 2 ^ 64)); [split; [done|lia]|].
      unfold slice. rewrite (proj2 (Z.leb_gt o _)), andb_false_r by lia. simpl. split; [lia|done].
    + destruct (len data <? _); [split; [done|lia]|].
      unfold slice. rewrite !(proj2 (Z.leb_le _ _)) by lia. simpl. split; [case_match; done|lia].
Qed.

(** ** Message checks *)

(** The opening brackets of a payload, and the depth of its brackets. *)
Definition openings (payload : list Z) : Z := count_of is_opening payload.

Lemma openings_cons b p : openings (b :: p) = (if is_opening b then 1 else 0) + openings p.
Proof. apply count_of_cons. Qed.

Lemma depth_from_spec m nested payload :
  0 <= nested -> nested + len payload < max64 ->
  depth_from m nested payload <> None <-> nested < nested + openings payload /\ m < nested + openings payload.
Proof.
  revert nested. induction payload as [|b p IH]; intros nested Hn Hl.
  - simpl. unfold openings. rewrite count_of_nil. split; [done|lia].
  - rewrite len_cons in Hl. rewrite openings_cons. simpl. pose proof (len_nonneg p).
    pose proof (count_of_le is_opening p : 0 <= openings p <= _) as Ho.
    destruct (is_opening b); [|rewrite IH by lia; lia].
    rewrite incr_small by (unfold min64, max64 in *; lia).
    destruct (Z.ltb_spec m (nested + 1)); [split; [lia|done]|]. rewrite IH by lia. lia.
Qed.

(** The JSON depth check counts opening brackets, not depth: a payload is
    refused exactly when it has more than [maxDepth] of them, closed or not. *)
Theorem json_depth_counts_openings payload w :
  0 <= maxDepth w -> len payload < max64 ->
  checkJSONDepth payload w <> None <-> maxDepth w < openings payload.
Proof.
  intros Hm Hl. unfold checkJSONDepth. rewrite depth_from_spec by lia. simpl. lia.
Qed.

(** A client's messages in a run with the given arrival times. *)
Fixpoint messages `{Unicode} `{MessageTypes} (ctx : RequestContext) (l : list (Z * Frame))
    (w : WebSocketInspector) : WebSocketInspector :=
  match l with
  | [] => w
  | (now, f) :: l => messages ctx l (InspectMessage now now ctx f w).2
  end.

Fixpoint gaps_within (d last : Z) (times : list Z) : Prop :=
  match times with
  | [] => True
  | t :: ts => last <= t <= last + d /\ gaps_within d t ts
  end.

Lemma InspectMessage_stats `{Unicode} `{MessageTypes} now ctx f w s :
  frameLog w !! RealIP ctx = Some s -> LastSeen s <= now <= LastSeen s + Minute ->
  exists s', frameLog (InspectMessage now now ctx f w).2 !! RealIP ctx = Some s' /\
    Count s' = incr (Count s) /\ LastSeen s' = now.
Proof.
  intros Hs Hn. unfold InspectMessage, getStats. rewrite Hs. simpl.
  rewrite (time_sub_exact now) by (unfold in64, min64, max64, Minute, Second in *; lia).
  rewrite (proj2 (Z.ltb_ge _ _)) by lia. simpl. rewrite lookup_insert_eq. by eexists.
Qed.

Lemma messages_stats `{Unicode} `{MessageTypes} ctx l w s now :
  frameLog w !! RealIP ctx = Some s -> gaps_within Minute (LastSeen s) (l.*1 ++ [now])%list ->
  0 <= Count s -> Count s + len l < max64 ->
  exists s', frameLog (messages ctx l w) !! RealIP ctx = Some s' /\ Count s' = Count s + len l /\
    LastSeen s' <= now <= LastSeen s' + Minute.
Proof.
  revert w s. induction l as [|[t f] l IH]; intros w s Hs Hg Hc Hl.
  - simpl in *. exists s. rewrite len_nil. split_and!; [done|lia|lia|lia].
  - cbn [fmap list_fmap app gaps_within fst] in Hg. destruct Hg as [Hn Hg].
    rewrite len_cons in *. pose proof (len_nonneg l).
    destruct (InspectMessage_stats t ctx f w s Hs Hn) as (s' & Hs' & Hc' & Hl').
    rewrite incr_small in Hc' by (unfold min64, max64 in *; lia).
    cbn [messages]. destruct (IH _ s' Hs') as (s2 & ? & ? & ?); [by rewrite Hl'|lia|lia|].
    exists s2. split_and!; [done|lia|lia|lia].
Qed.

Lemma messages_config `{Unicode} `{MessageTypes} ctx l w :
  maxFramesPerMin (messages ctx l w) = maxFramesPerMin w /\
  blockOnLimit (messages ctx l w) = blockOnLimit w.
Proof.
  revert w. induction l as [|[t f] l IH]; intros w; [done|]. cbn [messages].
  destruct (IH (InspectMessage t t ctx f w).2) as [-> ->]. done.
Qed.

(** The per-minute frame count is not per minute: as long as a client
    never pauses for more than a minute its count only grows, so after
    [maxFramesPerMin] + 1 messages, however slow, its next handshake is
    refused. *)
Theorem slow_client_exceeds_frame_limit `{Unicode} `{MessageTypes} ctx w t0 f l now :
  isWebSocket ctx = true -> frameLog w !! RealIP ctx = None -> zero_time + Minute < t0 ->
  gaps_within Minute t0 (l.*1 ++ [now])%list -> blockOnLimit w = true ->
  0 < maxFramesPerMin w <= len l -> 1 + len l < max64 ->
  let dec := (Inspect now ctx (messages ctx ((t0, f) :: l) w)).1 in
  d_Action dec = ActionBlock /\ RuleID dec = "WS-001".
Proof.
  intros Hws Hw Ht0 Hg Hb Hm Hl. set (w1 := messages ctx ((t0, f) :: l) w).
  assert (exists s, frameLog (InspectMessage t0 t0 ctx f w).2 !! RealIP ctx = Some s /\
            Count s = 1 /\ LastSeen s = t0) as (s & Hs & Hc & Hls).
  { unfold InspectMessage, getStats. rewrite Hw. simpl.
    rewrite time_sub_gt, (proj2 (Z.ltb_lt _ _)) by (done || lia || (vm_compute; done)).
    simpl. rewrite lookup_insert_eq. by eexists. }
  destruct (messages_stats ctx l _ s now Hs) as (s' & Hs' & Hc' & Hn);
    [by rewrite Hls|lia|lia|].
  destruct (messages_config ctx ((t0, f) :: l) w) as [Hmax Hblk]. fold w1 in Hmax, Hblk.
  change (messages ctx l (InspectMessage t0 t0 ctx f w).2) with w1 in Hs'.
  unfold Inspect, getStats. rewrite Hws, Hs'. simpl.
  rewrite (time_sub_exact now) by (unfold in64, min64, max64, Minute, Second in *; lia).
  rewrite (proj2 (Z.ltb_ge Minute _)) by lia. simpl. rewrite Hmax, Hblk, Hb.
  rewrite (proj2 (Z.ltb_lt 0 _)), (proj2 (Z.ltb_lt (maxFramesPerMin w) (Count s'))) by lia. done.
Qed.

(** *** Control frames and origins *)

(** With the default message types the ping, pong and close switches do
    nothing: such a frame is refused whether it is enabled or not. *)
Theorem control_frames_refused `{Unicode} `{MessageTypes} cfg frame now1 now2 ctx w :
  AllowedTypes cfg = [] -> allowedTypes w = allowedTypes (NewWebSocketInspector cfg) ->
  Type_ frame ∈ [CloseMessage; PingMessage; PongMessage] ->
  d_Action (InspectMessage now1 now2 ctx frame w).1 = ActionBlock.
Proof.
  intros Hc Ha Ht. unfold InspectMessage, getStats, message_decision. simpl. rewrite Ha.
  unfold NewWebSocketInspector. rewrite Hc. simpl. rewrite bool_decide_false.
  - by repeat case_match.
  - pose proof message_types_distinct as Hd. rewrite !NoDup_cons in Hd.
    rewrite !elem_of_cons, !elem_of_nil in *. intuition congruence.
Qed.

(** The origin check matches substrings: any origin that contains an
    allowed one, an attacker's domain with the allowed name in it included,
    is accepted. *)
Theorem origin_substring_accepted `{Unicode} allowed origins pre suf r :
  allowed ∈ origins -> Get (Header r) "Origin" = pre ++ allowed ++ suf ->
  CheckOrigin origins r = true.
Proof.
  intros Ha Ho. unfold CheckOrigin. destruct origins as [|o os]; [done|]. rewrite Ho.
  apply orb_true_iff. right. apply existsb_exists. exists allowed.
  split; [by apply list_elem_of_In|]. apply orb_true_iff. right. apply Contains_spec. by exists pre, suf.
Qed.

(** ** Witnesses *)

Lemma ParseFrame_roundtrip_witness :
  ParseFrame (build_frame true 1 (Some [1; 2; 3; 4]) [72; 105; 33; 10; 200])
  = Returns (Ok (mkFrame 1 [72; 105; 33; 10; 200] true),
             [129; 133; 1; 2; 3; 4; 72; 105; 33; 10; 200]).
Proof.
  apply (ParseFrame_roundtrip true 1 (Some [1; 2; 3; 4]) [72; 105; 33; 10; 200]);
    [lia|reflexivity|reflexivity].
Defined.

Lemma ParseFrame_panics_witness :
  ParseFrame [130; 127; 255; 255; 255; 255; 255; 255; 255; 240] = Panics <->
  (true = true /\ 2 ^ 63 <= 10 + 18446744073709551600
   /\ 10 + 18446744073709551600 - 2 ^ 64 <= 10).
Proof.
  apply (ParseFrame_panics [130; 127; 255; 255; 255; 255; 255; 255; 255; 240]).
  - repeat constructor; vm_compute; discriminate.
  - vm_compute. reflexivity.
Defined.

Definition example_ws : WebSocketInspector :=
  mkWS 65536 3 2 true ∅ (fun t => t =? 1) true true true true.

Lemma json_depth_counts_openings_witness :
  checkJSONDepth (bytes_of "[{},{},{}]") example_ws <> None <-> 3 < 4.
Proof.
  apply (json_depth_counts_openings (bytes_of "[{},{},{}]") example_ws).
  - vm_compute. discriminate.
  - vm_compute. reflexivity.
Defined.

Definition handshake : RequestContext :=
  mkContext None None "" "10.0.0.1" "" "/ws" "GET"
    (list_to_map [("Upgrade", "websocket"); ("Connection", "Upgrade");
                  ("Sec-Websocket-Key", "k"); ("Sec-Websocket-Version", "13")])
    ∅ ∅ ∅ None "" "" "" "" "" 0 f0 f0 [] false false 0 (lit "") "" "" "" "".

#[local] Existing Instance unicode_ascii.
#[local] Existing Instance rfc6455.

Lemma slow_client_exceeds_frame_limit_witness :
  let text := mkFrame 1 [72; 105] true in
  let dec := (Inspect (3 * Minute) handshake
    (messages handshake [(0, text); (Minute, text); (2 * Minute, text)] example_ws)).1 in
  d_Action dec = ActionBlock /\ RuleID dec = "WS-001".
Proof.
  apply (slow_client_exceeds_frame_limit handshake example_ws 0 (mkFrame 1 [72; 105] true)
    [(Minute, mkFrame 1 [72; 105] true); (2 * Minute, mkFrame 1 [72; 105] true)] (3 * Minute));
    vm_compute; repeat split; discriminate.
Defined.

Lemma control_frames_refused_witness :
  d_Action (InspectMessage 0 0 handshake (mkFrame 9 [] true)
    (NewWebSocketInspector (mkWSConfig 65536 10 0 false [] true true true true))).1 = ActionBlock.
Proof.
  apply (control_frames_refused (mkWSConfig 65536 10 0 false [] true true true true));
    [reflexivity|reflexivity|]. simpl. right. left.
Defined.

Lemma origin_substring_accepted_witness :
  CheckOrigin ["example.com"]
    (mkRequest {["Origin" := ["https://example.com.evil.io"]]} "GET" "/" "h" "" "" 0 [] ∅ None) = true.
Proof.
  apply (origin_substring_accepted "example.com" ["example.com"] "https://" ".evil.io"); [left|reflexivity].
Defined.
