(* ===== verification/Credential.v ===== *)
(** * Credential protection: [internal/engine/credential.go]

    The login lockout per user, the password-spray tracker, the brute-force
    backoff per client, the leaked-credential check, and the JWT and OAuth
    header checks. The mutex serialises the operations. A reading of the clock
    is shared by the readings an operation makes in a row. *)

From S2P Require Import Prelude Float64 GoStr Types SlidingWindow Crypto Json.

#[local] Open Scope string_scope.
#[local] Open Scope Z_scope.

(** ** State *)

Record loginTracker : Type := mkLogin {
  lt_attempts : Z;
  lt_firstSeen : Z;
  lt_lastSeen : Z;
  locked : bool;
  lockoutAt : Z
}.

Record sprayTracker : Type := mkSpray {
  usernames : gmap string Z;
  sp_count : Z;
  sp_lastSeen : Z
}.

Record bruteForceTracker : Type := mkBrute {
  bf_attempts : Z;
  backoff : Z;
  nextTry : Z;
  bf_firstSeen : Z
}.

Record CredentialProtection : Type := mkCred {
  loginAttempts : gmap string loginTracker;
  passwordSpray : gmap string sprayTracker;
  bruteForce : gmap string bruteForceTracker;
  leakedCreds : gmap string bool;
  hibpEnabled : bool;
  lockoutDuration : Z;
  maxAttempts : Z
}.

Definition set_logins (m : gmap string loginTracker) (c : CredentialProtection) : CredentialProtection :=
  mkCred m (passwordSpray c) (bruteForce c) (leakedCreds c) (hibpEnabled c) (lockoutDuration c)
    (maxAttempts c).
Definition set_spray (m : gmap string sprayTracker) (c : CredentialProtection) : CredentialProtection :=
  mkCred (loginAttempts c) m (bruteForce c) (leakedCreds c) (hibpEnabled c) (lockoutDuration c)
    (maxAttempts c).
Definition set_brute (m : gmap string bruteForceTracker) (c : CredentialProtection) : CredentialProtection :=
  mkCred (loginAttempts c) (passwordSpray c) m (leakedCreds c) (hibpEnabled c) (lockoutDuration c)
    (maxAttempts c).

(** The window and the login paths are arguments that nothing reads. *)
Definition NewCredentialProtection (maxAttempts windowSec blockDurationSec : Z) (loginPaths : list string)
    : CredentialProtection :=
  let maxAttempts := if maxAttempts <=? 0 then 5 else maxAttempts in
  let blockDurationSec := if blockDurationSec <=? 0 then 3600 else blockDurationSec in
  mkCred ∅ ∅ ∅ ∅ false (wrap64 (blockDurationSec * Second)) maxAttempts.

(** ** Credential stuffing *)

(** The [username] and [password] of a form, or else of the query. *)
Definition credentials (ctx : RequestContext) : option (string * string) :=
  match form ctx "username", form ctx "password" with
  | u :: _, p :: _ => Some (u, p)
  | _, _ =>
      match query ctx "username", query ctx "password" with
      | u :: _, p :: _ => Some (u, p)
      | _, _ => None
      end
  end.

(** The step of an existing tracker. *)
Definition login_step (now : Z) (maxAttempts lockoutDuration : Z) (userHash : string) (t : loginTracker)
    : option Decision * loginTracker :=
  let attempts := incr (lt_attempts t) in
  if locked t then
    if time_sub now (lockoutAt t) <? lockoutDuration then
      (Some (decision ActionBlock "CRED001" "Account Locked" "high" 80
               (Sprintf "account locked until %v" [ATime (lockoutAt t + lockoutDuration)])),
       mkLogin attempts (lt_firstSeen t) now true (lockoutAt t))
    else (None, mkLogin 0 (lt_firstSeen t) now false (lockoutAt t))
  else if wrap64 (maxAttempts * 3) <? attempts then
    (Some (decision ActionBlock "CRED002" "Credential Stuffing Detected" "critical" 90
             (Sprintf "credential stuffing: %d attempts for user hash %s"
                [AInt attempts; AStr (take_str 8 userHash)])),
     mkLogin attempts (lt_firstSeen t) now true now)
  else if maxAttempts <? attempts then
    (Some (decision ActionRateLimit "CRED003" "Excessive Login Attempts" "medium" 50
             (Sprintf "%d login attempts for user" [AInt attempts])),
     mkLogin attempts (lt_firstSeen t) now false (lockoutAt t))
  else (None, mkLogin attempts (lt_firstSeen t) now false (lockoutAt t)).

Definition detectCredentialStuffing (now : Z) (ctx : RequestContext) (c : CredentialProtection)
    : option Decision * CredentialProtection :=
  if negb (String.eqb (Method ctx) "POST") then (None, c)
  else
    match credentials ctx with
    | None => (None, c)
    | Some (username, _) =>
        let userHash := sha256_hex username in
        match loginAttempts c !! userHash with
        | None => (None, set_logins (<[userHash := mkLogin 1 now now false zero_time]> (loginAttempts c)) c)
        | Some t =>
            let '(d, t) := login_step now (maxAttempts c) (lockoutDuration c) userHash t in
            (d, set_logins (<[userHash := t]> (loginAttempts c)) c)
        end
    end.

(** ** Password spray *)

Definition form_or_query_password (ctx : RequestContext) : option string :=
  match form ctx "password" with
  | p :: _ => Some p
  | [] => head (query ctx "password")
  end.

Definition spray_step (now : Z) (t : sprayTracker) : option Decision * sprayTracker :=
  let count := incr (sp_count t) in
  let t := mkSpray (usernames t) count now in
  let uniqueUsernames := Z.of_nat (size (usernames t)) in
  ((if (10 <=? uniqueUsernames) && (50 <=? count)
    then Some (decision ActionBlock "CRED004" "Password Spray Attack" "critical" 90
                 (Sprintf "password spray detected: %d attempts across %d users"
                    [AInt count; AInt uniqueUsernames]))
    else if (20 <=? count) && (5 <=? uniqueUsernames)
    then Some (decision ActionRateLimit "CRED005" "Potential Password Spray" "high" 65
                 (Sprintf "potential password spray: %d attempts" [AInt count]))
    else None), t).

Definition detectPasswordSpray (now : Z) (ctx : RequestContext) (c : CredentialProtection)
    : option Decision * CredentialProtection :=
  match form_or_query_password ctx with
  | None => (None, c)
  | Some password =>
      let passHash := take_str 16 (sha256_hex password) in
      match passwordSpray c !! passHash with
      | None => (None, set_spray (<[passHash := mkSpray ∅ 1 now]> (passwordSpray c)) c)
      | Some t =>
          let '(d, t) := spray_step now t in
          (d, set_spray (<[passHash := t]> (passwordSpray c)) c)
      end
  end.

(** ** Brute force *)

Definition backoff_for (attempts : Z) : Z :=
  if 20 <? attempts then 30 * Minute
  else if 10 <? attempts then 5 * Minute
  else if 5 <? attempts then 30 * Second
  else 1 * Second.

Definition brute_step (now : Z) (ip : string) (t : bruteForceTracker)
    : option Decision * bruteForceTracker :=
  let attempts := incr (bf_attempts t) in
  if time_before now (nextTry t) then
    (Some (decision ActionBlock "CRED006" "Brute Force Blocked" "high" 80
             (Sprintf "brute force blocked for %s, backoff: %v" [AStr ip; ADur (backoff t)])),
     mkBrute attempts (backoff t) (nextTry t) (bf_firstSeen t))
  else
    (None, mkBrute attempts (backoff_for attempts) (now + backoff_for attempts) (bf_firstSeen t)).

Definition detectBruteForce (now : Z) (ctx : RequestContext) (c : CredentialProtection)
    : option Decision * CredentialProtection :=
  let ip := RealIP ctx in
  match bruteForce c !! ip with
  | None => (None, set_brute (<[ip := mkBrute 1 (1 * Second) now now]> (bruteForce c)) c)
  | Some t =>
      let '(d, t) := brute_step now ip t in
      (d, set_brute (<[ip := t]> (bruteForce c)) c)
  end.

(** ** Leaked credentials, JWT, OAuth *)

Definition detectLeakedCredential (ctx : RequestContext) (c : CredentialProtection) : option Decision :=
  match form_or_query_password ctx with
  | None => None
  | Some password =>
      let passHash := HEX (sha256 (bytes_of password)) in
      if hibpEnabled c && lookup_default false (leakedCreds c) passHash
      then Some (decision ActionBlock "CRED007" "Leaked Credential" "critical" 95
                   (lit "password matches known leaked credential database"))
      else None
  end.

(** [json.Unmarshal] into the structs of the JWT header and payload; [None] is
    an error. *)
Definition header_alg `{Unicode} (data : list Z) : option string :=
  match Unmarshal (of_bytes data) with
  | Some (JObject l) =>
      alg ← member as_string "alg" "" l; _ ← member as_string "typ" "" l; Some alg
  | Some JNull => Some ""
  | _ => None
  end.
Definition payload_exp `{Unicode} (data : list Z) : option Z :=
  match Unmarshal (of_bytes data) with
  | Some (JObject l) =>
      exp ← member as_int64 "exp" 0 l; _ ← member as_int64 "nbf" 0 l; _ ← member as_int64 "iat" 0 l;
      Some exp
  | Some JNull => Some 0
  | _ => None
  end.

Definition validateJWT `{Unicode} (now : Z) (ctx : RequestContext) : option Decision :=
  let authHeader := header ctx "Authorization" in
  if String.eqb authHeader "" then None
  else if negb (HasPrefix (ToUpper authHeader) "BEARER ") then None
  else
    match Split (drop_str 7 authHeader) "." with
    | [p0; p1; _] =>
        match b64_raw_decode true p0 with
        | None =>
            Some (decision ActionBlock "CRED009" "Invalid JWT Header Encoding" "high" 65
                    (lit "invalid base64 encoding in jwt header"))
        | Some headerJSON =>
            match header_alg headerJSON with
            | None => None
            | Some alg =>
                if EqualFold alg "none"
                then Some (decision ActionBlock "CRED010" "JWT alg:none Attack" "critical" 95
                             (lit "jwt with alg:none detected"))
                else
                  payloadJSON ← b64_raw_decode true p1;
                  exp ← payload_exp payloadJSON;
                  if (0 <? exp) && (exp <? time_unix now)
                  then Some (decision ActionBlock "CRED013" "Expired JWT" "medium" 40
                               (lit "jwt token has expired"))
                  else None
            end
        end
    | _ => Some (decision ActionBlock "CRED008" "Malformed JWT" "high" 70
                   (lit "jwt token does not have 3 parts"))
    end.

Definition detectOAuthAbuse `{Unicode} (ctx : RequestContext) : option Decision :=
  let authHeader := header ctx "Authorization" in
  if HasPrefix (ToLower authHeader) "bearer " && (Count (drop_str 7 authHeader) "." =? 2) then None
  else
    match query ctx "state" with
    | s :: _ =>
        if 2048 <? slen s
        then Some (decision ActionBlock "CRED013" "OAuth State Overflow" "medium" 40
                     (lit "oauth state parameter exceeds maximum size"))
        else None
    | [] => None
    end.

(** ** Inspect *)

Definition Inspect `{Unicode} (now : Z) (ctx : RequestContext) (c : CredentialProtection)
    : option Decision * CredentialProtection :=
  match detectCredentialStuffing now ctx c with
  | (Some d, c) => (Some d, c)
  | (None, c) =>
      match detectPasswordSpray now ctx c with
      | (Some d, c) => (Some d, c)
      | (None, c) =>
          match detectBruteForce now ctx c with
          | (Some d, c) => (Some d, c)
          | (None, c) =>
              (detectLeakedCredential ctx c <||> validateJWT now ctx <||> detectOAuthAbuse ctx, c)
          end
      end
  end.

(** ** Lemmas *)

Section histories.
  Context `{Unicode}.

  (** Requests in the order they are handled. *)
Definition run (ops : list (Z * RequestContext)) (c : CredentialProtection) : CredentialProtection :=
    fold_left (fun c o => (Inspect o.1 o.2 c).2) ops c.

Lemma stuffing_frame now ctx c :
    let c' := (detectCredentialStuffing now ctx c).2 in
    passwordSpray c' = passwordSpray c /\ bruteForce c' = bruteForce c /\
    hibpEnabled c' = hibpEnabled c /\ maxAttempts c' = maxAttempts c /\
    lockoutDuration c' = lockoutDuration c.
  Proof.
    unfold detectCredentialStuffing. repeat (case_match; simplify_eq/=; try done).
  Qed.

Lemma spray_frame now ctx c :
    let c' := (detectPasswordSpray now ctx c).2 in
    loginAttempts c' = loginAttempts c /\ bruteForce c' = bruteForce c /\
    hibpEnabled c' = hibpEnabled c /\ maxAttempts c' = maxAttempts c /\
    lockoutDuration c' = lockoutDuration c.
  Proof. unfold detectPasswordSpray. repeat (case_match; simplify_eq/=; try done). Qed.

Lemma brute_frame now ctx c :
    let c' := (detectBruteForce now ctx c).2 in
    loginAttempts c' = loginAttempts c /\ passwordSpray c' = passwordSpray c /\
    hibpEnabled c' = hibpEnabled c /\ maxAttempts c' = maxAttempts c /\
    lockoutDuration c' = lockoutDuration c.
  Proof. unfold detectBruteForce. repeat (case_match; simplify_eq/=; try done). Qed.

  (** The three stages of [Inspect] that keep state. *)
Lemma Inspect_cases now ctx c :
    let '(d1, c1) := detectCredentialStuffing now ctx c in
    let '(d2, c2) := detectPasswordSpray now ctx c1 in
    let '(d3, c3) := detectBruteForce now ctx c2 in
    (exists d, d1 = Some d /\ Inspect now ctx c = (Some d, c1)) \/
    (exists d, d1 = None /\ d2 = Some d /\ Inspect now ctx c = (Some d, c2)) \/
    (exists d, d1 = None /\ d2 = None /\ d3 = Some d /\ Inspect now ctx c = (Some d, c3)) \/
    (d1 = None /\ d2 = None /\ d3 = None /\
     Inspect now ctx c
     = (detectLeakedCredential ctx c3 <||> validateJWT now ctx <||> detectOAuthAbuse ctx, c3)).
  Proof.
    unfold Inspect. destruct (detectCredentialStuffing now ctx c) as [[d1|] c1].
    { destruct (detectPasswordSpray now ctx c1) as [d2 c2], (detectBruteForce now ctx c2) as [d3 c3].
      left. by eexists. }
    destruct (detectPasswordSpray now ctx c1) as [[d2|] c2].
    { destruct (detectBruteForce now ctx c2) as [d3 c3]. right. left. by eexists. }
    destruct (detectBruteForce now ctx c2) as [[d3|] c3]; right; right; [left; by eexists|by right].
  Qed.

  (** *** Detectors that cannot fire *)

Definition no_usernames (c : CredentialProtection) : Prop :=
    hibpEnabled c = false /\ map_Forall (fun _ t => usernames t = ∅) (passwordSpray c).

Lemma spray_silent now ctx c :
    no_usernames c ->
    (detectPasswordSpray now ctx c).1 = None /\ no_usernames (detectPasswordSpray now ctx c).2.
  Proof.
    intros [Hh Hu]. unfold detectPasswordSpray.
    destruct (form_or_query_password ctx) as [p|]; [|done].
    set (h := take_str 16 (sha256_hex p)). destruct (passwordSpray c !! h) as [t|] eqn:Et; simpl.
    - rewrite (Hu _ _ Et). simpl. rewrite andb_false_r. split; [done|]. split; [done|].
      by apply map_Forall_insert_2.
    - split; [done|]. split; [done|]. by apply map_Forall_insert_2.
  Qed.

Definition rule_of (o : option Decision) : string := match o with Some d => RuleID d | None => "" end.

Lemma stuffing_rules now ctx c d :
    (detectCredentialStuffing now ctx c).1 = Some d ->
    RuleID d ∈ ["CRED001"; "CRED002"; "CRED003"].
  Proof.
    unfold detectCredentialStuffing, login_step.
    repeat (case_match; simplify_eq/=; try done); intros; simplify_eq/=; set_solver.
  Qed.

Lemma brute_rules now ctx c d :
    (detectBruteForce now ctx c).1 = Some d -> RuleID d = "CRED006".
  Proof.
    unfold detectBruteForce, brute_step. repeat (case_match; simplify_eq/=; try done).
    all: by intros [= <-].
  Qed.

Lemma jwt_oauth_rules now ctx d :
    validateJWT now ctx <||> detectOAuthAbuse ctx = Some d ->
    RuleID d ∈ ["CRED008"; "CRED009"; "CRED010"; "CRED013"].
  Proof.
    rewrite or_else_Some. intros [E|[_ E]].
    - revert E. unfold validateJWT, mbind, option_bind.
      repeat (case_match; simplify_eq/=; try done); intros; simplify_eq/=; set_solver.
    - revert E. unfold detectOAuthAbuse.
      repeat (case_match; simplify_eq/=; try done); intros; simplify_eq/=; set_solver.
  Qed.

Lemma Inspect_silent now ctx c :
    no_usernames c ->
    no_usernames (Inspect now ctx c).2 /\
    rule_of (Inspect now ctx c).1 ∈ [""; "CRED001"; "CRED002"; "CRED003"; "CRED006"; "CRED008";
                                     "CRED009"; "CRED010"; "CRED013"].
  Proof.
    intros Hc. pose proof (Inspect_cases now ctx c) as Hi.
    pose proof (stuffing_frame now ctx c) as (F1 & _ & F3 & _).
    pose proof (stuffing_rules now ctx c) as R1.
    destruct (detectCredentialStuffing now ctx c) as [d1 c1].
    cbn [fst snd] in *. assert (no_usernames c1) as Hc1
      by (destruct Hc as [Ha Hb]; split; [by rewrite F3|by rewrite F1]).
    pose proof (spray_silent now ctx c1 Hc1) as [S1 S2].
    destruct (detectPasswordSpray now ctx c1) as [d2 c2]. cbn [fst snd] in *.
    pose proof (brute_frame now ctx c2) as (_ & B2 & B3 & _).
    pose proof (brute_rules now ctx c2) as R3.
    destruct (detectBruteForce now ctx c2) as [d3 c3]. cbn [fst snd] in *.
    assert (no_usernames c3) as Hc3 by (destruct S2 as [Ha Hb]; split; [by rewrite B3|by rewrite B2]).
    destruct Hi as [(d & -> & ->)|[(d & -> & -> & ->)|[(d & -> & -> & -> & ->)|(-> & -> & -> & ->)]]]; simpl.
    - specialize (R1 d eq_refl). split; [done|set_solver].
    - done.
    - rewrite (R3 d eq_refl). split; [done|set_solver].
    - split; [done|]. unfold detectLeakedCredential. rewrite (proj1 Hc3).
      destruct (form_or_query_password ctx); simpl;
        destruct (validateJWT now ctx <||> detectOAuthAbuse ctx) as [d|] eqn:E; simpl; try set_solver;
        apply jwt_oauth_rules in E; set_solver.
  Qed.
  (** *** The backoff of a client *)

Definition throttle_rules : list string :=
    ["CRED001"; "CRED002"; "CRED003"; "CRED004"; "CRED005"; "CRED006"].
Definition throttled (o : option Decision) : bool := bool_decide (rule_of o ∈ throttle_rules).

  (** The instants at which a client's requests pass the throttles. *)
Fixpoint passes (ip : string) (ops : list (Z * RequestContext)) (c : CredentialProtection) : list Z :=
    match ops with
    | [] => []
    | (now, ctx) :: rest =>
        let '(d, c1) := Inspect now ctx c in
        if String.eqb (RealIP ctx) ip && negb (throttled d) then now :: passes ip rest c1
        else passes ip rest c1
    end.

Fixpoint spaced (gap : Z) (ts : list Z) : Prop :=
    match ts with
    | t :: ts => match ts with t2 :: _ => t + gap <= t2 | [] => True end /\ spaced gap ts
    | [] => True
    end.

Lemma throttled_stuffing now ctx c d :
    (detectCredentialStuffing now ctx c).1 = Some d -> throttled (Some d) = true.
  Proof.
    intros Hd%stuffing_rules. apply bool_decide_eq_true. unfold throttle_rules. simpl. set_solver.
  Qed.

Lemma throttled_spray now ctx c d :
    (detectPasswordSpray now ctx c).1 = Some d -> throttled (Some d) = true.
  Proof.
    unfold detectPasswordSpray, spray_step, throttled, throttle_rules. intros E.
    apply bool_decide_eq_true. revert E.
    repeat (case_match; simplify_eq/=; try done); intros; simplify_eq/=; set_solver.
  Qed.

Lemma throttled_brute now ctx c d :
    (detectBruteForce now ctx c).1 = Some d -> throttled (Some d) = true.
  Proof.
    intros Hd%brute_rules. apply bool_decide_eq_true. unfold throttle_rules. simpl. rewrite Hd. set_solver.
  Qed.

  (** What one request does to the tracker of [ip]. *)
Inductive tracker_step (ip : string) (now : Z) (ctx : RequestContext) (d : option Decision)
      (t : bruteForceTracker) : bruteForceTracker -> Prop :=
  | tracker_other : RealIP ctx <> ip -> tracker_step ip now ctx d t t
  | tracker_stopped : RealIP ctx = ip -> throttled d = true -> tracker_step ip now ctx d t t
  | tracker_blocked : RealIP ctx = ip -> throttled d = true ->
      tracker_step ip now ctx d t (mkBrute (incr (bf_attempts t)) (backoff t) (nextTry t) (bf_firstSeen t))
  | tracker_passed : RealIP ctx = ip -> nextTry t <= now ->
      tracker_step ip now ctx d t
        (mkBrute (incr (bf_attempts t)) (backoff_for (incr (bf_attempts t)))
           (now + backoff_for (incr (bf_attempts t))) (bf_firstSeen t)).

Lemma Inspect_tracker ip now ctx c t :
    bruteForce c !! ip = Some t ->
    exists t', bruteForce (Inspect now ctx c).2 !! ip = Some t' /\
      tracker_step ip now ctx (Inspect now ctx c).1 t t'.
  Proof.
    intros Ht. pose proof (Inspect_cases now ctx c) as Hi.
    pose proof (stuffing_frame now ctx c) as (_ & F & _).
    pose proof (throttled_stuffing now ctx c) as R1.
    destruct (detectCredentialStuffing now ctx c) as [d1 c1].
    pose proof (spray_frame now ctx c1) as (_ & S & _).
    pose proof (throttled_spray now ctx c1) as R2.
    destruct (detectPasswordSpray now ctx c1) as [d2 c2].
    pose proof (throttled_brute now ctx c2) as R3. cbn [fst snd] in *.
    assert (forall d, throttled d = true -> tracker_step ip now ctx d t t) as Hsame.
    { intros d Hd. destruct (decide (RealIP ctx = ip)); [by apply tracker_stopped|by apply tracker_other]. }
    assert (bruteForce c2 !! ip = Some t) as Ht2 by (by rewrite S, F).
    assert (exists t', bruteForce (detectBruteForce now ctx c2).2 !! ip = Some t' /\
      forall d, (detectBruteForce now ctx c2).1 = None \/ throttled d = true ->
        tracker_step ip now ctx d t t') as (t' & Hb & Hstep).
    { clear Hi. unfold detectBruteForce in *. destruct (decide (RealIP ctx = ip)) as [E|E].
      - rewrite E, Ht2 in *. unfold brute_step, time_before in *.
        destruct (Z.ltb_spec now (nextTry t)); simpl; rewrite lookup_insert_eq; eexists; (split; [done|]).
        + intros d [|]; [done|by apply tracker_blocked].
        + intros d _. by apply tracker_passed.
      - exists t. split; [|intros; by apply tracker_other].
        destruct (bruteForce c2 !! RealIP ctx); [destruct (brute_step _ _ _)|]; simpl;
          by rewrite lookup_insert_ne. }
    destruct (detectBruteForce now ctx c2) as [d3 c3]. cbn [fst snd] in *.
    destruct Hi as [(d & -> & ->)|[(d & -> & -> & ->)|[(d & -> & -> & -> & ->)|(-> & -> & -> & ->)]]];
      cbn [fst snd]; [exists t|exists t|exists t'|exists t'].
    - rewrite F. auto.
    - rewrite S, F. auto.
    - auto.
    - auto.
  Qed.

Lemma passes_spaced ip ops m c t :
    bruteForce c !! ip = Some t -> 20 <= bf_attempts t -> bf_attempts t + len ops < max64 ->
    from m ops.*1 ->
    spaced (30 * Minute) (passes ip ops c) /\
    match passes ip ops c with f :: _ => nextTry t <= f | [] => True end.
  Proof.
    revert m c t. induction ops as [|[now ctx] ops IH]; intros m c t Ht Ha Hl; [done|].
    rewrite len_cons in Hl. pose proof (len_nonneg ops). intros [_ Hfrom].
    destruct (Inspect_tracker ip now ctx c t Ht) as (t' & Ht' & Hstep).
    cbn [passes]. destruct (Inspect now ctx c) as [d c1]. cbn [fst snd] in *.
    assert (incr (bf_attempts t) = bf_attempts t + 1) as Hincr
      by (apply incr_small; unfold min64, max64 in *; lia).
    assert (20 <= bf_attempts t' /\ bf_attempts t' + len ops < max64) as [Ha' Hl']
      by (destruct Hstep; simpl; rewrite ?Hincr; lia).
    destruct (IH now c1 t' Ht' Ha' Hl' Hfrom) as [Hs Hf].
    destruct Hstep as [Hne|He Hd|He Hd|He Hd]; cbn [nextTry] in *.
    - rewrite (proj2 (String.eqb_neq _ _)) by done. done.
    - rewrite Hd, andb_false_r. done.
    - rewrite Hd, andb_false_r. done.
    - rewrite Hincr in Hf. unfold backoff_for in Hf. rewrite (proj2 (Z.ltb_lt _ _)) in Hf by lia.
      destruct (_ && _); cbn [spaced].
      + destruct (passes ip ops c1); done.
      + split; [done|]. destruct (passes ip ops c1); [done|]. unfold Minute, Second in *. lia.
  Qed.

  (** *** The attempts of a user *)

Definition is_attempt (h : string) (ctx : RequestContext) : bool :=
    String.eqb (Method ctx) "POST"
    && match credentials ctx with Some (u, _) => String.eqb (sha256_hex u) h | None => false end.

  (** The lockout check's answers to the attempts of the user with hash [h]. *)
Fixpoint answers (h : string) (ops : list (Z * RequestContext)) (c : CredentialProtection) : list string :=
    match ops with
    | [] => []
    | (now, ctx) :: rest =>
        let a := rule_of (detectCredentialStuffing now ctx c).1 in
        if is_attempt h ctx then a :: answers h rest (Inspect now ctx c).2
        else answers h rest (Inspect now ctx c).2
    end.

Definition attempts (h : string) (ops : list (Z * RequestContext)) : Z :=
    count_of (fun o => is_attempt h o.2) ops.

Lemma Inspect_logins now ctx c :
    let c' := (Inspect now ctx c).2 in
    loginAttempts c' = loginAttempts (detectCredentialStuffing now ctx c).2 /\
    maxAttempts c' = maxAttempts c /\ lockoutDuration c' = lockoutDuration c.
  Proof.
    pose proof (Inspect_cases now ctx c) as Hi.
    pose proof (stuffing_frame now ctx c) as (_ & _ & _ & F1 & F2).
    destruct (detectCredentialStuffing now ctx c) as [d1 c1].
    pose proof (spray_frame now ctx c1) as (S1 & _ & _ & S2 & S3).
    destruct (detectPasswordSpray now ctx c1) as [d2 c2].
    pose proof (brute_frame now ctx c2) as (B1 & _ & _ & B2 & B3).
    destruct (detectBruteForce now ctx c2) as [d3 c3]. cbn [fst snd] in *.
    destruct Hi as [(d & _ & ->)|[(d & _ & _ & ->)|[(d & _ & _ & _ & ->)|(_ & _ & _ & ->)]]];
      cbn [fst snd]; rewrite ?B1, ?S1, ?B2, ?S2, ?F1, ?B3, ?S3, ?F2; done.
  Qed.

Lemma stuffing_other h now ctx c :
    is_attempt h ctx = false ->
    loginAttempts (detectCredentialStuffing now ctx c).2 !! h = loginAttempts c !! h.
  Proof.
    unfold is_attempt, detectCredentialStuffing. destruct (String.eqb (Method ctx) "POST"); [|done].
    destruct (credentials ctx) as [[u p]|]; [|done]. simpl. intros Hne%String.eqb_neq.
    destruct (_ !! sha256_hex u); [destruct (login_step _ _ _ _ _)|]; simpl; by rewrite lookup_insert_ne.
  Qed.

Lemma stuffing_attempt h now ctx c :
    is_attempt h ctx = true ->
    match loginAttempts c !! h with
    | None =>
        (detectCredentialStuffing now ctx c).1 = None /\
        loginAttempts (detectCredentialStuffing now ctx c).2 !! h = Some (mkLogin 1 now now false zero_time)
    | Some t =>
        (detectCredentialStuffing now ctx c).1 = (login_step now (maxAttempts c) (lockoutDuration c) h t).1 /\
        loginAttempts (detectCredentialStuffing now ctx c).2 !! h
        = Some (login_step now (maxAttempts c) (lockoutDuration c) h t).2
    end.
  Proof.
    unfold is_attempt, detectCredentialStuffing. destruct (String.eqb (Method ctx) "POST"); [|done].
    destruct (credentials ctx) as [[u p]|]; [|done]. simpl. intros ->%String.eqb_eq.
    destruct (loginAttempts c !! h) as [t|] eqn:Et; simpl.
    - destruct (login_step _ _ _ _ _); simpl. by rewrite lookup_insert_eq.
    - by rewrite lookup_insert_eq.
  Qed.

  (** The answer to the [i]-th attempt of a user. *)
Definition answer_at (max i : Z) : string :=
    if i <=? max then "" else if i <=? 3 * max then "CRED003" else "CRED002".

Definition counted (max : Z) (h : string) (k : Z) (c : CredentialProtection) : Prop :=
    maxAttempts c = max /\
    (k <= 3 * max ->
     match loginAttempts c !! h with
     | None => k = 0
     | Some t => 1 <= k /\ lt_attempts t = k /\ locked t = false
     end).

Lemma counted_attempt max h k now ctx c :
    0 < max -> 3 * max < max64 -> 0 <= k <= 3 * max -> counted max h k c -> is_attempt h ctx = true ->
    rule_of (detectCredentialStuffing now ctx c).1 = answer_at max (k + 1) /\
    counted max h (k + 1) (Inspect now ctx c).2.
  Proof.
    intros Hmax Hov Hk [Hm Hc] Ha. specialize (Hc ltac:(lia)).
    pose proof (stuffing_attempt h now ctx c Ha) as Hs.
    destruct (Inspect_logins now ctx c) as (Hl & Hm' & _). unfold counted. rewrite Hl, Hm', Hm.
    unfold answer_at. destruct (loginAttempts c !! h) as [t|].
    - destruct Hc as (Hk1 & Ht & Hlock). destruct Hs as [-> ->]. unfold login_step.
      rewrite Hlock, Ht, Hm, incr_small, wrap64_small by (unfold in64, min64, max64 in *; lia).
      destruct (Z.ltb_spec (max * 3) (k + 1)); [|destruct (Z.ltb_spec max (k + 1))]; simpl.
      + rewrite !(proj2 (Z.leb_gt _ _)) by lia. split; [done|]. split; [done|]. intros; lia.
      + rewrite (proj2 (Z.leb_gt _ max)), (proj2 (Z.leb_le _ (3 * max))) by lia.
        split; [done|]. split; [done|]. intros _. split_and!; [lia|done|done].
      + rewrite (proj2 (Z.leb_le _ max)) by lia. split; [done|]. split; [done|].
        intros _. split_and!; [lia|done|done].
    - subst k. destruct Hs as [-> ->]. simpl. rewrite (proj2 (Z.leb_le _ max)) by lia.
      split; [done|]. split; [done|]. intros _. split_and!; [lia|done|done].
  Qed.

Lemma counted_other max h k now ctx c :
    counted max h k c -> is_attempt h ctx = false -> counted max h k (Inspect now ctx c).2.
  Proof.
    intros [Hm Hc] Ha. destruct (Inspect_logins now ctx c) as (Hl & Hm' & _).
    unfold counted. by rewrite Hl, Hm', stuffing_other.
  Qed.

Lemma answers_counted max h ops k c :
    0 < max -> 3 * max < max64 -> 0 <= k -> k + attempts h ops <= 3 * max + 1 -> counted max h k c ->
    answers h ops c = answer_at max <$> seqZ (k + 1) (attempts h ops).
  Proof.
    intros Hmax Hov. revert k c. induction ops as [|[now ctx] ops IH]; intros k c Hk Hle Hc; [done|].
    unfold attempts in *. rewrite count_of_cons in *. cbn [snd answers] in *.
    pose proof (count_of_le (fun o => is_attempt h o.2) ops) as Hcnt.
    destruct (is_attempt h ctx) eqn:Ha.
    - destruct (counted_attempt max h k now ctx c Hmax Hov ltac:(lia) Hc Ha) as [-> Hc'].
      rewrite (IH (k + 1)) by (done || lia).
      rewrite (seqZ_cons (k + 1)) by lia. rewrite fmap_cons. f_equal. f_equal. f_equal; lia.
    - rewrite (IH k) by (done || lia || by apply counted_other). by rewrite Z.add_0_l.
  Qed.

  (** *** A lockout *)

Definition locked_since (h : string) (t0 : Z) (c : CredentialProtection) : Prop :=
    exists t, loginAttempts c !! h = Some t /\ locked t = true /\ lockoutAt t = t0.

Lemma locked_step h t0 D now ctx c :
    lockoutDuration c = D -> min64 < D <= max64 -> locked_since h t0 c -> now - t0 < D ->
    (is_attempt h ctx = true -> rule_of (detectCredentialStuffing now ctx c).1 = "CRED001") /\
    locked_since h t0 (Inspect now ctx c).2 /\ lockoutDuration (Inspect now ctx c).2 = D.
  Proof.
    intros HD Hr (t & Ht & Hlk & Hat) Hn. destruct (Inspect_logins now ctx c) as (Hl & _ & Hd).
    unfold locked_since. rewrite Hl, Hd. destruct (is_attempt h ctx) eqn:Ha.
    - pose proof (stuffing_attempt h now ctx c Ha) as Hs. rewrite Ht in Hs. destruct Hs as [-> ->].
      unfold login_step. rewrite Hlk, Hat, HD, time_sub_lt, (proj2 (Z.ltb_lt _ _)) by (done || lia).
      simpl. split; [done|]. split; [by eexists|done].
    - rewrite stuffing_other by done. split; [done|]. split; [by exists t|done].
  Qed.

Lemma locked_run h t0 D ops c :
    lockoutDuration c = D -> min64 < D <= max64 -> locked_since h t0 c ->
    Forall (fun o => o.1 - t0 < D) ops ->
    answers h ops c = replicate (Z.to_nat (attempts h ops)) "CRED001" /\
    locked_since h t0 (run ops c) /\ lockoutDuration (run ops c) = D.
  Proof.
    intros HD Hr Hc Hops. revert c HD Hc. induction Hops as [|[now ctx] ops Hn Hops IH]; intros c HD Hc; [done|].
    destruct (locked_step h t0 D now ctx c HD Hr Hc Hn) as (Ha & Hc' & HD').
    destruct (IH (Inspect now ctx c).2 HD' Hc') as [Hans Hrest].
    unfold run in *. cbn [fold_left fst snd]. split; [|done]. unfold attempts in *. rewrite count_of_cons.
    cbn [answers snd] in *. rewrite Hans. pose proof (count_of_le (fun o => is_attempt h o.2) ops).
    destruct (is_attempt h ctx); [|by rewrite Z.add_0_l]. rewrite Ha by done.
    replace (Z.to_nat (1 + count_of _ ops)) with (S (Z.to_nat (count_of (fun o => is_attempt h o.2) ops))) by lia.
    done.
  Qed.
End histories.

(** ** Properties *)

(** The lockout counts a user's attempts for ever: of the POSTs with
    credentials of one user, whatever their times and whatever other requests
    come in between, the first [maxAttempts] pass, the next [2*maxAttempts]
    are rate limited and the one after that locks the account; neither a
    window nor a successful login restarts the count. *)
Theorem attempts_never_expire `{Unicode} max window block paths h ops :
  0 < max -> 3 * max < max64 -> attempts h ops <= 3 * max + 1 ->
  answers h ops (NewCredentialProtection max window block paths)
  = answer_at max <$> seqZ 1 (attempts h ops).
Proof.
  intros Hm Hov Hn. apply (answers_counted max h ops 0); [done|done|done|lia|].
  unfold NewCredentialProtection. rewrite (proj2 (Z.leb_gt max 0)) by lia. done.
Qed.

(** A locked account stays locked: within [lockoutDuration] of the lock
    every attempt is refused, and the first attempt after it passes and
    restarts the count. *)
Theorem lockout_holds `{Unicode} h t0 ops c now ctx :
  min64 < lockoutDuration c <= max64 -> locked_since h t0 c ->
  Forall (fun o => o.1 - t0 < lockoutDuration c) ops ->
  is_attempt h ctx = true -> lockoutDuration c <= now - t0 ->
  answers h ops c = replicate (Z.to_nat (attempts h ops)) "CRED001" /\
  (detectCredentialStuffing now ctx (run ops c)).1 = None /\
  exists t, loginAttempts (detectCredentialStuffing now ctx (run ops c)).2 !! h = Some t /\
    lt_attempts t = 0 /\ locked t = false.
Proof.
  intros HD Hc Hops Ha Hn.
  destruct (locked_run h t0 _ ops c eq_refl HD Hc Hops) as (Hans & (t & Ht & Hlk & Hat) & Hd).
  split; [done|]. pose proof (stuffing_attempt h now ctx (run ops c) Ha) as Hs. rewrite Ht in Hs.
  destruct Hs as [-> ->]. unfold login_step.
  rewrite Hlk, Hat, Hd, time_sub_lt, (proj2 (Z.ltb_ge _ _)) by (done || lia). simpl.
  split; [done|]. by eexists.
Qed.

(** Ordinary traffic is throttled as brute force, for ever: once a client
    has made twenty requests of any kind, those of its requests that pass the
    credential throttles are at least thirty minutes apart. *)
Theorem client_throttled_for_ever `{Unicode} ip ops m c t :
  bruteForce c !! ip = Some t -> 20 <= bf_attempts t -> bf_attempts t + len ops < max64 ->
  from m ops.*1 -> spaced (30 * Minute) (passes ip ops c).
Proof. intros Ht Ha Hl Hm. by apply (passes_spaced ip ops m c t). Qed.

(** The password-spray and leaked-credential rules never fire: no
    history of requests makes [Inspect] return CRED004, CRED005 or CRED007,
    since no user name is ever added to a spray tracker and nothing enables
    the leak check. *)
Theorem spray_and_leak_never_fire `{Unicode} max window block paths ops now ctx :
  rule_of (Inspect now ctx (run ops (NewCredentialProtection max window block paths))).1
  ∉ ["CRED004"; "CRED005"; "CRED007"].
Proof.
  assert (no_usernames (run ops (NewCredentialProtection max window block paths))) as Hc.
  { unfold run. assert (forall c, no_usernames c -> no_usernames (fold_left (fun c o => (Inspect o.1 o.2 c).2) ops c)) as Hr.
    { induction ops as [|o ops IH]; intros c Hc; [done|]. simpl. apply IH. by apply Inspect_silent. }
    apply Hr. split; [done|]. apply map_Forall_empty. }
  destruct (Inspect_silent now ctx _ Hc) as [_ Hr]. revert Hr. generalize (rule_of
    (Inspect now ctx (run ops (NewCredentialProtection max window block paths))).1).
  intros r Hr. rewrite !elem_of_cons, !elem_of_nil in *. intuition congruence.
Qed.

(** ** Witnesses *)

#[local] Existing Instance unicode_ascii.

Definition login (ip user : string) : RequestContext :=
  mkContext None None "" ip "" "/login" "POST" ∅ ∅ ∅
    (list_to_map [("username", [user]); ("password", ["p"])])
    None "" "" "" "" "" 0 f0 f0 [] false false 0 (lit "") "" "" "" "".
Definition page (ip : string) : RequestContext :=
  mkContext None None "" ip "" "/" "GET" ∅ ∅ ∅ ∅ None "" "" "" "" "" 0 f0 f0 [] false false 0
    (lit "") "" "" "" "".

Lemma attempts_never_expire_witness :
  answers (sha256_hex "u")
    [(0, login "a" "u"); (1, page "b"); (24 * Hour, login "a" "u"); (48 * Hour, login "c" "u");
     (72 * Hour, login "d" "u"); (73 * Hour, login "e" "v")] (NewCredentialProtection 1 300 0 [])
  = [""; "CRED003"; "CRED003"; "CRED002"].
Proof.
  apply (attempts_never_expire 1 300 0 [] (sha256_hex "u")); vm_compute; [reflexivity|reflexivity|discriminate].
Defined.

Definition locked_user : CredentialProtection :=
  set_logins {[ sha256_hex "u" := mkLogin 16 0 100 true 100 ]} (NewCredentialProtection 5 300 60 []).

Lemma lockout_holds_witness :
  answers (sha256_hex "u") [(Second, login "a" "u"); (2 * Second, login "b" "u")] locked_user
  = replicate 2 "CRED001" /\
  (detectCredentialStuffing (61 * Second) (login "a" "u")
     (run [(Second, login "a" "u"); (2 * Second, login "b" "u")] locked_user)).1 = None /\
  exists t, loginAttempts (detectCredentialStuffing (61 * Second) (login "a" "u")
     (run [(Second, login "a" "u"); (2 * Second, login "b" "u")] locked_user)).2 !! sha256_hex "u" = Some t /\
    lt_attempts t = 0 /\ locked t = false.
Proof.
  apply (lockout_holds (sha256_hex "u") 100 [(Second, login "a" "u"); (2 * Second, login "b" "u")]
           locked_user (61 * Second) (login "a" "u")).
  - vm_compute. split; [reflexivity|discriminate].
  - exists (mkLogin 16 0 100 true 100). vm_compute. done.
  - repeat constructor.
  - vm_compute. reflexivity.
  - vm_compute. discriminate.
Defined.

Definition busy_client : CredentialProtection :=
  set_brute {[ "a" := mkBrute 20 (5 * Minute) 0 0 ]} (NewCredentialProtection 5 300 60 []).

Lemma client_throttled_for_ever_witness :
  passes "a" [(1, page "a"); (2, page "a"); (31 * Minute, page "a")] busy_client = [1; 31 * Minute] /\
  spaced (30 * Minute) (passes "a" [(1, page "a"); (2, page "a"); (31 * Minute, page "a")] busy_client).
Proof.
  split; [vm_compute; reflexivity|].
  apply (client_throttled_for_ever "a" _ 0 busy_client (mkBrute 20 (5 * Minute) 0 0)).
  - vm_compute. reflexivity.
  - vm_compute. discriminate.
  - vm_compute. reflexivity.
  - vm_compute. repeat split; discriminate.
Defined.
