(* ===== verification/Rules.v ===== *)
(** * The rule engine: [internal/rules/rules.go]

    Field extraction, transforms, operators, [Inspect], and the rule store
    with its index. The store keeps a slice of rules and a map from ids to
    pointers into the slice's backing array; both are modelled: arrays live
    in a heap, a pointer is an array and an index, [append] and [sort.Slice]
    work on arrays in place. The mutex serialises the operations. Regular
    expressions ([regexp]), IP parsing ([net]) and the scanning of floats are
    instances of [Oracles]; the capacity [append] gives a grown array and the
    order in which [sort.Slice] leaves rules with equal keys are instances of
    [Runtime]. YAML parsing is left out. *)

From S2P Require Import Prelude Float64 GoStr Types.
From stdpp Require Import pretty.

#[local] Open Scope string_scope.
#[local] Open Scope Z_scope.

(** ** Rules and fields *)

(** [compiledRE] is the pattern the regexp was compiled from; [Params],
    [Description], [Phase] and [Tags] are read nowhere in this package. *)
Record Rule : Type := mkRule {
  ID : string;
  Name : string;
  Enabled : bool;
  Severity : string;
  Action : string;
  Priority : Z;
  Field : string;
  Operator : string;
  Value : string;
  Transform : list string;
  compiledRE : option string
}.

Record FieldValue : Type := mkField {
  QueryParams : gmap string (list string);
  FormParams : gmap string (list string);
  Headers : gmap string string;
  Cookies : gmap string string;
  Body : option string;
  Path : string;
  Method : string;
  RealIP : string;
  UserAgent : string;
  ContentType : string;
  Country : string;
  ASN : Z;
  SessionID : string;
  UserID : string;
  Host : string
}.

Record Decision : Type := mkDecision {
  d_RuleID : string;
  d_RuleName : string;
  d_Action : string;
  d_Severity : string;
  d_Score : f64;
  d_Evidence : text;
  Matched : bool
}.

Class Oracles : Type := {
  (** [regexp.Compile] succeeds; [MatchString] of a compiled pattern *)
  compiles : string -> bool;
  re_match : string -> string -> bool;
  (** [net.ParseIP(s)], printed back; [ParseCIDR(c)] and [Contains] *)
  ip_canonical : string -> option string;
  cidr_contains : string -> option (string -> bool);
  (** [fmt.Sscanf(s, "%f", &x)] into a zero [x] *)
  scan_float : string -> f64
}.

(** The order of [sortRules]. *)
Definition rule_before (a b : Rule) : bool :=
  if Priority a =? Priority b then String.ltb (ID a) (ID b) else Priority a <? Priority b.
Definition rule_le (a b : Rule) : Prop := rule_before b a = false.

Class Runtime : Type := {
  (** capacity of the array [append] allocates for [n] elements *)
  grow : nat -> nat;
  grow_enough : forall n, (n <= grow n)%nat;
  (** [sort.Slice] with [rule_before] *)
  sort_rules : list Rule -> list Rule;
  sort_rules_perm : forall l, sort_rules l ≡ₚ l;
  sort_rules_sorted : forall l, Sorted rule_le (sort_rules l)
}.

(** ** Evaluation *)

Section evaluation.
  Context `{Unicode} `{Oracles} `{MapRange string}.

Definition header_value (key : string) (h : gmap string string) : string :=
  match h !! key with
  | Some v => v
  | None =>
      match find (fun p => EqualFold (fst p) key) (map_range h) with
      | Some (_, v) => v
      | None => ""
      end
  end.

Definition first_value (key : string) (m : gmap string (list string)) : string :=
  match m !! key with Some (v :: _) => v | _ => "" end.

Definition extractField (fieldName : string) (f : FieldValue) : string :=
  match SplitN fieldName "." 2 with
  | [category; key] =>
      if String.eqb category "headers" then header_value key (Headers f)
      else if String.eqb category "query" then first_value key (QueryParams f)
      else if String.eqb category "form" then first_value key (FormParams f)
      else if String.eqb category "cookies" then lookup_default "" (Cookies f) key
      else if String.eqb category "path" then Path f
      else if String.eqb category "method" then Method f
      else if String.eqb category "ip" then RealIP f
      else if String.eqb category "user_agent" then UserAgent f
      else if String.eqb category "content_type" then ContentType f
      else if String.eqb category "country" then Country f
      else if String.eqb category "asn" then pretty (ASN f)
      else if String.eqb category "session" then SessionID f
      else if String.eqb category "user_id" then UserID f
      else if String.eqb category "host" then Host f
      else if String.eqb category "body" then default "" (Body f)
      else ""
  | _ => ""
  end.

Definition replacements (l : list (string * string)) (s : string) : string :=
  fold_left (fun s p => ReplaceAll s (fst p) (snd p)) l s.

Definition url_escapes : list (string * string) :=
  [("%25", "%"); ("%20", " "); ("%3C", "<"); ("%3E", ">"); ("%27", "'");
   ("%22", String (chr 34) ""); ("%3B", ";"); ("%2F", "/"); ("%3D", "="); ("%26", "&"); ("%23", "#");
   ("%3F", "?")].

(** [\s]: tab, newline, form feed, carriage return and space. *)
Definition re_space (c : ascii) : bool :=
  existsb (fun b => byte_of c =? b) [9; 10; 12; 13; 32].
Fixpoint compress_whitespace (in_run : bool) (s : string) : string :=
  match s with
  | "" => ""
  | String c s' =>
      if re_space c then
        if in_run then compress_whitespace true s' else String (chr 32) (compress_whitespace true s')
      else String c (compress_whitespace false s')
  end.

Definition transform (t : string) (s : string) : string :=
  let t := ToLower t in
  if String.eqb t "lowercase" then ToLower s
  else if String.eqb t "uppercase" then ToUpper s
  else if String.eqb t "trim" then TrimSpace s
  else if String.eqb t "urldecode" then replacements url_escapes s
  else if String.eqb t "remove_null" then ReplaceAll s (String (chr 0) "") ""
  else if String.eqb t "remove_comments" then replacements [("/*", " "); ("*/", " "); ("--", " ")] s
  else if String.eqb t "normalize_path" then replacements [("//", "/"); ("/./", "/")] s
  else if String.eqb t "compress_whitespace" then compress_whitespace false s
  else s.

Definition applyTransforms (value : string) (ts : list string) : string :=
  fold_left (fun s t => transform t s) ts value.

(** [applyOperator]: [Err] is the error of an invalid regex. *)
Definition applyOperator (op fieldValue ruleValue : string) (re : option string) : result text bool :=
  if String.eqb op "equals" then Ok (String.eqb fieldValue ruleValue)
  else if String.eqb op "contains" then Ok (Contains fieldValue ruleValue)
  else if String.eqb op "regex" then
    match re with
    | Some p => Ok (re_match p fieldValue)
    | None => if compiles ruleValue then Ok (re_match ruleValue fieldValue)
              else Err (Sprintf "invalid regex %q: %w" [AStr ruleValue])
    end
  else if String.eqb op "prefix" then Ok (HasPrefix fieldValue ruleValue)
  else if String.eqb op "suffix" then Ok (HasSuffix fieldValue ruleValue)
  else if String.eqb op "ip_match" then
    match ip_canonical fieldValue with
    | None => Ok false
    | Some ip =>
        match cidr_contains ruleValue with
        | None => Ok (String.eqb ip ruleValue)
        | Some contains => Ok (contains ip)
        end
    end
  else if String.eqb op "geo_match" then Ok (EqualFold fieldValue ruleValue)
  else if String.eqb op "exists" then Ok (negb (String.eqb fieldValue ""))
  else if String.eqb op "gt" then Ok (fgt (scan_float fieldValue) (scan_float ruleValue))
  else if String.eqb op "lt" then Ok (flt (scan_float fieldValue) (scan_float ruleValue))
  else if String.eqb op "in" then
    Ok (existsb (fun p => String.eqb (TrimSpace p) fieldValue) (Split ruleValue ","))
  else if String.eqb op "not_in" then
    Ok (negb (existsb (fun p => String.eqb (TrimSpace p) fieldValue) (Split ruleValue ",")))
  else Ok false.

Definition evaluateRule (r : Rule) (f : FieldValue) : result text bool :=
  let value := extractField (Field r) f in
  if String.eqb value "" then Ok false
  else
    let transformed := applyTransforms value (Transform r) in
    if String.eqb transformed "" then Ok false
    else applyOperator (Operator r) transformed (Value r) (compiledRE r).

Definition severityToScore (sev : string) : f64 :=
  of_int (if String.eqb sev "critical" then 95
          else if String.eqb sev "high" then 75
          else if String.eqb sev "medium" then 50
          else if String.eqb sev "low" then 25
          else if String.eqb sev "info" then 5
          else 50).

Definition rule_decision (r : Rule) (f : FieldValue) : Decision :=
  mkDecision (ID r) (Name r) (Action r) (Severity r) (severityToScore (Severity r))
    (Sprintf "rule %s matched: %s %s %s %s"
       [AStr (ID r); AStr (Field r); AStr (Operator r); AStr (Value r); AStr (Path f)]) true.
Definition no_match : Decision := mkDecision "" "" "allow" "" f0 (lit "") false.

Definition matches (r : Rule) (f : FieldValue) : bool :=
  Enabled r && match evaluateRule r f with Ok b => b | Err _ => false end.

(** The loop of [Inspect] over its copy of the rules; errors are skipped. *)
Fixpoint inspect_rules (dryRun : bool) (l : list Rule) (f : FieldValue) : Decision :=
  match l with
  | [] => no_match
  | r :: l =>
      if negb (Enabled r) then inspect_rules dryRun l f
      else
        match evaluateRule r f with
        | Err _ => inspect_rules dryRun l f
        | Ok true => if dryRun then inspect_rules dryRun l f else rule_decision r f
        | Ok false => inspect_rules dryRun l f
        end
  end.

Definition TestRule (r : Rule) (f : FieldValue) : result text Decision :=
  match evaluateRule r f with
  | Err e => Err e
  | Ok matched =>
      Ok (mkDecision (ID r) (Name r) (Action r) (Severity r) (severityToScore (Severity r))
            (Sprintf "test: rule %s evaluated: matched=%v" [AStr (ID r)]) matched)
  end.

End evaluation.

(** ** The store *)

(** A pointer to a cell of an array of the heap. *)
Record pointer : Type := Ptr { arr : nat; idx : nat }.

(** [rules] is the slice [rules[0:count]] of array [array_]; an array's
    length is its capacity. *)
Record Engine : Type := mkEngine {
  heap : gmap nat (list Rule);
  next : nat;
  array_ : nat;
  count : nat;
  byID : gmap string pointer;
  dryRun : bool
}.

Definition zero_rule : Rule := mkRule "" "" false "" "" 0 "" "" "" [] None.

Definition cells (a : nat) (e : Engine) : list Rule := default [] (heap e !! a).
(** The active rules, [e.rules]. *)
Definition rules (e : Engine) : list Rule := take (count e) (cells (array_ e) e).

Definition NewEngine (dry : bool) : Engine := mkEngine {[0%nat := []]} 1 0 0 ∅ dry.

Section store.
  Context `{Oracles} `{Runtime}.

  (** [*p] and [*p = r] *)
Definition deref (p : pointer) (e : Engine) : option Rule := cells (arr p) e !! idx p.
Definition store_at (p : pointer) (r : Rule) (e : Engine) : Engine :=
  mkEngine (<[arr p := <[idx p := r]> (cells (arr p) e)]> (heap e)) (next e) (array_ e) (count e)
    (byID e) (dryRun e).

Definition sortRules (e : Engine) : Engine :=
  let a := cells (array_ e) e in
  mkEngine (<[array_ e := (sort_rules (take (count e) a) ++ drop (count e) a)%list]> (heap e)) (next e)
    (array_ e) (count e) (byID e) (dryRun e).

Definition is_regex (op : string) : bool := String.eqb op "regex" || String.eqb op "regex_match".

Definition set_re (re : option string) (r : Rule) : Rule :=
  mkRule (ID r) (Name r) (Enabled r) (Severity r) (Action r) (Priority r) (Field r) (Operator r)
    (Value r) (Transform r) re.
Definition set_priority (p : Z) (r : Rule) : Rule :=
  mkRule (ID r) (Name r) (Enabled r) (Severity r) (Action r) p (Field r) (Operator r)
    (Value r) (Transform r) (compiledRE r).

(** The compilation on load and on update: a failure leaves the rule as it is. *)
Definition compile_rule (r : Rule) : Rule :=
  if is_regex (Operator r) && compiles (Value r) then set_re (Some (Value r)) r else r.

(** [e.byID[rule.ID] = &e.rules[i]] for each position in turn. *)
Definition index_rules (a : nat) (rs : list Rule) : gmap string pointer :=
  fold_left (fun m p => <[ID (snd p) := Ptr a (fst p)]> m) (imap (fun i r => (i, r)) rs) ∅.

Definition LoadRules (rs : list Rule) (e : Engine) : Engine :=
  let rs := compile_rule <$> rs in
  sortRules (mkEngine (<[next e := rs]> (heap e)) (S (next e)) (next e) (length rs)
               (index_rules (next e) rs) (dryRun e)).

(** [AtomicSwap] loads into a new engine and takes its slice and index. *)
Definition AtomicSwap (rs : list Rule) (e : Engine) : Engine := LoadRules rs e.

Definition GetRule (id : string) (e : Engine) : option Rule :=
  p ← byID e !! id; deref p e.
Definition GetAllRules (e : Engine) : list Rule := rules e.
Definition GetEnabledRules (e : Engine) : list Rule := filter (fun r => Enabled r = true) (rules e).

(** [append(e.rules, r)]: in place while the capacity lasts, else a copy. *)
Definition append_rule (r : Rule) (e : Engine) : Engine :=
  let a := cells (array_ e) e in
  if (count e <? length a)%nat then
    mkEngine (<[array_ e := <[count e := r]> a]> (heap e)) (next e) (array_ e) (S (count e))
      (byID e) (dryRun e)
  else
    let cap := grow (S (count e)) in
    mkEngine (<[next e := (rules e ++ [r] ++ replicate (cap - S (count e)) zero_rule)%list]> (heap e))
      (S (next e)) (next e) (S (count e)) (byID e) (dryRun e).

Definition set_index (m : gmap string pointer) (e : Engine) : Engine :=
  mkEngine (heap e) (next e) (array_ e) (count e) m (dryRun e).

Definition AddRule (r : Rule) (e : Engine) : result text Engine :=
  match byID e !! ID r with
  | Some _ => Err (Sprintf "rule %s already exists" [AStr (ID r)])
  | None =>
      if is_regex (Operator r) && negb (compiles (Value r)) then Err (lit "invalid regex: %w")
      else
        let e := append_rule (compile_rule r) e in
        Ok (sortRules (set_index (<[ID r := Ptr (array_ e) (pred (count e))]> (byID e)) e))
  end.

Definition UpdateRule (id : string) (updated : Rule) (e : Engine) : result text Engine :=
  match byID e !! id with
  | None => Err (Sprintf "rule %s not found" [AStr id])
  | Some p => Ok (sortRules (store_at p (compile_rule updated) e))
  end.

Definition DeleteRule (id : string) (e : Engine) : result text Engine :=
  match byID e !! id with
  | None => Err (Sprintf "rule %s not found" [AStr id])
  | Some _ =>
      let filtered := filter (fun r => ID r <> id) (rules e) in
      Ok (mkEngine (<[next e := (filtered ++ replicate (count e - length filtered) zero_rule)%list]> (heap e))
            (S (next e)) (next e) (length filtered) (delete id (byID e)) (dryRun e))
  end.

Definition ReorderRule (id : string) (priority : Z) (e : Engine) : result text Engine :=
  match byID e !! id with
  | None => Err (Sprintf "rule %s not found" [AStr id])
  | Some p =>
      Ok (sortRules (match deref p e with
                     | Some r => store_at p (set_priority priority r) e
                     | None => e
                     end))
  end.

End store.

Definition Inspect `{Unicode} `{Oracles} `{MapRange string} (f : FieldValue) (e : Engine) : Decision :=
  inspect_rules (dryRun e) (rules e) f.

(** ** Default rules *)

Definition PLATFORM001_pattern : string :=
  "(?i)(?:sqlmap|nikto|nmap|masscan|gobuster|dirbuster|wpscan|burpsuite|zap|acunetix|netsparker)".
Definition PLATFORM002_pattern : string :=
  "(?i)(?:/\.\.|\.\./|\.\.\\|/etc/passwd|/windows/win\.ini)".
Definition PLATFORM003_pattern : string :=
  "(?i)(?:^127\.|^10\.|^172\.(?:1[6-9]|2[0-9]|3[01])\.|^192\.168\.)".

Definition DefaultRules : list Rule :=
  [mkRule "PLATFORM001" "Block Common Attack Tools" true "high" "block" 1 "user_agent" "regex"
     PLATFORM001_pattern [] None;
   mkRule "PLATFORM002" "Block Path Traversal" true "critical" "block" 2 "path" "regex"
     PLATFORM002_pattern [] None;
   mkRule "PLATFORM003" "Block Private IP Ranges" true "high" "block" 3 "headers.X-Forwarded-For" "regex"
     PLATFORM003_pattern [] None;
   mkRule "PLATFORM004" "Block Suspicious Methods" true "high" "block" 4 "method" "in"
     "CONNECT,TRACE,TRACK,PUT,DELETE,PATCH" [] None].

(** ** Operations and reachable stores *)

Inductive op : Type :=
| Load (rs : list Rule)
| Swap (rs : list Rule)
| Add (r : Rule)
| Update (id : string) (r : Rule)
| Delete (id : string)
| Reorder (id : string) (priority : Z).

(** A failed operation leaves the store as it is. *)
Definition ok_or (e : Engine) (r : result text Engine) : Engine :=
  match r with Ok e' => e' | Err _ => e end.

Definition step `{Oracles} `{Runtime} (e : Engine) (o : op) : Engine :=
  match o with
  | Load rs => LoadRules rs e
  | Swap rs => AtomicSwap rs e
  | Add r => ok_or e (AddRule r e)
  | Update id r => ok_or e (UpdateRule id r e)
  | Delete id => ok_or e (DeleteRule id e)
  | Reorder id p => ok_or e (ReorderRule id p e)
  end.
Definition run `{Oracles} `{Runtime} (ops : list op) (e : Engine) : Engine := fold_left step ops e.

(** ** Lemmas *)

(** *** The order *)

Lemma rule_before_irrefl a : rule_before a a = false.
Proof.
  unfold rule_before. rewrite Z.eqb_refl. unfold String.ltb. by rewrite compare_refl.
Qed.

Lemma rule_before_asym a b : rule_before a b = true -> rule_before b a = false.
Proof.
  unfold rule_before. rewrite (Z.eqb_sym (Priority b)). destruct (Z.eqb_spec (Priority a) (Priority b)).
  - unfold String.ltb. rewrite (String.compare_antisym (ID a) (ID b)).
    by destruct (String.compare (ID b) (ID a)).
  - rewrite Z.ltb_lt, Z.ltb_ge. lia.
Qed.

Lemma rule_le_trans a b c : rule_le a b -> rule_le b c -> rule_le a c.
Proof.
  unfold rule_le, rule_before, String.ltb.
  destruct (Z.eqb_spec (Priority b) (Priority a)), (Z.eqb_spec (Priority c) (Priority b)),
    (Z.eqb_spec (Priority c) (Priority a)); rewrite ?Z.ltb_ge; try lia.
  intros Hab Hbc. destruct (String.compare (ID c) (ID a)) eqn:E; try done.
  destruct (String.compare (ID b) (ID a)) eqn:E1; try done;
    destruct (String.compare (ID c) (ID b)) eqn:E2; try done.
  - apply String.compare_eq_iff in E1, E2. by rewrite E2, E1, compare_refl in E.
  - apply String.compare_eq_iff in E1. congruence.
  - apply String.compare_eq_iff in E2. congruence.
  - rewrite String.compare_antisym in E1, E2. apply CompOpp_iff in E1, E2. simpl in *.
    pose proof (compare_trans _ _ _ E1 E2) as E3. by rewrite String.compare_antisym, E in E3.
Qed.

#[export] Instance rule_le_transitive : Transitive rule_le.
Proof. intros a b c. apply rule_le_trans. Qed.
#[export] Instance rule_le_total : Total rule_le.
Proof.
  intros a b. unfold rule_le. destruct (rule_before b a) eqn:E; [|by left].
  right. by apply rule_before_asym.
Qed.
#[export] Instance rule_le_dec : RelDecision rule_le.
Proof. intros a b. unfold rule_le. apply _. Defined.

(** *** The heap *)

Section store_lemmas.
  Context `{Oracles} `{Runtime}.

  (** The slice lies in its array, every array and pointer has been
      allocated. *)
Definition allocated (e : Engine) : Prop :=
    (count e <= length (cells (array_ e) e))%nat /\ (array_ e < next e)%nat /\
    map_Forall (fun _ p => (arr p < next e)%nat) (byID e).

Definition wf (e : Engine) : Prop := allocated e /\ Sorted rule_le (rules e).

Lemma length_rules e : (count e <= length (cells (array_ e) e))%nat -> length (rules e) = count e.
  Proof. intros Hc. unfold rules. rewrite length_take. lia. Qed.

Lemma cells_insert a l e n x c m d a' :
    cells a' (mkEngine (<[a := l]> (heap e)) n x c m d) = if decide (a = a') then l else cells a' e.
  Proof.
    unfold cells. simpl. case_decide as E; [subst; by rewrite lookup_insert_eq|by rewrite lookup_insert_ne].
  Qed.

Lemma rules_sortRules e : allocated e -> rules (sortRules e) = sort_rules (rules e).
  Proof.
    intros (Hc & _). unfold rules at 1, sortRules. cbn [count array_].
    rewrite cells_insert, decide_True by done. fold (rules e).
    pose proof (Permutation_length (sort_rules_perm (rules e))) as Hl. rewrite (length_rules e Hc) in Hl.
    rewrite <- Hl at 1. by rewrite take_app_length.
  Qed.

Lemma allocated_sortRules e : allocated e -> allocated (sortRules e).
  Proof.
    intros Ha. pose proof Ha as (Hc & Hn & Hp). split_and!; [|done|done]. unfold sortRules. cbn [count array_].
    rewrite cells_insert, decide_True by done. fold (rules e).
    pose proof (Permutation_length (sort_rules_perm (rules e))) as Hl. rewrite (length_rules e Hc) in Hl.
    rewrite length_app. lia.
  Qed.

Lemma wf_sortRules e : allocated e -> wf (sortRules e).
  Proof.
    intros Ha. split; [by apply allocated_sortRules|]. rewrite rules_sortRules by done.
    apply sort_rules_sorted.
  Qed.

Lemma allocated_store p r e : allocated e -> allocated (store_at p r e).
  Proof.
    intros (Hc & Hn & Hp). split_and!; [|done|done]. unfold store_at. cbn [count array_].
    rewrite cells_insert. case_decide as E; [|done]. by rewrite E, length_insert.
  Qed.

Lemma index_rules_alloc a (rs : list (nat * Rule)) (m : gmap string pointer) k p :
    fold_left (fun m q => <[ID (snd q) := Ptr a (fst q)]> m) rs m !! k = Some p ->
    arr p = a \/ m !! k = Some p.
  Proof.
    revert m. induction rs as [|[i r] rs IH]; intros m; [by right|]. simpl. intros [Hk|Hk]%IH; [by left|].
    apply lookup_insert_Some in Hk as [[_ <-]|[_ Hk]]; [by left|by right].
  Qed.

Lemma allocated_load rs e d :
    allocated (mkEngine (<[next e := rs]> (heap e)) (S (next e)) (next e) (length rs)
                 (index_rules (next e) rs) d).
  Proof.
    split_and!; cbn [count array_ next byID]; [|lia|].
    - rewrite cells_insert, decide_True by done. done.
    - intros k p Hk. apply index_rules_alloc in Hk as [->|Hk]; [lia|]. done.
  Qed.

Lemma allocated_append r e :
    allocated e ->
    allocated (append_rule r e) /\ rules (append_rule r e) = (rules e ++ [r])%list.
  Proof.
    intros (Hc & Hn & Hp). unfold append_rule. destruct (Nat.ltb_spec (count e) (length (cells (array_ e) e))).
    - split; [split_and!; cbn [count array_ next byID]; [|done|done]|].
      + rewrite cells_insert, decide_True by done. rewrite length_insert. lia.
      + unfold rules. cbn [count array_]. rewrite cells_insert, decide_True by done.
        rewrite <- (take_drop (count e) (cells (array_ e) e)) at 1.
        assert (length (take (count e) (cells (array_ e) e)) = count e) as Hl by (rewrite length_take; lia).
        rewrite insert_app_r_alt by lia. rewrite Hl, Nat.sub_diag.
        destruct (drop (count e) (cells (array_ e) e)) as [|x l] eqn:Hd.
        { apply (f_equal length) in Hd. rewrite length_drop in Hd. simpl in Hd. lia. }
        simpl. rewrite take_app, Hl. rewrite take_ge by lia.
        replace (S (count e) - count e)%nat with 1%nat by lia. done.
    - pose proof (length_rules e Hc) as Hl. pose proof (grow_enough (S (count e))).
      split; [split_and!; cbn [count array_ next byID]; [|lia|]|].
      + rewrite cells_insert, decide_True by done. rewrite !length_app, length_replicate, Hl. simpl. lia.
      + intros k p Hk. specialize (Hp k p Hk). simpl in Hp. lia.
      + unfold rules at 1. cbn [count array_]. rewrite cells_insert, decide_True by done.
        rewrite app_assoc. replace (S (count e)) with (length (rules e ++ [r])) at 1
          by (rewrite length_app; simpl; lia). by rewrite take_app_length.
  Qed.

Lemma rules_delete e id :
    let filtered := filter (fun r => ID r <> id) (rules e) in
    rules (mkEngine (<[next e := (filtered ++ replicate (count e - length filtered) zero_rule)%list]> (heap e))
            (S (next e)) (next e) (length filtered) (delete id (byID e)) (dryRun e)) = filtered.
  Proof.
    cbv zeta. unfold rules at 1. cbn [count array_]. rewrite cells_insert, decide_True by done.
    by rewrite take_app_length.
  Qed.

Lemma wf_step e o : wf e -> wf (step e o).
  Proof.
    intros [Ha Hs]. pose proof Ha as (Hc & Hn & Hp). destruct o as [rs|rs|r|id r|id|id pr]; simpl.
    - apply wf_sortRules, allocated_load.
    - apply wf_sortRules, allocated_load.
    - unfold AddRule. destruct (byID e !! ID r); [done|]. case_match; [done|]. simpl.
      apply wf_sortRules. destruct (allocated_append (compile_rule r) e Ha) as [(Hc' & Hn' & Hp') _].
      split_and!; [done|done|]. unfold set_index. simpl. by apply map_Forall_insert_2.
    - unfold UpdateRule. destruct (byID e !! id); [|done]. apply wf_sortRules. by apply allocated_store.
    - unfold DeleteRule. destruct (byID e !! id); [|done]. simpl. split.
      + split_and!; cbn [count array_ next byID]; [|lia|].
        * rewrite cells_insert, decide_True by done. rewrite length_app. lia.
        * intros k p' Hk. apply lookup_delete_Some in Hk as [_ Hk]. specialize (Hp _ _ Hk). simpl in Hp. lia.
      + rewrite rules_delete. apply StronglySorted_Sorted.
        apply Sorted_StronglySorted in Hs; [|apply _].
        induction Hs as [|x l Hs IH Hx]; [constructor|]. rewrite filter_cons.
        case_decide; [|done]. constructor; [done|]. apply Forall_forall. intros y Hy.
        apply list_elem_of_filter in Hy as [_ Hy]. rewrite Forall_forall in Hx. auto.
    - unfold ReorderRule. destruct (byID e !! id) as [q|]; [|done]. apply wf_sortRules.
      destruct (deref q e); [by apply allocated_store|done].
  Qed.

Lemma wf_run ops e : wf e -> wf (run ops e).
  Proof. revert e. induction ops as [|o ops IH]; intros e He; [done|]. simpl. apply IH. by apply wf_step. Qed.

Lemma wf_new dry : wf (NewEngine dry).
  Proof.
    unfold NewEngine. split; [split_and!; simpl; [lia|lia|apply map_Forall_empty]|]. constructor.
  Qed.

  (** *** An index cut off from the active rules *)

Definition detached (e : Engine) : Prop :=
    allocated e /\ map_Forall (fun _ p => arr p <> array_ e) (byID e).

Definition writes_through_index (o : op) : bool :=
    match o with Update _ _ | Reorder _ _ => true | _ => false end.

Lemma rules_store_other p r e : arr p <> array_ e -> rules (store_at p r e) = rules e.
  Proof. intros Hp. unfold rules, store_at. cbn [count array_]. by rewrite cells_insert, decide_False. Qed.

Lemma detached_sort e : detached e -> detached (sortRules e) /\ rules (sortRules e) ≡ₚ rules e.
  Proof.
    intros [Ha Hd]. split; [split; [by apply allocated_sortRules|done]|].
    rewrite rules_sortRules by done. apply sort_rules_perm.
  Qed.

Lemma detached_store e p r :
    detached e -> arr p <> array_ e ->
    detached (sortRules (store_at p r e)) /\ rules (sortRules (store_at p r e)) ≡ₚ rules e.
  Proof.
    intros [Ha Hd] Hp. destruct (detached_sort (store_at p r e)) as [? Hr];
      [split; [by apply allocated_store|done]|].
    split; [done|]. by rewrite Hr, rules_store_other.
  Qed.

Lemma detached_step e o :
    detached e -> writes_through_index o = true -> detached (step e o) /\ rules (step e o) ≡ₚ rules e.
  Proof.
    intros Hd Ho. pose proof Hd as [Ha Hp]. destruct o as [| | |id r| |id pr]; try done; simpl.
    - unfold UpdateRule. destruct (byID e !! id) as [q|] eqn:E; [|done].
      apply detached_store; [done|]. by apply (Hp id q).
    - unfold ReorderRule. destruct (byID e !! id) as [q|] eqn:E; [|done]. simpl.
      destruct (deref q e); [|by apply detached_sort].
      apply detached_store; [done|]. by apply (Hp id q).
  Qed.

Lemma detached_run ops e :
    detached e -> Forall (fun o => writes_through_index o = true) ops -> rules (run ops e) ≡ₚ rules e.
  Proof.
    intros Hd Hops. revert e Hd. induction Hops as [|o ops Ho Hops IH]; intros e Hd; [done|].
    destruct (detached_step e o Hd Ho) as [Hd' Hr]. simpl. by rewrite (IH _ Hd').
  Qed.

Lemma delete_detaches e id e' : wf e -> DeleteRule id e = Ok e' -> detached e'.
  Proof.
    intros Hw Hdel. pose proof (wf_step e (Delete id) Hw) as Hw'. simpl in Hw'. rewrite Hdel in Hw'.
    split; [apply Hw'|]. destruct Hw as [(_ & _ & Hp) _]. revert Hdel. unfold DeleteRule.
    destruct (byID e !! id); [|done]. intros [= <-]. simpl. intros k q Hk.
    apply lookup_delete_Some in Hk as [_ Hk]. specialize (Hp _ _ Hk). simpl in Hp. lia.
  Qed.

  (** *** The index after a load *)

Lemma index_rules_lookup a (rs : list Rule) i r k (m : gmap string pointer) :
    NoDup (ID <$> rs) -> rs !! i = Some r ->
    fold_left (fun m q => <[ID (snd q) := Ptr a (fst q)]> m) (imap (fun j r => (k + j, r)%nat) rs) m !! ID r
    = Some (Ptr a (k + i)).
  Proof.
    revert i k m. induction rs as [|r0 rs IH]; intros i k m Hnd Hi; [done|].
    rewrite fmap_cons in Hnd. apply NoDup_cons in Hnd as [Hn Hnd]. simpl.
    assert (imap (fun j r => ((k + S j)%nat, r)) rs = imap (fun j r => ((S k + j)%nat, r)) rs) as E.
    { apply imap_ext. intros. f_equal. lia. }
    unfold compose. rewrite E. destruct i as [|i]; simpl in Hi.
    - simplify_eq. clear IH. rewrite Nat.add_0_r. revert Hn.
      assert (forall l (m : gmap string pointer), ID r ∉ (ID ∘ snd <$> l) ->
        fold_left (fun m (q : nat * Rule) => <[ID (snd q) := Ptr a (fst q)]> m) l m !! ID r = m !! ID r) as Hf.
      { intros l. induction l as [|q l IHl]; intros m' Hl; [done|]. rewrite fmap_cons in Hl.
        apply not_elem_of_cons in Hl as [Hq Hl]. simpl. rewrite IHl by done. by apply lookup_insert_ne. }
      intros Hn. rewrite Hf; [by rewrite lookup_insert_eq|].
      intros Hin. apply Hn. revert Hin. rewrite !list_elem_of_fmap.
      intros ([j x] & Hx & Hj). apply elem_of_lookup_imap in Hj as (n & y & [= -> ->] & Hy).
      exists y. split; [done|]. by eapply list_elem_of_lookup_2.
    - rewrite (IH i (S k)) by done. do 2 f_equal. lia.
  Qed.

Lemma compile_rule_ID r : ID (compile_rule r) = ID r.
  Proof. unfold compile_rule. by case_match. Qed.
End store_lemmas.

(** *** Inspection *)

Section inspection_lemmas.
  Context `{Unicode} `{Oracles} `{MapRange string}.

Lemma inspect_first l f :
    inspect_rules false l f
    = match find (fun r => matches r f) l with Some r => rule_decision r f | None => no_match end.
  Proof.
    induction l as [|r l IH]; [done|]. simpl. unfold matches at 1. rewrite IH.
    destruct (Enabled r); simpl; [|done]. by destruct (evaluateRule r f) as [[]|].
  Qed.

Lemma find_least l f r :
    StronglySorted rule_le l -> find (fun r => matches r f) l = Some r ->
    r ∈ l /\ matches r f = true /\ Forall (fun r' => matches r' f = true -> rule_le r r') l.
  Proof.
    induction 1 as [|x l Hs IH Hx]; simpl; [done|]. destruct (matches x f) eqn:E.
    - intros [= <-]. split_and!; [left|done|]. constructor.
      + intros _. unfold rule_le. apply rule_before_irrefl.
      + eapply Forall_impl; [exact Hx|]. done.
    - intros Hf. destruct (IH Hf) as (Hin & Hm & Hall). split_and!; [by right|done|].
      constructor; [congruence|done].
  Qed.
End inspection_lemmas.

(** ** Properties *)

(** [C7] [Inspect] applies the least matching rule: in every store reached by
    loads, swaps, additions, updates, deletions and reorderings, outside
    dry-run mode, the decision is that of an enabled matching active rule
    whose (priority, id) no other enabled matching rule precedes, and there is
    no decision only if no active rule matches. *)
Theorem Inspect_least_match `{Unicode} `{Oracles} `{MapRange string} `{Runtime} ops f :
  let e := run ops (NewEngine false) in
  dryRun e = false /\
  ((exists r, r ∈ rules e /\ matches r f = true /\ Inspect f e = rule_decision r f /\
      Forall (fun r' => matches r' f = true -> rule_le r r') (rules e)) \/
   (Inspect f e = no_match /\ Forall (fun r => matches r f = false) (rules e))).
Proof.
  cbv zeta. assert (dryRun (run ops (NewEngine false)) = false) as Hdry.
  { assert (forall e o, dryRun (step e o) = dryRun e) as Hstep.
    { intros e []; simpl; try done; unfold AddRule, UpdateRule, DeleteRule, ReorderRule;
        repeat (case_match; try done). simpl. unfold append_rule. by case_match. }
    unfold run. rewrite <- (eq_refl : dryRun (NewEngine false) = false) at 2.
    generalize (NewEngine false). induction ops as [|o ops IH]; intros e; [done|].
    simpl. by rewrite IH. }
  split; [done|]. destruct (wf_run ops (NewEngine false) (wf_new false)) as [_ Hs].
  apply Sorted_StronglySorted in Hs; [|apply _]. unfold Inspect. rewrite Hdry, inspect_first.
  destruct (find (fun r => matches r f) (rules _)) as [r|] eqn:Hf.
  - left. exists r. destruct (find_least _ f r Hs Hf) as (? & ? & ?). done.
  - right. split; [done|]. apply Forall_forall. intros r Hr.
    by apply (find_none _ _ Hf), list_elem_of_In.
Qed.

(** [C20] Deleting a rule cuts the index off from the active rules: after a
    successful [DeleteRule], no sequence of [UpdateRule] and [ReorderRule]
    calls, on any ids, changes the active rules (up to the order of rules
    with equal keys), although an update of a known id reports success. *)
Theorem delete_detaches_index `{Oracles} `{Runtime} ops0 dry id e' ops :
  DeleteRule id (run ops0 (NewEngine dry)) = Ok e' ->
  Forall (fun o => writes_through_index o = true) ops ->
  rules (run ops e') ≡ₚ rules e' /\
  forall id' r, is_Some (byID e' !! id') -> exists e'', UpdateRule id' r e' = Ok e''.
Proof.
  intros Hdel Hops. split.
  - apply detached_run; [|done]. eapply delete_detaches; [|exact Hdel]. apply wf_run, wf_new.
  - intros id' r [p Hp]. unfold UpdateRule. rewrite Hp. by eexists.
Qed.

(** After a load the index points at positions, not at rules: [GetRule]
    of the id loaded at position [i] returns the rule that sorting has put at
    position [i], and [UpdateRule] overwrites that rule. *)
Theorem index_follows_positions `{Oracles} `{Runtime} rs i r upd e :
  NoDup (ID <$> rs) -> rs !! i = Some r ->
  let e1 := LoadRules rs e in
  GetRule (ID r) e1 = sort_rules (compile_rule <$> rs) !! i /\
  exists e2, UpdateRule (ID r) upd e1 = Ok e2 /\
    rules e2 = sort_rules (<[i := compile_rule upd]> (sort_rules (compile_rule <$> rs))).
Proof.
  intros Hnd Hi e1. set (rs' := compile_rule <$> rs).
  set (e0 := mkEngine (<[next e := rs']> (heap e)) (S (next e)) (next e) (length rs')
               (index_rules (next e) rs') (dryRun e)).
  assert (allocated e0) as Ha by apply allocated_load.
  assert (byID e1 !! ID r = Some (Ptr (next e) i)) as Hp.
  { rewrite <- (compile_rule_ID r). apply (index_rules_lookup (next e) rs' i (compile_rule r) 0).
    - unfold rs'. rewrite <- list_fmap_compose. erewrite list_fmap_ext; [exact Hnd|].
      intros. apply compile_rule_ID.
    - unfold rs'. by rewrite list_lookup_fmap, Hi. }
  pose proof (Permutation_length (sort_rules_perm rs')) as Hl.
  assert (cells (next e) e1 = sort_rules rs') as Hc.
  { unfold e1, LoadRules. fold rs'. fold e0. unfold sortRules. rewrite cells_insert. cbn [array_ e0].
    rewrite decide_True by done. unfold cells. cbn [heap e0 count]. rewrite lookup_insert_eq. simpl.
    by rewrite take_ge, drop_ge, app_nil_r by done. }
  split.
  - unfold GetRule. rewrite Hp. simpl. unfold deref. simpl. by rewrite Hc.
  - unfold UpdateRule. rewrite Hp. eexists. split; [done|].
    rewrite rules_sortRules by (apply allocated_store, allocated_sortRules; exact Ha).
    f_equal. unfold rules, store_at. cbn [count array_ arr idx]. rewrite cells_insert.
    change (array_ e1) with (next e). rewrite decide_True by done. rewrite Hc.
    change (count e1) with (length rs'). rewrite take_ge; [done|]. rewrite length_insert. lia.
Qed.

(** Three of the four default rules are inert: with [DefaultRules]
    loaded, whatever the request, the only rule [Inspect] can report is
    PLATFORM003, because the fields [user_agent], [path] and [method] without
    a dot are never extracted. *)
Theorem default_rules_inert `{Unicode} `{Oracles} `{MapRange string} `{Runtime} dry f :
  let d := Inspect f (LoadRules DefaultRules (NewEngine dry)) in
  d = no_match \/ d_RuleID d = "PLATFORM003".
Proof.
  cbv zeta. unfold Inspect. set (e := LoadRules DefaultRules (NewEngine dry)).
  assert (rules e = sort_rules (compile_rule <$> DefaultRules)) as Hr.
  { unfold e, LoadRules. rewrite rules_sortRules by apply allocated_load. reflexivity. }
  assert (Forall (fun r => matches r f = true -> ID r = "PLATFORM003") (rules e)) as Hm.
  { assert (Forall (fun r => matches r f = true -> ID r = "PLATFORM003") (compile_rule <$> DefaultRules)) as HD.
    { unfold DefaultRules. rewrite !fmap_cons, fmap_nil.
      rewrite !Forall_cons, Forall_nil. split_and!; try (intros _; by rewrite compile_rule_ID); try done;
        unfold matches, evaluateRule, compile_rule; simpl; case_match; simpl; done. }
    rewrite Hr. rewrite Forall_forall in HD |- *. intros r Hin. apply HD. by rewrite <- sort_rules_perm. }
  destruct (dryRun e) eqn:Hd.
  - left. clear Hm Hr. induction (rules e) as [|r l IH]; [done|]. simpl. rewrite !IH.
    by destruct (negb _), (evaluateRule r f) as [[]|].
  - rewrite inspect_first. destruct (find _ _) as [r|] eqn:Hf; [|by left]. right. simpl.
    apply find_some in Hf as [Hin Hmr]. rewrite Forall_forall in Hm.
    apply Hm; [by apply list_elem_of_In|done].
Qed.

(** ** Witnesses *)

#[local] Instance example_oracles : Oracles := {|
  compiles := fun _ => true; re_match := fun p s => Contains s p; ip_canonical := fun s => Some s;
  cidr_contains := fun _ => None; scan_float := fun _ => f0 |}.
#[local] Instance example_runtime : Runtime := {|
  grow := fun n => (n + n)%nat; grow_enough := fun n => Nat.le_add_r n n;
  sort_rules := merge_sort rule_le;
  sort_rules_perm := fun l => merge_sort_Permutation rule_le l;
  sort_rules_sorted := fun l => Sorted_merge_sort rule_le l |}.
#[local] Existing Instance unicode_ascii.

Definition block_path (id : string) (priority : Z) (value : string) : Rule :=
  mkRule id id true "high" "block" priority "path.x" "contains" value [] None.

Lemma delete_detaches_index_witness :
  exists e', DeleteRule "a" (run [Load [block_path "a" 1 "/x"; block_path "b" 2 "/y"]] (NewEngine false)) = Ok e' /\
    rules (run [Update "b" (block_path "b" 2 "/z")] e') ≡ₚ rules e'.
Proof.
  eexists. split; [reflexivity|].
  apply (delete_detaches_index [Load [block_path "a" 1 "/x"; block_path "b" 2 "/y"]] false "a");
    [reflexivity|repeat constructor].
Defined.

(** Two rules loaded out of order: asking for one gives the other. *)
Lemma index_follows_positions_witness :
  GetRule "b" (LoadRules [block_path "b" 2 "/y"; block_path "a" 1 "/x"] (NewEngine false))
  = Some (block_path "a" 1 "/x").
Proof.
  refine (eq_trans (proj1 (index_follows_positions [block_path "b" 2 "/y"; block_path "a" 1 "/x"] 0
    (block_path "b" 2 "/y") (block_path "b" 2 "/z") (NewEngine false) _ _)) _).
  - apply (bool_decide_unpack _). by vm_compute.
  - reflexivity.
  - vm_compute. reflexivity.
Defined.
