(* ===== verification/GraphQL.v ===== *)
(** * GraphQL inspection: [internal/engine/graphql.go]

    The inspector's limits, the analysis of the query text (depth, cost,
    page size, aliases), the batch count, [Inspect] and [ValidateQuery]. JSON
    is decoded by [Json]; the text of a decoding error is left out of the
    evidence. [Enabled] is read by the proxy. [maxTokens] is read by [ValidateQuery] only and
    [restrictedFields] nowhere. *)

From S2P Require Import Prelude Float64 GoStr Regexp Json Types.

#[local] Open Scope string_scope.
#[local] Open Scope Z_scope.

Record GraphQLConfig : Type := mkGraphQLConfig {
  MaxDepth : Z;
  MaxCost : Z;
  MaxAliases : Z;
  MaxBatchSize : Z;
  MaxTokens : Z;
  BlockIntrospection : bool;
  BlockSchema : bool;
  AllowedOperations : list string;
  RestrictedFields : list string;
  StrictValidation : bool
}.

Record GraphQLInspector : Type := mkGraphQL {
  maxDepth : Z;
  maxCost : Z;
  maxAliases : Z;
  maxBatchSize : Z;
  maxTokens : Z;
  blockIntrospection : bool;
  blockSchema : bool;
  allowedOps : gset string;
  restrictedFields : gset string;
  strictValidation : bool
}.

Definition NewGraphQLInspector (cfg : GraphQLConfig) : GraphQLInspector :=
  mkGraphQL (MaxDepth cfg) (MaxCost cfg) (MaxAliases cfg) (MaxBatchSize cfg) (MaxTokens cfg)
    (BlockIntrospection cfg) (BlockSchema cfg) (list_to_set (AllowedOperations cfg))
    (list_to_set (RestrictedFields cfg)) (StrictValidation cfg).

(** ** The query text *)

Record GraphQLQuery : Type := mkQuery { Operation : string; Depth : Z; Cost : Z; Aliases : Z }.
Definition no_query : GraphQLQuery := mkQuery "" 0 0 0.

Definition isIntrospectionQuery (body : string) : bool :=
  existsb (Contains body) ["__schema"; "__type"; "IntrospectionQuery"; "Introspection"].

Definition isSchemaQuery `{Unicode} (body : string) : bool :=
  let bodyStr := ToLower body in Contains bodyStr "{ __typename }" && Contains bodyStr "__type".

(** [countDepth]: one rune; the state is the greatest and the current depth. *)
Definition depth_rune (st : Z * Z) (r : Z) : Z * Z :=
  let '(maxDepth, currentDepth) := st in
  if r =? 123 then
    let currentDepth := incr currentDepth in (Z.max maxDepth currentDepth, currentDepth)
  else if r =? 125 then (maxDepth, if 0 <? currentDepth then currentDepth - 1 else currentDepth)
  else st.
Definition depth_line (st : Z * Z) (line : string) : Z * Z := fold_left depth_rune (runes_of line) st.
Definition newline : string := String (ascii_of_nat 10) "".
Definition countDepth (q : string) : Z := fst (fold_left depth_line (Split q newline) (0, 0)).

(** [countPageSize]: the number after the first "first:", 100 without one.
    The position found in the lower-case text is used in the text itself,
    which may be shorter: a slice beyond its end has no bytes to skip. *)
Fixpoint skip_blanks (s : string) : string :=
  match s with
  | String c t => if Ascii.eqb c " " || (byte_of c =? 9) then skip_blanks t else s
  | "" => ""
  end.
Definition countPageSize `{Unicode} (q : string) : Z :=
  match Index (ToLower q) "first:" with
  | Some firstPos =>
      let digits := fst (span_digits (skip_blanks (drop_str (firstPos + 6) q))) in
      if String.eqb digits "" then 100 else default 100 (ParseInt digits)
  | None => 100
  end.

Definition cost_patterns : list (string * Z) :=
  [("query", 1); ("mutation", 10); ("subscription", 100); ("fragment", 5); ("... on", 20);
   ("@include", 2); ("@skip", 2); ("@deprecated", 1)].

Definition calculateCost `{Unicode} (q : string) : Z :=
  let lower := ToLower q in
  let cost := fold_left (fun cost p => wrap64 (cost + wrap64 (Count lower (fst p) * snd p))) cost_patterns 0 in
  let pageSize := countPageSize q in
  wrap64 (cost + wrap64 (pageSize * pageSize)).

(** Subscription, mutation or query, by the first word. *)
Definition operation_of (trimmed : string) : string :=
  if HasPrefix trimmed "query" then "query"
  else if HasPrefix trimmed "mutation" then "mutation"
  else if HasPrefix trimmed "subscription" then "subscription"
  else "query".

Definition aliasRegex : string := "(\w+)\s*:".

Definition analyzeQueryString `{Unicode} (q : string) : GraphQLQuery :=
  mkQuery (operation_of (TrimSpace q)) (countDepth q) (calculateCost q) (len (FindAll aliasRegex q)).

(** What [parseQuery] reads of one request object. *)
Definition read_request `{Unicode} (m : gmap string json) : GraphQLQuery :=
  let query := match string_field m "query" with Some v => analyzeQueryString v | None => no_query end in
  match string_field m "operationName" with
  | Some v => mkQuery v (Depth query) (Cost query) (Aliases query)
  | None => query
  end.

Definition parseQuery `{Unicode} (body : string) : result text GraphQLQuery :=
  if HasPrefix (TrimSpace body) "[" then
    match Unmarshal body ≫= as_maps with
    | None => Err (lit "json batch unmarshal: %w")
    | Some [] => Err (lit "empty batch query")
    | Some (first :: _) => Ok (read_request first)
    end
  else
    match Unmarshal body ≫= as_map with
    | None => Err (lit "json unmarshal: %w")
    | Some parsed => Ok (read_request parsed)
    end.

(** ** The batch count *)

Definition isJSONQuery (body : string) : bool := HasPrefix (TrimSpace body) "{".

(** Decoding into [struct { Operations []map[string]interface{} }]: null
    empties the slice. *)
Definition decode_operations `{Unicode} (v : json) : option Z :=
  match v with
  | JObject l =>
      fold_left
        (fun acc p => n ← acc; if EqualFold (fst p) "operations" then len <$> as_maps (snd p) else Some n)
        l (Some 0)
  | JNull => Some 0
  | _ => None
  end.

Definition countOperations `{Unicode} (body : string) : Z :=
  let textual := Count body ("{" ++ dq ++ "query" ++ dq) in
  if isJSONQuery body then
    match Unmarshal body ≫= decode_operations with
    | Some n => n
    | None =>
        match Unmarshal body ≫= as_maps with
        | Some l => len l
        | None => textual
        end
    end
  else textual.

(** ** Inspection *)

(** The checks on the parsed query, in order. *)
Definition check_query `{Unicode} (g : GraphQLInspector) (body : string) (query : GraphQLQuery)
    : option Decision :=
  (if (0 <? maxDepth g) && (maxDepth g <? Depth query)
   then Some (decision ActionBlock "GRAPHQL-004" "GraphQL depth limit exceeded" "high" 80
                (Sprintf "depth=%d, limit=%d" [AInt (Depth query); AInt (maxDepth g)])) else None)
  <||> (if (0 <? maxCost g) && (maxCost g <? Cost query)
        then Some (decision ActionBlock "GRAPHQL-005" "GraphQL cost limit exceeded" "high" 80
                     (Sprintf "cost=%d, limit=%d" [AInt (Cost query); AInt (maxCost g)])) else None)
  <||> (if (0 <? maxAliases g) && (maxAliases g <? Aliases query)
        then Some (decision ActionBlock "GRAPHQL-006" "GraphQL alias limit exceeded" "medium" 65
                     (Sprintf "aliases=%d, limit=%d" [AInt (Aliases query); AInt (maxAliases g)])) else None)
  <||> (if (0 <? maxBatchSize g) && (maxBatchSize g <? countOperations body)
        then Some (decision ActionBlock "GRAPHQL-007" "GraphQL batch size exceeded" "high" 75
                     (Sprintf "batch_size=%d, limit=%d" [AInt (countOperations body); AInt (maxBatchSize g)]))
        else None)
  <||> (if negb (bool_decide (allowedOps g = ∅)) && negb (String.eqb (Operation query) "")
           && negb (bool_decide (Operation query ∈ allowedOps g))
        then Some (decision ActionBlock "GRAPHQL-008" "GraphQL operation not allowed" "high" 80
                     (Sprintf "operation=%s" [AStr (Operation query)])) else None).

Definition Inspect `{Unicode} (g : GraphQLInspector) (ctx : RequestContext) : Decision :=
  if String.eqb (ContentType ctx) ""
     || negb (Contains (ContentType ctx) "graphql") && negb (Contains (ContentType ctx) "json")
  then allow_decision
  else if body_len ctx =? 0 then allow_decision
  else
    let body := body_str ctx in
    default allow_decision
      ((if blockIntrospection g && isIntrospectionQuery body
        then Some (decision ActionBlock "GRAPHQL-001" "GraphQL introspection blocked" "high" 85
                     (lit "introspection query not allowed")) else None)
       <||> (if blockSchema g && isSchemaQuery body
             then Some (decision ActionBlock "GRAPHQL-002" "GraphQL schema query blocked" "high" 85
                          (lit "schema query not allowed")) else None)
       <||> match parseQuery body with
            | Err e =>
                if strictValidation g
                then Some (decision ActionBlock "GRAPHQL-003" "GraphQL parse error" "medium" 60 e)
                else None
            | Ok query => check_query g body query
            end).

Definition dangerousPatterns : list string :=
  ["${"; "{{"; "__dirname"; "__filename"; "process"; "eval("; "require("; "import("].

Definition ValidateQuery `{Unicode} (g : GraphQLInspector) (q : string) : bool * text :=
  if (0 <? maxTokens g) && (maxTokens g <? slen q)
  then (false, Sprintf "query exceeds maximum tokens: %d > %d" [AInt (slen q); AInt (maxTokens g)])
  else match List.find (Contains (ToLower q)) dangerousPatterns with
       | Some pattern => (false, Sprintf "dangerous pattern detected: %s" [AStr pattern])
       | None => (true, lit "")
       end.

(** ** Lemmas: depth *)

Lemma prefix_newline c s :
  String.prefix newline (String c s) = bool_decide (c = ascii_of_nat 10).
Proof.
  unfold newline. cbn [String.prefix]. destruct (ascii_dec (ascii_of_nat 10) c) as [<-|Hc].
  - by destruct s.
  - by rewrite bool_decide_false by congruence.
Qed.

Lemma depth_newline st : depth_rune st 10 = st.
Proof. by destruct st. Qed.

(** Reading line by line is reading the whole text: a line break is no brace. *)
Lemma depth_lines s acc st :
  fold_left depth_line (split_from 0 None acc s newline) st
  = fold_left depth_rune (runes_of (String.rev acc ++ s)) st.
Proof.
  revert acc st. induction s as [|c s IH]; intros acc st.
  - rewrite sapp_nil_r. reflexivity.
  - cbn [split_from]. rewrite andb_true_r, prefix_newline. case_bool_decide as Hc.
    + subst c. cbn [fold_left]. change (String.length newline - 1)%nat with 0%nat.
      change (pred <$> None) with (@None nat). rewrite IH.
      rewrite runes_of_app_ascii by (by vm_compute). rewrite fold_left_app.
      rewrite runes_of_ascii_cons by (by vm_compute). cbn [fold_left].
      change (byte_of (ascii_of_nat 10)) with 10. by rewrite depth_newline.
    + rewrite IH, srev_cons. by rewrite sapp_assoc.
Qed.

Lemma countDepth_runes q : countDepth q = fst (fold_left depth_rune (runes_of q) (0, 0)).
Proof. unfold countDepth, Split. by rewrite depth_lines. Qed.

(** Well-nested text and the height of its braces. *)
Inductive nested : list Z -> Z -> Prop :=
| nested_nil : nested [] 0
| nested_rune r l h : r <> 123 -> r <> 125 -> nested l h -> nested (r :: l) h
| nested_group l1 h1 l2 h2 :
    nested l1 h1 -> nested l2 h2 -> nested (123 :: l1 ++ 125 :: l2) (Z.max (1 + h1) h2).

Lemma nested_nonneg l h : nested l h -> 0 <= h.
Proof. induction 1; lia. Qed.

Lemma nested_fold l h m d :
  nested l h -> 0 <= d <= m -> d + h < max64 ->
  fold_left depth_rune l (m, d) = (Z.max m (d + h), d).
Proof.
  intros Hn. revert m d. induction Hn as [|r l h H1 H2 Hn IH|l1 h1 l2 h2 Hn1 IH1 Hn2 IH2]; intros m d Hd Hb.
  - cbn [fold_left]. by rewrite Z.add_0_r, Z.max_l by lia.
  - cbn [fold_left]. unfold depth_rune at 2.
    rewrite (proj2 (Z.eqb_neq r 123)), (proj2 (Z.eqb_neq r 125)) by done. by apply IH.
  - pose proof (nested_nonneg _ _ Hn1). pose proof (nested_nonneg _ _ Hn2).
    cbn [fold_left]. unfold depth_rune at 2. change (123 =? 123) with true. cbn iota.
    rewrite incr_small by (unfold min64; lia). rewrite fold_left_app, IH1 by lia.
    cbn [fold_left]. unfold depth_rune at 2. change (125 =? 123) with false. change (125 =? 125) with true. cbn iota.
    rewrite (proj2 (Z.ltb_lt 0 (d + 1))) by lia. replace (d + 1 - 1) with d by lia.
    rewrite IH2 by lia. f_equal. lia.
Qed.

(** ** Lemmas: cost *)

Lemma count_from_range skip s sub : 0 <= count_from skip s sub <= slen s.
Proof.
  revert skip. induction s as [|c s IH]; intros skip; cbn [count_from]; [done|].
  rewrite slen_cons. destruct skip as [|k]; [case_match|].
  - specialize (IH (String.length sub - 1)%nat). lia.
  - specialize (IH 0%nat). lia.
  - specialize (IH k). lia.
Qed.

Lemma Count_range s sub : 0 <= Count s sub <= slen s.
Proof. apply count_from_range. Qed.

(** The pattern costs of a text, without overflow. *)
Definition pattern_cost (lower : string) : Z :=
  Count lower "query" + Count lower "mutation" * 10 + Count lower "subscription" * 100
  + Count lower "fragment" * 5 + Count lower "... on" * 20 + Count lower "@include" * 2
  + Count lower "@skip" * 2 + Count lower "@deprecated".

Lemma calculateCost_spec `{Unicode} q :
  slen (ToLower q) <= 2 ^ 40 ->
  calculateCost q = wrap64 (pattern_cost (ToLower q) + wrap64 (countPageSize q * countPageSize q))
  /\ 0 <= pattern_cost (ToLower q) <= 2 ^ 48.
Proof.
  intros Hl. unfold calculateCost, cost_patterns, pattern_cost. cbn [fold_left fst snd].
  pose proof (fun p => Count_range (ToLower q) p) as Hc.
  pose proof (Hc "query"). pose proof (Hc "mutation"). pose proof (Hc "subscription").
  pose proof (Hc "fragment"). pose proof (Hc "... on"). pose proof (Hc "@include").
  pose proof (Hc "@skip"). pose proof (Hc "@deprecated"). clear Hc.
  split; [|lia]. repeat rewrite (wrap64_small (Count _ _ * _)) by (unfold in64, min64, max64; lia).
  do 2 f_equal. rewrite ?Z.mul_1_r, <- ?Z.add_assoc. repeat rewrite wrap64_add_l, <- ?Z.add_assoc.
  rewrite wrap64_small by (unfold in64, min64, max64; lia). lia.
Qed.

Lemma or_else_block (o k : option Decision) :
  (forall d, o = Some d -> d_Action d = ActionBlock) ->
  (exists d, k = Some d /\ d_Action d = ActionBlock) ->
  exists d, (o <||> k) = Some d /\ d_Action d = ActionBlock.
Proof. intros Ho (d & -> & Hd). destruct o as [e|]; cbn [or_else]; eauto. Qed.

Lemma guarded_block (b : bool) (d : Decision) :
  d_Action d = ActionBlock -> forall e, (if b then Some d else None) = Some e -> d_Action e = ActionBlock.
Proof. intros Hd e. by destruct b; intros [= <-]. Qed.

(** ** Properties *)

(** On well-nested query text [countDepth] is the height of the braces,
    across line breaks and whatever text stands between them. *)
Theorem graphql_depth_is_height q h :
  nested (runes_of q) h -> h < max64 -> countDepth q = h.
Proof.
  intros Hn Hh. rewrite countDepth_runes, (nested_fold _ h) by (done || lia).
  pose proof (nested_nonneg _ _ Hn). cbn [fst]. lia.
Qed.

(** With a cost limit below 10000 - the default configuration has 1000 -
    every query that does not page with "first:" is blocked, however small:
    the page size it is charged for is 100, squared. *)
Theorem graphql_unpaged_blocked `{Unicode} g ctx m v :
  0 < maxCost g < 10000 ->
  Contains (ContentType ctx) "json" = true -> body_str ctx <> "" ->
  HasPrefix (TrimSpace (body_str ctx)) "[" = false ->
  Unmarshal (body_str ctx) ≫= as_map = Some m -> string_field m "query" = Some v ->
  Index (ToLower v) "first:" = None -> slen (ToLower v) <= 2 ^ 40 ->
  d_Action (Inspect g ctx) = ActionBlock.
Proof.
  intros Hg Ht Hb Hp Hm Hv Hi Hl. unfold Inspect. rewrite Ht, andb_false_r, orb_false_r.
  replace (String.eqb (ContentType ctx) "") with false
    by (symmetry; apply String.eqb_neq; intros E; by rewrite E in Ht).
  replace (body_len ctx =? 0) with false.
  2:{ symmetry. apply Z.eqb_neq. unfold body_len, body_str in *. by destruct (Body ctx) as [[|c b]|]. }
  unfold parseQuery. rewrite Hp, Hm. set (q := read_request m).
  assert (10000 <= Cost q) as Hc.
  { assert (Cost q = calculateCost v) as ->.
    { unfold q, read_request. rewrite Hv. by destruct (string_field m "operationName"). }
    destruct (calculateCost_spec v Hl) as [-> Hr].
    unfold countPageSize. rewrite Hi. change (wrap64 (100 * 100)) with 10000.
    rewrite wrap64_small; [lia|]. unfold in64, min64, max64. lia. }
  assert (exists d, check_query g (body_str ctx) q = Some d /\ d_Action d = ActionBlock) as (d & Hd & Ha).
  { unfold check_query. apply or_else_block; [by apply guarded_block|].
    rewrite (proj2 (Z.ltb_lt 0 (maxCost g))), (proj2 (Z.ltb_lt (maxCost g) (Cost q))) by lia.
    cbn [andb or_else]. eauto. }
  rewrite Hd. match goal with |- d_Action (default _ ?o) = _ =>
    assert (exists d, o = Some d /\ d_Action d = ActionBlock) as (e & -> & He) end; [|done].
  apply or_else_block; [by apply guarded_block|]. apply or_else_block; [by apply guarded_block|]. eauto.
Qed.

(** The operation check looks at the client's operationName instead of
    the operation: when the client names an allowed operation no query is
    refused as not allowed, mutations included, and when it names anything
    else the query is blocked, allowed ones included. *)
Theorem graphql_operation_name_decides `{Unicode} g body m op :
  string_field m "operationName" = Some op -> allowedOps g <> ∅ -> op <> "" ->
  (op ∈ allowedOps g ->
     forall d, check_query g body (read_request m) = Some d -> RuleID d <> "GRAPHQL-008")
  /\ (op ∉ allowedOps g ->
     exists d, check_query g body (read_request m) = Some d /\ d_Action d = ActionBlock).
Proof.
  intros Ho Hne Hop. assert (Operation (read_request m) = op) as Eo.
  { unfold read_request. by rewrite Ho. }
  unfold check_query. rewrite Eo, (bool_decide_false _ Hne), (proj2 (String.eqb_neq op "") Hop). cbn [negb andb].
  split; intros Hin.
  - rewrite bool_decide_true by done. cbn [negb].
    intros d. repeat case_match; intros [= <-]; done.
  - rewrite bool_decide_false by done. cbn [negb].
    repeat (apply or_else_block; [by apply guarded_block|]). eauto.
Qed.

(** ** Witnesses *)

#[local] Existing Instance unicode_ascii.

Definition nested_query : string := "query { user(id: 1) {" ++ newline ++ " name } posts { author { id } } }".

Lemma graphql_depth_is_height_witness : countDepth nested_query = 3.
Proof.
  apply graphql_depth_is_height; [|by vm_compute].
  assert (exists a b c d e f g : list Z,
    runes_of nested_query = a ++ 123 :: (b ++ 123 :: c ++ 125 :: (d ++ 123 :: (e ++ 123 :: f ++ 125 :: g) ++ 125 :: [32])) ++ 125 :: []
    /\ Forall (fun r => r <> 123 /\ r <> 125) (a ++ b ++ c ++ d ++ e ++ f ++ g))%list as
    (a & b & c & d & e & f & g & -> & Hf).
  { exists (bytes_of "query "), (bytes_of " user(id: 1) "), (bytes_of (newline ++ " name ")), (bytes_of " posts "),
      (bytes_of " author "), (bytes_of " id "), (bytes_of " "). split; [by vm_compute|].
    apply (bool_decide_unpack _). by vm_compute. }
  assert (forall l k h, Forall (fun r => r <> 123 /\ r <> 125) l -> nested k h -> nested (l ++ k) h) as Htext.
  { intros l k h Hl Hk. induction Hl as [|r l [? ?] Hl IH]; [done|]. by apply nested_rune. }
  assert (forall l, Forall (fun r => r <> 123 /\ r <> 125) l -> nested l 0) as Hleaf.
  { intros l Hl. rewrite <- (app_nil_r l). apply Htext; [done|constructor]. }
  rewrite !Forall_app in Hf. destruct Hf as (Ha & Hb & Hc & Hd & He & Hf' & Hg).
  apply Htext; [done|]. apply (nested_group _ 2 [] 0); [|constructor].
  apply Htext; [done|]. apply (nested_group c 0 _ 2); [by apply Hleaf|].
  apply Htext; [done|]. apply (nested_group _ 1 [32] 0); [|by apply Hleaf; repeat constructor].
  apply Htext; [done|]. apply (nested_group f 0 g 0); by apply Hleaf.
Defined.

Definition request_body (q : string) : string := "{" ++ quoted "query" ++ ": " ++ quoted q ++ "}".
Definition post_request (body : string) : RequestContext :=
  mkContext None None "" "" "" "/graphql" "POST" ∅ ∅ ∅ ∅ (Some body) "application/json" "" "" "" "" 0 f0 f0 []
    false false 0 (lit "") "" "" "" "".
Definition default_inspector : GraphQLInspector :=
  NewGraphQLInspector (mkGraphQLConfig 10 1000 10 5 5000 true true [] [] false).

Lemma graphql_unpaged_blocked_witness :
  d_Action (Inspect default_inspector (post_request (request_body "{ me }"))) = ActionBlock.
Proof.
  apply (graphql_unpaged_blocked _ _ {["query" := JString "{ me }"]} "{ me }");
    [by vm_compute|by vm_compute|by vm_compute|by vm_compute|by vm_compute|done|by vm_compute|by vm_compute].
Defined.

(** 2^32 squared is 0 in an int: the largest page is free. *)
Example page_overflow : calculateCost "{ a(first: 4294967296) }" = 0.
Proof. vm_compute. reflexivity. Qed.

(** A blank hides a batch from the batch count. *)
Example batch_blank :
  countOperations ("[" ++ request_body "{ a }" ++ "," ++ request_body "{ b }" ++ "]") = 2
  /\ countOperations ("[{ " ++ quoted "query" ++ ": " ++ quoted "{ a }" ++ "}]") = 0.
Proof. vm_compute. done. Qed.

Definition read_only : GraphQLInspector :=
  NewGraphQLInspector (mkGraphQLConfig 0 0 0 0 0 false false ["query"] [] false).

Definition named_request : gmap string json :=
  {["query" := JString "query GetUser { user }"; "operationName" := JString "GetUser"]}.

Lemma graphql_operation_name_decides_witness :
  exists d, check_query read_only "" (read_request named_request) = Some d /\ d_Action d = ActionBlock.
Proof.
  apply (graphql_operation_name_decides read_only "" named_request "GetUser").
  - by vm_compute.
  - intros E. apply (f_equal elements) in E. by vm_compute in E.
  - done.
  - apply (bool_decide_unpack _). by vm_compute.
Defined.

(** A mutation that calls itself "query" passes the same inspector. *)
Example sneaky_mutation :
  check_query read_only ""
    (read_request {["query" := JString "mutation { drop }"; "operationName" := JString "query"]}) = None.
Proof. vm_compute. reflexivity. Qed.
