(* ===== verification/Desync.v ===== *)
(** * HTTP desynchronisation: [internal/engine/desync.go]

    The six header checks in order. The compiled expressions of the struct
    ([clTeRE], [obsFoldRE], [chunkedRE]) are read nowhere. *)

From S2P Require Import Prelude Float64 GoStr Types.

#[local] Open Scope string_scope.
#[local] Open Scope Z_scope.

Record DesyncDetector : Type := NewDesyncDetector {
  maxBodySize : Z;
  strictCL : bool;
  detectOBSFold : bool
}.

Section desync.
Context `{Unicode} `{MapRange string} `{MapRange Z}.

(** CL.TE, then Content-Length headers that differ. *)
Definition checkCLTE (r : http_Request) : option Decision :=
  let cl := Get (Header r) "Content-Length" in
  let te := Get (Header r) "Transfer-Encoding" in
  if negb (String.eqb cl "") && Contains (ToLower te) "chunked"
  then Some (decision ActionBlock "DSYNC_001" "CL.TE Desync" "critical" 95
               (lit "Content-Length and Transfer-Encoding: chunked both present (CL.TE smuggling)"))
  else
    let cls := Values (Header r) "Content-Length" in
    if 1 <? len cls then
      match filter (fun v => v <> "") (TrimSpace <$> cls) with
      | first :: rest =>
          if existsb (fun v => negb (String.eqb v first)) rest
          then Some (decision ActionBlock "DSYNC_002" "Multiple Content-Length (CL.CL)" "critical" 90
                       (Sprintf "mismatched Content-Length headers: %s" [AStrs (first :: rest)]))
          else None
      | [] => None
      end
    else None.

Definition checkTECL (r : http_Request) : option Decision :=
  let te := Get (Header r) "Transfer-Encoding" in
  let cl := Get (Header r) "Content-Length" in
  if Contains (ToLower te) "chunked" && negb (String.eqb cl "")
  then Some (decision ActionBlock "DSYNC_003" "TE.CL Desync" "critical" 95
               (lit "Transfer-Encoding: chunked with Content-Length present (TE.CL smuggling)"))
  else None.

Definition checkOBSFold (d : DesyncDetector) (ctx : RequestContext) : option Decision :=
  if negb (detectOBSFold d) then None
  else
    first_some
      (fun p =>
         if HasPrefix (fst p) " " || HasPrefix (snd p) " " then
           let ev := Sprintf "obs-fold header detected: %q" [AStr (fst p)] in
           Some (if strictCL d then decision ActionBlock "DSYNC_004" "Obs-fold Header" "high" 75 ev
                 else decision ActionMonitor "DSYNC_004" "Obs-fold Header" "medium" 40 ev)
         else None)
      (map_range (Headers ctx)).

Definition checkContentLengthAnomaly (d : DesyncDetector) (r : http_Request) : option Decision :=
  match Values (Header r) "Content-Length" with
  | [] => None
  | v :: _ =>
      let cl := TrimSpace v in
      if String.eqb cl "" then None
      else
        match ParseInt cl with
        | None =>
            Some (decision ActionBlock "DSYNC_005" "Invalid Content-Length" "high" 70
                    (Sprintf "non-numeric Content-Length: %q" [AStr cl]))
        | Some val =>
            if val <? 0
            then Some (decision ActionBlock "DSYNC_006" "Negative Content-Length" "high" 80
                         (Sprintf "negative Content-Length: %d" [AInt val]))
            else if (0 <? maxBodySize d) && (maxBodySize d <? val)
            then Some (decision ActionBlock "DSYNC_007" "Content-Length Exceeds Limit" "medium" 30
                         (Sprintf "Content-Length %d exceeds max %d" [AInt val; AInt (maxBodySize d)]))
            else None
        end
  end.

(** How often each lower-case name occurs. *)
Definition seen_headers (h : gmap string string) : gmap string Z :=
  fold_left (fun m p => let k := ToLower (fst p) in <[k := lookup_default 0 m k + 1]> m) (map_range h) ∅.

Definition checkDuplicateHeaders (d : DesyncDetector) (ctx : RequestContext) : option Decision :=
  first_some
    (fun p =>
       if 1 <? snd p then
         if bool_decide (fst p ∈ ["content-length"; "transfer-encoding"; "host"]) then None
         else if strictCL d
         then Some (decision ActionMonitor "DSYNC_008" "Duplicate Header" "medium" 20
                      (Sprintf "header %q appears %d times (potential smuggling)" [AStr (fst p); AInt (snd p)]))
         else None
       else None)
    (map_range (seen_headers (Headers ctx))).

Definition checkTEHeader (r : http_Request) : option Decision :=
  let te := Get (Header r) "TE" in
  if negb (String.eqb te "") && (Contains (ToLower te) "chunked" || Contains (ToLower te) "trailers")
  then Some (decision ActionBlock "DSYNC_009" "TE Header Present" "high" 70
               (Sprintf "TE header with sensitive value: %q" [AStr te]))
  else None.

Definition Inspect (d : DesyncDetector) (ctx : RequestContext) : option Decision :=
  match Request ctx with
  | None => None
  | Some r =>
      checkCLTE r <||> checkTECL r <||> checkOBSFold d ctx <||> checkContentLengthAnomaly d r
      <||> checkDuplicateHeaders d ctx <||> checkTEHeader r
  end.

(** ** Lemmas *)

(** The TE.CL check repeats the condition of the CL.TE check before it. *)
Lemma checkTECL_dead r : checkCLTE r = None -> checkTECL r = None.
Proof.
  unfold checkCLTE, checkTECL. rewrite andb_comm. by destruct (_ && _).
Qed.

End desync.
