(* ===== verification/ParserHardener.v ===== *)
(** * Parser hardening: [internal/engine/parser.go]

    Path and header normalisation, Unicode checks, multipart boundaries,
    HTTP/1.0 and chunked bodies. [decodePathValue] calls itself on its result
    as long as that holds a percent sign; where it calls itself on the same
    value for ever, the goroutine's stack overflows, which ends the process:
    the outcome [StackOverflow]. The categories of [unicode.C] are an
    instance of [UnicodeC]. *)

From S2P Require Import Prelude Float64 GoStr Regexp Types.

#[local] Open Scope string_scope.
#[local] Open Scope Z_scope.

Class UnicodeC : Type := category_C : Z -> bool.

Inductive run : Type := Answer (d : option Decision) | StackOverflow.

Definition overlongRE : string :=
  "[\xC0-\xC1]" ++ "|[\xF5-\xFF]" ++ "|[\xF0-\xF4][\x80-\xBF]{0,3}" ++ "|[\xE0-\xEF][\x80-\xBF]{0,2}"
  ++ "|[\xC2-\xDF][\x80-\xBF]" ++ "|[\x80-\xBF]".
Definition normalizationRE : string :=
  "(?i)(?:%2f|%5c|%00|%0d|%0a|%20|%09|%23|%3f|%3b)" ++ "|(?:\.\./)" ++ "|(?://+)" ++ "|(?:/\./)"
  ++ "|(?:/\.$)" ++ "|(?:\\\.\\)".
Definition unicodeControlRE : string :=
  "[\x{200B}\x{200C}\x{200D}\x{FEFF}\x{00AD}]" ++ "|[\x{2028}\x{2029}]" ++ "|[\x{FFF0}-\x{FFFD}]".
Definition http2PrefaceRE : string := "^PRI \* HTTP/2\.0".
Definition chunkExtRE : string := "(?i)[a-z0-9]+\s*;\s*[a-z_]+\s*=\s*[^;\r\n]+".

Lemma parser_patterns_compile :
  forallb compiles [overlongRE; normalizationRE; unicodeControlRE; http2PrefaceRE; chunkExtRE] = true.
Proof. by vm_compute. Qed.

(** ** Percent decoding *)

(** One pass over the value. *)
Fixpoint decode_once (v : string) : string :=
  match v with
  | "" => ""
  | String c t =>
      if Ascii.eqb c "%" then
        match t with
        | String a (String b t') =>
            match Sscanf_02x (String a (String b "")) with
            | Some z => String (chr z) (decode_once t')
            | None => String c (decode_once t)
            end
        | _ => String c (decode_once t)
        end
      else String c (decode_once t)
  end.

(** The recursion, to a depth of [fuel] more calls. *)
Fixpoint decode_from (fuel : nat) (v : string) : option string :=
  if Contains v "%" then
    match fuel with
    | O => None
    | S f =>
        let result := decode_once v in
        if Contains result "%" then decode_from f result else Some result
    end
  else Some v.

(** [None] is a recursion without end ([decode_from_fuel]). *)
Definition decodePathValue (v : string) : option string := decode_from (String.length v) v.

(** ** Checks *)

Section parser.
Context `{Unicode} `{UnicodeC} `{MapRange string}.

(** The loop over the headers; a header is skipped when neither its name nor
    its value has a percent sign. *)
Fixpoint header_traversal (hs : list (string * string)) : run :=
  match hs with
  | [] => Answer None
  | (k, v) :: hs =>
      if Contains k "%" || Contains v "%" then
        match decodePathValue v with
        | None => StackOverflow
        | Some decoded =>
            if negb (String.eqb decoded v) && (Contains decoded "../" || Contains decoded "..\")
            then Answer (Some (decision_conf ActionBlock "PARSER_002" "Double-Encoded Path Traversal" "critical" 90 98
                                 (Sprintf "double-encoded path traversal in header %s: %q -> %q"
                                    [AStr k; AStr v; AStr decoded])))
            else header_traversal hs
        end
      else header_traversal hs
  end.

Definition detectNormalizationBypass (ctx : RequestContext) : run :=
  if MatchString normalizationRE (Path ctx)
  then Answer (Some (decision_conf ActionBlock "PARSER_001" "Normalization Bypass Attempt" "high" 75 95
                       (Sprintf "suspicious path normalization pattern in %q" [AStr (Path ctx)])))
  else header_traversal (map_range (Headers ctx)).

(** The checks of one target. *)
Definition control_rune (r : Z) : bool :=
  (127 <? r) && (category_C r || (r =? 65533)) && MatchString unicodeControlRE (of_runes [r]).

Definition unicode_target (t : string) : option Decision :=
  if negb (ValidString t)
  then Some (decision_conf ActionBlock "PARSER_010" "Invalid UTF-8 in Request" "high" 70 90
               (lit "invalid UTF-8 sequence detected in request data"))
  else
    match List.find control_rune (runes_of t) with
    | Some r =>
        Some (decision_conf ActionBlock "PARSER_011" "Unicode Control Character" "high" 75 92
                (Sprintf "unicode control character U+%04X in request" [AInt r]))
    | None =>
        if MatchString overlongRE t
        then Some (decision_conf ActionBlock "PARSER_012" "Overlong UTF-8 Encoding" "critical" 85 95
                     (lit "overlong UTF-8 encoding detected (parser differential attack)"))
        else None
    end.

Definition unicode_targets (ctx : RequestContext) : list string :=
  ([Path ctx; Method ctx; RealIP ctx] ++ flat_map (fun p => [fst p; snd p]) (map_range (Headers ctx)))%list.

Definition detectUnicodeAttack (ctx : RequestContext) : option Decision :=
  first_some unicode_target (unicode_targets ctx).

Definition extractBoundary (ct : string) : string :=
  if negb (Contains (ToLower ct) "boundary=") then ""
  else
    match Split ct "boundary=" with
    | _ :: part :: _ =>
        let b := TrimSpace part in
        let b := match IndexAny b ("; " ++ String (ascii_of_nat 9) crlf) with
                 | Some (S n) => take_str (S n) b
                 | _ => b
                 end in
        Trim (ascii_of_nat 34) b
    | _ => ""
    end.

Definition detectParserDifferential (r : http_Request) : option Decision :=
  let ct := Get (Header r) "Content-Type" in
  let boundary := extractBoundary ct in
  if Contains (ToLower ct) "multipart/form-data" && negb (String.eqb boundary "")
     && (Contains boundary "\" || HasPrefix boundary " ")
  then Some (decision_conf ActionBlock "PARSER_020" "Multipart Boundary Parser Differential" "high" 80 93
               (Sprintf "suspicious multipart boundary: %q" [AStr boundary]))
  else
    let transferEncodings := Values (Header r) "Transfer-Encoding" in
    if 1 <? len transferEncodings
    then Some (decision_conf ActionBlock "PARSER_021" "Multiple Transfer-Encoding (Parser Differential)" "critical" 95 97
                 (Sprintf "multiple TE headers: %v" [AStrs transferEncodings]))
    else None.

Definition detectHTTPDowngrade (ctx : RequestContext) (r : http_Request) : option Decision :=
  (if String.eqb (Proto r) "HTTP/1.0" then
     if String.eqb (Method ctx) "POST" && String.eqb (Get (Header r) "Content-Length") "" && (0 <? body_len ctx)
     then Some (decision_conf ActionBlock "PARSER_030" "HTTP/1.0 Downgrade Attack" "high" 70 85
                  (lit "HTTP/1.0 POST with body but no Content-Length (request smuggling)"))
     else if String.eqb (Get (Header r) "Host") ""
     then Some (decision_conf ActionMonitor "PARSER_031" "HTTP/1.0 No Host Header" "low" 20 60
                  (lit "HTTP/1.0 request missing Host header"))
     else None
   else None)
  <||> (if String.eqb (Method ctx) "PRI" && MatchString http2PrefaceRE (header ctx "PRI")
        then Some (decision_conf ActionBlock "PARSER_032" "HTTP/2 Preface in HTTP/1.1" "critical" 95 99
                     (lit "HTTP/2 connection preface sent on HTTP/1.1 connection"))
        else None).

Definition detectChunkedAbuse (ctx : RequestContext) (r : http_Request) : option Decision :=
  if negb (Contains (ToLower (Get (Header r) "Transfer-Encoding")) "chunked") then None
  else if body_len ctx =? 0 then None
  else
    let matches := len (FindAll chunkExtRE (body_str ctx)) in
    if 3 <? matches
    then Some (decision_conf ActionMonitor "PARSER_040" "Excessive Chunk Extensions" "medium" 40 70
                 (Sprintf "excessive chunk extensions (%d) in chunked body" [AInt matches]))
    else
      let marker := "0" ++ crlf ++ crlf in
      if Contains (body_str ctx) marker && (1 <? Count (body_str ctx) marker)
      then Some (decision_conf ActionBlock "PARSER_041" "Chunked Trailer Confusion" "high" 75 90
                   (lit "multiple chunk terminator markers in chunked body"))
      else None.

Definition Inspect (ctx : RequestContext) : run :=
  match Request ctx with
  | None => Answer None
  | Some r =>
      match detectNormalizationBypass ctx with
      | StackOverflow => StackOverflow
      | Answer (Some d) => Answer (Some d)
      | Answer None =>
          Answer (detectUnicodeAttack ctx <||> detectParserDifferential r <||> detectHTTPDowngrade ctx r
                  <||> detectChunkedAbuse ctx r)
      end
  end.

End parser.

(** ** Lemmas: decoding *)

Lemma decode_once_shrinks v : decode_once v = v \/ (String.length (decode_once v) < String.length v)%nat.
Proof.
  induction v as [v IH] using (induction_ltof1 _ String.length). unfold ltof in IH.
  assert (forall c t, v = String c t -> decode_once v = String c (decode_once t) ->
    decode_once v = v \/ (String.length (decode_once v) < String.length v)%nat) as Hkeep.
  { intros c t -> ->. destruct (IH t ltac:(cbn [String.length]; lia)) as [->|Hl]; [by left|].
    right. cbn [String.length]. lia. }
  destruct v as [|c t]; [by left|]. cbn [decode_once] in *.
  destruct (Ascii.eqb c "%"); [|by eapply Hkeep].
  destruct t as [|a [|b t']]; [by eapply Hkeep..|].
  destruct (Sscanf_02x _); [|by eapply Hkeep].
  right. cbn [String.length]. destruct (IH t' ltac:(cbn [String.length]; lia)) as [->|?]; lia.
Qed.

Lemma decode_once_plain v : Contains v "%" = false -> decode_once v = v.
Proof.
  induction v as [|c v IH]; [done|]. cbn [Contains decode_once]. intros [Hc Hv]%orb_false_iff.
  destruct (Ascii.eqb_spec c "%") as [->|]; [by destruct v|]. by rewrite IH.
Qed.

(** A value that decodes to itself and holds a percent sign: no depth of
    recursion ends. *)
Definition stuck (v : string) : Prop := decode_once v = v /\ Contains v "%" = true.

Lemma decode_stuck v : stuck v -> forall f, decode_from f v = None.
Proof.
  intros [He Hp] f. induction f as [|f IH]; cbn [decode_from]; rewrite Hp; [done|]. by rewrite He, Hp.
Qed.

Lemma decode_from_fuel f v :
  (String.length v <= f)%nat -> decode_from f v = decode_from (String.length v) v.
Proof.
  revert f. induction v as [v IH] using (induction_ltof1 _ String.length). unfold ltof in IH. intros f Hf.
  destruct (Contains v "%") eqn:Hp.
  2:{ destruct f, (String.length v); cbn [decode_from]; by rewrite Hp. }
  destruct (decode_once_shrinks v) as [He|Hl].
  { by rewrite !(decode_stuck v (conj He Hp)). }
  destruct f as [|f]; [lia|]. destruct (String.length v) as [|n] eqn:En; [lia|].
  cbn [decode_from]. rewrite Hp. destruct (Contains (decode_once v) "%"); [|done].
  rewrite (IH (decode_once v)) by lia. symmetry. apply IH; lia.
Qed.

Lemma decode_from_plain f v : Contains v "%" = false -> decode_from f v = Some v.
Proof. intros Hp. destruct f; cbn [decode_from]; by rewrite Hp. Qed.

(** One more call, when the value decodes to another with a percent sign. *)
Lemma decodePathValue_step v :
  Contains v "%" = true -> Contains (decode_once v) "%" = true ->
  decodePathValue v = decodePathValue (decode_once v).
Proof.
  intros Hp Hq. unfold decodePathValue. destruct (decode_once_shrinks v) as [->|Hl]; [done|].
  destruct (String.length v) as [|n] eqn:En; [lia|]. cbn [decode_from]. rewrite Hp, Hq.
  apply decode_from_fuel. lia.
Qed.

Lemma decodePathValue_last v :
  Contains v "%" = true -> Contains (decode_once v) "%" = false -> decodePathValue v = Some (decode_once v).
Proof.
  intros Hp Hq. unfold decodePathValue. destruct v as [|c t]; [done|]. cbn [String.length decode_from].
  by rewrite Hp, Hq.
Qed.

Lemma decode_from_mono f v r : decode_from f v = Some r -> decodePathValue v = Some r.
Proof.
  revert v. induction f as [|f IH]; intros v; cbn [decode_from]; destruct (Contains v "%") eqn:Hp;
    intros [= Hr]; try (subst; by apply decode_from_plain).
  destruct (Contains (decode_once v) "%") eqn:Hq.
  - rewrite decodePathValue_step by done. by apply IH.
  - simplify_eq. by apply decodePathValue_last.
Qed.

Lemma iter_plain n v : Contains v "%" = false -> Nat.iter n decode_once v = v.
Proof. intros Hv. induction n as [|n IH]; [done|]. rewrite Nat.iter_succ, IH. by apply decode_once_plain. Qed.

Lemma decode_iter_stuck n v : stuck (Nat.iter n decode_once v) -> decodePathValue v = None.
Proof.
  revert v. induction n as [|n IH]; intros v; [by intros Hs; apply decode_stuck|].
  rewrite Nat.iter_succ_r. intros Hs. pose proof Hs as [_ Hp].
  destruct (Contains v "%") eqn:Hv.
  2:{ rewrite decode_once_plain, iter_plain in Hp by done. congruence. }
  destruct (Contains (decode_once v) "%") eqn:Hq.
  - rewrite decodePathValue_step by done. by apply IH.
  - rewrite iter_plain in Hp by done. congruence.
Qed.

Lemma decode_none_iter v : decodePathValue v = None -> exists n, stuck (Nat.iter n decode_once v).
Proof.
  induction v as [v IH] using (induction_ltof1 _ String.length). unfold ltof in IH. intros E.
  destruct (Contains v "%") eqn:Hp; [|unfold decodePathValue in E; by rewrite decode_from_plain in E].
  destruct (decode_once_shrinks v) as [He|Hl]; [by exists 0%nat|].
  destruct (Contains (decode_once v) "%") eqn:Hq.
  - rewrite decodePathValue_step in E by done. destruct (IH (decode_once v) Hl E) as [k Hk].
    exists (S k). by rewrite Nat.iter_succ_r.
  - by rewrite decodePathValue_last in E.
Qed.

(** ** Lemmas: headers *)

Definition traversal (v : string) : bool :=
  match decodePathValue v with
  | Some d => negb (String.eqb d v) && (Contains d "../" || Contains d "..\")
  | None => false
  end.

Lemma header_traversal_overflow hs :
  (exists k v, (k, v) ∈ hs /\ stuck v) ->
  (forall k v, (k, v) ∈ hs -> Contains k "%" || Contains v "%" = true -> traversal v = false) ->
  header_traversal hs = StackOverflow.
Proof.
  intros (k & v & Hin & Hs) Ht. induction hs as [|[k' v'] hs IH]; [by apply elem_of_nil in Hin|].
  cbn [header_traversal]. apply elem_of_cons in Hin as [[= <- <-]|Hin].
  - destruct Hs as [He Hp]. rewrite Hp, orb_true_r. unfold decodePathValue.
    by rewrite (decode_stuck v (conj He Hp)).
  - assert (header_traversal hs = StackOverflow) as Hh.
    { apply IH; [done|]. intros a b Hab. apply Ht. by right. }
    destruct (Contains k' "%" || Contains v' "%") eqn:E; [|done].
    specialize (Ht k' v' ltac:(left) E). unfold traversal in Ht.
    destruct (decodePathValue v') as [d|]; [|done]. by rewrite Ht.
Qed.

(** ** Properties *)

(** [C15] [decodePathValue] returns exactly when the repeated decoding of the
    value does not come to rest on a text that still holds a percent sign;
    otherwise no depth of recursion is enough. *)
Theorem decoding_ends_iff v :
  (decodePathValue v = None <-> exists n, stuck (Nat.iter n decode_once v))
  /\ (decodePathValue v = None -> forall depth, decode_from depth v = None).
Proof.
  split; [split; [apply decode_none_iter|intros [n Hn]; by eapply decode_iter_stuck]|].
  intros Hn depth. destruct (decode_from depth v) as [r|] eqn:E; [|done].
  apply decode_from_mono in E. congruence.
Qed.

(** One header value with a percent sign that decodes to nothing, "100%"
    say, overflows the stack of the request's goroutine, which ends the
    process: on a path the normalisation check passes, whatever the order the
    headers are looked at, unless another header is itself a traversal. *)
Theorem percent_sign_overflows_stack `{Unicode} `{UnicodeC} `{MapRange string} ctx r k v :
  Request ctx = Some r -> MatchString normalizationRE (Path ctx) = false ->
  Headers ctx !! k = Some v -> stuck v ->
  (forall k' v', Headers ctx !! k' = Some v' -> traversal v' = false) ->
  Inspect ctx = StackOverflow.
Proof.
  intros Hr Hp Hk Hs Ht. unfold Inspect, detectNormalizationBypass. rewrite Hr, Hp.
  rewrite header_traversal_overflow; [done| |].
  - exists k, v. split; [by apply elem_of_map_range|done].
  - intros a b Hab _. apply elem_of_map_range in Hab. by apply (Ht a).
Qed.

(** The check for overlong encodings looks at runes, not bytes: valid
    text with one of the letters U+00E0 to U+00FF - "é" or "ü" in a header or
    a path - is refused. *)
Theorem latin1_letters_refused `{Unicode} `{UnicodeC} t r :
  ValidString t = true -> r ∈ runes_of t -> 224 <= r <= 255 ->
  exists d, unicode_target t = Some d /\ d_Action d = ActionBlock.
Proof.
  intros Hv [i Hi]%list_elem_of_lookup Hr. unfold unicode_target. rewrite Hv. cbn [negb].
  destruct (List.find control_rune (runes_of t)); [by eexists|].
  assert (MatchString overlongRE t = true) as ->; [|by eexists].
  pose proof (lookup_lt_Some _ _ _ Hi) as Hl.
  eapply MatchString_spec; [by vm_compute|]. exists i, (S i). split; [lia|].
  assert (forall lo hi, lo <= r <= hi -> matches (runes_of t) (Chr (mkCls false false [(false, [(lo, hi)])])) i (S i)) as Hc.
  { intros lo hi Hlh. apply M_chr with r; [done|]. unfold cls_test, in_range.
    cbn [cls_fold cls_neg cls_items existsb fst snd]. rewrite (proj2 (Z.leb_le lo r)), (proj2 (Z.leb_le r hi)) by lia. done. }
  destruct (Z.le_gt_cases r 239); [|destruct (Z.le_gt_cases r 244)].
  - do 3 apply M_alt_r. apply M_alt_l. apply M_cat with (S i); [apply Hc; lia|]. apply M_alt_r. constructor.
  - do 2 apply M_alt_r. apply M_alt_l. apply M_cat with (S i); [apply Hc; lia|]. apply M_alt_r. constructor.
  - apply M_alt_r, M_alt_l, Hc. lia.
Qed.

(** ** Witnesses *)

#[local] Existing Instance unicode_ascii.
#[local] Instance no_category : UnicodeC := fun _ => false.

Definition discount_request : RequestContext :=
  mkContext (Some (mkRequest ∅ "GET" "/" "" "" "HTTP/1.1" 0 [] ∅ None)) None "" "" "" "/" "GET"
    {["Cookie" := "discount=100%"]} ∅ ∅ ∅ None "" "" "" "" "" 0 f0 f0 [] false false 0 (lit "") "" "" "" "".

Lemma percent_sign_overflows_stack_witness : Inspect discount_request = StackOverflow.
Proof.
  apply (percent_sign_overflows_stack _ (mkRequest ∅ "GET" "/" "" "" "HTTP/1.1" 0 [] ∅ None)
           "Cookie" "discount=100%"); [done|by vm_compute|done|by split; vm_compute|].
  intros k v Hk. cbn [Headers discount_request] in Hk.
  apply lookup_singleton_Some in Hk as [<- <-]. by vm_compute.
Defined.

Definition cafe : string := of_bytes [99; 97; 102; 195; 169].

Lemma latin1_letters_refused_witness :
  exists d, unicode_target cafe = Some d /\ d_Action d = ActionBlock.
Proof.
  apply (latin1_letters_refused cafe 233); [by vm_compute| |lia].
  apply (bool_decide_unpack _). by vm_compute.
Defined.

Lemma decoding_ends_iff_witness : decodePathValue "a%25%" = None.
Proof. apply (proj1 (decoding_ends_iff "a%25%")). exists 1%nat. by split; vm_compute. Defined.

Example decode_double : decodePathValue "%252e%252e/" = Some "../".
Proof. vm_compute. reflexivity. Qed.
Example decode_one_digit : decodePathValue "%4zx" = Some (String (ascii_of_nat 4) "x").
Proof. vm_compute. reflexivity. Qed.
