(* ===== verification/Protocol.v ===== *)
(** * Protocol checks: [internal/engine/protocol.go] and [middleware.go]

    Module [Anomaly]: the protocol anomaly detector. Modules [Captcha], [Response],
    [Soap] and [Grpc]: the inspectors of [middleware.go]; [ResponseInspector]
    answers nothing. The captcha services are reached through a parameter,
    their decoded answer. *)

From S2P Require Import Prelude Float64 GoStr Regexp Types.

#[local] Open Scope string_scope.
#[local] Open Scope Z_scope.

Module Anomaly.

Definition malformedRE : string := "[\x00-\x08\x0b\x0c\x0e-\x1f\x7f]".

Lemma malformed_compiles : compiles malformedRE = true.
Proof. by vm_compute. Qed.

Definition verbTampering : list string :=
  ["CONNECT"; "TRACE"; "TRACK"; "PUT"; "DELETE"; "PATCH"; "PROPFIND"; "PROPPATCH"; "MKCOL"; "MOVE";
   "COPY"; "LOCK"; "UNLOCK"; "SEARCH"; "OPTIONS"; "HEAD"; "BIND"; "REBIND"; "UNBIND"; "ACL"; "REPORT";
   "VERSION-CONTROL"; "CHECKIN"; "CHECKOUT"; "UNCHECKOUT"; "MERGE"; "BASELINE-CONTROL"; "MKCALENDAR";
   "MKREDIRECTREF"; "UPDATEREDIRECTREF"].

Section anomaly.
Context `{Unicode} `{MapRange string} `{MapRange (list string)}.

Definition malformed_header (p : string * string) : option Decision :=
  if MatchString malformedRE (fst p) || MatchString malformedRE (snd p)
  then Some (decision ActionBlock "PROT002" "Malformed HTTP Header" "high" 75
               (Sprintf "malformed header: %s" [AStr (fst p)]))
  else None.

Definition header_size (ctx : RequestContext) : Z :=
  fold_left (fun n p => wrap64 (n + (slen (fst p) + slen (snd p)))) (map_range (Headers ctx)) 0.

Definition detectMalformedRequest (ctx : RequestContext) : option Decision :=
  (if String.eqb (Method ctx) ""
   then Some (decision ActionBlock "PROT001" "Missing HTTP Method" "high" 70 (lit "http request missing method"))
   else None)
  <||> first_some malformed_header (map_range (Headers ctx))
  <||> (let n := len (map_range (Headers ctx)) in
        if 100 <? n
        then Some (decision ActionBlock "PROT003" "Excessive Headers" "medium" 40
                     (Sprintf "too many headers: %d" [AInt n])) else None)
  <||> (if 32000 <? header_size ctx
        then Some (decision ActionBlock "PROT004" "Header Size Exceeded" "high" 65
                     (Sprintf "total header size: %d bytes" [AInt (header_size ctx)])) else None).

Definition detectRequestSmuggling (ctx : RequestContext) : option Decision :=
  let contentLength := header ctx "Content-Length" in
  let transferEncoding := header ctx "Transfer-Encoding" in
  if negb (String.eqb contentLength "") && negb (String.eqb transferEncoding "")
  then Some (decision ActionBlock "PROT005" "Request Smuggling (CL.TE)" "critical" 90
               (lit "both content-length and transfer-encoding headers present"))
  else if Contains (ToLower transferEncoding) "chunked" then
    if 0 <? Count transferEncoding ","
    then Some (decision ActionBlock "PROT006" "Request Smuggling (TE.TE)" "critical" 90
                 (Sprintf "obfuscated transfer-encoding: %s" [AStr transferEncoding]))
    else if Contains (ToLower transferEncoding) "identity"
    then Some (decision ActionBlock "PROT007" "Transfer-Encoding Obfuscation" "high" 80
                 (lit "transfer-encoding contains identity"))
    else None
  else None.

Definition detectWebSocketAnomaly (ctx : RequestContext) : option Decision :=
  if String.eqb (ToLower (header ctx "Upgrade")) "websocket" then
    if String.eqb (header ctx "Sec-WebSocket-Version") "" || String.eqb (header ctx "Sec-WebSocket-Key") ""
    then Some (decision ActionBlock "PROT008" "Malformed WebSocket Request" "high" 70
                 (lit "websocket upgrade missing required headers"))
    else if negb (Contains (ToLower (header ctx "Connection")) "upgrade")
    then Some (decision ActionBlock "PROT009" "WebSocket Connection Header Missing" "high" 65
                 (lit "websocket upgrade without connection: upgrade"))
    else None
  else None.

Definition detectVerbTampering (ctx : RequestContext) : option Decision :=
  let method := ToUpper (Method ctx) in
  if bool_decide (method ∈ verbTampering)
  then Some (decision ActionBlock "PROT010" "HTTP Verb Tampering" "high" 70
               (Sprintf "suspicious HTTP method: %s" [AStr method]))
  else None.

Definition has_newline (v : string) : bool := Contains v crlf || Contains v (String (ascii_of_nat 10) "").

Definition detectResponseHeaderInjection (ctx : RequestContext) : option Decision :=
  first_some
    (fun p => first_some
       (fun val => if has_newline val
                   then Some (decision ActionBlock "PROT011" "Response Header Injection" "critical" 85
                                (lit "header injection payload detected")) else None) (snd p))
    (map_range (QueryParams ctx))
  <||> first_some
    (fun p => if has_newline (snd p)
              then Some (decision ActionBlock "PROT012" "Cookie Injection" "high" 80
                           (lit "cookie header injection detected")) else None)
    (map_range (Cookies ctx)).

Definition maxCookieSize : Z := 4096.
Definition maxCookieCount : Z := 50.

Definition detectCookieSecurity (ctx : RequestContext) : option Decision :=
  first_some
    (fun p => if maxCookieSize <? slen (fst p) + slen (snd p)
              then Some (decision ActionBlock "PROT013" "Oversized Cookie" "medium" 40
                           (Sprintf "cookie %s size exceeds limit" [AStr (fst p)])) else None)
    (map_range (Cookies ctx))
  <||> (let n := len (map_range (Cookies ctx)) in
        if maxCookieCount <? n
        then Some (decision ActionBlock "PROT014" "Excessive Cookies" "medium" 35
                     (Sprintf "too many cookies: %d" [AInt n])) else None).

Definition Inspect (ctx : RequestContext) : option Decision :=
  detectMalformedRequest ctx <||> detectRequestSmuggling ctx <||> detectWebSocketAnomaly ctx
  <||> detectVerbTampering ctx <||> detectResponseHeaderInjection ctx <||> detectCookieSecurity ctx.

(** [SanitizeHeaders]: [r.Header.Del("X-Forwarded-For")]. *)
Definition SanitizeHeaders (h : gmap string (list string)) : gmap string (list string) :=
  delete (CanonicalHeaderKey "X-Forwarded-For") h.

(** ** Lemmas *)

Definition blocks (o : option Decision) : Prop := forall d, o = Some d -> d_Action d = ActionBlock.

Lemma blocks_None : blocks None.
Proof. by intros d. Qed.
Lemma blocks_Some d : d_Action d = ActionBlock -> blocks (Some d).
Proof. by intros Hd e [= <-]. Qed.
Lemma blocks_or o k : blocks o -> blocks k -> blocks (o <||> k).
Proof. intros Ho Hk d [Hd|[_ Hd]]%or_else_Some; [by apply Ho|by apply Hk]. Qed.
Lemma blocks_first {A} (f : A -> option Decision) l : (forall a, blocks (f a)) -> blocks (first_some f l).
Proof. intros Hf d (a & _ & Ha)%first_some_Some. by apply (Hf a). Qed.

Ltac solve_blocks :=
  repeat first [apply blocks_or | apply blocks_first; intros ? | apply blocks_None
               | by apply blocks_Some | case_match].

Lemma or_blocks o k :
  blocks o -> (exists d, k = Some d /\ d_Action d = ActionBlock) ->
  exists d, (o <||> k) = Some d /\ d_Action d = ActionBlock.
Proof. intros Ho (d & -> & Hd). destruct o as [e|]; cbn [or_else]; eauto. Qed.

Lemma malformed_blocks ctx : blocks (detectMalformedRequest ctx).
Proof. unfold detectMalformedRequest, malformed_header. solve_blocks. Qed.
Lemma smuggling_blocks ctx : blocks (detectRequestSmuggling ctx).
Proof. unfold detectRequestSmuggling. solve_blocks. Qed.
Lemma websocket_blocks ctx : blocks (detectWebSocketAnomaly ctx).
Proof. unfold detectWebSocketAnomaly. solve_blocks. Qed.

(** The detector never answers anything but a block. *)
Lemma anomaly_blocks ctx : blocks (Inspect ctx).
Proof.
  unfold Inspect. apply blocks_or; [apply malformed_blocks|]. apply blocks_or; [apply smuggling_blocks|].
  apply blocks_or; [apply websocket_blocks|].
  unfold detectVerbTampering, detectResponseHeaderInjection, detectCookieSecurity. solve_blocks.
Qed.

(** [net/http] keeps header names in canonical form. *)
Definition canonical_headers (ctx : RequestContext) : Prop :=
  forall k v, Headers ctx !! k = Some v -> CanonicalHeaderKey k = k.

(** Every WebSocket upgrade is refused: the detector looks its headers up
    as "Sec-WebSocket-Version" and "Sec-WebSocket-Key", names that are not
    canonical, so with the headers as [net/http] stores them it finds neither
    and blocks the request, well-formed or not. *)
Theorem websocket_upgrades_blocked ctx :
  canonical_headers ctx -> ToLower (header ctx "Upgrade") = "websocket" ->
  exists d, Inspect ctx = Some d /\ d_Action d = ActionBlock.
Proof.
  intros Hc Hu. unfold Inspect.
  apply or_blocks; [apply malformed_blocks|]. apply or_blocks; [apply smuggling_blocks|].
  assert (Headers ctx !! "Sec-WebSocket-Version" = None) as Hv.
  { destruct (Headers ctx !! "Sec-WebSocket-Version") as [v|] eqn:E; [|done].
    apply Hc in E. by vm_compute in E. }
  unfold detectWebSocketAnomaly. rewrite Hu. cbn [String.eqb Ascii.eqb Bool.eqb].
  unfold header at 1, lookup_default. rewrite Hv. cbn. eauto.
Qed.

(** The methods of a REST client or a browser beyond GET and POST - PUT,
    PATCH, DELETE, HEAD, OPTIONS - are refused in any spelling. *)
Theorem rest_methods_blocked ctx m :
  m ∈ ["PUT"; "PATCH"; "DELETE"; "HEAD"; "OPTIONS"] -> ToUpper (Method ctx) = m ->
  exists d, Inspect ctx = Some d /\ d_Action d = ActionBlock.
Proof.
  intros Hm Hu. unfold Inspect. apply or_blocks; [apply malformed_blocks|].
  apply or_blocks; [apply smuggling_blocks|]. apply or_blocks; [apply websocket_blocks|].
  assert (m ∈ verbTampering) as Hv.
  { unfold verbTampering. rewrite !elem_of_cons, elem_of_nil in *. intuition congruence. }
  unfold detectVerbTampering. rewrite Hu, bool_decide_true by done. cbn [or_else]. eauto.
Qed.

End anomaly.

#[local] Existing Instance unicode_ascii.

Definition upgrade_request : RequestContext :=
  mkContext None None "" "" "" "/ws" "GET"
    {["Upgrade" := "websocket"; "Connection" := "Upgrade"; "Sec-Websocket-Version" := "13";
      "Sec-Websocket-Key" := "dGhlIHNhbXBsZSBub25jZQ=="]}
    ∅ ∅ ∅ None "" "" "" "" "" 0 f0 f0 [] false false 0 (lit "") "" "" "" "".

Lemma websocket_upgrades_blocked_witness :
  exists d, Inspect upgrade_request = Some d /\ d_Action d = ActionBlock.
Proof.
  apply websocket_upgrades_blocked; [|by vm_compute].
  apply (bool_decide_unpack (map_Forall (fun k _ => CanonicalHeaderKey k = k) (Headers upgrade_request))).
  by vm_compute.
Defined.

Lemma rest_methods_blocked_witness :
  exists d, Inspect (mkContext None None "" "" "" "/" "delete" ∅ ∅ ∅ ∅ None "" "" "" "" "" 0 f0 f0 []
                       false false 0 (lit "") "" "" "" "") = Some d /\ d_Action d = ActionBlock.
Proof.
  apply (rest_methods_blocked _ "DELETE"); [|by vm_compute].
  apply (bool_decide_unpack _). by vm_compute.
Defined.

End Anomaly.

(** ** CAPTCHA verification *)

Module Captcha.

Record CAPTCHAVerifier : Type := mkCaptcha {
  enabled : bool;
  provider : string;
  secret : string;
  siteKey : string;
  score : f64
}.

Definition NewCAPTCHAVerifier (provider secret siteKey : string) (score : f64) : CAPTCHAVerifier :=
  mkCaptcha true provider secret siteKey score.

(** The service's decoded answer to a form with secret and token: success and
    score, or the text of the error. *)
Class SiteVerify : Type := siteverify : string -> string -> string -> result text (bool * f64).

Section captcha.
Context `{SiteVerify}.

Definition verify_at (url : string) (cv : CAPTCHAVerifier) (token : string) : result text (bool * f64) :=
  match siteverify url (secret cv) token with
  | Err e => Err e
  | Ok (success, sc) => Ok (success && fge sc (score cv), sc)
  end.

Definition verify (cv : CAPTCHAVerifier) (token : string) : result text (bool * f64) :=
  if String.eqb (provider cv) "recaptcha"
  then verify_at "https://www.google.com/recaptcha/api/siteverify" cv token
  else if String.eqb (provider cv) "hcaptcha"
  then verify_at "https://hcaptcha.com/siteverify" cv token
  else Err (Sprintf "unsupported captcha provider: %s" [AStr (provider cv)]).

(** [None] of the outer option is a panic: a nil request. *)
Definition Inspect (cv : CAPTCHAVerifier) (ctx : RequestContext) : outcome (result text (option Decision)) :=
  if negb (enabled cv) then Returns (Ok None)
  else
    let! t1 := request_header ctx "X-CAPTCHA-Token" in
    let! t2 := request_header ctx "X-Recaptcha-Token" in
    let token := if String.eqb t1 "" then t2 else t1 in
    if String.eqb token "" then Returns (Ok None)
    else
      Returns
        match verify cv token with
        | Err _ => Err (lit "captcha verify: %w")
        | Ok (true, _) => Ok None
        | Ok (false, sc) =>
            Ok (Some (decision ActionBlock "CAPTCHA001" "CAPTCHA Verification Failed" "low" 30
                        (Sprintf "CAPTCHA score %f below threshold %f" [AFloat sc; AFloat (score cv)])))
        end.

(** A request without a token passes: the verifier never asks for one. *)
Lemma captcha_without_token cv ctx r :
  Request ctx = Some r -> Get (Header r) "X-CAPTCHA-Token" = "" ->
  Get (Header r) "X-Recaptcha-Token" = "" -> Inspect cv ctx = Returns (Ok None).
Proof.
  intros Hr H1 H2. unfold Inspect, request_header. rewrite Hr. cbn [out_bind]. rewrite H1, H2.
  by destruct (enabled cv).
Qed.

End captcha.
End Captcha.

(** ** The response recorder: [middleware.go]

    The wrapped [http.ResponseWriter] is a parameter. *)

Module Response.

Class HttpWriter (W : Type) : Type := {
  http_WriteHeader : Z -> W -> W;
  http_Write : string -> W -> result text Z * W
}.

Record ResponseWriter (W : Type) : Type := mkWriter {
  wrapped : W;
  StatusCode : Z;
  Body : string;
  InspectBody : bool
}.
Arguments mkWriter {W}.
Arguments wrapped {W}.
Arguments StatusCode {W}.
Arguments Body {W}.
Arguments InspectBody {W}.

Section response.
Context {W : Type} `{HttpWriter W}.

Definition WriteHeader (code : Z) (rw : ResponseWriter W) : ResponseWriter W :=
  mkWriter (http_WriteHeader code (wrapped rw)) code (Body rw) (InspectBody rw).

Definition Write (b : string) (rw : ResponseWriter W) : result text Z * ResponseWriter W :=
  let body := if InspectBody rw then Body rw ++ b else Body rw in
  let '(r, w) := http_Write b (wrapped rw) in
  (r, mkWriter w (StatusCode rw) body (InspectBody rw)).

Fixpoint writes (bs : list string) (rw : ResponseWriter W) : ResponseWriter W :=
  match bs with [] => rw | b :: bs => writes bs (snd (Write b rw)) end.

(** What the recorder keeps is what was handed to it, also when the client's
    connection fails. *)
Lemma writes_body bs rw :
  Body (writes bs rw) = if InspectBody rw then Body rw ++ String.concat "" bs else Body rw.
Proof.
  revert rw. induction bs as [|b bs IH]; intros rw; cbn [writes].
  - destruct (InspectBody rw); [by rewrite sapp_nil_r|done].
  - rewrite IH. unfold Write. destruct (http_Write b (wrapped rw)) as [r w]. cbn [snd InspectBody Body].
    destruct (InspectBody rw); [|done]. rewrite sapp_assoc. f_equal. destruct bs; cbn; [by rewrite sapp_nil_r|done].
Qed.

End response.
End Response.


(** ** SOAP *)

Module Soap.

Record SOAPValidator : Type := mkSoap { enabled : bool; strictSchema : bool; maxDepth : Z }.

Definition NewSOAPValidator (strictSchema : bool) (maxDepth : Z) : SOAPValidator :=
  mkSoap true strictSchema (if maxDepth <=? 0 then 10 else maxDepth).

Fixpoint scan (maxDepth depth openTags : Z) (body : list Z) : option Decision :=
  match body with
  | [] => None
  | b :: body =>
      if b =? 60 then
        let openTags := incr openTags in
        let depth := incr depth in
        if maxDepth <? depth
        then Some (decision ActionBlock "SOAP001" "SOAP/XML Depth Exceeded" "medium" 50
                     (Sprintf "XML nesting depth exceeded max of %d" [AInt maxDepth]))
        else scan maxDepth depth openTags body
      else if b =? 62 then
        let openTags := openTags - 1 in
        if openTags <? 0
        then Some (decision ActionBlock "SOAP002" "Malformed XML" "medium" 50 (lit "unexpected closing tag"))
        else scan maxDepth depth openTags body
      else scan maxDepth depth openTags body
  end.

Definition Inspect (sv : SOAPValidator) (ctx : RequestContext) : option Decision :=
  if negb (enabled sv) then None
  else if negb (String.eqb (ContentType ctx) "text/xml")
          && negb (String.eqb (ContentType ctx) "application/soap+xml") then None
  else scan (maxDepth sv) 0 0 (bytes_of (body_str ctx)).

(** Tags are closed after they are opened: no prefix has more [>] than [<]. *)
Definition opens (l : list Z) : Z := count_of (Z.eqb 60) l.
Definition closes (l : list Z) : Z := count_of (Z.eqb 62) l.
Definition tags_in_order (l : list Z) : Prop := forall p, p `prefix_of` l -> closes p <= opens p.

Lemma scan_ordered m d o l :
  0 <= o <= d -> d <= m -> m < max64 ->
  (forall p, p `prefix_of` l -> closes p <= o + opens p) ->
  scan m d o l =
  if m <? d + opens l
  then Some (decision ActionBlock "SOAP001" "SOAP/XML Depth Exceeded" "medium" 50
               (Sprintf "XML nesting depth exceeded max of %d" [AInt m]))
  else None.
Proof.
  revert d o. induction l as [|b l IH]; intros d o Ho Hd Hm Hp.
  { unfold opens. rewrite count_of_nil, Z.add_0_r. by rewrite (proj2 (Z.ltb_ge m d)). }
  assert (forall p, p `prefix_of` l ->
    (if 62 =? b then 1 else 0) + closes p <= o + ((if 60 =? b then 1 else 0) + opens p)) as Hq.
  { intros p Hpl. specialize (Hp (b :: p) (prefix_cons b p l Hpl)). unfold opens, closes in *.
    by rewrite !count_of_cons in Hp. }
  pose proof (count_of_le (Z.eqb 60) l) as Hl. fold (opens l) in Hl.
  cbn [scan]. unfold opens at 1. rewrite count_of_cons. fold (opens l). rewrite (Z.eqb_sym b 60), (Z.eqb_sym b 62).
  revert Hq. destruct (Z.eqb_spec 60 b) as [<-|]; [intros Hq|destruct (Z.eqb_spec 62 b) as [<-|]; intros Hq].
  - rewrite !incr_small by (unfold min64; lia). destruct (Z.ltb_spec m (d + 1)).
    + by rewrite (proj2 (Z.ltb_lt m (d + (1 + opens l)))) by lia.
    + rewrite IH by (lia || (intros p Hpl; specialize (Hq p Hpl); cbn in Hq; lia)). by rewrite Z.add_assoc.
  - assert (1 <= o) as H1 by (specialize (Hq [] (prefix_nil l)); change (closes []) with 0 in Hq; change (opens []) with 0 in Hq; cbn in Hq; lia).
    rewrite (proj2 (Z.ltb_ge (o - 1) 0)) by lia.
    rewrite IH by (lia || (intros p Hpl; specialize (Hq p Hpl); cbn in Hq; lia)). done.
  - rewrite IH by (lia || (intros p Hpl; specialize (Hq p Hpl); cbn in Hq; lia)). done.
Qed.

(** The depth check counts the tags of the whole document, end tags
    included, instead of their nesting: a document in order is refused exactly
    when it has more than [maxDepth] of them, however flat it is. *)
Theorem soap_depth_counts_tags sv ctx :
  enabled sv = true -> 0 <= maxDepth sv < max64 ->
  ContentType ctx = "text/xml" \/ ContentType ctx = "application/soap+xml" ->
  tags_in_order (bytes_of (body_str ctx)) ->
  Inspect sv ctx =
  if maxDepth sv <? opens (bytes_of (body_str ctx))
  then Some (decision ActionBlock "SOAP001" "SOAP/XML Depth Exceeded" "medium" 50
               (Sprintf "XML nesting depth exceeded max of %d" [AInt (maxDepth sv)]))
  else None.
Proof.
  intros He Hm Hc Ht. unfold Inspect. rewrite He. cbn [negb].
  assert (negb (String.eqb (ContentType ctx) "text/xml")
          && negb (String.eqb (ContentType ctx) "application/soap+xml") = false) as ->
    by (by destruct Hc as [-> | ->]).
  rewrite scan_ordered; [done|lia|lia|lia|]. intros p Hp. specialize (Ht p Hp). lia.
Qed.

Definition flat_envelope : string := "<a><b>1</b><b>2</b></a>".
Definition soap_request : RequestContext :=
  mkContext None None "" "" "" "/" "POST" ∅ ∅ ∅ ∅ (Some flat_envelope) "text/xml" "" "" "" "" 0 f0 f0 []
    false false 0 (lit "") "" "" "" "".

Lemma soap_depth_counts_tags_witness :
  Inspect (NewSOAPValidator true 5) soap_request =
  Some (decision ActionBlock "SOAP001" "SOAP/XML Depth Exceeded" "medium" 50
          (Sprintf "XML nesting depth exceeded max of %d" [AInt 5])).
Proof.
  rewrite soap_depth_counts_tags; [by vm_compute|done|done|by left|].
  intros p Hp. change (bytes_of (body_str soap_request)) with (bytes_of flat_envelope) in Hp.
  destruct Hp as [k Hk].
  assert (forall n, (n <= 23)%nat -> closes (take n (bytes_of flat_envelope)) <= opens (take n (bytes_of flat_envelope))) as Hn.
  { intros n Hn. do 24 (destruct n as [|n]; [by vm_compute|]). lia. }
  assert (p = take (length p) (bytes_of flat_envelope)) as -> by (by rewrite Hk, take_app_length).
  apply Hn. apply (f_equal length) in Hk. rewrite length_app in Hk. cbn in Hk. lia.
Defined.

End Soap.

(** ** gRPC *)

Module Grpc.

Record grpcCounter : Type := mkCounter { count : Z; resetTime : Z }.

Record GRPCInspector : Type := mkGrpc {
  enabled : bool;
  maxMsgSize : Z;
  rateLimit : Z;
  counters : gmap string grpcCounter
}.

Definition NewGRPCInspector (maxMsgSize rateLimit : Z) : GRPCInspector :=
  mkGrpc true (if maxMsgSize <=? 0 then 4 * 1024 * 1024 else maxMsgSize)
    (if rateLimit <=? 0 then 100 else rateLimit) ∅.

Definition set_counter (service : string) (c : grpcCounter) (g : GRPCInspector) : GRPCInspector :=
  mkGrpc (enabled g) (maxMsgSize g) (rateLimit g) (<[service := c]> (counters g)).

(** The check of the message size. *)
Definition check_size (g : GRPCInspector) (ctx : RequestContext) : option Decision :=
  match Request ctx with
  | Some r =>
      if maxMsgSize g <? ContentLength r
      then Some (decision ActionBlock "GRPC002" "gRPC Message Too Large" "medium" 40
                   (Sprintf "gRPC message size %d exceeds max %d" [AInt (ContentLength r); AInt (maxMsgSize g)]))
      else None
  | None => None
  end.

Definition Inspect (now : Z) (ctx : RequestContext) (g : GRPCInspector) : option Decision * GRPCInspector :=
  if negb (enabled g) || negb (HasPrefix (ContentType ctx) "application/grpc") then (None, g)
  else
    let service := Path ctx in
    match counters g !! service with
    | Some c =>
        if Minute <? time_sub now (resetTime c) then (None, set_counter service (mkCounter 1 now) g)
        else
          let c := mkCounter (incr (count c)) (resetTime c) in
          let g := set_counter service c g in
          if rateLimit g <? count c
          then (Some (decision ActionRateLimit "GRPC001" "gRPC Rate Limit" "medium" 60
                        (Sprintf "gRPC %s exceeded rate limit of %d req/min" [AStr service; AInt (rateLimit g)])), g)
          else (check_size g ctx, g)
    | None => (None, set_counter service (mkCounter 1 now) g)
    end.

(** A run of requests, with the answers. *)
Fixpoint run (reqs : list (Z * RequestContext)) (g : GRPCInspector) : list (option Decision) * GRPCInspector :=
  match reqs with
  | [] => ([], g)
  | (now, ctx) :: reqs =>
      let '(d, g) := Inspect now ctx g in
      let '(ds, g) := run reqs g in (d :: ds, g)
  end.

Definition limited (o : option Decision) : bool :=
  match o with Some d => is_rate_limit (d_Action d) | None => false end.
Definition grpc_call (service : string) (ctx : RequestContext) : Prop :=
  Path ctx = service /\ HasPrefix (ContentType ctx) "application/grpc" = true.

Lemma check_size_not_limited g ctx : limited (check_size g ctx) = false.
Proof. unfold check_size. by destruct (Request ctx) as [r|]; [destruct (_ <? _)|]. Qed.

Lemma run_window service reqs g c :
  enabled g = true -> counters g !! service = Some c -> 0 <= count c ->
  count c + len reqs < max64 -> 0 <= rateLimit g ->
  Forall (fun p => grpc_call service (snd p) /\ time_sub (fst p) (resetTime c) <= Minute) reqs ->
  count_of (fun d => negb (limited d)) (fst (run reqs g)) = Z.min (len reqs) (Z.max 0 (rateLimit g - count c)).
Proof.
  intros He Hc H0 Hb Hr Hall. revert g c He Hc H0 Hb Hr Hall.
  induction reqs as [|[now ctx] reqs IH]; intros g c He Hc H0 Hb Hr Hall.
  { change (0 = Z.min 0 (Z.max 0 (rateLimit g - count c))). lia. }
  apply Forall_cons in Hall as [[[Hp Ht] Hw] Hall]. cbn [fst snd] in *.
  rewrite len_cons in Hb. pose proof (len_nonneg reqs) as Hl.
  cbn [run]. unfold Inspect. rewrite He, Ht, Hp, Hc. cbn [negb orb].
  rewrite (proj2 (Z.ltb_ge Minute _)) by done. rewrite incr_small by (unfold min64; lia).
  set (c' := mkCounter (count c + 1) (resetTime c)). set (g' := set_counter service c' g).
  specialize (IH g' c' He ltac:(by unfold g', set_counter; cbn; rewrite lookup_insert_eq)
                ltac:(cbn; lia) ltac:(cbn; lia) Hr Hall).
  change (rateLimit g') with (rateLimit g) in *. change (count c') with (count c + 1) in *.

  destruct (Z.ltb_spec (rateLimit g) (count c + 1)); destruct (run reqs g') as [ds g''] eqn:E;
    cbn [fst] in *; rewrite count_of_cons, IH, len_cons, ?check_size_not_limited; cbn; lia.
Qed.

(** Requests to a gRPC service within a minute of the first one pass the
    rate check exactly [rateLimit] times, and the first of them is not checked
    for its size. *)
Theorem grpc_minute_limit service now ctx reqs g :
  enabled g = true -> counters g !! service = None -> 0 < rateLimit g -> len reqs < 2 ^ 62 ->
  grpc_call service ctx ->
  Forall (fun p => grpc_call service (snd p) /\ time_sub (fst p) now <= Minute) reqs ->
  let answers := fst (run ((now, ctx) :: reqs) g) in
  head answers = Some None
  /\ count_of (fun d => negb (limited d)) answers = Z.min (1 + len reqs) (rateLimit g).
Proof.
  intros He Hc Hr Hb [Hp Ht] Hall. cbn [run]. unfold Inspect. rewrite He, Ht, Hp, Hc. cbn [negb orb].
  set (g' := set_counter service (mkCounter 1 now) g).
  pose proof (run_window service reqs g' (mkCounter 1 now) He
                ltac:(by unfold g', set_counter; cbn; rewrite lookup_insert_eq)
                ltac:(cbn; lia) ltac:(cbn; unfold max64; lia) ltac:(cbn; lia) Hall) as Hw.
  destruct (run reqs g') as [ds g'']. cbn [fst head] in *. split; [done|].
  rewrite count_of_cons, Hw. cbn. pose proof (len_nonneg reqs). lia.
Qed.

Definition grpc_request (size : Z) : RequestContext :=
  mkContext (Some (mkRequest ∅ "POST" "/svc" "" "" "HTTP/2.0" size [] ∅ None)) None "" "" "" "/svc" "POST" ∅ ∅ ∅ ∅
    None "application/grpc" "" "" "" "" 0 f0 f0 [] false false 0 (lit "") "" "" "" "".

Definition grpc_answers : list (option Decision) :=
  fst (run [(0, grpc_request (2 ^ 40)); (1, grpc_request 5); (2, grpc_request 5)] (NewGRPCInspector 1000 2)).

Lemma grpc_minute_limit_witness :
  head grpc_answers = Some None /\ count_of (fun d => negb (limited d)) grpc_answers = 2.
Proof.
  apply (grpc_minute_limit "/svc" 0 (grpc_request (2 ^ 40)) [(1, grpc_request 5); (2, grpc_request 5)]
           (NewGRPCInspector 1000 2)); try done.
  repeat (apply Forall_cons; split; [by split; [split|vm_compute]|]). constructor.
Defined.

End Grpc.
