(* ===== verification/Bot.v ===== *)
(** * Bot detection: [internal/engine/bot.go]

    User-agent patterns, the reverse-DNS check of crawlers, honeypot fields
    and the browser headers. [net.ParseIP] and [net.LookupAddr] are an
    instance of [ReverseDns]; the page of [GenerateJSChallenge] is text. *)

From S2P Require Import Prelude Float64 GoStr Regexp Types Targets.

#[local] Open Scope string_scope.
#[local] Open Scope Z_scope.

(** [parse_ip] is [net.ParseIP] followed by [String]; [lookup_addr] gives the
    names an address resolves to, none on an error. *)
Class ReverseDns : Type := {
  parse_ip : string -> option string;
  lookup_addr : string -> list string
}.

Definition good_bots : list (string * string) :=
  [("googlebot", "(?i)googlebot|google(?:-mobile|bot|adsense|structured-data|cloud-platform)");
   ("bingbot", "(?i)bingbot|msnbot|bingpreview");
   ("yandexbot", "(?i)yandexbot|yandeximages|yandexmetrika|yandexwebmaster");
   ("slurp", "(?i)yahoo!\s+slurp|yahooseeker");
   ("baiduspider", "(?i)baiduspider|baidugame");
   ("duckduckbot", "(?i)duckduckbot");
   ("facebookbot", "(?i)facebookexternalhit|facebookcatalog|facebot");
   ("twitterbot", "(?i)twitterbot");
   ("linkedinbot", "(?i)linkedinbot");
   ("slackbot", "(?i)slackbot|slack-link-expand");
   ("discordbot", "(?i)discordbot");
   ("telegrambot", "(?i)telegrambot");
   ("applebot", "(?i)applebot");
   ("semrushbot", "(?i)semrushbot");
   ("ahrefsbot", "(?i)ahrefsbot");
   ("majestic", "(?i)majestic-seo");
   ("pinterest", "(?i)pinterest");
   ("cloudflare", "(?i)cloudflare");
   ("adidxbot", "(?i)adidxbot");
   ("apple-pubsub", "(?i)apple-pubsub");
   ("zgrab", "(?i)zgrab")].

(** The map [goodBots]: name to pattern. *)
Definition goodBots : gmap string string := list_to_map good_bots.

Definition honeypotFields : list string :=
  ["email"; "phone"; "address"; "website"; "hp_"; "honeypot_"; "botfield_"; "nocomment"; "url_"; "website_"].

Definition headlessPatterns : list string :=
  ["(?i)headless"; "(?i)puppeteer"; "(?i)playwright"; "(?i)selenium"; "(?i)phantomjs";
   "(?i)htmlunit"; "(?i)phantom"; "(?i)chromium-headless"].

Definition badBots : list string :=
  ["(?i)masscan"; "(?i)nmap"; "(?i)nessus"; "(?i)openvas"; "(?i)nikto"; "(?i)sqlmap";
   "(?i)dirbuster"; "(?i)gobuster"; "(?i)wpscan"; "(?i)joomscan"; "(?i)droopescan"; "(?i)acunetix";
   "(?i)netsparker"; "(?i)appscan"; "(?i)w3af"; "(?i)burpsuite"; "(?i)zap"; "(?i)paros";
   "(?i)webinspect"; "(?i)curl"; "(?i)wget"; "(?i)python-requests"; "(?i)aiohttp"; "(?i)httpx";
   "(?i)httpie"; "(?i)gotthit"; "(?i)fasthttp"; "(?i)scrapy"; "(?i)mechanize"; "(?i)pycurl";
   "(?i)libcurl"; "(?i)ruby"; "(?i)perl"; "(?i)php"; "(?i)java"; "(?i)okhttp"; "(?i)ktor";
   "(?i)unirest"; "(?i)restsharp"; "(?i)axios"; "(?i)fetch"; "(?i)superagent"; "(?i)got";
   "(?i)node-fetch"; "(?i)undici"; "(?i)needle"; "(?i)zgrab"; "(?i)zmap"; "(?i)massdns";
   "(?i)chrome-lighthouse"; "(?i)pagespeed"; "(?i)ubermetrics"; "(?i)sumo"; "(?i)domnutch";
   "(?i)heritrix"; "(?i)gigablast"; "(?i)htdig"; "(?i)findlink"; "(?i)csaw"; "(?i)spbot";
   "(?i)survey"; "(?i)research"; "(?i)analyzer"].

Lemma bot_patterns_compile : forallb compiles (good_bots.*2 ++ headlessPatterns ++ badBots)%list = true.
Proof. by vm_compute. Qed.

Section bot.
Context `{Unicode} `{ReverseDns} `{MapRange string} `{MapRange (list string)}.

Definition verifyGoodBot (ctx : RequestContext) : bool :=
  match parse_ip (RealIP ctx) with
  | None => false
  | Some ip =>
      match lookup_addr ip with
      | [] => false
      | n :: _ =>
          let name := ToLower n in
          existsb (fun p => Contains name (fst p)) (map_range goodBots)
      end
  end.

(** The good bots whose pattern the user agent matches, in range order; the
    code returns inside the first. *)
Definition good_bot (ua : string) : option string :=
  first_some (fun p => if MatchString (snd p) ua then Some (fst p) else None) (map_range goodBots).

Definition detectHoneypot (ctx : RequestContext) : option Decision :=
  first_some
    (fun p =>
       let lower := ToLower (fst p) in
       if existsb (fun field => HasPrefix lower field || Contains lower field) honeypotFields
       then Some (decision ActionBlock "BOT005" "Honeypot Field Triggered" "high" 75
                    (Sprintf "honeypot field detected: %s" [AStr (fst p)]))
       else None)
    (map_range (FormParams ctx)).

Definition detectBrowserFeatures (ctx : RequestContext) : option Decision :=
  if String.eqb (header ctx "Accept-Language") ""
  then Some (decision ActionMonitor "BOT006" "Missing Accept-Language" "low" 15
               (lit "no accept-language header from supposedly browser request"))
  else if String.eqb (header ctx "Accept") ""
  then Some (decision ActionMonitor "BOT007" "Missing Accept Header" "low" 10
               (lit "no accept header from supposedly browser request"))
  else None.

Definition set_bot (c : RequestContext) : RequestContext :=
  mkContext (Request c) (Response c) (Site c) (RealIP c) (UserAgent c) (Path c) (Method c)
    (Headers c) (Cookies c) (QueryParams c) (FormParams c) (Body c) (ContentType c) (SessionID c)
    (UserID c) (APIKey c) (Country c) (ASN c) (BotScore c) (ThreatScore c) (Decisions c) true
    (IsKnownAttack c) (StartedAt c) (RequestID c) (Host c) (TLSVersion c) (TLSCipherSuite c) (JA3Hash c).

Definition Inspect (ctx : RequestContext) : option Decision * RequestContext :=
  let ua := UserAgent ctx in
  if String.eqb ua ""
  then (Some (decision ActionMonitor "BOT001" "Missing User-Agent" "medium" 30
                (lit "request has no user-agent header")), ctx)
  else
    match good_bot ua with
    | Some name =>
        if verifyGoodBot ctx then (None, set_bot ctx)
        else (Some (decision ActionChallenge "BOT002" "Unverified Good Bot" "medium" 25
                      (Sprintf "unverified good bot: %s" [AStr name])), ctx)
    | None =>
        ((if any_match headlessPatterns ua
          then Some (decision ActionBlock "BOT003" "Headless Browser Detected" "high" 70
                       (Sprintf "headless browser pattern detected: %s" [AStr ua])) else None)
         <||> match List.find (fun p => MatchString p ua) badBots with
              | Some p => Some (decision ActionBlock "BOT004" "Bad Bot Detected" "high" 80
                                  (Sprintf "bad bot signature matched: %s" [AStr p]))
              | None => None
              end
         <||> detectHoneypot ctx <||> detectBrowserFeatures ctx, ctx)
    end.

(** ** Lemmas *)

(** No inspected request has form fields: [NewRequestContext] leaves
    [FormParams] empty and nothing fills it. *)
Lemma honeypot_dead ctx : FormParams ctx = ∅ -> detectHoneypot ctx = None.
Proof.
  intros Hf. unfold detectHoneypot. rewrite Hf. apply first_some_None. intros [k v] Hk.
  apply elem_of_map_range in Hk. by rewrite lookup_empty in Hk.
Qed.

Lemma good_bot_matches ua n p :
  goodBots !! n = Some p -> MatchString p ua = true -> exists m, good_bot ua = Some m.
Proof.
  intros Hn Hp. destruct (good_bot ua) as [m|] eqn:E; [by exists m|].
  unfold good_bot in E. apply (proj1 (first_some_None _ _)) with (a := (n, p)) in E.
  - cbn [fst snd] in E. by rewrite Hp in E.
  - by apply elem_of_map_range.
Qed.

(** A client that names a crawler in its user agent and whose address
    resolves to any name with a crawler's in it, "googlebot.attacker.example"
    for one, is trusted: the detector has no decision on it and skips its
    other checks, whatever else the request holds. *)
Theorem spoofed_crawler_trusted ctx n p ip name names bot bp :
  goodBots !! n = Some p -> MatchString p (UserAgent ctx) = true -> UserAgent ctx <> "" ->
  parse_ip (RealIP ctx) = Some ip -> lookup_addr ip = name :: names ->
  goodBots !! bot = Some bp -> Contains (ToLower name) bot = true ->
  Inspect ctx = (None, set_bot ctx).
Proof.
  intros Hn Hp Hua Hip Hl Hb Hc. unfold Inspect. rewrite (proj2 (String.eqb_neq _ _)) by done.
  destruct (good_bot_matches _ n p Hn Hp) as [m ->].
  assert (verifyGoodBot ctx = true) as ->; [|done].
  unfold verifyGoodBot. rewrite Hip, Hl. apply existsb_exists. exists (bot, bp).
  split; [|done]. by apply list_elem_of_In, elem_of_map_range.
Qed.

End bot.

#[local] Existing Instance unicode_ascii.

(** An attacker's own address and the name he gives it. *)
#[local] Instance attacker_dns : ReverseDns :=
  {| parse_ip := fun s => if String.eqb s "203.0.113.9" then Some s else None;
     lookup_addr := fun s => ["googlebot.attacker.example."] |}.

Definition crawler_request : RequestContext :=
  mkContext None None "" "203.0.113.9" "sqlmap/1.8 (Googlebot)" "/" "GET" ∅ ∅ ∅ ∅ None "" "" "" "" "" 0 f0 f0 []
    false false 0 (lit "") "" "" "" "".

Lemma spoofed_crawler_trusted_witness : Inspect crawler_request = (None, set_bot crawler_request).
Proof.
  apply (spoofed_crawler_trusted _ "googlebot"
           "(?i)googlebot|google(?:-mobile|bot|adsense|structured-data|cloud-platform)"
           "203.0.113.9" "googlebot.attacker.example." [] "googlebot"
           "(?i)googlebot|google(?:-mobile|bot|adsense|structured-data|cloud-platform)"); by vm_compute.
Defined.
