(* ===== verification/ApiProtect.v ===== *)
(** * API protection: [internal/engine/api_protect.go]

    Sensitive paths, XML entities, GraphQL and gRPC markers, and the table of
    endpoints seen. The table is the only state [Inspect] changes; it is
    locked for each request, so a history is a list of requests. *)

From S2P Require Import Prelude Float64 GoStr Regexp Types Targets.

#[local] Open Scope string_scope.
#[local] Open Scope Z_scope.

(** [openAPISpecs] is stored and read nowhere; its type is left open. *)
Record APIProtection (Spec : Type) : Type := mkApi {
  openAPISpecs : Spec;
  shadowAPIPaths : gmap string Z;
  maxQueryDepth : Z
}.
Arguments mkApi {Spec} _ _ _.
Arguments openAPISpecs {Spec} _.
Arguments shadowAPIPaths {Spec} _.
Arguments maxQueryDepth {Spec} _.

Definition graphQLPatterns : list string :=
  ["(?i)query\s+\w+\s*\{"; "(?i)mutation\s+\w+\s*\{"; "(?i)subscription\s+\w+\s*\{"; "(?i)__schema\s*\{";
   "(?i)__type\s*\{"; "(?i)introspection"; "(?i)__typename"].

Definition sensitivePaths : list string :=
  ["(?i)/api/v?\d*/?$"; "(?i)/swagger|/docs|/openapi|/api-docs"; "(?i)/graphql"; "(?i)/grpc";
   "(?i)/.env|/config|/debug|/admin"; "(?i)/actuator|/health|/info|/metrics";
   "(?i)/wp-admin|/administrator|/backup"; "(?i)/\.git|/\.svn|/\.hg"; "(?i)/\*|/\.\*"].

Lemma api_patterns_compile : forallb compiles (graphQLPatterns ++ sensitivePaths)%list = true.
Proof. by vm_compute. Qed.

Definition NewAPIProtection {Spec} (empty : Spec) : APIProtection Spec := mkApi empty ∅ 10.
Definition LoadOpenAPISpec {Spec} (spec : Spec) (p : APIProtection Spec) : APIProtection Spec :=
  mkApi spec (shadowAPIPaths p) (maxQueryDepth p).

Section api.
Context {Spec : Type} `{Unicode} `{MapRange (list string)}.

Definition detectOWASPTop10 (ctx : RequestContext) : option Decision :=
  (if String.eqb (Method ctx) "OPTIONS" && String.eqb (Path ctx) "/"
   then Some (decision ActionMonitor "API001" "API Discovery Attempt" "medium" 30
                (Sprintf "OPTIONS / from %s" [AStr (RealIP ctx)])) else None)
  <||> (if any_match sensitivePaths (Path ctx)
        then Some (decision ActionBlock "API002" "Sensitive API Path Access" "high" 70
                     (Sprintf "sensitive path access: %s" [AStr (Path ctx)])) else None)
  <||> (if Contains (header ctx "Content-Type") "application/xml"
           && Contains (body_str ctx) "<"
           && (Contains (body_str ctx) "<!ENTITY" || Contains (body_str ctx) "<!DOCTYPE")
        then Some (decision ActionBlock "API003" "XXE Injection" "critical" 90
                     (lit "XML external entity injection detected")) else None)
  <||> (if String.eqb (header ctx "Content-Length") "0" && String.eqb (Method ctx) "POST"
           && Contains (Path ctx) "/api/"
        then Some (decision ActionMonitor "API004" "Empty POST to API" "low" 10
                     (Sprintf "empty POST body to %s" [AStr (Path ctx)])) else None).

(** The body followed by the query parameters, in range order. *)
Definition graphql_text (ctx : RequestContext) : string :=
  fold_left (fun s p => s ++ fst p ++ "=" ++ String.concat "" (snd p) ++ " ")
    (map_range (QueryParams ctx)) (body_str ctx).

Definition detectGraphQLAbuse (p : APIProtection Spec) (ctx : RequestContext) : option Decision :=
  if negb (Contains (Path ctx) "graphql") && negb (Contains (Path ctx) "gql") then None
  else
    let bodyStr := graphql_text ctx in
    (if Contains bodyStr "__schema" || Contains bodyStr "__type" || Contains bodyStr "introspection"
     then Some (decision ActionBlock "API005" "GraphQL Introspection Blocked" "high" 70
                  (lit "graphql introspection query blocked")) else None)
    <||> (if Contains bodyStr "__typename" && (maxQueryDepth p <? Count bodyStr "{")
          then Some (decision ActionBlock "API006" "GraphQL Query Depth Exceeded" "high" 65
                       (Sprintf "graphql query depth exceeds limit of %d" [AInt (maxQueryDepth p)])) else None)
    <||> (if any_match graphQLPatterns bodyStr
          then Some (decision ActionMonitor "API007" "GraphQL Query Detected" "low" 5
                       (lit "graphql query detected")) else None).

Definition detectGRPCAttack (ctx : RequestContext) : option Decision :=
  if HasPrefix (header ctx "Content-Type") "application/grpc" && Contains (header ctx "Content-Type") "proto"
  then Some (decision ActionMonitor "API008" "gRPC Request" "low" 5 (lit "gRPC request detected"))
  else None.

Definition detectOpenAPIAbuse (ctx : RequestContext) : option Decision :=
  if HasSuffix (Path ctx) "/" || HasSuffix (Path ctx) "?"
  then Some (decision ActionMonitor "API009" "OpenAPI Schema Violation" "low" 5
               (Sprintf "path format violation: %s" [AStr (Path ctx)]))
  else None.

(** The endpoint of a path: its first two parts. *)
Definition endpoint_of (path : string) : option string :=
  if HasPrefix path "/api/" || HasPrefix path "/v1/" || HasPrefix path "/v2/" then
    match Split (TrimPrefix path "/") "/" with
    | a :: b :: _ => Some (a ++ "/" ++ b)
    | _ => None
    end
  else None.

Definition detectShadowAPI (ctx : RequestContext) (p : APIProtection Spec)
    : option Decision * APIProtection Spec :=
  match endpoint_of (Path ctx) with
  | None => (None, p)
  | Some endpoint =>
      let count := incr (lookup_default 0 (shadowAPIPaths p) endpoint) in
      (if (count <? 2) && (count =? 1)
       then Some (decision ActionMonitor "API010" "Unknown API Endpoint" "low" 10
                    (Sprintf "unknown API endpoint accessed: %s" [AStr endpoint]))
       else None,
       mkApi (openAPISpecs p) (<[endpoint := count]> (shadowAPIPaths p)) (maxQueryDepth p))
  end.

Definition Inspect (ctx : RequestContext) (p : APIProtection Spec)
    : option Decision * APIProtection Spec :=
  match detectOWASPTop10 ctx <||> detectGraphQLAbuse p ctx <||> detectGRPCAttack ctx
        <||> detectOpenAPIAbuse ctx with
  | Some d => (Some d, p)
  | None => detectShadowAPI ctx p
  end.

(** ** Lemmas *)

(** The depth rule asks for "__typename", which holds "__type": the rule
    before it has already blocked. *)
Lemma API006_dead p ctx d : detectGraphQLAbuse p ctx = Some d -> RuleID d <> "API006".
Proof.
  unfold detectGraphQLAbuse. case_match; [done|].
  assert (Contains (graphql_text ctx) "__typename" = true -> Contains (graphql_text ctx) "__type" = true) as Ht.
  { rewrite !Contains_spec. intros (a & b & ->). exists a, ("name" ++ b). done. }
  destruct (Contains (graphql_text ctx) "__type").
  - rewrite orb_true_r. cbn [orb or_else]. by intros [= <-].
  - destruct (Contains (graphql_text ctx) "__typename"); [by specialize (Ht eq_refl)|].
    cbn [andb or_else]. repeat case_match; cbn [or_else]; intros [= <-]; done.
Qed.

(** ** Histories *)

Fixpoint runs (ctxs : list RequestContext) (p : APIProtection Spec) : APIProtection Spec :=
  match ctxs with [] => p | ctx :: ctxs => runs ctxs (snd (Inspect ctx p)) end.

(** A request gets past the stateless checks to the endpoint table. *)
Definition reaches (p : APIProtection Spec) (e : string) (ctx : RequestContext) : bool :=
  match detectOWASPTop10 ctx <||> detectGraphQLAbuse p ctx <||> detectGRPCAttack ctx
        <||> detectOpenAPIAbuse ctx with
  | Some _ => false
  | None => bool_decide (endpoint_of (Path ctx) = Some e)
  end.

Definition seen (e : string) (p : APIProtection Spec) : Z := lookup_default 0 (shadowAPIPaths p) e.

Lemma Inspect_depth ctx p : maxQueryDepth (snd (Inspect ctx p)) = maxQueryDepth p.
Proof. unfold Inspect, detectShadowAPI. by repeat case_match. Qed.

Lemma reaches_depth p q e ctx : maxQueryDepth p = maxQueryDepth q -> reaches p e ctx = reaches q e ctx.
Proof. intros E. unfold reaches, detectGraphQLAbuse. by rewrite E. Qed.

Lemma seen_step e ctx p :
  0 <= seen e p < max64 -> seen e (snd (Inspect ctx p)) = seen e p + if reaches p e ctx then 1 else 0.
Proof.
  intros Hs. unfold Inspect, reaches. case_match; [cbn [snd]; lia|]. unfold detectShadowAPI.
  destruct (endpoint_of (Path ctx)) as [e'|]; cbn [snd]; [|rewrite bool_decide_false by done; lia].
  unfold seen, lookup_default in *. cbn [shadowAPIPaths]. destruct (decide (e' = e)) as [->|Hne].
  - rewrite lookup_insert_eq, bool_decide_true by done. cbn [default from_option].
    apply incr_small. unfold min64. lia.
  - rewrite lookup_insert_ne, bool_decide_false by congruence. lia.
Qed.

Lemma seen_runs e ctxs p :
  0 <= seen e p -> seen e p + len ctxs < max64 ->
  seen e (runs ctxs p) = seen e p + count_of (reaches p e) ctxs.
Proof.
  revert p. induction ctxs as [|ctx ctxs IH]; intros p Hnn Hb; cbn [runs]; [rewrite count_of_nil; lia|].
  rewrite len_cons in Hb. pose proof (len_nonneg ctxs).
  pose proof (seen_step e ctx p ltac:(lia)) as Hs. rewrite count_of_cons.
  rewrite IH by (rewrite Hs; destruct (reaches p e ctx); lia). rewrite Hs.
  assert (count_of (reaches (snd (Inspect ctx p)) e) ctxs = count_of (reaches p e) ctxs) as ->; [|lia].
  unfold count_of. f_equal. apply list_filter_iff. intros x.
  by rewrite (reaches_depth _ p) by apply Inspect_depth.
Qed.

(** The table of endpoints counts exactly: after any history a request
    for an endpoint that reaches the table is reported as unknown when no
    request of the history for that endpoint reached it, and passes silently
    otherwise. *)
Theorem shadow_endpoint_reported_once empty ctxs ctx e :
  let p0 : APIProtection Spec := NewAPIProtection empty in
  len ctxs < 2 ^ 62 -> reaches p0 e ctx = true ->
  fst (Inspect ctx (runs ctxs p0)) =
  if existsb (reaches p0 e) ctxs then None
  else Some (decision ActionMonitor "API010" "Unknown API Endpoint" "low" 10
               (Sprintf "unknown API endpoint accessed: %s" [AStr e])).
Proof.
  cbn zeta. set (p0 := NewAPIProtection empty). intros Hl Hr.
  pose proof (seen_runs e ctxs p0 ltac:(done) ltac:(change (seen e p0) with 0; unfold max64; lia)) as Hs.
  change (seen e p0) with 0 in Hs.
  assert (maxQueryDepth (runs ctxs p0) = maxQueryDepth p0) as Hd.
  { clear -H. generalize p0. induction ctxs as [|c ctxs IH]; intros p; [done|]. cbn [runs]. by rewrite IH, Inspect_depth. }
  rewrite (reaches_depth p0 (runs ctxs p0)) in Hr by done.
  unfold Inspect. unfold reaches in Hr. case_match; [done|]. apply bool_decide_eq_true in Hr.
  unfold detectShadowAPI. rewrite Hr. fold (seen e (runs ctxs p0)). rewrite Hs, Z.add_0_l. cbn [fst].
  pose proof (count_of_le (reaches p0 e) ctxs) as Hc.
  rewrite incr_small by (unfold min64, max64; lia).
  assert (existsb (reaches p0 e) ctxs = (0 <? count_of (reaches p0 e) ctxs)) as ->.
  { clear. induction ctxs as [|c ctxs IH]; [done|]. cbn [existsb]. rewrite count_of_cons, IH.
    pose proof (count_of_le (reaches p0 e) ctxs). destruct (reaches p0 e c); cbn [orb];
      symmetry; [apply Z.ltb_lt; lia|]. by rewrite Z.add_0_l. }
  destruct (Z.ltb_spec 0 (count_of (reaches p0 e) ctxs)).
  - rewrite (proj2 (Z.eqb_neq _ _)) by lia. by rewrite andb_false_r.
  - replace (count_of (reaches p0 e) ctxs) with 0 by lia. done.
Qed.

End api.

#[local] Existing Instance unicode_ascii.

Definition api_request (path : string) : RequestContext :=
  mkContext None None "" "" "" path "GET" ∅ ∅ ∅ ∅ None "" "" "" "" "" 0 f0 f0 [] false false 0 (lit "") "" "" "" "".

Lemma shadow_endpoint_reported_once_witness :
  fst (Inspect (api_request "/v1/users/7") (runs [api_request "/v1/orders"; api_request "/v1/users/1"]
         (NewAPIProtection tt))) = None.
Proof.
  rewrite (shadow_endpoint_reported_once tt _ _ "v1/users"); [by vm_compute|done|by vm_compute].
Defined.
