(* ===== verification/Adaptive.v ===== *)
(** * Adaptive challenges: [internal/engine/adaptive.go]

    The escalation level of each address, the table of issued challenges and
    one tick of the cleanup. [crypto/rand] is an argument: the bytes read, or
    none on an error. [JSChallengePage], which no code calls, is text. *)

From S2P Require Import Prelude Float64 GoStr Crypto Types.

#[local] Open Scope string_scope.
#[local] Open Scope Z_scope.

Definition ChallengeNone : Z := 0.
Definition ChallengeJS : Z := 1.
Definition ChallengeCAPTCHA : Z := 2.
Definition ChallengeTarpit : Z := 3.
Definition ChallengeBlock : Z := 4.

Record challengeState : Type := mkState { score : f64; lastSeen : Z; level : Z; requestCnt : Z }.

Record issuedChallenge : Type := mkIssued {
  token : string;
  ip : string;
  issued_level : Z;
  expiresAt : Z;
  solved : bool
}.

Record AdaptiveChallenge : Type := mkAdaptive {
  jsScriptPath : string;
  tarpitDelay : Z;
  captchaScore : f64;
  challengeTTL : Z;
  ipScores : gmap string challengeState;
  challenges : gmap string issuedChallenge
}.

Definition set_scores (m : gmap string challengeState) (ac : AdaptiveChallenge) : AdaptiveChallenge :=
  mkAdaptive (jsScriptPath ac) (tarpitDelay ac) (captchaScore ac) (challengeTTL ac) m (challenges ac).
Definition set_challenges (m : gmap string issuedChallenge) (ac : AdaptiveChallenge) : AdaptiveChallenge :=
  mkAdaptive (jsScriptPath ac) (tarpitDelay ac) (captchaScore ac) (challengeTTL ac) (ipScores ac) m.

Definition NewAdaptiveChallenge (jsScriptPath : string) (tarpitDelayMs : Z) (captchaScore : f64)
    (challengeTTL : Z) : AdaptiveChallenge :=
  mkAdaptive jsScriptPath (wrap64 (tarpitDelayMs * Millisecond)) captchaScore
    (wrap64 (challengeTTL * Second)) ∅ ∅.

(** A new state; its zero [lastSeen] is overwritten before anything reads it. *)
Definition zero_state : challengeState := mkState f0 zero_time ChallengeNone 0.

Definition getOrCreateState (ip : string) (ac : AdaptiveChallenge) : challengeState :=
  default zero_state (ipScores ac !! ip).

Definition determineLevel (st : challengeState) : Z :=
  if fge (score st) (of_int 90) then ChallengeBlock
  else if fge (score st) (of_int 70) then ChallengeTarpit
  else if fge (score st) (of_int 50) then ChallengeCAPTCHA
  else if fge (score st) (of_int 20) then ChallengeJS
  else ChallengeNone.

(** [fmt.Sprintf("%x", n)] of an int64: at most sixteen digits. *)
Fixpoint hex_digits (fuel : nat) (n : Z) (acc : list Z) : list Z :=
  match fuel with
  | O => acc
  | S f => let acc := hex_digit false (n mod 16) :: acc in
           if n <? 16 then acc else hex_digits f (n / 16) acc
  end.
Definition Sprint_x (n : Z) : string :=
  let digits := of_bytes (hex_digits 16 (Z.abs n) []) in
  if n <? 0 then "-" ++ digits else digits.

Definition issueChallenge (rnd : option (list Z)) (now : Z) (ip : string) : string :=
  match rnd with
  | None => Sprint_x (wrap64 now)
  | Some buf => hex (take 16 (sha256 (buf ++ bytes_of ip)))
  end.

(** [case ChallengeJS] and [case ChallengeCAPTCHA]: the new entry. *)
Definition issue (rnd : option (list Z)) (now : Z) (ip : string) (lvl : Z) (ac : AdaptiveChallenge)
    : AdaptiveChallenge :=
  let ct := issueChallenge rnd now ip in
  set_challenges (<[ct := mkIssued ct ip lvl (now + challengeTTL ac) false]> (challenges ac)) ac.

Definition blocked_decision (ip : string) (s : f64) : Decision :=
  decision ActionBlock "ADAPT_004" "Adaptive Block" "critical" 95
    (Sprintf "IP %s blocked after adaptive escalation (score=%.1f)" [AStr ip; AFloat s]).

Definition set_response (r : option http_Response) (c : RequestContext) : RequestContext :=
  mkContext (Request c) r (Site c) (RealIP c) (UserAgent c) (Path c) (Method c) (Headers c)
    (Cookies c) (QueryParams c) (FormParams c) (Body c) (ContentType c) (SessionID c) (UserID c) (APIKey c)
    (Country c) (ASN c) (BotScore c) (ThreatScore c) (Decisions c) (IsBot c) (IsKnownAttack c) (StartedAt c)
    (RequestID c) (Host c) (TLSVersion c) (TLSCipherSuite c) (JA3Hash c).

(** The part of [Inspect] after the token. [now1] is read for [lastSeen] and
    [now2] for the challenge. *)
Definition escalate (now1 now2 : Z) (rnd : option (list Z)) (ctx : RequestContext) (ac : AdaptiveChallenge)
    : option Decision * RequestContext * AdaptiveChallenge :=
  let ip := RealIP ctx in
  let st := getOrCreateState ip ac in
  let cnt := incr (requestCnt st) in
  if ChallengeBlock <=? level st then
    (Some (blocked_decision ip (score st)), ctx,
     set_scores (<[ip := mkState (score st) (lastSeen st) (level st) cnt]> (ipScores ac)) ac)
  else
    let s := if fle (ThreatScore ctx) f0 then score st else ThreatScore ctx in
    let lvl := determineLevel (mkState s now1 (level st) cnt) in
    let lvl := if level st <? lvl then lvl else level st in
    let ac := set_scores (<[ip := mkState s now1 lvl cnt]> (ipScores ac)) ac in
    if lvl =? ChallengeJS then
      (Some (decision ActionChallenge "ADAPT_001" "JS Challenge" "medium" 30
               (Sprintf "JS challenge issued for IP %s (score=%.1f)" [AStr ip; AFloat s])),
       set_response None ctx, issue rnd now2 ip ChallengeJS ac)
    else if lvl =? ChallengeCAPTCHA then
      (Some (decision ActionChallenge "ADAPT_002" "CAPTCHA Challenge" "high" 60
               (Sprintf "CAPTCHA challenge issued for IP %s (score=%.1f)" [AStr ip; AFloat s])),
       ctx, issue rnd now2 ip ChallengeCAPTCHA ac)
    else if lvl =? ChallengeTarpit then
      (Some (decision ActionMonitor "ADAPT_003" "Tarpit Applied" "high" 80
               (Sprintf "tarpit delay of %v applied to IP %s (score=%.1f)" [ADur (tarpitDelay ac); AStr ip; AFloat s])),
       ctx, ac)
    else if lvl =? ChallengeBlock then (Some (blocked_decision ip s), ctx, ac)
    else (None, ctx, ac).

Definition Inspect (now1 now2 : Z) (rnd : option (list Z)) (ctx : RequestContext) (ac : AdaptiveChallenge)
    : outcome (option Decision * RequestContext * AdaptiveChallenge) :=
  let ip := RealIP ctx in
  if String.eqb ip "" then Returns (None, ctx, ac)
  else
    let! token := request_header ctx "X-Challenge-Token" in
    match (if String.eqb token "" then None else challenges ac !! token) with
    | Some c =>
        if solved c then Returns (escalate now1 now2 rnd ctx ac)
        else Returns
          (Some (decision ActionAllow "ADAPT_000" "Challenge Solved" "info" 0
                   (Sprintf "challenge solved for IP %s via token %s" [AStr ip; AStr token])),
           ctx, set_challenges (delete token (challenges ac)) ac)
    | None => Returns (escalate now1 now2 rnd ctx ac)
    end.

(** One tick of [cleanupLoop]. *)
Definition cleanup (now : Z) (ac : AdaptiveChallenge) : AdaptiveChallenge :=
  set_scores
    (filter (fun p => time_after now (lastSeen (snd p) + wrap64 (challengeTTL ac * 2)) = false) (ipScores ac))
    (set_challenges (filter (fun p => time_after now (expiresAt (snd p)) = false) (challenges ac)) ac).

Definition RecordEvent (now : Z) (ip : string) (s : f64) (ac : AdaptiveChallenge) : AdaptiveChallenge :=
  set_scores
    (<[ip := match ipScores ac !! ip with
             | None => mkState s now ChallengeNone 0
             | Some st => mkState s now (level st) (requestCnt st)
             end]> (ipScores ac)) ac.

(** ** Histories *)

Inductive op : Type :=
| Req (now1 now2 : Z) (rnd : option (list Z)) (ctx : RequestContext)
| Event (now : Z) (ip : string) (s : f64)
| Tick (now : Z).

(** A request that panics has changed nothing. *)
Definition step (o : op) (ac : AdaptiveChallenge) : AdaptiveChallenge :=
  match o with
  | Req now1 now2 rnd ctx =>
      match Inspect now1 now2 rnd ctx ac with Returns (_, _, ac') => ac' | Panics => ac end
  | Event now ip s => RecordEvent now ip s ac
  | Tick now => cleanup now ac
  end.
Definition run (ops : list op) (ac : AdaptiveChallenge) : AdaptiveChallenge := fold_left (fun ac o => step o ac) ops ac.

(** The address's entry after an escalation. *)
Definition escalated (now : Z) (threat : f64) (st : challengeState) : challengeState :=
  let cnt := incr (requestCnt st) in
  if ChallengeBlock <=? level st then mkState (score st) (lastSeen st) (level st) cnt
  else
    let s := if fle threat f0 then score st else threat in
    mkState s now (Z.max (level st) (determineLevel (mkState s now (level st) cnt))) cnt.

Lemma ipScores_issue rnd now ip l ac : ipScores (issue rnd now ip l ac) = ipScores ac.
Proof. done. Qed.

Lemma escalate_scores now1 now2 rnd ctx ac :
  ipScores (snd (escalate now1 now2 rnd ctx ac)) =
  <[RealIP ctx := escalated now1 (ThreatScore ctx) (getOrCreateState (RealIP ctx) ac)]> (ipScores ac).
Proof.
  unfold escalate, escalated. destruct (ChallengeBlock <=? _); [done|]. cbv zeta.
  set (st := getOrCreateState _ _). set (s := if fle _ _ then _ else _). set (d := determineLevel _).
  replace (if level st <? d then d else level st) with (Z.max (level st) d) by (destruct (Z.ltb_spec (level st) d); lia).
  repeat case_match; done.
Qed.

Lemma challengeTTL_step o ac : challengeTTL (step o ac) = challengeTTL ac.
Proof.
  destruct o as [now1 now2 rnd ctx|now ip s|now]; [|done..]. cbn [step].
  unfold Inspect, escalate, issue, set_challenges, set_scores, out_bind. repeat case_match; simplify_eq/=; done.
Qed.

(** What a request does to the entries. *)
Lemma Inspect_scores now1 now2 rnd ctx ac :
  ipScores (step (Req now1 now2 rnd ctx) ac) = ipScores ac
  \/ RealIP ctx <> "" /\ ipScores (step (Req now1 now2 rnd ctx) ac) =
     <[RealIP ctx := escalated now1 (ThreatScore ctx) (getOrCreateState (RealIP ctx) ac)]> (ipScores ac).
Proof.
  cbn [step]. unfold Inspect. destruct (String.eqb_spec (RealIP ctx) ""); [by left|].
  destruct (request_header ctx "X-Challenge-Token") as [tok|]; [|by left]. cbn [out_bind].
  pose proof (escalate_scores now1 now2 rnd ctx ac) as He.
  destruct (escalate now1 now2 rnd ctx ac) as [[d c] ac'] eqn:E. cbn [snd] in He.
  destruct (if String.eqb tok "" then _ else _) as [c0|]; [destruct (solved c0)|]; auto.
Qed.

(** The address has reached [ChallengeBlock], at time [t]. *)
Definition held (ip : string) (t : Z) (ac : AdaptiveChallenge) : Prop :=
  exists st, ipScores ac !! ip = Some st /\ level st = ChallengeBlock /\ lastSeen st = t.

(** No event of the address, and no cleanup later than [t] plus [life]. *)
Definition within (ip : string) (t life : Z) (o : op) : Prop :=
  match o with Req _ _ _ _ => True | Event _ ip' _ => ip' <> ip | Tick now => now <= t + life end.

Lemma escalated_held now threat st :
  level st = ChallengeBlock ->
  escalated now threat st = mkState (score st) (lastSeen st) ChallengeBlock (incr (requestCnt st)).
Proof. intros Hb. unfold escalated. by rewrite Hb. Qed.

Lemma held_step ip t o ac :
  within ip t (wrap64 (challengeTTL ac * 2)) o -> held ip t ac -> held ip t (step o ac).
Proof.
  intros Hw (st & Hl & Hb & Ht). unfold held. destruct o as [now1 now2 rnd ctx|now ip' s|now].
  - destruct (Inspect_scores now1 now2 rnd ctx ac) as [->|[_ ->]]; [by eauto|].
    destruct (decide (RealIP ctx = ip)) as [E|E]; [|rewrite lookup_insert_ne by done; by eauto].
    unfold getOrCreateState. rewrite E, lookup_insert_eq, Hl. cbn [from_option id].
    rewrite escalated_held by done. by eauto.
  - cbn in Hw |- *. rewrite lookup_insert_ne by done. by eauto.
  - exists st. split; [|done]. apply map_lookup_filter_Some. split; [done|]. cbn [snd].
    unfold time_after. cbn in Hw. apply Z.ltb_ge. lia.
Qed.

Lemma challengeTTL_run ops ac : challengeTTL (run ops ac) = challengeTTL ac.
Proof.
  unfold run. revert ac. induction ops as [|o ops IH]; intros ac; [done|]. cbn [fold_left]. by rewrite IH, challengeTTL_step.
Qed.

Lemma held_run ip t ops ac :
  Forall (within ip t (wrap64 (challengeTTL ac * 2))) ops -> held ip t ac -> held ip t (run ops ac).
Proof.
  unfold run. revert ac. induction ops as [|o ops IH]; intros ac Hall Hh; [done|].
  apply Forall_cons in Hall as [Hw Hall]. cbn [fold_left]. apply IH; [by rewrite challengeTTL_step|].
  by apply held_step.
Qed.

(** The request carries no token of the table. *)
Definition tokenless (ac : AdaptiveChallenge) (ctx : RequestContext) : Prop :=
  RealIP ctx <> "" /\ exists t, request_header ctx "X-Challenge-Token" = Returns t /\ (t = "" \/ challenges ac !! t = None).

Lemma Inspect_tokenless now1 now2 rnd ctx ac :
  tokenless ac ctx -> Inspect now1 now2 rnd ctx ac = Returns (escalate now1 now2 rnd ctx ac).
Proof.
  intros (Hip & t & Ht & Hn). unfold Inspect. rewrite (proj2 (String.eqb_neq _ _)) by done. rewrite Ht. cbn [out_bind].
  destruct Hn as [->|Hn]; [done|]. rewrite Hn. by destruct (String.eqb t "").
Qed.

(** Escalation to Block is absorbing: once a request has raised an
    address to the level Block at time [t], every later request of that
    address without a live token is blocked, whatever its threat score and
    whatever requests and cleanups up to twice the challenge lifetime after
    [t] come in between; the blocked requests do not prolong the block: the
    first cleanup later than that forgets the address. *)
Theorem adaptive_block_lasts ip t ops ac :
  held ip t ac ->
  let life := wrap64 (challengeTTL ac * 2) in
  Forall (within ip t life) ops ->
  (forall now1 now2 rnd ctx, RealIP ctx = ip -> tokenless (run ops ac) ctx ->
     exists s ac', Inspect now1 now2 rnd ctx (run ops ac) = Returns (Some (blocked_decision ip s), ctx, ac'))
  /\ (forall now, t + life < now -> ipScores (cleanup now (run ops ac)) !! ip = None).
Proof.
  intros Hh life Hall. subst life. destruct (held_run ip t ops ac Hall Hh) as (st & Hl & Hb & Ht). split.
  - intros now1 now2 rnd ctx Hip Htok. rewrite (Inspect_tokenless now1 now2 rnd ctx) by done.
    unfold escalate. rewrite Hip. unfold getOrCreateState. rewrite Hl. cbn [from_option id]. rewrite Hb. cbn. by eauto.
  - intros now Hnow. cbn. apply map_lookup_filter_None. right. intros st' Hst'. simplify_eq. cbn [snd].
    rewrite challengeTTL_run. unfold time_after. rewrite (proj2 (Z.ltb_lt _ _)) by lia. done.
Qed.

Lemma escalate_decision now1 now2 rnd now2' rnd' ctx ac :
  fst (escalate now1 now2 rnd ctx ac) = fst (escalate now1 now2' rnd' ctx ac).
Proof. unfold escalate. cbv zeta. repeat case_match; done. Qed.

Definition answer (o : outcome (option Decision * RequestContext * AdaptiveChallenge)) : outcome (option Decision * RequestContext) :=
  let! r := o in Returns (fst r).

(** A challenge cannot be solved and solving it would not help. The
    answer to the request that issues a challenge does not depend on the
    random bytes of its token: nothing the engine hands on contains the token.
    And a request that presents a token of the table, whoever it was issued to
    and whether or not it has expired, is allowed and uses the token up, but
    leaves the levels and scores as they were, so that the address's next
    request is answered as if no challenge had been solved. *)
Theorem solved_challenge_forgotten now1 now2 rnd rnd' ctx ac tok c :
  answer (Inspect now1 now2 rnd ctx ac) = answer (Inspect now1 now2 rnd' ctx ac)
  /\ (RealIP ctx <> "" -> request_header ctx "X-Challenge-Token" = Returns tok -> tok <> "" ->
      challenges ac !! tok = Some c -> solved c = false ->
      exists d ac', Inspect now1 now2 rnd ctx ac = Returns (Some d, ctx, ac') /\ d_Action d = ActionAllow
        /\ challenges ac' !! tok = None /\ ipScores ac' = ipScores ac
        /\ forall now1 now2 rnd ctx, tokenless ac' ctx -> tokenless ac ctx ->
             answer (Inspect now1 now2 rnd ctx ac') = answer (Inspect now1 now2 rnd ctx ac)).
Proof.
  split.
  - pose proof (escalate_decision now1 now2 rnd now2 rnd' ctx ac) as E.
    unfold answer, Inspect, out_bind. repeat case_match; simplify_eq/=; congruence.
  - intros Hip Ht Hne Hc Hs. eexists _, (set_challenges (delete tok (challenges ac)) ac). split_and!.
    + unfold Inspect. rewrite (proj2 (String.eqb_neq _ _)) by done. rewrite Ht. cbn [out_bind].
      rewrite (proj2 (String.eqb_neq _ _)) by done. by rewrite Hc, Hs.
    + done.
    + apply lookup_delete_eq.
    + done.
    + intros n1 n2 r cx Ht1 Ht2. rewrite !Inspect_tokenless by done. cbn [answer out_bind]. f_equal.
      unfold escalate, getOrCreateState, set_challenges, set_scores. cbv zeta. cbn [ipScores tarpitDelay].
      repeat case_match; done.
Qed.

(** ** Witnesses *)

Definition adaptive_request (threat : Z) (token : string) : RequestContext :=
  mkContext (Some (mkRequest (if String.eqb token "" then ∅ else {["X-Challenge-Token" := [token]]})
                     "GET" "/" "example.com" "192.0.2.7:5000" "HTTP/1.1" 0 [] ∅ None))
    None "" "192.0.2.7" "" "/" "GET" ∅ ∅ ∅ ∅ None "" "" "" "" "" 0 f0 (of_int threat) [] false false 0
    (lit "") "" "" "" "".

Definition fresh : AdaptiveChallenge := NewAdaptiveChallenge "" 1000 f0 300.
Definition escalated_once : AdaptiveChallenge := step (Req 0 0 None (adaptive_request 95 "")) fresh.

Lemma adaptive_block_lasts_witness :
  ipScores (cleanup (601 * Second) (run [Tick (100 * Second); Req Second Second None (adaptive_request 0 "")] escalated_once))
    !! "192.0.2.7" = None.
Proof.
  apply (adaptive_block_lasts "192.0.2.7" 0); [|repeat constructor; by vm_compute|by vm_compute].
  eexists. split; [by vm_compute|]. by vm_compute.
Defined.

Definition challenged : AdaptiveChallenge := step (Req 0 0 None (adaptive_request 30 "")) fresh.

Lemma solved_challenge_forgotten_witness :
  ipScores (step (Req Second Second None (adaptive_request 0 "0")) challenged) = ipScores challenged.
Proof.
  destruct (solved_challenge_forgotten Second Second None None (adaptive_request 0 "0") challenged "0"
              (mkIssued "0" "192.0.2.7" ChallengeJS (300 * Second) false)) as [_ Hs].
  destruct Hs as (d & ac' & E & _ & _ & Hsc & _); [done|by vm_compute|done|by vm_compute|done|].
  cbn [step]. by rewrite E.
Defined.
