(* ===== verification/Behavioral.v ===== *)
(** * Behavioural engine: [internal/engine/behavioral.go]

    Request velocity per address with the capacity of the window's slice, the
    reputation counters, the path entropy and one tick of the cleanup.
    [math.Log2] is the instance of [Log2] and the order in which the
    frequencies are added up the instance of [RuneOrder]. *)

From S2P Require Import Prelude Float64 GoStr Regexp Types.

#[local] Open Scope string_scope.
#[local] Open Scope Z_scope.

Class Log2 : Type := log2 : f64 -> f64.

(** [range] over a [map[rune]float64]. *)
Class RuneOrder : Type := {
  rune_range : gmap Z f64 -> list (Z * f64);
  rune_range_perm : forall m, rune_range m ≡ₚ map_to_list m
}.

(** ** The sliding window *)

Module Window.

(** [times] with its capacity [max], the one it is made with. *)
Record slidingWindow : Type := mkWindow { times : list Z; window : Z; max : Z }.

(** The most elements of 24 bytes [make] accepts. *)
Definition max_times : Z := 2 ^ 48 / 24.

Definition newSlidingWindow (window max : Z) : outcome slidingWindow :=
  if (max <? 0) || (max_times <? max) then Panics else Returns (mkWindow [] window max).

(** [sw.times[:j+1]] panics beyond the capacity. *)
Definition add (now : Z) (sw : slidingWindow) : outcome (Z * slidingWindow) :=
  let kept := prune (now + wrap64 (- window sw)) (times sw) in
  if max sw <? len kept + 1 then Panics
  else Returns (len kept + 1, mkWindow (kept ++ [now]) (window sw) (max sw)).

End Window.

(** ** The engine *)

Record BehavioralEngine : Type := mkBehavioral {
  devMode : bool;
  reputation : bool;
  velocity : bool;
  pathEntropy : bool;
  threshold : f64;
  windowSec : Z;
  maxRequests : Z;
  ipRequests : gmap string Window.slidingWindow;
  ipReputation : gmap string Z;
  pathCounts : gmap string Z;
  badIPs : gmap string bool;
  blockedIPs : gmap string Z
}.

Definition entropyRE : string := "[0-9a-f]{8,}|[a-z]{20,}|[A-Z]{20,}".

Lemma entropyRE_compiles : compiles entropyRE = true.
Proof. by vm_compute. Qed.

Definition NewBehavioralEngine (devMode reputation velocity pathEntropy : bool) (threshold : f64)
    (windowSec maxRequests : Z) : BehavioralEngine :=
  mkBehavioral devMode reputation velocity pathEntropy threshold windowSec maxRequests ∅ ∅ ∅ ∅ ∅.

Definition set_requests (m : gmap string Window.slidingWindow) (e : BehavioralEngine) : BehavioralEngine :=
  mkBehavioral (devMode e) (reputation e) (velocity e) (pathEntropy e) (threshold e) (windowSec e)
    (maxRequests e) m (ipReputation e) (pathCounts e) (badIPs e) (blockedIPs e).
Definition set_reputation (rep : gmap string Z) (bad : gmap string bool) (blocked : gmap string Z)
    (e : BehavioralEngine) : BehavioralEngine :=
  mkBehavioral (devMode e) (reputation e) (velocity e) (pathEntropy e) (threshold e) (windowSec e)
    (maxRequests e) (ipRequests e) rep (pathCounts e) bad blocked.

Definition getWindow (ip : string) (e : BehavioralEngine) : outcome Window.slidingWindow :=
  match ipRequests e !! ip with
  | Some sw => Returns sw
  | None => Window.newSlidingWindow (wrap64 (windowSec e * Second)) (wrap64 (maxRequests e * 10))
  end.

Section behavioral.
Context `{Unicode} `{Log2} `{RuneOrder}.

(** [freq[c]++] for every rune. *)
Definition frequencies (part : string) : gmap Z f64 :=
  fold_left (fun m c => <[c := fadd (default f0 (m !! c)) (of_int 1)]> m) (runes_of part) ∅.

Definition part_entropy (part : string) (l : f64) : f64 :=
  fold_left (fun acc p => let q := fdiv (snd p) l in
                          if fgt q f0 then fsub acc (fmul q (log2 q)) else acc)
    (rune_range (frequencies part)) f0.

(** One turn of the loop of [checkPathEntropy]. *)
Definition entropy_step (entropy : f64) (part : string) : f64 :=
  if slen part <? 4 then entropy
  else
    let entropy := if MatchString entropyRE part then fadd entropy (of_int 15) else entropy in
    let l := of_int (slen part) in
    if flt l (of_int 2) then entropy
    else
      let maxEntropy := log2 l in
      let entropy :=
        if fgt maxEntropy f0 then
          let normalized := fdiv (part_entropy part l) maxEntropy in
          if fgt normalized (of_frac 85 100) && fgt l (of_int 8) then fadd entropy (of_int 20) else entropy
        else entropy in
      if 16 <? slen part then fadd entropy (of_int 10) else entropy.

Definition checkPathEntropy (path : string) : f64 :=
  if String.eqb path "" || String.eqb path "/" then f0
  else
    let path := TrimSuffix path "/" in
    let parts := Split (TrimPrefix path "/") "/" in
    fmin (fold_left entropy_step parts f0) (of_int 50).

Definition shannonEntropy (s : string) : f64 :=
  if slen s =? 0 then f0
  else
    let l := of_int (slen s) in
    fold_left (fun acc p => let q := fdiv (snd p) l in fsub acc (fmul q (log2 q)))
      (rune_range (frequencies s)) f0.

Definition velocity_check (ip : string) (count : Z) (e : BehavioralEngine) (score : f64) : option Decision * f64 :=
  let over := maxRequests e <? count in
  let score := if over then fadd score (of_int 35) else score in
  if over && devMode e then
    (Some (decision ActionRateLimit "BEH_001" "Request Velocity Exceeded" "high" 35
             (Sprintf "IP %s exceeded %d requests per %ds window (got %d)"
                [AStr ip; AInt (maxRequests e); AInt (windowSec e); AInt count])), score)
  else if wrap64 (maxRequests e * 2) <? count then
    (Some (decision ActionBlock "BEH_002" "High Request Velocity" "critical" 65
             (Sprintf "IP %s high velocity: %d requests in %ds" [AStr ip; AInt count; AInt (windowSec e)])),
     fadd score (of_int 30))
  else (None, score).

Definition reputation_check (ip : string) (e : BehavioralEngine) (score : f64) : option Decision * f64 :=
  let rep := lookup_default 0 (ipReputation e) ip in
  match badIPs e !! ip with
  | Some _ =>
      (Some (decision ActionBlock "BEH_010" "Known Bad IP" "critical" 90
               (Sprintf "IP %s has negative reputation" [AStr ip])), score)
  | None =>
      let score := if 10 <? rep then fadd score (of_int 20) else score in
      if 50 <? rep then
        (Some (decision ActionBlock "BEH_011" "Poor IP Reputation" "high" 45
                 (Sprintf "IP %s poor reputation score: %d" [AStr ip; AInt rep])), fadd score (of_int 25))
      else (None, score)
  end.

Definition monitored (id name : string) (score : f64) (ev : text) : Decision :=
  mkDecision ActionMonitor id name "medium" score ev false f0 (lit "") "".

Definition entropy_check (ctx : RequestContext) (score : f64) : option Decision * f64 :=
  let pathScore := checkPathEntropy (Path ctx) in
  (if fgt pathScore (of_int 20)
   then Some (monitored "BEH_020" "High Path Entropy" pathScore
                (Sprintf "path %q has high entropy (%.2f)" [AStr (Path ctx); AFloat pathScore]))
   else None, fadd score pathScore).

(** The checks after the velocity check. *)
Definition inspect_rest (ctx : RequestContext) (e : BehavioralEngine) (score : f64) : option Decision :=
  let ip := RealIP ctx in
  let '(d, score) := if reputation e then reputation_check ip e score else (None, score) in
  match d with
  | Some d => Some d
  | None =>
      let '(d, score) := if pathEntropy e then entropy_check ctx score else (None, score) in
      match d with
      | Some d => Some d
      | None =>
          if fge score (threshold e)
          then Some (monitored "BEH_099" "Behavioral Threat Detected" score
                       (Sprintf "cumulative behavioral score %.0f for IP %s" [AFloat score; AStr ip]))
          else None
      end
  end.

Definition Inspect (now : Z) (ctx : RequestContext) (e : BehavioralEngine)
    : outcome (option Decision) * BehavioralEngine :=
  let ip := RealIP ctx in
  if String.eqb ip "" then (Returns None, e)
  else if velocity e then
    match getWindow ip e with
    | Panics => (Panics, e)
    | Returns sw =>
        match Window.add now sw with
        | Panics => (Panics, set_requests (<[ip := sw]> (ipRequests e)) e)
        | Returns (count, sw) =>
            let e := set_requests (<[ip := sw]> (ipRequests e)) e in
            match velocity_check ip count e f0 with
            | (Some d, _) => (Returns (Some d), e)
            | (None, score) => (Returns (inspect_rest ctx e score), e)
            end
        end
    end
  else (Returns (inspect_rest ctx e f0), e).

End behavioral.

(** ** Reputation *)

Definition ReportBadIP (ip : string) (e : BehavioralEngine) : BehavioralEngine :=
  set_reputation (ipReputation e) (<[ip := true]> (badIPs e)) (blockedIPs e) e.

Definition IncrementReputation (ip : string) (delta : Z) (e : BehavioralEngine) : BehavioralEngine :=
  let rep := wrap64 (lookup_default 0 (ipReputation e) ip + delta) in
  set_reputation (<[ip := rep]> (ipReputation e))
    (if 100 <? rep then <[ip := true]> (badIPs e) else badIPs e) (blockedIPs e) e.

Definition BlockIP (now : Z) (ip : string) (duration : Z) (e : BehavioralEngine) : BehavioralEngine :=
  set_reputation (ipReputation e) (<[ip := true]> (badIPs e)) (<[ip := now + duration]> (blockedIPs e)) e.

(** One tick of [cleanupLoop]: expired blocks, and, over ten thousand
    addresses, the windows of the first 1001 that [range] yields. *)
Definition expired (now : Z) (e : BehavioralEngine) (ip : string) : bool :=
  match blockedIPs e !! ip with Some until => time_after now until | None => false end.

Definition cleanup `{MapRange Window.slidingWindow} (now : Z) (e : BehavioralEngine) : BehavioralEngine :=
  let e := set_reputation
    (filter (fun p => expired now e (fst p) = false) (ipReputation e))
    (filter (fun p => expired now e (fst p) = false) (badIPs e))
    (filter (fun p => time_after now (snd p) = false) (blockedIPs e)) e in
  if 10000 <? Z.of_nat (size (ipRequests e))
  then set_requests (foldr (fun p m => delete (fst p) m) (ipRequests e) (take 1001 (map_range (ipRequests e)))) e
  else e.

(** ** Histories *)

Inductive op : Type :=
| Req (now : Z) (ctx : RequestContext)
| Report (ip : string)
| Increment (ip : string) (delta : Z)
| Block (now : Z) (ip : string) (duration : Z).

Section histories.
Context `{Unicode} `{Log2} `{RuneOrder}.

Definition step (e : BehavioralEngine) (o : op) : BehavioralEngine :=
  match o with
  | Req now ctx => snd (Inspect now ctx e)
  | Report ip => ReportBadIP ip e
  | Increment ip delta => IncrementReputation ip delta e
  | Block now ip d => BlockIP now ip d e
  end.
Definition run (ops : list op) (e : BehavioralEngine) : BehavioralEngine := fold_left step ops e.

Definition settings (e : BehavioralEngine) : bool * bool * Z * Z := (velocity e, devMode e, windowSec e, maxRequests e).

Lemma Inspect_state now ctx e :
  snd (Inspect now ctx e) =
  if negb (String.eqb (RealIP ctx) "") && velocity e then
    match getWindow (RealIP ctx) e with
    | Panics => e
    | Returns sw => set_requests (<[RealIP ctx := match Window.add now sw with Returns (_, sw) => sw | Panics => sw end]> (ipRequests e)) e
    end
  else e.
Proof.
  unfold Inspect. destruct (String.eqb (RealIP ctx) ""); [done|]. destruct (velocity e); [|done]. cbn [negb andb].
  destruct (getWindow _ e) as [sw|]; [|done]. destruct (Window.add now sw) as [[n sw']|]; [|done].
  by destruct (velocity_check _ _ _ _) as [[?|] ?].
Qed.

Lemma settings_step e o : settings (step e o) = settings e.
Proof. destruct o; [|done..]. cbn [step]. rewrite Inspect_state. by repeat case_match. Qed.

Lemma settings_run ops e : settings (run ops e) = settings e.
Proof. unfold run. revert e. induction ops as [|o ops IH]; intros e; [done|]. cbn [fold_left]. by rewrite IH, settings_step. Qed.

Lemma velocity_check_settings ip n e e' s :
  settings e = settings e' -> velocity_check ip n e s = velocity_check ip n e' s.
Proof. unfold settings, velocity_check. by intros [= _ -> -> ->]. Qed.

(** A request of the address; all requests of the history lie in the window
    that starts at [t0]. *)
Definition is_request (ip : string) (o : op) : bool :=
  match o with Req _ ctx => String.eqb (RealIP ctx) ip | _ => false end.
Definition in_window (t0 w : Z) (o : op) : Prop :=
  match o with Req now _ => t0 <= now < t0 + w | _ => True end.

Section flood.
Context (ip : string) (t0 : Z) (e0 : BehavioralEngine).
Context (Hvel : velocity e0 = true) (Hip : ip <> "").
Context (Hmax : 0 < maxRequests e0) (Hcap : maxRequests e0 * 10 <= Window.max_times).
Context (Hwin : 0 < windowSec e0 * Second < 2 ^ 63).

#[local] Abbreviation cap := (maxRequests e0 * 10).
#[local] Abbreviation w := (windowSec e0 * Second).

(** The address's window holds its last requests, at most [cap]. *)
Definition filled (n : Z) (e : BehavioralEngine) : Prop :=
  settings e = settings e0
  /\ match ipRequests e !! ip with
     | None => n = 0
     | Some sw => Window.window sw = w /\ Window.max sw = cap /\ len (Window.times sw) = Z.min n cap
                  /\ Forall (fun t => t0 <= t < t0 + w) (Window.times sw)
     end.

Lemma getWindow_filled n e :
  filled n e -> 0 <= n ->
  exists sw, getWindow ip e = Returns sw /\ Window.window sw = w /\ Window.max sw = cap
    /\ len (Window.times sw) = Z.min n cap /\ Forall (fun t => t0 <= t < t0 + w) (Window.times sw).
Proof.
  intros [Hs Hf] Hn. unfold getWindow. destruct (ipRequests e !! ip) as [sw|]; [by eauto|].
  unfold settings in Hs. injection Hs as _ _ Hw Hm. rewrite Hw, Hm.
  assert (Window.max_times = 11728124029610) as Hmt by done.
  rewrite (wrap64_small w), (wrap64_small cap) by (unfold in64, min64, max64; lia).
  unfold Window.newSlidingWindow. rewrite (proj2 (Z.ltb_ge cap 0)), (proj2 (Z.ltb_ge Window.max_times cap)) by lia.
  eexists. split; [done|]. cbn. split_and!; [done..| |constructor]. unfold len. cbn. lia.
Qed.

Lemma add_filled now n sw :
  t0 <= now < t0 + w -> 0 <= n ->
  Window.window sw = w -> Window.max sw = cap -> len (Window.times sw) = Z.min n cap ->
  Forall (fun t => t0 <= t < t0 + w) (Window.times sw) ->
  Window.add now sw =
  if cap <=? n then Panics else Returns (n + 1, Window.mkWindow (Window.times sw ++ [now]) w cap).
Proof.
  intros Hnow Hn Hw Hm Hl Hall. unfold Window.add. rewrite Hw, Hm.
  rewrite prune_all.
  2:{ eapply Forall_impl; [exact Hall|]. intros t Ht. cbn beta in Ht |- *. rewrite wrap64_small by (unfold in64, min64, max64; lia). lia. }
  rewrite Hl. destruct (Z.leb_spec cap n).
  - rewrite Z.min_r by lia. by rewrite (proj2 (Z.ltb_lt _ _)) by lia.
  - rewrite Z.min_l by lia. by rewrite (proj2 (Z.ltb_ge _ _)) by lia.
Qed.

Lemma filled_step n e o :
  filled n e -> 0 <= n -> in_window t0 w o ->
  filled (n + if is_request ip o then 1 else 0) (step e o).
Proof.
  intros Hf Hn Ho. split; [rewrite settings_step; apply Hf|].
  destruct o as [now ctx|ip'|ip' d|now ip' d]; cbn [is_request]; rewrite ?Z.add_0_r; try apply Hf.
  cbn [step]. rewrite Inspect_state. destruct (String.eqb_spec (RealIP ctx) ip) as [E|E].
  - destruct (getWindow_filled n e Hf Hn) as (sw & Hg & Hw & Hm & Hl & Hall). destruct Hf as [Hs _].
    rewrite E, (proj2 (String.eqb_neq _ _)) by done. unfold settings in Hs. injection Hs as Hv _ _ _.
    rewrite Hv, Hvel. cbn [negb andb]. rewrite Hg. cbn. rewrite lookup_insert_eq.
    rewrite (add_filled now n sw) by done. destruct (Z.leb_spec cap n); cbn.
    + split_and!; [done..|lia|done].
    + split_and!; [done..| |]; [rewrite len_app, Hl; unfold len; cbn; lia|].
      apply Forall_app. split; [done|]. by constructor.
  - destruct (negb _ && velocity e); [|rewrite Z.add_0_r; apply Hf].
    destruct (getWindow (RealIP ctx) e) as [sw|]; [|rewrite Z.add_0_r; apply Hf]. cbn.
    rewrite lookup_insert_ne by done. rewrite Z.add_0_r. apply Hf.
Qed.

Lemma filled_run ops n e :
  filled n e -> 0 <= n -> Forall (in_window t0 w) ops -> filled (n + count_of (is_request ip) ops) (run ops e).
Proof.
  unfold run. revert n e. induction ops as [|o ops IH]; intros n e Hf Hn Hall.
  - rewrite count_of_nil, Z.add_0_r. done.
  - apply Forall_cons in Hall as [Ho Hall]. cbn [fold_left]. rewrite count_of_cons, Z.add_assoc.
    apply IH; [by apply filled_step|destruct (is_request ip o); lia|done].
Qed.

End flood.

(** The velocity check in closed form: within one window, the request
    after [n] earlier ones of its address, whatever other addresses and the
    reputation calls do in between, is judged with the count [n + 1] as long
    as [n] is below ten times [maxRequests]; from there on every request of
    the address panics on the slice's capacity until the window moves on. *)
Theorem velocity_flood_panics ip t0 e ops now ctx :
  let cap := maxRequests e * 10 in
  let w := windowSec e * Second in
  velocity e = true -> ip <> "" -> ipRequests e !! ip = None ->
  0 < maxRequests e -> cap <= Window.max_times -> 0 < w < 2 ^ 63 ->
  Forall (in_window t0 w) ops -> t0 <= now < t0 + w -> RealIP ctx = ip ->
  let n := count_of (is_request ip) ops in
  fst (Inspect now ctx (run ops e)) =
  if cap <=? n then Panics
  else Returns (match velocity_check ip (n + 1) e f0 with
                | (Some d, _) => Some d
                | (None, score) => inspect_rest ctx (run ops e) score
                end).
Proof.
  intros cap w Hvel Hip Hnew Hmax Hcap Hw Hall Hnow Hctx n. pose proof (count_of_le (is_request ip) ops) as Hn.
  assert (filled ip t0 e n (run ops e)) as Hf.
  { unfold n. rewrite <- (Z.add_0_l (count_of _ _)). apply (filled_run ip t0 e Hvel Hip Hmax Hcap Hw); [|lia|done].
    split; [done|]. by rewrite Hnew. }
  destruct (getWindow_filled ip t0 e Hmax Hcap Hw n _ Hf) as (sw & Hg & Hsw & Hm & Hl & Hs); [lia|].
  unfold Inspect. rewrite Hctx, (proj2 (String.eqb_neq _ _)) by done.
  pose proof (settings_run ops e) as Hset. pose proof Hset as Hv. unfold settings in Hv. injection Hv as -> _ _ _.
  rewrite Hvel, Hg. rewrite (add_filled t0 e Hw now n sw) by (done || lia).
  fold cap. destruct (cap <=? n); [done|]. cbn [fst].
  rewrite (velocity_check_settings ip (n + 1) _ e) by (by rewrite <- Hset).
  by destruct (velocity_check ip (n + 1) e f0) as [[d|] s].
Qed.

End histories.

(** A temporary block erases what was known of an address: the first
    cleanup after a [BlockIP] has run out also removes the address from the
    bad addresses and clears its reputation, so that a report made before or
    during the block has no effect any more. *)
Theorem temporary_block_erases_report `{MapRange Window.slidingWindow} now later duration ip delta e :
  now + duration < later ->
  let e := cleanup later (BlockIP now ip duration (IncrementReputation ip delta (ReportBadIP ip e))) in
  badIPs e !! ip = None /\ ipReputation e !! ip = None
  /\ reputation_check ip e f0 = (None, f0).
Proof.
  intros Hl e'. assert (badIPs e' !! ip = None /\ ipReputation e' !! ip = None) as [Hb Hr].
  { unfold e', cleanup. set (e1 := BlockIP _ _ _ _).
    assert (expired later e1 ip = true) as He.
    { unfold expired, e1. cbn. rewrite lookup_insert_eq. by apply Z.ltb_lt. }
    destruct (10000 <? _); cbn; split; apply map_lookup_filter_None; right; intros x _; cbn; rewrite He; done. }
  split_and!; [done..|]. unfold reputation_check, lookup_default. by rewrite Hb, Hr.
Qed.

(** ** Witnesses *)

#[local] Existing Instance unicode_ascii.
#[local] Instance log2_zero : Log2 := fun _ => f0.
#[local] Instance runes_canonical : RuneOrder := {| rune_range := map_to_list; rune_range_perm := fun m => reflexivity _ |}.

Definition visit (ip : string) : RequestContext :=
  mkContext None None "" ip "" "/" "GET" ∅ ∅ ∅ ∅ None "" "" "" "" "" 0 f0 f0 [] false false 0 (lit "") "" "" "" "".
Definition one_per_minute : BehavioralEngine := NewBehavioralEngine false true true true (of_int 50) 60 1.

Lemma velocity_flood_panics_witness :
  fst (Inspect Second (visit "192.0.2.7") (run (repeat (Req 0 (visit "192.0.2.7")) 10) one_per_minute)) = Panics.
Proof.
  assert (Forall (in_window 0 (windowSec one_per_minute * Second)) (repeat (Req 0 (visit "192.0.2.7")) 10)) as Hall
    by (cbn [repeat]; repeat constructor; done).
  assert (0 < windowSec one_per_minute * Second < 2 ^ 63) as Hw by done.
  assert (0 <= Second < 0 + windowSec one_per_minute * Second) as Hn by done.
  assert (maxRequests one_per_minute * 10 <= Window.max_times) as Hm by (by vm_compute).
  rewrite (velocity_flood_panics "192.0.2.7" 0 one_per_minute _ Second (visit "192.0.2.7") eq_refl ltac:(done) eq_refl eq_refl Hm Hw Hall Hn (eq_refl : RealIP (visit "192.0.2.7") = "192.0.2.7")).
  by vm_compute.
Defined.

Lemma temporary_block_erases_report_witness :
  reputation_check "192.0.2.7"
    (cleanup (2 * Hour) (BlockIP 0 "192.0.2.7" Hour (IncrementReputation "192.0.2.7" 200 (ReportBadIP "192.0.2.7" one_per_minute)))) f0
  = (None, f0).
Proof. apply (temporary_block_erases_report 0 (2 * Hour) Hour); by vm_compute. Defined.
