(* ===== verification/Config.v ===== *)
(** * Configuration: [internal/config/config.go]

    The configuration's types, each in a module of its own that is named as
    the Go type, with [zero] for the zero value where the defaults use it; the
    defaults, [Validate], the lookups, [ExpandEnvRefs], loading and the
    manager. The YAML codec and the file system are instances of the class
    [Files]; the file watcher only calls [Reload]. *)

From S2P Require Import Prelude Float64 GoStr Regexp Types.

#[local] Open Scope string_scope.
#[local] Open Scope Z_scope.

(** What [yaml.v3] decodes into an [any]. *)
Inductive any : Type :=
| ANull
| ABool (b : bool)
| AInteger (z : Z)
| AFloating (x : f64)
| AString (s : string)
| ASeq (l : list any)
| AMap (l : list (string * any)).

(** ** Types *)

Module SiteRuleOverride.

Record t : Type := mk {
  Enabled : option bool; Params : gmap string any
}.

End SiteRuleOverride.

Module RateLimitSiteConfig.

Record t : Type := mk {
  RequestsPerSecond : Z; Burst : Z
}.

End RateLimitSiteConfig.

Module LoggingConfig.

Record t : Type := mk {
  Level : string; Format : string; Output : string; Verbose : bool
}.

End LoggingConfig.

Module TLSConfig.

Record t : Type := mk {
  Enabled : bool; CertFile : string; KeyFile : string; MinVersion : string; HTTP2Enabled : bool;
  OCSPEnabled : bool; ACMEEnabled : bool; ACMEEmail : string; ACMEDomains : list string;
  ACMECacheDir : string
}.

End TLSConfig.

Module AdminConfig.

Record t : Type := mk {
  Port : Z; Enabled : bool; MTLS : bool; CACert : string; CertFile : string; KeyFile : string;
  APIKeys : list string
}.

End AdminConfig.

Module RedisConfig.

Record t : Type := mk {
  Enabled : bool; Addr : string; Password : string; DB : Z; PoolSize : Z; TTL : Z
}.

End RedisConfig.

Module DBConfig.

Record t : Type := mk {
  Driver : string; DSN : string; MaxOpen : Z; MaxIdle : Z
}.

End DBConfig.

Module MLConfig.

Record t : Type := mk {
  Enabled : bool; Endpoint : string; TimeoutSec : Z; MaxRetries : Z; FallbackMode : string;
  MinScore : f64; ModelName : string
}.

End MLConfig.

Module SiteConfig.

Record t : Type := mk {
  Name : string; Domains : list string; Upstream : string; Port : Z; TLS : bool; CertFile : string;
  KeyFile : string; RateLimit : option RateLimitSiteConfig.t; WAFEnabled : bool;
  RuleOverrides : gmap string SiteRuleOverride.t
}.

End SiteConfig.

Module RuleConfig.

Record t : Type := mk {
  ID : string; Name : string; Description : string; Enabled : bool; Severity : string;
  Action : string; Phase : string; Priority : Z; Field : string; Operator : string; Value : string;
  Transform : list string; Tags : list string; Params : gmap string any
}.

End RuleConfig.

Module JWTConfig.

Record t : Type := mk {
  Enabled : bool; JWKSURL : string; Issuers : list string; Audiences : list string;
  Algorithms : list string; Secret : string
}.

End JWTConfig.

Module OAuthConfig.

Record t : Type := mk {
  Enabled : bool; IntrospectionURL : string; ClientID : string; ClientSecret : string;
  TokenTypeHint : string
}.

End OAuthConfig.

Module GraphQLConfig.

Record t : Type := mk {
  Enabled : bool; MaxDepth : Z; MaxCost : Z; MaxAliases : Z; MaxBatchSize : Z; MaxTokens : Z;
  BlockIntrospection : bool; BlockSchema : bool; AllowedOperations : list string;
  RestrictedFields : list string; StrictValidation : bool
}.

End GraphQLConfig.

Module MTLSConfig.

Record t : Type := mk {
  Enabled : bool; CAFile : string; ClientAuth : string; SkipVerify : bool; PolicyOID : string;
  VerifyDepth : Z; FailOnError : bool; EarlyAuth : bool; UsernameHeader : string
}.

End MTLSConfig.

Module WebSocketConfig.

Record t : Type := mk {
  Enabled : bool; MaxFrameSize : Z; MaxMessageSize : Z; MaxDepth : Z; MaxFramesPerMin : Z;
  MaxBytesPerMin : Z; BlockOnLimit : bool; AllowedTypes : list Z; StrictMode : bool;
  EnablePing : bool; EnablePong : bool; EnableClose : bool; ConnectionTimeout : Z
}.

End WebSocketConfig.

Module FeatureConfig.

Record t : Type := mk {
  Enabled : bool
}.

End FeatureConfig.

Module SQLIConfig.

Record t : Type := mk {
  Enabled : bool
}.

Definition zero : t :=
  mk false.

End SQLIConfig.

Module XSSConfig.

Record t : Type := mk {
  Enabled : bool
}.

Definition zero : t :=
  mk false.

End XSSConfig.

Module RCEConfig.

Record t : Type := mk {
  Enabled : bool
}.

Definition zero : t :=
  mk false.

End RCEConfig.

Module DDoSConfig.

Record t : Type := mk {
  Enabled : bool
}.

Definition zero : t :=
  mk false.

End DDoSConfig.

Module ProtocolConfig.

Record t : Type := mk {
  Enabled : bool
}.

Definition zero : t :=
  mk false.

End ProtocolConfig.

Module BotConfig.

Record t : Type := mk {
  Enabled : bool
}.

Definition zero : t :=
  mk false.

End BotConfig.

Module APIProtectConfig.

Record t : Type := mk {
  Enabled : bool
}.

Definition zero : t :=
  mk false.

End APIProtectConfig.

Module UploadConfig.

Record t : Type := mk {
  Enabled : bool
}.

Definition zero : t :=
  mk false.

End UploadConfig.

Module CredentialConfig.

Record t : Type := mk {
  Enabled : bool; MaxAttempts : Z; WindowSec : Z; BlockDurationSec : Z; LoginPaths : list string
}.

End CredentialConfig.

Module GeoConfig.

Record t : Type := mk {
  Enabled : bool; CityDBPath : string; ASNDBPath : string
}.

Definition zero : t :=
  mk false "" "".

End GeoConfig.

Module RateLimitConfig.

Record t : Type := mk {
  Enabled : bool; Algorithm : string; DefaultRate : Z; DefaultBurst : Z
}.

Definition zero : t :=
  mk false "" 0 0.

End RateLimitConfig.

Module SessionConfig.

Record t : Type := mk {
  Enabled : bool; TTL : Z
}.

Definition zero : t :=
  mk false 0.

End SessionConfig.

Module ReputationConfig.

Record t : Type := mk {
  Enabled : bool
}.

Definition zero : t :=
  mk false.

End ReputationConfig.

Module RulesConfig.

Record t : Type := mk {
  Enabled : bool; DryRun : bool
}.

Definition zero : t :=
  mk false false.

End RulesConfig.

Module CAPTCHAConfig.

Record t : Type := mk {
  Enabled : bool; Provider : string; SiteKey : string; Secret : string; Score : f64
}.

End CAPTCHAConfig.

Module ResponseInspectConfig.

Record t : Type := mk {
  Enabled : bool; InspectBody : bool; SensitivePatterns : list string
}.

End ResponseInspectConfig.

Module SOAPConfig.

Record t : Type := mk {
  Enabled : bool; StrictSchema : bool; MaxDepth : Z
}.

End SOAPConfig.

Module GRPCConfig.

Record t : Type := mk {
  Enabled : bool; MaxMsgSize : Z; RateLimit : Z
}.

End GRPCConfig.

Module PrometheusConfig.

Record t : Type := mk {
  Enabled : bool; Path : string; Port : Z
}.

End PrometheusConfig.

Module JA3Config.

Record t : Type := mk {
  Enabled : bool
}.

End JA3Config.

Module BehavioralConfig.

Record t : Type := mk {
  Enabled : bool; Reputation : bool; Velocity : bool; PathEntropy : bool; Threshold : f64;
  WindowSec : Z; MaxRequests : Z
}.

End BehavioralConfig.

Module WASMConfig.

Record t : Type := mk {
  Enabled : bool; ModuleDir : string; MaxMemoryPages : Z; Modules : list string
}.

End WASMConfig.

Module DesyncConfig.

Record t : Type := mk {
  Enabled : bool; MaxBodySize : Z; StrictCL : bool; DetectOBSFold : bool
}.

End DesyncConfig.

Module AdaptiveConfig.

Record t : Type := mk {
  Enabled : bool; JSScriptPath : string; TarpitDelayMs : Z; CAPTCHAScore : f64; ChallengeTTL : Z
}.

End AdaptiveConfig.

Module EBPFConfig.

Record t : Type := mk {
  Enabled : bool; Interface : string; Port : Z; SampleRate : Z
}.

End EBPFConfig.

Module ParserHardeningConfig.

Record t : Type := mk {
  Enabled : bool
}.

End ParserHardeningConfig.

Module ShadowModeConfig.

Record t : Type := mk {
  Enabled : bool
}.

Definition zero : t :=
  mk false.

End ShadowModeConfig.

Module LearningModeConfig.

Record t : Type := mk {
  Enabled : bool
}.

Definition zero : t :=
  mk false.

End LearningModeConfig.

Module PerformanceConfig.

Record t : Type := mk {
  Enabled : bool; MaxRegexMs : Z; MaxWASMMs : Z; MaxMemoryMB : Z; MaxConcurrency : Z;
  CircuitThreshold : Z
}.

End PerformanceConfig.

Module SIEMExporterConfig.

Record t : Type := mk {
  Type_ : string; Enabled : bool; URL : string; Token : string; Index : string; Username : string;
  Password : string; VerifySSL : bool
}.

End SIEMExporterConfig.

Module SIEMConfig.

Record t : Type := mk {
  Enabled : bool; ExportInterval : Z; BatchSize : Z; Exporters : list SIEMExporterConfig.t
}.

End SIEMConfig.

Module RewriteConditionConfig.

Record t : Type := mk {
  Field : string; Name : string; Operator : string; Value : string
}.

End RewriteConditionConfig.

Module RewriteActionConfig.

Record t : Type := mk {
  Type_ : string; Name : string; Value : string; Op : string; Pattern : string
}.

End RewriteActionConfig.

Module RewriteRuleConfig.

Record t : Type := mk {
  Enabled : bool; Name : string; Conditions : list RewriteConditionConfig.t;
  Actions : list RewriteActionConfig.t
}.

End RewriteRuleConfig.

Module Config.

Record t : Type := mk {
  filePath : string; Sites : list SiteConfig.t; Rules : list RuleConfig.t; ML : MLConfig.t;
  Redis : RedisConfig.t; DB : DBConfig.t; Logging : LoggingConfig.t; TLS : TLSConfig.t;
  Admin : AdminConfig.t; JWT : JWTConfig.t; OAuth : OAuthConfig.t; GraphQL : GraphQLConfig.t;
  MTLS : MTLSConfig.t; WebSocket : WebSocketConfig.t; SIEM : SIEMConfig.t;
  RewriteRules : list RewriteRuleConfig.t; SQLI : SQLIConfig.t; XSS : XSSConfig.t;
  RCE : RCEConfig.t; DDoS : DDoSConfig.t; Protocol : ProtocolConfig.t; Bot : BotConfig.t;
  APIProtect : APIProtectConfig.t; Upload : UploadConfig.t; Credential : CredentialConfig.t;
  Geo : GeoConfig.t; RateLimit : RateLimitConfig.t; Session : SessionConfig.t;
  Reputation : ReputationConfig.t; RulesCfg : RulesConfig.t; CAPTCHA : CAPTCHAConfig.t;
  RespInspect : ResponseInspectConfig.t; SOAP : SOAPConfig.t; GRPC : GRPCConfig.t;
  Prometheus : PrometheusConfig.t; JA3 : JA3Config.t; Behavioral : BehavioralConfig.t;
  WASM : WASMConfig.t; Desync : DesyncConfig.t; Adaptive : AdaptiveConfig.t; EBPF : EBPFConfig.t;
  ParserHardening : ParserHardeningConfig.t; ShadowMode : ShadowModeConfig.t;
  LearningMode : LearningModeConfig.t; Performance : PerformanceConfig.t
}.

End Config.

(** [filePath] is the first field of [Config]. *)
Definition DefaultConfig : Config.t :=
  Config.mk
    ""
    []
    []
    (MLConfig.mk false "http://127.0.0.1:9090" 5 2 "allow" (of_frac 1 2) "")
    (RedisConfig.mk false "127.0.0.1:6379" "" 0 10 3600)
    (DBConfig.mk "sqlite3" "fortresswaf.db" 25 5)
    (LoggingConfig.mk "info" "text" "stdout" false)
    (TLSConfig.mk false "" "" "1.2" true false false "" [] "")
    (AdminConfig.mk 8443 true false "" "" "" [])
    (JWTConfig.mk false "" [] [] ["RS256"; "ES256"] "")
    (OAuthConfig.mk false "" "" "" "")
    (GraphQLConfig.mk false 10 1000 15 1 10000 false false ["query"; "mutation"] [] true)
    (MTLSConfig.mk false "" "no-client-certs" false "" 5 false false "X-Client-Cert-User")
    (WebSocketConfig.mk false 65536 0 10 0 0 false [] true true true true 0)
    (SIEMConfig.mk false (10 * Second) 100 [])
    []
    SQLIConfig.zero
    XSSConfig.zero
    RCEConfig.zero
    DDoSConfig.zero
    ProtocolConfig.zero
    BotConfig.zero
    APIProtectConfig.zero
    UploadConfig.zero
    (CredentialConfig.mk false 5 300 3600 [])
    GeoConfig.zero
    RateLimitConfig.zero
    SessionConfig.zero
    ReputationConfig.zero
    RulesConfig.zero
    (CAPTCHAConfig.mk false "" "" "" (of_frac 1 2))
    (ResponseInspectConfig.mk false true [])
    (SOAPConfig.mk false false 10)
    (GRPCConfig.mk false 4194304 100)
    (PrometheusConfig.mk false "/metrics" 9090)
    (JA3Config.mk true)
    (BehavioralConfig.mk false true true true (of_int 50) 60 100)
    (WASMConfig.mk false "wasm_modules" 10 [])
    (DesyncConfig.mk false 10485760 true true)
    (AdaptiveConfig.mk false "challenge.js" 30000 (of_frac 1 2) 300)
    (EBPFConfig.mk false "eth0" 80 10)
    (ParserHardeningConfig.mk true)
    ShadowModeConfig.zero
    LearningModeConfig.zero
    (PerformanceConfig.mk false 1000 5000 512 0 5).

(** ** Validation *)

(** The first element of a slice that is refused, with its index. *)
Fixpoint first_error {A} (check : Z -> A -> option text) (i : Z) (l : list A) : option text :=
  match l with [] => None | a :: l => check i a <||> first_error check (i + 1) l end.

Definition check_site (i : Z) (site : SiteConfig.t) : option text :=
  if String.eqb (SiteConfig.Name site) "" then Some (Sprintf "site[%d]: name is required" [Types.AInt i])
  else match SiteConfig.Domains site with
       | [] => Some (Sprintf "site[%d] %q: at least one domain is required" [Types.AInt i; AStr (SiteConfig.Name site)])
       | _ => if String.eqb (SiteConfig.Upstream site) ""
              then Some (Sprintf "site[%d] %q: upstream is required" [Types.AInt i; AStr (SiteConfig.Name site)])
              else None
       end.

Definition check_rule (i : Z) (rule : RuleConfig.t) : option text :=
  if String.eqb (RuleConfig.ID rule) "" then Some (Sprintf "rule[%d]: ID is required" [Types.AInt i])
  else if String.eqb (RuleConfig.Field rule) ""
  then Some (Sprintf "rule[%d] %q: field is required" [Types.AInt i; AStr (RuleConfig.ID rule)])
  else if String.eqb (RuleConfig.Operator rule) ""
  then Some (Sprintf "rule[%d] %q: operator is required" [Types.AInt i; AStr (RuleConfig.ID rule)])
  else None.

(** The error, or [None]. *)
Definition Validate (c : Config.t) : option text :=
  (match Config.Sites c with [] => Some (lit "at least one site must be configured") | _ => None end)
  <||> first_error check_site 0 (Config.Sites c)
  <||> first_error check_rule 0 (Config.Rules c)
  <||> (if MLConfig.Enabled (Config.ML c) && String.eqb (MLConfig.Endpoint (Config.ML c)) ""
        then Some (lit "ml.endpoint is required when ml is enabled") else None)
  <||> (if RedisConfig.Enabled (Config.Redis c) && String.eqb (RedisConfig.Addr (Config.Redis c)) ""
        then Some (lit "redis.addr is required when redis is enabled") else None).

(** ** Lookups *)

Definition GetSite (name : string) (c : Config.t) : option SiteConfig.t :=
  List.find (fun s => String.eqb (SiteConfig.Name s) name) (Config.Sites c).
Definition FindSiteByDomain (domain : string) (c : Config.t) : option SiteConfig.t :=
  List.find (fun s => existsb (fun d => String.eqb d domain) (SiteConfig.Domains s)) (Config.Sites c).
Definition GetRule (id : string) (c : Config.t) : option RuleConfig.t :=
  List.find (fun r => String.eqb (RuleConfig.ID r) id) (Config.Rules c).
Definition GetEnabledRules (c : Config.t) : list RuleConfig.t :=
  filter (fun r => RuleConfig.Enabled r = true) (Config.Rules c).

(** ** Environment references *)

Definition envRefRE : string := "\$\{([^}]+)\}".

(** [regexp.FindAllString]. *)
Definition FindAllString `{Unicode} (p s : string) : list string :=
  map (fun '(i, j) => of_bytes (segment_text (rune_segments s) i j)) (FindAll p s).

Definition expand_ref (env : string -> string) (str m : string) : string :=
  let val := env (take_str (String.length m - 3) (drop_str 2 m)) in
  if String.eqb val "" then str else ReplaceAll str m val.
Definition ExpandEnvRefs `{Unicode} (env : string -> string) (data : string) : string :=
  fold_left (expand_ref env) (FindAllString envRefRE data) data.

(** ** Loading and the manager *)

(** The file system, the environment and the YAML codec. [yaml_unmarshal]
    decodes over the given configuration; [write_file] answers the error. *)
Class Files : Type := {
  read_file : string -> result text string;
  getenv : string -> string;
  yaml_unmarshal : string -> Config.t -> result text Config.t;
  yaml_text : Config.t -> result text string;
  write_file : string -> string -> option text
}.

Definition set_path (path : string) (c : Config.t) : Config.t :=
  Config.mk path (Config.Sites c) (Config.Rules c) (Config.ML c) (Config.Redis c) (Config.DB c)
    (Config.Logging c) (Config.TLS c) (Config.Admin c) (Config.JWT c) (Config.OAuth c) (Config.GraphQL c)
    (Config.MTLS c) (Config.WebSocket c) (Config.SIEM c) (Config.RewriteRules c) (Config.SQLI c)
    (Config.XSS c) (Config.RCE c) (Config.DDoS c) (Config.Protocol c) (Config.Bot c) (Config.APIProtect c)
    (Config.Upload c) (Config.Credential c) (Config.Geo c) (Config.RateLimit c) (Config.Session c)
    (Config.Reputation c) (Config.RulesCfg c) (Config.CAPTCHA c) (Config.RespInspect c) (Config.SOAP c)
    (Config.GRPC c) (Config.Prometheus c) (Config.JA3 c) (Config.Behavioral c) (Config.WASM c)
    (Config.Desync c) (Config.Adaptive c) (Config.EBPF c) (Config.ParserHardening c) (Config.ShadowMode c)
    (Config.LearningMode c) (Config.Performance c).

Section loading.
Context `{Unicode} `{Files}.

Definition Load (path : string) : result text Config.t :=
  match read_file path with
  | Err e => Err (Sprintf "read config: %w" [])
  | Ok data =>
      match yaml_unmarshal (ExpandEnvRefs getenv data) DefaultConfig with
      | Err e => Err (Sprintf "parse config: %w" [])
      | Ok cfg =>
          let cfg := set_path path cfg in
          match Validate cfg with Some e => Err (Sprintf "invalid config: %w" []) | None => Ok cfg end
      end
  end.

(** The manager's configuration; a callback changes the state [S] of whoever
    registered it. *)
Record Manager (S : Type) : Type := mkManager { config : Config.t; onChange : list (Config.t -> S -> S) }.
Arguments mkManager {S}.
Arguments config {S}.
Arguments onChange {S}.

Definition NewManager {S} (path : string) : result text (Manager S) :=
  match Load path with Err e => Err e | Ok cfg => Ok (mkManager cfg []) end.

Definition OnChange {S} (cb : Config.t -> S -> S) (m : Manager S) : Manager S :=
  mkManager (config m) (onChange m ++ [cb])%list.

Definition notify {S} (m : Manager S) (s : S) : S := fold_left (fun s cb => cb (config m) s) (onChange m) s.

Definition Reload {S} (m : Manager S) (s : S) : option text * Manager S * S :=
  match Load (Config.filePath (config m)) with
  | Err e => (Some e, m, s)
  | Ok cfg => let m := mkManager cfg (onChange m) in (None, m, notify m s)
  end.

Definition SaveToFile (path : string) (cfg : Config.t) : option text :=
  match yaml_text cfg with
  | Err e => Some (Sprintf "marshal config: %w" [])
  | Ok data => match write_file path data with Some e => Some (Sprintf "write config: %w" []) | None => None end
  end.

(** [fn] changes the configuration in place, before it is checked. *)
Definition UpdateConfig {S} (fn : Config.t -> Config.t) (m : Manager S) (s : S) : option text * Manager S * S :=
  let m := mkManager (fn (config m)) (onChange m) in
  match Validate (config m) with
  | Some e => (Some (Sprintf "validate updated config: %w" []), m, s)
  | None =>
      match (if String.eqb (Config.filePath (config m)) "" then None
             else SaveToFile (Config.filePath (config m)) (config m)) with
      | Some e => (Some e, m, s)
      | None => (None, m, notify m s)
      end
  end.

(** What [watchLoop] gets from the watcher of the file's directory; [path] is
    the file's absolute path. A closed channel ends the loop. *)
Inductive watched : Type := FileEvent (name : string) (write create : bool) | WatchError | WatchClosed.
Definition watch_step {S} (path : string) (e : watched) (m : Manager S) (s : S) : Manager S * S :=
  match e with
  | FileEvent name write create =>
      if (write || create) && String.eqb name path then let '(_, m, s) := Reload m s in (m, s) else (m, s)
  | _ => (m, s)
  end.
Fixpoint watchLoop {S} (path : string) (events : list watched) (m : Manager S) (s : S) : Manager S * S :=
  match events with
  | [] | WatchClosed :: _ => (m, s)
  | e :: events => let '(m, s) := watch_step path e m s in watchLoop path events m s
  end.

End loading.

Arguments mkManager {S}.
Arguments config {S}.
Arguments onChange {S}.

(** ** What validation guarantees *)

Lemma first_error_None {A} (check : Z -> A -> option text) l :
  (forall i j a, check i a = None -> check j a = None) ->
  forall i, first_error check i l = None <-> Forall (fun a => check 0 a = None) l.
Proof.
  intros Hi. induction l as [|a l IH]; intros i; [done|]. cbn [first_error].
  rewrite or_else_None, IH, Forall_cons. naive_solver.
Qed.

Definition site_ok (s : SiteConfig.t) : Prop :=
  SiteConfig.Name s <> "" /\ SiteConfig.Domains s <> [] /\ SiteConfig.Upstream s <> "".
Definition rule_ok (r : RuleConfig.t) : Prop :=
  RuleConfig.ID r <> "" /\ RuleConfig.Field r <> "" /\ RuleConfig.Operator r <> "".

Lemma check_site_None i s : check_site i s = None <-> site_ok s.
Proof.
  unfold check_site, site_ok. destruct (String.eqb_spec (SiteConfig.Name s) ""), (SiteConfig.Domains s),
    (String.eqb_spec (SiteConfig.Upstream s) ""); naive_solver.
Qed.
Lemma check_rule_None i r : check_rule i r = None <-> rule_ok r.
Proof.
  unfold check_rule, rule_ok. destruct (String.eqb_spec (RuleConfig.ID r) ""),
    (String.eqb_spec (RuleConfig.Field r) ""), (String.eqb_spec (RuleConfig.Operator r) ""); naive_solver.
Qed.

(** What a configuration that passes [Validate] satisfies. *)
Definition valid (c : Config.t) : Prop :=
  Config.Sites c <> [] /\ Forall site_ok (Config.Sites c) /\ Forall rule_ok (Config.Rules c)
  /\ (MLConfig.Enabled (Config.ML c) = true -> MLConfig.Endpoint (Config.ML c) <> "")
  /\ (RedisConfig.Enabled (Config.Redis c) = true -> RedisConfig.Addr (Config.Redis c) <> "").

Lemma enabled_check (b : bool) (s : string) (e : text) :
  (if b && String.eqb s "" then Some e else None) = None <-> (b = true -> s <> "").
Proof. destruct b, (String.eqb_spec s ""); naive_solver. Qed.

Lemma Validate_spec c : Validate c = None <-> valid c.
Proof.
  unfold Validate, valid. rewrite !or_else_None, !enabled_check.
  rewrite !first_error_None by (intros i j a; rewrite ?check_site_None, ?check_rule_None; done).
  assert (forall l, Forall (fun a => check_site 0 a = None) l <-> Forall site_ok l) as ->.
  { intros l. apply Forall_iff. intros s. apply check_site_None. }
  assert (forall l, Forall (fun a => check_rule 0 a = None) l <-> Forall rule_ok l) as ->.
  { intros l. apply Forall_iff. intros s. apply check_rule_None. }
  destruct (Config.Sites c); naive_solver.
Qed.

Lemma find_first {A} (p : A -> bool) l a :
  List.find p l = Some a -> exists pre post, l = (pre ++ a :: post)%list /\ p a = true /\ Forall (fun b => p b = false) pre.
Proof.
  induction l as [|b l IH]; [done|]. cbn. destruct (p b) eqn:E.
  - intros [= ->]. by exists [], l.
  - intros Hf. destruct (IH Hf) as (pre & post & -> & Ha & Hall). exists (b :: pre), post. split_and!; [done..|]. by constructor.
Qed.

Section manager.
Context `{Unicode} `{Files} {S : Type}.
Implicit Types m : Manager S.

Lemma Load_valid path c : Load path = Ok c -> valid c /\ Config.filePath c = path.
Proof.
  unfold Load. go_cases. intros [= <-]. split; [|done]. by apply Validate_spec.
Qed.

(** Reloading is all or nothing: it either fails and changes nothing or
    installs a valid configuration read from the same path and runs every
    callback on it, so every history of reloads keeps the manager's
    configuration valid. Updating is not: whatever it answers, the changed
    configuration stays in place, also one that validation has refused and
    that no callback has seen. *)
Theorem reload_atomic_update_not m (s : S) fn :
  (match Reload m s with
   | (Some _, m', s') => m' = m /\ s' = s
   | (None, m', s') =>
       valid (config m') /\ Config.filePath (config m') = Config.filePath (config m)
       /\ onChange m' = onChange m /\ s' = notify m' s
   end)
  /\ (let '(err, m', s') := UpdateConfig fn m s in
      config m' = fn (config m) /\ (~ valid (fn (config m)) -> err <> None /\ s' = s)).
Proof.
  split.
  - unfold Reload. destruct (Load _) as [c|e] eqn:E; [|done]. apply Load_valid in E as [Hv Hp]. done.
  - unfold UpdateConfig. cbn [config]. destruct (Validate (fn (config m))) as [e|] eqn:E.
    + done.
    + apply Validate_spec in E. by destruct (if String.eqb _ _ then _ else _).
Qed.

Lemma reload_watched (m m' : Manager S) (s s' : S) e :
  Reload m s = (e, m', s') ->
  Config.filePath (config m') = Config.filePath (config m) /\ onChange m' = onChange m.
Proof.
  unfold Reload. destruct (Load (Config.filePath (config m))) as [cfg|] eqn:Hl; intros [= _ <- _]; [|done]. split; [|done].
  cbn. unfold Load in Hl. repeat case_match; by simplify_eq.
Qed.

(** After any events the configuration is the one before or the one that the
    file gives, never anything between; events of other names - such as that of the
    link which Kubernetes swaps to update a mounted file - change nothing. *)
Theorem watch_loads_file path events (m m' : Manager S) (s s' : S) :
  watchLoop path events m s = (m', s') ->
  (config m' = config m \/ Load (Config.filePath (config m)) = Ok (config m'))
  /\ (Forall (fun e => forall name w c, e = FileEvent name w c -> name <> path) events -> m' = m /\ s' = s).
Proof.
  revert m s. induction events as [|e events IH]; intros m s; cbn [watchLoop]; [intros [= <- <-]; by auto|].
  destruct e as [name w c| |]; cbn [watch_step].
  - destruct ((w || c) && String.eqb name path) eqn:Hc.
    + destruct (Reload m s) as [[err m1] s1] eqn:Hr. intros Hw. destruct (reload_watched _ _ _ _ _ Hr) as [Hp _].
      destruct (IH m1 s1 Hw) as [Ho _]. split.
      * rewrite Hp in Ho. destruct Ho as [Ho|Ho]; [|by right]. rewrite Ho. unfold Reload in Hr.
        destruct (Load (Config.filePath (config m))) as [cfg|] eqn:Hl; injection Hr as _ <- _; [by right|by left].
      * intros Hn. apply Forall_cons in Hn as [Hn _]. exfalso. apply (Hn name w c eq_refl). apply andb_true_iff in Hc as [_ Hc].
        by apply String.eqb_eq.
    + intros Hw. destruct (IH m s Hw) as [Ho Hn]. split; [done|]. intros [_ Hf]%Forall_cons. by apply Hn.
  - intros Hw. destruct (IH m s Hw) as [Ho Hn]. split; [done|]. intros [_ Hf]%Forall_cons. by apply Hn.
  - intros [= <- <-]. by auto.
Qed.

End manager.

(** ** Witness *)

(** A configuration for examples. *)
Definition example_config (sites : list SiteConfig.t) (rce : bool) (c : Config.t) : Config.t :=
  Config.mk (Config.filePath c) sites (Config.Rules c) (Config.ML c) (Config.Redis c) (Config.DB c)
    (Config.Logging c) (Config.TLS c) (Config.Admin c) (Config.JWT c) (Config.OAuth c) (Config.GraphQL c)
    (Config.MTLS c) (Config.WebSocket c) (Config.SIEM c) (Config.RewriteRules c) (Config.SQLI c)
    (Config.XSS c) (RCEConfig.mk rce) (Config.DDoS c) (Config.Protocol c) (Config.Bot c) (Config.APIProtect c)
    (Config.Upload c) (Config.Credential c) (Config.Geo c) (Config.RateLimit c) (Config.Session c)
    (Config.Reputation c) (Config.RulesCfg c) (Config.CAPTCHA c) (Config.RespInspect c) (Config.SOAP c)
    (Config.GRPC c) (Config.Prometheus c) (Config.JA3 c) (Config.Behavioral c) (Config.WASM c)
    (Config.Desync c) (Config.Adaptive c) (Config.EBPF c) (Config.ParserHardening c) (Config.ShadowMode c)
    (Config.LearningMode c) (Config.Performance c).

#[local] Existing Instance unicode_ascii.
#[local] Instance no_files : Files :=
  {| read_file := fun _ => Err (lit "no such file"); getenv := fun _ => ""; yaml_unmarshal := fun _ c => Ok c;
     yaml_text := fun _ => Ok ""; write_file := fun _ _ => None |}.

Lemma reload_atomic_update_not_witness :
  config ((UpdateConfig (fun _ => DefaultConfig) (@mkManager unit DefaultConfig []) tt).1.2) = DefaultConfig.
Proof.
  destruct (reload_atomic_update_not (@mkManager unit DefaultConfig []) tt (fun _ => DefaultConfig)) as [_ Hu].
  destruct (UpdateConfig _ _ _) as [[err m'] s']. apply Hu.
Defined.

Lemma watch_loads_file_witness :
  fst (watchLoop "/etc/waf/config.yaml" [FileEvent "/etc/waf/..data" false true] (@mkManager unit DefaultConfig []) tt) = mkManager DefaultConfig [].
Proof.
  apply (watch_loads_file "/etc/waf/config.yaml" [FileEvent "/etc/waf/..data" false true] (@mkManager unit DefaultConfig []) _ tt tt eq_refl).
  repeat constructor. intros name w c [= <- _ _]. discriminate.
Defined.
