(* ===== verification/Upload.v ===== *)
(** * File uploads: [internal/engine/upload.go]

    Size limits by endpoint and the parts of multipart bodies. The reader of
    [mime/multipart] is the class [MultipartReader]; closing and reading a part
    are modelled, and [Inspect] closes each part before it reads it. Bodies are
    byte strings, magic numbers lists of bytes. *)

From S2P Require Import Prelude Float64 GoStr Regexp Types.

#[local] Open Scope string_scope.
#[local] Open Scope Z_scope.

(** A part as [NextPart] yields it: [FileName()], the [Content-Type] of its
    header, what is left to read. *)
Record Part : Type := mkPart { FileName : string; part_type : string; rest : string }.

(** [part.Close()]: [io.Copy(io.Discard, p)]. *)
Definition Close (p : Part) : Part := mkPart (FileName p) (part_type p) "".

(** The parts of a body that [NextPart] yields before it fails, and how much
    of what is left one [Read] gives at most. *)
Class MultipartReader : Type := {
  parts : string -> string -> list Part;
  read_size : Part -> nat
}.

(** [part.Read(buf)] for a buffer of [n] bytes: the bytes read. *)
Definition Read `{MultipartReader} (n : nat) (p : Part) : string := take_str (Nat.min n (read_size p)) (rest p).

Record FileUploadSecurity : Type := mkUpload {
  devMode : bool; maxFileSize : Z; perEndpointLimits : gmap string Z
}.
Definition NewFileUploadSecurity (devMode : bool) : FileUploadSecurity := mkUpload devMode (10 * 1024 * 1024) ∅.

(** The map [mimeSignatures]; it is ranged over for any match only. *)
Definition mimeSignatures : list (string * list Z) :=
  [("image/jpeg", [255; 216; 255]); ("image/png", [137; 80; 78; 71]); ("image/gif", [71; 73; 70; 56]);
   ("image/webp", [82; 73; 70; 70]); ("image/tiff", [73; 73; 42; 0]); ("image/bmp", [66; 77]);
   ("application/pdf", [37; 80; 68; 70]); ("application/zip", [80; 75; 3; 4]); ("application/gzip", [31; 139]);
   ("application/x-bzip2", [66; 90]); ("application/x-xz", [253; 55; 122; 88; 90; 0]); ("text/plain", []);
   ("text/csv", []); ("application/json", []); ("application/xml", []); ("application/octet-stream", [])].
Definition executableExtensions : list string :=
  [".exe"; ".dll"; ".so"; ".dylib"; ".bin"; ".bat"; ".cmd"; ".com"; ".msi"; ".scr"; ".pif"; ".vbs"; ".vbe"; ".js";
   ".jse"; ".wsf"; ".wsh"; ".ps1"; ".psm1"; ".psd1"; ".msh"; ".sh"; ".bash"; ".zsh"; ".ksh"; ".csh"].
Definition archiveExtensions : list string :=
  [".zip"; ".tar"; ".gz"; ".bz2"; ".xz"; ".7z"; ".rar"; ".tgz"; ".tbz2"; ".zst"; ".lz"; ".lzma"; ".lzo"].
Definition imageExtensions : list string :=
  [".jpg"; ".jpeg"; ".png"; ".gif"; ".webp"; ".bmp"; ".tiff"; ".tif"; ".svg"; ".ico"; ".heic"; ".heif"].
Definition executableMagic : list (list Z) :=
  [[127; 69; 76; 70]; [77; 90]; [202; 254; 186; 190]; [207; 250; 237; 254]; [206; 250; 237; 254];
   [254; 237; 250; 206]; [254; 237; 250; 207]; [35; 33]].
Definition archiveMagic : list (list Z) :=
  [[80; 75; 3; 4]; [31; 139]; [66; 90]; [253; 55; 122; 88; 90]; [55; 122; 188; 175; 39; 28]; [82; 97; 114; 33; 26; 7];
   [117; 115; 116; 97; 114]].

(** [len(magic) >= len(sig) && bytes.HasPrefix(magic, sig)]: the first
    condition follows from the second. *)
Definition has_magic (magic : string) (sig : list Z) : bool := (len sig <=? slen magic) && HasPrefix magic (of_bytes sig).

Definition getEndpointLimit (u : FileUploadSecurity) (path : string) : Z :=
  match perEndpointLimits u !! path with Some limit => limit | None => maxFileSize u end.
Definition SetEndpointLimit (path : string) (limit : Z) (u : FileUploadSecurity) : FileUploadSecurity :=
  mkUpload (devMode u) (maxFileSize u) (<[path := limit]> (perEndpointLimits u)).

Definition scriptPattern : string := "(?i)(?:<script|<svg|onerror|onload|javascript:|<?php|<?xml)".

Section upload.
Context `{Unicode} `{MultipartReader}.

Definition extension (filename : string) : string := ToLower (Ext filename).
Definition among (l : list string) (s : string) : bool := existsb (String.eqb s) l.

(** The loops over [mimeSignatures], both for the same test. *)
Definition known_magic (magic : string) : bool :=
  existsb (fun p => (0 <? len (snd p)) && has_magic magic (snd p)) mimeSignatures.

Definition verifyMIMEType (filename declaredType magic : string) : option Decision :=
  if slen magic =? 0 then None
  else if known_magic magic then None
  else if existsb (fun ie => HasSuffix (ToLower filename) ie) imageExtensions then
    if negb (known_magic magic)
    then Some (decision ActionBlock "UPL002" "MIME Type Mismatch" "high" 70
                 (Sprintf "file %s declared as %s but magic bytes mismatch" [AStr filename; AStr declaredType]))
    else None
  else None.

Definition detectExecutable (filename magic : string) : option Decision :=
  if among executableExtensions (extension filename)
  then Some (decision ActionBlock "UPL003" "Executable Upload Blocked" "high" 80
               (Sprintf "executable file upload blocked: %s" [AStr filename]))
  else if existsb (has_magic magic) executableMagic
  then Some (decision ActionBlock "UPL004" "Executable Magic Bytes" "high" 80
               (Sprintf "executable magic bytes detected in %s" [AStr filename]))
  else None.

Definition detectArchiveBomb (filename magic : string) (bodySize : Z) : option Decision :=
  if among archiveExtensions (extension filename)
  then Some (decision ActionMonitor "UPL005" "Archive Upload" "low" 10 (Sprintf "archive upload: %s" [AStr filename]))
  else if existsb (fun sig => has_magic magic sig && (50 * 1024 * 1024 <? bodySize) && (slen magic <? 512)) archiveMagic
  then Some (decision ActionBlock "UPL006" "Archive Bomb Detected" "high" 75
               (Sprintf "potential archive bomb: body size %d bytes with only %d bytes inspected" [AInt bodySize; AInt 512]))
  else None.

Definition detectImagePolyglot (filename magic : string) : option Decision :=
  if negb (among imageExtensions (extension filename)) then None
  else if slen magic <? 4 then None
  else if MatchString scriptPattern magic
  then Some (decision ActionBlock "UPL007" "Image Polyglot Detected" "critical" 90
               (Sprintf "image polyglot with script content in %s" [AStr filename]))
  else None.

Definition inspectPart (part : Part) (bodySize : Z) : option Decision :=
  let filename := FileName part in
  if String.eqb filename "" then None
  else
    let buf := Read 512 part in
    verifyMIMEType filename (part_type part) buf <||> detectExecutable filename buf
    <||> detectArchiveBomb filename buf bodySize <||> detectImagePolyglot filename buf.

(** The position is found in the lower-case text and used in the original;
    [contentType[idx+9:]] panics beyond its end. *)
Definition extractBoundary (contentType : string) : outcome string :=
  match Index (ToLower contentType) "boundary=" with
  | None => Returns ""
  | Some idx =>
      if (String.length contentType <? idx + 9)%nat then Panics
      else
        let boundary := TrimPrefix (drop_str (idx + 9) contentType) dq in
        Returns (match Index boundary dq with Some i => take_str i boundary | None => boundary end)
  end.

(** What the [Content-Length] header says; 0 without one or with another
    text. *)
Definition declared_length (ctx : RequestContext) : Z := default 0 (ParseInt (header ctx "Content-Length")).

Definition Inspect (u : FileUploadSecurity) (ctx : RequestContext) : outcome (option Decision) :=
  let contentType := header ctx "Content-Type" in
  if negb (HasPrefix contentType "multipart/form-data") then Returns None
  else
    let contentLength := declared_length ctx in
    let limit := getEndpointLimit u (Path ctx) in
    if limit <? contentLength
    then Returns (Some (decision ActionBlock "UPL001" "File Size Exceeded" "high" 65
                          (Sprintf "file size %d exceeds limit %d for %s" [AInt contentLength; AInt limit; AStr (Path ctx)])))
    else if body_len ctx =? 0 then Returns None
    else
      let! boundary := extractBoundary contentType in
      if String.eqb boundary "" then Returns None
      else Returns (first_some (fun part => inspectPart (Close part) (body_len ctx)) (parts boundary (body_str ctx))).

(** ** What is looked at *)

(** The decision on a part by the extension of its name. *)
Definition judge_name (name : string) : option Decision :=
  if String.eqb name "" then None
  else if among executableExtensions (extension name)
  then Some (decision ActionBlock "UPL003" "Executable Upload Blocked" "high" 80
               (Sprintf "executable file upload blocked: %s" [AStr name]))
  else if among archiveExtensions (extension name)
  then Some (decision ActionMonitor "UPL005" "Archive Upload" "low" 10 (Sprintf "archive upload: %s" [AStr name]))
  else None.

Lemma take_str_empty n : take_str n "" = "".
Proof. by destruct n. Qed.

(** A closed part is judged by its name: nothing is left to read. *)
Lemma inspectPart_closed part size : inspectPart (Close part) size = judge_name (FileName part).
Proof.
  unfold inspectPart, judge_name, Read. cbn [Close FileName rest]. rewrite take_str_empty.
  destruct (String.eqb (FileName part) ""); [done|].
  unfold verifyMIMEType, detectExecutable, detectArchiveBomb, detectImagePolyglot.
  change (slen "") with 0. cbn [Z.eqb Z.ltb Z.compare or_else].
  destruct (among executableExtensions _); [done|].
  replace (existsb (has_magic "") executableMagic) with false by reflexivity. cbn [or_else].
  destruct (among archiveExtensions _); [done|].
  replace (existsb _ archiveMagic) with false by reflexivity. cbn [or_else].
  by destruct (negb _).
Qed.

Lemma Index_length s sub i : Index s sub = Some i -> (i + String.length sub <= String.length s)%nat.
Proof.
  revert i. induction s as [|c s IH]; intros i; cbn [Index].
  - destruct (String.prefix sub "") eqn:E; [|done]. intros [= <-]. apply prefix_spec in E as (t & E). destruct sub; [cbn; lia|done].
  - destruct (String.prefix sub (String c s)) eqn:E.
    + intros [= <-]. apply prefix_spec in E as (t & ->). pose proof (slen_app sub t). pose proof (slen_nonneg t). unfold slen in *. lia.
    + destruct (Index s sub); [|done]. intros [= <-]. specialize (IH _ eq_refl). cbn [String.length]. lia.
Qed.

Lemma length_smap f s : String.length (smap f s) = String.length s.
Proof. induction s; [done|]. cbn. by f_equal. Qed.

Lemma first_some_map {A B C} (g : A -> B) (f : B -> option C) l : first_some (fun a => f (g a)) l = first_some f (map g l).
Proof. induction l as [|a l IH]; [done|]. cbn. by rewrite IH. Qed.

Lemma judge_name_rules name d : judge_name name = Some d -> RuleID d = "UPL003" \/ RuleID d = "UPL005".
Proof. unfold judge_name. intros E. go_cases; auto. Qed.

(** [C34] Each part is closed, which reads it to its end, before its content is
    looked at. So an upload within its limit is judged by the names of its files
    alone: the answer is the first decision on a name, by its extension,
    whatever the files hold. The rules on declared types, magic numbers, archive
    bombs and scripts in images never fire, and an archive, which is only
    reported, hides every executable after it. *)
Theorem upload_judges_names u ctx body boundary :
  HasPrefix (header ctx "Content-Type") "multipart/form-data" = true ->
  declared_length ctx <= getEndpointLimit u (Path ctx) ->
  Body ctx = Some body -> body <> "" ->
  extractBoundary (header ctx "Content-Type") = Returns boundary -> boundary <> "" ->
  let names := map FileName (parts boundary body) in
  Inspect u ctx = Returns (first_some judge_name names)
  /\ (forall d, Inspect u ctx = Returns (Some d) -> RuleID d = "UPL003" \/ RuleID d = "UPL005")
  /\ (forall name rest, names = name :: rest -> among archiveExtensions (extension name) = true ->
      exists d, Inspect u ctx = Returns (Some d) /\ d_Action d = ActionMonitor).
Proof.
  intros Hct Hl Hb Hne Hbd Hbne names.
  assert (Inspect u ctx = Returns (first_some judge_name names)) as E.
  { unfold Inspect, body_len, body_str. rewrite Hct, Hb, Hbd. cbn [negb out_bind from_option id].
    rewrite (proj2 (Z.ltb_ge _ _)) by done.
    assert (slen body <> 0) as Hs by (destruct body; [done|]; rewrite slen_cons; pose proof (slen_nonneg body); lia).
    rewrite (proj2 (Z.eqb_neq _ _) Hs), (proj2 (String.eqb_neq _ _) Hbne).
    unfold names. rewrite <- first_some_map. f_equal.
    induction (parts boundary body) as [|p l IH]; [done|]. cbn [first_some]. by rewrite inspectPart_closed, IH. }
  rewrite E. split_and!; [done| |].
  - intros d [= (name & _ & Hd)%first_some_Some]. by eapply judge_name_rules.
  - intros name l Hn Ha. rewrite Hn. cbn [first_some]. unfold judge_name at 1.
    assert (among executableExtensions (extension name) = false) as ->.
    { unfold among in *. apply existsb_exists in Ha as (e & He & ->%String.eqb_eq).
      repeat (destruct He as [<-|He]; [reflexivity|]). done. }
    rewrite Ha. destruct (String.eqb_spec name "") as [->|]; [done|]. eexists. split; reflexivity.
Qed.

(** The boundary is looked for in the lower-case text and cut out of the
    original at the same place. The inspector panics exactly when lower-casing
    makes the text before the boundary grow by more than what follows it; header
    values of ASCII characters never do that. *)
Theorem boundary_panics_iff u ctx idx :
  HasPrefix (header ctx "Content-Type") "multipart/form-data" = true ->
  declared_length ctx <= getEndpointLimit u (Path ctx) -> body_len ctx <> 0 ->
  Index (ToLower (header ctx "Content-Type")) "boundary=" = Some idx ->
  (Inspect u ctx = Panics <-> (String.length (header ctx "Content-Type") < idx + 9)%nat)
  /\ (is_ascii (header ctx "Content-Type") = true -> Inspect u ctx <> Panics).
Proof.
  intros Hct Hl Hb Hi.
  assert (Inspect u ctx = Panics <-> (String.length (header ctx "Content-Type") < idx + 9)%nat) as E.
  { unfold Inspect, extractBoundary. rewrite Hct, Hi. cbn [negb].
    rewrite (proj2 (Z.ltb_ge _ _)), (proj2 (Z.eqb_neq _ _)) by done.
    destruct (Nat.ltb_spec (String.length (header ctx "Content-Type")) (idx + 9)); cbn [out_bind]; [done|].
    split; [|lia]. by case_match. }
  split; [done|]. intros Ha. rewrite E. apply Index_length in Hi. unfold ToLower in Hi. rewrite Ha, length_smap in Hi.
  change (String.length "boundary=") with 9%nat in Hi. lia.
Qed.

End upload.

(** ** Witnesses *)

(** A reader for one part whose name follows the boundary, up to a line
    break. *)
#[local] Instance one_part : MultipartReader :=
  {| parts := fun b body => [mkPart (List.nth 0 (Split (List.nth 1 (Split body b) "") "|") "") "" body]; read_size := fun _ => 512%nat |}.

(** Ⱥ (U+023A), two bytes, in lower case is ⱥ (U+2C65), three bytes. *)
Definition unicode_a_stroke : Unicode :=
  {| rune_lower := fun r => if r =? 570 then 11365 else ascii_rune_lower r; rune_upper := ascii_rune_upper;
     rune_fold := ascii_rune_lower |}.

Definition upload_of (contentType body : string) : RequestContext :=
  mkContext None None "" "203.0.113.9" "" "/upload" "POST" {[ "Content-Type" := contentType ]} ∅ ∅ ∅ (Some body) "" "" "" "" "" 0
    f0 f0 [] false false 0 (lit "") "" "" "" "".

(** A program under the name of an image passes. *)
Lemma upload_judges_names_witness :
  Inspect (H := unicode_ascii) (NewFileUploadSecurity false)
    (upload_of "multipart/form-data; boundary=XX" ("XXcat.png|" ++ of_bytes [127; 69; 76; 70])) = Returns None.
Proof.
  refine (proj1 (upload_judges_names (H := unicode_ascii) (NewFileUploadSecurity false)
            (upload_of "multipart/form-data; boundary=XX" ("XXcat.png|" ++ of_bytes [127; 69; 76; 70])) _ "XX" _ _ eq_refl _ _ _));
    by vm_compute.
Defined.

Definition stroke_header : string :=
  "multipart/form-data; " ++ of_bytes [200; 186; 200; 186] ++ " boundary=x".

Lemma boundary_panics_iff_witness :
  Inspect (H := unicode_a_stroke) (NewFileUploadSecurity false) (upload_of stroke_header "x") = Panics.
Proof.
  refine (proj2 (proj1 (boundary_panics_iff (H := unicode_a_stroke) (NewFileUploadSecurity false) (upload_of stroke_header "x") 28 _ _ _ _)) _);
    [by vm_compute..|]. vm_compute. lia.
Defined.
