(* ===== verification/Rewrite.v ===== *)
(** * Rewrite rules: [internal/engine/rewrite.go]

    The manager, the three kinds of action, and the loading of the configured
    rules in [cmd/proxy/main.go]. No action fails, so that the methods give the
    context alone; writing a header of a response without a header map panics.
    A compiled expression is kept as its pattern; replacing by a template with
    [$], which names groups, is the class [Templates]. *)

From S2P Require Import Prelude Float64 GoStr Regexp Types.
From S2P Require Config.

#[local] Open Scope string_scope.
#[local] Open Scope Z_scope.

Record RewriteCondition : Type := mkCondition { Field : string; c_Name : string; Operator : string; c_Value : string }.

Inductive RewriteAction : Type :=
| HeaderAction (Operation Name Value : string)
| BodyAction (Operation Pattern Value : string) (Regex : option string)
| URLAction (Operation URL : string) (Code : Z).

Record RewriteRule : Type := mkRule { Name : string; Conditions : list RewriteCondition; Actions : list RewriteAction }.
Definition RewriteManager : Type := list RewriteRule.
Definition NewRewriteManager : RewriteManager := [].
Definition AddRule (rule : RewriteRule) (m : RewriteManager) : RewriteManager := (m ++ [rule])%list.

(** The fields of [ResponseContext] the actions use; [None] is a nil map. *)
Record ResponseContext : Type := mkResponseContext { rs_Headers : option (gmap string string); rs_Body : option string }.

(** [pattern], source, template. *)
Class Templates : Type := expand_all : string -> string -> string -> string.

Definition set_headers (h : gmap string string) (c : RequestContext) : RequestContext :=
  mkContext (Request c) (Response c) (Site c) (RealIP c) (UserAgent c) (Path c) (Method c) h (Cookies c) (QueryParams c)
    (FormParams c) (Body c) (ContentType c) (SessionID c) (UserID c) (APIKey c) (Country c) (ASN c) (BotScore c)
    (ThreatScore c) (Decisions c) (IsBot c) (IsKnownAttack c) (StartedAt c) (RequestID c) (Host c) (TLSVersion c)
    (TLSCipherSuite c) (JA3Hash c).
Definition set_body (b : option string) (c : RequestContext) : RequestContext :=
  mkContext (Request c) (Response c) (Site c) (RealIP c) (UserAgent c) (Path c) (Method c) (Headers c) (Cookies c)
    (QueryParams c) (FormParams c) b (ContentType c) (SessionID c) (UserID c) (APIKey c) (Country c) (ASN c) (BotScore c)
    (ThreatScore c) (Decisions c) (IsBot c) (IsKnownAttack c) (StartedAt c) (RequestID c) (Host c) (TLSVersion c)
    (TLSCipherSuite c) (JA3Hash c).

Section rewrite.
Context `{Unicode} `{Templates}.

(** [regexp.Compile], which only "regex_replace" calls. *)
Definition NewBodyAction (op pattern value : string) : result text RewriteAction :=
  if String.eqb op "regex_replace"
  then if compiles pattern then Ok (BodyAction op pattern value (Some pattern)) else Err (lit "invalid regex: %w")
  else Ok (BodyAction op pattern value None).

(** A slice built by appending: nil when nothing was appended. *)
Definition appended (s : string) : option string := if String.eqb s "" then None else Some s.

(** [bytes.ReplaceAll]: an empty pattern matches before each rune and at the
    end; without a match the body is copied. *)
Definition replace_bytes (body : option string) (old new : string) : option string :=
  let s := default "" body in
  if String.eqb old ""
  then Some (of_bytes (flat_map (fun seg => bytes_of new ++ snd seg)%list (rune_segments s)) ++ new)
  else if Contains s old then Some (ReplaceAll s old new) else appended s.

(** [Regexp.ReplaceAll]. *)
Definition regex_replace (body : option string) (pattern value : string) : option string :=
  let s := default "" body in
  appended (if Contains value "$" then expand_all pattern s value else ReplaceAllString pattern s value).

(** [BodyAction.ApplyRequest] and [ApplyResponse] on the body. *)
Definition apply_body (op pattern value : string) (regex : option string) (body : option string) : option string :=
  if String.eqb op "replace" then replace_bytes body pattern value
  else if String.eqb op "regex_replace"
  then match regex with Some re => regex_replace body re value | None => body end
  else body.

Definition header_request (op name value : string) (h : gmap string string) : gmap string string :=
  if String.eqb op "add" || String.eqb op "set" then <[name := value]> h
  else if String.eqb op "remove" then delete name h
  else if String.eqb op "rename"
  then match h !! name with Some v => <[value := v]> (delete name h) | None => h end
  else h.

Definition expandURL (url : string) (ctx : RequestContext) : string :=
  ReplaceAll (ReplaceAll (ReplaceAll (ReplaceAll url "{{.path}}" (Path ctx)) "{{.ip}}" (RealIP ctx)) "{{.host}}" (Host ctx))
    "{{.method}}" (Method ctx).

Definition action_request (a : RewriteAction) (ctx : RequestContext) : RequestContext :=
  match a with
  | HeaderAction op name value => set_headers (header_request op name value (Headers ctx)) ctx
  | BodyAction op pattern value regex => set_body (apply_body op pattern value regex (Body ctx)) ctx
  | URLAction op url _ =>
      if String.eqb op "redirect" then set_headers (<["Location" := expandURL url ctx]> (Headers ctx)) ctx else ctx
  end.

Definition action_response (a : RewriteAction) (r : ResponseContext) : outcome ResponseContext :=
  match a with
  | HeaderAction op name value =>
      if String.eqb op "add" || String.eqb op "set"
      then match rs_Headers r with
           | Some h => Returns (mkResponseContext (Some (<[name := value]> h)) (rs_Body r))
           | None => Panics
           end
      else if String.eqb op "remove" then Returns (mkResponseContext (delete name <$> rs_Headers r) (rs_Body r))
      else Returns r
  | BodyAction op pattern value regex =>
      Returns (mkResponseContext (rs_Headers r) (apply_body op pattern value regex (rs_Body r)))
  | URLAction _ _ _ => Returns r
  end.

(** ** Conditions *)

Definition matchValue (value : string) (cond : RewriteCondition) : bool :=
  let op := Operator cond in
  if String.eqb op "equals" then String.eqb value (c_Value cond)
  else if String.eqb op "contains" then Contains value (c_Value cond)
  else if String.eqb op "prefix" then HasPrefix value (c_Value cond)
  else if String.eqb op "suffix" then HasSuffix value (c_Value cond)
  else if String.eqb op "regex" then MatchString (c_Value cond) value
  else if String.eqb op "exists" then negb (String.eqb value "")
  else if String.eqb op "not_exists" || String.eqb op "!exists" then String.eqb value ""
  else false.

Definition matchCondition (cond : RewriteCondition) (ctx : RequestContext) : bool :=
  let f := Field cond in
  if String.eqb f "path" then matchValue (Path ctx) cond
  else if String.eqb f "headers" then
    match Headers ctx !! c_Name cond with
    | Some v => matchValue v cond
    | None => String.eqb (Operator cond) "not_exists" || String.eqb (Operator cond) "!exists"
    end
  else if String.eqb f "query" then
    match QueryParams ctx !! c_Name cond with
    | Some (v :: _) => matchValue v cond
    | _ => String.eqb (Operator cond) "not_exists"
    end
  else if String.eqb f "method" then matchValue (Method ctx) cond
  else if String.eqb f "ip" then matchValue (RealIP ctx) cond
  else false.

Definition matchConditions (conds : list RewriteCondition) (ctx : RequestContext) : bool :=
  forallb (fun c => matchCondition c ctx) conds.

(** ** The manager *)

Definition actions_request (l : list RewriteAction) (ctx : RequestContext) : RequestContext :=
  fold_left (fun ctx a => action_request a ctx) l ctx.
Definition rule_request (ctx : RequestContext) (rule : RewriteRule) : RequestContext :=
  if matchConditions (Conditions rule) ctx then actions_request (Actions rule) ctx else ctx.
Definition ApplyRequest (m : RewriteManager) (ctx : RequestContext) : RequestContext := fold_left rule_request m ctx.

Fixpoint actions_response (l : list RewriteAction) (r : ResponseContext) : outcome ResponseContext :=
  match l with [] => Returns r | a :: l => let! r := action_response a r in actions_response l r end.
Fixpoint ApplyResponse (m : RewriteManager) (r : ResponseContext) : outcome ResponseContext :=
  match m with [] => Returns r | rule :: m => let! r := actions_response (Actions rule) r in ApplyResponse m r end.

(** ** Configured rules: [main] of [cmd/proxy/main.go] *)

Definition engineRewriteConditions (conds : list Config.RewriteConditionConfig.t) : list RewriteCondition :=
  map (fun c => mkCondition (Config.RewriteConditionConfig.Field c) (Config.RewriteConditionConfig.Name c)
                  (Config.RewriteConditionConfig.Operator c) (Config.RewriteConditionConfig.Value c)) conds.

(** The body action is a literal, without [NewBodyAction]: its [Regex] is
    nil. *)
Definition engine_action (a : Config.RewriteActionConfig.t) : option RewriteAction :=
  let ty := Config.RewriteActionConfig.Type_ a in
  if String.eqb ty "set_header"
  then Some (HeaderAction "set" (Config.RewriteActionConfig.Name a) (Config.RewriteActionConfig.Value a))
  else if String.eqb ty "remove_header" then Some (HeaderAction "remove" (Config.RewriteActionConfig.Name a) "")
  else if String.eqb ty "set_body"
  then Some (BodyAction (Config.RewriteActionConfig.Op a) (Config.RewriteActionConfig.Pattern a)
               (Config.RewriteActionConfig.Value a) None)
  else None.
Definition engineRewriteActions (actions : list Config.RewriteActionConfig.t) : list RewriteAction := omap engine_action actions.

Definition load_rule (m : RewriteManager) (r : Config.RewriteRuleConfig.t) : RewriteManager :=
  if Config.RewriteRuleConfig.Enabled r
  then AddRule (mkRule (Config.RewriteRuleConfig.Name r) (engineRewriteConditions (Config.RewriteRuleConfig.Conditions r))
                  (engineRewriteActions (Config.RewriteRuleConfig.Actions r))) m
  else m.
Definition load (cfg : Config.Config.t) : RewriteManager := fold_left load_rule (Config.Config.RewriteRules cfg) NewRewriteManager.

(** ** Lemmas *)

(** An action that changes something for some context: not a body action
    that neither replaces a text nor has a compiled expression. *)
Definition live (a : RewriteAction) : bool :=
  match a with BodyAction op _ _ None => String.eqb op "replace" | _ => true end.

Lemma set_body_id ctx : set_body (Body ctx) ctx = ctx.
Proof. by destruct ctx. Qed.

Lemma dead_request a ctx : live a = false -> action_request a ctx = ctx.
Proof.
  destruct a as [| op p v [re|] |]; try done. intros Hl. unfold live in Hl. cbn [action_request]. unfold apply_body. rewrite Hl.
  destruct (String.eqb op "regex_replace"); apply set_body_id.
Qed.

Lemma dead_response a r : live a = false -> action_response a r = Returns r.
Proof.
  destruct a as [| op p v [re|] |]; try done. intros Hl. unfold live in Hl. cbn [action_response]. unfold apply_body. rewrite Hl.
  destruct r, (String.eqb op "regex_replace"); done.
Qed.

(** What the configuration says a rule does, by its action's type: the actions
    [HeaderAction] and [BodyAction] with a plain replacement. *)
Definition effective (a : RewriteAction) : Prop :=
  match a with
  | HeaderAction op _ _ => op = "set" \/ op = "remove"
  | BodyAction op _ _ re => op = "replace" /\ re = None
  | URLAction _ _ _ => False
  end.
Definition strip (rule : RewriteRule) : RewriteRule := mkRule (Name rule) (Conditions rule) (filter (fun a => live a = true) (Actions rule)).

Lemma loaded_actions cfg rule a : rule ∈ load cfg -> a ∈ Actions rule -> live a = true -> effective a.
Proof.
  unfold load. assert (forall a, a ∈ Actions rule -> live a = true -> rule ∈ NewRewriteManager -> effective a) as Hbase.
  { intros ? ? ? Hr. by apply elem_of_nil in Hr. }
  revert Hbase. generalize NewRewriteManager.
  induction (Config.Config.RewriteRules cfg) as [|r l IH]; intros m Hm Hr Ha Hl; [by eapply Hm|].
  apply (IH (load_rule m r)); [|done..]. intros b Hb Hlb. unfold load_rule.
  destruct (Config.RewriteRuleConfig.Enabled r); [|by apply Hm]. unfold AddRule. intros [?|Hn]%elem_of_app; [by apply Hm|].
  apply list_elem_of_singleton in Hn. subst rule. cbn [Actions] in Hb. apply list_elem_of_omap in Hb as (c & _ & Hc).
  unfold engine_action in Hc. go_cases; [by left|by right|]. cbn [live] in Hlb. by apply String.eqb_eq in Hlb.
Qed.

Lemma actions_request_strip l ctx : actions_request (filter (fun a => live a = true) l) ctx = actions_request l ctx.
Proof.
  unfold actions_request. revert ctx. induction l as [|a l IH]; intros ctx; [done|]. rewrite filter_cons. cbn [fold_left].
  case_decide as Hl; cbn [fold_left]; [apply IH|]. rewrite dead_request by (by apply not_true_is_false). apply IH.
Qed.

Lemma actions_response_strip l r : actions_response (filter (fun a => live a = true) l) r = actions_response l r.
Proof.
  revert r. induction l as [|a l IH]; intros r; [done|]. rewrite filter_cons. case_decide as Hl; cbn [actions_response].
  - destruct (action_response a r); cbn [out_bind]; [apply IH|done].
  - rewrite dead_response by (by apply not_true_is_false). cbn [out_bind]. apply IH.
Qed.

(** [C31] Of the configured rewrite rules exactly the settings and removals of
    headers and the plain replacements of body text have an effect: dropping
    everything else from the loaded rules, the regular expressions in
    particular, changes neither a request nor a response, and what is left holds
    no other action. *)
Theorem configured_rewrites cfg :
  let m := load cfg in
  let m' := strip <$> m in
  (forall ctx, ApplyRequest m' ctx = ApplyRequest m ctx) /\ (forall r, ApplyResponse m' r = ApplyResponse m r)
  /\ Forall (fun rule => Forall effective (Actions rule)) m'.
Proof.
  intros m m'. split_and!.
  - unfold m', ApplyRequest. generalize m. intros l. induction l as [|rule l IH]; intros ctx; [done|]. cbn [fmap list_fmap fold_left].
    rewrite IH. f_equal. unfold rule_request. cbn [strip Conditions Actions]. by rewrite actions_request_strip.
  - unfold m'. generalize m. intros l. induction l as [|rule l IH]; intros r; [done|]. cbn [fmap list_fmap ApplyResponse].
    cbn [strip Actions]. rewrite actions_response_strip. destruct (actions_response (Actions rule) r); [apply IH|done].
  - unfold m'. apply Forall_fmap, Forall_forall. intros rule Hr. apply Forall_forall. intros a [Hl Ha]%list_elem_of_filter.
    by apply (loaded_actions cfg rule).
Qed.

(** The conditions of a rule bind requests only. A request that fails one
    of a rule's conditions is left alone by the rule; every response is rewritten
    by its actions, whatever request it answers, as if it had no conditions. *)
Theorem conditions_bind_requests_only m rule cond ctx r :
  cond ∈ Conditions rule -> matchCondition cond ctx = false ->
  ApplyRequest (rule :: m) ctx = ApplyRequest m ctx
  /\ ApplyResponse (rule :: m) r = ApplyResponse (mkRule (Name rule) [] (Actions rule) :: m) r.
Proof.
  intros Hc Hm. split; [|done]. unfold ApplyRequest. cbn [fold_left]. f_equal. unfold rule_request, matchConditions.
  assert (forallb (fun c => matchCondition c ctx) (Conditions rule) = false) as ->; [|done].
  apply not_true_is_false. intros Hf. rewrite forallb_forall in Hf. apply list_elem_of_In, Hf in Hc. congruence.
Qed.

End rewrite.

(** ** Witness *)

#[local] Existing Instance unicode_ascii.
#[local] Instance no_templates : Templates := fun _ s _ => s.

Definition admin_only : RewriteRule :=
  mkRule "no-cache" [mkCondition "path" "" "prefix" "/admin"] [HeaderAction "set" "Cache-Control" "no-store"; BodyAction "replace" "internal" "***" None].
Definition index_request : RequestContext :=
  mkContext None None "" "203.0.113.9" "" "/index.html" "GET" ∅ ∅ ∅ ∅ (Some "internal") "" "" "" "" "" 0 f0 f0 [] false false 0
    (lit "") "" "" "" "".

Lemma conditions_bind_requests_only_witness :
  ApplyRequest [admin_only] index_request = ApplyRequest [] index_request
  /\ ApplyResponse [admin_only] (mkResponseContext (Some ∅) (Some "an internal page"))
     = Returns (mkResponseContext (Some {[ "Cache-Control" := "no-store" ]}) (Some "an *** page")).
Proof.
  destruct (conditions_bind_requests_only [] admin_only (mkCondition "path" "" "prefix" "/admin") index_request
              (mkResponseContext (Some ∅) (Some "an internal page"))) as [E1 E2].
  - by left.
  - reflexivity.
  - split; [exact E1|]. rewrite E2. vm_compute. reflexivity.
Defined.

Example renamed_header :
  Headers (ApplyRequest [mkRule "" [] [HeaderAction "rename" "X-A" "X-B"]] (set_headers {[ "X-A" := "1" ]} index_request)) !! "X-B" = Some "1".
Proof. reflexivity. Qed.
Example empty_pattern : replace_bytes (Some "ab") "" "-" = Some "-a-b-".
Proof. reflexivity. Qed.
