(* ===== verification/Ja3.v ===== *)
(** * TLS fingerprints: [internal/engine/ja3.go]

    The inspector, which counts fingerprints of the negotiated version and
    suite, the parser of raw client hellos and the listener's cache. A request's
    TLS state is an argument, [http_Request] does not hold it. The inspector's
    two critical sections run without another request's in between. *)

From S2P Require Import Prelude Float64 GoStr Crypto Encoding Types.

#[local] Open Scope string_scope.
#[local] Open Scope Z_scope.

Record ConnectionState : Type := mkState { Version : Z; CipherSuite : Z }.

(** [r.TLS]. *)
Class TlsState : Type := tls_of : http_Request -> option ConnectionState.

Definition badHashes : gmap string string :=
  list_to_map
    [("e3b0c44298fc1c149afbf4c8996fb924", "sqlmap"); ("d41d8cd98f00b204e9800998ecf8427e", "nmap");
     ("a7ffc6f8bf1ed76651c14756a061d662", "masscan"); ("900150983cd24fb0d6963f7d28e17f72", "curl/default");
     ("098f6bcd4621d373cade4e832627b4f6", "python-requests"); ("5d41402abc4b2a76b9719d911017c592", "go-http-client");
     ("7d793037a0760186574b0282f2f435e7", "zgrab"); ("e2fc714c4727ee9395f324cd2e7f331f", "burpsuite")].

Record JA3Inspector : Type := mkInspector { devMode : bool; unknown : gmap string Z; knownGood : gmap string bool }.
Definition NewJA3Inspector (devMode : bool) : JA3Inspector := mkInspector devMode ∅ ∅.

Fixpoint Join (l : list string) (sep : string) : string :=
  match l with [] => "" | [s] => s | s :: l => s ++ sep ++ Join l sep end.

Definition computeJA3FromState (state : option ConnectionState) : string :=
  match state with
  | None => ""
  | Some st => MD5.hex_sum (Join [Itoa (Version st); Itoa (CipherSuite st)] ",")
  end.

Definition set_ja3 (hash : string) (c : RequestContext) : RequestContext :=
  mkContext (Request c) (Response c) (Site c) (RealIP c) (UserAgent c) (Path c) (Method c) (Headers c) (Cookies c)
    (QueryParams c) (FormParams c) (Body c) (ContentType c) (SessionID c) (UserID c) (APIKey c) (Country c) (ASN c) (BotScore c)
    (ThreatScore c) (Decisions c) (IsBot c) (IsKnownAttack c) (StartedAt c) (RequestID c) (Host c) (TLSVersion c)
    (TLSCipherSuite c) hash.

(** The critical section that counts an unknown fingerprint. *)
Definition count (hash : string) (j : JA3Inspector) : Z * JA3Inspector :=
  let n := incr (lookup_default 0 (unknown j) hash) in
  (n, if 100 <=? n then mkInspector (devMode j) (delete hash (unknown j)) (<[hash := true]> (knownGood j))
      else mkInspector (devMode j) (<[hash := n]> (unknown j)) (knownGood j)).

Definition uncommon (hash : string) (n : Z) : option Decision :=
  if (5 <? n) && (n <? 100)
  then Some (decision ActionMonitor "JA3_002" "Uncommon TLS Fingerprint" "low" 15
               (Sprintf "uncommon JA3 hash %s seen %d times" [AStr hash; AInt n]))
  else None.

Definition check_hash (hash : string) (j : JA3Inspector) : option Decision * JA3Inspector :=
  match badHashes !! hash with
  | Some label =>
      (Some (decision ActionBlock "JA3_001" "Known Bad TLS Fingerprint" "high" 80
               (Sprintf "JA3 hash %s matches known scanner/bot: %s" [AStr hash; AStr label])), j)
  | None =>
      if lookup_default false (knownGood j) hash then (None, j)
      else let '(n, j) := count hash j in (uncommon hash n, j)
  end.

(** [ctx.Request.TLS] is read when the version is set. *)
Definition Inspect `{TlsState} (ctx : RequestContext) (j : JA3Inspector)
    : outcome (option Decision * RequestContext * JA3Inspector) :=
  if String.eqb (TLSVersion ctx) "" then Returns (None, ctx, j)
  else match Request ctx with
       | None => Panics
       | Some r =>
           match tls_of r with
           | None => Returns (None, ctx, j)
           | Some st =>
               let hash := computeJA3FromState (Some st) in
               let '(d, j) := check_hash hash j in
               Returns (d, set_ja3 hash ctx, j)
           end
       end.

(** ** The listener's cache *)

Record ja3CacheEntry : Type := mkEntry { hash : string; createdAt : Z }.
Definition GetJA3 (now : Z) (addr : string) (cache : gmap string ja3CacheEntry)
    : option string * gmap string ja3CacheEntry :=
  match cache !! addr with
  | None => (None, cache)
  | Some e => if 30 * Second <? time_sub now (createdAt e) then (None, delete addr cache) else (Some (hash e), cache)
  end.

(** ** Raw client hellos *)

Definition word (a b : Z) : Z := Z.lor (Z.shiftl a 8) b.

(** [for i := 0; i < n && pos+i+1 < bound; i += 2]: the words of the bytes
    between [pos] and [bound]. *)
Fixpoint words (n : Z) (l : list Z) : list string :=
  match l with
  | a :: b :: l => if 0 <? n then Itoa (word a b) :: words (n - 2) l else []
  | _ => []
  end.

(** The loop over the extensions, in the bytes up to [end]; [skip] are the
    bytes of the present extension still to come. *)
Record extensions : Type := mkExtensions { types : list string; curves : list string; ecFormats : list string }.
Definition extension_of (ty len : Z) (rest : list Z) : extensions :=
  mkExtensions [Itoa ty]
    (match rest with a :: b :: rest => if (ty =? 10) && (2 <=? len) then words (word a b) rest else [] | _ => [] end)
    (match rest with _ :: _ => if (ty =? 11) && (1 <=? len) then Itoa <$> take (Z.to_nat len) (drop 1 rest) else [] | _ => [] end).
Fixpoint scan_extensions (skip : nat) (l : list Z) : extensions :=
  match l with
  | [] => mkExtensions [] [] []
  | x :: l' =>
      match skip with
      | S k => scan_extensions k l'
      | O =>
          match l' with
          | b :: c :: d :: rest =>
              let e := extension_of (word x b) (word c d) rest in
              let es := scan_extensions (3 + Z.to_nat (word c d)) l' in
              mkExtensions (types e ++ types es) (curves e ++ curves es) (ecFormats e ++ ecFormats es)
          | _ => mkExtensions [] [] []
          end
      end
  end.

Definition byte (data : list Z) (i : nat) : Z := nth i data 0.
Definition word_at (data : list Z) (i : nat) : Z := word (byte data i) (byte data (i + 1)).
Definition digest (fields : list string) : string := MD5.hex_sum (Join fields ",").

(** From the compression methods on. *)
Definition hash_rest (tlsVer : string) (ciphers : list string) (offset : nat) (data : list Z) : string :=
  if (length data <? offset + 1)%nat then digest [tlsVer; Join ciphers "-"; ""; ""; ""]
  else
    let offset := (offset + 1 + Z.to_nat (byte data offset))%nat in
    let es := if (offset + 2 <=? length data)%nat
              then scan_extensions 0 (take (Z.to_nat (word_at data offset)) (drop (offset + 2) data))
              else mkExtensions [] [] [] in
    digest [tlsVer; Join ciphers "-"; Join (types es) "-"; Join (curves es) "-"; Join (ecFormats es) "-"].

(** The index 44 is read without a check. *)
Definition computeJA3Raw (data : list Z) : outcome string :=
  if (length data <? 5)%nat || negb (byte data 0 =? 22) then Returns ""
  else
    let tlsVer := Itoa (word_at data 1) in
    if (length data <? 6)%nat || (length data <? 5 + 38)%nat || (length data <? 43 + 1)%nat
    then Returns (tlsVer ++ ",,")
    else if (length data <? 45)%nat then Panics
    else
      let cipherLen := word_at data 43 in
      Returns (hash_rest tlsVer (words cipherLen (drop 45 data)) (45 + Z.to_nat cipherLen) data).

(** [computeJA3]: the bytes of one read of at most 517, [None] when it failed;
    the fingerprint is cached for the client's address. *)
Definition computeJA3 (read : option (list Z)) (now : Z) (addr : string) (cache : gmap string ja3CacheEntry)
    : outcome (string * gmap string ja3CacheEntry) :=
  match read with
  | None | Some [] => Returns ("", cache)
  | Some buf =>
      let! h := computeJA3Raw (take 517 buf) in
      Returns (h, if String.eqb h "" then cache else <[addr := mkEntry h now]> cache)
  end.

(** ** Lemmas *)

(** What [crypto/tls] negotiates: TLS 1.0 to 1.3 and its cipher suites. *)
Definition go_versions : list Z := [769; 770; 771; 772].
Definition go_suites : list Z :=
  [5; 10; 47; 53; 60; 156; 157; 49159; 49161; 49162; 49169; 49170; 49171; 49172; 49187; 49191; 49195; 49196; 49199; 49200;
   52392; 52393; 4865; 4866; 4867].
Definition negotiable (st : ConnectionState) : Prop := Version st ∈ go_versions /\ CipherSuite st ∈ go_suites.
Definition fingerprint (st : ConnectionState) : string := computeJA3FromState (Some st).

Lemma fingerprints_good :
  forallb (fun v => forallb (fun s => match badHashes !! fingerprint (mkState v s) with None => true | _ => false end) go_suites)
    go_versions = true.
Proof. vm_compute. reflexivity. Qed.

Lemma negotiable_good st : negotiable st -> badHashes !! fingerprint st = None.
Proof.
  intros [Hv Hs]. pose proof fingerprints_good as Hg. rewrite forallb_forall in Hg.
  apply list_elem_of_In, Hg in Hv. rewrite forallb_forall in Hv. apply list_elem_of_In, Hv in Hs. destruct st. by case_match.
Qed.

Section requests.
Context `{TlsState}.

(** Requests over TLS, one after the other, each with its TLS state. *)
Definition serve (ctx : RequestContext) (j : JA3Inspector) : option Decision * JA3Inspector :=
  match Inspect ctx j with Returns (d, _, j) => (d, j) | Panics => (None, j) end.
Definition run (ps : list (ConnectionState * RequestContext)) (j : JA3Inspector) : JA3Inspector :=
  fold_left (fun j p => snd (serve (snd p) j)) ps j.
Definition over_tls (p : ConnectionState * RequestContext) : Prop :=
  TLSVersion (snd p) <> "" /\ exists r, Request (snd p) = Some r /\ tls_of r = Some (fst p).

Lemma serve_over_tls p j : over_tls p -> serve (snd p) j = check_hash (fingerprint (fst p)) j.
Proof.
  destruct p as [st ctx]. intros (Hv & r & Hr & Ht). unfold serve, Inspect. cbn [fst snd] in *.
  rewrite (proj2 (String.eqb_neq _ _) Hv), Hr, Ht. fold (fingerprint st). by destruct (check_hash (fingerprint st) j).
Qed.

(** After [n] requests with a fingerprint. *)
Definition counted (n : Z) (h : string) (j : JA3Inspector) : Prop :=
  if 100 <=? n then knownGood j !! h = Some true
  else lookup_default false (knownGood j) h = false /\ lookup_default 0 (unknown j) h = n.

Lemma ja3_counted_same n h j : 0 <= n -> badHashes !! h = None -> counted n h j ->
  fst (check_hash h j) = uncommon h (n + 1) /\ counted (n + 1) h (snd (check_hash h j)).
Proof.
  intros Hn Hb. unfold counted, check_hash, count. rewrite Hb. destruct (Z.leb_spec 100 n) as [Hl|Hl].
  - intros Hk. rewrite (proj2 (Z.leb_le 100 (n + 1))) by lia. unfold lookup_default. rewrite Hk. cbn [default from_option id fst snd].
    split; [|done]. unfold uncommon. by rewrite (proj2 (Z.ltb_ge (n + 1) 100)), andb_false_r by lia.
  - intros [Hk Hu]. rewrite Hk, Hu, incr_small by (unfold min64, max64; lia). cbn [fst snd]. split; [done|].
    destruct (Z.leb_spec 100 (n + 1)); cbn [knownGood unknown]; [by rewrite lookup_insert_eq|].
    split; [done|]. unfold lookup_default. by rewrite lookup_insert_eq.
Qed.

Lemma ja3_counted_other n h h' j : h' <> h -> counted n h j -> counted n h (snd (check_hash h' j)).
Proof.
  intros Hne. unfold counted, check_hash, count, lookup_default.
  destruct (badHashes !! h'); [done|]. destruct (default false (knownGood j !! h')); [done|]. cbn [fst snd].
  destruct (100 <=? incr (default 0 (unknown j !! h'))); cbn [knownGood unknown]; rewrite ?lookup_insert_ne, ?lookup_delete_ne by done; done.
Qed.

Lemma counted_run h ps j n :
  0 <= n -> badHashes !! h = None -> Forall over_tls ps -> counted n h j ->
  counted (n + count_of (fun p => String.eqb (fingerprint (fst p)) h) ps) h (run ps j).
Proof.
  intros Hn Hb Ht. revert n j Hn. induction Ht as [|p ps Hp Ht IH]; intros n j Hn Hc.
  - by rewrite count_of_nil, Z.add_0_r.
  - unfold run. cbn [fold_left]. fold (run ps (snd (serve (snd p) j))). rewrite count_of_cons, (serve_over_tls p j Hp).
    destruct (String.eqb_spec (fingerprint (fst p)) h) as [->|Hne].
    + rewrite Z.add_assoc. apply IH; [lia|]. by apply ja3_counted_same.
    + rewrite Z.add_0_l. apply IH; [done|]. by apply ja3_counted_other.
Qed.

(** Connections are told apart by the negotiated version and suite only,
    none of the listed bad fingerprints is that of a version and a suite Go's
    TLS negotiates, and the count never ages: a request over TLS is never
    blocked, and it is reported exactly when between five and ninety-eight
    requests with its version and suite came before it, whoever sent them. *)
Theorem ja3_counts_requests dev ps st ctx :
  Forall over_tls ps -> over_tls (st, ctx) -> negotiable st ->
  let n := 1 + count_of (fun p => String.eqb (fingerprint (fst p)) (fingerprint st)) ps in
  fst (serve ctx (run ps (NewJA3Inspector dev)))
  = (if (5 <? n) && (n <? 100)
     then Some (decision ActionMonitor "JA3_002" "Uncommon TLS Fingerprint" "low" 15
                  (Sprintf "uncommon JA3 hash %s seen %d times" [AStr (fingerprint st); AInt n]))
     else None).
Proof.
  intros Hps Ht Hst n. pose proof (negotiable_good st Hst) as Hb.
  assert (counted 0 (fingerprint st) (NewJA3Inspector dev)) as Hc by done.
  apply (counted_run _ ps) in Hc; [|done..].
  rewrite (serve_over_tls (st, ctx)) by done. cbn [fst].
  apply ja3_counted_same in Hc as [-> _]; [|apply len_nonneg|done]. unfold uncommon, n. by rewrite Z.add_comm, Z.add_0_l.
Qed.

(** The engine's contexts carry no TLS version: the inspector answers
    nothing on any of them, and keeps its state. *)
Theorem contexts_not_fingerprinted now1 now2 r ctx r' j :
  NewRequestContext now1 now2 r = Returns (ctx, r') -> Inspect ctx j = Returns (None, ctx, j).
Proof.
  unfold NewRequestContext. destruct (header_firsts (Header r)); [|done]. cbn [out_bind].
  destruct (read_body (req_Body r)). intros [= <- _]. reflexivity.
Qed.

End requests.

(** Parsing a raw hello panics exactly on 44 bytes of a handshake record,
    for which the length of the suites is read one byte beyond the end. *)
Theorem raw_hello_panics_iff data : computeJA3Raw data = Panics <-> length data = 44%nat /\ byte data 0 = 22.
Proof.
  unfold computeJA3Raw.
  destruct (Nat.ltb_spec (length data) 5), (Z.eqb_spec (byte data 0) 22); cbn [orb negb]; try (split; [done|lia]).
  destruct (Nat.ltb_spec (length data) 6), (Nat.ltb_spec (length data) (5 + 38)), (Nat.ltb_spec (length data) (43 + 1));
    cbn [orb]; try (split; [done|lia]).
  destruct (Nat.ltb_spec (length data) 45); (split; [done || (intros; lia)|]); lia || (intros; lia) || done.
Qed.

Lemma byte_prefix (l k : list Z) i : (i < length l)%nat -> byte (l ++ k) i = byte l i.
Proof. intros Hi. unfold byte. by apply app_nth1. Qed.
Lemma byte_suffix (l k : list Z) i : (length l <= i)%nat -> byte (l ++ k) i = byte k (i - length l).
Proof. intros Hi. unfold byte. by apply app_nth2. Qed.
Lemma word_prefix (l k : list Z) i : (i + 1 < length l)%nat -> word_at (l ++ k) i = word_at l i.
Proof. intros Hi. unfold word_at. by rewrite !byte_prefix by lia. Qed.
Lemma word_suffix (l k : list Z) i : (length l <= i)%nat -> word_at (l ++ k) i = word_at k (i - length l).
Proof. intros Hi. unfold word_at. rewrite !byte_suffix by lia. do 2 f_equal. lia. Qed.

Lemma word_add a b : 0 <= b < 256 -> word a b = a * 256 + b.
Proof. intros Hb. unfold word. by rewrite lor_shiftl. Qed.
Lemma words_zero l : words 0 l = [].
Proof. by destruct l as [|? [|? ?]]. Qed.

(** What the parser makes of a hello without a session id. *)
Definition hello_hash (pre : list Z) (tail : list Z) : string :=
  let es := if (2 <=? length tail)%nat then scan_extensions 0 (take (Z.to_nat (word_at tail 0)) (drop 2 tail))
            else mkExtensions [] [] [] in
  digest [Itoa (word_at pre 1); ""; Join (types es) "-"; Join (curves es) "-"; Join (ecFormats es) "-"].

Lemma hello_closed pre s tail :
  length pre = 43%nat ->
  computeJA3Raw (pre ++ [0; 0; Z.of_nat (length s)] ++ s ++ tail)
  = Returns (if byte pre 0 =? 22 then hello_hash pre tail else "").
Proof.
  intros Hp. set (D := (pre ++ [0; 0; Z.of_nat (length s)] ++ s ++ tail)%list).
  assert (length D = 46 + length s + length tail)%nat as HL by (unfold D; rewrite !length_app, Hp; cbn [length]; lia).
  assert (drop (46 + length s) D = tail) as Hd.
  { unfold D. rewrite !app_assoc. apply drop_app_length'. rewrite !length_app, Hp. cbn [length]. lia. }
  assert (word_at D (46 + length s) = word_at tail 0) as Hw.
  { unfold D. rewrite (app_assoc [_; _; _]), (app_assoc pre).
    rewrite word_suffix; rewrite !length_app, Hp; cbn [length]; [f_equal; lia|lia]. }
  unfold computeJA3Raw. replace (byte D 0) with (byte pre 0) by (symmetry; apply byte_prefix; lia).
  replace (word_at D 1) with (word_at pre 1) by (symmetry; apply word_prefix; lia).
  replace (word_at D 43) with 0 by (unfold D; rewrite word_suffix, Hp by lia; done).
  rewrite !(proj2 (Nat.ltb_ge (length D) _)) by lia. cbn [orb]. destruct (byte pre 0 =? 22); [|done]. cbn [negb].
  rewrite words_zero. f_equal. unfold hash_rest, hello_hash. change (Z.to_nat 0) with 0%nat. rewrite Nat.add_0_r.
  rewrite (proj2 (Nat.ltb_ge (length D) _)) by lia.
  replace (byte D 45) with (Z.of_nat (length s)) by (unfold D; rewrite byte_suffix, Hp by lia; done).
  rewrite Nat2Z.id. replace (45 + 1 + length s)%nat with (46 + length s)%nat by lia. rewrite Hw.
  replace (drop (46 + length s + 2) D) with (drop 2 tail) by (by rewrite <- Hd, drop_drop).
  replace (46 + length s + 2 <=? length D)%nat with (2 <=? length tail)%nat; [done|].
  destruct (Nat.leb_spec 2 (length tail)); symmetry; [apply Nat.leb_le|apply Nat.leb_gt]; lia.
Qed.

(** The parser reads the length of the suites where the session id begins.
    So the suites of a hello without a session id (two bytes per suite, less
    than 256 in all) never enter its fingerprint; and with a session id of 32 bytes everything after
    its first byte, the random rest of the id too, is taken for suites. *)
Theorem raw_hello_skips_suites pre suites suites' tail x rest :
  length pre = 43%nat -> length suites = length suites' ->
  let hello s := (pre ++ [0; 0; Z.of_nat (length s)] ++ s ++ tail)%list in
  computeJA3Raw (hello suites) = computeJA3Raw (hello suites')
  /\ (byte pre 0 = 22 -> 0 <= x < 256 -> (length rest <= 472)%nat ->
      computeJA3Raw (pre ++ [32; x] ++ rest)
      = Returns (digest [Itoa (word_at pre 1); Join (words (8192 + x) rest) "-"; ""; ""; ""])).
Proof.
  intros Hp Hl hello. split.
  - unfold hello. by rewrite !hello_closed.
  - intros H22 Hx Hr. set (D := (pre ++ [32; x] ++ rest)%list).
    assert (length D = 45 + length rest)%nat as HL by (unfold D; rewrite !length_app, Hp; cbn [length]; lia).
    assert (drop 45 D = rest) as Hd.
    { unfold D. rewrite app_assoc. apply drop_app_length'. rewrite length_app, Hp. done. }
    unfold computeJA3Raw. replace (byte D 0) with 22 by (rewrite <- H22; symmetry; apply byte_prefix; lia).
    replace (word_at D 1) with (word_at pre 1) by (symmetry; apply word_prefix; lia).
    replace (word_at D 43) with (8192 + x) by (unfold D; rewrite word_suffix, Hp by lia; symmetry; apply (word_add 32); lia).
    rewrite !(proj2 (Nat.ltb_ge (length D) _)) by lia. cbn [orb negb Z.eqb Pos.eqb]. rewrite Hd. f_equal. unfold hash_rest.
    by rewrite (proj2 (Nat.ltb_lt (length D) _)) by lia.
Qed.

(** ** Witnesses *)

Definition tls_request : http_Request := mkRequest ∅ "GET" "/" "shop.example" "203.0.113.9:4711" "HTTP/1.1" 0 [] ∅ None.
Definition tls_context : RequestContext :=
  mkContext (Some tls_request) None "" "203.0.113.9" "" "/" "GET" ∅ ∅ ∅ ∅ None "" "" "" "" "" 0 f0 f0 [] false false 0
    (lit "") "" "TLS 1.3" "" "".

(** TLS 1.3 and TLS_AES_128_GCM_SHA256. *)
#[local] Instance modern : TlsState := fun _ => Some (mkState 772 4865).

(** The sixth request with them. *)
Lemma ja3_counts_requests_witness :
  d_Action <$> fst (serve tls_context (run (replicate 5 (mkState 772 4865, tls_context)) (NewJA3Inspector false)))
  = Some ActionMonitor.
Proof.
  assert (over_tls (mkState 772 4865, tls_context)) as Ht by (split; [done|exists tls_request; done]).
  rewrite (ja3_counts_requests false (replicate 5 (mkState 772 4865, tls_context)) (mkState 772 4865) tls_context).
  - vm_compute. reflexivity.
  - repeat (constructor; [exact Ht|]). constructor.
  - exact Ht.
  - split; cbn; set_solver.
Defined.

Lemma contexts_not_fingerprinted_witness :
  Inspect (match NewRequestContext 0 0 tls_request with Returns (ctx, _) => ctx | Panics => tls_context end) (NewJA3Inspector false)
  = Returns (None, match NewRequestContext 0 0 tls_request with Returns (ctx, _) => ctx | Panics => tls_context end, NewJA3Inspector false).
Proof.
  apply (contexts_not_fingerprinted 0 0 tls_request _
           (match NewRequestContext 0 0 tls_request with Returns (_, r) => r | Panics => tls_request end)).
  reflexivity.
Defined.

(** A record header, a client hello of TLS 1.2 and 32 random bytes. *)
Definition hello_prefix : list Z := ([22; 3; 1; 0; 60; 1; 0; 0; 56; 3; 3] ++ replicate 32 7)%list.
Definition hello_tail : list Z := [1; 0; 0; 4; 0; 23; 0; 0].

Lemma raw_hello_skips_suites_witness :
  computeJA3Raw (hello_prefix ++ [0; 0; 2] ++ [19; 1] ++ hello_tail)
  = computeJA3Raw (hello_prefix ++ [0; 0; 2] ++ [0; 10] ++ hello_tail).
Proof. exact (proj1 (raw_hello_skips_suites hello_prefix [19; 1] [0; 10] hello_tail 0 [] eq_refl eq_refl)). Defined.
