(* ===== verification/Mtls.v ===== *)
(** * Client certificates: [internal/engine/mtls.go]

    The connection a request's context carries is an argument: nothing in the
    repository calls [SetConnInContext], so for the proxy it is [None]. Names
    of certificates are given as the text [crypto/x509/pkix] makes of them; the
    file system and the reading of PEM files are the class [CaFiles]. *)

From S2P Require Import Prelude Float64 GoStr Encoding Types.
From S2P Require Config.

#[local] Open Scope string_scope.
#[local] Open Scope Z_scope.

Class CaFiles (Pool : Type) : Type := {
  ReadFile : string -> option string;
  AppendCertsFromPEM : string -> option Pool
}.

(** The fields of [x509.Certificate] that are read; an extension is an object
    identifier and its value. *)
Record Certificate : Type := mkCertificate {
  Subject : string; Issuer : string; NotBefore : Z; NotAfter : Z; SerialNumber : string;
  Extensions : list (list Z * list Z)
}.

(** A [net.Conn]: a [tls.Conn] with its peer's certificates, or another. *)
Inductive Conn : Type := TlsConn (PeerCertificates : list Certificate) | OtherConn.

Record ClientCertInfo : Type := mkInfo {
  ci_Subject : string; ci_Issuer : string; ci_NotBefore : Z; ci_NotAfter : Z; ci_SerialNumber : string;
  Fingerprint : string; PEM : string
}.
Definition extractCertInfo (cert : Certificate) : ClientCertInfo :=
  mkInfo (Subject cert) (Issuer cert) (NotBefore cert) (NotAfter cert) (SerialNumber cert) "" "".

Record MTLSInspector (Pool : Type) : Type := mkMTLS { mtlsCfg : Config.MTLSConfig.t; caCert : option Pool }.
Arguments mkMTLS {Pool}.
Arguments mtlsCfg {Pool}.
Arguments caCert {Pool}.

(** The object identifier of the policies extension, 2.5.29.32. *)
Definition policies_oid : list Z := [2; 5; 29; 32].

(** The first policies extension decides; an undecodable one is a
    violation, one without the policy leaves the next to look at. *)
Fixpoint policy_in (oid : string) (exts : list (list Z * list Z)) : bool :=
  match exts with
  | [] => false
  | (id, value) :: exts =>
      if String.eqb (Asn1.oid_string id) "2.5.29.32" then
        match Asn1.unmarshal_oids value with
        | None => false
        | Some policies =>
            if existsb (fun policy => String.eqb (Asn1.oid_string policy) oid) policies then true else policy_in oid exts
        end
      else policy_in oid exts
  end.

Definition name_user (key subject : string) (c : RequestContext) : RequestContext :=
  mkContext (Request c) (Response c) (Site c) (RealIP c) (UserAgent c) (Path c) (Method c) (<[key := subject]> (Headers c))
    (Cookies c) (QueryParams c) (FormParams c) (Body c) (ContentType c) (SessionID c) (UserID c) (APIKey c) (Country c) (ASN c)
    (BotScore c) (ThreatScore c) (Decisions c) (IsBot c) (IsKnownAttack c) (StartedAt c) (RequestID c) (Host c) (TLSVersion c)
    (TLSCipherSuite c) (JA3Hash c).

Section mtls.
Context {Pool : Type} `{CaFiles Pool}.

Definition loadCAFile (path : string) : result text (option Pool) :=
  if String.eqb path "" then Ok None
  else match ReadFile path with
       | None => Err (Sprintf "read CA file: %w" [AStr path])
       | Some data =>
           match AppendCertsFromPEM data with
           | None => Err (Sprintf "no valid CA certificates found in %s" [AStr path])
           | Some pool => Ok (Some pool)
           end
       end.

Definition NewMTLSInspector (cfg : Config.MTLSConfig.t) : result text (MTLSInspector Pool) :=
  if String.eqb (Config.MTLSConfig.CAFile cfg) "" then Ok (mkMTLS cfg None)
  else match loadCAFile (Config.MTLSConfig.CAFile cfg) with
       | Err e => Err (Sprintf "load CA cert: %w" (args e))
       | Ok pool => Ok (mkMTLS cfg pool)
       end.

Definition validateCertificatePolicy (m : MTLSInspector Pool) (cert : Certificate) : bool :=
  let oid := Config.MTLSConfig.PolicyOID (mtlsCfg m) in
  if String.eqb oid "" then true else policy_in oid (Extensions cert).

Definition blocked (id name : string) (score : Z) (ev : text) : Decision := decision ActionBlock id name "high" score ev.

(** The method once the request is known not to be nil; [conn] is what its
    context carries. *)
Definition inspect_conn (conn : option Conn) (ctx : RequestContext) (m : MTLSInspector Pool) : Decision * RequestContext :=
  let cfg := mtlsCfg m in
  let failOnError := Config.MTLSConfig.FailOnError cfg in
  match conn with
  | None => (if failOnError then blocked "MTLS-001" "mTLS connection info unavailable" 85 (lit "") else allow_decision, ctx)
  | Some OtherConn => (if failOnError then blocked "MTLS-002" "connection is not TLS" 90 (lit "") else allow_decision, ctx)
  | Some (TlsConn []) =>
      let auth := Config.MTLSConfig.ClientAuth cfg in
      (if String.eqb auth "require-and-verify-client-cert" || String.eqb auth "require-any-client-cert"
       then blocked "MTLS-003" "client certificate required" 90 (lit "no client certificate provided") else allow_decision, ctx)
  | Some (TlsConn (cert :: _)) =>
      let key := Config.MTLSConfig.UsernameHeader cfg in
      let ctx := if negb (String.eqb key "") then name_user key (ci_Subject (extractCertInfo cert)) ctx else ctx in
      let oid := Config.MTLSConfig.PolicyOID cfg in
      (if Config.MTLSConfig.SkipVerify cfg then allow_decision
       else if negb (String.eqb oid "") && negb (validateCertificatePolicy m cert)
       then blocked "MTLS-004" "client certificate policy violation" 85 (Sprintf "required policy: %s" [AStr oid])
       else allow_decision, ctx)
  end.
Definition Inspect (conn : option Conn) (ctx : RequestContext) (m : MTLSInspector Pool) : outcome (Decision * RequestContext) :=
  if negb (Config.MTLSConfig.Enabled (mtlsCfg m)) then Returns (allow_decision, ctx)
  else match Request ctx with None => Panics | Some _ => Returns (inspect_conn conn ctx m) end.

(** A nil request panics here too. *)
Definition GetClientCertInfo (r : option http_Request) (conn : option Conn) : outcome (option ClientCertInfo) :=
  match r with
  | None => Panics
  | Some _ => Returns (match conn with Some (TlsConn (cert :: _)) => Some (extractCertInfo cert) | _ => None end)
  end.

(** ** Lemmas *)

(** The extension as RFC 5280 defines it: a sequence of policies, each a
    sequence of an identifier's content and optional qualifiers. *)
Definition policy_information (p : list Z * list Z) : list Z := Asn1.der 48 (Asn1.der 6 (fst p) ++ snd p).
Definition certificatePolicies (l : list (list Z * list Z)) : list Z := Asn1.der 48 (flat_map policy_information l).

Lemma policies_undecodable p l :
  len (flat_map policy_information (p :: l)) < 65536 -> Asn1.unmarshal_oids (certificatePolicies (p :: l)) = None.
Proof.
  intros Hlen. unfold Asn1.unmarshal_oids, certificatePolicies. rewrite <- (app_nil_r (Asn1.der 48 _)).
  rewrite Asn1.element_der by done. change (_ && _ && _) with true. cbn match. cbn [mbind option_bind].
  cbn [flat_map] in *. unfold policy_information at 1 in Hlen. unfold policy_information at 2.
  set (body := (Asn1.der 6 (fst p) ++ snd p)%list) in *. set (k := flat_map policy_information l) in *.
  assert (len body < 65536) as Hp.
  { unfold Asn1.der in Hlen. cbn [app] in Hlen. rewrite len_cons, !len_app in Hlen.
    pose proof (len_nonneg (Asn1.der_length (len body))). pose proof (len_nonneg k). lia. }
  destruct (length _) as [|f]; [done|]. change (policy_information p) with (Asn1.der 48 body).
  assert (Asn1.elements (S f) 6 (Asn1.der 48 body ++ k) = None) as ->; [|done].
  pose proof (Asn1.element_der 48 body k 6 false) as E. cbn -[Asn1.element Asn1.der] in E |- *.
  destruct (Asn1.der 48 body ++ k)%list eqn:D; [done|]. cbn [Asn1.elements]. by rewrite E.
Qed.

Lemma policy_in_refused oid before after p l :
  Forall (fun e => Asn1.oid_string (fst e) <> "2.5.29.32") before -> len (flat_map policy_information (p :: l)) < 65536 ->
  policy_in oid (before ++ (policies_oid, certificatePolicies (p :: l)) :: after) = false.
Proof.
  intros Hb Hlen. induction Hb as [|[id v] before Hid _ IH]; cbn [app policy_in].
  - change (String.eqb (Asn1.oid_string policies_oid) "2.5.29.32") with true. by rewrite policies_undecodable.
  - cbn [fst] in Hid. by rewrite (proj2 (String.eqb_neq _ _) Hid).
Qed.

(** What a configured policy does. A certificate whose policies extension
    is encoded as RFC 5280 has it, policies with their identifiers and optional
    qualifiers, whichever they are and the required one among them, is a
    violation: the code decodes the extension as a sequence of bare
    identifiers. *)
Theorem standard_policies_refused (m : MTLSInspector Pool) ctx cert certs before after p l :
  Config.MTLSConfig.Enabled (mtlsCfg m) = true -> Config.MTLSConfig.SkipVerify (mtlsCfg m) = false ->
  Config.MTLSConfig.PolicyOID (mtlsCfg m) <> "" -> is_Some (Request ctx) ->
  Extensions cert = (before ++ (policies_oid, certificatePolicies (p :: l)) :: after)%list ->
  Forall (fun e => Asn1.oid_string (fst e) <> "2.5.29.32") before -> len (flat_map policy_information (p :: l)) < 65536 ->
  exists ctx', Inspect (Some (TlsConn (cert :: certs))) ctx m
    = Returns (blocked "MTLS-004" "client certificate policy violation" 85
                 (Sprintf "required policy: %s" [AStr (Config.MTLSConfig.PolicyOID (mtlsCfg m))]), ctx').
Proof.
  intros He Hs Ho [r Hr] Hx Hb Hlen. unfold Inspect. rewrite He, Hr. cbn [negb]. unfold inspect_conn. rewrite Hs.
  assert (validateCertificatePolicy m cert = false) as ->.
  { unfold validateCertificatePolicy. rewrite (proj2 (String.eqb_neq _ _) Ho), Hx. by apply policy_in_refused. }
  rewrite (proj2 (String.eqb_neq _ _) Ho). cbn [negb andb]. eexists. reflexivity.
Qed.

(** The extensions alone decide about a certificate. *)
Definition policy_ok (m : MTLSInspector Pool) (cert : Certificate) : bool :=
  Config.MTLSConfig.SkipVerify (mtlsCfg m) || validateCertificatePolicy m cert.

(** Who passes an enabled inspector: without a connection in the request's
    context, as the proxy leaves it, or with one that is not TLS, everyone
    exactly when [fail_on_error] is off, whatever certificates are required;
    over TLS without a certificate, when none is required; with one, by its
    policies alone: not its issuer, its dates or the configured authority. *)
Theorem mtls_admits_iff (m : MTLSInspector Pool) conn ctx d ctx' :
  Config.MTLSConfig.Enabled (mtlsCfg m) = true -> Inspect conn ctx m = Returns (d, ctx') ->
  d_Action d = ActionAllow <->
  match conn with
  | None | Some OtherConn => Config.MTLSConfig.FailOnError (mtlsCfg m) = false
  | Some (TlsConn []) =>
      Config.MTLSConfig.ClientAuth (mtlsCfg m) <> "require-and-verify-client-cert"
      /\ Config.MTLSConfig.ClientAuth (mtlsCfg m) <> "require-any-client-cert"
  | Some (TlsConn (cert :: _)) => policy_ok m cert = true
  end.
Proof.
  intros He Hi. unfold Inspect in Hi. rewrite He in Hi. cbn [negb] in Hi. destruct (Request ctx); [|done].
  injection Hi as Hi. unfold inspect_conn in Hi. destruct conn as [[[|cert certs]|]|]; simplify_eq.
  - destruct (String.eqb_spec (Config.MTLSConfig.ClientAuth (mtlsCfg m)) "require-and-verify-client-cert") as [->|];
      destruct (String.eqb_spec (Config.MTLSConfig.ClientAuth (mtlsCfg m)) "require-any-client-cert"); cbn; naive_solver.
  - unfold policy_ok. destruct (Config.MTLSConfig.SkipVerify (mtlsCfg m)); [done|]. cbn [orb]. unfold validateCertificatePolicy.
    destruct (String.eqb (Config.MTLSConfig.PolicyOID (mtlsCfg m)) ""); [done|]. cbn [negb andb].
    by destruct (policy_in (Config.MTLSConfig.PolicyOID (mtlsCfg m)) (Extensions cert)).
  - by destruct (Config.MTLSConfig.FailOnError (mtlsCfg m)).
  - by destruct (Config.MTLSConfig.FailOnError (mtlsCfg m)).
Qed.

End mtls.

(** ** Witnesses *)

#[local] Instance one_file : CaFiles string := {| ReadFile := fun p => if String.eqb p "ca.pem" then Some "CA" else None; AppendCertsFromPEM := Some |}.

Definition strict_config : Config.MTLSConfig.t :=
  Config.MTLSConfig.mk true "ca.pem" "require-and-verify-client-cert" false "1.3.6.1" 5 true false "X-Client-Cert-User".
Definition strict : MTLSInspector string := mkMTLS strict_config (Some "CA").
Example strict_built : NewMTLSInspector strict_config = Ok strict.
Proof. reflexivity. Qed.

Definition any_request : RequestContext :=
  mkContext (Some (mkRequest ∅ "GET" "/" "shop.example" "203.0.113.9:4711" "HTTP/1.1" 0 [] ∅ None)) None "" "203.0.113.9" "" "/" "GET"
    ∅ ∅ ∅ ∅ None "" "" "" "" "" 0 f0 f0 [] false false 0 (lit "") "" "" "" "".
(** A certificate with the required policy. *)
Definition alice : Certificate := mkCertificate "CN=alice" "CN=ca" 0 1 "1" [(policies_oid, certificatePolicies [([43; 6; 1], [])])].

Lemma standard_policies_refused_witness :
  exists ctx', Inspect (Some (TlsConn [alice])) any_request strict
    = Returns (blocked "MTLS-004" "client certificate policy violation" 85 (Sprintf "required policy: %s" [AStr "1.3.6.1"]), ctx').
Proof.
  apply (standard_policies_refused strict any_request alice [] [] [] ([43; 6; 1], []) []); try done.
Defined.
Example bare_policies_pass :
  (fun p => d_Action (fst p)) <$>
    match Inspect (Some (TlsConn [mkCertificate "CN=eve" "CN=eve" 0 0 "1" [(policies_oid, Asn1.der 48 (Asn1.der 6 [43; 6; 1]))]])) any_request strict with
    | Returns r => Some r | Panics => None end = Some ActionAllow.
Proof. reflexivity. Qed.

(** With [fail_on_error] off everyone passes the strict configuration. *)
Definition lenient : MTLSInspector string :=
  mkMTLS (Config.MTLSConfig.mk true "ca.pem" "require-and-verify-client-cert" false "" 5 false false "") (Some "CA").
Lemma mtls_admits_iff_witness : d_Action allow_decision = ActionAllow.
Proof. by apply (mtls_admits_iff lenient None any_request allow_decision any_request). Defined.
