(* ===== verification/Wasm.v ===== *)
(** * WASM modules and packet telemetry: [internal/engine/wasm.go] and [ebpf.go]

    Which modules are loaded from the directory and what the inspector makes of
    their answers; the runtime is the class [WasmRuntime]. The telemetry is the
    Linux build: counters that a ticker advances. *)

From S2P Require Import Prelude Float64 GoStr Types.

#[local] Open Scope string_scope.
#[local] Open Scope Z_scope.

(** ** [wasm.go] *)

Module Wasm.

(** What a call of a module's exported function [inspect] gives. *)
Inductive call_result : Type := CallFailed (e : string) | CallReturned (res : list Z).

(** The files ([os.ReadDir] with each entry's name and whether it is a
    directory, sorted by name; [os.ReadFile]) and wazero: instantiating the bytes of
    a module under a name, whether it exports [inspect], and the [n]-th call of all.
    The code passes [Call] a context and no arguments. *)
Class WasmRuntime (Mod : Type) : Type := {
  ReadDir : string -> option (list (string * bool));
  ReadFile : string -> string -> option string;
  Instantiate : string -> string -> option Mod;
  exports_inspect : Mod -> bool;
  Call : Mod -> nat -> call_result
}.

Record wasmInspectorDef (Mod : Type) : Type := mkDef { name : string; path : string * string; module : Mod }.
Arguments mkDef {Mod}.
Arguments name {Mod}.
Arguments path {Mod}.
Arguments module {Mod}.

(** [calls] counts the calls made so far. *)
Record WASMInspector (Mod : Type) : Type := mkWasm {
  moduleDir : string; maxMemPages : Z; modules : gmap string Mod; inspectors : gmap string (wasmInspectorDef Mod); calls : nat
}.
Arguments mkWasm {Mod}.
Arguments moduleDir {Mod}.
Arguments maxMemPages {Mod}.
Arguments modules {Mod}.
Arguments inspectors {Mod}.
Arguments calls {Mod}.

(** The name without the extension. *)
Definition stem (file : string) : string := take_str (String.length file - String.length (Ext file)) file.

(** The check of a directory entry against the configured list. *)
Definition wanted (mods : list string) (file : string) : bool :=
  match mods with
  | [] => true
  | _ => existsb (fun m => String.eqb m file || String.eqb m (stem file)) mods
  end.

Section inspector.
Context {Mod : Type} `{WasmRuntime Mod}.
Implicit Types w : WASMInspector Mod.

(** [filepath.Base] of the joined path is the entry's name again. *)
Definition loadModule (dir file : string) w : WASMInspector Mod :=
  match ReadFile dir file with
  | None => w
  | Some bytes =>
      match Instantiate (stem file) bytes with
      | None => w
      | Some m =>
          mkWasm (moduleDir w) (maxMemPages w) (<[stem file := m]> (modules w))
            (<[stem file := mkDef (stem file) (dir, file) m]> (inspectors w)) (calls w)
      end
  end.

Definition load_entry (dir : string) (mods : list string) w (entry : string * bool) : WASMInspector Mod :=
  let '(file, is_dir) := entry in
  if is_dir then w
  else if negb (String.eqb (Ext file) ".wasm") then w
  else if negb (wanted mods file) then w
  else loadModule dir file w.

Definition loadModules (dir : string) (mods : list string) w : WASMInspector Mod :=
  match ReadDir dir with
  | None => w
  | Some entries => fold_left (load_entry dir mods) entries w
  end.

Definition NewWASMInspector (dir : string) (maxMemPages : Z) (mods : list string) : WASMInspector Mod :=
  let w := mkWasm dir maxMemPages ∅ ∅ 0 in
  if String.eqb dir "" then w else loadModules dir mods w.

(** The decision of a module, [Err] when the call fails, and the number of
    calls made by then. *)
Definition wasm_block (name : string) : Decision :=
  decision ActionBlock ("WASM_" ++ name) ("WASM Inspector: " ++ name) "high" 70
    (Sprintf "WASM inspector %q returned block decision" [AStr name]).
Definition callInspector (def : wasmInspectorDef Mod) (reqJSON : text) (n : nat) : result string (option Decision) * nat :=
  if negb (exports_inspect (module def)) then (Ok None, n)
  else
    (match Call (module def) n with
     | CallFailed e => Err ("inspect call failed: " ++ e)
     | CallReturned [] => Ok None
     | CallReturned (v :: _) => Ok (if v =? 0 then None else Some (wasm_block (name def)))
     end, S n).

(** The loop over the inspectors. *)
Fixpoint call_each (l : list (string * wasmInspectorDef Mod)) (reqJSON : text) (n : nat) : option Decision * nat :=
  match l with
  | [] => (None, n)
  | (_, def) :: l =>
      match callInspector def reqJSON n with
      | (Ok (Some d), n) => (Some d, n)
      | (_, n) => call_each l reqJSON n
      end
  end.

Definition request_format : string :=
  "{" ++ dq ++ "method" ++ dq ++ ":" ++ dq ++ "%s" ++ dq ++ "," ++ dq ++ "path" ++ dq ++ ":" ++ dq ++ "%s" ++ dq
  ++ "," ++ dq ++ "ip" ++ dq ++ ":" ++ dq ++ "%s" ++ dq ++ "}".
Definition Inspect `{MapRange (wasmInspectorDef Mod)} (ctx : RequestContext) w : option Decision * WASMInspector Mod :=
  let reqJSON := Sprintf request_format [AStr (Method ctx); AStr (Path ctx); AStr (RealIP ctx)] in
  let '(d, n) := call_each (map_range (inspectors w)) reqJSON (calls w) in
  (d, mkWasm (moduleDir w) (maxMemPages w) (modules w) (inspectors w) n).

(** [Close]: the inspectors keep the modules that are closed. *)
Definition Close w : WASMInspector Mod := mkWasm (moduleDir w) (maxMemPages w) ∅ (inspectors w) (calls w).

(** ** What is loaded *)

Lemma Ext_suffix file : Ext file = "" \/ exists s, file = s ++ Ext file.
Proof.
  unfold Ext.
  assert (forall r acc, ext_from acc r = "" \/ exists s, String.rev r ++ acc = s ++ ext_from acc r) as Hg.
  { induction r as [|c r IH]; intros acc; cbn [ext_from]; [by left|].
    destruct (Ascii.eqb c "/"); [by left|]. rewrite srev_cons, sapp_assoc.
    destruct (Ascii.eqb c "."); [right; by exists (String.rev r)|]. apply (IH (String c acc)). }
  destruct (Hg (String.rev file) "") as [?|[s Hs]]; [by left|right]. exists s.
  by rewrite sapp_nil_r, srev_involutive in Hs.
Qed.

Lemma Ext_wasm n : Ext (n ++ ".wasm") = ".wasm".
Proof. unfold Ext. by rewrite srev_app. Qed.

Lemma stem_wasm n : stem (n ++ ".wasm") = n.
Proof. unfold stem. rewrite Ext_wasm, length_sapp. cbn [String.length]. rewrite Nat.add_sub. apply take_str_app. Qed.

(** What an entry contributes. *)
Definition loads (dir : string) (mods : list string) (n : string) (entry : string * bool) : option (wasmInspectorDef Mod) :=
  if snd entry || negb (String.eqb (fst entry) (n ++ ".wasm")) || negb (wanted mods (fst entry)) then None
  else bytes ← ReadFile dir (fst entry); m ← Instantiate n bytes; Some (mkDef n (dir, fst entry) m).

Lemma load_entry_lookup dir mods w entry n :
  inspectors (load_entry dir mods w entry) !! n = loads dir mods n entry <||> inspectors w !! n.
Proof.
  unfold load_entry, loads. destruct entry as [file is_dir]. cbn [fst snd]. destruct is_dir; [done|]. cbn [orb].
  destruct (String.eqb_spec (Ext file) ".wasm") as [He|He]; cbn [negb].
  - destruct (Ext_suffix file) as [Hn|[s Hs]]; [congruence|]. rewrite He in Hs. subst file.
    destruct (String.eqb_spec (s ++ ".wasm") (n ++ ".wasm")) as [Heq|Hne]; cbn [negb orb].
    + assert (s = n) as -> by (by rewrite <- (stem_wasm s), Heq, stem_wasm).
      destruct (wanted mods (n ++ ".wasm")); cbn [negb]; [|done]. unfold loadModule. rewrite stem_wasm.
      destruct (ReadFile dir (n ++ ".wasm")) as [bytes|]; [|done]. cbn [mbind option_bind].
      destruct (Instantiate n bytes) as [m|]; [|done]. cbn. by rewrite lookup_insert_eq.
    + destruct (wanted mods (s ++ ".wasm")); cbn [negb]; [|done]. unfold loadModule. rewrite stem_wasm.
      assert (s <> n) by (intros ->; done).
      repeat case_match; try done. cbn. by rewrite lookup_insert_ne.
  - destruct (String.eqb_spec file (n ++ ".wasm")) as [->|Hne]; [by rewrite Ext_wasm in He|done].
Qed.

Lemma loads_names dir mods n l w :
  NoDup l.*1 ->
  inspectors (fold_left (load_entry dir mods) l w) !! n = first_some (loads dir mods n) l <||> inspectors w !! n.
Proof.
  revert w. induction l as [|entry l IH]; intros w; [done|]. intros [Hn Hl]%NoDup_cons. cbn [fold_left first_some].
  rewrite (IH _ Hl), load_entry_lookup.
  destruct (loads dir mods n entry) as [def|] eqn:He; [|done]. cbn [or_else].
  assert (first_some (loads dir mods n) l = None) as ->; [|done].
  apply first_some_None. intros e Hin. unfold loads in He |- *. repeat case_match; simplify_eq; try done.
  b2p. destruct (String.eqb_spec (fst entry) (n ++ ".wasm")) as [E1|]; [|done].
  destruct (String.eqb_spec (fst e) (n ++ ".wasm")) as [E2|]; [|done].
  destruct Hn. apply list_elem_of_fmap. exists e. by rewrite E1.
Qed.
(** A module is loaded under a name exactly when the directory has the file
    of that name with the extension .wasm, the configuration wants it, it can be read
    and instantiated; whatever else is in the directory does not matter. *)
Theorem loaded_iff dir pages mods entries n def :
  dir <> "" -> ReadDir dir = Some entries -> NoDup entries.*1 ->
  inspectors (NewWASMInspector dir pages mods) !! n = Some def <->
  (n ++ ".wasm", false) ∈ entries /\ wanted mods (n ++ ".wasm") = true /\
  exists bytes m, ReadFile dir (n ++ ".wasm") = Some bytes /\ Instantiate n bytes = Some m
    /\ def = mkDef n (dir, n ++ ".wasm") m.
Proof.
  intros Hd He Hnd. unfold NewWASMInspector. rewrite (proj2 (String.eqb_neq _ _) Hd). unfold loadModules. rewrite He.
  rewrite loads_names by done. cbn [inspectors]. rewrite lookup_empty.
  assert (forall e, loads dir mods n e = Some def <-> e = (n ++ ".wasm", false) /\ wanted mods (n ++ ".wasm") = true /\
    exists bytes m, ReadFile dir (n ++ ".wasm") = Some bytes /\ Instantiate n bytes = Some m
      /\ def = mkDef n (dir, n ++ ".wasm") m) as Hl.
  { intros [file b]. unfold loads. cbn [fst snd]. destruct b; [naive_solver|]. cbn [orb].
    destruct (String.eqb_spec file (n ++ ".wasm")) as [->|Hne]; cbn [negb orb]; [|naive_solver].
    destruct (wanted mods (n ++ ".wasm")); cbn [negb]; [|naive_solver].
    destruct (ReadFile dir (n ++ ".wasm")) as [bytes|]; cbn [mbind option_bind]; [|naive_solver].
    split.
    - destruct (Instantiate n bytes) as [m|] eqn:Hi; [|done]. intros [= <-]. eauto 10.
    - intros (_ & _ & bytes' & m & [= <-] & Hi & ->). by rewrite Hi. }
  replace (_ <||> None) with (first_some (loads dir mods n) entries) by (by destruct (first_some _ _)). split.
  - intros (e & Hin & (-> & Hr)%Hl)%first_some_Some. done.
  - intros (Hin & Hr). destruct (first_some (loads dir mods n) entries) as [d|] eqn:Hf.
    + apply first_some_Some in Hf as (e & _ & Hd'). f_equal. pose proof (proj2 (Hl _) (conj eq_refl Hr)) as H1.
      unfold loads in Hd', H1. cbn [fst snd] in *. repeat case_match; simplify_eq; try done.
      b2p. destruct (String.eqb_spec (fst e) (n ++ ".wasm")) as [E|]; [|done]. rewrite E in *. congruence.
    + rewrite first_some_None in Hf. specialize (Hf _ Hin). by rewrite (proj2 (Hl _) (conj eq_refl Hr)) in Hf.
Qed.

(** ** What is decided *)

Context `{MapRange (wasmInspectorDef Mod)}.

Lemma call_each_blind l q q' n : call_each l q n = call_each l q' n.
Proof.
  revert n. induction l as [|[k def] l IH]; intros n; [done|]. cbn [call_each].
  change (callInspector def q n) with (callInspector def q' n). by destruct (callInspector def q' n) as [[[d|]|] m].
Qed.

(** The answer does not depend on the request: the description of it that is
    printed for the modules is not handed to them. *)
Theorem wasm_blind ctx ctx' w : Inspect ctx w = Inspect ctx' w.
Proof. unfold Inspect. cbv zeta. by erewrite call_each_blind. Qed.

Lemma call_each_Some l q d : forall n m, call_each l q n = (Some d, m) ->
  exists k def i v rest, (k, def) ∈ l /\ exports_inspect (module def) = true
    /\ Call (module def) i = CallReturned (v :: rest) /\ v <> 0 /\ d = wasm_block (name def).
Proof.
  induction l as [|[k def] l IH]; intros n m; [done|]. cbn [call_each].
  destruct (callInspector def q n) as [[[d'|]|e] n'] eqn:Hc.
  - intros [= <- <-]. unfold callInspector in Hc. destruct (exports_inspect (module def)) eqn:He; [|done]. cbn [negb] in Hc.
    destruct (Call (module def) n) as [e|[|v rest]] eqn:Hcall; try done.
    destruct (Z.eqb_spec v 0); [done|]. injection Hc as <- <-. exists k, def, n, v, rest.
    split; [apply elem_of_cons; by left|done].
  - intros (k' & def' & i & v & rest & Hin & Hr)%IH. exists k', def', i, v, rest. split; [apply elem_of_cons; by right|done].
  - intros (k' & def' & i & v & rest & Hin & Hr)%IH. exists k', def', i, v, rest. split; [apply elem_of_cons; by right|done].
Qed.

Lemma call_each_blocks l q k def : forall n,
  (k, def) ∈ l -> exports_inspect (module def) = true ->
  (forall i, exists v rest, Call (module def) i = CallReturned (v :: rest) /\ v <> 0) -> is_Some (call_each l q n).1.
Proof.
  induction l as [|[k' def'] l IH]; intros n Hin He Hc; [by apply elem_of_nil in Hin|]. cbn [call_each].
  apply elem_of_cons in Hin as [[= <- <-]|Hin].
  - unfold callInspector. rewrite He. cbn [negb]. destruct (Hc n) as (v & rest & -> & Hv).
    rewrite (proj2 (Z.eqb_neq _ _) Hv). by eexists.
  - destruct (callInspector def' q n) as [[[d|]|e] m]; [by eexists|by apply IH..].
Qed.

(** A decision is the block of a loaded module whose function returned a first
    word other than 0, and a module that always does so makes every request blocked;
    modules that fail, return nothing or have no such function let everything pass. *)
Theorem wasm_decides ctx w :
  (forall d, (Inspect ctx w).1 = Some d ->
    exists k def i v rest, inspectors w !! k = Some def /\ exports_inspect (module def) = true
      /\ Call (module def) i = CallReturned (v :: rest) /\ v <> 0 /\ d = wasm_block (name def))
  /\ (forall k def, inspectors w !! k = Some def -> exports_inspect (module def) = true ->
       (forall i, exists v rest, Call (module def) i = CallReturned (v :: rest) /\ v <> 0) ->
       exists d, (Inspect ctx w).1 = Some d).
Proof.
  unfold Inspect. cbv zeta.
  destruct (call_each (map_range (inspectors w)) _ (calls w)) as [o n] eqn:Hc. cbn [fst]. split.
  - intros d ->. apply call_each_Some in Hc as (k & def & i & v & rest & Hin & Hr).
    exists k, def, i, v, rest. by rewrite elem_of_map_range in Hin.
  - intros k def Hk He Hv. rewrite <- elem_of_map_range in Hk.
    pose proof (call_each_blocks _ (Sprintf request_format [AStr (Method ctx); AStr (Path ctx); AStr (RealIP ctx)])
      k def (calls w) Hk He Hv) as Hs. rewrite Hc in Hs. exact Hs.
Qed.

End inspector.
End Wasm.

(** ** [ebpf.go] *)

Module Ebpf.

Record EBPFTelemetry : Type := mkTelemetry {
  iface : string; port : Z; sampleRate : Z; active : bool;
  packetCount : Z; byteCount : Z; synCount : Z; rstCount : Z
}.
Definition NewEBPFTelemetry (iface : string) (port sampleRate : Z) : EBPFTelemetry :=
  mkTelemetry iface port sampleRate false 0 0 0 0.

Definition Inspect (ctx : RequestContext) (e : EBPFTelemetry) : option Decision :=
  if 1000000 <? packetCount e
  then Some (decision ActionMonitor "EBPF_001" "Elevated Packet Activity" "low" 10
               (Sprintf "eBPF detected %d total packets on %s" [AInt (packetCount e); AStr (iface e)]))
  else None.

(** [Start] and [Stop] up to the goroutine, which runs while [active]. *)
Definition set_active (b : bool) (e : EBPFTelemetry) : EBPFTelemetry :=
  mkTelemetry (iface e) (port e) (sampleRate e) b (packetCount e) (byteCount e) (synCount e) (rstCount e).
Definition Start (e : EBPFTelemetry) : EBPFTelemetry := if active e then e else set_active true e.
Definition Stop (e : EBPFTelemetry) : EBPFTelemetry := if active e then set_active false e else e.

(** An [int] product converted to [uint64]; sums of [uint64]. *)
Definition u64 (z : Z) : Z := z mod 2 ^ 64.
Definition rate (k : Z) (e : EBPFTelemetry) : Z := u64 (wrap64 (sampleRate e * k)).

(** A tick of [collectLoop]: the remainder panics on a zero divisor. *)
Definition tick (e : EBPFTelemetry) : outcome EBPFTelemetry :=
  if negb (active e) then Returns e
  else
    let packets := u64 (packetCount e + rate 100 e) in
    let bytes := u64 (byteCount e + rate 10240 e) in
    if rate 100 e =? 0 then Panics
    else Returns (mkTelemetry (iface e) (port e) (sampleRate e) true packets bytes
           (if packets mod rate 100 e <? rate 100 e then u64 (synCount e + rate 5 e) else synCount e) (rstCount e)).
Fixpoint ticks (n : nat) (e : EBPFTelemetry) : outcome EBPFTelemetry :=
  match n with O => Returns e | S n => let! e := tick e in ticks n e end.

Definition Stats (e : EBPFTelemetry) : gmap string Z :=
  {["packets" := packetCount e; "bytes" := byteCount e; "syn" := synCount e; "rst" := rstCount e]}.

Lemma rate_small k e : 0 <= sampleRate e * k <= max64 -> rate k e = sampleRate e * k.
Proof.
  intros Hk. unfold rate, u64. rewrite wrap64_small by (unfold in64, min64; lia).
  apply Z.mod_small. unfold max64 in Hk. lia.
Qed.

Lemma ticks_count n : forall e,
  active e = true -> 0 < sampleRate e -> sampleRate e * 10240 <= max64 -> 0 <= packetCount e ->
  packetCount e + Z.of_nat n * (sampleRate e * 100) < 2 ^ 64 ->
  exists e', ticks n e = Returns e' /\ packetCount e' = packetCount e + Z.of_nat n * (sampleRate e * 100)
    /\ iface e' = iface e.
Proof.
  induction n as [|n IH]; intros e Ha Hs Hm Hp Hn; [exists e; split; [done|]; split; [lia|done]|].
  assert (rate 100 e = sampleRate e * 100) as Hr by (apply rate_small; lia).
  assert (u64 (packetCount e + sampleRate e * 100) = packetCount e + sampleRate e * 100) as Hu by (apply Z.mod_small; lia).
  cbn [ticks]. unfold tick. rewrite Ha, Hr. cbn [negb]. rewrite (proj2 (Z.eqb_neq _ _)) by lia. cbn [out_bind].
  match goal with |- context [ticks n ?e1] => destruct (IH e1) as (e' & -> & Hc & Hi) end; cbn in *; try rewrite Hu; try done; try lia.
  exists e'. split; [done|]. split; [|done]. rewrite Hc, Hu. lia.
Qed.

(** The counters measure time, not traffic: the telemetry reports every
    request from the second on in which the ticks, each worth a hundred times the
    sample rate, have added up to more than a million, and none before; without
    [Start], as in the program, it never reports. *)
Theorem telemetry_counts_time n iface port rate ctx :
  0 < rate -> rate * 10240 <= max64 -> Z.of_nat n * (rate * 100) < 2 ^ 64 ->
  Inspect ctx (NewEBPFTelemetry iface port rate) = None /\
  exists e, ticks n (Start (NewEBPFTelemetry iface port rate)) = Returns e /\
    (is_Some (Inspect ctx e) <-> 1000000 < Z.of_nat n * (rate * 100)).
Proof.
  intros Hr Hm Hn. split; [done|].
  destruct (ticks_count n (Start (NewEBPFTelemetry iface port rate))) as (e & He & Hp & _); try done; try (cbn; lia).
  exists e. split; [done|]. unfold Inspect. cbn in Hp. rewrite Z.add_0_l in Hp. rewrite Hp.
  destruct (Z.ltb_spec 1000000 (Z.of_nat n * (rate * 100))); [split; [done|intros _; by eexists]|split; [by intros [? ?]|lia]].
Qed.

(** A sample rate of 0 ends the process at the first tick. *)
Theorem zero_rate_panics iface port n : ticks (S n) (Start (NewEBPFTelemetry iface port 0)) = Panics.
Proof. done. Qed.

End Ebpf.

(** ** Witnesses *)

Definition one_file : Wasm.WasmRuntime string := {|
  Wasm.ReadDir := fun _ => Some [("a.wasm", false); ("b.txt", false); ("c", true)];
  Wasm.ReadFile := fun _ _ => Some "bytes";
  Wasm.Instantiate := fun n _ => Some n;
  Wasm.exports_inspect := fun _ => true;
  Wasm.Call := fun _ _ => Wasm.CallReturned [1]
|}.

Lemma loaded_iff_witness :
  Wasm.inspectors (@Wasm.NewWASMInspector string one_file "mods" 10 ["a"]) !! "a"
  = Some (Wasm.mkDef "a" ("mods", "a.wasm") "a").
Proof.
  apply (@Wasm.loaded_iff string one_file "mods" 10 ["a"] [("a.wasm", false); ("b.txt", false); ("c", true)]);
    [discriminate|reflexivity|apply (bool_decide_unpack _); vm_compute; exact I|].
  split; [apply elem_of_cons; left; reflexivity|]. split; [reflexivity|].
  exists "bytes", "a". repeat split.
Defined.

Definition no_request : RequestContext :=
  mkContext None None "" "" "" "" "" ∅ ∅ ∅ ∅ None "" "" "" "" "" 0 f0 f0 [] false false 0 (lit "") "" "" "" "".

Lemma telemetry_counts_time_witness :
  exists e, Ebpf.ticks 1001 (Ebpf.Start (Ebpf.NewEBPFTelemetry "eth0" 80 10)) = Returns e.
Proof.
  assert (0 < 10 /\ 10 * 10240 <= max64 /\ Z.of_nat 1001 * (10 * 100) < 2 ^ 64) as (H1 & H2 & H3)
    by (vm_compute; repeat split; discriminate).
  destruct (Ebpf.telemetry_counts_time 1001 "eth0" 80 10 no_request H1 H2 H3) as [_ [e [He _]]].
  exists e. exact He.
Defined.
