(* ===== verification/Auth.v ===== *)
(** * Token inspectors: [internal/engine/auth.go]

    Module [JWT]: the validator with its cache of signing keys. Module
    [OAuth]: the introspector with its cache of tokens. The arithmetic of RSA
    and ECDSA is a class; what the key set and introspection endpoints answer
    is an argument of the call. The text of a wrapped error is left out. *)

From S2P Require Import Prelude Float64 GoStr Crypto Json Types Config.

#[local] Open Scope string_scope.
#[local] Open Scope Z_scope.

(** An HTTP exchange of the inspectors: an error, or the status and body. *)
Definition answer : Type := option (Z * string).

Definition bearer (ctx : RequestContext) : option string :=
  let auth := header ctx "Authorization" in
  let auth := if String.eqb auth "" then header ctx "authorization" else auth in
  if String.eqb auth "" then None
  else if negb (HasPrefix auth "Bearer ") then None
  else let token := TrimPrefix auth "Bearer " in
       if String.eqb token "" then None else Some token.

Definition set_user (user : string) (c : RequestContext) : RequestContext :=
  mkContext (Request c) (Response c) (Site c) (RealIP c) (UserAgent c) (Path c) (Method c)
    (Headers c) (Cookies c) (QueryParams c) (FormParams c) (Body c) (ContentType c) (SessionID c)
    user (APIKey c) (Country c) (ASN c) (BotScore c) (ThreatScore c) (Decisions c) (IsBot c) (IsKnownAttack c)
    (StartedAt c) (RequestID c) (Host c) (TLSVersion c) (TLSCipherSuite c) (JA3Hash c).

Definition has_scope (scopes scope : string) : bool :=
  if String.eqb scopes "" then false else existsb (fun s => String.eqb s scope) (Split scopes " ").
Definition has_role (roles : list string) (role : string) : bool := existsb (fun r => String.eqb r role) roles.

(** ** JSON Web Tokens *)

Module JWT.

Record JWK : Type := mkJWK {
  Kty : string; Kid : string; Use : string; Alg : string; N : string; E : string; Crv : string; X : string; Y : string
}.
Record JWTClaims : Type := mkClaims {
  Issuer : string; Subject : string; Audience : list string; ExpiresAt : Z; IssuedAt : Z; NotBefore : Z;
  JWTID : string; Scope : string; Roles : list string
}.

(** [rsa.VerifyPKCS1v15] of a SHA-256 digest under modulus and exponent, and
    [ecdsa.VerifyASN1] on a curve under a point, as functions of the numbers,
    the digest and the signature. *)
Class SignatureVerifiers : Type := {
  VerifyPKCS1v15 : Z -> Z -> list Z -> list Z -> bool;
  VerifyASN1 : string -> Z -> Z -> list Z -> list Z -> bool
}.

Record JWTValidator : Type := mkValidator {
  jwksURL : string; keys : gmap string JWK; expiresAt : Z; ttl : Z; issuers : list string; audiences : list string;
  algorithms : list string; secret : string
}.

Definition NewJWTValidator (cfg : JWTConfig.t) : JWTValidator :=
  mkValidator (JWTConfig.JWKSURL cfg) ∅ zero_time Hour (JWTConfig.Issuers cfg) (JWTConfig.Audiences cfg)
    (JWTConfig.Algorithms cfg) (JWTConfig.Secret cfg).

Definition set_keys (m : gmap string JWK) (expires : Z) (j : JWTValidator) : JWTValidator :=
  mkValidator (jwksURL j) m expires (ttl j) (issuers j) (audiences j) (algorithms j) (secret j).

Definition decodeSegment (seg : string) : option (list Z) :=
  match b64_raw_decode true seg with
  | Some d => Some d
  | None => b64_decode false seg
  end.

Definition isAllowedAlgorithm (j : JWTValidator) (alg : string) : bool :=
  match algorithms j with [] => true | l => existsb (fun a => String.eqb a alg) l end.

(** [now] is in seconds. *)
Definition validateClaims (now : Z) (j : JWTValidator) (c : JWTClaims) : option text :=
  if (0 <? ExpiresAt c) && (ExpiresAt c <? now) then Some (lit "token expired")
  else if (0 <? NotBefore c) && (now <? NotBefore c) then Some (lit "token not yet valid")
  else if (0 <? len (issuers j)) && negb (existsb (fun iss => String.eqb (Issuer c) iss) (issuers j))
  then Some (Sprintf "issuer not allowed: %s" [AStr (Issuer c)])
  else if (0 <? len (audiences j))
          && negb (existsb (fun aud => existsb (fun x => String.eqb x aud) (Audience c)) (audiences j))
  then Some (lit "audience not allowed")
  else None.

Section decoding.
Context `{Unicode}.

Definition decode_jwk (v : json) : option JWK :=
  l ← as_members v;
  let f name := member as_string name "" l in
  kty ← f "kty"; kid ← f "kid"; use ← f "use"; alg ← f "alg"; n ← f "n"; e ← f "e"; crv ← f "crv"; x ← f "x"; y ← f "y";
  Some (mkJWK kty kid use alg n e crv x y).
Definition decode_jwks (v : json) : option (list JWK) :=
  l ← as_members v;
  member (fun v => match v with JArray l => mapM decode_jwk l | _ => None end) "keys" [] l.

(** The [alg] and [kid] of a header; [typ] must be a string too. *)
Definition decode_header (payload : list Z) : option (string * string) :=
  v ← Unmarshal (of_bytes payload); l ← as_members v;
  alg ← member as_string "alg" "" l; typ ← member as_string "typ" "" l; kid ← member as_string "kid" "" l;
  Some (alg, kid).
Definition decode_claims (payload : list Z) : option JWTClaims :=
  v ← Unmarshal (of_bytes payload); l ← as_members v;
  iss ← member as_string "iss" "" l; sub ← member as_string "sub" "" l; aud ← member as_strings "aud" [] l;
  exp ← member as_int64 "exp" 0 l; iat ← member as_int64 "iat" 0 l; nbf ← member as_int64 "nbf" 0 l;
  jti ← member as_string "jti" "" l; scope ← member as_string "scope" "" l; roles ← member as_strings "roles" [] l;
  Some (mkClaims iss sub aud exp iat nbf jti scope roles).

(** The map is made anew; a repeated [kid] keeps its last key. *)
Definition refreshJWKS (now : Z) (resp : answer) (j : JWTValidator) : result text JWTValidator :=
  match resp with
  | None => Err (lit "fetch jwks: %w")
  | Some (status, body) =>
      if negb (status =? 200) then Err (Sprintf "jwks endpoint returned %d" [AInt status])
      else match Decode body ≫= decode_jwks with
           | None => Err (lit "decode jwks: %w")
           | Some l => Ok (set_keys (fold_left (fun m k => <[Kid k := k]> m) l ∅) (now + ttl j) j)
           end
  end.

Definition getKey (now1 now2 : Z) (resp : answer) (kid : string) (j : JWTValidator) : result text JWK * JWTValidator :=
  match (if time_before now1 (expiresAt j) then keys j !! kid else None) with
  | Some key => (Ok key, j)
  | None =>
      if String.eqb (jwksURL j) "" then (Err (lit "jwks url not configured"), j)
      else match refreshJWKS now2 resp j with
           | Err e => (Err e, j)
           | Ok j => (match keys j !! kid with
                      | Some key => Ok key
                      | None => Err (Sprintf "key not found: %s" [AStr kid])
                      end, j)
           end
  end.
End decoding.

(** [big.Int.SetBytes], and the exponent: the first eight bytes as an [int]. *)
Definition big_endian (l : list Z) : Z := fold_left (fun a b => 256 * a + b) l 0.
Definition exponent (eBytes : list Z) : Z :=
  if 8 <=? len eBytes then wrap64 (big_endian (take 8 eBytes)) else big_endian eBytes.

Definition computeHMAC (secret data : list Z) (alg : string) : list Z :=
  if String.eqb alg "HS384" then hmac 128 sha384 secret data
  else if String.eqb alg "HS512" then hmac 128 sha512 secret data
  else hmac 64 sha256 secret data.

Section validator.
Context `{Unicode} `{SignatureVerifiers}.

Definition verifyRSASignature (data sig : list Z) (key : JWK) : option text :=
  if String.eqb (N key) "" || String.eqb (E key) "" then Some (lit "incomplete RSA key: missing n or e")
  else match decodeSegment (N key), decodeSegment (E key) with
       | None, _ => Some (lit "decode RSA modulus: %w")
       | _, None => Some (lit "decode RSA exponent: %w")
       | Some n, Some e =>
           if VerifyPKCS1v15 (big_endian n) (exponent e) (sha256 data) sig then None
           else Some (lit "crypto/rsa: verification error")
       end.

Definition verifyECSignature (data sig : list Z) (key : JWK) : option text :=
  if String.eqb (Crv key) "" || String.eqb (X key) "" || String.eqb (Y key) ""
  then Some (lit "incomplete EC key: missing crv, x, or y")
  else match decodeSegment (X key), decodeSegment (Y key) with
       | None, _ => Some (lit "decode EC x: %w")
       | _, None => Some (lit "decode EC y: %w")
       | Some x, Some y =>
           if existsb (String.eqb (Crv key)) ["P-256"; "P-384"; "P-521"]
           then if VerifyASN1 (Crv key) (big_endian x) (big_endian y) data sig then None
                else Some (lit "ECDSA signature verification failed")
           else Some (Sprintf "unsupported EC curve: %s" [AStr (Crv key)])
       end.

(** [part0], [part1] and [part2] are the parts of the token. *)
Definition verifySignature (part0 part1 part2 alg : string) (key : JWK) : option text :=
  match decodeSegment part2 with
  | None => Some (lit "illegal base64 data")
  | Some sig =>
      let data := bytes_of (part0 ++ "." ++ part1) in
      if existsb (String.eqb alg) ["RS256"; "RS384"; "RS512"] then verifyRSASignature data sig key
      else if existsb (String.eqb alg) ["ES256"; "ES384"; "ES512"] then verifyECSignature data sig key
      else Some (Sprintf "unsupported signature algorithm: %s" [AStr alg])
  end.

Definition hmac_alg (alg : string) : bool := EqualFold alg "HS256" || EqualFold alg "HS384" || EqualFold alg "HS512".

(** The signature of a token whose header and claims passed. *)
Definition check_signature (now1 now2 : Z) (resp : answer) (p0 p1 p2 alg kid : string) (j : JWTValidator)
    : option text * JWTValidator :=
  if negb (String.eqb kid "") then
    if String.eqb (jwksURL j) "" then (Some (lit "kid present but JWKS URL not configured"), j)
    else match getKey now1 now2 resp kid j with
         | (Err e, j) => (Some (lit "get signing key: %w"), j)
         | (Ok key, j) =>
             (match verifySignature p0 p1 p2 alg key with
              | Some _ => Some (lit "verify signature: %w")
              | None => None
              end, j)
         end
  else if negb (String.eqb (secret j) "") then
    (if negb (hmac_alg alg) then Some (Sprintf "algorithm %s not compatible with secret key" [AStr alg])
     else match decodeSegment p2 with
          | None => Some (lit "decode signature: %w")
          | Some provided =>
              if bool_decide (computeHMAC (bytes_of (secret j)) (bytes_of (p0 ++ "." ++ p1)) alg = provided)
              then None else Some (lit "invalid signature")
          end, j)
  else if negb (String.eqb (jwksURL j) "")
  then (Some (Sprintf "unable to determine signing key for token (kid=%q)" [AStr kid]), j)
  else (Some (lit "JWT validation enabled but no signing key configured (jwks_url or secret)"), j).

(** The parts of a token that do not need a key. *)
Definition parse_token (now : Z) (j : JWTValidator) (token : string)
    : result text (string * string * string * string * string * JWTClaims) :=
  match Split token "." with
  | [p0; p1; p2] =>
      match decodeSegment p0 with
      | None => Err (lit "decode header: %w")
      | Some hdr =>
          match decode_header hdr with
          | None => Err (lit "parse header: %w")
          | Some (alg, kid) =>
              if negb (isAllowedAlgorithm j alg) then Err (Sprintf "algorithm not allowed: %s" [AStr alg])
              else if String.eqb alg "none" then Err (lit "algorithm 'none' not allowed")
              else match decodeSegment p1 with
                   | None => Err (lit "decode payload: %w")
                   | Some payload =>
                       match decode_claims payload with
                       | None => Err (lit "parse claims: %w")
                       | Some c =>
                           match validateClaims (time_unix now) j c with
                           | Some e => Err e
                           | None => Ok (p0, p1, p2, alg, kid, c)
                           end
                       end
                   end
          end
      end
  | _ => Err (lit "invalid token format")
  end.

(** [now 0] is read for the claims, [now 1] and [now 2] for the key cache. *)
Definition Validate (now : nat -> Z) (resp : answer) (token : string) (j : JWTValidator)
    : result text JWTClaims * JWTValidator :=
  match parse_token (now 0%nat) j token with
  | Err e => (Err e, j)
  | Ok (p0, p1, p2, alg, kid, c) =>
      match check_signature (now 1%nat) (now 2%nat) resp p0 p1 p2 alg kid j with
      | (Some e, j) => (Err e, j)
      | (None, j) => (Ok c, j)
      end
  end.

Definition Inspect (now : nat -> Z) (resp : answer) (ctx : RequestContext) (j : JWTValidator)
    : Decision * RequestContext * JWTValidator :=
  match bearer ctx with
  | None => (allow_decision, ctx, j)
  | Some token =>
      match Validate now resp token j with
      | (Err e, j) => (decision ActionBlock "JWT-001" "JWT validation failed" "high" 85 e, ctx, j)
      | (Ok c, j) => (allow_decision, set_user (Subject c) ctx, j)
      end
  end.

Definition HasScope (c : JWTClaims) (scope : string) : bool := has_scope (Scope c) scope.
Definition HasRole (c : JWTClaims) (role : string) : bool := has_role (Roles c) role.

End validator.
(** *** What an accepted token shows *)

Section facts.
Context `{Unicode} `{SignatureVerifiers}.

(** The signature equation of a key: RSA over the SHA-256 digest for every RS
    algorithm, ECDSA over the signing input itself. *)
Definition signed_by (key : JWK) (alg : string) (data sig : list Z) : Prop :=
  (alg ∈ ["RS256"; "RS384"; "RS512"] /\ exists n e, decodeSegment (N key) = Some n /\ decodeSegment (E key) = Some e
     /\ VerifyPKCS1v15 (big_endian n) (exponent e) (sha256 data) sig = true)
  \/ (alg ∈ ["ES256"; "ES384"; "ES512"] /\ Crv key ∈ ["P-256"; "P-384"; "P-521"]
      /\ exists x y, decodeSegment (X key) = Some x /\ decodeSegment (Y key) = Some y
         /\ VerifyASN1 (Crv key) (big_endian x) (big_endian y) data sig = true).

Lemma existsb_eqb_in s l : existsb (String.eqb s) l = true -> s ∈ l.
Proof. intros (x & Hx & ->%String.eqb_eq)%existsb_exists. by apply list_elem_of_In. Qed.

Lemma verifySignature_signed p0 p1 p2 alg key :
  verifySignature p0 p1 p2 alg key = None ->
  exists sig, decodeSegment p2 = Some sig /\ signed_by key alg (bytes_of (p0 ++ "." ++ p1)) sig.
Proof.
  unfold verifySignature, signed_by. destruct (decodeSegment p2) as [sig|]; [|done]. intros Hv. exists sig. split; [done|].
  destruct (existsb (String.eqb alg) ["RS256"; "RS384"; "RS512"]) eqn:Hr.
  - left. apply existsb_eqb_in in Hr. unfold verifyRSASignature in Hv. repeat case_match; simplify_eq. eauto 6.
  - right. destruct (existsb (String.eqb alg) ["ES256"; "ES384"; "ES512"]) eqn:He; [|done]. apply existsb_eqb_in in He.
    unfold verifyECSignature in Hv. destruct (_ || _ || _); [done|].
    destruct (decodeSegment (X key)) as [x|]; [|done]. destruct (decodeSegment (Y key)) as [y|]; [|done].
    destruct (existsb (String.eqb (Crv key)) _) eqn:Hc; [|done]. apply existsb_eqb_in in Hc.
    destruct (VerifyASN1 _ _ _ _ _) eqn:E; [|done]. eauto 8.
Qed.

Lemma getKey_found now1 now2 resp kid j key j' :
  getKey now1 now2 resp kid j = (Ok key, j') -> keys j' !! kid = Some key.
Proof.
  unfold getKey. destruct (if time_before now1 (expiresAt j) then keys j !! kid else None) as [k|] eqn:E.
  - intros [= <- <-]. by destruct (time_before now1 (expiresAt j)).
  - repeat case_match; intros; by simplify_eq.
Qed.

Lemma validateClaims_ok now j c :
  validateClaims now j c = None ->
  (0 < ExpiresAt c -> now <= ExpiresAt c) /\ (0 < NotBefore c -> NotBefore c <= now)
  /\ (issuers j <> [] -> Issuer c ∈ issuers j)
  /\ (audiences j <> [] -> exists a, a ∈ Audience c /\ a ∈ audiences j).
Proof.
  unfold validateClaims. destruct ((0 <? ExpiresAt c) && (ExpiresAt c <? now)) eqn:He; [done|].
  destruct ((0 <? NotBefore c) && (now <? NotBefore c)) eqn:Hn; [done|].
  destruct ((0 <? len (issuers j)) && _) eqn:Hi; [done|]. destruct ((0 <? len (audiences j)) && _) eqn:Ha; [done|]. intros _.
  assert (forall l : list string, l <> [] -> (0 <? len l) = true) as Hl.
  { intros [|x l]; [done|]. rewrite len_cons. pose proof (len_nonneg l). intros _. apply Z.ltb_lt. lia. }
  split_and!; [lia..| |]; intros Hne; apply Hl in Hne; rewrite Hne in *; cbn [andb] in *; apply negb_false_iff, existsb_exists in Hi || apply negb_false_iff, existsb_exists in Ha.
  - destruct Hi as (x & Hx & ->%String.eqb_eq). by apply list_elem_of_In.
  - destruct Ha as (x & Hx & (y & Hy & ->%String.eqb_eq)%existsb_exists). exists x. by rewrite !list_elem_of_In.
Qed.

Lemma parse_token_ok now j token p0 p1 p2 alg kid c :
  parse_token now j token = Ok (p0, p1, p2, alg, kid, c) ->
  Split token "." = [p0; p1; p2] /\ alg <> "none" /\ isAllowedAlgorithm j alg = true
  /\ (decodeSegment p0 ≫= decode_header) = Some (alg, kid) /\ (decodeSegment p1 ≫= decode_claims) = Some c
  /\ validateClaims (time_unix now) j c = None.
Proof.
  unfold parse_token. destruct (Split token ".") as [|q0 [|q1 [|q2 [|]]]]; try done.
  destruct (decodeSegment q0) as [hdr|] eqn:E0; [|done]. destruct (decode_header hdr) as [[a k]|] eqn:Eh; [|done].
  destruct (isAllowedAlgorithm j a) eqn:Ea; [|done]. cbn [negb]. destruct (String.eqb a "none") eqn:En; [done|].
  destruct (decodeSegment q1) as [payload|] eqn:E1; [|done]. destruct (decode_claims payload) as [cl|] eqn:Ec; [|done].
  destruct (validateClaims _ _ _) eqn:Ev; [done|]. intros [= -> -> -> -> -> ->]. rewrite E0, E1. cbn.
  split_and!; try done. by apply String.eqb_neq.
Qed.

(** What acceptance of the three parts of a token stands for. *)
Definition properly_signed (p0 p1 p2 alg kid : string) (j j' : JWTValidator) : Prop :=
  exists sig, decodeSegment p2 = Some sig /\
    ((kid = "" /\ secret j <> "" /\ hmac_alg alg = true
      /\ sig = computeHMAC (bytes_of (secret j)) (bytes_of (p0 ++ "." ++ p1)) alg)
     \/ (kid <> "" /\ jwksURL j <> "" /\ exists key, keys j' !! kid = Some key
         /\ signed_by key alg (bytes_of (p0 ++ "." ++ p1)) sig)).

Lemma check_signature_signed now1 now2 resp p0 p1 p2 alg kid j j' :
  check_signature now1 now2 resp p0 p1 p2 alg kid j = (None, j') -> properly_signed p0 p1 p2 alg kid j j'.
Proof.
  unfold check_signature, properly_signed. destruct (String.eqb_spec kid "") as [->|Hk]; cbn [negb].
  - destruct (String.eqb_spec (secret j) "") as [Hs|Hs]; cbn [negb]; [by destruct (String.eqb (jwksURL j) "")|].
    destruct (hmac_alg alg) eqn:Ha; [|done]. cbn [negb]. destruct (decodeSegment p2) as [sig|]; [|done].
    case_bool_decide as Hm; [|done]. intros [= <-]. exists sig. split; [done|]. left. auto.
  - destruct (String.eqb_spec (jwksURL j) "") as [Hu|Hu]; [done|].
    destruct (getKey now1 now2 resp kid j) as [[key|e] j1] eqn:Eg; [|done].
    destruct (verifySignature p0 p1 p2 alg key) eqn:Ev; [done|]. intros [= <-].
    apply verifySignature_signed in Ev as (sig & Hd & Hs). exists sig. split; [done|]. right.
    split_and!; [done..|]. exists key. split; [|done]. by eapply getKey_found.
Qed.

(** [C16] A request that carries a bearer token is let through only for a token of
    three parts whose header names an allowed algorithm other than none, whose
    claims are in force and from a configured issuer for a configured audience,
    and whose signature is the HMAC under the configured secret when the header
    has no key id, or else verifies under the key of that id in the key set; the
    request then runs as the subject of those claims. *)
Theorem accepted_token_signed now resp ctx j token ctx' j' :
  bearer ctx = Some token -> Inspect now resp ctx j = (allow_decision, ctx', j') ->
  exists p0 p1 p2 alg kid c,
    Split token "." = [p0; p1; p2] /\ (decodeSegment p0 ≫= decode_header) = Some (alg, kid)
    /\ (decodeSegment p1 ≫= decode_claims) = Some c /\ ctx' = set_user (Subject c) ctx
    /\ alg <> "none" /\ isAllowedAlgorithm j alg = true
    /\ ((0 < ExpiresAt c -> time_unix (now 0%nat) <= ExpiresAt c) /\ (0 < NotBefore c -> NotBefore c <= time_unix (now 0%nat))
        /\ (issuers j <> [] -> Issuer c ∈ issuers j)
        /\ (audiences j <> [] -> exists a, a ∈ Audience c /\ a ∈ audiences j))
    /\ properly_signed p0 p1 p2 alg kid j j'.
Proof.
  intros Hb. unfold Inspect. rewrite Hb. unfold Validate.
  destruct (parse_token (now 0%nat) j token) as [[[[[[p0 p1] p2] alg] kid] c]|e] eqn:Ep; [|done].
  destruct (check_signature _ _ _ _ _ _ _ _ _) as [[e|] j1] eqn:Es; [done|]. intros [= <- <-].
  apply parse_token_ok in Ep as (Hs & Hn & Ha & Hh & Hc & Hv). apply check_signature_signed in Es.
  apply validateClaims_ok in Hv as (? & ? & ? & ?). exists p0, p1, p2, alg, kid, c. by split_and!.
Qed.

(** The key set is kept as long as it is young and knows the key id, and
    fetched again otherwise, before the signature is looked at: for a token of
    an unknown key id, signed by anybody, whatever the endpoint answers becomes
    the key set, and without an answer the request is refused. *)
Theorem unknown_kid_refetches now resp token j p0 p1 p2 alg kid c :
  parse_token (now 0%nat) j token = Ok (p0, p1, p2, alg, kid, c) -> kid <> "" -> jwksURL j <> "" ->
  (keys j !! kid = None \/ expiresAt j <= now 1%nat) ->
  match refreshJWKS (now 2%nat) resp j with
  | Ok j1 => snd (Validate now resp token j) = j1 /\ expiresAt j1 = now 2%nat + ttl j
             /\ (keys j1 !! kid = None -> exists e, fst (Validate now resp token j) = Err e)
  | Err _ => snd (Validate now resp token j) = j /\ exists e, fst (Validate now resp token j) = Err e
  end.
Proof.
  intros Hp Hk Hu Hc. unfold Validate. rewrite Hp. unfold check_signature.
  rewrite (proj2 (String.eqb_neq _ _) Hk), (proj2 (String.eqb_neq _ _) Hu). cbn [negb]. unfold getKey.
  replace (if time_before (now 1%nat) (expiresAt j) then keys j !! kid else None) with (@None JWK)
    by (destruct Hc as [->|Ht]; [by destruct (time_before _ _)|unfold time_before; by rewrite (proj2 (Z.ltb_ge _ _))]).
  rewrite (proj2 (String.eqb_neq _ _) Hu). destruct (refreshJWKS (now 2%nat) resp j) as [j1|e] eqn:Er; [|split; [done|eauto]].
  split_and!.
  - destruct (keys j1 !! kid) as [key|]; [|done]. by destruct (verifySignature _ _ _ _ _).
  - unfold refreshJWKS in Er. repeat case_match; by simplify_eq.
  - intros ->. cbn. eauto.
Qed.

End facts.

#[local] Existing Instance unicode_ascii.

(** Verifiers that accept nothing: only the secret counts. *)
#[local] Instance no_keys : SignatureVerifiers :=
  {| VerifyPKCS1v15 := fun _ _ _ _ => false; VerifyASN1 := fun _ _ _ _ _ => false |}.

Definition field (k v : string) : string := quoted k ++ ":" ++ quoted v.
Definition signing_input : string :=
  b64_raw_encode true (bytes_of ("{" ++ field "alg" "HS256" ++ "}")) ++ "."
  ++ b64_raw_encode true (bytes_of ("{" ++ field "sub" "alice" ++ "}")).
Definition alice : string :=
  signing_input ++ "." ++ b64_raw_encode true (computeHMAC (bytes_of "key") (bytes_of signing_input) "HS256").
Definition with_secret : JWTValidator := NewJWTValidator (JWTConfig.mk true "" [] [] ["HS256"] "key").
Definition stranger : string :=
  b64_raw_encode true (bytes_of ("{" ++ field "alg" "RS256" ++ "," ++ field "kid" "x" ++ "}")) ++ "."
  ++ b64_raw_encode true (bytes_of "{}") ++ ".AAAA".
Definition with_jwks : JWTValidator := NewJWTValidator (JWTConfig.mk true "https://idp/keys" [] [] [] "").
Definition bearing (token : string) : RequestContext :=
  mkContext None None "" "" "" "/" "GET" {["Authorization" := "Bearer " ++ token]} ∅ ∅ ∅ None "" "" "" "" "" 0 f0 f0 []
    false false 0 (lit "") "" "" "" "".

Lemma accepted_token_signed_witness :
  exists p0 p1 p2 alg kid, Split alice "." = [p0; p1; p2]
    /\ properly_signed p0 p1 p2 alg kid with_secret with_secret.
Proof.
  edestruct (accepted_token_signed (fun _ => 0) None (bearing alice) with_secret alice (set_user "alice" (bearing alice)) with_secret)
    as (p0 & p1 & p2 & alg & kid & c & Hs & _ & _ & _ & _ & _ & _ & Hp).
  - vm_compute. reflexivity.
  - vm_compute. reflexivity.
  - exists p0, p1, p2, alg, kid. exact (conj Hs Hp).
Defined.

Lemma unknown_kid_refetches_witness :
  snd (Validate (fun _ => 0) None stranger with_jwks) = with_jwks
  /\ exists e, fst (Validate (fun _ => 0) None stranger with_jwks) = Err e.
Proof.
  destruct (parse_token 0 with_jwks stranger) as [[[[[[p0 p1] p2] alg] kid] c]|] eqn:E; [|exfalso; vm_compute in E; discriminate].
  refine (unknown_kid_refetches (fun _ => 0) None stranger with_jwks p0 p1 p2 alg kid c E _ _ (or_introl _)).
  - apply (f_equal (fun r => match r with Ok (_, _, _, _, k, _) => k | Err _ => "" end)) in E. intros ->. vm_compute in E. discriminate E.
  - done.
  - done.
Defined.

End JWT.

(** ** Token introspection *)

Module OAuth.

Record TokenInfo : Type := mkInfo {
  Active : bool; Scope : string; ClientID : string; Username : string; TokenType : string; ExpiresAt : Z; IssuedAt : Z;
  NotBefore : Z; Subject : string; Audience : string; Roles : list string
}.
Record cachedToken : Type := mkCached { info : TokenInfo; expiresAt : Z }.
Record OAuthIntrospector : Type := mkIntrospector {
  introspectionURL : string; clientID : string; clientSecret : string; tokenTypeHint : string;
  tokens : gmap string cachedToken; ttl : Z
}.

Definition NewOAuthIntrospector (cfg : OAuthConfig.t) : OAuthIntrospector :=
  mkIntrospector (OAuthConfig.IntrospectionURL cfg) (OAuthConfig.ClientID cfg) (OAuthConfig.ClientSecret cfg)
    (OAuthConfig.TokenTypeHint cfg) ∅ (5 * Minute).

Definition getCached (now : Z) (token : string) (o : OAuthIntrospector) : option TokenInfo :=
  c ← tokens o !! token; if time_after now (expiresAt c) then None else Some (info c).

Definition expiry (now : Z) (i : TokenInfo) (o : OAuthIntrospector) : Z :=
  if 0 <? ExpiresAt i then time_of_unix (ExpiresAt i) else now + ttl o.
Definition cacheToken (now : Z) (token : string) (i : TokenInfo) (o : OAuthIntrospector) : OAuthIntrospector :=
  mkIntrospector (introspectionURL o) (clientID o) (clientSecret o) (tokenTypeHint o)
    (<[token := mkCached i (expiry now i o)]> (tokens o)) (ttl o).

Section introspector.
Context `{Unicode}.

Definition as_bool (v : json) : option bool := match v with JBool b => Some b | _ => None end.
Definition decode_info (v : json) : option TokenInfo :=
  l ← as_members v;
  active ← member as_bool "active" false l; scope ← member as_string "scope" "" l;
  client ← member as_string "client_id" "" l; user ← member as_string "username" "" l;
  type ← member as_string "token_type" "" l; exp ← member as_int64 "exp" 0 l; iat ← member as_int64 "iat" 0 l;
  nbf ← member as_int64 "nbf" 0 l; sub ← member as_string "sub" "" l; aud ← member as_string "aud" "" l;
  roles ← member as_strings "roles" [] l;
  Some (mkInfo active scope client user type exp iat nbf sub aud roles).

(** [resp] is the answer of the introspection endpoint, should it be asked. *)
Definition Introspect (now1 now2 : Z) (resp : answer) (token : string) (o : OAuthIntrospector)
    : result text TokenInfo * OAuthIntrospector :=
  match getCached now1 token o with
  | Some i => (Ok i, o)
  | None =>
      if String.eqb (introspectionURL o) "" then (Err (lit "introspection URL not configured"), o)
      else match resp with
           | None => (Err (lit "%w"), o)
           | Some (status, body) =>
               if negb (status =? 200) then (Err (Sprintf "introspection returned %d" [AInt status]), o)
               else match Decode body ≫= decode_info with
                    | None => (Err (lit "%w"), o)
                    | Some i => (Ok i, cacheToken now2 token i o)
                    end
           end
  end.

Definition Inspect (now1 now2 : Z) (resp : answer) (ctx : RequestContext) (o : OAuthIntrospector)
    : Decision * RequestContext * OAuthIntrospector :=
  match bearer ctx with
  | None => (allow_decision, ctx, o)
  | Some token =>
      match Introspect now1 now2 resp token o with
      | (Err e, o) => (decision ActionBlock "OAUTH-001" "OAuth token introspection failed" "high" 80 e, ctx, o)
      | (Ok i, o) =>
          if negb (Active i)
          then (decision ActionBlock "OAUTH-002" "OAuth token inactive" "high" 90 (lit "token is not active"), ctx, o)
          else (allow_decision, set_user (Subject i) ctx, o)
      end
  end.

(** A request to the inspector: two clock readings, what the endpoint would
    answer, and the context. *)
Definition request : Type := Z * Z * answer * RequestContext.
Definition step (o : OAuthIntrospector) (q : request) : OAuthIntrospector :=
  let '(now1, now2, resp, ctx) := q in snd (Inspect now1 now2 resp ctx o).
Definition run (qs : list request) (o : OAuthIntrospector) : OAuthIntrospector := fold_left step qs o.

End introspector.

Definition HasScope (i : TokenInfo) (scope : string) : bool := has_scope (Scope i) scope.
Definition HasRole (i : TokenInfo) (role : string) : bool := has_role (Roles i) role.

(** *** Lemmas *)

Section facts.
Context `{Unicode}.

Lemma getCached_live now token o c :
  tokens o !! token = Some c -> now <= expiresAt c -> getCached now token o = Some (info c).
Proof. intros Hc Hn. unfold getCached. rewrite Hc. cbn. unfold time_after. by rewrite (proj2 (Z.ltb_ge _ _)). Qed.

Lemma Introspect_keeps now1 now2 resp t token o c :
  tokens o !! token = Some c -> now1 <= expiresAt c -> tokens (snd (Introspect now1 now2 resp t o)) !! token = Some c.
Proof.
  intros Hc Hn. unfold Introspect. destruct (getCached now1 t o) as [i|] eqn:E; [done|].
  repeat case_match; try done. cbn [cacheToken snd tokens]. rewrite lookup_insert_ne; [done|].
  intros ->. by rewrite (getCached_live _ _ _ _ Hc Hn) in E.
Qed.

Lemma step_keeps q token o c :
  tokens o !! token = Some c -> fst (fst (fst q)) <= expiresAt c -> tokens (step o q) !! token = Some c.
Proof.
  intros Hc Hn. destruct q as [[[now1 now2] resp] ctx]. cbn [fst] in Hn. unfold step, Inspect.
  destruct (bearer ctx) as [t|]; [|done]. pose proof (Introspect_keeps now1 now2 resp t token o c Hc Hn) as Hk.
  destruct (Introspect now1 now2 resp t o) as [[i|e] o']; [destruct (Active i)|]; done.
Qed.

Lemma run_keeps qs token o c :
  tokens o !! token = Some c -> Forall (fun q => fst (fst (fst q)) <= expiresAt c) qs ->
  tokens (run qs o) !! token = Some c.
Proof.
  intros Hc Hall. revert o Hc. induction Hall as [|q qs Hq Hall IH]; intros o Hc; [done|].
  exact (IH (step o q) (step_keeps q token o c Hc Hq)).
Qed.

(** [C23] What the introspection endpoint said of a token once is the verdict on
    it until the expiry it named, or five minutes when it named none: through
    any requests in between, a request with the token is decided by the stored
    answer whatever the endpoint would say by then, so that a revoked token
    keeps its user until it expires. *)
Theorem introspection_outlives_revocation now1 now2 resp token o i o' qs t1 t2 resp' ctx :
  Introspect now1 now2 resp token o = (Ok i, o') -> getCached now1 token o = None ->
  bearer ctx = Some token ->
  Forall (fun q => fst (fst (fst q)) <= expiry now2 i o) qs -> t1 <= expiry now2 i o ->
  Inspect t1 t2 resp' ctx (run qs o')
  = ((if Active i then allow_decision
      else decision ActionBlock "OAUTH-002" "OAuth token inactive" "high" 90 (lit "token is not active")),
     (if Active i then set_user (Subject i) ctx else ctx), run qs o').
Proof.
  intros Hi Hc Hb Hall Ht. assert (tokens o' !! token = Some (mkCached i (expiry now2 i o))) as Ho.
  { unfold Introspect in Hi. rewrite Hc in Hi. repeat case_match; simplify_eq. apply lookup_insert_eq. }
  pose proof (run_keeps qs token o' _ Ho Hall) as Hr. unfold Inspect, Introspect. rewrite Hb.
  rewrite (getCached_live t1 token _ _ Hr Ht). cbn [info]. by destruct (Active i).
Qed.

End facts.

#[local] Existing Instance unicode_ascii.

Definition with_bearer (token : string) : RequestContext :=
  mkContext None None "" "" "" "/" "GET" {["Authorization" := "Bearer " ++ token]} ∅ ∅ ∅ None "" "" "" "" "" 0 f0 f0 []
    false false 0 (lit "") "" "" "" "".
Definition endpoint : OAuthIntrospector := NewOAuthIntrospector (OAuthConfig.mk true "https://idp/introspect" "waf" "pw" "").
Definition active_answer : answer := Some (200, "{" ++ quoted "active" ++ ":true," ++ quoted "sub" ++ ":" ++ quoted "eve" ++ "," ++ quoted "exp" ++ ":1000}").
Definition revoked_answer : answer := Some (200, "{" ++ quoted "active" ++ ":false}").

Lemma introspection_outlives_revocation_witness :
  exists o,
    Inspect (900 * Second) 0 revoked_answer (with_bearer "t") (run [(10 * Second, 0, revoked_answer, with_bearer "u")] o)
    = (allow_decision, set_user "eve" (with_bearer "t"),
       run [(10 * Second, 0, revoked_answer, with_bearer "u")] o).
Proof.
  destruct (Introspect 0 0 active_answer "t" endpoint) as [[i|] o] eqn:E; [|exfalso; vm_compute in E; discriminate].
  exists o. assert (i = mkInfo true "" "" "" "" 1000 0 0 "eve" "" []) as -> by (vm_compute in E; by simplify_eq).
  apply (introspection_outlives_revocation 0 0 active_answer "t" endpoint (mkInfo true "" "" "" "" 1000 0 0 "eve" "" []) o
    [(10 * Second, 0, revoked_answer, with_bearer "u")] (900 * Second) 0 revoked_answer (with_bearer "t")); [done|by vm_compute..| |].
  - by repeat constructor; vm_compute.
  - by vm_compute.
Defined.

End OAuth.
