(* ===== verification/Pipeline.v ===== *)
(** * The configured engine: [buildEngineConfig] of [cmd/proxy/main.go]

    The modelled inspectors as inspectors of [Engine], over one world that
    holds their states, the clock, the random source and the answers of other
    servers, and the engine configuration built from a [Config]. All 25 slots are
    filled as the code fills them. No request's context holds a connection for the mTLS
    inspector. A handler that panics may leave less behind than it had done:
    the state of an operation that panics is the one before it. *)

From S2P Require Import Prelude Float64 GoStr Types Targets.
From S2P Require Config Confidence Engine Performance Rce Xss Sqli GraphQL Desync ParserHardener Protocol Bot ApiProtect.
From S2P Require Adaptive Behavioral Ddos WebSocket Credential Upload Ja3 Mtls Wasm Auth.
Import Engine (inspection, Decided, Failed, Crashed, Fatal, Inspector, mkInspector, Name, inspect, EngineConfig, Slot, call_env).

#[local] Open Scope string_scope.
#[local] Open Scope Z_scope.

(** ** The world *)

Record World (Spec Mod : Type) : Type := mkWorld {
  clock : nat -> Z;
  reads : nat;
  random : nat -> option (list Z);
  draws : nat;
  ddos : Ddos.DDoSProtection;
  credential : Credential.CredentialProtection;
  websocket : WebSocket.WebSocketInspector;
  grpc : Protocol.Grpc.GRPCInspector;
  api : ApiProtect.APIProtection Spec;
  behavioral : Behavioral.BehavioralEngine;
  adaptive : Adaptive.AdaptiveChallenge;
  ja3 : Ja3.JA3Inspector;
  wasm : Wasm.Wasm.WASMInspector Mod;
  jwt : Auth.JWT.JWTValidator;
  oauth : Auth.OAuth.OAuthIntrospector;
  replies : nat -> Auth.answer;
  asked : nat
}.
Arguments mkWorld {Spec Mod}.
Arguments clock {Spec Mod}.
Arguments reads {Spec Mod}.
Arguments random {Spec Mod}.
Arguments draws {Spec Mod}.
Arguments ddos {Spec Mod}.
Arguments credential {Spec Mod}.
Arguments websocket {Spec Mod}.
Arguments grpc {Spec Mod}.
Arguments api {Spec Mod}.
Arguments behavioral {Spec Mod}.
Arguments adaptive {Spec Mod}.
Arguments ja3 {Spec Mod}.
Arguments wasm {Spec Mod}.
Arguments jwt {Spec Mod}.
Arguments oauth {Spec Mod}.
Arguments replies {Spec Mod}.
Arguments asked {Spec Mod}.

Section world.
Context {Spec Mod : Type}.
Implicit Types w : World Spec Mod.

Definition set_sources (r d a : nat) w : World Spec Mod :=
  mkWorld (clock w) r (random w) d (ddos w) (credential w) (websocket w) (grpc w) (api w) (behavioral w)
    (adaptive w) (ja3 w) (wasm w) (jwt w) (oauth w) (replies w) a.
Definition set_ddos x w : World Spec Mod :=
  mkWorld (clock w) (reads w) (random w) (draws w) x (credential w) (websocket w) (grpc w) (api w)
    (behavioral w) (adaptive w) (ja3 w) (wasm w) (jwt w) (oauth w) (replies w) (asked w).
Definition set_credential x w : World Spec Mod :=
  mkWorld (clock w) (reads w) (random w) (draws w) (ddos w) x (websocket w) (grpc w) (api w)
    (behavioral w) (adaptive w) (ja3 w) (wasm w) (jwt w) (oauth w) (replies w) (asked w).
Definition set_websocket x w : World Spec Mod :=
  mkWorld (clock w) (reads w) (random w) (draws w) (ddos w) (credential w) x (grpc w) (api w)
    (behavioral w) (adaptive w) (ja3 w) (wasm w) (jwt w) (oauth w) (replies w) (asked w).
Definition set_grpc x w : World Spec Mod :=
  mkWorld (clock w) (reads w) (random w) (draws w) (ddos w) (credential w) (websocket w) x (api w)
    (behavioral w) (adaptive w) (ja3 w) (wasm w) (jwt w) (oauth w) (replies w) (asked w).
Definition set_api x w : World Spec Mod :=
  mkWorld (clock w) (reads w) (random w) (draws w) (ddos w) (credential w) (websocket w) (grpc w) x
    (behavioral w) (adaptive w) (ja3 w) (wasm w) (jwt w) (oauth w) (replies w) (asked w).
Definition set_behavioral x w : World Spec Mod :=
  mkWorld (clock w) (reads w) (random w) (draws w) (ddos w) (credential w) (websocket w) (grpc w) (api w)
    x (adaptive w) (ja3 w) (wasm w) (jwt w) (oauth w) (replies w) (asked w).
Definition set_adaptive x w : World Spec Mod :=
  mkWorld (clock w) (reads w) (random w) (draws w) (ddos w) (credential w) (websocket w) (grpc w) (api w)
    (behavioral w) x (ja3 w) (wasm w) (jwt w) (oauth w) (replies w) (asked w).
Definition set_ja3 x w : World Spec Mod :=
  mkWorld (clock w) (reads w) (random w) (draws w) (ddos w) (credential w) (websocket w) (grpc w) (api w)
    (behavioral w) (adaptive w) x (wasm w) (jwt w) (oauth w) (replies w) (asked w).
Definition set_wasm x w : World Spec Mod :=
  mkWorld (clock w) (reads w) (random w) (draws w) (ddos w) (credential w) (websocket w) (grpc w) (api w)
    (behavioral w) (adaptive w) (ja3 w) x (jwt w) (oauth w) (replies w) (asked w).
Definition set_jwt x w : World Spec Mod :=
  mkWorld (clock w) (reads w) (random w) (draws w) (ddos w) (credential w) (websocket w) (grpc w) (api w)
    (behavioral w) (adaptive w) (ja3 w) (wasm w) x (oauth w) (replies w) (asked w).
Definition set_oauth x w : World Spec Mod :=
  mkWorld (clock w) (reads w) (random w) (draws w) (ddos w) (credential w) (websocket w) (grpc w) (api w)
    (behavioral w) (adaptive w) (ja3 w) (wasm w) (jwt w) x (replies w) (asked w).

(** [time.Now()], [n] times. *)
Definition now (i : nat) w : Z := clock w (reads w + i).
Definition pass (n : nat) w : World Spec Mod := set_sources (reads w + n) (draws w) (asked w) w.
(** The answer of another server, should it be asked. *)
Definition reply w : Auth.answer := replies w (asked w).
Definition ask w : World Spec Mod := set_sources (reads w) (draws w) (S (asked w)) w.

End world.

(** ** The inspectors *)

Section inspectors.
Context {Spec Mod : Type}.
Context `{Unicode} `{RuneClasses} `{Sqli.RuneCap} `{ParserHardener.UnicodeC} `{Behavioral.Log2} `{Behavioral.RuneOrder}.
Context `{Bot.ReverseDns} `{Protocol.Captcha.SiteVerify} `{WebSocket.MessageTypes}.
Context `{Upload.MultipartReader} `{Ja3.TlsState} {Pool : Type} `{Mtls.CaFiles Pool}.
Context `{Wasm.Wasm.WasmRuntime Mod} `{Auth.JWT.SignatureVerifiers} `{MapRange (Wasm.Wasm.wasmInspectorDef Mod)}.
Context `{MapRange string} `{MapRange (list string)} `{MapRange Z}.

#[local] Abbreviation handler := (RequestContext -> World Spec Mod -> inspection * RequestContext * World Spec Mod).

Definition pure (f : RequestContext -> option Decision) : handler := fun ctx w => (Decided (f ctx), ctx, w).

Definition nil_pointer : text := lit "runtime error".

Definition parser_handler : handler := fun ctx w =>
  match ParserHardener.Inspect ctx with
  | ParserHardener.Answer d => (Decided d, ctx, w)
  | ParserHardener.StackOverflow => (Fatal, ctx, w)
  end.
Definition behavioral_handler : handler := fun ctx w =>
  let '(o, e) := Behavioral.Inspect (now 0 w) ctx (behavioral w) in
  (match o with Returns d => Decided d | Panics => Crashed nil_pointer end, ctx, set_behavioral e (pass 1 w)).
Definition adaptive_handler : handler := fun ctx w =>
  match Adaptive.Inspect (now 0 w) (now 1 w) (random w (draws w)) ctx (adaptive w) with
  | Returns (d, ctx, ac) => (Decided d, ctx, set_adaptive ac (set_sources (reads w + 2) (S (draws w)) (asked w) w))
  | Panics => (Crashed nil_pointer, ctx, w)
  end.
Definition captcha_handler (cv : Protocol.Captcha.CAPTCHAVerifier) : handler := fun ctx w =>
  (match Protocol.Captcha.Inspect cv ctx with
   | Returns (Ok d) => Decided d
   | Returns (Err e) => Failed e
   | Panics => Crashed nil_pointer
   end, ctx, w).
Definition grpc_handler : handler := fun ctx w =>
  let '(d, g) := Protocol.Grpc.Inspect (now 0 w) ctx (grpc w) in (Decided d, ctx, set_grpc g (pass 1 w)).
Definition bot_handler : handler := fun ctx w => let '(d, ctx) := Bot.Inspect ctx in (Decided d, ctx, w).
Definition ddos_handler : handler := fun ctx w =>
  let clk := Ddos.mkClock (now 0 w) (now 1 w) (now 2 w) (now 3 w) (now 4 w) (now 5 w) in
  match Ddos.Inspect clk ctx (ddos w) with
  | Returns (d, s) => (Decided d, ctx, set_ddos s (pass 6 w))
  | Panics => (Crashed nil_pointer, ctx, pass 6 w)
  end.
Definition sqli_handler : handler := fun ctx w =>
  (match Sqli.Inspect ctx with Returns d => Decided d | Panics => Crashed nil_pointer end, ctx, w).
Definition api_handler : handler := fun ctx w =>
  let '(d, p) := ApiProtect.Inspect ctx (api w) in (Decided d, ctx, set_api p w).
Definition credential_handler : handler := fun ctx w =>
  let '(d, c) := Credential.Inspect (now 0 w) ctx (credential w) in (Decided d, ctx, set_credential c (pass 1 w)).
Definition websocket_handler : handler := fun ctx w =>
  let '(d, s) := WebSocket.Inspect (now 0 w) ctx (websocket w) in (Decided (Some d), ctx, set_websocket s (pass 1 w)).
Definition upload_handler (u : Upload.FileUploadSecurity) : handler := fun ctx w =>
  (match Upload.Inspect u ctx with Returns d => Decided d | Panics => Crashed nil_pointer end, ctx, w).
Definition ja3_handler : handler := fun ctx w =>
  match Ja3.Inspect ctx (ja3 w) with
  | Returns (d, ctx, j) => (Decided d, ctx, set_ja3 j w)
  | Panics => (Crashed nil_pointer, ctx, w)
  end.
Definition mtls_handler (m : Mtls.MTLSInspector Pool) : handler := fun ctx w =>
  match Mtls.Inspect None ctx m with
  | Returns (d, ctx) => (Decided (Some d), ctx, w)
  | Panics => (Crashed nil_pointer, ctx, w)
  end.

Definition wasm_handler : handler := fun ctx w =>
  let '(d, m) := Wasm.Wasm.Inspect ctx (wasm w) in (Decided d, ctx, set_wasm m w).
Definition jwt_handler : handler := fun ctx w =>
  let '(d, ctx, j) := Auth.JWT.Inspect (fun i => now i w) (reply w) ctx (jwt w) in
  (Decided (Some d), ctx, set_jwt j (ask (pass 3 w))).
Definition oauth_handler : handler := fun ctx w =>
  let '(d, ctx, o) := Auth.OAuth.Inspect (now 0 w) (now 1 w) (reply w) ctx (oauth w) in
  (Decided (Some d), ctx, set_oauth o (ask (pass 2 w))).
Definition ebpf_handler (e : Wasm.Ebpf.EBPFTelemetry) : handler := pure (fun ctx => Wasm.Ebpf.Inspect ctx e).

(** ** [buildEngineConfig] *)

Definition graphql_config (c : Config.GraphQLConfig.t) : GraphQL.GraphQLConfig :=
  GraphQL.mkGraphQLConfig (Config.GraphQLConfig.MaxDepth c) (Config.GraphQLConfig.MaxCost c)
    (Config.GraphQLConfig.MaxAliases c) (Config.GraphQLConfig.MaxBatchSize c) (Config.GraphQLConfig.MaxTokens c)
    (Config.GraphQLConfig.BlockIntrospection c) (Config.GraphQLConfig.BlockSchema c)
    (Config.GraphQLConfig.AllowedOperations c) (Config.GraphQLConfig.RestrictedFields c)
    (Config.GraphQLConfig.StrictValidation c).
Definition websocket_config (c : Config.WebSocketConfig.t) : WebSocket.WebSocketConfig :=
  WebSocket.mkWSConfig (Config.WebSocketConfig.MaxFrameSize c) (Config.WebSocketConfig.MaxDepth c)
    (Config.WebSocketConfig.MaxFramesPerMin c) (Config.WebSocketConfig.BlockOnLimit c)
    (Config.WebSocketConfig.AllowedTypes c) (Config.WebSocketConfig.StrictMode c)
    (Config.WebSocketConfig.EnablePing c) (Config.WebSocketConfig.EnablePong c) (Config.WebSocketConfig.EnableClose c).
Definition behavioral_config (dev : bool) (c : Config.BehavioralConfig.t) : Behavioral.BehavioralEngine :=
  Behavioral.NewBehavioralEngine dev (Config.BehavioralConfig.Reputation c) (Config.BehavioralConfig.Velocity c)
    (Config.BehavioralConfig.PathEntropy c) (Config.BehavioralConfig.Threshold c)
    (Config.BehavioralConfig.WindowSec c) (Config.BehavioralConfig.MaxRequests c).
Definition adaptive_config (c : Config.AdaptiveConfig.t) : Adaptive.AdaptiveChallenge :=
  Adaptive.NewAdaptiveChallenge (Config.AdaptiveConfig.JSScriptPath c) (Config.AdaptiveConfig.TarpitDelayMs c)
    (Config.AdaptiveConfig.CAPTCHAScore c) (Config.AdaptiveConfig.ChallengeTTL c).
Definition credential_config (c : Config.CredentialConfig.t) : Credential.CredentialProtection :=
  Credential.NewCredentialProtection (Config.CredentialConfig.MaxAttempts c) (Config.CredentialConfig.WindowSec c)
    (Config.CredentialConfig.BlockDurationSec c) (Config.CredentialConfig.LoginPaths c).
Definition captcha_config (c : Config.CAPTCHAConfig.t) : Protocol.Captcha.CAPTCHAVerifier :=
  Protocol.Captcha.NewCAPTCHAVerifier (Config.CAPTCHAConfig.Provider c) (Config.CAPTCHAConfig.Secret c)
    (Config.CAPTCHAConfig.SiteKey c) (Config.CAPTCHAConfig.Score c).
Definition soap_config (c : Config.SOAPConfig.t) : Protocol.Soap.SOAPValidator :=
  Protocol.Soap.NewSOAPValidator (Config.SOAPConfig.StrictSchema c) (Config.SOAPConfig.MaxDepth c).
Definition grpc_config (c : Config.GRPCConfig.t) : Protocol.Grpc.GRPCInspector :=
  Protocol.Grpc.NewGRPCInspector (Config.GRPCConfig.MaxMsgSize c) (Config.GRPCConfig.RateLimit c).
Definition desync_config (c : Config.DesyncConfig.t) : Desync.DesyncDetector :=
  Desync.NewDesyncDetector (Config.DesyncConfig.MaxBodySize c) (Config.DesyncConfig.StrictCL c)
    (Config.DesyncConfig.DetectOBSFold c).

Definition ebpf_config (c : Config.EBPFConfig.t) : Wasm.Ebpf.EBPFTelemetry :=
  Wasm.Ebpf.NewEBPFTelemetry (Config.EBPFConfig.Interface c) (Config.EBPFConfig.Port c) (Config.EBPFConfig.SampleRate c).

(** The states the inspectors start with. *)
Definition new_world (dev : bool) (empty : Spec) (clk : nat -> Z) (rnd : nat -> option (list Z))
    (net : nat -> Auth.answer) (cfg : Config.Config.t) : World Spec Mod :=
  mkWorld clk 0 rnd 0 Ddos.NewDDoSProtection (credential_config (Config.Config.Credential cfg))
    (WebSocket.NewWebSocketInspector (websocket_config (Config.Config.WebSocket cfg)))
    (grpc_config (Config.Config.GRPC cfg)) (ApiProtect.NewAPIProtection empty)
    (behavioral_config dev (Config.Config.Behavioral cfg)) (adaptive_config (Config.Config.Adaptive cfg))
    (Ja3.NewJA3Inspector dev)
    (Wasm.Wasm.NewWASMInspector (Config.WASMConfig.ModuleDir (Config.Config.WASM cfg))
       (Config.WASMConfig.MaxMemoryPages (Config.Config.WASM cfg)) (Config.WASMConfig.Modules (Config.Config.WASM cfg)))
    (Auth.JWT.NewJWTValidator (Config.Config.JWT cfg)) (Auth.OAuth.NewOAuthIntrospector (Config.Config.OAuth cfg)) net 0.

(** Whether a slot is filled, and with which handler. *)
Definition slot_enabled (cfg : Config.Config.t) (s : Slot) : bool :=
  match s with
  | Engine.SParser => Config.ParserHardeningConfig.Enabled (Config.Config.ParserHardening cfg)
  | Engine.SDesync => Config.DesyncConfig.Enabled (Config.Config.Desync cfg)
  | Engine.SJA3 => Config.JA3Config.Enabled (Config.Config.JA3 cfg)
  | Engine.SBehavioral => Config.BehavioralConfig.Enabled (Config.Config.Behavioral cfg)
  | Engine.SAdaptive => Config.AdaptiveConfig.Enabled (Config.Config.Adaptive cfg)
  | Engine.SWASM => Config.WASMConfig.Enabled (Config.Config.WASM cfg)
  | Engine.SCAPTCHA => Config.CAPTCHAConfig.Enabled (Config.Config.CAPTCHA cfg)
  | Engine.SJWT => Config.JWTConfig.Enabled (Config.Config.JWT cfg)
  | Engine.SOAuth => Config.OAuthConfig.Enabled (Config.Config.OAuth cfg)
  | Engine.SMTLS => Config.MTLSConfig.Enabled (Config.Config.MTLS cfg)
  | Engine.SGraphQL => Config.GraphQLConfig.Enabled (Config.Config.GraphQL cfg)
  | Engine.SGRPC => Config.GRPCConfig.Enabled (Config.Config.GRPC cfg)
  | Engine.SSOAP => Config.SOAPConfig.Enabled (Config.Config.SOAP cfg)
  | Engine.SBot => Config.BotConfig.Enabled (Config.Config.Bot cfg)
  | Engine.SDDoS => Config.DDoSConfig.Enabled (Config.Config.DDoS cfg)
  | Engine.SSQLI => Config.SQLIConfig.Enabled (Config.Config.SQLI cfg)
  | Engine.SXSS => Config.XSSConfig.Enabled (Config.Config.XSS cfg)
  | Engine.SAPIProtect => Config.APIProtectConfig.Enabled (Config.Config.APIProtect cfg)
  | Engine.SRCE => Config.RCEConfig.Enabled (Config.Config.RCE cfg)
  | Engine.SProtocol => Config.ProtocolConfig.Enabled (Config.Config.Protocol cfg)
  | Engine.SUpload => Config.UploadConfig.Enabled (Config.Config.Upload cfg)
  | Engine.SCredential => Config.CredentialConfig.Enabled (Config.Config.Credential cfg)
  | Engine.SWebSocket => Config.WebSocketConfig.Enabled (Config.Config.WebSocket cfg)
  | Engine.SRespInspect => Config.ResponseInspectConfig.Enabled (Config.Config.RespInspect cfg)
  | Engine.SEBPF => Config.EBPFConfig.Enabled (Config.Config.EBPF cfg)
  end.

(** An mTLS inspector that cannot be made leaves its slot empty. The telemetry
    is never started. *)
Definition slot_handler (dev : bool) (cfg : Config.Config.t) (s : Slot) : option handler :=
  match s with
  | Engine.SParser => Some parser_handler
  | Engine.SDesync => Some (pure (Desync.Inspect (desync_config (Config.Config.Desync cfg))))
  | Engine.SBehavioral => Some behavioral_handler
  | Engine.SAdaptive => Some adaptive_handler
  | Engine.SCAPTCHA => Some (captcha_handler (captcha_config (Config.Config.CAPTCHA cfg)))
  | Engine.SGraphQL =>
      Some (pure (fun ctx => Some (GraphQL.Inspect (GraphQL.NewGraphQLInspector (graphql_config (Config.Config.GraphQL cfg))) ctx)))
  | Engine.SGRPC => Some grpc_handler
  | Engine.SSOAP => Some (pure (Protocol.Soap.Inspect (soap_config (Config.Config.SOAP cfg))))
  | Engine.SBot => Some bot_handler
  | Engine.SDDoS => Some ddos_handler
  | Engine.SSQLI => Some sqli_handler
  | Engine.SXSS => Some (pure Xss.Inspect)
  | Engine.SAPIProtect => Some api_handler
  | Engine.SRCE => Some (pure Rce.Inspect)
  | Engine.SProtocol => Some (pure Protocol.Anomaly.Inspect)
  | Engine.SCredential => Some credential_handler
  | Engine.SWebSocket => Some websocket_handler
  | Engine.SRespInspect => Some (pure (fun _ => None))
  | Engine.SUpload => Some (upload_handler (Upload.NewFileUploadSecurity dev))
  | Engine.SJA3 => Some ja3_handler
  | Engine.SMTLS =>
      match Mtls.NewMTLSInspector (Pool := Pool) (Config.Config.MTLS cfg) with Ok m => Some (mtls_handler m) | Err _ => None end
  | Engine.SWASM => Some wasm_handler
  | Engine.SJWT => Some jwt_handler
  | Engine.SOAuth => Some oauth_handler
  | Engine.SEBPF => Some (ebpf_handler (ebpf_config (Config.Config.EBPF cfg)))
  end.

Definition buildEngineConfig (cfg : Config.Config.t) (dev : bool)
    : EngineConfig (World Spec Mod) :=
  Engine.mkConfig dev (Config.ShadowModeConfig.Enabled (Config.Config.ShadowMode cfg))
    (Config.LearningModeConfig.Enabled (Config.Config.LearningMode cfg))
    (Config.PerformanceConfig.MaxRegexMs (Config.Config.Performance cfg))
    (Config.PerformanceConfig.MaxWASMMs (Config.Config.Performance cfg))
    (Config.PerformanceConfig.Enabled (Config.Config.Performance cfg))
    (fun s => if slot_enabled cfg s then mkInspector (Engine.builtin_name s) <$> slot_handler dev cfg s else None).

End inspectors.

(** ** A run of the engine *)

Section run.
Context {Spec Mod : Type}.
#[local] Abbreviation handler := (RequestContext -> World Spec Mod -> inspection * RequestContext * World Spec Mod).

(** What the request that carries [P] sees of a handler: the headers stay. *)
Definition keeps_headers (f : handler) : Prop := forall ctx w, Headers (f ctx w).1.2 = Headers ctx.

(** The inspectors of [buildEngineConfig] are careful with the headers. *)
Definition tame (o : option (Inspector (World Spec Mod))) : Prop :=
  match o with None => True | Some ins => keeps_headers (inspect ins) end.

Context `{Confidence.TextLen}.
Implicit Types envs : nat -> call_env (World Spec Mod).

(** An inspector [f] that blocks whenever [P] holds of the headers decides:
    unless an earlier one blocks, panics or ends the process. *)
Lemma loop_blocked (P : gmap string string -> Prop) (f : handler) name envs l e ctx w :
  Engine.perfMgmt e = None -> Engine.shadowMode e = false -> Forall tame l -> Some (mkInspector name f) ∈ l ->
  (forall ctx w, P (Headers ctx) -> exists d ctx' w', f ctx w = (Decided (Some d), ctx', w') /\ d_Action d = ActionBlock) ->
  P (Headers ctx) ->
  match Engine.inspect_loop envs l e ctx w with
  | Returned (d, _, _, _) => d_Action d = ActionBlock
  | _ => True
  end.
Proof.
  intros Hp Hs Hl Hin Hf. revert envs e ctx w Hp Hs. induction Hl as [|o l Ho Hl IH]; intros envs e ctx w Hp Hs HP.
  { by apply elem_of_nil in Hin. }
  apply elem_of_cons in Hin as [<-|Hin].
  - cbn [Engine.inspect_loop]. unfold Engine.call, Engine.call_directly. rewrite Hp. cbn [inspect].
    destruct (Hf ctx w HP) as (d & ctx' & w' & -> & Hb). cbn [end_bind].
    match goal with |- context [Engine.annotate ?env ?i ?e ?c ?d] =>
      destruct (Engine.annotate_spec env i e c d) as (Ha & _ & Hs' & _);
      destruct (Engine.annotate env i e c d) as [d' e'] end. cbn [fst snd] in *.
    rewrite Ha, Hb, Hs', Hs. cbn [is_block negb andb]. congruence.
  - destruct o as [ins|]; [|by apply IH]. cbn [Engine.inspect_loop].
    unfold Engine.call, Engine.call_directly. rewrite Hp. specialize (Ho ctx w).
    destruct (inspect ins ctx w) as [[r ctx'] w']. cbn [fst snd] in Ho. rewrite <- Ho in HP.
    destruct r as [[d|]|er|cr|]; cbn [end_bind]; [|by apply IH..|done|done].
    match goal with |- context [Engine.annotate ?env ?i ?e ?c ?d] =>
      destruct (Engine.annotate_spec env i e c d) as (Ha & _ & Hs' & Hp');
      destruct (Engine.annotate env i e c d) as [d' e'] end. cbn [fst snd] in *.
    destruct (is_block (d_Action d') && negb (Engine.shadowMode e')) eqn:Eb.
    + by apply andb_prop in Eb as [Eb%is_block_true _].
    + apply IH; [done|congruence|congruence|]. unfold Engine.log_decision, set_inspection. by destruct (is_block _).
Qed.

End run.

Section built.
Context {Spec Mod : Type}.
Context `{Unicode} `{RuneClasses} `{Sqli.RuneCap} `{ParserHardener.UnicodeC} `{Behavioral.Log2} `{Behavioral.RuneOrder}.
Context `{Bot.ReverseDns} `{Protocol.Captcha.SiteVerify} `{WebSocket.MessageTypes}.
Context `{Upload.MultipartReader} `{Ja3.TlsState} {Pool : Type} `{Mtls.CaFiles Pool}.
Context `{Wasm.Wasm.WasmRuntime Mod} `{Auth.JWT.SignatureVerifiers} `{MapRange (Wasm.Wasm.wasmInspectorDef Mod)}.
Context `{MapRange string} `{MapRange (list string)} `{MapRange Z}.

Lemma ja3_keeps : keeps_headers (Spec := Spec) (Mod := Mod) ja3_handler.
Proof.
  intros ctx w. unfold ja3_handler, Ja3.Inspect. destruct (String.eqb (TLSVersion ctx) ""); [done|].
  destruct (Request ctx) as [r|]; [|done]. destruct (Ja3.tls_of r) as [st|]; [|done]. cbv zeta. by destruct (Ja3.check_hash _ _).
Qed.

Lemma mtls_slot_keeps dev cfg f : slot_handler dev cfg Engine.SMTLS = Some f -> keeps_headers (Spec := Spec) (Mod := Mod) f.
Proof.
  cbn [slot_handler]. destruct (Mtls.NewMTLSInspector (Config.Config.MTLS cfg)) as [m|]; [|done]. intros [= <-] ctx w.
  unfold mtls_handler, Mtls.Inspect. destruct (negb _); [done|]. by destruct (Request ctx).
Qed.

Lemma slot_handler_keeps dev cfg s f : slot_handler dev cfg s = Some f -> keeps_headers (Spec := Spec) (Mod := Mod) f.
Proof.
  intros E. destruct (Engine.Slot_eq_dec s Engine.SMTLS) as [->|Hs]; [by apply (mtls_slot_keeps dev cfg)|].
  destruct s; cbn [slot_handler] in E; try done; injection E as <-; intros ctx w;
    unfold pure, parser_handler, behavioral_handler, captcha_handler, grpc_handler, ddos_handler, sqli_handler,
      api_handler, credential_handler, websocket_handler, upload_handler, ebpf_handler; try done.
  - by destruct (ParserHardener.Inspect ctx).
  - apply ja3_keeps.
  - by destruct (Behavioral.Inspect _ _ _).
  - unfold adaptive_handler, Adaptive.Inspect, Adaptive.escalate, out_bind. cbv zeta. repeat case_match; simplify_eq/=; done.
  - unfold wasm_handler. by destruct (Wasm.Wasm.Inspect _ _).
  - unfold jwt_handler, Auth.JWT.Inspect. repeat case_match; simplify_eq/=; done.
  - unfold oauth_handler, Auth.OAuth.Inspect. repeat case_match; simplify_eq/=; done.
  - by destruct (Protocol.Grpc.Inspect _ _ _).
  - unfold bot_handler, Bot.Inspect. repeat case_match; simplify_eq/=; done.
  - by destruct (Ddos.Inspect _ _ _) as [[]|].
  - by destruct (ApiProtect.Inspect _ _).
  - by destruct (Credential.Inspect _ _ _).
  - by destruct (WebSocket.Inspect _ _ _).
Qed.

Lemma built_tame procs cfg dev : Forall (tame (Spec := Spec) (Mod := Mod)) (Engine.inspectors (Engine.New procs (buildEngineConfig cfg dev))).
Proof.
  apply Forall_fmap, Forall_forall. intros s _. cbn. destruct (slot_enabled cfg s); [|done].
  destruct (slot_handler dev cfg s) as [f|] eqn:E; [|done]. by eapply slot_handler_keeps.
Qed.

Lemma built_member procs cfg dev s (f : RequestContext -> World Spec Mod -> inspection * RequestContext * World Spec Mod) :
  slot_enabled cfg s = true -> slot_handler dev cfg s = Some f ->
  Some (mkInspector (Engine.builtin_name s) f) ∈ Engine.inspectors (Engine.New procs (buildEngineConfig cfg dev)).
Proof.
  intros He Hf. apply list_elem_of_fmap. exists s. cbn. rewrite He, Hf. split; [done|].
  unfold Engine.inspection_order. rewrite !elem_of_cons. destruct s; tauto.
Qed.

(** The parser hardener comes first. *)
Lemma built_head procs cfg dev :
  slot_enabled cfg Engine.SParser = true ->
  exists rest, Engine.inspectors (Engine.New procs (buildEngineConfig cfg dev)) =
               Some (mkInspector (W := World Spec Mod) "parser_hardener" parser_handler) :: rest.
Proof.
  intros Hon. cbn in Hon |- *. rewrite Hon. by eexists.
Qed.

End built.
