(* ===== verification/Proxy.v ===== *)
(** * The proxy: [cmd/proxy/main.go]

    The WAF handler with its proxies and counters, configuration reloads, the
    challenge page and the handlers of the administration server.
    [url.Parse] is an instance of [UrlParse], as are the other services; the
    router, the servers and the upstream's answer are not modelled. A panic ends
    its request only; the engine and the inspectors stay as it leaves them. *)

From stdpp Require Import pretty.
From S2P Require Import Prelude Float64 GoStr Crypto Types.
From S2P Require Json Config Confidence Engine Pipeline ParserHardener Regexp Rce Sqli Behavioral Bot Protocol WebSocket Wasm Auth.
Import Pipeline (World).

#[local] Open Scope string_scope.
#[local] Open Scope Z_scope.

Class UrlParse : Type := { URL : Type; url_parse : string -> option URL }.

(** ** Answers *)

Inductive reply_body : Type :=
| Json (fields : list (string * text))
| Object (members : list (string * Json.json))
| Lines (l : list text)
| Page (html : string)
| NoBody.

(** A reply of the proxy itself; a request handed to a site's upstream with
    the headers already set; the end of the process; a panic of the handler. *)
Inductive served {U : Type} : Type :=
| Reply (status : Z) (headers : list (string * string)) (body : reply_body)
| Forward (headers : list (string * string)) (target : U)
| Dead
| Aborted.
Arguments served : clear implicits.

Definition writeJSON {U} (status : Z) (fields : list (string * text)) : served U :=
  Reply status [("Content-Type", "application/json")] (Json fields).

(** ** The challenge page *)

(** Written with backquotes for the double quotes. *)
Definition html (s : string) : string :=
  smap (fun c => if Ascii.eqb c "`" then ascii_of_nat 34 else c) s.
Definition nl : string := String (ascii_of_nat 10) "".

Definition page_head : string :=
  html (String.concat nl
    ["<!DOCTYPE html>"; "<html>"; "<head><title>Security Challenge</title></head>";
     "<body style=`display:flex;justify-content:center;align-items:center;height:100vh;margin:0;font-family:monospace;background:#1a1a2e;color:#e0e0e0;`>";
     "<div style=`text-align:center;padding:40px;border:1px solid #333;border-radius:8px;background:#16213e;`>";
     "<h2>Security Verification</h2>"; "<p>Please wait while we verify your browser...</p>";
     "<form id=`cf-form` action=`/__challenge` method=`POST`>";
     "<input type=`hidden` name=`challenge_token` value=`"]).
Definition page_path : string :=
  html ("`>" ++ nl ++ "<input type=`hidden` name=`original_path` value=`").
Definition page_script : string :=
  html (String.concat nl ["`>"; "</form>"; "<script>"; "setTimeout(function(){"; "  var elapsed = (Date.now() / 1000 | 0) - "]).
Definition page_tail : string :=
  html (String.concat nl
    [";"; "  if(elapsed > 2) {"; "    document.getElementById(`cf-form`).submit();"; "  }"; "}, 2500);"; "</script>";
     "<noscript><p>JavaScript is required. Please enable JavaScript and try again.</p>";
     "<button type=`submit` form=`cf-form`>Continue</button></noscript>"; "</div>"; "</body>"; "</html>"]).

Definition challengePage (rnd : option (list Z)) (now : Z) (r : http_Request) : string :=
  match rnd with
  | None => "<h1>Internal error</h1>"
  | Some tokenBytes =>
      page_head ++ hex tokenBytes ++ page_path ++ req_URL_Path r ++ page_script ++ pretty (time_unix now) ++ page_tail
  end.

(** ** The WAF handler *)

Record Counters : Type := mkCounters {
  totalRequests : Z; blockedRequests : Z; allowedRequests : Z; challengedReqs : Z;
  rateLimitedReqs : Z; monitoredReqs : Z
}.
Definition no_requests : Counters := mkCounters 0 0 0 0 0 0.
Definition count_total (c : Counters) : Counters :=
  mkCounters (incr (totalRequests c)) (blockedRequests c) (allowedRequests c) (challengedReqs c) (rateLimitedReqs c) (monitoredReqs c).
Definition count_blocked (c : Counters) : Counters :=
  mkCounters (totalRequests c) (incr (blockedRequests c)) (allowedRequests c) (challengedReqs c) (rateLimitedReqs c) (monitoredReqs c).
Definition count_action (a : Action) (c : Counters) : Counters :=
  match a with
  | ActionBlock => count_blocked c
  | ActionChallenge =>
      mkCounters (totalRequests c) (blockedRequests c) (allowedRequests c) (incr (challengedReqs c)) (rateLimitedReqs c) (monitoredReqs c)
  | ActionMonitor =>
      mkCounters (totalRequests c) (blockedRequests c) (allowedRequests c) (challengedReqs c) (rateLimitedReqs c) (incr (monitoredReqs c))
  | ActionRateLimit =>
      mkCounters (totalRequests c) (blockedRequests c) (allowedRequests c) (challengedReqs c) (incr (rateLimitedReqs c)) (monitoredReqs c)
  | ActionAllow | ActionOther _ =>
      mkCounters (totalRequests c) (blockedRequests c) (incr (allowedRequests c)) (challengedReqs c) (rateLimitedReqs c) (monitoredReqs c)
  end.

Section proxy.
Context {Spec Mod : Type} `{UrlParse} `{Confidence.TextLen}.

(** [h.proxies]: the parsed upstream of each site. *)
Definition upstream_of (site : Config.SiteConfig.t) : string :=
  let upstream := Config.SiteConfig.Upstream site in
  if (0 <? Config.SiteConfig.Port site) && negb (Contains upstream ":")
  then upstream ++ ":" ++ pretty (Config.SiteConfig.Port site)
  else upstream.

Definition buildProxy (site : Config.SiteConfig.t) (proxies : gmap string URL) : option text * gmap string URL :=
  match url_parse (upstream_of site) with
  | None => (Some (Sprintf "parse upstream %q: %w" [AStr (upstream_of site)]), proxies)
  | Some target => (None, <[Config.SiteConfig.Name site := target]> proxies)
  end.

(** The callback on a new configuration: only sites without a proxy get one. *)
Definition on_change (cfg : Config.Config.t) (proxies : gmap string URL) : gmap string URL :=
  fold_left
    (fun proxies site =>
       match proxies !! Config.SiteConfig.Name site with
       | Some _ => proxies
       | None => snd (buildProxy site proxies)
       end) (Config.Config.Sites cfg) proxies.

Record wafHandler : Type := mkHandler {
  cfgMgr : Config.Manager (gmap string URL);
  engine : Engine.Engine (World Spec Mod);
  world : World Spec Mod;
  dev : bool;
  proxies : gmap string URL;
  counters : Counters
}.

Definition newWAFHandler (m : Config.Manager (gmap string URL)) (e : Engine.Engine (World Spec Mod)) (w : World Spec Mod) (dev : bool)
    : wafHandler :=
  mkHandler (Config.OnChange on_change m) e w dev
    (fold_left (fun proxies site => snd (buildProxy site proxies)) (Config.Config.Sites (Config.config m)) ∅) no_requests.

Definition set_proxies (p : gmap string URL) (h : wafHandler) : wafHandler :=
  mkHandler (cfgMgr h) (engine h) (world h) (dev h) p (counters h).
Definition set_engine (e : Engine.Engine (World Spec Mod)) (w : World Spec Mod) (h : wafHandler) : wafHandler :=
  mkHandler (cfgMgr h) e w (dev h) (proxies h) (counters h).
Definition set_counters (c : Counters) (h : wafHandler) : wafHandler :=
  mkHandler (cfgMgr h) (engine h) (world h) (dev h) (proxies h) c.

Definition forwardRequest (headers : list (string * string)) (site : Config.SiteConfig.t) (h : wafHandler)
    : served URL * wafHandler :=
  match proxies h !! Config.SiteConfig.Name site with
  | Some t => (Forward headers t, h)
  | None =>
      match buildProxy site (proxies h) with
      | (Some _, _) => (Reply 502 headers NoBody, h)
      | (None, p) =>
          match p !! Config.SiteConfig.Name site with
          | Some t => (Forward headers t, set_proxies p h)
          | None => (Aborted, set_proxies p h)
          end
      end
  end.

(** The [ErrorHandler] of a site's proxy, after the headers already set. *)
Definition ErrorHandler {U} (headers : list (string * string)) : served U :=
  Reply 502 headers (Json [("error", lit "bad_gateway"); ("detail", lit "upstream unreachable")]).

Definition rate_limit_headers (now : Z) : list (string * string) :=
  [("Content-Type", "application/json"); ("Retry-After", "60"); ("X-RateLimit-Limit", "100");
   ("X-RateLimit-Remaining", "0"); ("X-RateLimit-Reset", pretty (time_unix (now + 60 * Second)));
   ("X-FortressWAF-Action", "rate_limit")].

(** The switch on the decision's action. *)
Definition dispatch (d : Decision) (r : http_Request) (site : Config.SiteConfig.t) (h : wafHandler)
    : served URL * wafHandler :=
  let h := set_counters (count_action (d_Action d) (counters h)) h in
  let w := world h in
  match d_Action d with
  | ActionBlock =>
      (Reply 403 [("Content-Type", "application/json"); ("X-FortressWAF-Action", "block"); ("X-FortressWAF-Rule", RuleID d)]
         (Json [("blocked", lit "true"); ("action", lit "block"); ("rule_id", lit (RuleID d)); ("rule_name", lit (RuleName d));
                ("severity", lit (Severity d)); ("evidence", Evidence d);
                ("request_id", lit (Get (Header r) "X-Request-ID"))]), h)
  | ActionChallenge =>
      (Reply 403 [("Content-Type", "text/html; charset=utf-8"); ("X-FortressWAF-Action", "challenge")]
         (Page (challengePage (Pipeline.random w (Pipeline.draws w)) (Pipeline.now 0 w) r)),
       set_engine (engine h) (Pipeline.set_sources (Pipeline.reads w + 1) (S (Pipeline.draws w)) (Pipeline.asked w) w) h)
  | ActionMonitor =>
      forwardRequest [("X-FortressWAF-Monitored", "true"); ("X-FortressWAF-Rule", RuleID d)] site h
  | ActionRateLimit =>
      (Reply 429 (rate_limit_headers (Pipeline.now 0 w))
         (Json [("error", lit "rate_limited"); ("detail", lit "too many requests"); ("retry_after", lit "60")]),
       set_engine (engine h) (Pipeline.pass 1 w) h)
  | ActionAllow | ActionOther _ => forwardRequest [] site h
  end.

(** [h.engine.InspectRequest(r)]; its error is always nil. *)
Definition inspect_request (envs : nat -> Engine.call_env (World Spec Mod)) (r : http_Request) (h : wafHandler)
    : ending (Engine.Engine (World Spec Mod) * World Spec Mod)
                    (Decision * Engine.Engine (World Spec Mod) * World Spec Mod) :=
  let w := world h in
  let? (d, e, _, w) :=
    Engine.InspectRequest envs (Pipeline.now 0 w) (Pipeline.now 1 w) (engine h) r (Pipeline.pass 2 w) in
  Returned (d, e, w).

Definition host_of (r : http_Request) : string := default "" (head (Split (req_Host r) ":")).

Definition site_for (r : http_Request) (cfg : Config.Config.t) : option Config.SiteConfig.t :=
  match Config.FindSiteByDomain (host_of r) cfg with
  | Some site => Some site
  | None => head (Config.Config.Sites cfg)
  end.

Definition ServeHTTP (envs : nat -> Engine.call_env (World Spec Mod)) (r : http_Request) (h : wafHandler)
    : served URL * wafHandler :=
  let h := set_counters (count_total (counters h)) h in
  match site_for r (Config.config (cfgMgr h)) with
  | None =>
      (writeJSON 502 [("error", lit "no_site_configured");
                      ("detail", Sprintf "no site configured for host %q" [AStr (host_of r)])],
       set_counters (count_blocked (counters h)) h)
  | Some site =>
      if negb (Config.SiteConfig.WAFEnabled site) then forwardRequest [] site h
      else
        match inspect_request envs r h with
        | Died => (Dead, h)
        | Panicked (e, w) => (Aborted, set_engine e w h)
        | Returned (d, e, w) => dispatch d r site (set_engine e w h)
        end
  end.

(** A reload of the configuration, which runs the handler's callback. *)
Definition reload `{Unicode} `{Config.Files} (h : wafHandler) : wafHandler :=
  let '(_, m, p) := Config.Reload (cfgMgr h) (proxies h) in
  mkHandler m (engine h) (world h) (dev h) p (counters h).

(** ** The administration server *)

Definition cors_headers : list (string * string) :=
  [("Access-Control-Allow-Origin", "*"); ("Access-Control-Allow-Methods", "GET, POST, PUT, DELETE, OPTIONS");
   ("Access-Control-Allow-Headers", "Content-Type, Authorization")].
Definition corsMiddleware {U} (r : http_Request) (next : served U) : served U :=
  if String.eqb (req_Method r) "OPTIONS" then Reply 200 cors_headers NoBody
  else match next with
       | Reply status hs body => Reply status (cors_headers ++ hs)%list body
       | Forward hs t => Forward (cors_headers ++ hs)%list t
       | o => o
       end.

(** The first value of the request's body, decoded as the login form. *)
Definition login_form `{Unicode} (r : http_Request) : option (string * string) :=
  let s := match req_Body r with Some b => content b | None => "" end in
  match Json.parse_value (2 * String.length s + 2) 0 s with
  | Some (Json.JObject l, _) =>
      email ← Json.member Json.as_string "email" "" l;
      password ← Json.member Json.as_string "password" "" l; Some (email, password)
  | Some (Json.JNull, _) => Some ("", "")
  | _ => None
  end.

Definition handleAuthLogin `{Unicode} (keys : list string) (r : http_Request) : served URL :=
  match login_form r with
  | None => writeJSON 400 [("error", lit "invalid JSON")]
  | Some (email, password) =>
      if String.eqb email "" || String.eqb password "" then writeJSON 400 [("error", lit "email and password required")]
      else
        let valid := existsb (fun key => String.eqb email key || String.eqb password key) keys in
        if negb valid && (0 <? len keys) then writeJSON 401 [("error", lit "invalid credentials")]
        else
          match index0 keys with
          | Panics => Aborted
          | Returns token =>
              writeJSON 200 [("token", lit token); ("user.id", lit email); ("user.email", lit email);
                             ("user.name", lit email); ("user.role", lit "admin")]
          end
  end.

Definition handleAuthMe (r : http_Request) : served URL :=
  let auth := Get (Header r) "Authorization" in
  let token := TrimPrefix auth "Bearer " in
  if String.eqb token auth then writeJSON 401 [("error", lit "unauthorized")]
  else writeJSON 200 [("id", lit token); ("email", lit token); ("name", lit "Admin"); ("role", lit "admin")].

Definition adminAuthMiddleware (keys : list string) (r : http_Request) (next : served URL) : served URL :=
  match keys with
  | [] => next
  | _ =>
      let auth := Get (Header r) "Authorization" in
      if String.eqb auth "" then writeJSON 401 [("error", lit "unauthorized"); ("detail", lit "missing Authorization header")]
      else
        let token := TrimPrefix auth "Bearer " in
        if String.eqb token auth
        then writeJSON 401 [("error", lit "unauthorized"); ("detail", lit "Authorization must be Bearer token")]
        else if existsb (fun key => String.eqb token key) keys then next
        else writeJSON 403 [("error", lit "forbidden"); ("detail", lit "invalid API key")]
  end.

Definition handleReady (cfg : Config.Config.t) : served URL :=
  match Config.Config.Sites cfg with
  | [] => writeJSON 503 [("status", lit "not_ready"); ("reason", lit "no sites configured")]
  | _ => writeJSON 200 [("status", lit "ready")]
  end.

Definition handleReload `{Unicode} `{Config.Files} (h : wafHandler) : served URL * wafHandler :=
  let '(err, m, p) := Config.Reload (cfgMgr h) (proxies h) in
  (match err with
   | Some e => writeJSON 500 [("error", lit "reload_failed"); ("detail", e)]
   | None =>
       writeJSON 200 [("status", lit "reloaded");
                      ("sites", Sprintf "%d" [AInt (len (Config.Config.Sites (Config.config m)))]);
                      ("rules", Sprintf "%d" [AInt (len (Config.Config.Rules (Config.config m)))])]
   end, mkHandler m (engine h) (world h) (dev h) p (counters h)).

(** ** Lemmas *)

Definition is_forward {U} (s : served U) : Prop := match s with Forward _ _ => True | _ => False end.

Lemma dispatch_block d r site h : d_Action d = ActionBlock -> exists hs body, fst (dispatch d r site h) = Reply 403 hs body.
Proof. intros Hd. unfold dispatch. rewrite Hd. by eexists _, _. Qed.

(** The context an inspected request gets. *)
Lemma context_headers now1 now2 r ctx r' k v vs :
  NewRequestContext now1 now2 r = Returns (ctx, r') -> Header r !! k = Some (v :: vs) -> Headers ctx !! k = Some v.
Proof.
  unfold NewRequestContext, header_firsts. destruct (forallb _ _); [|done]. cbn [out_bind].
  destruct (read_body (req_Body r)) as [body stream]. intros [= <- _] Hk. cbn [Headers]. by rewrite lookup_omap, Hk.
Qed.

Lemma context_headers_inv now1 now2 r ctx r' k v :
  NewRequestContext now1 now2 r = Returns (ctx, r') -> Headers ctx !! k = Some v -> exists vs, Header r !! k = Some (v :: vs).
Proof.
  unfold NewRequestContext, header_firsts. destruct (forallb _ _); [|done]. cbn [out_bind].
  destruct (read_body (req_Body r)) as [body stream]. intros [= <- _] Hk. cbn [Headers] in Hk.
  apply lookup_omap_Some in Hk as ([|v' vs] & Hh & Hk); [done|]. cbn in Hh. simplify_eq. by exists vs.
Qed.

Lemma context_path now1 now2 r ctx r' :
  NewRequestContext now1 now2 r = Returns (ctx, r') -> Path ctx = req_URL_Path r /\ exists r0, Request ctx = Some r0.
Proof.
  unfold NewRequestContext, header_firsts. destruct (forallb _ _); [|done]. cbn [out_bind].
  destruct (read_body (req_Body r)) as [body stream]. intros [= <- _]. cbn. by eauto.
Qed.

(** ** Histories of requests and reloads

    A request that is answered [Dead] ends the program's history; what follows it
    in a list of events is more than the program does. *)

Inductive event : Type :=
| Serve (envs : nat -> Engine.call_env (World Spec Mod)) (r : http_Request)
| ReloadConfig.

Section history.
Context `{Unicode} `{Config.Files}.

Definition handle (h : wafHandler) (e : event) : wafHandler :=
  match e with Serve envs r => snd (ServeHTTP envs r h) | ReloadConfig => reload h end.
Definition history (es : list event) (h : wafHandler) : wafHandler := fold_left handle es h.

Lemma buildProxy_keeps site p n t : p !! n = Some t -> site.(Config.SiteConfig.Name) <> n -> snd (buildProxy site p) !! n = Some t.
Proof. intros Hp Hn. unfold buildProxy. destruct (url_parse _); [|done]. cbn. by rewrite lookup_insert_ne. Qed.

Lemma on_change_keeps cfg p n t : p !! n = Some t -> on_change cfg p !! n = Some t.
Proof.
  unfold on_change. generalize (Config.Config.Sites cfg) as l. intros l. revert p.
  induction l as [|s l IH]; intros p Hp; [done|]. cbn [fold_left]. apply IH.
  destruct (p !! Config.SiteConfig.Name s) eqn:E; [done|]. apply buildProxy_keeps; [done|congruence].
Qed.

Lemma forward_keeps hs site h n t :
  proxies h !! n = Some t ->
  proxies (snd (forwardRequest hs site h)) !! n = Some t /\ cfgMgr (snd (forwardRequest hs site h)) = cfgMgr h.
Proof.
  intros Hp. unfold forwardRequest. destruct (proxies h !! Config.SiteConfig.Name site) eqn:E; [done|].
  destruct (buildProxy site (proxies h)) as [[e|] p] eqn:Eb; [done|].
  assert (snd (buildProxy site (proxies h)) !! n = Some t) as Hn by (apply buildProxy_keeps; [done|congruence]).
  rewrite Eb in Hn. cbn in Hn. by destruct (p !! Config.SiteConfig.Name site).
Qed.

(** A callback that leaves the proxies there are. *)
Definition careful (f : Config.Config.t -> gmap string URL -> gmap string URL) : Prop :=
  forall cfg p n t, p !! n = Some t -> f cfg p !! n = Some t.

Lemma notify_careful m p n t :
  Forall careful (Config.onChange m) -> p !! n = Some t -> Config.notify m p !! n = Some t.
Proof.
  unfold Config.notify. intros Hf. revert p. induction Hf as [|f l Hf Hl IH]; intros p Hp; [done|]. cbn. apply IH. by apply Hf.
Qed.

(** Proxies and callbacks that survive. *)
Definition settled (n : string) (t : URL) (h : wafHandler) : Prop :=
  proxies h !! n = Some t /\ Forall careful (Config.onChange (cfgMgr h)).

Lemma handle_settled n t h e : settled n t h -> settled n t (handle h e).
Proof.
  intros [Hp Hc]. destruct e as [envs r|]; cbn [handle].
  - assert (forall hs site h', proxies h' = proxies h -> cfgMgr h' = cfgMgr h -> settled n t (snd (forwardRequest hs site h'))) as Hf.
    { intros hs site h' Ep Em. rewrite <- Ep in Hp. destruct (forward_keeps hs site h' n t Hp) as [Hq Hm].
      split; [done|]. by rewrite Hm, Em. }
    unfold ServeHTTP. destruct (site_for _ _) as [site|]; [|done].
    destruct (Config.SiteConfig.WAFEnabled site); cbn [negb]; [|by apply Hf].
    destruct (inspect_request envs r _) as [[[d e] w]|[e w]|]; [|done..].
    unfold dispatch. destruct (d_Action d); try done; by apply Hf.
  - unfold reload, Config.Reload. destruct (Config.Load _) as [cfg|err]; [|done].
    split; [|done]. by apply notify_careful.
Qed.

Lemma history_settled n t es h : settled n t h -> settled n t (history es h).
Proof. unfold history. revert h. induction es as [|e es IH]; intros h Hs; [done|]. cbn. apply IH. by apply handle_settled. Qed.

(** What a run of the engine leaves as it is. *)
Definition modes (e : Engine.Engine (World Spec Mod)) :=
  (Engine.inspectors e, Engine.shadowMode e, match Engine.perfMgmt e with None => true | _ => false end).

Lemma modes_annotate env ins e ctx d : modes (snd (Engine.annotate env ins e ctx d)) = modes e.
Proof. unfold Engine.annotate. cbn [snd]. by destruct (Engine.learningMode e). Qed.

Lemma modes_call env ins e ctx w res e' ctx' w' :
  Engine.call env ins e ctx w = Returned (res, e', ctx', w') -> modes e' = modes e.
Proof.
  unfold Engine.call, modes. destruct (Engine.perfMgmt e) as [pm|] eqn:Ep.
  - unfold Engine.call_isolated. repeat case_match; intros; simplify_eq; done.
  - unfold Engine.call_directly. destruct (Engine.inspect ins ctx w) as [[[d|er|c|] ?] ?]; intros; simplify_eq; by rewrite Ep.
Qed.

Lemma modes_call_panic env ins e ctx w e' w' :
  Engine.call env ins e ctx w = Panicked (e', w') -> modes e' = modes e.
Proof.
  unfold Engine.call, modes. destruct (Engine.perfMgmt e) as [pm|] eqn:Ep.
  - unfold Engine.call_isolated. by repeat case_match.
  - unfold Engine.call_directly. destruct (Engine.inspect ins ctx w) as [[[d|er|c|] ?] ?]; intros; simplify_eq; by rewrite Ep.
Qed.

(** The engine that a run leaves, if the process lives. *)
Definition left_by {A} (o : ending (Engine.Engine (World Spec Mod) * World Spec Mod) (A * Engine.Engine (World Spec Mod) * RequestContext * World Spec Mod))
    : option (Engine.Engine (World Spec Mod)) :=
  match o with
  | Returned (_, e, _, _) | Panicked (e, _) => Some e
  | Died => None
  end.

Lemma modes_loop envs l e ctx w e' :
  left_by (Engine.inspect_loop envs l e ctx w) = Some e' -> modes e' = modes e.
Proof.
  revert envs e ctx w. induction l as [|[ins|] l IH]; intros envs e ctx w; cbn [Engine.inspect_loop].
  - by intros [= <-].
  - destruct (Engine.call _ ins e ctx w) as [[[[res e1] ctx1] w1]|[e1 w1]|] eqn:Ec; cbn [end_bind];
      [apply modes_call in Ec|apply modes_call_panic in Ec; by intros [= <-]|done].
    destruct res as [[dec|]|]; [|by intros ->%IH..].
    pose proof (modes_annotate (envs 0%nat) ins e1 ctx1 dec) as Ha.
    destruct (Engine.annotate _ ins e1 ctx1 dec) as [dec' e2]. cbn [snd] in Ha.
    destruct (_ && _); [intros [= <-]|intros ->%IH]; congruence.
  - apply IH.
Qed.

Lemma forward_engine hs site h : engine (snd (forwardRequest hs site h)) = engine h.
Proof. unfold forwardRequest. by repeat case_match. Qed.

Lemma handle_modes e h : modes (engine (handle h e)) = modes (engine h).
Proof.
  destruct e as [envs r|]; cbn [handle].
  - unfold ServeHTTP. destruct (site_for _ _) as [site|]; [|done].
    destruct (Config.SiteConfig.WAFEnabled site); cbn [negb]; [|by rewrite forward_engine].
    unfold inspect_request, Engine.InspectRequest.
    destruct (NewRequestContext _ _ r) as [[ctx r']|]; [|done]. unfold Engine.Inspect. cbn [engine set_counters].
    pose proof (modes_loop envs (Engine.inspectors (engine h)) (engine h) ctx (Pipeline.pass 2 (world h))) as Hm.
    change (world (set_counters _ h)) with (world h).
    destruct (Engine.inspect_loop _ _ _ _ _) as [[[[d e] c] w]|[e w]|]; cbn [end_bind]; [|by apply Hm|done].
    rewrite <- (Hm e eq_refl). unfold dispatch. destruct (d_Action d); try done; by rewrite forward_engine.
  - unfold reload. by destruct (Config.Reload _ _) as [[? ?] ?].
Qed.

Lemma history_modes es h : modes (engine (history es h)) = modes (engine h).
Proof. unfold history. revert h. induction es as [|e es IH]; intros h; [done|]. cbn. by rewrite IH, handle_modes. Qed.

(** From a handler's start on, through any requests and reloads: a proxy that was
    built stays, and so do the engine's inspectors and mode. *)
Lemma history_keeps m e w dev es n t :
  Forall careful (Config.onChange m) -> proxies (newWAFHandler m e w dev) !! n = Some t ->
  let h := history es (newWAFHandler m e w dev) in
  proxies h !! n = Some t /\ Engine.inspectors (engine h) = Engine.inspectors e /\ Engine.shadowMode (engine h) = Engine.shadowMode e.
Proof.
  intros Hm Hn h. split.
  - apply (history_settled n t es). split; [done|]. cbn. apply Forall_app. split; [done|]. constructor; [|done].
    intros cfg p k u. apply on_change_keeps.
  - subst h. pose proof (history_modes es (newWAFHandler m e w dev)) as Hmo. unfold modes in Hmo. by injection Hmo as -> -> _.
Qed.

End history.

(** ** The built engine behind the proxy *)

Section built.
Context `{Unicode} `{RuneClasses} `{Sqli.RuneCap} `{ParserHardener.UnicodeC} `{Behavioral.Log2} `{Behavioral.RuneOrder}.
Context `{Bot.ReverseDns} `{Protocol.Captcha.SiteVerify} `{WebSocket.MessageTypes}.
Context `{Upload.MultipartReader} `{Ja3.TlsState} {Pool : Type} `{Mtls.CaFiles Pool}.
Context `{Wasm.Wasm.WasmRuntime Mod} `{Auth.JWT.SignatureVerifiers} `{MapRange (Wasm.Wasm.wasmInspectorDef Mod)}.
Context `{MapRange string} `{MapRange (list string)} `{MapRange Z} `{Config.Files}.

(** A proxy with the engine [main] builds, after a history. *)
Definition started (procs : Z) (cfg : Config.Config.t) (dev : bool) (m : Config.Manager (gmap string URL)) (w : World Spec Mod)
    (es : list event) : wafHandler :=
  history es (newWAFHandler m (Engine.New procs (Pipeline.buildEngineConfig cfg dev)) w dev).

Definition plain_mode (cfg : Config.Config.t) : Prop :=
  Config.ShadowModeConfig.Enabled (Config.Config.ShadowMode cfg) = false
  /\ Config.PerformanceConfig.Enabled (Config.Config.Performance cfg) = false.

Lemma started_modes procs cfg dev m w es :
  plain_mode cfg ->
  let e := engine (started procs cfg dev m w es) in
  Engine.inspectors e = Engine.inspectors (Engine.New procs (Pipeline.buildEngineConfig cfg dev))
  /\ Engine.shadowMode e = false /\ Engine.perfMgmt e = None.
Proof.
  intros [Hs Hp] e. pose proof (history_modes es (newWAFHandler m (Engine.New procs (Pipeline.buildEngineConfig cfg dev)) w dev)) as Hm.
  unfold modes in Hm. injection Hm as Hi Hsh Hpe. split_and!; [done|by rewrite <- Hs|].
  cbn in Hpe. rewrite Hp in Hpe. fold (started procs cfg dev m w es) in Hpe. fold e in Hpe. by destruct (Engine.perfMgmt e).
Qed.

(** [C5] With RCE protection on, in normal mode and without performance
    isolation, no request of a Chrome browser - none whose User-Agent, or
    any other header, contains "rome" - is ever passed on to a site that the
    firewall protects, whatever the other inspectors, the history of the
    proxy and the other settings are. *)
Theorem chrome_never_forwarded procs cfg dev m w es envs r k v vs :
  plain_mode cfg -> Pipeline.slot_enabled cfg Engine.SRCE = true ->
  let h := started procs cfg dev m w es in
  (forall site, site_for r (Config.config (cfgMgr h)) = Some site -> Config.SiteConfig.WAFEnabled site = true) ->
  Header r !! k = Some (v :: vs) -> Contains v "rome" = true ->
  ~ is_forward (fst (ServeHTTP envs r h)).
Proof.
  intros Hmode Hrce h Hwaf Hk Hv. destruct (started_modes procs cfg dev m w es Hmode) as (Hi & Hs & Hp).
  fold h in Hi, Hs, Hp. unfold ServeHTTP. change (cfgMgr (set_counters _ h)) with (cfgMgr h).
  destruct (site_for r _) as [site|] eqn:Es; [|by intros []]. rewrite (Hwaf site eq_refl). cbn [negb].
  unfold inspect_request, Engine.InspectRequest. cbn [engine set_counters Pipeline.pass].
  destruct (NewRequestContext _ _ r) as [[ctx r']|] eqn:Ec; [|by intros []]. unfold Engine.Inspect. rewrite Hi.
  pose proof (Pipeline.loop_blocked (fun hd => exists k v, hd !! k = Some v /\ Contains v "rome" = true)
    (Pipeline.pure Rce.Inspect) "rce" envs
    (Engine.inspectors (Engine.New procs (Pipeline.buildEngineConfig cfg dev))) (engine h) ctx
    (Pipeline.pass 2 (world h)) Hp Hs) as Hb.
  destruct (Engine.inspect_loop _ _ _ _ _) as [[[[d e] c] w']|[e w']|]; [|by intros []..]. cbn [end_bind].
  assert (d_Action d = ActionBlock) as Hd; [apply Hb|].
  - by apply Pipeline.built_tame.
  - by apply (Pipeline.built_member procs cfg dev Engine.SRCE (Pipeline.pure Rce.Inspect)).
  - intros c0 w0 (k0 & v0 & Hk0 & Hv0). destruct (Rce.rce_blocks_chrome c0 k0 v0 Hk0 Hv0) as (d0 & Hd0 & Ha).
    unfold Pipeline.pure. rewrite Hd0. by eauto.
  - exists k, v. split; [|done]. by eapply context_headers.
  - destruct (dispatch_block d r site (set_engine e w' (set_counters (count_total (counters h)) h)) Hd) as (hs & b & E).
    rewrite E. by intros [].
Qed.

(** [C6] One request can end the process. With the parser hardener on, as in
    the default configuration, and without performance isolation, a request to
    a protected site with a header value that percent-decodes to a text with a
    bare percent sign, "100%" say, overflows the stack, on every path that
    does not look like a normalisation bypass, unless another header is itself
    a traversal. *)
Theorem percent_sign_ends_process procs cfg dev m w es envs r k v vs :
  Config.PerformanceConfig.Enabled (Config.Config.Performance cfg) = false ->
  Pipeline.slot_enabled cfg Engine.SParser = true ->
  let h := started procs cfg dev m w es in
  (exists site, site_for r (Config.config (cfgMgr h)) = Some site /\ Config.SiteConfig.WAFEnabled site = true) ->
  Header r !! k = Some (v :: vs) -> ParserHardener.stuck v ->
  (forall k' vs', Header r !! k' = Some vs' -> exists v' vs'', vs' = v' :: vs'' /\ ParserHardener.traversal v' = false) ->
  Regexp.MatchString ParserHardener.normalizationRE (req_URL_Path r) = false ->
  fst (ServeHTTP envs r h) = Dead.
Proof.
  intros Hperf Hon h (site & Hsite & Hwaf) Hk Hv Hall Hpath.
  pose proof (history_modes es (newWAFHandler m (Engine.New procs (Pipeline.buildEngineConfig cfg dev)) w dev)) as Hm.
  fold (started procs cfg dev m w es) in Hm. fold h in Hm. unfold modes in Hm. injection Hm as Hi _ Hp.
  cbn in Hp. rewrite Hperf in Hp. assert (Engine.perfMgmt (engine h) = None) as Hpm by (by destruct (Engine.perfMgmt _)). clear Hp.
  destruct (Pipeline.built_head (Spec := Spec) (Mod := Mod) procs cfg dev Hon) as (rest & Hhead).
  assert (Engine.inspectors (engine h) = Some (Engine.mkInspector "parser_hardener" Pipeline.parser_handler) :: rest) as Hins
    by (by rewrite <- Hhead). clear Hi Hhead.
  unfold ServeHTTP. change (cfgMgr (set_counters _ h)) with (cfgMgr h). rewrite Hsite, Hwaf. cbn [negb].
  unfold inspect_request, Engine.InspectRequest. cbn [engine set_counters].
  match goal with |- context [NewRequestContext ?a ?b r] => destruct (NewRequestContext a b r) as [[ctx r']|] eqn:Ec end.
  2:{ exfalso. revert Ec. unfold NewRequestContext, header_firsts.
      assert (forallb (fun p : string * list string => match snd p with [] => false | _ => true end) (map_to_list (Header r)) = true) as ->.
      - apply forallb_forall. intros [k' vs'] Hin%list_elem_of_In%elem_of_map_to_list. by destruct (Hall k' vs' Hin) as (? & ? & -> & _).
      - cbn [out_bind]. by destruct (read_body (req_Body r)). }
  unfold Engine.Inspect.
  destruct (context_path _ _ _ _ _ Ec) as [Hcp [r0 Hr0]].
  assert (ParserHardener.Inspect ctx = ParserHardener.StackOverflow) as Hover.
  { apply (ParserHardener.percent_sign_overflows_stack ctx r0 k v); [done|by rewrite Hcp|by eapply context_headers|done|].
    intros k' v' Hk'. apply (context_headers_inv _ _ _ _ _ _ _ Ec) in Hk' as [vs' Hk'].
    destruct (Hall _ _ Hk') as (? & ? & [= <- <-] & ?). done. }
  rewrite Hins. cbn [Engine.inspect_loop].
  unfold Engine.call, Engine.call_directly. rewrite Hpm. cbn [Engine.inspect]. unfold Pipeline.parser_handler. by rewrite Hover.
Qed.

End built.

(** ** The challenge page *)

Lemma drop_str_app a b : drop_str (String.length a) (a ++ b) = b.
Proof. induction a as [|c a IH]; [done|]. cbn. apply IH. Qed.

Lemma HasSuffix_app a p : HasSuffix (a ++ p) p = true.
Proof.
  unfold HasSuffix. rewrite length_sapp, (proj2 (Nat.leb_le _ _)) by lia.
  rewrite (Nat.add_sub (String.length a)), drop_str_app. cbn [andb]. apply String.eqb_refl.
Qed.

(** The challenge page contains the path of the request as the client
    wrote it, with no escaping, as the value of an attribute of its HTML: a
    path with a double quote ends the attribute. *)
Theorem challenge_page_reflects_path buf now r :
  exists before after, challengePage (Some buf) now r = before ++ req_URL_Path r ++ after
    /\ HasSuffix before ("value=" ++ dq) = true /\ HasPrefix after dq = true.
Proof.
  assert (page_path = html ("`>" ++ nl ++ "<input type=`hidden` name=`original_path` ") ++ "value=" ++ dq) as Hp by done.
  eexists (page_head ++ hex buf ++ page_path), _. split; [by rewrite !sapp_assoc|]. split; [|by vm_compute].
  rewrite Hp, <- !sapp_assoc, sapp_assoc. apply HasSuffix_app.
Qed.

(** ** Administration *)

Lemma TrimPrefix_app p t : TrimPrefix (p ++ t) p = t.
Proof. unfold TrimPrefix, HasPrefix. by rewrite prefix_app, drop_str_app. Qed.

Lemma bearer_token auth :
  TrimPrefix auth "Bearer " = auth \/ auth = "Bearer " ++ TrimPrefix auth "Bearer " /\ TrimPrefix auth "Bearer " <> auth.
Proof.
  destruct (HasPrefix auth "Bearer ") eqn:E; [|left; unfold TrimPrefix; by rewrite E].
  apply prefix_spec in E as [t ->]. right. rewrite TrimPrefix_app. split; [done|].
  intros Et%(f_equal String.length). rewrite length_sapp in Et. cbn in Et. lia.
Qed.

Lemma existsb_eqb (x : string) l : existsb (fun k => String.eqb x k) l = bool_decide (x ∈ l).
Proof.
  induction l as [|k l IH]; [done|]. cbn [existsb]. rewrite IH. destruct (String.eqb_spec x k) as [->|Hne].
  - cbn [orb]. symmetry. apply bool_decide_true. left.
  - cbn [orb]. apply bool_decide_ext. rewrite elem_of_cons. tauto.
Qed.

(** [C19] Who gets past the administration middleware: everybody when no key
    is configured, as by default, and otherwise exactly the requests whose
    Authorization header is "Bearer " followed by a configured key; all others
    are answered 401 or 403. *)
Theorem admin_access_iff keys r next :
  let admitted := keys = [] \/ exists key, key ∈ keys /\ Get (Header r) "Authorization" = "Bearer " ++ key in
  (admitted -> adminAuthMiddleware keys r next = next)
  /\ (~ admitted -> exists status fields, adminAuthMiddleware keys r next = writeJSON status fields /\ (status = 401 \/ status = 403)).
Proof.
  cbn zeta. unfold adminAuthMiddleware. destruct keys as [|k0 keys]; [split; [done|tauto]|].
  set (auth := Get (Header r) "Authorization"). rewrite existsb_eqb. split.
  - intros [|(key & Hk & ->)]; [done|]. cbn [String.eqb String.append]. rewrite TrimPrefix_app.
    rewrite bool_decide_true by done. destruct (String.eqb_spec key ("Bearer " ++ key)) as [E|]; [|done].
    apply (f_equal String.length) in E. rewrite length_sapp in E. cbn in E. lia.
  - intros Hn. destruct (String.eqb auth ""); [by eauto|]. destruct (bearer_token auth) as [->|[Ha Hne]].
    + rewrite String.eqb_refl. by eauto.
    + rewrite (proj2 (String.eqb_neq _ _)) by done. rewrite bool_decide_false; [by eauto|].
      intros Hin. apply Hn. right. by eexists.
Qed.

(** The login accepts a configured key in place of the email address, with
    any password, and answers with the first configured key, whichever key was
    given; with no key configured, as by default, every well-formed login
    panics. *)
Theorem login_answers_first_key `{Unicode} keys r email password :
  login_form r = Some (email, password) -> email <> "" -> password <> "" ->
  handleAuthLogin keys r =
  match keys with
  | [] => Aborted
  | first :: _ =>
      if decide (email ∈ keys \/ password ∈ keys)
      then writeJSON 200 [("token", lit first); ("user.id", lit email); ("user.email", lit email);
                          ("user.name", lit email); ("user.role", lit "admin")]
      else writeJSON 401 [("error", lit "invalid credentials")]
  end.
Proof.
  intros Hf He Hp. unfold handleAuthLogin. rewrite Hf, (proj2 (String.eqb_neq email "") He), (proj2 (String.eqb_neq password "") Hp).
  cbn [orb]. destruct keys as [|first keys]; [done|].
  assert (existsb (fun key => String.eqb email key || String.eqb password key) (first :: keys)
          = bool_decide (email ∈ first :: keys \/ password ∈ first :: keys)) as ->.
  { rewrite bool_decide_or, <- !existsb_eqb. generalize (first :: keys). intros l.
    induction l as [|k l IH]; [done|]. cbn [existsb]. rewrite IH. destruct (String.eqb email k), (String.eqb password k); cbn [orb]; rewrite ?orb_true_r; done. }
  rewrite len_cons, (proj2 (Z.ltb_lt _ _)) by (pose proof (len_nonneg keys); lia).
  destruct (decide _) as [Hd|Hd]; [by rewrite bool_decide_true by done|by rewrite bool_decide_false by done].
Qed.

End proxy.

(** ** Witnesses *)

#[local] Existing Instance unicode_ascii.
#[local] Existing Instance rune_classes_ascii.
#[local] Existing Instance Sqli.cap_32.
#[local] Existing Instance ParserHardener.no_category.
#[local] Existing Instance Behavioral.log2_zero.
#[local] Existing Instance Behavioral.runes_canonical.
#[local] Existing Instance Bot.attacker_dns.
#[local] Existing Instance WebSocket.rfc6455.
#[local] Existing Instance Confidence.format_len.
#[local] Existing Instance Config.no_files.
#[local] Instance no_captcha : Protocol.Captcha.SiteVerify := fun _ _ _ => Err (lit "unreachable").
#[local] Instance no_parts : Upload.MultipartReader := {| Upload.parts := fun _ _ => []; Upload.read_size := fun _ => 0%nat |}.
#[local] Instance no_tls : Ja3.TlsState := fun _ => None.
#[local] Instance no_files : Mtls.CaFiles unit := {| Mtls.ReadFile := fun _ => None; Mtls.AppendCertsFromPEM := fun _ => None |}.
#[local] Instance no_wasm : Wasm.Wasm.WasmRuntime unit := {|
  Wasm.Wasm.ReadDir := fun _ => None; Wasm.Wasm.ReadFile := fun _ _ => None; Wasm.Wasm.Instantiate := fun _ _ => None;
  Wasm.Wasm.exports_inspect := fun _ => false; Wasm.Wasm.Call := fun _ _ => Wasm.Wasm.CallReturned [] |}.
#[local] Instance no_keys : Auth.JWT.SignatureVerifiers :=
  {| Auth.JWT.VerifyPKCS1v15 := fun _ _ _ _ => false; Auth.JWT.VerifyASN1 := fun _ _ _ _ _ => false |}.
#[local] Instance text_url : UrlParse := {| URL := string; url_parse := fun s => Some s |}.

Definition shop : Config.SiteConfig.t :=
  Config.SiteConfig.mk "shop" ["shop.example"] "http://10.0.0.1" 0 false "" "" None true ∅.
Definition shop_config : Config.Config.t := Config.example_config [shop] true Config.DefaultConfig.
Definition shop_world : World unit unit := Pipeline.new_world false tt (fun _ => 0) (fun _ => None) (fun _ => None) shop_config.
Definition shop_manager : Config.Manager (gmap string URL) := Config.mkManager shop_config [].
Definition shop_env : nat -> Engine.call_env (World unit unit) := fun _ => Engine.mkEnv 0 0 0 None 0 0.
Definition shop_request (headers : gmap string (list string)) : http_Request :=
  mkRequest headers "GET" "/" "shop.example:80" "192.0.2.7:4000" "HTTP/1.1" 0 [] ∅ None.

Lemma chrome_never_forwarded_witness :
  ~ is_forward (fst (ServeHTTP shop_env (shop_request {["User-Agent" := [Rce.chrome]]})
                       (started 1 shop_config false shop_manager shop_world []))).
Proof.
  apply (chrome_never_forwarded 1 shop_config false shop_manager shop_world [] shop_env
           (shop_request {["User-Agent" := [Rce.chrome]]}) "User-Agent" Rce.chrome []); [done|done| |done|done].
  intros site Hs. change (Some shop = Some site) in Hs. by simplify_eq.
Defined.

Lemma percent_sign_ends_process_witness :
  fst (ServeHTTP shop_env (shop_request {["Cookie" := ["discount=100%"]]})
         (started 1 shop_config false shop_manager shop_world [])) = Dead.
Proof.
  apply (percent_sign_ends_process 1 shop_config false shop_manager shop_world [] shop_env
           (shop_request {["Cookie" := ["discount=100%"]]}) "Cookie" "discount=100%" []); [done|done| |done|by split; vm_compute| |by vm_compute].
  - by exists shop.
  - intros k vs Hk. cbn [Header shop_request] in Hk. apply lookup_singleton_Some in Hk as [_ <-].
    eexists _, _. split; [done|]. by vm_compute.
Defined.

Lemma admin_access_iff_witness :
  adminAuthMiddleware ["k1"] (shop_request {["Authorization" := ["Bearer k1"]]}) Dead = Dead.
Proof.
  apply (proj1 (admin_access_iff ["k1"] (shop_request {["Authorization" := ["Bearer k1"]]}) Dead)).
  right. exists "k1". split; [left|done].
Defined.

Definition login_request : http_Request :=
  mkRequest ∅ "POST" "/api/v1/auth/login" "" "" "HTTP/1.1" 0 [] ∅
    (Some (mkBody ("{" ++ dq ++ "email" ++ dq ++ ":" ++ dq ++ "k2" ++ dq ++ "," ++ dq ++ "password" ++ dq ++ ":" ++ dq ++ "x" ++ dq ++ "}") false)).

Lemma login_answers_first_key_witness :
  handleAuthLogin ["k1"; "k2"] login_request =
  writeJSON 200 [("token", lit "k1"); ("user.id", lit "k2"); ("user.email", lit "k2"); ("user.name", lit "k2"); ("user.role", lit "admin")].
Proof. rewrite (login_answers_first_key ["k1"; "k2"] login_request "k2" "x"); [done|by vm_compute|done|done]. Defined.

Lemma challenge_page_reflects_path_witness :
  Contains (challengePage (Some [1; 2]) 0 (shop_request ∅)) ("value=" ++ dq ++ "/" ++ dq) = true.
Proof.
  destruct (challenge_page_reflects_path [1; 2] 0 (shop_request ∅)) as (a & b & _ & _ & _). by vm_compute.
Defined.
