(* ===== verification/Admin.v ===== *)
(** * Routing and the administration server: [cmd/proxy/main.go] and
    [internal/api/server.go]

    The routes of the administration server that the program starts, with its
    remaining handlers, and those of the control API's server. gorilla/mux is the
    class [Mux]: on a clean path the first route with the request's method and path
    is taken. The state behind the handlers is the one of [Proxy]. *)

From S2P Require Import Prelude Float64 GoStr Encoding Types.
From S2P Require Json Config Confidence Engine Pipeline Proxy.
Import Proxy (served, Reply, Forward, Dead, Aborted, writeJSON, Object, Lines, Page, NoBody).

#[local] Open Scope string_scope.
#[local] Open Scope Z_scope.

(** ** Routes *)

Inductive segment : Type := Seg (s : string) | Id.
(** A route without methods takes any. *)
Record route (A : Type) : Type := mkRoute { methods : list string; pattern : list segment; handler : A }.
Arguments mkRoute {A}.
Arguments methods {A}.
Arguments pattern {A}.
Arguments handler {A}.

(** The values of the variables of a pattern that matches the path. *)
Fixpoint match_pattern (p : list segment) (path : list string) : option (list string) :=
  match p, path with
  | [], [] => Some []
  | Seg s :: p, t :: path => if String.eqb s t then match_pattern p path else None
  | Id :: p, t :: path => cons t <$> match_pattern p path
  | _, _ => None
  end.
Definition match_route {A} (meth : string) (path : list string) (r : route A) : option (A * list string) :=
  if match methods r with [] => true | ms => existsb (String.eqb meth) ms end then pair (handler r) <$> match_pattern (pattern r) path else None.

Inductive routed (A : Type) : Type :=
| Found (a : A) (vars : list string)
| MethodMismatch
| NotFound
| Redirect (path : string).
Arguments Found {A}.
Arguments MethodMismatch {A}.
Arguments NotFound {A}.
Arguments Redirect {A}.

(** A path that mux leaves as it is. *)
Definition clean_segment (s : string) : Prop := s <> "" /\ s <> "." /\ s <> ".." /\ Contains s "/" = false.
Fixpoint path_of (segs : list string) : string := match segs with [] => "" | s :: segs => "/" ++ s ++ path_of segs end.

Class Mux : Type := { Route : forall {A : Type}, list (route A) -> string -> string -> routed A }.
Class MuxLaws `{Mux} : Prop := {
  route_first : forall A (table : list (route A)) meth segs,
    segs <> [] -> Forall clean_segment segs ->
    match first_some (match_route meth segs) table with
    | Some (a, vars) => Route table meth (path_of segs) = Found a vars
    | None => Route table meth (path_of segs) = NotFound \/ Route table meth (path_of segs) = MethodMismatch
    end
}.

(** ** The routes of [newAdminRouter] *)

Inductive admin_handler : Type :=
| HHealth | HMetrics | HReady | HLive | HAuthLogin | HAuthMe
| PHealth | PStatus | PGetConfig | PReload | PListSites | PListRules.

Definition api_path (l : list segment) : list segment := (Seg "api" :: Seg "v1" :: l)%list.

Definition admin_table : list (route admin_handler) :=
  [mkRoute ["GET"] [Seg "health"] HHealth; mkRoute ["GET"] [Seg "metrics"] HMetrics;
   mkRoute ["GET"] [Seg "ready"] HReady; mkRoute ["GET"] [Seg "live"] HLive;
   mkRoute ["POST"; "OPTIONS"] (api_path [Seg "auth"; Seg "login"]) HAuthLogin;
   mkRoute ["GET"] (api_path [Seg "auth"; Seg "me"]) HAuthMe;
   mkRoute ["GET"] (api_path [Seg "health"]) PHealth; mkRoute ["GET"] (api_path [Seg "status"]) PStatus;
   mkRoute ["GET"] (api_path [Seg "config"]) PGetConfig; mkRoute ["POST"] (api_path [Seg "reload"]) PReload;
   mkRoute ["GET"] (api_path [Seg "sites"]) PListSites; mkRoute ["GET"] (api_path [Seg "rules"]) PListRules].

(** The routes of the subrouter with [adminAuthMiddleware]. *)
Definition protected (a : admin_handler) : bool :=
  match a with PHealth | PStatus | PGetConfig | PReload | PListSites | PListRules => true | _ => false end.

(** ** The routes of [setupRoutes] and [setupAdminRoutes] *)

Inductive api_handler : Type :=
| ListSites | CreateSite | GetSite | UpdateSite | DeleteSite
| ListRules | CreateRule | GetRule | UpdateRule | DeleteRule | TestRule | ReorderRule
| QueryLogs | TailLogs | ExportLogs | TrafficStats | AttackStats
| ListPatches | CreatePatch | ApplyPatch | RevokePatch
| ExportConfig | ImportConfig | ValidateConfig | DiffConfig
| Health | ListAlerts | CreateAlert | UpdateAlert
| ListTenants | CreateTenant | GetTenant | UpdateTenant | DeleteTenant
| HandleWebSocket.

Definition api_route (meth : string) (p : list segment) (a : api_handler) : route api_handler := mkRoute [meth] (api_path p) a.

Definition api_table : list (route api_handler) :=
  [api_route "GET" [Seg "sites"] ListSites; api_route "POST" [Seg "sites"] CreateSite;
   api_route "GET" [Seg "sites"; Id] GetSite; api_route "PUT" [Seg "sites"; Id] UpdateSite;
   api_route "DELETE" [Seg "sites"; Id] DeleteSite;
   api_route "GET" [Seg "rules"] ListRules; api_route "POST" [Seg "rules"] CreateRule;
   api_route "GET" [Seg "rules"; Id] GetRule; api_route "PUT" [Seg "rules"; Id] UpdateRule;
   api_route "DELETE" [Seg "rules"; Id] DeleteRule; api_route "POST" [Seg "rules"; Id; Seg "test"] TestRule;
   api_route "PUT" [Seg "rules"; Id; Seg "reorder"] ReorderRule;
   api_route "GET" [Seg "logs"] QueryLogs; api_route "GET" [Seg "logs"; Seg "tail"] TailLogs;
   api_route "GET" [Seg "logs"; Seg "export"] ExportLogs;
   api_route "GET" [Seg "analytics"; Seg "traffic"] TrafficStats; api_route "GET" [Seg "analytics"; Seg "attacks"] AttackStats;
   api_route "GET" [Seg "patches"] ListPatches; api_route "POST" [Seg "patches"] CreatePatch;
   api_route "POST" [Seg "patches"; Id; Seg "apply"] ApplyPatch; api_route "POST" [Seg "patches"; Id; Seg "revoke"] RevokePatch;
   api_route "GET" [Seg "config"; Seg "export"] ExportConfig; api_route "POST" [Seg "config"; Seg "import"] ImportConfig;
   api_route "POST" [Seg "config"; Seg "validate"] ValidateConfig; api_route "POST" [Seg "config"; Seg "diff"] DiffConfig;
   api_route "GET" [Seg "health"] Health; api_route "GET" [Seg "alerts"] ListAlerts;
   api_route "POST" [Seg "alerts"] CreateAlert; api_route "PUT" [Seg "alerts"; Id] UpdateAlert;
   api_route "GET" [Seg "tenants"] ListTenants; api_route "POST" [Seg "tenants"] CreateTenant;
   api_route "GET" [Seg "tenants"; Id] GetTenant; api_route "PUT" [Seg "tenants"; Id] UpdateTenant;
   api_route "DELETE" [Seg "tenants"; Id] DeleteTenant; mkRoute [] [Seg "ws"] HandleWebSocket].

(** The subrouter's middleware: [authMiddleware] ([ApiStore.Access]), one that
    passes everything on and one that logs; the echo on /ws has none. *)
Definition authenticated (a : api_handler) : bool := match a with HandleWebSocket => false | _ => true end.

Inductive status_handler : Type := AdminStatus | AdminConfig | AdminReload.
Definition status_table : list (route status_handler) :=
  [mkRoute ["GET"] [Seg "admin"; Seg "status"] AdminStatus; mkRoute ["GET"] [Seg "admin"; Seg "config"] AdminConfig;
   mkRoute ["POST"] [Seg "admin"; Seg "reload"] AdminReload].

(** ** The remaining handlers of [main.go] *)

(** The variables set when the program is built, and [startedAt]. *)
Record Build : Type := mkBuild { Version : string; Commit : string; BuildDate : string; startedAt : Z }.

Section server.
Context {Spec Mod : Type} `{Proxy.UrlParse} `{Confidence.TextLen} `{Unicode} `{Config.Files} `{Mux}.
Context (build : Build).
#[local] Abbreviation wafHandler := (@Proxy.wafHandler Spec Mod _).
Implicit Types h : wafHandler.
Implicit Types r : http_Request.

Definition uptime (now : Z) : Z := time_sub now (startedAt build).
Definition rps (now : Z) (c : Proxy.Counters) : f64 :=
  let secs := Seconds (uptime now) in if flt f0 secs then fdiv (of_int (Proxy.totalRequests c)) secs else f0.

Definition handleHealth (now1 now2 : Z) : served Proxy.URL :=
  writeJSON 200 [("status", lit "healthy"); ("version", lit (Version build)); ("commit", lit (Commit build));
                 ("uptime", Sprintf "%v" [ADur (uptime now1)]); ("timestamp", Sprintf "RFC3339" [ATime now2])].

Definition metric (name help kind : string) (value : text) : list text :=
  [lit ("# HELP " ++ name ++ " " ++ help); lit ("# TYPE " ++ name ++ " " ++ kind); value].
Definition counter_lines (name help kind : string) (v : Z) : list text :=
  metric name help kind (Sprintf (name ++ " %d") [AInt v]).

(** [active] is the number of requests that the proxy is serving. *)
Definition handleMetrics (now active : Z) h : served Proxy.URL :=
  let c := Proxy.counters h in
  Reply 200 [("Content-Type", "text/plain; version=0.0.4; charset=utf-8")]
    (Lines (counter_lines "fortresswaf_requests_total" "Total number of requests" "counter" (Proxy.totalRequests c)
      ++ counter_lines "fortresswaf_requests_allowed" "Total allowed requests" "counter" (Proxy.allowedRequests c)
      ++ counter_lines "fortresswaf_requests_blocked" "Total blocked requests" "counter" (Proxy.blockedRequests c)
      ++ counter_lines "fortresswaf_requests_challenged" "Total challenged requests" "counter" (Proxy.challengedReqs c)
      ++ counter_lines "fortresswaf_requests_rate_limited" "Total rate-limited requests" "counter" (Proxy.rateLimitedReqs c)
      ++ counter_lines "fortresswaf_requests_monitored" "Total monitored requests" "counter" (Proxy.monitoredReqs c)
      ++ counter_lines "fortresswaf_active_connections" "Current active connections" "gauge" active
      ++ metric "fortresswaf_uptime_seconds" "Uptime in seconds" "gauge"
           (Sprintf "fortresswaf_uptime_seconds %f" [AFloat (Seconds (uptime now))])
      ++ metric "fortresswaf_requests_per_second" "Current requests per second" "gauge"
           (Sprintf "fortresswaf_requests_per_second %f" [AFloat (rps now c)])
      ++ metric "fortresswaf_version_info" "FortressWAF version info" "gauge"
           (Sprintf "fortresswaf_version_info{version=%q,commit=%q} 1" [AStr (Version build); AStr (Commit build)]))%list).

Definition handleLive : served Proxy.URL := writeJSON 200 [("status", lit "alive")].

Definition handleStatus (now active : Z) h : served Proxy.URL :=
  let c := Proxy.counters h in
  let count z := Sprintf "%d" [AInt z] in
  writeJSON 200
    [("version", lit (Version build)); ("commit", lit (Commit build)); ("build_date", lit (BuildDate build));
     ("uptime", Sprintf "%v" [ADur (uptime now)]); ("uptime_seconds", count (to_int (Seconds (uptime now))));
     ("requests_per_sec", Sprintf "%v" [AFloat (rps now c)]); ("total_requests", count (Proxy.totalRequests c));
     ("blocked_requests", count (Proxy.blockedRequests c)); ("allowed_requests", count (Proxy.allowedRequests c));
     ("active_connections", count active); ("challenged", count (Proxy.challengedReqs c));
     ("rate_limited", count (Proxy.rateLimitedReqs c)); ("monitored", count (Proxy.monitoredReqs c))].

(** Lists of a configuration; a list that the configuration leaves out is
    printed as null by the code and as [[]] here. *)
Definition jstrings (l : list string) : Json.json := Json.JArray (map Json.JString l).
Definition jint (z : Z) : Json.json := Json.JNumber (Itoa z).
Definition ok_object (members : list (string * Json.json)) : served Proxy.URL :=
  Reply 200 [("Content-Type", "application/json")] (Object members).

Definition site_summary (s : Config.SiteConfig.t) : list (string * Json.json) :=
  [("name", Json.JString (Config.SiteConfig.Name s)); ("domains", jstrings (Config.SiteConfig.Domains s));
   ("upstream", Json.JString (Config.SiteConfig.Upstream s))].
Definition handleGetConfig (cfg : Config.Config.t) : served Proxy.URL :=
  ok_object
    [("sites_count", jint (len (Config.Config.Sites cfg))); ("rules_count", jint (len (Config.Config.Rules cfg)));
     ("ml_enabled", Json.JBool (Config.MLConfig.Enabled (Config.Config.ML cfg)));
     ("redis_enabled", Json.JBool (Config.RedisConfig.Enabled (Config.Config.Redis cfg)));
     ("admin_port", jint (Config.AdminConfig.Port (Config.Config.Admin cfg)));
     ("sites", Json.JArray (map (fun s => Json.JObject (site_summary s ++ [("waf_enabled", Json.JBool (Config.SiteConfig.WAFEnabled s))]))
                              (Config.Config.Sites cfg)))].

Definition handleListSites (cfg : Config.Config.t) : served Proxy.URL :=
  ok_object
    [("sites", Json.JArray (map (fun s =>
        Json.JObject (site_summary s ++ [("port", jint (Config.SiteConfig.Port s)); ("tls", Json.JBool (Config.SiteConfig.TLS s));
                                         ("waf_enabled", Json.JBool (Config.SiteConfig.WAFEnabled s))])) (Config.Config.Sites cfg)));
     ("count", jint (len (Config.Config.Sites cfg)))].

Definition handleListRules (cfg : Config.Config.t) : served Proxy.URL :=
  ok_object
    [("rules", Json.JArray (map (fun rule =>
        Json.JObject [("id", Json.JString (Config.RuleConfig.ID rule)); ("name", Json.JString (Config.RuleConfig.Name rule));
                      ("description", Json.JString (Config.RuleConfig.Description rule));
                      ("enabled", Json.JBool (Config.RuleConfig.Enabled rule));
                      ("severity", Json.JString (Config.RuleConfig.Severity rule));
                      ("action", Json.JString (Config.RuleConfig.Action rule));
                      ("tags", jstrings (Config.RuleConfig.Tags rule))]) (Config.Config.Rules cfg)));
     ("count", jint (len (Config.Config.Rules cfg)))].

(** ** Serving a request *)

Definition config_of h : Config.Config.t := Config.config (Proxy.cfgMgr h).
Definition keys_of h : list string := Config.AdminConfig.APIKeys (Config.Config.Admin (config_of h)).

Definition run_handler (now1 now2 active : Z) (a : admin_handler) r h : served Proxy.URL * wafHandler :=
  match a with
  | HHealth | PHealth => (handleHealth now1 now2, h)
  | HMetrics => (handleMetrics now1 active h, h)
  | HReady => (Proxy.handleReady (config_of h), h)
  | HLive => (handleLive, h)
  | HAuthLogin => (Proxy.handleAuthLogin (keys_of h) r, h)
  | HAuthMe => (Proxy.handleAuthMe r, h)
  | PStatus => (handleStatus now1 active h, h)
  | PGetConfig => (handleGetConfig (config_of h), h)
  | PReload => Proxy.handleReload h
  | PListSites => (handleListSites (config_of h), h)
  | PListRules => (handleListRules (config_of h), h)
  end.

(** Whether [adminAuthMiddleware] calls the next handler. *)
Definition lets_in (keys : list string) r : bool :=
  match Proxy.adminAuthMiddleware keys r Dead with Dead => true | _ => false end.

(** A request that no route takes gets mux's own answer, without the
    middleware. *)
Definition unrouted {A} (o : routed A) : served Proxy.URL :=
  match o with
  | MethodMismatch => Reply 405 [] NoBody
  | Redirect path => Reply 301 [("Location", path)] NoBody
  | _ => Reply 404 [("Content-Type", "text/plain; charset=utf-8"); ("X-Content-Type-Options", "nosniff")]
           (Page ("404 page not found" ++ Proxy.nl))
  end.

Definition serve_admin (now1 now2 active : Z) r h : served Proxy.URL * wafHandler :=
  match Route admin_table (req_Method r) (req_URL_Path r) with
  | Found a _ =>
      if String.eqb (req_Method r) "OPTIONS" then (Proxy.corsMiddleware r Dead, h)
      else
        let '(answer, h') := run_handler now1 now2 active a r h in
        if protected a
        then (Proxy.corsMiddleware r (Proxy.adminAuthMiddleware (keys_of h) r answer), if lets_in (keys_of h) r then h' else h)
        else (Proxy.corsMiddleware r answer, h')
  | o => (unrouted o, h)
  end.

(** ** Who is answered what *)

Context `{!MuxLaws}.

Lemma routed_on r segs :
  segs <> [] -> Forall clean_segment segs -> req_URL_Path r = path_of segs ->
  match first_some (match_route (req_Method r) segs) admin_table with
  | Some (a, vars) => Route admin_table (req_Method r) (req_URL_Path r) = Found a vars
  | None => Route admin_table (req_Method r) (req_URL_Path r) = NotFound \/ Route admin_table (req_Method r) (req_URL_Path r) = MethodMismatch
  end.
Proof. intros Hs Hc ->. by apply route_first. Qed.

Lemma match_literals l segs : match_pattern (map Seg l) segs = if decide (segs = l) then Some [] else None.
Proof.
  revert segs. induction l as [|s l IH]; intros [|t segs]; try done. cbn [map match_pattern].
  destruct (String.eqb_spec s t) as [<-|Hne].
  - rewrite IH. destruct (decide (segs = l)) as [->|Hn]; [by rewrite decide_True|rewrite decide_False; congruence].
  - rewrite decide_False; congruence.
Qed.

Definition cors_header : string * string := ("Access-Control-Allow-Origin", "*").
Definition has_header (p : string * string) (s : served Proxy.URL) : Prop :=
  match s with Reply _ hs _ => p ∈ hs | _ => False end.

Definition login_path : list string := ["api"; "v1"; "auth"; "login"].

(** A browser's preflight request gets an answer with the CORS headers on the
    login path only: on every other clean path mux refuses the method before the
    middleware runs, so that pages of another origin can log in and then send
    nothing with the token. *)
Theorem preflight_only_login now1 now2 active r h segs :
  req_Method r = "OPTIONS" -> segs <> [] -> Forall clean_segment segs -> req_URL_Path r = path_of segs ->
  has_header cors_header (serve_admin now1 now2 active r h).1 <-> segs = login_path.
Proof.
  intros Hm Hs Hc Hp. pose proof (routed_on r segs Hs Hc Hp) as Hr. unfold serve_admin. rewrite Hm in *.
  assert (first_some (match_route "OPTIONS" segs) admin_table = (fun v => (HAuthLogin, v)) <$> match_pattern (map Seg login_path) segs) as Hf.
  { cbn -[match_pattern map]. change (api_path [Seg "auth"; Seg "login"]) with (map Seg login_path).
    by destruct (match_pattern (map Seg login_path) segs). }
  rewrite Hf, match_literals in Hr. clear Hf. destruct (decide (segs = login_path)) as [->|Hne]; cbn in Hr.
  - rewrite Hr. unfold Proxy.corsMiddleware. rewrite Hm. split; [done|intros _]. by left.
  - split; [|done]. intros Hin. exfalso. revert Hin.
    destruct Hr as [-> | ->]; cbn; rewrite ?elem_of_cons, elem_of_nil; unfold cors_header; naive_solver.
Qed.

Lemma reload_route m segs v :
  first_some (match_route m segs) admin_table = Some (PReload, v) -> m = "POST" /\ segs = ["api"; "v1"; "reload"].
Proof.
  intros (r & Hin & Hr)%first_some_Some. unfold admin_table in Hin. rewrite !elem_of_cons, elem_of_nil in Hin.
  repeat destruct Hin as [->|Hin]; try done; unfold match_route in Hr; cbn [methods pattern handler] in Hr;
    destruct (existsb _ _) eqn:Hm in Hr; try done;
    match type of Hr with context [match_pattern ?p _] => destruct (match_pattern p segs) eqn:Hp in Hr; try done end.
  change (api_path [Seg "reload"]) with (map Seg ["api"; "v1"; "reload"]) in Hp. rewrite match_literals in Hp.
  split; [|by destruct (decide (segs = _))]. cbn in Hm. by destruct (String.eqb_spec m "POST").
Qed.

Lemma lets_in_admitted keys r :
  lets_in keys r = true -> keys = [] \/ exists key, key ∈ keys /\ Get (Header r) "Authorization" = "Bearer " ++ key.
Proof.
  unfold lets_in, Proxy.adminAuthMiddleware. destruct keys as [|k keys]; [by left|]. right.
  destruct (String.eqb _ ""); [done|]. destruct (String.eqb_spec (TrimPrefix (Get (Header r) "Authorization") "Bearer ") (Get (Header r) "Authorization")) as [?|Hne]; [done|].
  destruct (existsb _ _) eqn:He; [|done]. apply existsb_exists in He as (key & Hin & Heq%String.eqb_eq).
  exists key. split; [by apply list_elem_of_In|]. destruct (Proxy.bearer_token (Get (Header r) "Authorization")) as [|[Ha _]]; [done|congruence].
Qed.

(** The server changes nothing but the configuration, and that only when the
    file is reloaded by a post of someone the middleware lets in: with a key
    configured, the bearer of a key. *)
Theorem administration_reloads_only now1 now2 active r h segs :
  segs <> [] -> Forall clean_segment segs -> req_URL_Path r = path_of segs ->
  snd (serve_admin now1 now2 active r h) = h \/
  (req_Method r = "POST" /\ segs = ["api"; "v1"; "reload"] /\ snd (serve_admin now1 now2 active r h) = Proxy.reload h
   /\ (keys_of h = [] \/ exists key, key ∈ keys_of h /\ Get (Header r) "Authorization" = "Bearer " ++ key)).
Proof.
  intros Hs Hc Hp. pose proof (routed_on r segs Hs Hc Hp) as Hr. unfold serve_admin.
  destruct (first_some (match_route (req_Method r) segs) admin_table) as [[a v]|] eqn:Hf.
  2:{ destruct Hr as [-> | ->]; by left. }
  rewrite Hr. destruct (String.eqb (req_Method r) "OPTIONS"); [by left|].
  destruct a; try (left; cbn; by destruct (lets_in (keys_of h) r)).
  apply reload_route in Hf as [Hm ->]. cbn [run_handler protected].
  unfold Proxy.handleReload. destruct (Config.Reload (Proxy.cfgMgr h) (Proxy.proxies h)) as [[err m] p] eqn:HR.
  cbn [snd]. destruct (lets_in (keys_of h) r) eqn:Hl; [right|by left].
  split; [done|]. split; [done|]. split; [|by apply lets_in_admitted]. unfold Proxy.reload. by rewrite HR.
Qed.
End server.

(** ** A router for the witnesses *)

Fixpoint cut (acc s : string) : list string :=
  match s with
  | "" => [String.rev acc]
  | String c t => if Ascii.eqb c "/" then String.rev acc :: cut "" t else cut (String c acc) t
  end.

Lemma cut_plain s : forall acc t, Contains s "/" = false -> cut acc (s ++ t) = cut (String.rev s ++ acc) t.
Proof.
  induction s as [|c s IH]; intros acc t Hc; [done|]. rewrite sapp_cons, srev_cons, sapp_assoc. cbn [cut].
  cbn [Contains] in Hc. apply orb_false_iff in Hc as [Hp Hc]. destruct (Ascii.eqb_spec c "/") as [->|Hne].
  - cbn in Hp. by destruct s.
  - by rewrite IH.
Qed.

Lemma cut_path segs s : Contains s "/" = false -> Forall clean_segment segs -> cut "" (s ++ path_of segs) = s :: segs.
Proof.
  revert s. induction segs as [|t segs IH]; intros s Hs Hc; rewrite cut_plain, sapp_nil_r by done.
  - cbn [path_of cut]. by rewrite srev_involutive.
  - apply Forall_cons in Hc as [(_ & _ & _ & Ht) Hc]. cbn [path_of].
    change ("/" ++ t ++ path_of segs) with (String "/" (t ++ path_of segs)). cbn [cut].
    change (Ascii.eqb "/" "/") with true. cbv iota. rewrite srev_involutive. f_equal. by apply IH.
Qed.

Definition first_mux : Mux := {|
  Route := fun A table meth path =>
    match first_some (match_route meth (drop 1 (cut "" path))) table with Some (a, vars) => Found a vars | None => NotFound end
|}.
Lemma first_mux_laws : @MuxLaws first_mux.
Proof.
  constructor. intros A table meth segs _ Hc. cbn.
  change (path_of segs) with ("" ++ path_of segs). rewrite (cut_path segs "") by done. cbn [drop].
  destruct (first_some _ _) as [[a vars]|]; [done|by left].
Qed.

(** ** Witnesses *)

#[local] Existing Instance unicode_ascii.
#[local] Existing Instance Confidence.format_len.
#[local] Existing Instance Config.no_files.
#[local] Existing Instance first_mux.
#[local] Existing Instance first_mux_laws.
#[local] Existing Instance Proxy.text_url.

Definition release : Build := mkBuild "v1.4.0" "abc" "today" 0.
Definition ask (meth path : string) : http_Request := mkRequest ∅ meth path "" "" "HTTP/1.1" 0 [] ∅ None.


Lemma clean_by segs :
  forallb (fun s => negb (String.eqb s "" || String.eqb s "." || String.eqb s ".." || Contains s "/")) segs = true ->
  Forall clean_segment segs.
Proof.
  intros Hf. apply Forall_forall. intros s Hin. rewrite forallb_forall in Hf. specialize (Hf s (proj1 (list_elem_of_In _ _) Hin)).
  apply negb_true_iff in Hf. repeat apply orb_false_iff in Hf as [Hf ?]. unfold clean_segment.
  destruct (String.eqb_spec s ""), (String.eqb_spec s "."), (String.eqb_spec s ".."); done.
Qed.

Definition idle : @Proxy.wafHandler unit unit _ :=
  Proxy.newWAFHandler Proxy.shop_manager (Engine.New 1 (Engine.mkConfig false false false 0 0 false (fun _ => None))) Proxy.shop_world false.

Lemma preflight_only_login_witness :
  has_header cors_header (serve_admin release 0 0 0 (ask "OPTIONS" "/api/v1/auth/login") idle).1 <-> login_path = login_path.
Proof.
  apply (preflight_only_login release 0 0 0 (ask "OPTIONS" "/api/v1/auth/login") idle login_path);
    [reflexivity|discriminate|apply clean_by; reflexivity|reflexivity].
Defined.

Lemma administration_reloads_only_witness :
  snd (serve_admin release 0 0 0 (ask "GET" "/api/v1/sites") idle) = idle
  \/ (req_Method (ask "GET" "/api/v1/sites") = "POST" /\ ["api"; "v1"; "sites"] = ["api"; "v1"; "reload"]
      /\ snd (serve_admin release 0 0 0 (ask "GET" "/api/v1/sites") idle) = Proxy.reload idle
      /\ (keys_of idle = [] \/ exists key, key ∈ keys_of idle /\ Get (Header (ask "GET" "/api/v1/sites")) "Authorization" = "Bearer " ++ key)).
Proof.
  apply (administration_reloads_only release 0 0 0 (ask "GET" "/api/v1/sites") idle ["api"; "v1"; "sites"]);
    [discriminate|apply clean_by; reflexivity|reflexivity].
Defined.
