(* ===== verification/Billing.v ===== *)
(** * Billing: [internal/billing]

    Module [Features]: [features.go]. Module [License]: [license.go]. Module
    [Usage]: [usage.go]. Module [Stripe]: the webhook handler and the
    classifications of [stripe.go]. ECDSA, the text of claims and times, the
    database and the mailer are instances of classes; the sessions that
    [stripe.go] makes up from the clock, its reports and its formats of
    amounts and dates are text and left out. *)

From S2P Require Import Prelude Float64 GoStr Crypto Json Types.

#[local] Open Scope string_scope.
#[local] Open Scope Z_scope.

(** ** Features *)

Module Features.

Record Features : Type := mkFeatures {
  MaxSites : Z; MaxRules : Z; MLEngine : bool; MultiTenant : bool; FIPSMode : bool; ComplianceReports : bool;
  APIProtection : bool; DLP : bool; BotProtection : bool; VirtualPatching : bool; AdvancedAnalytics : bool;
  PrioritySupport : bool; SLAMinutes : Z; MaxTenants : Z; MaxAPICallsPerDay : Z
}.

Definition community : Features :=
  mkFeatures 1 100 false false false false true false true true false false 0 0 10000.
Definition TierFeatures : gmap string Features :=
  list_to_map
    [("community", community);
     ("starter", mkFeatures 5 500 false false false false true false true true false false 0 0 50000);
     ("professional", mkFeatures 25 (-1) true false false true true true true true true false 240 0 (-1));
     ("enterprise", mkFeatures (-1) (-1) true true true true true true true true true true 60 (-1) (-1))].

Definition GetFeatures (tier : string) : Features := default community (TierFeatures !! tier).

Definition CheckFeature (tier featureName : string) : bool :=
  let f := GetFeatures tier in
  if String.eqb featureName "ml_engine" then MLEngine f
  else if String.eqb featureName "multi_tenant" then MultiTenant f
  else if String.eqb featureName "fips_mode" then FIPSMode f
  else if String.eqb featureName "compliance_reports" then ComplianceReports f
  else if String.eqb featureName "api_protection" then APIProtection f
  else if String.eqb featureName "dlp" then DLP f
  else if String.eqb featureName "bot_protection" then BotProtection f
  else if String.eqb featureName "virtual_patching" then VirtualPatching f
  else if String.eqb featureName "advanced_analytics" then AdvancedAnalytics f
  else if String.eqb featureName "priority_support" then PrioritySupport f
  else false.

Definition ValidateSiteLimit (tier : string) (currentCount : Z) : option text :=
  let f := GetFeatures tier in
  if MaxSites f =? -1 then None
  else if MaxSites f <=? currentCount
  then Some (Sprintf "site limit exceeded: %d/%d (tier: %s)" [AInt currentCount; AInt (MaxSites f); AStr tier])
  else None.

(** The tiers in order: none loses a feature of the one below. *)
Definition tiers : list string := ["community"; "starter"; "professional"; "enterprise"].

Lemma features_monotone feature i j a b :
  tiers !! i = Some a -> tiers !! j = Some b -> (i <= j)%nat ->
  CheckFeature a feature = true -> CheckFeature b feature = true.
Proof.
  intros Ha Hb Hij. unfold CheckFeature.
  destruct i as [|[|[|[|i]]]]; cbn in Ha; simplify_eq; destruct j as [|[|[|[|j]]]]; cbn in Hb; simplify_eq; try lia;
    repeat (destruct (String.eqb feature _); [by vm_compute|]); done.
Qed.

End Features.

(** ** Licences *)

Module License.

Record LicenseClaims : Type := mkClaims {
  Tier : string; Org : string; Seats : Z; Features : list string;
  IssuedAt : Z; ExpiresAt : Z; GraceUntil : Z; Version : string; LicenseID : string
}.

(** [crypto/ecdsa] on the curve P-256: signing draws random bytes and may fail. *)
Class Ecdsa : Type := {
  PrivateKey : Type;
  PublicKey : Type;
  public : PrivateKey -> PublicKey;
  SignASN1 : list Z -> PrivateKey -> list Z -> option (list Z);
  VerifyASN1 : PublicKey -> list Z -> list Z -> bool
}.

(** [json.Marshal] of claims, which fails for times beyond the year 9999, and
    [time.Time]'s JSON form. *)
Class ClaimsText : Type := { marshal_claims : LicenseClaims -> option string; parse_time : string -> option Z }.

Section license.
Context `{Unicode} `{Ecdsa} `{ClaimsText}.

Record License : Type := mkLicense { private : PrivateKey; lpublic : PublicKey }.

Definition NewLicense (key : PrivateKey) : License := mkLicense key (public key).

Definition Generate (rnd : list Z) (l : License) (claims : LicenseClaims) : option string :=
  claimsJSON ← marshal_claims claims;
  signature ← SignASN1 rnd (private l) (sha256 (bytes_of claimsJSON));
  Some ("FWL-" ++ b64_raw_encode true (bytes_of claimsJSON) ++ "." ++ b64_raw_encode true signature).

Definition as_time (v : json) : option Z := match v with JString s => parse_time s | _ => None end.

(** [json.Unmarshal(payload, &claims)] *)
Definition unmarshal_claims (payload : list Z) : option LicenseClaims :=
  match Unmarshal (of_bytes payload) with
  | Some (JObject l) =>
      tier ← member as_string "tier" "" l; org ← member as_string "org" "" l; seats ← member as_int64 "seats" 0 l;
      features ← member as_strings "features" [] l; issued ← member as_time "issued_at" zero_time l;
      expires ← member as_time "expires_at" zero_time l; grace ← member as_time "grace_until" zero_time l;
      version ← member as_string "version" "" l; id ← member as_string "license_id" "" l;
      Some (mkClaims tier org seats features issued expires grace version id)
  | Some JNull => Some (mkClaims "" "" 0 [] zero_time zero_time zero_time "" "")
  | _ => None
  end.

(** The error values are left out: [None] is an error. *)
Definition ValidateWithPublicKey (token : string) (pubKey : PublicKey) : option LicenseClaims :=
  match Split token "." with
  | [p0; p1] =>
      payload ← b64_raw_decode true p0;
      sig ← b64_raw_decode true p1;
      if VerifyASN1 pubKey (sha256 payload) sig then unmarshal_claims payload else None
  | _ => None
  end.

Definition ValidateCommunityLicense (CommunityPublicKey : PublicKey) (token : string) : option LicenseClaims :=
  ValidateWithPublicKey token CommunityPublicKey.

Definition Validate (now : Z) (l : License) (token : string) : option LicenseClaims :=
  claims ← ValidateWithPublicKey token (lpublic l);
  if time_after now (GraceUntil claims) then None else Some claims.

Definition ValidateWithoutSignature (token : string) : option LicenseClaims :=
  match Split token "." with
  | [p0; p1] => payload ← b64_raw_decode true p0; unmarshal_claims payload
  | _ => None
  end.

Definition Day : Z := 24 * Hour.

(** The token with the id of its claims; [now3] is read for the id. *)
Definition GenerateTrialLicense (key : PrivateKey) (rnd : list Z) (now1 now3 : Z) (itoa : Z -> string)
    : option string * string :=
  let expires := now1 + 30 * Day in
  let claims := mkClaims "professional" "Trial" 1
    ["ml_engine"; "api_protection"; "dlp"; "compliance_reports"; "advanced_analytics"]
    now1 expires (expires + 7 * Day) "1.0.0" ("TRIAL-" ++ itoa now3) in
  (Generate rnd (NewLicense key) claims, LicenseID claims).

Definition IsFeatureEnabled (feature : string) (c : LicenseClaims) : bool :=
  existsb (fun f => String.eqb f feature) (Features c).

Definition ParseLicenseID (token : string) : option string := LicenseID <$> ValidateWithoutSignature token.
Definition GetLicenseExpiry (token : string) : option Z := ExpiresAt <$> ValidateWithoutSignature token.
Definition GetLicenseTier (token : string) : option string := Tier <$> ValidateWithoutSignature token.
Definition SignClaims (rnd : list Z) (claims : LicenseClaims) (key : PrivateKey) : option string :=
  Generate rnd (mkLicense key (public key)) claims.
Definition VerifyToken (token : string) (publicKey : PublicKey) : option LicenseClaims :=
  ValidateWithPublicKey token publicKey.

(** *** Lemmas *)

Lemma Split_prefix t : exists p rest, Split ("FWL-" ++ t) "." = ("FWL-" ++ p) :: rest.
Proof.
  destruct (split_head t "." 0 None "-LWF") as (p & rest & E). exists p, rest. exact E.
Qed.

Lemma decode_prefix p payload :
  b64_raw_decode true ("FWL-" ++ p) = Some payload -> exists l, payload = (21 :: 98 :: 254 :: l).
Proof.
  unfold b64_raw_decode. change (bytes_of ("FWL-" ++ p)) with (70 :: 87 :: 76 :: 45 :: bytes_of p).
  rewrite !filter_cons. repeat (rewrite decide_True by done). cbn [mapM].
  destruct (mapM (b64_value true) _) as [vs|] eqn:E; cbn; [|done].
  destruct (b64_groups vs) as [l|]; cbn; [|done]. intros [= <-]. by exists l.
Qed.

Lemma control_byte_invalid l : unmarshal_claims (21 :: l) = None.
Proof. done. Qed.

Lemma prefixed_payload_invalid t p1 payload rest :
  Split ("FWL-" ++ t) "." = p1 :: rest -> b64_raw_decode true p1 = Some payload -> unmarshal_claims payload = None.
Proof.
  intros Hs Hd. destruct (Split_prefix t) as (p & r & E). rewrite E in Hs. simplify_eq.
  apply decode_prefix in Hd as [l ->]. apply control_byte_invalid.
Qed.

Lemma prefixed_invalid t :
  ValidateWithoutSignature ("FWL-" ++ t) = None /\ forall key, ValidateWithPublicKey ("FWL-" ++ t) key = None.
Proof.
  unfold ValidateWithPublicKey, ValidateWithoutSignature.
  split; [|intros key]; destruct (Split ("FWL-" ++ t) ".") as [|p0 [|p1 [|]]] eqn:E; try done;
    (destruct (b64_raw_decode true p0) as [payload|] eqn:Ed; [|done]); cbn.
  - by eapply prefixed_payload_invalid.
  - destruct (b64_raw_decode true p1); [|done]. cbn. destruct (VerifyASN1 _ _ _); [|done]. by eapply prefixed_payload_invalid.
Qed.

Lemma Generate_prefixed rnd l claims token : Generate rnd l claims = Some token -> exists t, token = "FWL-" ++ t.
Proof.
  unfold Generate. destruct (marshal_claims claims) as [text|]; cbn; [|done].
  destruct (SignASN1 rnd _ _) as [sig|]; cbn; [|done]. intros [= <-]. eauto.
Qed.

(** [C32] No generated licence is ever valid. The tokens [Generate] makes start
    with "FWL-", which the validators take for a part of the base64 payload: it
    decodes to three bytes before the claims, the first of them a control
    character, so that every validation of such a token fails, with whatever
    key, clock and signature algorithm, and so do the readers of its id, expiry
    and tier. *)
Theorem generated_licence_never_valid rnd l claims token :
  Generate rnd l claims = Some token ->
  (forall l' now, Validate now l' token = None) /\ (forall key, ValidateWithPublicKey token key = None)
  /\ ParseLicenseID token = None /\ GetLicenseExpiry token = None /\ GetLicenseTier token = None.
Proof.
  intros (t & ->)%Generate_prefixed. destruct (prefixed_invalid t) as [Hw Hk].
  unfold Validate, ParseLicenseID, GetLicenseExpiry, GetLicenseTier. rewrite Hw. split_and!; try done.
  intros l' now. by rewrite Hk.
Qed.

End license.

#[local] Existing Instance unicode_ascii.

(** A toy signature: the digest itself. *)
#[local] Instance digest_signature : Ecdsa :=
  {| PrivateKey := unit; PublicKey := unit; public := id; SignASN1 := fun _ _ h => Some h;
     VerifyASN1 := fun _ h s => bool_decide (h = s) |}.
#[local] Instance short_claims : ClaimsText := {| marshal_claims := fun _ => Some "{}"; parse_time := fun _ => Some 0 |}.

Definition the_key : PrivateKey := tt.
Definition trial_claims : LicenseClaims := mkClaims "professional" "Trial" 1 [] 0 0 0 "1.0.0" "TRIAL-1".
Definition trial : option string := Generate [] (NewLicense the_key) trial_claims.

Lemma generated_licence_never_valid_witness : Validate 0 (NewLicense the_key) (default "" trial) = None.
Proof.
  destruct trial as [token|] eqn:E; [|by vm_compute].
  by apply (generated_licence_never_valid [] (NewLicense the_key) trial_claims).
Defined.

(** Without the prefix the same token is valid. *)
Example without_prefix :
  Validate zero_time (NewLicense the_key) (drop_str 4 (default "" trial)) <> None.
Proof. by vm_compute. Qed.

End License.

(** ** Usage *)

Module Usage.

Record TenantUsage : Type := mkUsage {
  RequestsToday : Z; RequestsThisMonth : Z; BlocksToday : Z; LastReset : Z; MonthStart : Z
}.

Record UsageTracker : Type := mkTracker { counters : gmap string TenantUsage; limits : gmap string Z }.

Definition NewUsageTracker : UsageTracker := mkTracker ∅ ∅.
Definition set_counter (tenant : string) (x : TenantUsage) (u : UsageTracker) : UsageTracker :=
  mkTracker (<[tenant := x]> (counters u)) (limits u).

Definition SetLimit (tenantID : string) (limit : Z) (u : UsageTracker) : UsageTracker :=
  mkTracker (counters u) (<[tenantID := limit]> (limits u)).

Definition record_request (now : Z) (blocked : bool) (usage : TenantUsage) : TenantUsage :=
  let day := 24 * Hour <? time_sub now (LastReset usage) in
  let month := 30 * 24 * Hour <? time_sub now (MonthStart usage) in
  mkUsage (incr (if day then 0 else RequestsToday usage)) (incr (if month then 0 else RequestsThisMonth usage))
    (let b := if day then 0 else BlocksToday usage in if blocked then incr b else b)
    (if day then now else LastReset usage) (if month then now else MonthStart usage).

Definition RecordRequest (now : Z) (tenantID : string) (blocked : bool) (u : UsageTracker) : UsageTracker :=
  set_counter tenantID (record_request now blocked (default (mkUsage 0 0 0 now now) (counters u !! tenantID))) u.

(** [(today, thisMonth, limit, blockedToday)] *)
Definition GetUsage (tenantID : string) (u : UsageTracker) : Z * Z * Z * Z :=
  let limit := lookup_default 0 (limits u) tenantID in
  match counters u !! tenantID with
  | Some x => (RequestsToday x, RequestsThisMonth x, limit, BlocksToday x)
  | None => (0, 0, limit, 0)
  end.

Definition CheckLimit (tenantID : string) (u : UsageTracker) : option text :=
  let limit := lookup_default 0 (limits u) tenantID in
  if limit <=? 0 then None
  else match counters u !! tenantID with
       | Some x => if limit <=? RequestsToday x
                   then Some (Sprintf "daily request limit exceeded: %d/%d" [AInt (RequestsToday x); AInt limit]) else None
       | None => None
       end.

Definition ResetDaily (now : Z) (tenantID : string) (u : UsageTracker) : UsageTracker :=
  match counters u !! tenantID with
  | Some x => set_counter tenantID (mkUsage 0 (RequestsThisMonth x) 0 now (MonthStart x)) u
  | None => u
  end.
Definition ResetMonthly (now : Z) (tenantID : string) (u : UsageTracker) : UsageTracker :=
  match counters u !! tenantID with
  | Some x => set_counter tenantID (mkUsage (RequestsToday x) 0 (BlocksToday x) (LastReset x) now) u
  | None => u
  end.

(** [GetAllUsage] and [CopyCounters]: a copy of the counters. *)
Definition GetAllUsage (u : UsageTracker) : gmap string TenantUsage := counters u.
Definition CopyCounters (u : UsageTracker) : gmap string TenantUsage := counters u.

Definition RemoveTenant (tenantID : string) (u : UsageTracker) : UsageTracker :=
  mkTracker (delete tenantID (counters u)) (delete tenantID (limits u)).

Definition merge_usage (existing usage : TenantUsage) : TenantUsage :=
  mkUsage (wrap64 (RequestsToday existing + RequestsToday usage))
    (wrap64 (RequestsThisMonth existing + RequestsThisMonth usage))
    (wrap64 (BlocksToday existing + BlocksToday usage)) (LastReset existing) (MonthStart existing).
Definition MergeCounters (other : gmap string TenantUsage) (u : UsageTracker) : UsageTracker :=
  mkTracker (union_with (fun a b => Some (merge_usage a b)) (counters u) other) (limits u).

Record UsageSnapshot : Type := mkSnapshot {
  TenantID : string; sToday : Z; sThisMonth : Z; sBlocks : Z; Limit : Z; CapturedAt : Z
}.
Definition Snapshot (now : Z) (tenantID : string) (u : UsageTracker) : UsageSnapshot :=
  let '(today, month, limit, blocked) := GetUsage tenantID u in mkSnapshot tenantID today month blocked limit now.
Definition UsagePercent (s : UsageSnapshot) : f64 :=
  if Limit s <=? 0 then f0 else fmul (fdiv (of_int (sToday s)) (of_int (Limit s))) (of_int 100).
Definition RemainingRequests (s : UsageSnapshot) : Z :=
  if Limit s <=? 0 then -1
  else let remaining := wrap64 (Limit s - sToday s) in if remaining <? 0 then 0 else remaining.
Definition IsOverLimit (s : UsageSnapshot) : bool := (0 <? Limit s) && (Limit s <=? sToday s).

(** A request that is admitted by [CheckLimit] and only then recorded. *)
Definition metered (tenant : string) (now : Z) (u : UsageTracker) : bool * UsageTracker :=
  match CheckLimit tenant u with
  | Some _ => (false, u)
  | None => (true, RecordRequest now tenant false u)
  end.
Fixpoint metered_run (tenant : string) (times : list Z) (u : UsageTracker) : list bool * UsageTracker :=
  match times with
  | [] => ([], u)
  | t :: times => let '(b, u) := metered tenant t u in let '(bs, u) := metered_run tenant times u in (b :: bs, u)
  end.

(** Requests so far of the tenant whose limit is set. *)
Definition used (tenant : string) (u : UsageTracker) : Z :=
  match counters u !! tenant with Some x => RequestsToday x | None => 0 end.

Lemma CheckLimit_spec tenant u limit :
  limits u !! tenant = Some limit -> 0 < limit ->
  CheckLimit tenant u = None <-> used tenant u < limit.
Proof.
  intros Hl Hp. unfold CheckLimit, used, lookup_default. rewrite Hl. cbn [from_option id].
  rewrite (proj2 (Z.leb_gt _ _)) by lia. destruct (counters u !! tenant) as [x|]; [|naive_solver].
  destruct (Z.leb_spec limit (RequestsToday x)); naive_solver lia.
Qed.

Lemma metered_exhausted tenant times u limit :
  limits u !! tenant = Some limit -> 0 < limit <= used tenant u ->
  metered_run tenant times u = (repeat false (length times), u).
Proof.
  intros Hl [Hp Hu]. induction times as [|t times IH]; [done|]. cbn [metered_run length repeat]. unfold metered.
  destruct (CheckLimit tenant u) eqn:E; [by rewrite IH|]. apply (CheckLimit_spec _ _ limit) in E; [lia|done..].
Qed.

(** A tenant that is admitted by [CheckLimit] and recorded when it is
    admitted gets its daily limit and then, if it was used up within a day,
    nothing more for ever: the counter is set back only by recording a request,
    and no request is admitted any more, however many days later. *)
Theorem daily_limit_never_resets tenant limit t0 times later u :
  counters u !! tenant = None -> limits u !! tenant = Some limit -> 0 < limit -> len times = limit -> limit < max64 ->
  Forall (fun t => t0 <= t <= t0 + 24 * Hour) (t0 :: times) -> head times = Some t0 ->
  fst (metered_run tenant (times ++ later) u) = (repeat true (length times) ++ repeat false (length later))%list.
Proof.
  intros Hc Hl Hp Hlen Hmax Hall Hhd.
  assert (forall ts u n, used tenant u = n -> limits u !! tenant = Some limit -> n + len ts = limit -> 0 <= n ->
    (match counters u !! tenant with
     | Some x => LastReset x = t0 | None => n = 0 /\ (ts <> [] -> head ts = Some t0) end) ->
    Forall (fun t => t0 <= t <= t0 + 24 * Hour) ts ->
    fst (metered_run tenant (ts ++ later) u) = (repeat true (length ts) ++ repeat false (length later))%list) as Hg.
  2:{ apply (Hg times u 0); [unfold used; by rewrite Hc|done|lia|lia| |by apply Forall_cons in Hall as [_ ?]].
      rewrite Hc. done. }
  clear u Hc Hl times Hlen Hall Hhd. induction ts as [|t ts IH]; intros u n Hu Hl Hn Hn0 Hr Hall.
  - rewrite len_nil in Hn. cbn [app length repeat]. rewrite (metered_exhausted tenant later u limit); [done|done|lia].
  - rewrite len_cons in Hn. pose proof (len_nonneg ts). apply Forall_cons in Hall as [Ht Hall].
    cbn [app metered_run length repeat]. unfold metered.
    destruct (CheckLimit tenant u) eqn:E; [exfalso; apply (CheckLimit_spec tenant u limit) in Hl as [_ Hc]; [|done]; rewrite Hc in E; [done|lia]|].
    assert (fst (metered_run tenant (ts ++ later) (RecordRequest t tenant false u)) = (repeat true (length ts) ++ repeat false (length later))%list) as Hrec.
    { assert (counters (RecordRequest t tenant false u) !! tenant =
        Some (record_request t false (default (mkUsage 0 0 0 t t) (counters u !! tenant)))) as Hcn by apply lookup_insert_eq.
      assert (LastReset (default (mkUsage 0 0 0 t t) (counters u !! tenant)) = t0
              /\ RequestsToday (default (mkUsage 0 0 0 t t) (counters u !! tenant)) = n) as [Hlr Hrt].
      { unfold used in Hu. destruct (counters u !! tenant) as [x|]; [done|]. destruct Hr as [-> Hh].
        specialize (Hh ltac:(done)). cbn in Hh. simplify_eq. done. }
      assert ((24 * Hour <? time_sub t t0) = false) as Hday.
      { rewrite time_sub_gt by (unfold max64, min64, Hour, Minute, Second; lia). apply Z.ltb_ge. lia. }
      apply (IH _ (n + 1)); [|done|lia|lia| |done].
      - unfold used. rewrite Hcn. unfold record_request. rewrite Hlr, Hday, Hrt. cbn. apply incr_small. unfold min64. lia.
      - rewrite Hcn. unfold record_request. rewrite Hlr, Hday. cbn. done. }
    destruct (metered_run tenant (ts ++ later) (RecordRequest t tenant false u)) as [bs u']. cbn in Hrec |- *. by rewrite Hrec.
Qed.

Lemma daily_limit_never_resets_witness :
  fst (metered_run "acme" ([0; 10] ++ [100 * 24 * Hour]) (SetLimit "acme" 2 NewUsageTracker)) = [true; true; false].
Proof.
  apply (daily_limit_never_resets "acme" 2 0 [0; 10] [100 * 24 * Hour]); [done..| |done].
  repeat constructor; done.
Defined.

End Usage.

(** ** The payment webhook *)

Module Stripe.

Record Subscription : Type := mkSubscription {
  ID : string; Org : string; StripeCustomerID : string; StripeSubID : string; Tier : string; Status : string;
  CurrentPeriodEnd : Z; CreatedAt : Z; UpdatedAt : Z
}.
Record LicenseRecord : Type := mkLicenseRecord {
  lID : string; lOrg : string; lToken : string; lTier : string; lStatus : string; lStripeSubID : string;
  lExpiresAt : Z; lGraceUntil : Z; lCreatedAt : Z
}.

Definition EventSubscriptionCreated : string := "customer.subscription.created".
Definition EventSubscriptionUpdated : string := "customer.subscription.updated".
Definition EventSubscriptionDeleted : string := "customer.subscription.deleted".
Definition EventInvoicePaymentFailed : string := "invoice.payment_failed".
Definition EventInvoicePaid : string := "invoice.paid".

(** [BillingDB] and [Emailer], over one state of the outside world. A query
    fails ([None]) or gives a pointer, which may be nil; the records that are
    handed out are not shared with the store. Errors of the calls whose
    results the source drops are in the new state. *)
Class BillingWorld : Type := {
  World : Type;
  CreateSubscription : Subscription -> World -> World;
  GetSubscription : string -> World -> option (option Subscription);
  UpdateSubscription : Subscription -> World -> bool * World;
  CreateLicense : LicenseRecord -> World -> World;
  GetLicenseByOrg : string -> World -> option LicenseRecord;
  UpdateLicense : LicenseRecord -> World -> World;
  SendEmail : string -> text -> text -> World -> World
}.

Definition getStr (m : gmap string json) (key : string) : string := default "" (string_field m key).
Definition getInt (m : gmap string json) (key : string) : Z :=
  match m !! key with Some (JNumber t) => to_int (number_value t) | _ => 0 end.
(** [m[key].(map[string]interface{})] *)
Definition getMap (m : gmap string json) (key : string) : option (gmap string json) :=
  match m !! key with Some (JObject l) => Some (object_map l) | _ => None end.

(** [Add] of a positive duration, which saturates. *)
Definition time_add (t d : Z) : Z := Z.min ((max64 - 62135596800) * Second) (t + d).
Definition GracePeriod : Z := 7 * 24 * Hour.

Section webhook.
Context `{Unicode} `{License.Ecdsa} `{License.ClaimsText} `{BillingWorld}.
(** Decimal text of a clock reading, and the nanosecond clock's reading in
    an [int64]. *)
Context (itoa : Z -> string).

Record StripeWebhookHandler : Type := mkHandler { webhookSecret : string; license : License.License }.

Definition verifyWebhookSignature (h : StripeWebhookHandler) (body sig : string) : option text :=
  if String.eqb (webhookSecret h) "" then None else None.

(** [now i] is the [i]-th reading of the clock, [rnd] the random bytes of the
    signature. *)
Definition created_records (h : StripeWebhookHandler) (rnd : list Z) (now : nat -> Z) (obj : gmap string json)
    : Subscription * LicenseRecord :=
  let '(org, tier) := match getMap obj "metadata" with
                      | Some m => (getStr m "org", getStr m "tier")
                      | None => ("", "")
                      end in
  let expires := time_of_unix (getInt obj "current_period_end") in
  let grace := time_add expires GracePeriod in
  let sub := mkSubscription "" org (getStr obj "customer") (getStr obj "id") tier (getStr obj "status") expires
               (now 0%nat) (now 1%nat) in
  let claims := License.mkClaims tier org 5 [] (now 2%nat) expires grace "1.0.0" ("FWL-" ++ itoa (now 3%nat)) in
  let token := default "" (License.Generate rnd (license h) claims) in
  (sub, mkLicenseRecord "" org token tier "active" (getStr obj "id") expires grace (now 4%nat)).

Definition handleSubscriptionCreated (h : StripeWebhookHandler) (rnd : list Z) (now : nat -> Z)
    (data : gmap string json) (w : World) : World :=
  match getMap data "object" with
  | None => w
  | Some obj =>
      let '(sub, lic) := created_records h rnd now obj in
      SendEmail (Org sub) (lit "Your FortressWAF License") (Sprintf "Your license key: %s" [AStr (lToken lic)])
        (CreateLicense lic (CreateSubscription sub w))
  end.

(** [obj, _ := data["object"].(map[string]interface{})]: nil otherwise, whose
    entries are absent. *)
Definition object_of (data : gmap string json) : gmap string json := default ∅ (getMap data "object").

Definition with_subscription (subID : string) (w : World) (k : Subscription -> World) : outcome World :=
  match GetSubscription subID w with
  | None => Returns w
  | Some None => Panics
  | Some (Some sub) => Returns (k sub)
  end.

Definition set_status (status : string) (now : Z) (sub : Subscription) : Subscription :=
  mkSubscription (ID sub) (Org sub) (StripeCustomerID sub) (StripeSubID sub) (Tier sub) status
    (CurrentPeriodEnd sub) (CreatedAt sub) now.
Definition set_period (period : Z) (sub : Subscription) : Subscription :=
  mkSubscription (ID sub) (Org sub) (StripeCustomerID sub) (StripeSubID sub) (Tier sub) (Status sub)
    period (CreatedAt sub) (UpdatedAt sub).
Definition set_license_status (status : string) (l : LicenseRecord) : LicenseRecord :=
  mkLicenseRecord (lID l) (lOrg l) (lToken l) (lTier l) status (lStripeSubID l) (lExpiresAt l) (lGraceUntil l) (lCreatedAt l).

Definition handleSubscriptionUpdated (now : Z) (data : gmap string json) (w : World) : outcome World :=
  let obj := object_of data in
  with_subscription (getStr obj "id") w (fun sub =>
    snd (UpdateSubscription
           (set_period (time_of_unix (getInt obj "current_period_end")) (set_status (getStr obj "status") now sub)) w)).

(** A status change of the subscription and of its organisation's licence. *)
Definition change_status (sub_status lic_status : string) (now : Z) (sub : Subscription) (w : World) : World :=
  let w := snd (UpdateSubscription (set_status sub_status now sub) w) in
  match GetLicenseByOrg (Org sub) w with
  | Some lic => UpdateLicense (set_license_status lic_status lic) w
  | None => w
  end.

Definition handleSubscriptionDeleted (now : Z) (data : gmap string json) (w : World) : outcome World :=
  with_subscription (getStr (object_of data) "id") w (fun sub => change_status "canceled" "expired" now sub w).

Definition handlePaymentFailed (data : gmap string json) (w : World) : outcome World :=
  with_subscription (getStr (object_of data) "subscription") w (fun sub =>
    SendEmail (Org sub) (lit "Payment Failed - Action Required")
      (lit "Your payment failed. Please update your payment method within 7 days to avoid service interruption.") w).

Definition handleInvoicePaid (now : Z) (data : gmap string json) (w : World) : outcome World :=
  with_subscription (getStr (object_of data) "subscription") w (fun sub =>
    if String.eqb (Status sub) "past_due" then change_status "active" "active" now sub w else w).

(** [body = None] is a body that cannot be read. The result is the status
    code with the new state; a panic is recovered by the server, which drops
    the connection. *)
Definition HandleWebhook (h : StripeWebhookHandler) (rnd : list Z) (now : nat -> Z) (body : option string) (sig : string)
    (w : World) : outcome (Z * World) :=
  match body with
  | None => Returns (400, w)
  | Some body =>
      let _ := verifyWebhookSignature h body sig in
      match Unmarshal body with
      | None => Returns (400, w)
      | Some v =>
          match as_map v with
          | None => Returns (400, w)
          | Some event =>
              match string_field event "type" with
              | None => Returns (400, w)
              | Some eventType =>
                  match getMap event "data" with
                  | None => Returns (400, w)
                  | Some data =>
                      let! w :=
                        (if String.eqb eventType EventSubscriptionCreated
                         then Returns (handleSubscriptionCreated h rnd now data w)
                         else if String.eqb eventType EventSubscriptionUpdated
                         then handleSubscriptionUpdated (now 0%nat) data w
                         else if String.eqb eventType EventSubscriptionDeleted
                         then handleSubscriptionDeleted (now 0%nat) data w
                         else if String.eqb eventType EventInvoicePaymentFailed then handlePaymentFailed data w
                         else if String.eqb eventType EventInvoicePaid then handleInvoicePaid (now 0%nat) data w
                         else Returns w) in
                      Returns (200, w)
                  end
              end
          end
      end
  end.

Definition CancelSubscription (now : Z) (subID : string) (w : World) : outcome (bool * World) :=
  match GetSubscription subID w with
  | None => Returns (false, w)
  | Some None => Panics
  | Some (Some sub) => Returns (UpdateSubscription (set_status "canceled" now sub) w)
  end.

Definition ParseStripeWebhook (body secret : string) : option (gmap string json) := v ← Unmarshal body; as_map v.
Definition GetStripeEventType (event : gmap string json) : string := default "" (string_field event "type").
Definition GetStripeSubscriptionID (event : gmap string json) : string :=
  default "" (data ← getMap event "data"; obj ← getMap data "object"; string_field obj "id").

Definition IsSubscriptionActive (sub : option Subscription) : bool :=
  match sub with Some s => String.eqb (Status s) "active" || String.eqb (Status s) "trialing" | None => false end.
Definition IsLicenseActive (now : Z) (lic : option LicenseRecord) : bool :=
  match lic with Some l => String.eqb (lStatus l) "active" && time_before now (lGraceUntil l) | None => false end.

End webhook.

Definition GetTierDisplayName (tier : string) : string :=
  if String.eqb tier "community" then "Community" else if String.eqb tier "starter" then "Starter"
  else if String.eqb tier "professional" then "Professional" else if String.eqb tier "enterprise" then "Enterprise"
  else tier.
Definition GetTierPrice (tier : string) : Z :=
  if String.eqb tier "starter" then 4999 else if String.eqb tier "professional" then 14999
  else if String.eqb tier "enterprise" then 49999 else 0.
Definition GetTierPriceMonthly (tier : string) : Z :=
  if String.eqb tier "starter" then 4900 else if String.eqb tier "professional" then 14900
  else if String.eqb tier "enterprise" then 49900 else 0.
Definition BuildFeatureList (features : list string) : string := String.concat ", " features.
Definition ValidateWebhookTimestamp (now : Z) (timestamp : string) : option text :=
  match ParseInt timestamp with
  | None => Some (lit "invalid timestamp")
  | Some ts => if 300 <? wrap64 (time_unix now - ts) then Some (lit "webhook timestamp too old") else None
  end.

Section webhook_facts.
Context `{Unicode} `{License.Ecdsa} `{License.ClaimsText} `{BillingWorld} (itoa : Z -> string).

(** [C33] Whoever can post to the webhook gets a licence of any tier for any
    organisation: whatever the configured secret and the signature header, a
    body that describes a created subscription is answered with 200, and an
    active licence record of the organisation and the tier of its metadata,
    good until a week after the period end it names, is stored, after one
    subscription and before one e-mail. The key that is mailed, though, is one
    no validation accepts. *)
Theorem webhook_grants_unsigned h rnd now sig w text event data obj meta :
  Unmarshal text = Some (JObject event) -> string_field (object_map event) "type" = Some EventSubscriptionCreated ->
  getMap (object_map event) "data" = Some data -> getMap data "object" = Some obj -> getMap obj "metadata" = Some meta ->
  exists sub lic,
    HandleWebhook itoa h rnd now (Some text) sig w
    = Returns (200, SendEmail (getStr meta "org") (lit "Your FortressWAF License")
                      (Sprintf "Your license key: %s" [AStr (lToken lic)])
                      (CreateLicense lic (CreateSubscription sub w)))
    /\ lOrg lic = getStr meta "org" /\ lTier lic = getStr meta "tier"
    /\ (forall t, IsLicenseActive t (Some lic) = true <-> t < time_add (time_of_unix (getInt obj "current_period_end")) GracePeriod)
    /\ (forall t l, License.Validate t l (lToken lic) = None).
Proof.
  intros Hu Ht Hd Ho Hm. destruct (created_records itoa h rnd now obj) as [sub lic] eqn:E.
  exists sub, lic. unfold HandleWebhook. rewrite Hu. cbn [as_map]. rewrite Ht, Hd, String.eqb_refl.
  unfold handleSubscriptionCreated. rewrite Ho, E. unfold created_records in E. rewrite Hm in E. simplify_eq.
  split_and!; [done..| |].
  - intros t. unfold IsLicenseActive, time_before. cbn [lStatus lGraceUntil]. rewrite String.eqb_refl. cbn [andb]. apply Z.ltb_lt.
  - intros t l. cbn [lToken]. destruct (License.Generate _ _ _) as [token|] eqn:Eg; [|done].
    apply License.Generate_prefixed in Eg as [k ->]. unfold License.Validate. cbn [default from_option id].
    by rewrite (proj2 (License.prefixed_invalid k)).
Qed.

(** No other event than a created subscription makes a licence or a
    subscription, and a failed query changes nothing. *)
Lemma webhook_unknown_subscription h rnd now sig w text event data obj kind :
  Unmarshal text = Some (JObject event) -> string_field (object_map event) "type" = Some kind ->
  getMap (object_map event) "data" = Some data -> object_of data = obj ->
  kind <> EventSubscriptionCreated -> GetSubscription (getStr obj "id") w = None ->
  GetSubscription (getStr obj "subscription") w = None ->
  HandleWebhook itoa h rnd now (Some text) sig w = Returns (200, w).
Proof.
  intros Hu Ht Hd <- Hk Hi Hs. unfold HandleWebhook. rewrite Hu. cbn [as_map]. rewrite Ht, Hd.
  rewrite (proj2 (String.eqb_neq _ _) Hk).
  unfold handleSubscriptionUpdated, handleSubscriptionDeleted, handlePaymentFailed, handleInvoicePaid, with_subscription.
  rewrite Hi, Hs. by repeat case_match.
Qed.

End webhook_facts.

#[local] Existing Instance unicode_ascii.
#[local] Existing Instance License.digest_signature.
#[local] Existing Instance License.short_claims.

(** A store that counts its writes. *)
#[local] Instance counting_world : BillingWorld :=
  {| World := list string; CreateSubscription := fun s w => ("sub " ++ Tier s) :: w; GetSubscription := fun _ _ => None;
     UpdateSubscription := fun _ w => (true, w); CreateLicense := fun l w => ("lic " ++ lTier l) :: w;
     GetLicenseByOrg := fun _ _ => None; UpdateLicense := fun _ w => w; SendEmail := fun to _ _ w => ("to " ++ to) :: w |}.

Definition no_records : World := [].
Definition forged : string :=
  "{" ++ quoted "type" ++ ":" ++ quoted EventSubscriptionCreated ++ "," ++ quoted "data" ++ ":{" ++ quoted "object"
  ++ ":{" ++ quoted "current_period_end" ++ ":4102444800," ++ quoted "metadata" ++ ":{" ++ quoted "org" ++ ":"
  ++ quoted "mallory" ++ "," ++ quoted "tier" ++ ":" ++ quoted "enterprise" ++ "}}}}".

Definition forged_event : list (string * json) := match Unmarshal forged with Some (JObject l) => l | _ => [] end.
Definition forged_data : gmap string json := default ∅ (getMap (object_map forged_event) "data").
Definition forged_object : gmap string json := default ∅ (getMap forged_data "object").
Definition forged_metadata : gmap string json := default ∅ (getMap forged_object "metadata").

Lemma webhook_grants_unsigned_witness :
  exists sub lic,
    HandleWebhook (fun _ => "") (mkHandler "whsec_strong" (License.NewLicense License.the_key)) [] (fun _ => 0) (Some forged) "" no_records
    = Returns (200, SendEmail "mallory" (lit "Your FortressWAF License")
                      (Sprintf "Your license key: %s" [AStr (lToken lic)]) (CreateLicense lic (CreateSubscription sub no_records)))
    /\ lTier lic = "enterprise" /\ IsLicenseActive (4102444800 * Second) (Some lic) = true.
Proof.
  edestruct (webhook_grants_unsigned (fun _ => "") (mkHandler "whsec_strong" (License.NewLicense License.the_key)) []
    (fun _ => 0) "" no_records forged forged_event forged_data forged_object forged_metadata) as (sub & lic & E & _ & Ht & Ha & _);
    [vm_compute; reflexivity..|].
  exists sub, lic. split; [|split; [|apply Ha; vm_compute; reflexivity]].
  - refine (eq_trans E _). vm_compute. reflexivity.
  - refine (eq_trans Ht _). vm_compute. reflexivity.
Defined.

End Stripe.
