(* ===== verification/Api.v ===== *)
(** * The control API's configuration handlers: [internal/api/handlers.go]

    Sites, rules, virtual patches and configuration: the handlers that change
    the configuration manager and the rule engine. A handler takes the path
    parameter, the query and the body it reads and gives the status and what
    it writes. Decoding the whole configuration and printing it as YAML is the
    class [ConfigCodec]. The rest of the API is in [ApiStore]. *)

From S2P Require Import Prelude Float64 GoStr Json Types Config.
From S2P Require Rules.

#[local] Open Scope string_scope.
#[local] Open Scope Z_scope.

(** ** Requests *)

(** Decoding a value into a struct with these fields and no others
    ([DisallowUnknownFields]); [readJSONStrict] is [strict] of [Decode]. *)
Definition strict `{Unicode} {A} (fields : list string) (decode : list (string * json) -> option A) (v : json) : option A :=
  l ← as_members v;
  if forallb (fun p => existsb (EqualFold (fst p)) fields) l then decode l else None.

(** A field behind a pointer, or one whose nil is told from empty. *)
Definition optional `{Unicode} {A} (decode : json -> option A) (name : string) (l : list (string * json)) : option (option A) :=
  member (fun v => Some <$> decode v) name None l.
Definition as_bool (v : json) : option bool := match v with JBool b => Some b | _ => None end.

(** A value of a [map[string]interface{}]; equal keys: the last wins. *)
Fixpoint to_any (v : json) : any :=
  match v with
  | JNull => ANull
  | JBool b => ABool b
  | JNumber t => AFloating (number_value t)
  | JString s => AString s
  | JArray l => ASeq (map to_any l)
  | JObject l => AMap (map (fun p => (fst p, to_any (snd p))) l)
  end.
Definition as_any_map (v : json) : option (gmap string any) :=
  match as_map v with Some m => Some (fmap (M := gmap string) to_any m) | None => None end.

(** [getQueryInt]: the parameter as an [int], or the default. *)
Definition getQueryInt (query : string -> string) (name : string) (def : Z) : Z :=
  if String.eqb (query name) "" then def else default def (ParseInt (query name)).

(** ** Answers *)

Record patchRecord : Type := mkPatch {
  p_ID : string; p_Name : string; p_Description : string; p_CVE : string; p_Severity : string;
  p_Rules : list RuleConfig.t; p_Status : string; p_CreatedAt : Z; p_DeployedAt : Z
}.

Record coverageItem : Type := mkCoverage {
  PatchID : string; PatchName : string; c_CVE : string; c_Severity : string; c_Status : string; RulesCount : Z
}.

Record maskedConfig : Type := mkMasked {
  m_sites : list SiteConfig.t; m_rules : list RuleConfig.t; m_logging : LoggingConfig.t; m_tls : TLSConfig.t;
  m_admin : Z * bool * bool * Z; m_redis : bool * string * Z * Z * Z; m_ml : MLConfig.t; m_db : string * Z * Z
}.

(** What an answer's [data] holds, with its [meta] total and page, or the
    error; [Raw] is an answer that is not JSON. *)
Inductive payload : Type :=
| Failure (code : string) (msg : text)
| Fields (l : list (string * text))
| Site (s : SiteConfig.t)
| Sites (l : list SiteConfig.t) (total page : Z)
| RuleOf (r : RuleConfig.t)
| RulesOf (l : list RuleConfig.t) (total page : Z)
| Tested (d : Rules.Decision)
| Bulk (created updated : Z) (errors : list text)
| Patch (p : patchRecord)
| Patches (l : list patchRecord) (total page : Z)
| Coverage (total patched unpatched : Z) (pct : f64) (deployed draft : list coverageItem)
| Masked (c : maskedConfig)
| Validity (valid : bool) (errors : list text)
| Diff (has_changes : bool) (fields : list string)
| Raw (s : string).

Definition response : Type := Z * payload.

Definition writeOK (p : payload) : response := (200, p).
Definition writeCreated (p : payload) : response := (201, p).
Definition writeErr (status : Z) (code : string) (msg : text) : response := (status, Failure code msg).
Definition writeBadRequest (msg : text) : response := writeErr 400 "BAD_REQUEST" msg.
Definition writeUnauthorized : response := writeErr 401 "UNAUTHORIZED" (lit "authentication required").
Definition writeForbidden : response := writeErr 403 "FORBIDDEN" (lit "access denied").
Definition writeNotFound (msg : string) : response := writeErr 404 "NOT_FOUND" (lit msg).
Definition writeConflict (msg : string) : response := writeErr 409 "CONFLICT" (lit msg).
Definition writeInternalErr : response := writeErr 500 "INTERNAL_ERROR" (lit "internal server error").

(** ** Changes of the configuration *)

(** The eight sections the API changes. *)
Definition set_main (sites : list SiteConfig.t) (rules : list RuleConfig.t) (ml : MLConfig.t) (redis : RedisConfig.t)
    (db : DBConfig.t) (logging : LoggingConfig.t) (tls : TLSConfig.t) (admin : AdminConfig.t) (c : Config.t) : Config.t :=
  Config.mk (Config.filePath c) sites rules ml redis db logging tls admin (Config.JWT c) (Config.OAuth c) (Config.GraphQL c)
    (Config.MTLS c) (Config.WebSocket c) (Config.SIEM c) (Config.RewriteRules c) (Config.SQLI c)
    (Config.XSS c) (Config.RCE c) (Config.DDoS c) (Config.Protocol c) (Config.Bot c) (Config.APIProtect c)
    (Config.Upload c) (Config.Credential c) (Config.Geo c) (Config.RateLimit c) (Config.Session c)
    (Config.Reputation c) (Config.RulesCfg c) (Config.CAPTCHA c) (Config.RespInspect c) (Config.SOAP c)
    (Config.GRPC c) (Config.Prometheus c) (Config.JA3 c) (Config.Behavioral c) (Config.WASM c)
    (Config.Desync c) (Config.Adaptive c) (Config.EBPF c) (Config.ParserHardening c) (Config.ShadowMode c)
    (Config.LearningMode c) (Config.Performance c).
Definition set_sites (l : list SiteConfig.t) (c : Config.t) : Config.t :=
  set_main l (Config.Rules c) (Config.ML c) (Config.Redis c) (Config.DB c) (Config.Logging c) (Config.TLS c) (Config.Admin c) c.
Definition set_rules (l : list RuleConfig.t) (c : Config.t) : Config.t :=
  set_main (Config.Sites c) l (Config.ML c) (Config.Redis c) (Config.DB c) (Config.Logging c) (Config.TLS c) (Config.Admin c) c.

Definition is_site (name : string) (s : SiteConfig.t) : bool := String.eqb (SiteConfig.Name s) name.
Definition is_rule (id : string) (r : RuleConfig.t) : bool := String.eqb (RuleConfig.ID r) id.

(** A change of the first site or rule of a name; without one nothing changes. *)
Definition edit_site (name : string) (f : SiteConfig.t -> SiteConfig.t) (c : Config.t) : Config.t :=
  set_sites (default (Config.Sites c) (update_first (is_site name) f (Config.Sites c))) c.
Definition edit_rule (id : string) (f : RuleConfig.t -> RuleConfig.t) (c : Config.t) : Config.t :=
  set_rules (default (Config.Rules c) (update_first (is_rule id) f (Config.Rules c))) c.
Definition remove_site (name : string) (c : Config.t) : Config.t :=
  set_sites (default (Config.Sites c) (delete_first (is_site name) (Config.Sites c))) c.
Definition remove_rule (id : string) (c : Config.t) : Config.t :=
  set_rules (default (Config.Rules c) (delete_first (is_rule id) (Config.Rules c))) c.

(** The engine's rule for a configured rule; it is compiled when it is stored. *)
Definition engine_rule (r : RuleConfig.t) : Rules.Rule :=
  Rules.mkRule (RuleConfig.ID r) (RuleConfig.Name r) (RuleConfig.Enabled r) (RuleConfig.Severity r) (RuleConfig.Action r)
    (RuleConfig.Priority r) (RuleConfig.Field r) (RuleConfig.Operator r) (RuleConfig.Value r) (RuleConfig.Transform r) None.

(** ** Handlers *)

(** Decoding a [config.Config] from JSON with no unknown fields and from YAML,
    over the zero configuration; printing one as YAML. *)
Class ConfigCodec : Type := {
  config_of_json : string -> option Config.t;
  config_of_yaml : string -> option Config.t;
  yaml_marshal : Config.t -> option string
}.

Record Handlers (S : Type) : Type := mkHandlers {
  configMgr : Manager S;
  world : S;
  ruleEngine : Rules.Engine;
  patches : list patchRecord
}.
Arguments mkHandlers {S}.
Arguments configMgr {S}.
Arguments world {S}.
Arguments ruleEngine {S}.
Arguments patches {S}.

Record createSiteRequest : Type := mkCreateSite {
  cs_Name : string; cs_Domains : list string; cs_OriginURL : string; cs_Port : Z; cs_RuleProfile : string;
  cs_TLS : bool; cs_WAFEnabled : bool
}.
Record updateSiteRequest : Type := mkUpdateSite {
  us_Domains : option (list string); us_OriginURL : option string; us_Port : option Z; us_TLS : option bool;
  us_WAFEnabled : option bool
}.
(** A nil [Transform], [Tags] or [Params] is [None]. *)
Record createRuleRequest : Type := mkRuleRequest {
  r_ID : string; r_Name : string; r_Description : string; r_Severity : string; r_Action : string; r_Phase : string;
  r_Priority : Z; r_Field : string; r_Operator : string; r_Value : string; r_Transform : option (list string);
  r_Tags : option (list string); r_Params : option (gmap string any)
}.
Record testRuleRequest : Type := mkTestRequest {
  t_Rule : createRuleRequest; t_Field : string; t_Value : string; t_Path : string; t_Method : string; t_IP : string;
  t_Host : string
}.
Record createPatchRequest : Type := mkPatchRequest {
  q_Name : string; q_Description : string; q_CVE : string; q_Severity : string; q_Rules : list createRuleRequest
}.

Section requests.
Context `{Unicode}.

Definition decode_createSite : json -> option createSiteRequest :=
  strict ["name"; "domains"; "origin_url"; "port"; "rule_profile"; "tls"; "waf_enabled"] (fun l =>
    name ← member as_string "name" "" l; domains ← member as_strings "domains" [] l;
    origin ← member as_string "origin_url" "" l; port ← member as_int64 "port" 0 l;
    profile ← member as_string "rule_profile" "" l; tls ← member as_bool "tls" false l;
    waf ← member as_bool "waf_enabled" false l;
    Some (mkCreateSite name domains origin port profile tls waf)).

Definition decode_updateSite : json -> option updateSiteRequest :=
  strict ["domains"; "origin_url"; "port"; "tls"; "waf_enabled"] (fun l =>
    domains ← optional as_strings "domains" l; origin ← optional as_string "origin_url" l;
    port ← optional as_int64 "port" l; tls ← optional as_bool "tls" l; waf ← optional as_bool "waf_enabled" l;
    Some (mkUpdateSite domains origin port tls waf)).

Definition decode_createRule : json -> option createRuleRequest :=
  strict ["id"; "name"; "description"; "severity"; "action"; "phase"; "priority"; "field"; "operator"; "value";
          "transform"; "tags"; "params"] (fun l =>
    id ← member as_string "id" "" l; name ← member as_string "name" "" l;
    description ← member as_string "description" "" l; severity ← member as_string "severity" "" l;
    action ← member as_string "action" "" l; phase ← member as_string "phase" "" l;
    priority ← member as_int64 "priority" 0 l; field ← member as_string "field" "" l;
    operator ← member as_string "operator" "" l; value ← member as_string "value" "" l;
    transform ← optional as_strings "transform" l; tags ← optional as_strings "tags" l;
    params ← optional as_any_map "params" l;
    Some (mkRuleRequest id name description severity action phase priority field operator value transform tags params)).

Definition zero_ruleRequest : createRuleRequest := mkRuleRequest "" "" "" "" "" "" 0 "" "" "" None None None.
Definition as_ruleRequests (v : json) : option (list createRuleRequest) :=
  match v with JArray l => mapM decode_createRule l | _ => None end.

Definition decode_testRule : json -> option testRuleRequest :=
  strict ["rule"; "field"; "value"; "path"; "method"; "ip"; "host"] (fun l =>
    rule ← member decode_createRule "rule" zero_ruleRequest l; field ← member as_string "field" "" l;
    value ← member as_string "value" "" l; path ← member as_string "path" "" l; method ← member as_string "method" "" l;
    ip ← member as_string "ip" "" l; host ← member as_string "host" "" l;
    Some (mkTestRequest rule field value path method ip host)).
Definition decode_bulk : json -> option (list createRuleRequest) :=
  strict ["rules"] (member as_ruleRequests "rules" []).
Definition decode_priority : json -> option Z := strict ["priority"] (member as_int64 "priority" 0).
Definition decode_createPatch : json -> option createPatchRequest :=
  strict ["name"; "description"; "cve"; "severity"; "rules"] (fun l =>
    name ← member as_string "name" "" l; description ← member as_string "description" "" l;
    cve ← member as_string "cve" "" l; severity ← member as_string "severity" "" l;
    rules ← member as_ruleRequests "rules" [] l;
    Some (mkPatchRequest name description cve severity rules)).
End requests.

Definition invalid_json : response := writeBadRequest (lit "invalid JSON: ").

Section handlers.
Context `{Unicode} `{Files} `{ConfigCodec} `{Rules.Oracles} `{Rules.Runtime} `{MapRange string} {S : Type}.
Implicit Types h : Handlers S.

Definition cfg h : Config.t := config (configMgr h).
Definition set_engine (e : Rules.Engine) h : Handlers S := mkHandlers (configMgr h) (world h) e (patches h).
Definition set_patches (l : list patchRecord) h : Handlers S := mkHandlers (configMgr h) (world h) (ruleEngine h) l.

Definition update_config (fn : Config.t -> Config.t) h : option text * Handlers S :=
  let '(err, m, w) := UpdateConfig fn (configMgr h) (world h) in (err, mkHandlers m w (ruleEngine h) (patches h)).

(** The shape of the editing handlers: the closure looks for the element and
    changes it; an error of the update comes before "not found". *)
Definition edit (found : bool) (fn : Config.t -> Config.t) (on_error : text -> response) (missing : string)
    (k : Handlers S -> response * Handlers S) h : response * Handlers S :=
  let '(err, h) := update_config fn h in
  match err with
  | Some e => (on_error e, h)
  | None => if negb found then (writeNotFound missing, h) else k h
  end.
Definition internal (_ : text) : response := writeInternalErr.

(** *** Sites *)

Definition ListSites h : response := writeOK (Sites (Config.Sites (cfg h)) (len (Config.Sites (cfg h))) 1).

Definition new_site (req : createSiteRequest) : SiteConfig.t :=
  SiteConfig.mk (cs_Name req) (cs_Domains req) (cs_OriginURL req) (if cs_Port req =? 0 then 80 else cs_Port req)
    (cs_TLS req) "" "" None (cs_WAFEnabled req) ∅.

Definition CreateSite (body : string) h : response * Handlers S :=
  match Decode body ≫= decode_createSite with
  | None => (invalid_json, h)
  | Some req =>
      if String.eqb (cs_Name req) "" then (writeBadRequest (lit "name is required"), h)
      else if (len (cs_Domains req) =? 0) && String.eqb (cs_OriginURL req) ""
      then (writeBadRequest (lit "domains or origin_url is required"), h)
      else if existsb (is_site (cs_Name req)) (Config.Sites (cfg h)) then (writeConflict "site already exists", h)
      else
        let '(err, h) := update_config (fun c => set_sites (Config.Sites c ++ [new_site req])%list c) h in
        match err with
        | Some _ => (writeInternalErr, h)
        | None => (writeCreated (Fields [("name", lit (cs_Name req))]), h)
        end
  end.

Definition GetSite (id : string) h : response :=
  match Config.GetSite id (cfg h) with Some s => writeOK (Site s) | None => writeNotFound "site not found" end.

Definition apply_site (req : updateSiteRequest) (s : SiteConfig.t) : SiteConfig.t :=
  SiteConfig.mk (SiteConfig.Name s) (default (SiteConfig.Domains s) (us_Domains req))
    (default (SiteConfig.Upstream s) (us_OriginURL req)) (default (SiteConfig.Port s) (us_Port req))
    (default (SiteConfig.TLS s) (us_TLS req)) (SiteConfig.CertFile s) (SiteConfig.KeyFile s) (SiteConfig.RateLimit s)
    (default (SiteConfig.WAFEnabled s) (us_WAFEnabled req)) (SiteConfig.RuleOverrides s).
Definition has_site (id : string) h : bool := existsb (is_site id) (Config.Sites (cfg h)).
Definition has_rule (id : string) h : bool := existsb (is_rule id) (Config.Rules (cfg h)).

Definition UpdateSite (id body : string) h : response * Handlers S :=
  match Decode body ≫= decode_updateSite with
  | None => (invalid_json, h)
  | Some req =>
      edit (has_site id h) (edit_site id (apply_site req)) internal "site not found"
        (fun h => (writeOK (Fields [("name", lit id)]), h)) h
  end.

Definition DeleteSite (id : string) h : response * Handlers S :=
  edit (has_site id h) (remove_site id) internal "site not found"
    (fun h => (writeOK (Fields [("deleted", lit id)]), h)) h.

Definition set_waf (b : bool) (s : SiteConfig.t) : SiteConfig.t :=
  apply_site (mkUpdateSite None None None None (Some b)) s.
Definition EnableSite (id : string) h : response * Handlers S :=
  edit (has_site id h) (edit_site id (set_waf true)) internal "site not found"
    (fun h => (writeOK (Fields [("name", lit id); ("waf_enabled", lit "true")]), h)) h.
Definition DisableSite (id : string) h : response * Handlers S :=
  edit (has_site id h) (edit_site id (set_waf false)) internal "site not found"
    (fun h => (writeOK (Fields [("name", lit id); ("waf_enabled", lit "false")]), h)) h.

(** *** Rules *)

Definition rule_listed (severity tag status : string) (r : RuleConfig.t) : bool :=
  (String.eqb severity "" || String.eqb (RuleConfig.Severity r) severity)
  && (String.eqb tag "" || existsb (fun t => String.eqb t tag) (RuleConfig.Tags r))
  && negb (String.eqb status "enabled" && negb (RuleConfig.Enabled r))
  && negb (String.eqb status "disabled" && RuleConfig.Enabled r).

(** Overrides that are nil are empty here: an empty but not nil map would
    filter out every rule. *)
Definition ListRules (query : string -> string) h : response :=
  let filtered := filter (fun r => rule_listed (query "severity") (query "tag") (query "status") r = true)
                    (Config.Rules (cfg h)) in
  let filtered :=
    if String.eqb (query "site") "" then filtered
    else match Config.GetSite (query "site") (cfg h) with
         | Some s => if bool_decide (SiteConfig.RuleOverrides s = ∅) then filtered
                     else filter (fun r => is_Some (SiteConfig.RuleOverrides s !! RuleConfig.ID r)) filtered
         | None => filtered
         end in
  writeOK (RulesOf filtered (len filtered) 1).

Definition new_rule (req : createRuleRequest) : RuleConfig.t :=
  RuleConfig.mk (r_ID req) (r_Name req) (r_Description req) false (r_Severity req) (r_Action req) (r_Phase req)
    (r_Priority req) (r_Field req) (r_Operator req) (r_Value req) (default [] (r_Transform req))
    (default [] (r_Tags req)) (default ∅ (r_Params req)).

(** A failure of the engine is logged and the answer stays the same. *)
Definition CreateRule (body : string) h : response * Handlers S :=
  match Decode body ≫= decode_createRule with
  | None => (invalid_json, h)
  | Some req =>
      if String.eqb (r_ID req) "" then (writeBadRequest (lit "id is required"), h)
      else if String.eqb (r_Field req) "" then (writeBadRequest (lit "field is required"), h)
      else if String.eqb (r_Operator req) "" then (writeBadRequest (lit "operator is required"), h)
      else match Config.GetRule (r_ID req) (cfg h) with
           | Some _ => (writeConflict "rule already exists", h)
           | None =>
               let '(err, h) := update_config (fun c => set_rules (Config.Rules c ++ [new_rule req])%list c) h in
               match err with
               | Some e => (writeBadRequest e, h)
               | None =>
                   (writeCreated (RuleOf (new_rule req)),
                    set_engine (Rules.ok_or (ruleEngine h) (Rules.AddRule (engine_rule (new_rule req)) (ruleEngine h))) h)
               end
           end
  end.

Definition GetRule (id : string) h : response :=
  match Config.GetRule id (cfg h) with Some r => writeOK (RuleOf r) | None => writeNotFound "rule not found" end.

Definition syncRuleToEngine (id : string) h : Handlers S :=
  match Config.GetRule id (cfg h) with
  | None => h
  | Some r => set_engine (Rules.ok_or (ruleEngine h) (Rules.UpdateRule id (engine_rule r) (ruleEngine h))) h
  end.

(** Empty strings, a zero priority and nil slices keep the field. *)
Definition or_keep (new old : string) : string := if String.eqb new "" then old else new.
Definition apply_rule (req : createRuleRequest) (r : RuleConfig.t) : RuleConfig.t :=
  RuleConfig.mk (RuleConfig.ID r) (or_keep (r_Name req) (RuleConfig.Name r))
    (or_keep (r_Description req) (RuleConfig.Description r)) (RuleConfig.Enabled r)
    (or_keep (r_Severity req) (RuleConfig.Severity r)) (or_keep (r_Action req) (RuleConfig.Action r))
    (or_keep (r_Phase req) (RuleConfig.Phase r)) (if r_Priority req =? 0 then RuleConfig.Priority r else r_Priority req)
    (or_keep (r_Field req) (RuleConfig.Field r)) (or_keep (r_Operator req) (RuleConfig.Operator r))
    (or_keep (r_Value req) (RuleConfig.Value r)) (default (RuleConfig.Transform r) (r_Transform req))
    (default (RuleConfig.Tags r) (r_Tags req)) (default (RuleConfig.Params r) (r_Params req)).

Definition UpdateRule (id body : string) h : response * Handlers S :=
  match Decode body ≫= decode_createRule with
  | None => (invalid_json, h)
  | Some req =>
      edit (has_rule id h) (edit_rule id (apply_rule req)) writeBadRequest "rule not found"
        (fun h => (writeOK (Fields [("id", lit id); ("updated", lit "true")]), syncRuleToEngine id h)) h
  end.

Definition DeleteRule (id : string) h : response * Handlers S :=
  edit (has_rule id h) (remove_rule id) internal "rule not found"
    (fun h => (writeOK (Fields [("id", lit id); ("deleted", lit "true")]),
               set_engine (Rules.ok_or (ruleEngine h) (Rules.DeleteRule id (ruleEngine h))) h)) h.

Definition set_enabled (b : bool) (r : RuleConfig.t) : RuleConfig.t :=
  RuleConfig.mk (RuleConfig.ID r) (RuleConfig.Name r) (RuleConfig.Description r) b (RuleConfig.Severity r)
    (RuleConfig.Action r) (RuleConfig.Phase r) (RuleConfig.Priority r) (RuleConfig.Field r) (RuleConfig.Operator r)
    (RuleConfig.Value r) (RuleConfig.Transform r) (RuleConfig.Tags r) (RuleConfig.Params r).
Definition EnableRule (id : string) h : response * Handlers S :=
  edit (has_rule id h) (edit_rule id (set_enabled true)) internal "rule not found"
    (fun h => (writeOK (Fields [("id", lit id); ("enabled", lit "true")]), syncRuleToEngine id h)) h.
Definition DisableRule (id : string) h : response * Handlers S :=
  edit (has_rule id h) (edit_rule id (set_enabled false)) internal "rule not found"
    (fun h => (writeOK (Fields [("id", lit id); ("enabled", lit "false")]), syncRuleToEngine id h)) h.

Definition TestRule (body : string) h : response :=
  match Decode body ≫= decode_testRule with
  | None => invalid_json
  | Some req =>
      let fv := Rules.mkField ∅ ∅ {["User-Agent" := t_Value req]} ∅ None (t_Path req) (t_Method req) (t_IP req) "" "" ""
                  0 "" "" (t_Host req) in
      match Rules.TestRule (engine_rule (new_rule (t_Rule req))) fv with
      | Err _ => writeBadRequest (lit "rule test failed: ")
      | Ok d => writeOK (Tested d)
      end
  end.

(** [ruleIndex] is made before the loop: the index of the last rule of an id. *)
Definition rule_index (l : list RuleConfig.t) : gmap string nat :=
  fold_left (fun m p => <[RuleConfig.ID (snd p) := fst p]> m) (imap pair l) ∅.
Definition bulk_step (index : gmap string nat) (acc : list RuleConfig.t * Z * Z * list text) (rr : createRuleRequest)
    : list RuleConfig.t * Z * Z * list text :=
  let '(rules, created, updated, errs) := acc in
  if String.eqb (r_ID rr) "" || String.eqb (r_Field rr) "" || String.eqb (r_Operator rr) ""
  then (rules, created, updated, errs ++ [Sprintf "rule missing required fields: id=%s" [AStr (r_ID rr)]])%list
  else match index !! r_ID rr with
       | Some i => (<[i := new_rule rr]> rules, created, updated + 1, errs)
       | None => ((rules ++ [new_rule rr])%list, created + 1, updated, errs)
       end.
Definition bulk (reqs : list createRuleRequest) (l : list RuleConfig.t) : list RuleConfig.t * Z * Z * list text :=
  fold_left (bulk_step (rule_index l)) reqs (l, 0, 0, []).

Definition BulkRules (body : string) h : response * Handlers S :=
  match Decode body ≫= decode_bulk with
  | None => (invalid_json, h)
  | Some reqs =>
      if len reqs =? 0 then (writeBadRequest (lit "rules array is required"), h)
      else if 500 <? len reqs then (writeBadRequest (lit "maximum 500 rules per bulk operation"), h)
      else
        let '(_, created, updated, errs) := bulk reqs (Config.Rules (cfg h)) in
        let '(err, h) := update_config (fun c => set_rules (bulk reqs (Config.Rules c)).1.1.1 c) h in
        match err with
        | Some e => (writeBadRequest e, h)
        | None => (writeOK (Bulk created updated errs), fold_left (fun h rr => syncRuleToEngine (r_ID rr) h) reqs h)
        end
  end.

Definition ReorderRule (id body : string) h : response * Handlers S :=
  match Decode body ≫= decode_priority with
  | None => (invalid_json, h)
  | Some priority =>
      if priority <? 0 then (writeBadRequest (lit "priority must be >= 0"), h)
      else match Rules.ReorderRule id priority (ruleEngine h) with
           | Err e => (writeErr 404 "NOT_FOUND" e, h)
           | Ok e => (writeOK (Fields [("id", lit id); ("priority", Sprintf "%d" [Types.AInt priority])]), set_engine e h)
           end
  end.

(** *** Virtual patches *)

Definition ListPatches (status : string) h : response :=
  let filtered := filter (fun p => String.eqb status "" || String.eqb (p_Status p) status = true) (patches h) in
  writeOK (Patches filtered (len filtered) 1).

Definition patch_rule (rr : createRuleRequest) : RuleConfig.t :=
  RuleConfig.mk (r_ID rr) (r_Name rr) "" false (r_Severity rr) (r_Action rr) "" 0 (r_Field rr) (r_Operator rr) (r_Value rr)
    (default [] (r_Transform rr)) (default [] (r_Tags rr)) ∅.

(** [uuid.New().String()] and the clock are arguments. *)
Definition CreatePatch (uuid : string) (now : Z) (body : string) h : response * Handlers S :=
  match Decode body ≫= decode_createPatch with
  | None => (invalid_json, h)
  | Some req =>
      if String.eqb (q_Name req) "" then (writeBadRequest (lit "name is required"), h)
      else if len (q_Rules req) =? 0 then (writeBadRequest (lit "at least one rule is required"), h)
      else
        let patch := mkPatch ("PATCH-" ++ take_str 8 uuid) (q_Name req) (q_Description req) (q_CVE req) (q_Severity req)
                       (patch_rule <$> q_Rules req) "draft" now zero_time in
        (writeCreated (Patch patch), set_patches (patches h ++ [patch])%list h)
  end.

Definition is_patch (id : string) (p : patchRecord) : bool := String.eqb (p_ID p) id.
Definition find_patch (id : string) h : option patchRecord := List.find (is_patch id) (patches h).
Definition GetPatch (id : string) h : response :=
  match find_patch id h with Some p => writeOK (Patch p) | None => writeNotFound "patch not found" end.

Definition set_patch_status (status : string) (deployed : Z) (p : patchRecord) : patchRecord :=
  mkPatch (p_ID p) (p_Name p) (p_Description p) (p_CVE p) (p_Severity p) (p_Rules p) status (p_CreatedAt p) deployed.
Definition store_patch (id : string) (p : patchRecord) h : Handlers S :=
  set_patches (default (patches h) (update_first (is_patch id) (fun _ => p) (patches h))) h.

Definition deploy (p : patchRecord) (c : Config.t) : Config.t := set_rules (Config.Rules c ++ p_Rules p)%list c.
Definition ApplyPatch (now : Z) (id : string) h : response * Handlers S :=
  match find_patch id h with
  | None => (writeNotFound "patch not found", h)
  | Some p =>
      if String.eqb (p_Status p) "deployed" then (writeConflict "patch already deployed", h)
      else
        let '(err, h) := update_config (deploy p) h in
        match err with
        | Some _ => (writeBadRequest (lit "failed to deploy patch: "), h)
        | None => let p := set_patch_status "deployed" now p in (writeOK (Patch p), store_patch id p h)
        end
  end.
Definition DeployPatch (now : Z) (id : string) h : response * Handlers S := ApplyPatch now id h.

Definition in_patch (p : patchRecord) (r : RuleConfig.t) : bool :=
  existsb (fun q => String.eqb (RuleConfig.ID q) (RuleConfig.ID r)) (p_Rules p).
Definition revoke (p : patchRecord) (c : Config.t) : Config.t :=
  set_rules (filter (fun r => in_patch p r = false) (Config.Rules c)) c.
Definition RevokePatch (id : string) h : response * Handlers S :=
  match find_patch id h with
  | None => (writeNotFound "patch not found", h)
  | Some p =>
      if negb (String.eqb (p_Status p) "deployed") then (writeBadRequest (lit "patch is not deployed"), h)
      else
        let '(err, h) := update_config (revoke p) h in
        match err with
        | Some _ => (writeBadRequest (lit "failed to revoke patch: "), h)
        | None => let p := set_patch_status "revoked" (p_DeployedAt p) p in (writeOK (Patch p), store_patch id p h)
        end
  end.

Definition DeletePatch (id : string) h : response * Handlers S :=
  match find_patch id h with
  | None => (writeNotFound "patch not found", h)
  | Some p =>
      if String.eqb (p_Status p) "deployed" then (writeBadRequest (lit "cannot delete deployed patch, revoke first"), h)
      else (writeOK (Fields [("id", lit id); ("deleted", lit "true")]),
            set_patches (default (patches h) (delete_first (is_patch id) (patches h))) h)
  end.

Definition coverage_item (p : patchRecord) : coverageItem :=
  mkCoverage (p_ID p) (p_Name p) (p_CVE p) (p_Severity p) (p_Status p) (len (p_Rules p)).
Definition is_deployed (p : patchRecord) : bool := String.eqb (p_Status p) "deployed".
Definition PatchCoverage h : response :=
  let deployed := filter (fun p => is_deployed p = true) (patches h) in
  let draft := filter (fun p => is_deployed p = false) (patches h) in
  let ids : gset string := list_to_set (RuleConfig.ID <$> (deployed ≫= p_Rules)) in
  let total := len (Config.Rules (cfg h)) in
  let patched := Z.of_nat (size ids) in
  let pct := if 0 <? total then fmul (fdiv (of_int patched) (of_int total)) (of_int 100) else f0 in
  writeOK (Coverage total patched (total - patched) pct (coverage_item <$> deployed) (coverage_item <$> draft)).

(** *** Configuration *)

Definition maskSecrets (c : Config.t) : maskedConfig :=
  let a := Config.Admin c in let r := Config.Redis c in let d := Config.DB c in
  mkMasked (Config.Sites c) (Config.Rules c) (Config.Logging c) (Config.TLS c)
    (AdminConfig.Port a, AdminConfig.Enabled a, AdminConfig.MTLS a, len (AdminConfig.APIKeys a))
    (RedisConfig.Enabled r, RedisConfig.Addr r, RedisConfig.DB r, RedisConfig.PoolSize r, RedisConfig.TTL r)
    (Config.ML c) (DBConfig.Driver d, DBConfig.MaxOpen d, DBConfig.MaxIdle d).
Definition GetConfig h : response := writeOK (Masked (maskSecrets (cfg h))).
Definition AdminConfig h : response := writeOK (Masked (maskSecrets (cfg h))).

(** [v, ok := m[k].(T)] on a section: the new value, or the old one. *)
Definition str_or (m : gmap string json) (k old : string) : string := default old (string_field m k).
Definition bool_or (m : gmap string json) (k : string) (old : bool) : bool :=
  match m !! k with Some (JBool b) => b | _ => old end.
Definition int_or (m : gmap string json) (k : string) (old : Z) : Z :=
  match m !! k with Some (JNumber t) => to_int (number_value t) | _ => old end.
Definition section (updates : gmap string json) (k : string) : gmap string json :=
  match updates !! k with Some (JObject l) => object_map l | _ => ∅ end.

(** The sections do not depend on each other, so that the order in which the
    map is ranged over does not matter. *)
Definition apply_updates (u : gmap string json) (c : Config.t) : Config.t :=
  let log := Config.Logging c in let lm := section u "logging" in
  let ml := Config.ML c in let mm := section u "ml" in
  let red := Config.Redis c in let rm := section u "redis" in
  set_main (Config.Sites c) (Config.Rules c)
    (MLConfig.mk (bool_or mm "enabled" (MLConfig.Enabled ml)) (str_or mm "endpoint" (MLConfig.Endpoint ml))
       (int_or mm "timeout" (MLConfig.TimeoutSec ml)) (MLConfig.MaxRetries ml) (MLConfig.FallbackMode ml) (MLConfig.MinScore ml)
       (MLConfig.ModelName ml))
    (RedisConfig.mk (bool_or rm "enabled" (RedisConfig.Enabled red)) (str_or rm "addr" (RedisConfig.Addr red))
       (RedisConfig.Password red) (RedisConfig.DB red) (RedisConfig.PoolSize red) (RedisConfig.TTL red))
    (Config.DB c)
    (LoggingConfig.mk (str_or lm "level" (LoggingConfig.Level log)) (str_or lm "format" (LoggingConfig.Format log))
       (LoggingConfig.Output log) (bool_or lm "verbose" (LoggingConfig.Verbose log)))
    (Config.TLS c) (Config.Admin c) c.

Definition UpdateConfigHandler (body : string) h : response * Handlers S :=
  match Decode body ≫= as_map with
  | None => (invalid_json, h)
  | Some updates =>
      let '(err, h) := update_config (apply_updates updates) h in
      match err with
      | Some _ => (writeBadRequest (lit "validation failed: "), h)
      | None => (writeOK (Masked (maskSecrets (cfg h))), h)
      end
  end.

Definition ValidateConfig (body : string) : response :=
  match config_of_json body with
  | None => invalid_json
  | Some c => match Validate c with Some e => writeOK (Validity false [e]) | None => writeOK (Validity true []) end
  end.

Definition ExportConfig h : response :=
  match yaml_marshal (cfg h) with None => writeInternalErr | Some data => writeOK (Raw data) end.

Definition import (new c : Config.t) : Config.t :=
  set_main (Config.Sites new) (Config.Rules new) (Config.ML new) (Config.Redis new) (Config.DB new) (Config.Logging new)
    (Config.TLS new) (Config.Admin new) c.

(** [body = None]: it could not be read. *)
Definition ImportConfig (body : option string) h : response * Handlers S :=
  match body with
  | None => (writeBadRequest (lit "failed to read body"), h)
  | Some body =>
      match config_of_yaml body with
      | None => (writeBadRequest (lit "invalid YAML: "), h)
      | Some new =>
          match Validate new with
          | Some _ => (writeBadRequest (lit "config validation failed: "), h)
          | None =>
              let '(err, h) := update_config (import new) h in
              match err with
              | Some e => (writeBadRequest e, h)
              | None => (writeOK (Fields [("status", lit "imported")]), h)
              end
          end
      end
  end.

(** The names of the fields that differ, with the values left out. *)
Definition diffs (current proposed : Config.t) : list string :=
  (if len (Config.Sites current) =? len (Config.Sites proposed) then [] else ["sites.count"])
  ++ (if len (Config.Rules current) =? len (Config.Rules proposed) then [] else ["rules.count"])
  ++ (if Bool.eqb (MLConfig.Enabled (Config.ML current)) (MLConfig.Enabled (Config.ML proposed)) then [] else ["ml.enabled"])
  ++ (if String.eqb (MLConfig.Endpoint (Config.ML current)) (MLConfig.Endpoint (Config.ML proposed)) then [] else ["ml.endpoint"])
  ++ (if Bool.eqb (RedisConfig.Enabled (Config.Redis current)) (RedisConfig.Enabled (Config.Redis proposed)) then []
      else ["redis.enabled"])
  ++ (if String.eqb (LoggingConfig.Level (Config.Logging current)) (LoggingConfig.Level (Config.Logging proposed)) then []
      else ["logging.level"]).
Definition DiffConfig (body : string) h : response :=
  match config_of_json body with
  | None => invalid_json
  | Some proposed => let d := diffs (cfg h) proposed in writeOK (Diff (0 <? len d) d)
  end.

Definition AdminReload h : response * Handlers S :=
  match Reload (configMgr h) (world h) with
  | (Some _, m, w) => (writeBadRequest (lit "reload failed: "), mkHandlers m w (ruleEngine h) (patches h))
  | (None, m, w) =>
      (writeOK (Fields [("status", lit "reloaded")]),
       mkHandlers m w (Rules.AtomicSwap (engine_rule <$> Config.Rules (config m)) (ruleEngine h)) (patches h))
  end.

End handlers.

(** ** Histories *)

Section histories.
Context `{Unicode} `{Files} `{ConfigCodec} `{Rules.Oracles} `{Rules.Runtime} `{MapRange string} {S : Type}.
Implicit Types h : Handlers S.

(** The requests that change something. *)
Inductive change : Type :=
| ACreateSite (body : string)
| AUpdateSite (id body : string)
| ADeleteSite (id : string)
| AEnableSite (id : string)
| ADisableSite (id : string)
| ACreateRule (body : string)
| AUpdateRule (id body : string)
| ADeleteRule (id : string)
| AEnableRule (id : string)
| ADisableRule (id : string)
| ABulkRules (body : string)
| AReorderRule (id body : string)
| ACreatePatch (uuid : string) (now : Z) (body : string)
| AApplyPatch (now : Z) (id : string)
| ADeployPatch (now : Z) (id : string)
| ARevokePatch (id : string)
| ADeletePatch (id : string)
| AUpdateConfig (body : string)
| AImportConfig (body : option string)
| AReload.

Definition serve (c : change) h : response * Handlers S :=
  match c with
  | ACreateSite body => CreateSite body h
  | AUpdateSite id body => UpdateSite id body h
  | ADeleteSite id => DeleteSite id h
  | AEnableSite id => EnableSite id h
  | ADisableSite id => DisableSite id h
  | ACreateRule body => CreateRule body h
  | AUpdateRule id body => UpdateRule id body h
  | ADeleteRule id => DeleteRule id h
  | AEnableRule id => EnableRule id h
  | ADisableRule id => DisableRule id h
  | ABulkRules body => BulkRules body h
  | AReorderRule id body => ReorderRule id body h
  | ACreatePatch uuid now body => CreatePatch uuid now body h
  | AApplyPatch now id => ApplyPatch now id h
  | ADeployPatch now id => DeployPatch now id h
  | ARevokePatch id => RevokePatch id h
  | ADeletePatch id => DeletePatch id h
  | AUpdateConfig body => UpdateConfigHandler body h
  | AImportConfig body => ImportConfig body h
  | AReload => AdminReload h
  end.
Fixpoint serve_all (cs : list change) h : list Z * Handlers S :=
  match cs with
  | [] => ([], h)
  | c :: cs => let '(r, h) := serve c h in let '(l, h) := serve_all cs h in (fst r :: l, h)
  end.

(** ** Lemmas *)

Lemma update_config_cfg fn h : cfg (snd (update_config fn h)) = fn (cfg h).
Proof.
  unfold update_config, UpdateConfig, cfg. cbn [config]. repeat case_match; by simplify_eq/=.
Qed.

Lemma update_config_frame fn h :
  ruleEngine (snd (update_config fn h)) = ruleEngine h /\ patches (snd (update_config fn h)) = patches h.
Proof. unfold update_config. by destruct (UpdateConfig fn (configMgr h) (world h)) as [[err m] w]. Qed.

Lemma update_config_invalid fn h :
  ~ valid (fn (cfg h)) -> fst (update_config fn h) <> None /\ world (snd (update_config fn h)) = world h.
Proof.
  intros Hv. unfold update_config, UpdateConfig. cbn [config].
  destruct (Validate (fn (config (configMgr h)))) eqn:E; [done|]. by apply Validate_spec in E.
Qed.

(** A site without a name, a domain or an upstream. *)
Definition bad_site (s : SiteConfig.t) : Prop := ~ site_ok s.
Definition poisoned (name : string) (c : Config.t) : Prop :=
  exists s, s ∈ Config.Sites c /\ SiteConfig.Name s = name /\ bad_site s.

(** Requests that leave the description of the site [name] as it is: all but an
    update or the deletion of it, an import and a reload. *)
Definition spares (name : string) (c : change) : bool :=
  match c with
  | AUpdateSite id _ | ADeleteSite id => negb (String.eqb id name)
  | AImportConfig _ | AReload => false
  | _ => true
  end.
(** Requests that change the configuration, not only the rule engine or the list
    of patches. *)
Definition revises (c : change) : bool :=
  match c with AReorderRule _ _ | ACreatePatch _ _ _ | ADeletePatch _ => false | _ => true end.
Definition reorders (c : change) : bool := match c with AReorderRule _ _ => true | _ => false end.

Lemma poisoned_invalid name c : poisoned name c -> ~ valid c.
Proof. intros (s & Hs & _ & Hb) Hv. apply Hb. destruct Hv as (_ & Hall & _). by eapply Forall_forall in Hall. Qed.

Lemma poisoned_sites name c c' : Config.Sites c' = Config.Sites c -> poisoned name c -> poisoned name c'.
Proof. intros E. unfold poisoned. by rewrite E. Qed.

Lemma poisoned_append name l c : poisoned name c -> poisoned name (set_sites (Config.Sites c ++ l)%list c).
Proof. intros (s & Hs & Hb). exists s. split; [|done]. cbn. apply elem_of_app. by left. Qed.

(** An edit of a site that keeps the poison or is not of this site. *)
Lemma poisoned_edit name id f c :
  (forall s, SiteConfig.Name s = name -> bad_site s -> is_site id s = true ->
     SiteConfig.Name (f s) = name /\ bad_site (f s)) ->
  poisoned name c -> poisoned name (edit_site id f c).
Proof.
  intros Hf (s & Hs & Hn & Hb). unfold edit_site. destruct (update_first _ _ _) as [l|] eqn:E; [|by exists s].
  apply update_first_Some in E as (k & a & m & El & -> & Ha & _). rewrite El in Hs.
  apply elem_of_app in Hs as [Hs|[->|Hs]%elem_of_cons].
  - exists s. split; [|done]. cbn. apply elem_of_app. by left.
  - exists (f a). split; [|by apply Hf]. cbn. apply elem_of_app. right. apply elem_of_cons. by left.
  - exists s. split; [|done]. cbn. apply elem_of_app. right. apply elem_of_cons. by right.
Qed.

Lemma poisoned_switch name id b c : poisoned name c -> poisoned name (edit_site id (set_waf b) c).
Proof. by apply poisoned_edit. Qed.

Lemma other_site id name s : String.eqb id name = false -> SiteConfig.Name s = name -> is_site id s = true -> False.
Proof. unfold is_site. intros Hne <- Hs%String.eqb_eq. subst. by rewrite String.eqb_refl in Hne. Qed.

Lemma poisoned_other name id f c : String.eqb id name = false -> poisoned name c -> poisoned name (edit_site id f c).
Proof. intros Hne. apply poisoned_edit. intros s Hs _ Hi. by destruct (other_site id name s). Qed.

Lemma poisoned_remove name id c : String.eqb id name = false -> poisoned name c -> poisoned name (remove_site id c).
Proof.
  intros Hne (s & Hs & Hn & Hb). unfold remove_site. destruct (delete_first _ _) as [l|] eqn:E; [|by exists s].
  apply delete_first_Some in E as (k & a & m & El & -> & Ha). rewrite El in Hs. exists s. split; [|done]. cbn.
  apply elem_of_app in Hs as [Hs|[->|Hs]%elem_of_cons]; [|by destruct (other_site id name a)|]; apply elem_of_app; auto.
Qed.

(** What an update that ends in a poisoned configuration leaves. *)
Lemma update_poisoned name fn h :
  poisoned name (fn (cfg h)) ->
  exists e h', update_config fn h = (Some e, h') /\ cfg h' = fn (cfg h) /\ world h' = world h /\ ruleEngine h' = ruleEngine h.
Proof.
  intros Hp. destruct (update_config_invalid fn h (poisoned_invalid _ _ Hp)) as [He Hw].
  pose proof (update_config_cfg fn h) as Hc. destruct (update_config_frame fn h) as [Hr _].
  destruct (update_config fn h) as [[e|] h']; [|done]. by exists e, h'.
Qed.

Lemma edit_poisoned name found fn on_error missing k h :
  poisoned name (fn (cfg h)) -> (forall e, 400 <= fst (on_error e)) ->
  let '(r, h') := edit found fn on_error missing k h in
  400 <= fst r /\ cfg h' = fn (cfg h) /\ world h' = world h /\ ruleEngine h' = ruleEngine h.
Proof. intros Hp He. unfold edit. destruct (update_poisoned name fn h Hp) as (e & h' & -> & ?). by split. Qed.

(** What the requests of a poisoned configuration come to. *)
Definition refused (name : string) (c : change) (h : Handlers S) (p : response * Handlers S) : Prop :=
  poisoned name (cfg (snd p)) /\ world (snd p) = world h /\ (revises c = true -> 400 <= fst (fst p))
  /\ (reorders c = false -> ruleEngine (snd p) = ruleEngine h).

Lemma edit_refused name c found fn on_error missing k h :
  poisoned name (fn (cfg h)) -> (forall e, 400 <= fst (on_error e)) ->
  refused name c h (edit found fn on_error missing k h).
Proof.
  intros Hp He. pose proof (edit_poisoned name found fn on_error missing k h Hp He) as Hr. unfold refused.
  destruct (edit _ _ _ _ _ h) as [r h']. destruct Hr as (? & Hc & ? & ?). cbn. by rewrite Hc.
Qed.

(** An early answer. *)
Lemma early_refused name c r h : poisoned name (cfg h) -> (revises c = true -> 400 <= fst r) -> refused name c h (r, h).
Proof. intros Hp Hr. by unfold refused; split_and!. Qed.

Ltac refused_update name :=
  match goal with
  | Hp : poisoned name (cfg ?h) |- context [update_config ?fn ?h] =>
      let E := fresh "E" in let Hq := fresh "Hq" in let Hc := fresh "Hc" in
      assert (poisoned name (fn (cfg h))) as Hq
        by first [exact (poisoned_append name _ _ Hp) | exact (poisoned_sites name (cfg h) _ eq_refl Hp)];
      destruct (update_poisoned name fn h Hq) as (? & ? & E & Hc & ? & ?); rewrite E; unfold refused; split_and!; (done || by cbn; rewrite Hc)
  end.

Lemma patch_refused name c now id h :
  poisoned name (cfg h) -> c = AApplyPatch now id \/ c = ADeployPatch now id -> refused name c h (ApplyPatch now id h).
Proof.
  intros Hp Hc0. unfold ApplyPatch. destruct (find_patch id h) as [p|]; [|by apply early_refused].
  destruct (String.eqb _ "deployed"); [by apply early_refused|]. refused_update name.
Qed.

Lemma rules_refused name c h :
  match c with ACreateRule _ | AUpdateRule _ _ | ADeleteRule _ | AEnableRule _ | ADisableRule _ | ABulkRules _ | AReorderRule _ _ => True | _ => False end ->
  poisoned name (cfg h) -> refused name c h (serve c h).
Proof.
  intros Hc Hp. destruct c; try done; cbn [serve].
  - unfold CreateRule. destruct (Decode body ≫= decode_createRule) as [req|]; [|by apply early_refused].
    do 3 (destruct (String.eqb _ ""); [by apply early_refused|]). destruct (Config.GetRule _ _); [by apply early_refused|].
    refused_update name.
  - unfold UpdateRule. destruct (Decode body ≫= decode_createRule) as [req|]; [|by apply early_refused].
    by apply edit_refused; [eapply poisoned_sites|].
  - by apply edit_refused; [eapply poisoned_sites|].
  - by apply edit_refused; [eapply poisoned_sites|].
  - by apply edit_refused; [eapply poisoned_sites|].
  - unfold BulkRules. destruct (Decode body ≫= decode_bulk) as [reqs|]; [|by apply early_refused].
    destruct (len reqs =? 0); [by apply early_refused|]. destruct (500 <? len reqs); [by apply early_refused|].
    destruct (bulk reqs _) as [[[? ?] ?] ?]. refused_update name.
  - unfold ReorderRule. destruct (_ ≫= _) as [pr|]; [|by apply early_refused]. destruct (pr <? 0); [by apply early_refused|].
    by destruct (Rules.ReorderRule _ _ _).
Qed.

Lemma serve_refused name c h : spares name c = true -> poisoned name (cfg h) -> refused name c h (serve c h).
Proof.
  intros Hs Hp. destruct c; cbn [spares] in Hs; try (by apply rules_refused); try done; cbn [serve].
  - unfold CreateSite. destruct (Decode body ≫= decode_createSite) as [req|]; [|by apply early_refused].
    destruct (String.eqb _ ""); [by apply early_refused|]. destruct (_ && _); [by apply early_refused|].
    destruct (existsb _ _); [by apply early_refused|]. refused_update name.
  - apply negb_true_iff in Hs. unfold UpdateSite. destruct (Decode body ≫= decode_updateSite); [|by apply early_refused].
    by apply edit_refused; [apply poisoned_other|].
  - apply negb_true_iff in Hs. by apply edit_refused; [apply poisoned_remove|].
  - by apply edit_refused; [apply poisoned_switch|].
  - by apply edit_refused; [apply poisoned_switch|].
  - unfold CreatePatch. destruct (_ ≫= _) as [req|]; [|by apply early_refused].
    destruct (String.eqb _ ""); [by apply early_refused|]. by destruct (len _ =? 0); [apply early_refused|].
  - apply patch_refused; auto.
  - apply patch_refused; auto.
  - unfold RevokePatch. destruct (find_patch id h) as [p|]; [|by apply early_refused].
    destruct (negb _); [by apply early_refused|]. refused_update name.
  - unfold DeletePatch. destruct (find_patch id h) as [p|]; [|by apply early_refused].
    by destruct (String.eqb _ "deployed"); [apply early_refused|].
  - unfold UpdateConfigHandler. destruct (Decode body ≫= as_map) as [u|]; [|by apply early_refused]. refused_update name.
Qed.

(** A reordering depends on the rule engine alone. *)
Lemma reorder_engine id body h (k : Handlers S) :
  ruleEngine h = ruleEngine k -> ruleEngine (snd (ReorderRule id body h)) = ruleEngine (snd (ReorderRule id body k)).
Proof.
  intros E. unfold ReorderRule. destruct (_ ≫= _) as [pr|]; [|done]. destruct (pr <? 0); [done|]. rewrite E.
  by destruct (Rules.ReorderRule id pr (ruleEngine k)).
Qed.

Lemma serve_all_refused name cs h (k : Handlers S) :
  Forall (fun c => spares name c = true) cs -> poisoned name (cfg h) -> ruleEngine h = ruleEngine k ->
  poisoned name (cfg (snd (serve_all cs h)))
  /\ Forall (fun p => revises (fst p) = true -> 400 <= snd p) (zip cs (fst (serve_all cs h)))
  /\ world (snd (serve_all cs h)) = world h
  /\ ruleEngine (snd (serve_all cs h)) = ruleEngine (snd (serve_all (filter (fun c => reorders c = true) cs) k)).
Proof.
  intros Hcs. revert h k. induction Hcs as [|c cs Hc Hcs IH]; intros h k Hp He; [done|].
  pose proof (serve_refused name c h Hc Hp) as (Hp1 & Hw & Hr & Hen). rewrite filter_cons. cbn [serve_all].
  destruct (serve c h) as [r h1] eqn:Hs. cbn [fst snd] in *.
  assert (exists k1, ruleEngine h1 = ruleEngine k1 /\
    ruleEngine (snd (serve_all (if decide (reorders c = true) then c :: filter (fun c => reorders c = true) cs
                                else filter (fun c => reorders c = true) cs) k))
    = ruleEngine (snd (serve_all (filter (fun c => reorders c = true) cs) k1))) as (k1 & He1 & ->).
  { destruct (decide (reorders c = true)) as [Hre|Hre].
    - destruct c; try done. exists (snd (ReorderRule id body k)). cbn [serve] in Hs. split.
      + rewrite <- (reorder_engine id body h k He), Hs. done.
      + cbn [serve_all serve]. destruct (ReorderRule id body k) as [rk k1]. cbn [snd]. by destruct (serve_all _ k1).
    - exists k. split; [|done]. rewrite Hen; [done|by apply not_true_is_false]. }
  destruct (IH h1 k1 Hp1 He1) as (IH1 & IH2 & IH3 & IH4). destruct (serve_all cs h1) as [l h2]. cbn [fst snd] in *.
  split_and!; [done|by constructor|congruence|done].
Qed.

(** [C17] One request poisons the control API. A site with an origin and no domain
    passes [CreateSite]'s own check but not the configuration's: the answer is 500
    and the site stays in the configuration. From then on, until that very site is
    updated or deleted or the whole configuration imported or reloaded, every
    request that changes the configuration is answered with an error and no
    callback is run; of the accepted ones only reorderings reach the rule engine.
    The refused changes are in the live configuration all the same, which the
    callbacks' owners may read: a site can still be switched on and off. *)
Theorem domainless_site_poisons body req (cs : list change) h :
  (Decode body ≫= decode_createSite) = Some req -> cs_Name req <> "" -> cs_Domains req = [] -> cs_OriginURL req <> "" ->
  has_site (cs_Name req) h = false -> Forall (fun c => spares (cs_Name req) c = true) cs ->
  let '(r, h1) := CreateSite body h in
  let h2 := snd (serve_all cs h1) in
  r = writeInternalErr /\ Config.Sites (cfg h1) = (Config.Sites (cfg h) ++ [new_site req])%list
  /\ Forall (fun p => revises (fst p) = true -> 400 <= snd p) (zip cs (fst (serve_all cs h1)))
  /\ world h2 = world h
  /\ ruleEngine h2 = ruleEngine (snd (serve_all (filter (fun c => reorders c = true) cs) h))
  /\ (forall id (on : bool), let '(r3, h3) := serve (if on then AEnableSite id else ADisableSite id) h2 in
        400 <= fst r3 /\ cfg h3 = edit_site id (set_waf on) (cfg h2)).
Proof.
  intros Hd Hn Hdom Ho Hs Hcs. unfold CreateSite. rewrite Hd. rewrite (proj2 (String.eqb_neq _ _) Hn), (proj2 (String.eqb_neq _ _) Ho).
  rewrite andb_false_r. unfold has_site in Hs. rewrite Hs.
  set (fn := fun c => set_sites (Config.Sites c ++ [new_site req])%list c).
  assert (poisoned (cs_Name req) (fn (cfg h))) as Hp.
  { exists (new_site req). split; [apply elem_of_app; right; apply elem_of_cons; by left|]. split; [done|].
    intros (_ & Hdm & _). by apply Hdm. }
  destruct (update_poisoned _ fn h Hp) as (e & h' & E & Hc & Hw & Hr). rewrite E.
  rewrite <- Hc in Hp. destruct (serve_all_refused _ cs h' h Hcs Hp Hr) as (Hp2 & Hall & Hw2 & He2).
  cbv zeta. split_and!; [done|by rewrite Hc|done|congruence|done|]. intros id on.
  pose proof (edit_poisoned (cs_Name req) (has_site id (snd (serve_all cs h'))) (edit_site id (set_waf on)) internal "site not found"
    (fun h => (writeOK (Fields [("name", lit id); ("waf_enabled", lit (if on then "true" else "false"))]), h)) (snd (serve_all cs h'))
    (poisoned_switch _ id on _ Hp2)) as Hed.
  destruct on; cbn [serve]; unfold EnableSite, DisableSite;
    destruct (edit _ _ _ _ _ _) as [r3 h3]; by destruct Hed as (? & ? & _).
Qed.

(** *** Patches *)

Lemma update_config_ok fn h h' :
  update_config fn h = (None, h') -> cfg h' = fn (cfg h) /\ ruleEngine h' = ruleEngine h /\ patches h' = patches h.
Proof.
  intros E. pose proof (update_config_cfg fn h) as Hc. destruct (update_config_frame fn h) as [Hr Hp].
  rewrite E in *. done.
Qed.

Lemma find_update_first {A} (p : A -> bool) a q l :
  List.find p l = Some a -> p q = true -> List.find p (default l (update_first p (fun _ => q) l)) = Some q.
Proof.
  intros Hf Hq. induction l as [|x l IH]; [done|]. cbn in *. destruct (p x) eqn:Ex; cbn; [by rewrite Hq|].
  specialize (IH Hf). destruct (update_first p _ l) as [l'|]; cbn in *; by rewrite Ex.
Qed.

Lemma find_store_patch id p q h :
  find_patch id h = Some p -> is_patch id q = true -> find_patch id (store_patch id q h) = Some q.
Proof. apply find_update_first. Qed.

Lemma ApplyPatch_ok now id h h1 p :
  find_patch id h = Some p -> ApplyPatch now id h = ((200, Patch (set_patch_status "deployed" now p)), h1) ->
  cfg h1 = deploy p (cfg h) /\ ruleEngine h1 = ruleEngine h /\ find_patch id h1 = Some (set_patch_status "deployed" now p).
Proof.
  intros Hf. unfold ApplyPatch. rewrite Hf. case_match; [done|]. destruct (update_config (deploy p) h) as [[e|] h'] eqn:E; [done|].
  intros [= <-]. apply update_config_ok in E as (Hc & Hr & Hp). split_and!; [done..|].
  apply (find_store_patch id p); unfold find_patch in *; [by rewrite Hp|]. by apply List.find_some in Hf as [_ ?].
Qed.

Lemma filter_false_all {A} (f : A -> bool) (l : list A) :
  filter (fun a => f a = false) l = l <-> Forall (fun a => f a = false) l.
Proof.
  split; [|induction 1 as [|a l Ha Hl IH]; [done|]; rewrite filter_cons_True by done; by rewrite IH].
  intros E. rewrite <- E. apply Forall_forall. by intros a [Ha _]%list_elem_of_filter.
Qed.

Lemma filter_false_none {A} (f : A -> bool) (l : list A) :
  Forall (fun a => f a = true) l -> filter (fun a => f a = false) l = [].
Proof. induction 1 as [|a l Ha Hl IH]; [done|]. rewrite filter_cons_False; [done|by rewrite Ha]. Qed.

(** [C22] Deploying a patch and revoking it does not restore the rules: all rules
    go whose id is among the patch's, also those that were configured before,
    so that the configuration is as before exactly when no rule shared an id
    with the patch. Neither step reaches the rule engine. *)
Theorem revoke_undoes_apply_iff now id h h1 h2 p r2 :
  find_patch id h = Some p -> ApplyPatch now id h = ((200, Patch (set_patch_status "deployed" now p)), h1) ->
  RevokePatch id h1 = ((200, r2), h2) ->
  Config.Rules (cfg h2) = filter (fun r => in_patch p r = false) (Config.Rules (cfg h))
  /\ (Config.Rules (cfg h2) = Config.Rules (cfg h) <-> Forall (fun r => in_patch p r = false) (Config.Rules (cfg h)))
  /\ ruleEngine h1 = ruleEngine h /\ ruleEngine h2 = ruleEngine h.
Proof.
  intros Hf Ha Hr. destruct (ApplyPatch_ok now id h h1 p Hf Ha) as (Hc1 & He1 & Hf1). unfold RevokePatch in Hr. rewrite Hf1 in Hr.
  cbn [p_Status set_patch_status] in Hr. rewrite String.eqb_refl in Hr. cbn [negb] in Hr.
  destruct (update_config _ h1) as [[e|] h'] eqn:E; [done|]. apply update_config_ok in E as (Hc & He & _).
  injection Hr as <- <-.
  assert (Config.Rules (cfg h') = filter (fun r => in_patch p r = false) (Config.Rules (cfg h))) as Hrules.
  { rewrite Hc, Hc1. unfold revoke, deploy. cbn. rewrite filter_app. change (in_patch (set_patch_status "deployed" now p)) with (in_patch p).
    rewrite (filter_false_none _ (p_Rules p)), app_nil_r; [done|].
    apply Forall_forall. intros r Hin. apply existsb_exists. exists r. split; [by apply list_elem_of_In|apply String.eqb_refl]. }
  split_and!; [exact Hrules| |done|cbn; congruence]. cbn [cfg store_patch set_patches]. change (cfg (store_patch id _ h')) with (cfg h').
  rewrite Hrules. apply filter_false_all.
Qed.

(** *** The rule engine beside the configuration *)

(** The requests that change rules through the engine's index. *)
Definition edits_rules (c : change) : bool :=
  match c with AUpdateRule _ _ | AEnableRule _ | ADisableRule _ | ABulkRules _ | AReorderRule _ _ => true | _ => false end.

(** A property of engines that writes through the index keep is kept by these
    requests. *)
Section preserved.
Context (P : Rules.Engine -> Prop).
Hypothesis P_write : forall e o, Rules.writes_through_index o = true -> P e -> P (Rules.step e o).

Lemma sync_preserves id h : P (ruleEngine h) -> P (ruleEngine (syncRuleToEngine id h)).
Proof. intros Hp. unfold syncRuleToEngine. destruct (Config.GetRule _ _) as [r|]; [|done]. exact (P_write _ (Rules.Update id (engine_rule r)) eq_refl Hp). Qed.

Lemma edit_preserves found fn on_error missing r id h :
  P (ruleEngine h) -> P (ruleEngine (snd (edit found fn on_error missing (fun h => (r, syncRuleToEngine id h)) h))).
Proof.
  intros Hp. unfold edit. destruct (update_config_frame fn h) as [He _]. destruct (update_config fn h) as [[e|] h1]; cbn in *.
  - by rewrite He.
  - destruct found; cbn; [apply sync_preserves|]; by rewrite He.
Qed.

Lemma edits_preserve c h : edits_rules c = true -> P (ruleEngine h) -> P (ruleEngine (snd (serve c h))).
Proof.
  intros Hc Hp. destruct c; try done; cbn [serve].
  - unfold UpdateRule. destruct (_ ≫= _); [by apply edit_preserves|done].
  - by apply edit_preserves.
  - by apply edit_preserves.
  - unfold BulkRules. destruct (_ ≫= _) as [reqs|]; [|done].
    destruct (len reqs =? 0); [done|]. destruct (500 <? len reqs); [done|].
    destruct (bulk reqs _) as [[[? ?] ?] ?].
    match goal with |- context [update_config ?fn h] => pose proof (update_config_frame fn h) as [He _]; destruct (update_config fn h) as [[e|] h1] end;
      cbn [snd] in *; [by rewrite He|]. rewrite <- He in Hp. clear He. revert h1 Hp.
    induction reqs as [|rr reqs IH]; intros h1 Hp; [done|]. cbn [fold_left]. apply IH. by apply sync_preserves.
  - unfold ReorderRule. destruct (_ ≫= _) as [pr|]; [|done]. destruct (pr <? 0); [done|].
    pose proof (P_write _ (Rules.Reorder id pr) eq_refl Hp) as Hw. cbn in Hw.
    by destruct (Rules.ReorderRule id pr (ruleEngine h)).
Qed.

Lemma edits_all_preserve cs h :
  Forall (fun c => edits_rules c = true) cs -> P (ruleEngine h) -> P (ruleEngine (snd (serve_all cs h))).
Proof.
  intros Hcs. revert h. induction Hcs as [|c cs Hc Hcs IH]; intros h Hp; [done|]. cbn [serve_all].
  pose proof (edits_preserve c h Hc Hp) as Hp1. destruct (serve c h) as [r h1]. specialize (IH h1 Hp1).
  by destruct (serve_all cs h1).
Qed.
End preserved.

Lemma write_index e o : Rules.writes_through_index o = true -> Rules.byID (Rules.step e o) = Rules.byID e.
Proof.
  destruct o as [| | |id r| |id pr]; try done; intros _; cbn.
  - unfold Rules.UpdateRule. by destruct (Rules.byID e !! id).
  - unfold Rules.ReorderRule. destruct (Rules.byID e !! id) as [q|]; [|done]. cbn. by destruct (Rules.deref q e).
Qed.

(** [C21] After a rule that the rule engine knows has been deleted, no answer of the
    API about rules reaches the active ones any more: whatever updates, enablings,
    disablings, reorderings and bulk operations follow, also those answered with
    200, the rules the engine evaluates stay what the deletion left. A rule it does
    not know - from a bulk operation or a patch - is deleted from the configuration
    only, and the engine stays as it was. *)
Theorem engine_frozen_after_delete dry ops id h h1 r cs :
  ruleEngine h = Rules.run ops (Rules.NewEngine dry) -> DeleteRule id h = ((200, r), h1) ->
  match Rules.byID (ruleEngine h) !! id with
  | Some _ => Forall (fun c => edits_rules c = true) cs ->
              Rules.rules (ruleEngine (snd (serve_all cs h1))) ≡ₚ Rules.rules (ruleEngine h1)
  | None => ruleEngine h1 = ruleEngine h
  end.
Proof.
  intros Hrun Hd. assert (Rules.wf (ruleEngine h)) as Hw by (rewrite Hrun; apply Rules.wf_run, Rules.wf_new). clear Hrun.
  unfold DeleteRule, edit in Hd. destruct (update_config_frame (remove_rule id) h) as [He _].
  destruct (update_config (remove_rule id) h) as [[e|] h0]; [done|]. destruct (has_rule id h); [|done]. cbn in Hd, He.
  injection Hd as _ <-. cbn [ruleEngine set_engine]. rewrite He.
  destruct (Rules.byID (ruleEngine h) !! id) as [p|] eqn:Hp; [intros Hcs|unfold Rules.DeleteRule; by rewrite Hp].
  destruct (Rules.DeleteRule id (ruleEngine h)) as [e1|] eqn:E; [|unfold Rules.DeleteRule in E; by rewrite Hp in E].
  cbn [Rules.ok_or]. pose proof (Rules.delete_detaches _ _ _ Hw E) as Hdet.
  apply (edits_all_preserve (fun e => Rules.detached e /\ Rules.rules e ≡ₚ Rules.rules e1)); [|done|by split].
  intros e2 o Ho [Hd2 Hr2]. destruct (Rules.detached_step e2 o Hd2 Ho) as [? ?].
  split; [done|]. by etrans.
Qed.

Lemma rule_index_range l k i : rule_index l !! k = Some i -> (i < length l)%nat.
Proof.
  unfold rule_index. assert (forall (ps : list (nat * RuleConfig.t)) (m : gmap string nat),
    Forall (fun p => (fst p < length l)%nat) ps -> map_Forall (fun _ i => (i < length l)%nat) m ->
    map_Forall (fun _ i => (i < length l)%nat) (fold_left (fun m p => <[RuleConfig.ID (snd p) := fst p]> m) ps m)) as Hg.
  { induction ps as [|p ps IH]; intros m Hps Hm; [done|]. apply Forall_cons in Hps as [Hp Hps]. cbn. apply IH; [done|].
    by apply map_Forall_insert_2. }
  intros Hk. refine (Hg (imap pair l) ∅ _ (map_Forall_empty _) k i Hk).
  apply Forall_forall. intros p (j & x & -> & Hx)%elem_of_lookup_imap. cbn. by eapply lookup_lt_Some.
Qed.

Lemma bulk_keeps_appended index reqs l k created updated errs :
  (forall id i, index !! id = Some i -> (i < length l)%nat) ->
  exists l' k', (fold_left (bulk_step index) reqs ((l ++ k)%list, created, updated, errs)).1.1.1 = (l' ++ k ++ k')%list
    /\ (forall rr, rr ∈ reqs -> r_ID rr <> "" -> r_Field rr <> "" -> r_Operator rr <> "" -> index !! r_ID rr = None ->
        new_rule rr ∈ k').
Proof.
  intros Hi. revert l k created updated errs Hi. induction reqs as [|rr reqs IH]; intros l k created updated errs Hi.
  - exists l, []. rewrite app_nil_r. split; [done|]. by intros rr ?%elem_of_nil.
  - cbn [fold_left bulk_step]. destruct (String.eqb (r_ID rr) "" || String.eqb (r_Field rr) "" || String.eqb (r_Operator rr) "") eqn:Eb.
    + destruct (IH l k created updated (errs ++ [Sprintf "rule missing required fields: id=%s" [AStr (r_ID rr)]])%list Hi) as (l' & k' & E & Hk).
      exists l', k'. split; [done|]. intros q [->|Hq]%elem_of_cons; [|by apply Hk]. intros Ha%String.eqb_neq Hb%String.eqb_neq Hc%String.eqb_neq.
      by rewrite Ha, Hb, Hc in Eb.
    + destruct (index !! r_ID rr) as [i|] eqn:Ei.
      * rewrite insert_app_l by (by eapply Hi).
        destruct (IH (<[i := new_rule rr]> l) k created (updated + 1) errs) as (l' & k' & E & Hk);
          [intros; rewrite length_insert; by eapply Hi|].
        exists l', k'. split; [done|]. intros q [->|Hq]%elem_of_cons; [congruence|by apply Hk].
      * rewrite <- (app_assoc l k). destruct (IH l (k ++ [new_rule rr])%list (created + 1) updated errs Hi) as (l' & k' & E & Hk).
        exists l', (new_rule rr :: k'). rewrite E, <- !app_assoc. split; [done|].
        intros q [->|Hq]%elem_of_cons; [by left|]. intros. right. by apply Hk.
Qed.

(** The bulk operation creates rules in the configuration only: each new
    well-formed rule of the request is configured, disabled, and stays unknown
    to the rule engine through all later updates, enablings and bulk
    operations, although they answer that the rule is enabled. *)
Theorem bulk_rules_never_reach_engine body reqs h h1 r rr cs :
  (Decode body ≫= decode_bulk) = Some reqs -> BulkRules body h = ((200, r), h1) ->
  rr ∈ reqs -> r_ID rr <> "" -> r_Field rr <> "" -> r_Operator rr <> "" ->
  rule_index (Config.Rules (cfg h)) !! r_ID rr = None -> Rules.byID (ruleEngine h) !! r_ID rr = None ->
  Forall (fun c => edits_rules c = true) cs ->
  new_rule rr ∈ Config.Rules (cfg h1) /\ RuleConfig.Enabled (new_rule rr) = false
  /\ Rules.GetRule (r_ID rr) (ruleEngine (snd (serve_all cs h1))) = None.
Proof.
  intros Hd Hb Hin Hid Hf Ho Hc He Hcs. split_and!; [|done|].
  - unfold BulkRules in Hb. rewrite Hd in Hb. destruct (len reqs =? 0); [done|]. destruct (500 <? len reqs); [done|].
    destruct (bulk reqs (Config.Rules (cfg h))) as [[[? ?] ?] ?].
    match goal with H : context [update_config ?fn h] |- _ => destruct (update_config fn h) as [[err|] h0] eqn:E end; [discriminate|].
    apply update_config_ok in E as (Hcfg & _). injection Hb as _ <-.
    assert (forall l h, cfg (fold_left (fun (h : Handlers S) rr => syncRuleToEngine (r_ID rr) h) l h) = cfg h) as Hsync.
    { intros k. induction k as [|q k IH]; intros g; [done|]. cbn [fold_left]. rewrite IH. unfold syncRuleToEngine. by destruct (Config.GetRule _ _). }
    rewrite Hsync, Hcfg. cbn [Config.Rules set_rules set_main]. unfold bulk.
    destruct (bulk_keeps_appended (rule_index (Config.Rules (cfg h))) reqs (Config.Rules (cfg h)) [] 0 0 []) as (l' & k' & E & Hk);
      [intros; by eapply rule_index_range|]. rewrite app_nil_r in E. rewrite E. apply elem_of_app. right. cbn. by apply Hk.
  - assert (Rules.byID (ruleEngine (snd (serve_all (ABulkRules body :: cs) h))) = Rules.byID (ruleEngine h)) as E.
    { apply (edits_all_preserve (fun e => Rules.byID e = Rules.byID (ruleEngine h))); [|by constructor|done].
      intros e o Hw <-. by apply write_index. }
    cbn [serve_all serve] in E. rewrite Hb in E. destruct (serve_all cs h1) as [l h2]. cbn in E |- *.
    unfold Rules.GetRule. by rewrite E, He.
Qed.

End histories.

(** ** Witnesses *)

#[local] Existing Instance unicode_ascii.
#[local] Existing Instance no_files.
#[local] Existing Instance Rules.example_oracles.
#[local] Existing Instance Rules.example_runtime.
#[local] Instance plain_codec : ConfigCodec :=
  {| config_of_json := fun _ => None; config_of_yaml := fun _ => None; yaml_marshal := fun _ => Some "" |}.

Definition object (l : list (string * string)) : string :=
  "{" ++ String.concat "," (map (fun p => quoted (fst p) ++ ":" ++ snd p) l) ++ "}".

Definition shop : SiteConfig.t := SiteConfig.mk "shop" ["shop.example"] "http://10.0.0.1" 80 false "" "" None true ∅.
(** A configuration with one site and the rules given, and an engine loaded
    with them. *)
Definition example_handlers (rs : list RuleConfig.t) (ps : list patchRecord) : Handlers unit :=
  mkHandlers (mkManager (set_rules rs (set_sites [shop] DefaultConfig)) []) tt
    (Rules.LoadRules (engine_rule <$> rs) (Rules.NewEngine false)) ps.
Definition rule_a : RuleConfig.t :=
  RuleConfig.mk "a" "A" "" true "high" "block" "request" 1 "path.x" "contains" "/admin" [] [] ∅.
Definition rule_b : RuleConfig.t :=
  RuleConfig.mk "b" "B" "" true "high" "block" "request" 2 "path.x" "contains" "/login" [] [] ∅.

Definition domainless : string := object [("name", quoted "new"); ("origin_url", quoted "http://10.0.0.2")].
Definition domainless_request : createSiteRequest :=
  mkCreateSite "new" [] "http://10.0.0.2" 0 "" false false.
Definition well_formed : string :=
  object [("name", quoted "good"); ("origin_url", quoted "http://10.0.0.3"); ("domains", "[" ++ quoted "good.example" ++ "]")].

(** A reordering of a rule goes on being accepted; the shop's protection is switched
    off by a request that is refused. *)
Definition reorder_body : string := object [("priority", "7")].
Definition after_poison : list change := [ACreateSite well_formed; AReorderRule "a" reorder_body; ADisableSite "shop"].

Lemma domainless_site_poisons_witness :
  fst (CreateSite domainless (example_handlers [rule_a] [])) = writeInternalErr
  /\ Forall (fun p => revises (fst p) = true -> 400 <= snd p)
       (zip after_poison (fst (serve_all after_poison (snd (CreateSite domainless (example_handlers [rule_a] [])))))).
Proof.
  pose proof (domainless_site_poisons domainless domainless_request after_poison (example_handlers [rule_a] [])) as Hp.
  destruct (CreateSite domainless (example_handlers [rule_a] [])) as [r h1].
  destruct Hp as (-> & _ & Hall & _); [vm_compute; reflexivity|done|done|done|vm_compute; reflexivity|by repeat constructor|].
  exact (conj eq_refl Hall).
Defined.

Example poisoned_run :
  let '(l, h) := serve_all after_poison (snd (CreateSite domainless (example_handlers [rule_a] []))) in
  l = [500; 200; 500] /\ SiteConfig.WAFEnabled <$> Config.GetSite "shop" (cfg h) = Some false.
Proof. vm_compute. by split. Qed.

(** The patch has a rule of an id that is in use. *)
Definition overlap : patchRecord := mkPatch "PATCH-1" "fix" "" "" "high" [rule_a] "draft" 0 zero_time.

Lemma revoke_undoes_apply_iff_witness :
  Config.Rules (cfg (snd (RevokePatch "PATCH-1" (snd (ApplyPatch 5 "PATCH-1" (example_handlers [rule_a; rule_b] [overlap]))))))
  = [rule_b].
Proof.
  refine (eq_trans (proj1 (revoke_undoes_apply_iff 5 "PATCH-1" (example_handlers [rule_a; rule_b] [overlap]) _ _ overlap _ _ _ _)) _).
  - vm_compute. reflexivity.
  - refine (eq_trans (surjective_pairing _) _). apply (f_equal (fun r => (r, _))). vm_compute. reflexivity.
  - refine (eq_trans (surjective_pairing _) _). apply (f_equal (fun r => (r, _))). vm_compute. reflexivity.
  - vm_compute. reflexivity.
Defined.

Lemma engine_frozen_after_delete_witness :
  Rules.rules (ruleEngine (snd (serve_all [ADisableRule "b"] (snd (DeleteRule "a" (example_handlers [rule_a; rule_b] []))))))
  ≡ₚ Rules.rules (ruleEngine (snd (DeleteRule "a" (example_handlers [rule_a; rule_b] [])))).
Proof.
  pose proof (engine_frozen_after_delete false [Rules.Load (engine_rule <$> [rule_a; rule_b])] "a" (example_handlers [rule_a; rule_b] [])
    (snd (DeleteRule "a" (example_handlers [rule_a; rule_b] []))) (Fields [("id", lit "a"); ("deleted", lit "true")]) [ADisableRule "b"]) as Hf.
  destruct (Rules.byID (ruleEngine (example_handlers [rule_a; rule_b] [])) !! "a") eqn:E; [|by vm_compute in E].
  apply Hf; [reflexivity| |by repeat constructor].
  refine (eq_trans (surjective_pairing _) _). apply (f_equal (fun r => (r, _))). vm_compute. reflexivity.
Defined.

Definition bulk_body : string :=
  object [("rules", "[" ++ object [("id", quoted "n"); ("field", quoted "path.x"); ("operator", quoted "exists")] ++ "]")].
Definition bulk_request : createRuleRequest :=
  mkRuleRequest "n" "" "" "" "" "" 0 "path.x" "exists" "" None None None.

Lemma bulk_rules_never_reach_engine_witness :
  new_rule bulk_request ∈ Config.Rules (cfg (snd (BulkRules bulk_body (example_handlers [] []))))
  /\ Rules.GetRule "n" (ruleEngine (snd (serve_all [AEnableRule "n"] (snd (BulkRules bulk_body (example_handlers [] [])))))) = None.
Proof.
  edestruct (bulk_rules_never_reach_engine bulk_body [bulk_request] (example_handlers [] []) (snd (BulkRules bulk_body (example_handlers [] [])))
    (Bulk 1 0 []) bulk_request [AEnableRule "n"]) as (Hin & _ & Hn).
  - vm_compute. reflexivity.
  - refine (eq_trans (surjective_pairing _) _). apply (f_equal (fun r => (r, _))). vm_compute. reflexivity.
  - apply elem_of_cons. by left.
  - done.
  - done.
  - done.
  - vm_compute. reflexivity.
  - vm_compute. reflexivity.
  - by repeat constructor.
  - exact (conj Hin Hn).
Defined.
