(* ===== verification/Ctl.v ===== *)
(** * The command line client: [cmd/ctl/main.go]

    fortressctl: what each command sends and what it makes of the answer, down
    to the exit status. Commands are given parsed, as cobra hands them to [Run]; the
    files are the class [Disk]; the answer of the server comes with its first JSON
    value decoded. The theorems run the client against the servers of [Admin]. *)

From S2P Require Import Prelude GoStr Encoding Types Json.
From S2P Require Config Confidence Rules Api Proxy Admin.

#[local] Open Scope string_scope.
#[local] Open Scope Z_scope.

(** ** Settings *)

Record Settings : Type := mkSettings { apiURL : string; apiKey : string }.

(** The persistent flags ([None]: not given) and the environment, as
    [PersistentPreRunE] leaves them. *)
Definition settings (url_flag key_flag : option string) (FORTRESS_API_URL FORTRESS_API_KEY : string) : Settings :=
  let pick (flag : option string) (env def : string) :=
    match flag with Some v => v | None => if String.eqb env "" then def else env end in
  let url := pick url_flag FORTRESS_API_URL "localhost:8443" in
  mkSettings (if HasPrefix url "http" then url else "http://" ++ url) (pick key_flag FORTRESS_API_KEY "").

(** ** Requests *)

(** A request's body: a JSON value the command builds, or the bytes of a file. *)
Inductive payload : Type := NoPayload | Value (v : json) | Bytes (s : string).
Record Req : Type := mkReq { meth : string; url : string; headers : gmap string (list string); body : payload }.

Definition newRequest (g : Settings) (method path : string) (b : payload) : Req :=
  mkReq method (apiURL g ++ "/api/v1" ++ path)
    (<["Accept" := ["application/json"]]> (<["Content-Type" := ["application/json"]]>
       (if String.eqb (apiKey g) "" then ∅ else {["X-Api-Key" := [apiKey g]]}))) b.
Definition with_content_type (t : string) (r : Req) : Req :=
  mkReq (meth r) (url r) (<["Content-Type" := [t]]> (headers r)) (body r).

(** ** Commands *)

Inductive site_command : Type := SiteAdd (name domain origin : string) | SiteList | SiteRemove (name : string).
Inductive rule_command : Type :=
| RuleCreate (file : string) | RuleList (severity tag : string) | RuleDelete (id : string) | RuleTest (id request : string).
Inductive logs_command : Type := LogsTail (site : string) (limit : Z) | LogsExport (format output : string).
Inductive patch_command : Type := PatchApply (cve : string) | PatchRevoke (cve : string).
Inductive config_command : Type :=
| ConfigValidate | ConfigExport (output : string) | ConfigDiff (file : string) | ConfigApply (file : string).
Inductive command : Type :=
| Site (c : site_command)
| Rule (c : rule_command)
| Logs (c : logs_command)
| Patch (c : patch_command)
| Conf (c : config_command)
| Status
| CtlVersion.

(** [os.ReadFile]; [os.MkdirAll] of a file's directory, when its error is not
    that it exists, and [os.WriteFile]: the error. *)
Class Disk : Type := {
  ReadFile : string -> result string string; MkdirAll : string -> option string; WriteFile : string -> string -> option string
}.

Definition yaml_type `{Unicode} (file : string) : string :=
  if HasSuffix (ToLower file) ".yaml" || HasSuffix (ToLower file) ".yml" then "application/x-yaml" else "application/json".

Definition with_query (path : string) (qs : list string) : string :=
  match qs with [] => path | _ => path ++ "?" ++ String.concat "&" qs end.
Definition parameter (key value : string) : list string := if String.eqb value "" then [] else [key ++ "=" ++ value].

Definition missing (flag : string) : text := lit ("Error: --" ++ flag ++ " is required").
Definition need {A} (flag value : string) (k : result text A) : result text A :=
  if String.eqb value "" then Err (missing flag) else k.

(** Maps are printed with their keys sorted. *)
Definition site_object (name domain origin : string) : json :=
  JObject [("domains", JArray (map JString (Split domain ","))); ("name", JString name);
           ("upstream", JString origin); ("waf_enabled", JBool true)].
Definition raw_request (data : string) : json := JObject [("request", JObject [("raw", JString data)])].

Section client.
Context `{Unicode} `{Disk}.

Definition read_file (what file : string) (k : string -> result text Req) : result text Req :=
  match ReadFile file with
  | Err e => Err (Sprintf ("Error reading " ++ what ++ ": %v") [AStr e])
  | Ok data => k data
  end.
Definition send_file (g : Settings) (path file : string) : result text Req :=
  need "file" file (read_file "file" file (fun data => Ok (with_content_type (yaml_type file) (newRequest g "POST" path (Bytes data))))).

(** What the commands send; [Err] is a message on the error output and exit
    status 1. *)
Definition siteCmd (g : Settings) (c : site_command) : result text Req :=
  match c with
  | SiteAdd name domain origin =>
      need "name" name (need "domain" domain (need "origin" origin
        (Ok (newRequest g "POST" "/sites" (Value (site_object name domain origin))))))
  | SiteList => Ok (newRequest g "GET" "/sites" NoPayload)
  | SiteRemove name => need "name" name (Ok (newRequest g "DELETE" ("/sites/" ++ name) NoPayload))
  end.

Definition ruleCmd (g : Settings) (c : rule_command) : result text Req :=
  match c with
  | RuleCreate file => send_file g "/rules" file
  | RuleList severity tag =>
      Ok (newRequest g "GET" (with_query "/rules" (parameter "severity" severity ++ parameter "tag" tag)) NoPayload)
  | RuleDelete id => need "id" id (Ok (newRequest g "DELETE" ("/rules/" ++ id) NoPayload))
  | RuleTest id file =>
      need "id" id (need "request" file (read_file "request file" file (fun data =>
        Ok (newRequest g "POST" ("/rules/" ++ id ++ "/test")
          (Value (match Unmarshal data with Some v => v | None => raw_request data end))))))
  end.

Definition logsCmd (g : Settings) (c : logs_command) : result text Req :=
  match c with
  | LogsTail site limit =>
      Ok (newRequest g "GET" (with_query "/logs/tail"
        (parameter "site" site ++ (if 0 <? limit then ["limit=" ++ Itoa limit] else []))) NoPayload)
  | LogsExport format _ =>
      Ok (newRequest g "GET" ("/logs/export?format=" ++ (if String.eqb format "" then "json" else format)) NoPayload)
  end.

Definition patchCmd (g : Settings) (c : patch_command) : result text Req :=
  match c with
  | PatchApply cve =>
      need "cve" cve (Ok (newRequest g "POST" ("/patches/" ++ cve ++ "/apply") (Value (JObject [("cve", JString cve)]))))
  | PatchRevoke cve => need "cve" cve (Ok (newRequest g "POST" ("/patches/" ++ cve ++ "/revoke") NoPayload))
  end.

Definition configCmd (g : Settings) (c : config_command) : result text Req :=
  match c with
  | ConfigValidate => Ok (newRequest g "POST" "/config/validate" NoPayload)
  | ConfigExport _ => Ok (newRequest g "GET" "/config/export" NoPayload)
  | ConfigDiff file => send_file g "/config/diff" file
  | ConfigApply file => send_file g "/config/import" file
  end.

Definition statusCmd (g : Settings) : Req := newRequest g "GET" "/status" NoPayload.

Definition sent (r : result text Req) : result text (option Req) := match r with Ok q => Ok (Some q) | Err e => Err e end.
(** [Ok None]: the command sends nothing. *)
Definition prepare (g : Settings) (c : command) : result text (option Req) :=
  match c with
  | Site c => sent (siteCmd g c)
  | Rule c => sent (ruleCmd g c)
  | Logs c => sent (logsCmd g c)
  | Patch c => sent (patchCmd g c)
  | Conf c => sent (configCmd g c)
  | Status => Ok (Some (statusCmd g))
  | CtlVersion => Ok None
  end.

(** ** Answers *)

(** An answer: its status, its first JSON value decoded into a
    [map[string]interface{}] if that works (null gives the nil map, which is
    printed as null and is an empty object here), its bytes ([Err] when reading them
    fails) and what a decoder that failed has left of them. *)
Record Answer : Type := mkAnswer {
  status : Z; object : option (gmap string json); bytes : result string string; left_over : string
}.

Inductive line : Type := Text (t : text) | Item (v : json) | Pretty (v : json).
(** [Item] is printed with %v, [Pretty] indented with sorted keys. The lines on
    the output and on the error output, and the exit status. *)
Record Exit : Type := mkExit { out : list line; err : list line; code : Z }.
Definition fail_with (t : text) : Exit := mkExit [] [Text t] 1.
Definition print (l : list line) : Exit := mkExit l [] 0.

Definition get_string (m : gmap string json) (k : string) : string := default "" (string_field m k).
Definition to_object (m : gmap string json) : json := JObject (map_to_list m).

(** An error of building or sending the request. *)
Definition send_error (e : string) : Exit := fail_with (Sprintf "Error: %v" [AStr e]).

Definition handleResponse (a : Answer) : Exit :=
  match object a with
  | None =>
      if 400 <=? status a then fail_with (Sprintf "Error %d: %s" [AInt (status a); AStr (left_over a)])
      else if 0 <? slen (left_over a) then print [Text (lit (left_over a))] else print []
  | Some result =>
      if 400 <=? status a then
        let detail := get_string result "detail" in
        fail_with (if String.eqb detail "" then Sprintf "Error %d: %s" [AInt (status a); AStr (get_string result "error")]
                   else Sprintf "Error %d: %s - %s" [AInt (status a); AStr (get_string result "error"); AStr detail])
      else print [Pretty (to_object result)]
  end.

Definition array_field (m : gmap string json) (k : string) : option (list json) :=
  match m !! k with Some (JArray l) => Some l | _ => None end.
Definition tail_response (a : Answer) : Exit :=
  match object a with
  | None => fail_with (Sprintf "Error: %s" [AStr (left_over a)])
  | Some result =>
      match array_field result "logs" <||> array_field result "entries" with
      | None => print [Pretty (to_object result)]
      | Some entries => print (entries ≫= fun e => [Pretty e; Text (lit "---")])
      end
  end.

Definition read_all (a : Answer) (k : string -> Exit) : Exit :=
  if 400 <=? status a
  then fail_with (Sprintf "Error %d: %s" [AInt (status a); AStr (match bytes a with Ok s => s | Err _ => "" end)])
  else match bytes a with
       | Err e => fail_with (Sprintf "Error reading response: %v" [AStr e])
       | Ok data => k data
       end.
Definition save (file data : string) (ok : text) : Exit :=
  match MkdirAll file with
  | Some e => fail_with (Sprintf "Error creating directory: %v" [AStr e])
  | None =>
      match WriteFile file data with
      | Some e => fail_with (Sprintf "Error writing file: %v" [AStr e])
      | None => print [Text ok]
      end
  end.

(** [stamp] is the time in the default name of the file. *)
Definition export_logs (stamp format output : string) (a : Answer) : Exit :=
  let format := if String.eqb format "" then "json" else format in
  let output := if String.eqb output "" then "fortress-logs-" ++ stamp ++ "." ++ format else output in
  read_all a (fun data => save output data (Sprintf "Exported %d bytes to %s" [AInt (slen data); AStr output])).

Definition export_config (output : string) (a : Answer) : Exit :=
  read_all a (fun data =>
    if String.eqb output "" then print [Text (lit data)]
    else save output data (Sprintf "Configuration exported to %s (%d bytes)" [AStr output; AInt (slen data)])).

Definition validate_response (a : Answer) : Exit :=
  match object a with
  | None => fail_with (Sprintf "Error: %s" [AStr (left_over a)])
  | Some result =>
      match result !! "valid" with
      | Some (JBool true) => print [Text (lit "Configuration is valid")]
      | _ =>
          mkExit (Text (lit "Configuration is INVALID")
                  :: map Item (default [] (array_field result "errors"))
                  ++ match result !! "errors" with Some JNull | None => [] | Some v => [Pretty v] end)%list [] 1
      end
  end.

Definition apply_response (a : Answer) : Exit :=
  if 400 <=? status a
  then fail_with (Sprintf "Error %d: %s" [AInt (status a); AStr (match bytes a with Ok s => s | Err _ => "" end)])
  else match object a with
       | None => print [Text (lit "Configuration applied successfully")]
       | Some result => print [Pretty (to_object result)]
       end.

(** [go] is [runtime.Version()] without its first two letters. *)
Definition version_lines (b : Admin.Build) (go : string) : Exit :=
  print [Text (Sprintf "fortressctl %s" [AStr (Admin.Version b)]); Text (Sprintf "  commit:     %s" [AStr (Admin.Commit b)]);
         Text (Sprintf "  build date: %s" [AStr (Admin.BuildDate b)]); Text (Sprintf "  go version: %s" [AStr go])].

Definition logs_answer (stamp : string) (c : logs_command) (a : Answer) : Exit :=
  match c with LogsTail _ _ => tail_response a | LogsExport format output => export_logs stamp format output a end.
Definition config_answer (c : config_command) (a : Answer) : Exit :=
  match c with
  | ConfigValidate => validate_response a
  | ConfigExport output => export_config output a
  | ConfigDiff _ => handleResponse a
  | ConfigApply _ => apply_response a
  end.
Definition finish (stamp : string) (c : command) (a : Answer) : Exit :=
  match c with Logs c => logs_answer stamp c a | Conf c => config_answer c a | _ => handleResponse a end.

(** A whole command: [server] is what comes back on a request, [Err] when
    there is no answer. *)
Definition run (b : Admin.Build) (go : string) (g : Settings) (stamp : string) (server : Req -> result string Answer) (c : command) : Exit :=
  match prepare g c with
  | Err t => fail_with t
  | Ok None => version_lines b go
  | Ok (Some r) => match server r with Err e => send_error e | Ok a => finish stamp c a end
  end.
End client.

(** ** Where the requests go *)

(** The path below /api/v1 a command asks for. *)
Definition command_path (c : command) : list string :=
  match c with
  | Site (SiteAdd _ _ _) | Site (SiteList) => ["sites"]
  | Site (SiteRemove name) => ["sites"; name]
  | Rule (RuleCreate _) | Rule (RuleList _ _) => ["rules"]
  | Rule (RuleDelete id) => ["rules"; id]
  | Rule (RuleTest id _) => ["rules"; id; "test"]
  | Logs (LogsTail _ _) => ["logs"; "tail"]
  | Logs (LogsExport _ _) => ["logs"; "export"]
  | Patch (PatchApply cve) => ["patches"; cve; "apply"]
  | Patch (PatchRevoke cve) => ["patches"; cve; "revoke"]
  | Conf (ConfigValidate) => ["config"; "validate"]
  | Conf (ConfigExport _) => ["config"; "export"]
  | Conf (ConfigDiff _) => ["config"; "diff"]
  | Conf (ConfigApply _) => ["config"; "import"]
  | Status => ["status"]
  | CtlVersion => []
  end.
Definition api_segments (c : command) : list string := ("api" :: "v1" :: command_path c)%list.
Definition command_method (c : command) : string :=
  match c with
  | Site (SiteAdd _ _ _) | Rule (RuleCreate _) | Rule (RuleTest _ _) | Patch (PatchApply _) | Patch (PatchRevoke _) | Conf (ConfigValidate) | Conf (ConfigDiff _) | Conf (ConfigApply _) => "POST"
  | Site (SiteRemove _) | Rule (RuleDelete _) => "DELETE"
  | _ => "GET"
  end.

(** The names in a command's path are one clean segment each. *)
Definition plain (c : command) : Prop := Forall Admin.clean_segment (command_path c).

Section requests.
Context `{Unicode} `{Disk}.

Lemma with_query_path path qs : exists q, with_query path qs = path ++ q /\ (q = "" \/ HasPrefix q "?" = true).
Proof.
  destruct qs as [|x qs]; [exists ""; split; [by rewrite sapp_nil_r|by left]|].
  exists ("?" ++ String.concat "&" (x :: qs)). split; [done|right]. unfold HasPrefix. apply prefix_spec. by eexists.
Qed.

(** The request of a command: its method, a URL with its path up to the query,
    no Authorization header and the key in one of its own. *)
Lemma prepare_request g c q :
  prepare g c = Ok (Some q) ->
  meth q = command_method c
  /\ (exists query, url q = apiURL g ++ Admin.path_of (api_segments c) ++ query /\ (query = "" \/ HasPrefix query "?" = true))
  /\ headers q !! "Authorization" = None
  /\ (apiKey g <> "" -> headers q !! "X-Api-Key" = Some [apiKey g]).
Proof.
  assert (forall m p b, let h := headers (newRequest g m p b) in
            h !! "Authorization" = None /\ (apiKey g <> "" -> h !! "X-Api-Key" = Some [apiKey g])) as Hh.
  { intros m p b. unfold newRequest. cbn [headers]. rewrite !lookup_insert_ne by done. by destruct (String.eqb_spec (apiKey g) ""). }
  assert (forall t m p b, let h := headers (with_content_type t (newRequest g m p b)) in
            h !! "Authorization" = None /\ (apiKey g <> "" -> h !! "X-Api-Key" = Some [apiKey g])) as Hc.
  { intros t m p b. unfold with_content_type. cbn [headers]. rewrite !(lookup_insert_ne _ "Content-Type") by done. apply Hh. }
  destruct c as [[]|[]|[]|[]|[]| |]; cbn [prepare siteCmd ruleCmd logsCmd patchCmd configCmd]; unfold sent, statusCmd, need, send_file, need, read_file;
    intros Hp; repeat case_match; simplify_eq;
    (split; [done|]; split; [|first [apply Hh|apply Hc]]);
    try (exists ""; split; [|by left]; cbn [newRequest with_content_type url api_segments command_path Admin.path_of];
         rewrite !sapp_nil_r; reflexivity).
  all: try match goal with |- context [with_query ?p ?qs] =>
         destruct (with_query_path p qs) as (q & -> & Hq); exists q; by split end.
  all: eexists ("?format=" ++ _); split; [reflexivity|by right].
Qed.
End requests.

(** ** Against the running firewall *)

(** The request that a server gets of [q]: [url.Parse] cuts the query off a
    path of plain names. *)
Definition delivered (c : command) (q : Req) (r : http_Request) : Prop :=
  req_Method r = meth q /\ Header r = headers q /\ req_URL_Path r = Admin.path_of (api_segments c).

(** An answer as the client gets it. *)
Definition carries {U} (s : Proxy.served U) (a : Answer) : Prop :=
  match s with
  | Proxy.Reply st _ b =>
      status a = st /\ match b with Proxy.Json _ | Proxy.Object _ => is_Some (object a) | _ => object a = None end
  | _ => False
  end.

(** The commands that the administration server has a route for. *)
Definition answered (c : command) : option Admin.admin_handler :=
  match c with Site (SiteList) => Some Admin.PListSites | Rule (RuleList _ _) => Some Admin.PListRules | Status => Some Admin.PStatus | _ => None end.

Lemma admin_route c :
  first_some (Admin.match_route (command_method c) (api_segments c)) Admin.admin_table = (fun a => (a, [])) <$> answered c.
Proof. by destruct c as [[]|[]|[]|[]|[]| |]. Qed.

Lemma plain_segments c : plain c -> Forall Admin.clean_segment (api_segments c).
Proof.
  intros Hp. unfold api_segments. repeat apply Forall_cons_2; [|by repeat split; try discriminate..|done].
  by repeat split; try discriminate.
Qed.

(** An error status with a body that is not the object of a reply of the
    program makes every command fail, and so does one with an object for the
    commands that look at it. *)
Lemma finish_error `{Disk} stamp c a :
  400 <= status a -> (object a = None \/ is_Some (answered c)) -> code (finish stamp c a) = 1.
Proof.
  intros Hs Ho. apply Z.leb_le in Hs.
  destruct c as [[]|[]|[]|[]|[]| |]; cbn [finish logs_answer config_answer]; unfold handleResponse, tail_response, export_logs, export_config, validate_response, apply_response, read_all;
    cbv zeta; rewrite ?Hs; try (destruct Ho as [-> | [? Hn]]; [done|discriminate Hn]); by destruct (object a).
Qed.

Lemma finish_ok `{Disk} stamp c a :
  status a = 200 -> is_Some (object a) -> is_Some (answered c) -> code (finish stamp c a) = 0.
Proof. intros Hs [m Hm] Ha. destruct c as [[]|[]|[]|[]|[]| |]; try (by destruct Ha); cbn [finish logs_answer config_answer]; unfold handleResponse; by rewrite Hm, Hs. Qed.

Section against.
Context {Spec Mod : Type} `{Proxy.UrlParse} `{Confidence.TextLen} `{Unicode} `{Config.Files} `{Admin.MuxLaws} `{Disk}.
Context (build : Admin.Build).
Implicit Types h : @Proxy.wafHandler Spec Mod _.

Lemma no_bearer_refused keys r next :
  Header r !! "Authorization" = None -> keys <> [] ->
  Proxy.adminAuthMiddleware keys r next
  = Proxy.writeJSON 401 [("error", lit "unauthorized"); ("detail", lit "missing Authorization header")].
Proof.
  intros Hh Hk. unfold Proxy.adminAuthMiddleware. destruct keys as [|k keys]; [done|].
  unfold Get, Values. change (CanonicalHeaderKey "Authorization") with "Authorization". by rewrite Hh.
Qed.

(** [C11] Which commands of fortressctl work against the firewall that the program
    runs. Once an API key is configured none does, whichever key the client is given:
    it sends the key in a header that the server does not read. Without a key the
    three commands that list sites, list rules and show the status do; all others
    fail, because the server has no route for what they ask. The identifiers in a
    command are clean path segments: others the router redirects. *)
Theorem ctl_against_waf g c q r h now1 now2 active stamp a :
  prepare g c = Ok (Some q) -> plain c -> delivered c q r ->
  carries (Admin.serve_admin build now1 now2 active r h).1 a ->
  code (finish stamp c a) = 0 <-> Admin.keys_of h = [] /\ is_Some (answered c).
Proof.
  intros Hp Hpl (Hm & Hh & Hpath) Ha. destruct (prepare_request g c q Hp) as (Hq & _ & Hauth & _).
  rewrite Hq in Hm. rewrite <- Hh in Hauth.
  pose proof (Admin.routed_on r (api_segments c) ltac:(done) (plain_segments c Hpl) Hpath) as Hr.
  rewrite Hm, admin_route in Hr. revert Ha. unfold Admin.serve_admin. rewrite Hm.
  assert (String.eqb (command_method c) "OPTIONS" = false) as Ho by (by destruct c as [[]|[]|[]|[]|[]| |]).
  destruct (answered c) as [ah|] eqn:Han; cbn [fmap option_fmap option_map] in Hr.
  - rewrite Hr, Ho. destruct (Admin.keys_of h) as [|k keys] eqn:Hk.
    + intros Ha. assert (code (finish stamp c a) = 0); [|naive_solver].
      destruct c as [[]|[]|[]|[]|[]| |]; try discriminate Han; injection Han as <-; cbn in Ha; unfold Proxy.corsMiddleware in Ha; rewrite Hm in Ha;
        cbn in Ha; destruct Ha as [Hst Hob]; by apply finish_ok.
    + intros Ha. assert (code (finish stamp c a) = 1) as ->; [|naive_solver].
      assert (Admin.protected ah = true) as Hpr by (destruct c as [[]|[]|[]|[]|[]| |]; try discriminate Han; by injection Han as <-).
      destruct (Admin.run_handler build now1 now2 active ah r h) as [ans h']. rewrite Hpr in Ha. cbn [fst] in Ha.
      rewrite no_bearer_refused in Ha by done. unfold Proxy.corsMiddleware in Ha. rewrite Hm, Ho in Ha.
      destruct Ha as [Hst Hob]. apply finish_error; [lia|right; by rewrite Han].
  - intros Ha. assert (code (finish stamp c a) = 1) as ->; [|naive_solver].
    destruct Hr as [E|E]; rewrite E in Ha; destruct Ha as [Hst Hob]; (apply finish_error; [rewrite Hst; lia|by left]).
Qed.
End against.

(** ** Against the control API *)

(** The handler of the control API's server that a command reaches. *)
Definition api_handler_of (c : command) : option Admin.api_handler :=
  match c with
  | Site (SiteAdd _ _ _) => Some Admin.CreateSite
  | Site (SiteList) => Some Admin.ListSites
  | Site (SiteRemove _) => Some Admin.DeleteSite
  | Rule (RuleCreate _) => Some Admin.CreateRule
  | Rule (RuleList _ _) => Some Admin.ListRules
  | Rule (RuleDelete _) => Some Admin.DeleteRule
  | Rule (RuleTest _ _) => Some Admin.TestRule
  | Logs (LogsTail _ _) => Some Admin.TailLogs
  | Logs (LogsExport _ _) => Some Admin.ExportLogs
  | Patch (PatchApply _) => Some Admin.ApplyPatch
  | Patch (PatchRevoke _) => Some Admin.RevokePatch
  | Conf (ConfigValidate) => Some Admin.ValidateConfig
  | Conf (ConfigExport _) => Some Admin.ExportConfig
  | Conf (ConfigDiff _) => Some Admin.DiffConfig
  | Conf (ConfigApply _) => Some Admin.ImportConfig
  | Status | CtlVersion => None
  end.

(** The route of a command's request. *)
Lemma api_route_of `{Admin.MuxLaws} `{Unicode} `{Disk} g c q r :
  prepare g c = Ok (Some q) -> plain c -> delivered c q r ->
  match api_handler_of c with
  | Some a => exists vars, Admin.Route Admin.api_table (req_Method r) (req_URL_Path r) = Admin.Found a vars
  | None => c = Status /\ (Admin.Route Admin.api_table (req_Method r) (req_URL_Path r) = Admin.NotFound
                          \/ Admin.Route Admin.api_table (req_Method r) (req_URL_Path r) = Admin.MethodMismatch)
  end.
Proof.
  intros Hp Hpl (Hm & _ & ->). destruct (prepare_request g c q Hp) as (Hq & _). rewrite Hm, Hq.
  pose proof (Admin.route_first _ Admin.api_table (command_method c) (api_segments c) ltac:(done) (plain_segments c Hpl)) as Hr.
  destruct c as [[]|[]|[]|[]|[]| |]; try discriminate Hp; cbn in Hr |- *; by eauto.
Qed.

Lemma EqualFold_length `{Unicode} s t : length (runes_of s) <> length (runes_of t) -> EqualFold s t = false.
Proof.
  intros Hl. unfold EqualFold. apply bool_decide_eq_false. intros E. apply Hl. apply (f_equal length) in E. by rewrite !length_fmap in E.
Qed.

(** A member of another length than all fields of the struct is refused. *)
Lemma strict_refuses `{Unicode} {A} fields (decode : list (string * json) -> option A) l k v :
  (k, v) ∈ l -> Forall (fun f => length (runes_of k) <> length (runes_of f)) fields ->
  Api.strict fields decode (JObject l) = None.
Proof.
  intros Hin Hf. unfold Api.strict. cbn [as_members mbind option_bind].
  destruct (forallb _ l) eqn:E; [|done]. rewrite forallb_forall in E.
  specialize (E (k, v) (proj1 (list_elem_of_In _ _) Hin)). cbn [fst] in E. apply existsb_exists in E as (f & Hff & E).
  rewrite Forall_forall in Hf. rewrite EqualFold_length in E; [done|]. apply Hf. by apply list_elem_of_In.
Qed.

Section api.
Context `{Unicode} `{Config.Files} `{Api.ConfigCodec} `{Rules.Oracles} `{Rules.Runtime} `{MapRange string} {S : Type}.
Implicit Types h : Api.Handlers S.

(** The body that "site add" posts is never taken: the handler of sites calls
    the origin origin_url and refuses a body with other fields, so the command is
    answered 400 and no site is added, whatever it is given. *)
Theorem site_add_refused name domain origin text h :
  Decode text = Some (site_object name domain origin) -> Api.CreateSite text h = (Api.invalid_json, h).
Proof.
  intros Hd. unfold Api.CreateSite. rewrite Hd.
  assert (Api.decode_createSite (site_object name domain origin) = None) as Hn; [|by cbn [mbind option_bind]; rewrite Hn].
  apply (strict_refuses _ _ _ "upstream" (JString origin)); [set_solver|]. repeat (apply Forall_cons_2; [by vm_compute|]). done.
Qed.

(** A request file that is not JSON is wrapped in an object that the handler
    of rule tests refuses. *)
Theorem raw_test_refused data text h : Decode text = Some (raw_request data) -> Api.TestRule text h = Api.invalid_json.
Proof.
  intros Hd. unfold Api.TestRule. rewrite Hd.
  assert (Api.decode_testRule (raw_request data) = None) as Hn; [|by cbn [mbind option_bind]; rewrite Hn].
  apply (strict_refuses _ _ _ "request" (JObject [("raw", JString data)])); [by left|].
  repeat (apply Forall_cons_2; [by vm_compute|]). done.
Qed.
End api.

(** ** Names in paths *)

(** The path of a request as the server parses it, for a URL without
    fragment and escapes. *)
Fixpoint before_query (s : string) : string :=
  match s with String c t => if Ascii.eqb c "?" then "" else String c (before_query t) | "" => "" end.

(** Names are not escaped: a question mark in the name of a site to remove
    ends the path, so that the site with the part before it is removed. *)
Theorem remove_cuts_name `{Unicode} `{Disk} g name rest :
  Contains name "?" = false -> name <> "" ->
  exists q, prepare g (Site (SiteRemove (name ++ "?" ++ rest))) = Ok (Some q)
  /\ exists p, url q = apiURL g ++ p /\ before_query p = Admin.path_of (api_segments (Site (SiteRemove name))).
Proof.
  intros Hc Hn. cbn [prepare siteCmd]. unfold need. rewrite (proj2 (String.eqb_neq _ _)) by (by destruct name).
  eexists. split; [done|]. exists ("/api/v1/sites/" ++ name ++ "?" ++ rest). split; [done|].
  assert (before_query (name ++ "?" ++ rest) = name) as Hb.
  { clear Hn. induction name as [|c name IH]; [done|]. rewrite sapp_cons. cbn [before_query].
    cbn [Contains] in Hc. apply orb_false_iff in Hc as [Hp Hc]. destruct (Ascii.eqb_spec c "?") as [->|Hne].
    - cbn in Hp. by destruct name.
    - by rewrite IH. }
  change (before_query ("/api/v1/sites/" ++ name ++ "?" ++ rest)) with ("/api/v1/sites/" ++ before_query (name ++ "?" ++ rest)).
  rewrite Hb. cbn [Admin.path_of api_segments command_path]. by rewrite sapp_nil_r.
Qed.

(** ** Witnesses *)

#[local] Existing Instance unicode_ascii.
#[local] Existing Instance Confidence.format_len.
#[local] Existing Instance Config.no_files.
#[local] Existing Instance Admin.first_mux.
#[local] Existing Instance Admin.first_mux_laws.
#[local] Existing Instance Proxy.text_url.
#[local] Existing Instance Rules.example_oracles.
#[local] Existing Instance Rules.example_runtime.
#[local] Instance no_disk : Disk :=
  {| ReadFile := fun _ => Err "no such file"; MkdirAll := fun _ => None; WriteFile := fun _ _ => None |}.

Definition keyed : Settings := settings (Some "waf:8443") None "" "secret".
Definition status_request : Req := newRequest keyed "GET" "/status" NoPayload.
Definition as_received (c : command) (q : Req) : http_Request :=
  mkRequest (headers q) (meth q) (Admin.path_of (api_segments c)) "" "" "HTTP/1.1" 0 [] ∅ None.

Lemma ctl_against_waf_witness :
  code (finish "" Status (mkAnswer 200 (Some ∅) (Ok "{}") "")) = 0
  <-> Admin.keys_of Admin.idle = [] /\ is_Some (answered Status).
Proof.
  apply (ctl_against_waf Admin.release keyed Status status_request (as_received Status status_request) Admin.idle 0 0 0 "");
    [reflexivity|apply Admin.clean_by; reflexivity|by repeat split|by split; [|eexists]].
Defined.

Definition add_text : string :=
  "{" ++ quoted "domains" ++ ":[" ++ quoted "shop.example" ++ "]," ++ quoted "name" ++ ":" ++ quoted "shop" ++ ","
  ++ quoted "upstream" ++ ":" ++ quoted "http://10.0.0.1" ++ "," ++ quoted "waf_enabled" ++ ":true}".

Lemma site_add_refused_witness :
  Api.CreateSite add_text (Api.example_handlers [] []) = (Api.invalid_json, Api.example_handlers [] []).
Proof. apply (site_add_refused "shop" "shop.example" "http://10.0.0.1"). vm_compute. reflexivity. Defined.

Lemma raw_test_refused_witness :
  Api.TestRule ("{" ++ quoted "request" ++ ":{" ++ quoted "raw" ++ ":" ++ quoted "GET /" ++ "}}") (Api.example_handlers [] []) = Api.invalid_json.
Proof. apply (raw_test_refused "GET /"). vm_compute. reflexivity. Defined.

Lemma remove_cuts_name_witness :
  exists q, prepare keyed (Site (SiteRemove "shop?x")) = Ok (Some q) /\
  exists p, url q = apiURL keyed ++ p /\ before_query p = "/api/v1/sites/shop".
Proof. exact (remove_cuts_name keyed "shop" "x" eq_refl ltac:(discriminate)). Defined.
