(* ===== verification/ApiStore.v ===== *)
(** * The control API's own stores: [internal/api/handlers.go], [server.go]

    The handlers over what the API keeps itself: logs and the figures made of
    them, tenants, alerts and their channels, sessions and API keys, and the
    middleware that authenticates every request. Module by module each handler
    works on the store it locks. Identifiers ([uuid]) and clock readings are
    arguments, as are texts of times; the event stream of [TailLogs] and the
    formats of [ExportLogs] are output and left out. *)

From S2P Require Import Prelude Float64 GoStr Json Types Api.
From S2P Require Config.

#[local] Open Scope string_scope.
#[local] Open Scope Z_scope.

(** An answer: a status with the data of the handler, or an error. *)
Inductive answer (A : Type) : Type :=
| Answer (status : Z) (data : A)
| Error (r : response).
Arguments Answer {A}.
Arguments Error {A}.

Definition answer_status {A} (a : answer A) : Z := match a with Answer s _ => s | Error r => fst r end.

(** [append(l[:i], l[i+1:]...)] of the first match, as the delete handlers do. *)
Definition delete_by {A} (p : A -> bool) (missing : string) (l : list A) : answer unit * list A :=
  match delete_first p l with
  | Some l => (Answer 200 tt, l)
  | None => (Error (writeNotFound missing), l)
  end.
Definition get_by {A} (p : A -> bool) (missing : string) (l : list A) : answer A :=
  match List.find p l with Some a => Answer 200 a | None => Error (writeNotFound missing) end.
(** The first match is changed and written. *)
Definition update_by {A} (p : A -> bool) (f : A -> A) (missing : string) (l : list A) : answer A * list A :=
  match update_first p f l, List.find p l with
  | Some l, Some a => (Answer 200 (f a), l)
  | _, _ => (Error (writeNotFound missing), l)
  end.

(** ** Logs *)

Module Logs.

Record logEntry : Type := mkEntry {
  Timestamp : Z; RequestID : string; Site : string; Action : string; Severity : string; RuleID : string; RuleName : string;
  IP : string; Method : string; Path : string; Status : Z; LatencyMs : Z; UserAgent : string; Country : string
}.

(** One entry taken from [logCh] by [drainLogChannel]. *)
Definition drain (entry : logEntry) (logStore : list logEntry) : list logEntry :=
  let l := (logStore ++ [entry])%list in
  if 100000 <? len l then drop (Z.to_nat (len l - 50000)) l else l.

(** What the source sends to [logCh]: nothing does. *)
Definition sent_to_logCh : list logEntry := [].
Definition drainLogChannel (logStore : list logEntry) : list logEntry := fold_left (fun l e => drain e l) sent_to_logCh logStore.

(** [l[i:j]] panics unless [0 <= i <= j <= len l] (the capacity is the length
    here, or more, which the callers stay below). *)
Definition slice {A} (l : list A) (i j : Z) : outcome (list A) :=
  if (0 <=? i) && (i <=? j) && (j <=? len l) then Returns (drop (Z.to_nat i) (take (Z.to_nat j) l)) else Panics.

(** [a / b] of ints. *)
Definition div (a b : Z) : outcome Z := if b =? 0 then Panics else Returns (wrap64 (Z.quot a b)).

(** [time.Parse(time.RFC3339, s)]. *)
Class ParseRFC3339 : Type := parse_rfc3339 : string -> option Z.

Section query.
Context `{ParseRFC3339}.

(** The time parameter: the zero time when it is missing or unreadable. *)
Definition time_param (s : string) : Z :=
  if String.eqb s "" then zero_time else default zero_time (parse_rfc3339 s).
Definition in_range (from to : Z) (e : logEntry) : bool :=
  negb (negb (from =? zero_time) && time_before (Timestamp e) from)
  && negb (negb (to =? zero_time) && time_after (Timestamp e) to).

Definition selected (query : string -> string) (e : logEntry) : bool :=
  (String.eqb (query "site") "" || String.eqb (Site e) (query "site"))
  && (String.eqb (query "action") "" || String.eqb (Action e) (query "action"))
  && (String.eqb (query "severity") "" || String.eqb (Severity e) (query "severity"))
  && in_range (time_param (query "from")) (time_param (query "to")) e.

(** The entries of the page, the total and the page number. *)
Definition QueryLogs (query : string -> string) (logStore : list logEntry) : outcome (list logEntry * Z * Z) :=
  let limit := getQueryInt query "limit" 100 in
  let offset := getQueryInt query "offset" 0 in
  let limit := if 1000 <? limit then 1000 else limit in
  let filtered := filter (fun e => selected query e = true) logStore in
  let total := len filtered in
  if total <=? offset then
    let! q := div offset limit in Returns ([], total, wrap64 (q + 1))
  else
    let end_ := wrap64 (offset + limit) in
    let end_ := if total <? end_ then total else end_ in
    let! page := slice filtered offset end_ in
    let! q := div offset limit in Returns (page, total, wrap64 (q + 1)).

Definition export_filter (from to : string) (logStore : list logEntry) : list logEntry :=
  filter (fun e => in_range (time_param from) (time_param to) e = true) logStore.
End query.

(** *** Figures *)

Definition count_in (k : string) (m : gmap string Z) : gmap string Z := <[k := incr (lookup_default 0 m k)]> m.

(** [now.Add(-time.Duration(window) * time.Minute)] *)
Definition since (now window : Z) : Z := now + wrap64 (wrap64 (- window) * Minute).
Definition recent (now window : Z) (l : list logEntry) : list logEntry :=
  filter (fun e => time_before (Timestamp e) (since now window) = false) l.

Record traffic : Type := mkTraffic {
  total_requests : Z; blocked : Z; total_latency : Z; bandwidth_bytes : Z; by_method : gmap string Z; by_status : gmap Z Z
}.
Definition traffic_step (t : traffic) (e : logEntry) : traffic :=
  mkTraffic (incr (total_requests t)) (if String.eqb (Action e) "block" then incr (blocked t) else blocked t)
    (wrap64 (total_latency t + LatencyMs e)) (wrap64 (bandwidth_bytes t + 1024)) (count_in (Method e) (by_method t))
    (<[Status e := incr (default 0 (by_status t !! Status e))]> (by_status t)).

(** Without the time line, which is keyed by the text of times. *)
Definition TrafficStats (now : Z) (query : string -> string) (logStore : list logEntry) : Z * traffic * f64 * f64 :=
  let window := getQueryInt query "window" 60 in
  let t := fold_left traffic_step (recent now window logStore) (mkTraffic 0 0 0 0 ∅ ∅) in
  let avg := if 0 <? total_requests t then fdiv (of_int (total_latency t)) (of_int (total_requests t)) else f0 in
  (window, t, fdiv (of_int (total_requests t)) (of_int (wrap64 (window * 60))), avg).

Definition is_attack (e : logEntry) : bool := String.eqb (Action e) "block" || String.eqb (Action e) "challenge".
Definition count_some (k : string) (m : gmap string Z) : gmap string Z := if String.eqb k "" then m else count_in k m.
(** By severity, country and endpoint. *)
Definition AttackStats (now : Z) (query : string -> string) (logStore : list logEntry)
    : Z * gmap string Z * gmap string Z * gmap string Z :=
  let window := getQueryInt query "window" 60 in
  let l := filter (fun e => is_attack e = true) (recent now window logStore) in
  (window, fold_left (fun m e => count_in (Severity e) m) l ∅, fold_left (fun m e => count_some (Country e) m) l ∅,
   fold_left (fun m e => count_some (Path e) m) l ∅).

(** [stat.Total] and [stat.Blocked] of a path. *)
Definition endpoint_step (m : gmap string (Z * Z)) (e : logEntry) : gmap string (Z * Z) :=
  let '(t, b) := default (0, 0) (m !! Path e) in
  <[Path e := (incr t, if String.eqb (Action e) "block" then incr b else b)]> m.

(** The exchange sort: for each [i] every later [j] with more blocked swaps. *)
Fixpoint exchange {A} (more : A -> A -> bool) (x : A) (before rest : list A) : A * list A :=
  match rest with
  | [] => (x, reverse before)
  | y :: rest => if more y x then exchange more y (x :: before) rest else exchange more x (y :: before) rest
  end.
Fixpoint exchange_sort {A} (fuel : nat) (more : A -> A -> bool) (l : list A) : list A :=
  match fuel, l with
  | S fuel, x :: rest => let '(x, rest) := exchange more x [] rest in x :: exchange_sort fuel more rest
  | _, _ => l
  end.
Definition sort_by {A} (more : A -> A -> bool) (l : list A) : list A := exchange_sort (length l) more l.
(** [if limit < len(results) { results = results[:limit] }] *)
Definition top {A} (limit : Z) (l : list A) : outcome (list A) := if limit <? len l then slice l 0 limit else Returns l.

Definition TopEndpoints `{MapRange (Z * Z)} (now : Z) (query : string -> string) (logStore : list logEntry)
    : outcome (list (string * (Z * Z))) :=
  let limit := getQueryInt query "limit" 20 in
  let window := getQueryInt query "window" 60 in
  let stats := fold_left endpoint_step (recent now window logStore) ∅ in
  top limit (sort_by (fun a b => snd (snd b) <? snd (snd a)) (map_range stats)).

Record ipStat : Type := mkIpStat { Total : Z; Blocked : Z; LastSeen : Z; Countries : gset string }.
Definition ip_step (m : gmap string ipStat) (e : logEntry) : gmap string ipStat :=
  let s := default (mkIpStat 0 0 zero_time ∅) (m !! IP e) in
  <[IP e := mkIpStat (incr (Total s)) (if String.eqb (Action e) "block" then incr (Blocked s) else Blocked s)
              (if time_after (Timestamp e) (LastSeen s) then Timestamp e else LastSeen s)
              (if String.eqb (Country e) "" then Countries s else {[Country e]} ∪ Countries s)]> m.
Definition TopIPs `{MapRange ipStat} (now : Z) (query : string -> string) (logStore : list logEntry)
    : outcome (list (string * ipStat)) :=
  let limit := getQueryInt query "limit" 20 in
  let window := getQueryInt query "window" 60 in
  let stats := fold_left ip_step (recent now window logStore) ∅ in
  top limit (sort_by (fun a b => Blocked (snd b) <? Blocked (snd a)) (map_range stats)).

Definition country_of (e : logEntry) : string := if String.eqb (Country e) "" then "unknown" else Country e.
(** Requests, blocked and the percentage of a country, and counts by action. *)
Definition GeoStats (now : Z) (query : string -> string) (logStore : list logEntry)
    : Z * gmap string (Z * Z * f64) * gmap string Z :=
  let window := getQueryInt query "window" 1440 in
  let l := recent now window logStore in
  let byCountry := fold_left (fun m e => count_in (country_of e) m) l ∅ in
  let blockedBy := fold_left (fun m e => if String.eqb (Action e) "block" then count_in (country_of e) m else m) l ∅ in
  (window,
   map_imap (fun c total =>
     let b := lookup_default 0 blockedBy c in
     Some (total, b, if 0 <? total then fmul (fdiv (of_int b) (of_int total)) (of_int 100) else f0)) byCountry,
   fold_left (fun m e => count_in (Action e) m) l ∅).

(** *** Paging *)

Lemma ParseInt_in64 s v : ParseInt s = Some v -> in64 v.
Proof.
  unfold ParseInt, in64. destruct (match s with "" => _ | _ => _ end) as [neg d]. destruct d; [done|].
  destruct (sall _ _); [|done]. cbv zeta.
  match goal with |- (if ?b then Some ?x else None) = _ -> _ => destruct b eqn:E; [|done] end.
  intros [= <-]. apply andb_true_iff in E as [?%Z.leb_le ?%Z.leb_le]. done.
Qed.

Lemma getQueryInt_in64 query name def : in64 def -> in64 (getQueryInt query name def).
Proof.
  intros Hd. unfold getQueryInt. destruct (String.eqb _ _); [done|]. destruct (ParseInt _) as [v|] eqn:E; [|done].
  by eapply ParseInt_in64.
Qed.

Lemma slice_in {A} (l : list A) i j : 0 <= i <= j -> j <= len l -> slice l i j = Returns (drop (Z.to_nat i) (take (Z.to_nat j) l)).
Proof. intros ? ?. unfold slice. by rewrite !(proj2 (Z.leb_le _ _)) by lia. Qed.
Lemma slice_out {A} (l : list A) i j : i < 0 \/ j < i -> slice l i j = Panics.
Proof. intros Hij. unfold slice. destruct Hij; [|rewrite (andb_comm (0 <=? i))]; by rewrite (proj2 (Z.leb_gt _ _)) by lia. Qed.

Lemma take_min_len {A} (l : list A) n : take (Z.to_nat (if len l <? n then len l else n)) l = take (Z.to_nat n) l.
Proof.
  destruct (Z.ltb_spec (len l) n); [|done]. unfold len in *. rewrite Nat2Z.id, firstn_all.
  by rewrite take_ge by lia.
Qed.

(** [C24] The log query in closed form. With a page size of 0 it panics, on an
    empty store too; a negative offset, or a negative page size below the
    total, panics as well; otherwise the answer is the page of at most 1000
    selected entries from the offset on, in order, with the total. *)
Theorem query_logs_pages `{ParseRFC3339} query logStore :
  let l := filter (fun e => selected query e = true) logStore in
  let limit := Z.min 1000 (getQueryInt query "limit" 100) in
  let offset := getQueryInt query "offset" 0 in
  len l <= 2 ^ 62 ->
  (limit = 0 \/ (offset < len l /\ (offset < 0 \/ limit < 0)) -> QueryLogs query logStore = Panics)
  /\ (0 < limit -> 0 <= offset ->
      QueryLogs query logStore
      = Returns (take (Z.to_nat limit) (drop (Z.to_nat offset) l), len l, wrap64 (wrap64 (offset / limit) + 1))).
Proof.
  intros l limit offset Hl. unfold QueryLogs.
  assert ((if 1000 <? getQueryInt query "limit" 100 then 1000 else getQueryInt query "limit" 100) = limit) as ->.
  { unfold limit. destruct (Z.ltb_spec 1000 (getQueryInt query "limit" 100)); lia. }
  fold l offset.
  assert (in64 limit) as Hlim.
  { pose proof (getQueryInt_in64 query "limit" 100 ltac:(done)) as Hg. clear -Hg. subst limit. revert Hg. generalize (getQueryInt query "limit" 100). unfold in64, min64, max64. intros z ?. lia. }
  assert (in64 offset) as Hoff by (apply getQueryInt_in64; unfold in64, min64, max64; lia).
  assert (limit <= 1000) as Hmax by (unfold limit; lia). clearbody limit offset. pose proof (len_nonneg l) as Hn. unfold div.
  destruct (Z.leb_spec (len l) offset) as [Hle|Hlt].
  - split.
    + intros [->|[? _]]; [done|lia].
    + intros Hp Ho. rewrite (proj2 (Z.eqb_neq _ _)) by lia. cbn [out_bind]. rewrite Z.quot_div_nonneg by lia.
      rewrite skipn_all2 by (unfold len in Hle; lia). by rewrite firstn_nil.
  - split.
    + intros Hbad. destruct (decide (offset < 0)) as [Ho|Ho]; [by rewrite slice_out by (by left)|].
      assert (wrap64 (offset + limit) = offset + limit) as -> by (apply wrap64_small; unfold in64, min64, max64 in *; lia).
      destruct (Z.ltb_spec (len l) (offset + limit)); [lia|].
      destruct (decide (limit = 0)) as [->|]; [|by rewrite slice_out by lia].
      rewrite Z.add_0_r, slice_in by lia. done.
    + intros Hp Ho. assert (wrap64 (offset + limit) = offset + limit) as -> by (apply wrap64_small; unfold in64, min64, max64 in *; lia).
      rewrite slice_in by (destruct (Z.ltb_spec (len l) (offset + limit)); lia). cbn [out_bind].
      rewrite (proj2 (Z.eqb_neq _ _)) by lia. cbn [out_bind]. rewrite Z.quot_div_nonneg by lia.
      rewrite take_min_len, skipn_firstn_comm. do 4 f_equal. lia.
Qed.

(** Nothing is ever sent to the channel the log store is filled from: the
    store stays empty, every query without a page size of 0 or a negative
    offset finds nothing, and all figures are zero. *)
Theorem logs_stay_empty now query :
  drainLogChannel [] = [] /\ AttackStats now query (drainLogChannel []) = (getQueryInt query "window" 60, ∅, ∅, ∅)
  /\ total_requests (TrafficStats now query (drainLogChannel [])).1.1.2 = 0
  /\ (forall `{ParseRFC3339}, 0 < getQueryInt query "limit" 100 -> 0 <= getQueryInt query "offset" 0 ->
      exists page, QueryLogs query (drainLogChannel []) = Returns ([], 0, page)).
Proof.
  split_and!; [done..|]. intros parse Hl Ho. unfold QueryLogs. cbn [drainLogChannel sent_to_logCh fold_left].
  change (filter (fun e => selected query e = true) []) with (@nil logEntry). rewrite len_nil, (proj2 (Z.leb_le 0 _)) by done.
  unfold div. rewrite (proj2 (Z.eqb_neq _ _)); [eauto|]. destruct (Z.ltb_spec 1000 (getQueryInt query "limit" 100)); lia.
Qed.

#[local] Instance no_times : ParseRFC3339 := fun _ => None.
Definition entry (n : Z) : logEntry := mkEntry n "" "shop" "block" "high" "" "" "10.0.0.1" "GET" "/" 403 1 "" "".
Definition params (l : list (string * string)) (k : string) : string :=
  match List.find (fun p => String.eqb (fst p) k) l with Some (_, v) => v | None => "" end.

Lemma query_logs_pages_witness :
  QueryLogs (params [("limit", "2"); ("offset", "1")]) [entry 1; entry 2; entry 3; entry 4]
  = Returns ([entry 2; entry 3], 4, 1) /\ QueryLogs (params [("limit", "0")]) [] = Panics.
Proof.
  split.
  - refine (eq_trans (proj2 (query_logs_pages (params [("limit", "2"); ("offset", "1")]) [entry 1; entry 2; entry 3; entry 4] _) _ _) _);
      by vm_compute.
  - apply (query_logs_pages (params [("limit", "0")]) []); [by vm_compute|]. left. vm_compute. reflexivity.
Defined.

Lemma logs_stay_empty_witness : exists page, QueryLogs (params []) (drainLogChannel []) = Returns ([], 0, page).
Proof. apply (logs_stay_empty 0 (params [])); by vm_compute. Defined.

End Logs.

(** ** Tenants *)

Module Tenants.

Record tenantRecord : Type := mkTenant {
  ID : string; Name : string; Description : string; Enabled : bool; Settings : gmap string json; CreatedAt : Z; UpdatedAt : Z
}.
(** Nil [Settings] are [None]. *)
Record createTenantRequest : Type := mkRequest {
  r_Name : string; r_Description : string; r_Settings : option (gmap string json)
}.

Definition decode_createTenant `{Unicode} : json -> option createTenantRequest :=
  strict ["name"; "description"; "settings"] (fun l =>
    name ← member as_string "name" "" l; description ← member as_string "description" "" l;
    settings ← optional as_map "settings" l; Some (mkRequest name description settings)).

Section handlers.
Context `{Unicode}.

Definition ListTenants (tenants : list tenantRecord) : list tenantRecord * Z := (tenants, len tenants).
Definition is_tenant (id : string) (t : tenantRecord) : bool := String.eqb (ID t) id.

Definition CreateTenant (uuid : string) (now1 now2 : Z) (body : string) (tenants : list tenantRecord)
    : answer tenantRecord * list tenantRecord :=
  match Decode body ≫= decode_createTenant with
  | None => (Error invalid_json, tenants)
  | Some req =>
      if String.eqb (r_Name req) "" then (Error (writeBadRequest (lit "name is required")), tenants)
      else
        let tenant := mkTenant ("TENANT-" ++ take_str 8 uuid) (r_Name req) (r_Description req) true
                        (default ∅ (r_Settings req)) now1 now2 in
        if existsb (fun t => String.eqb (Name t) (r_Name req)) tenants
        then (Error (writeConflict "tenant already exists"), tenants)
        else (Answer 201 tenant, (tenants ++ [tenant])%list)
  end.

Definition GetTenant (id : string) (tenants : list tenantRecord) : answer tenantRecord :=
  get_by (is_tenant id) "tenant not found" tenants.

Definition apply_update (now : Z) (req : createTenantRequest) (t : tenantRecord) : tenantRecord :=
  mkTenant (ID t) (or_keep (r_Name req) (Name t)) (or_keep (r_Description req) (Description t)) (Enabled t)
    (default (Settings t) (r_Settings req)) (CreatedAt t) now.
Definition UpdateTenant (now : Z) (id body : string) (tenants : list tenantRecord) : answer tenantRecord * list tenantRecord :=
  match Decode body ≫= decode_createTenant with
  | None => (Error invalid_json, tenants)
  | Some req => update_by (is_tenant id) (apply_update now req) "tenant not found" tenants
  end.

Definition DeleteTenant (id : string) (tenants : list tenantRecord) : answer unit * list tenantRecord :=
  delete_by (is_tenant id) "tenant not found" tenants.
End handlers.

(** *** Names *)

Section names.
Context `{Unicode}.

Lemma delete_first_sublist {A} (p : A -> bool) l l' : delete_first p l = Some l' -> sublist l' l.
Proof.
  revert l'. induction l as [|a l IH]; intros l'; cbn [delete_first]; [done|]. destruct (p a).
  - intros [= <-]. by apply sublist_cons.
  - destruct (delete_first p l) as [k|]; [|done]. intros [= <-]. apply sublist_skip. by apply IH.
Qed.

(** Creating and deleting keep the names of the tenants apart; renaming one to
    the name of another is accepted. *)
Lemma tenant_names_distinct uuid now1 now2 body id l :
  NoDup (Name <$> l) ->
  NoDup (Name <$> snd (CreateTenant uuid now1 now2 body l)) /\ NoDup (Name <$> snd (DeleteTenant id l)).
Proof.
  intros Hl. split.
  - unfold CreateTenant. destruct (_ ≫= _) as [req|]; [|done]. destruct (String.eqb _ ""); [done|].
    destruct (existsb _ _) eqn:E; [done|]. cbn [snd]. rewrite fmap_app. apply NoDup_app. split_and!; [done| |by apply NoDup_singleton].
    intros x (t & Hx & Ht)%list_elem_of_fmap Hs%list_elem_of_singleton. cbn in Hs.
    assert (existsb (fun t => String.eqb (Name t) (r_Name req)) l = true) as E'; [|by rewrite E' in E].
    apply existsb_exists. exists t. split; [by apply list_elem_of_In|]. apply String.eqb_eq. congruence.
  - unfold DeleteTenant, delete_by. destruct (delete_first _ l) as [k|] eqn:E; [|done]. cbn [snd].
    apply delete_first_sublist in E. refine (sublist_NoDup _ _ Hl _). by apply fmap_sublist.
Qed.
End names.

End Tenants.

(** ** Alerts *)

Module Alerts.

Record alertRecord : Type := mkAlert {
  ID : string; Type_ : string; Severity : string; Message : string; Site : string; RuleID : string; Acked : bool; CreatedAt : Z
}.
Record alertConfigRecord : Type := mkConfig {
  Threshold : Z; IntervalSeconds : Z; Enabled : option bool; Channels : option (list string); Rules : option (list string)
}.
Record alertChannelRecord : Type := mkChannel {
  c_ID : string; c_Name : string; c_Type : string; c_Enabled : bool; c_Config : gmap string string; c_CreatedAt : Z
}.

(** The initial settings of [NewHandlers]. *)
Definition default_config : alertConfigRecord := mkConfig 100 60 (Some true) (Some []) (Some []).

Section handlers.
Context `{Unicode}.

Definition listed (severity acked : string) (a : alertRecord) : bool :=
  (String.eqb severity "" || String.eqb (Severity a) severity)
  && negb (String.eqb acked "true" && negb (Acked a)) && negb (String.eqb acked "false" && Acked a).
(** The alerts and the total, which counts those that are not listed too. *)
Definition ListAlerts (query : string -> string) (alerts : list alertRecord) : outcome (list alertRecord * Z) :=
  let filtered := filter (fun a => listed (query "severity") (query "acked") a = true) alerts in
  let! page := Logs.top (getQueryInt query "limit" 100) filtered in
  Returns (page, len alerts).

Definition decode_createAlert : json -> option (string * string * string * string * string) :=
  strict ["type"; "severity"; "message"; "site"; "rule_id"] (fun l =>
    type ← member as_string "type" "" l; severity ← member as_string "severity" "" l;
    message ← member as_string "message" "" l; site ← member as_string "site" "" l; rule ← member as_string "rule_id" "" l;
    Some (type, severity, message, site, rule)).

Definition max_alerts : Z := 10000.
Definition CreateAlert (uuid : string) (now : Z) (body : string) (alerts : list alertRecord)
    : answer alertRecord * list alertRecord :=
  match Decode body ≫= decode_createAlert with
  | None => (Error invalid_json, alerts)
  | Some (type, severity, message, site, rule) =>
      if String.eqb type "" || String.eqb message ""
      then (Error (writeBadRequest (lit "type and message are required")), alerts)
      else
        let alert := mkAlert ("ALERT-" ++ take_str 8 uuid) type severity message site rule false now in
        let alerts := alert :: alerts in
        (Answer 201 alert, if max_alerts <? len alerts then take (Z.to_nat max_alerts) alerts else alerts)
  end.

Definition is_alert (id : string) (a : alertRecord) : bool := String.eqb (ID a) id.
Definition set_acked (b : option bool) (a : alertRecord) : alertRecord :=
  mkAlert (ID a) (Type_ a) (Severity a) (Message a) (Site a) (RuleID a) (default (Acked a) b) (CreatedAt a).
Definition decode_acked : json -> option (option bool) := strict ["acked"] (optional as_bool "acked").
Definition UpdateAlert (id body : string) (alerts : list alertRecord) : answer alertRecord * list alertRecord :=
  match Decode body ≫= decode_acked with
  | None => (Error invalid_json, alerts)
  | Some b => update_by (is_alert id) (set_acked b) "alert not found" alerts
  end.

Definition decode_config : json -> option alertConfigRecord :=
  strict ["threshold"; "interval_seconds"; "enabled"; "channels"; "rules"] (fun l =>
    threshold ← member as_int64 "threshold" 0 l; interval ← member as_int64 "interval_seconds" 0 l;
    enabled ← optional as_bool "enabled" l; channels ← optional as_strings "channels" l; rules ← optional as_strings "rules" l;
    Some (mkConfig threshold interval enabled channels rules)).
Definition or_else_opt {A} (new old : option A) : option A := match new with Some _ => new | None => old end.
Definition UpdateAlertConfig (body : string) (c : alertConfigRecord) : answer alertConfigRecord * alertConfigRecord :=
  match Decode body ≫= decode_config with
  | None => (Error invalid_json, c)
  | Some req =>
      let c := mkConfig (if 0 <? Threshold req then Threshold req else Threshold c)
                 (if 0 <? IntervalSeconds req then IntervalSeconds req else IntervalSeconds c)
                 (or_else_opt (Enabled req) (Enabled c)) (or_else_opt (Channels req) (Channels c))
                 (or_else_opt (Rules req) (Rules c)) in
      (Answer 200 c, c)
  end.

(** A [map[string]string]. *)
Definition as_string_map (v : json) : option (gmap string string) :=
  match v with
  | JObject l =>
      fold_left (fun acc p => m ← acc;
                   match snd p with JString s => Some (<[fst p := s]> m) | JNull => Some (<[fst p := ""]> m) | _ => None end)
        l (Some (∅ : gmap string string))
  | _ => None
  end.
Definition decode_channel : json -> option (string * string * option bool * gmap string string) :=
  strict ["name"; "type"; "enabled"; "config"] (fun l =>
    name ← member as_string "name" "" l; type ← member as_string "type" "" l; enabled ← optional as_bool "enabled" l;
    config ← member as_string_map "config" ∅ l; Some (name, type, enabled, config)).

Definition ListAlertChannels (l : list alertChannelRecord) : list alertChannelRecord * Z := (l, len l).
Definition CreateAlertChannel (uuid : string) (now : Z) (body : string) (l : list alertChannelRecord)
    : answer alertChannelRecord * list alertChannelRecord :=
  match Decode body ≫= decode_channel with
  | None => (Error invalid_json, l)
  | Some (name, type, enabled, config) =>
      if String.eqb name "" || String.eqb type "" then (Error (writeBadRequest (lit "name and type are required")), l)
      else let channel := mkChannel ("CH-" ++ take_str 8 uuid) name type (default true enabled) config now in
           (Answer 201 channel, (l ++ [channel])%list)
  end.
Definition DeleteAlertChannel (id : string) (l : list alertChannelRecord) : answer unit * list alertChannelRecord :=
  delete_by (fun c => String.eqb (c_ID c) id) "alert channel not found" l.
End handlers.

(** The store holds at most ten thousand alerts, the newest first. *)
Lemma alerts_bounded `{Unicode} uuid now body l :
  len l <= max_alerts -> len (snd (CreateAlert uuid now body l)) <= max_alerts.
Proof.
  intros Hl. unfold CreateAlert. destruct (_ ≫= _) as [[[[[type sev] msg] site] rule]|]; [|done]. destruct (_ || _); [done|].
  cbn [snd]. destruct (Z.ltb_spec max_alerts (len (mkAlert ("ALERT-" ++ take_str 8 uuid) type sev msg site rule false now :: l))); [|done].
  unfold len. rewrite length_take. unfold max_alerts. lia.
Qed.

End Alerts.

(** ** Sessions, API keys and authentication *)

Module Access.

Record sessionRecord : Type := mkSession { Token : string; UserID : string; CreatedAt : Z; ExpiresAt : Z }.
Record apiKeyRecord : Type := mkKey {
  k_ID : string; k_Name : string; k_Key : string; k_UserID : string; k_CreatedAt : Z; k_ExpiresAt : Z
}.
(** The stores of the handlers, with the server's settings. *)
Record Server : Type := mkServer {
  APIKeys : list string; DevMode : bool; apiKeys : gmap string apiKeyRecord; sessions : gmap string sessionRecord
}.
Definition set_keys (m : gmap string apiKeyRecord) (s : Server) : Server := mkServer (APIKeys s) (DevMode s) m (sessions s).
Definition set_sessions (m : gmap string sessionRecord) (s : Server) : Server := mkServer (APIKeys s) (DevMode s) (apiKeys s) m.

Fixpoint word (l : list Z) : list Z :=
  match l with r :: l => if is_space r then [] else r :: word l | [] => [] end.
(** [fmt.Sscanf(header, "Bearer %s", &token)]: the word after "Bearer" and at
    least one space, or the empty string. *)
Definition scan_bearer (hdr : string) : string :=
  if HasPrefix hdr "Bearer" then
    match runes_of (drop_str 6 hdr) with
    | r :: rest =>
        if is_space r && negb (r =? 10)
        then match skip_spaces rest with
             | Some l => of_runes (word l)
             | None => ""
             end
        else ""
    | [] => ""
    end
  else "".

Section handlers.
Context `{Unicode}.

Definition decode_login : json -> option (string * string) :=
  strict ["username"; "password"] (fun l =>
    u ← member as_string "username" "" l; p ← member as_string "password" "" l; Some (u, p)).

(** [keys] are the administration keys of the configuration. The token and its
    expiry are written. *)
Definition Login (keys : list string) (uuid : string) (now1 now2 : Z) (body : string) (s : Server)
    : answer (string * Z) * Server :=
  match Decode body ≫= decode_login with
  | None => (Error invalid_json, s)
  | Some (user, password) =>
      if String.eqb user "" || String.eqb password ""
      then (Error (writeBadRequest (lit "username and password are required")), s)
      else
        let valid := existsb (fun key => String.eqb user key || String.eqb password key) keys || (len keys =? 0) in
        if negb valid then (Error writeUnauthorized, s)
        else
          let token := "jwt-" ++ uuid in
          let expires := now1 + 24 * Hour in
          (Answer 200 (token, expires), set_sessions (<[token := mkSession token user now2 expires]> (sessions s)) s)
  end.

Definition Logout (auth : string) (s : Server) : answer unit * Server :=
  let token := scan_bearer auth in
  if String.eqb token "" then (Error writeUnauthorized, s)
  else (Answer 200 tt, set_sessions (delete token (sessions s)) s).

Definition AuthMe (now : Z) (auth : string) (s : Server) : answer sessionRecord * Server :=
  let token := scan_bearer auth in
  if String.eqb token "" then (Error writeUnauthorized, s)
  else match sessions s !! token with
       | None => (Error writeUnauthorized, s)
       | Some session =>
           if time_after now (ExpiresAt session)
           then (Error writeUnauthorized, set_sessions (delete token (sessions s)) s)
           else (Answer 200 session, s)
       end.

Definition decode_createKey : json -> option (string * string * Z) :=
  strict ["name"; "user_id"; "expires_in_hours"] (fun l =>
    name ← member as_string "name" "" l; user ← member as_string "user_id" "" l; hours ← member as_int64 "expires_in_hours" 0 l;
    Some (name, user, hours)).
Definition CreateAPIKey (uuid1 uuid2 : string) (now1 now2 : Z) (body : string) (s : Server) : answer apiKeyRecord * Server :=
  match Decode body ≫= decode_createKey with
  | None => (Error invalid_json, s)
  | Some (name, user, hours) =>
      if String.eqb name "" then (Error (writeBadRequest (lit "name is required")), s)
      else
        let rawKey := "fwaf_" ++ uuid1 in
        let record := mkKey ("KEY-" ++ take_str 8 uuid2) name rawKey user now1
                        (if 0 <? hours then now2 + wrap64 (hours * Hour) else zero_time) in
        (Answer 201 record, set_keys (<[rawKey := record]> (apiKeys s)) s)
  end.

(** The first key of that id in the order of the map. *)
Definition RevokeAPIKey `{MapRange apiKeyRecord} (id : string) (s : Server) : answer unit * Server :=
  match List.find (fun p => String.eqb (k_ID (snd p)) id) (map_range (apiKeys s)) with
  | Some (key, _) => (Answer 200 tt, set_keys (delete key (apiKeys s)) s)
  | None => (Error (writeNotFound "API key not found"), s)
  end.

(** Whether [authMiddleware] passes the request on; otherwise it answers 401. *)
Definition authMiddleware (now : Z) (r : http_Request) (s : Server) : bool :=
  let apiKey := Get (Header r) "X-API-Key" in
  let authHeader := Get (Header r) "Authorization" in
  (negb (String.eqb apiKey "") && existsb (fun key => String.eqb key apiKey) (APIKeys s))
  || (let token := if String.eqb authHeader "" then "" else scan_bearer authHeader in
      negb (String.eqb token "")
      && match sessions s !! token with Some session => time_before now (ExpiresAt session) | None => false end)
  || DevMode s.

End handlers.
(** *** Who is let in *)

Section facts.
Context `{Unicode}.

(** A key that [CreateAPIKey] hands out opens nothing: whatever the request
    and its headers, the middleware decides as if the key had not been made,
    now and after its expiry. *)
Theorem created_api_key_opens_nothing uuid1 uuid2 now1 now2 body s record s' now r :
  CreateAPIKey uuid1 uuid2 now1 now2 body s = (Answer 201 record, s') ->
  apiKeys s' !! k_Key record = Some record /\ authMiddleware now r s' = authMiddleware now r s.
Proof.
  unfold CreateAPIKey. destruct (Decode body ≫= decode_createKey) as [[[name user] hours]|]; [|done].
  destruct (String.eqb name ""); [done|]. intros [= <- <-]. split; [apply lookup_insert_eq|done].
Qed.

Definition plain (s : string) : bool := sall (fun c => (33 <=? byte_of c) && (byte_of c <? 127)) s.

Lemma plain_cons c s : plain (String c s) = true <-> (33 <= byte_of c < 127) /\ plain s = true.
Proof. unfold plain. cbn [sall]. rewrite !andb_true_iff, Z.leb_le, Z.ltb_lt. tauto. Qed.

Lemma plain_ascii s : plain s = true -> is_ascii s = true.
Proof.
  induction s as [|c s IH]; [done|]. intros [Hc Hs]%plain_cons. unfold is_ascii in *. cbn [sall].
  rewrite (IH Hs), andb_true_r. apply Z.ltb_lt. lia.
Qed.

Lemma plain_runes s : plain s = true -> runes_of s = bytes_of s.
Proof. intros Hp. rewrite <- (sapp_nil_r s) at 1. rewrite runes_of_ascii_app by (by apply plain_ascii). by rewrite app_nil_r. Qed.

Lemma plain_word s : plain s = true -> of_runes (word (bytes_of s)) = s.
Proof.
  unfold of_runes. intros Hp. rewrite <- (of_bytes_of s) at 2. f_equal.
  induction s as [|c s IH]; [done|]. apply plain_cons in Hp as [Hc Hs]. cbn [bytes_of word].
  assert (is_space (byte_of c) = false) as -> by (unfold is_space; lia).
  cbn [flat_map]. rewrite IH by done. unfold encode_rune. by rewrite (proj2 (Z.leb_le 0 (byte_of c))), (proj2 (Z.ltb_lt (byte_of c) 128)) by lia.
Qed.

Lemma scan_bearer_plain s : plain s = true -> s <> "" -> scan_bearer ("Bearer " ++ s) = s.
Proof.
  intros Hp Hne. unfold scan_bearer. change (HasPrefix ("Bearer " ++ s) "Bearer") with true.
  change (drop_str 6 ("Bearer " ++ s)) with (String " " s).
  rewrite runes_of_ascii_cons, plain_runes by done. change (is_space (byte_of " ") && negb (byte_of " " =? 10)) with true.
  assert (skip_spaces (bytes_of s) = Some (bytes_of s)) as ->; [|by apply plain_word].
  destruct s as [|c s]; [done|]. apply plain_cons in Hp as [Hc _]. cbn [bytes_of].
  assert (is_space (byte_of c) = false) as E by (unfold is_space; lia).
  revert E Hc. generalize (byte_of c). intros r E Hr. destruct r as [|p|p]; [lia| |lia].
  do 4 (destruct p as [p|p|]; try lia); cbn -[is_space]; by rewrite E.
Qed.

(** A session is good for exactly a day from its login: a request with its
    token and without a key passes before the expiry and not from the expiry
    on, on any server that still has the session, also after the key that
    opened it has been taken out of the configuration; logging out ends it. *)
Theorem session_lasts_a_day keys uuid now1 now2 body s token expires s' s2 now r :
  Login keys uuid now1 now2 body s = (Answer 200 (token, expires), s') -> plain uuid = true ->
  sessions s2 !! token = sessions s' !! token -> DevMode s2 = false ->
  Get (Header r) "X-API-Key" = "" -> Get (Header r) "Authorization" = "Bearer " ++ token ->
  authMiddleware now r s2 = (now <? now1 + 24 * Hour)
  /\ authMiddleware now r (snd (Logout ("Bearer " ++ token) s2)) = false.
Proof.
  intros Hl Hu Hs2 Hdev Hk Ha. unfold Login in Hl.
  destruct (Decode body ≫= decode_login) as [[user password]|]; [|done]. destruct (_ || _); [done|].
  destruct (negb _); [done|]. injection Hl as <- _ <-. cbn [sessions set_sessions] in Hs2. rewrite lookup_insert_eq in Hs2.
  assert (scan_bearer ("Bearer " ++ ("jwt-" ++ uuid)) = "jwt-" ++ uuid) as Hscan by (by apply scan_bearer_plain).
  unfold authMiddleware, Logout. rewrite Hk, Ha, Hscan. rewrite String.eqb_refl.
  change (String.eqb ("Bearer " ++ "jwt-" ++ uuid) "") with false. change (String.eqb ("jwt-" ++ uuid) "") with false.
  cbn [snd set_sessions sessions DevMode APIKeys negb andb orb]. rewrite Hs2, lookup_delete_eq, Hdev, !orb_false_r. done.
Qed.

End facts.

#[local] Existing Instance unicode_ascii.

Definition empty_server : Server := mkServer ["k1"] false ∅ ∅.
Definition request (h : list (string * string)) : http_Request :=
  mkRequest (list_to_map (map (fun p => (fst p, [snd p])) h)) "GET" "/" "" "" "HTTP/1.1" 0 [] ∅ None.
Definition key_body : string := object [("name", quoted "ci")].
Definition login_body : string := object [("username", quoted "admin"); ("password", quoted "k1")].

Lemma created_api_key_opens_nothing_witness :
  authMiddleware 5 (request [("X-Api-Key", "fwaf_u1")]) (snd (CreateAPIKey "u1" "u2345678" 0 0 key_body empty_server)) = false.
Proof.
  destruct (CreateAPIKey "u1" "u2345678" 0 0 key_body empty_server) as [[status record|e] s'] eqn:E;
    [|exfalso; vm_compute in E; discriminate].
  assert (status = 201) as -> by (apply (f_equal (fun p => answer_status (fst p))) in E; exact (eq_sym E)).
  refine (eq_trans (proj2 (created_api_key_opens_nothing "u1" "u2345678" 0 0 key_body empty_server record s' 5
    (request [("X-Api-Key", "fwaf_u1")]) E)) _). vm_compute. reflexivity.
Defined.

Lemma session_lasts_a_day_witness :
  authMiddleware (24 * Hour - 1) (request [("Authorization", "Bearer jwt-u1")])
    (mkServer ["k2"] false ∅ (sessions (snd (Login ["k1"] "u1" 0 0 login_body empty_server)))) = true.
Proof.
  refine (eq_trans (proj1 (session_lasts_a_day ["k1"] "u1" 0 0 login_body empty_server "jwt-u1" (24 * Hour)
    (snd (Login ["k1"] "u1" 0 0 login_body empty_server)) _ (24 * Hour - 1) _ _ _ _ _ _ _)) _).
  - refine (eq_trans (surjective_pairing _) _). apply (f_equal (fun a => (a, _))). vm_compute. reflexivity.
  - done.
  - done.
  - done.
  - vm_compute. reflexivity.
  - vm_compute. reflexivity.
  - done.
Defined.

End Access.
