(* ===== verification/Analytics.v ===== *)
(** * The rankings of the control API: [internal/api/handlers.go]

    [TopEndpoints] and [TopIPs] count the entries of a window in a map, range over
    it in an unspecified order, sort with two loops that exchange elements, and
    cut the result. The definitions are in [ApiStore.Logs]; here are the sort's
    specification, shared by both, and what the rankings are. *)

From S2P Require Import Prelude GoStr.
From S2P Require ApiStore.
From stdpp Require Import sorting.
Import ApiStore.Logs.

#[local] Open Scope string_scope.
#[local] Open Scope Z_scope.

(** ** The exchange sort *)

Section sort.
Context {A : Type} (key : A -> Z).
Definition by_key (a b : A) : bool := key b <? key a.
Definition descending (a b : A) : Prop := key b <= key a.

Lemma exchange_perm rest : forall x before m r, exchange by_key x before rest = (m, r) -> m :: r ≡ₚ x :: before ++ rest.
Proof.
  induction rest as [|y rest IH]; intros x before m r; cbn [exchange].
  - intros [= <- <-]. by rewrite app_nil_r, reverse_Permutation.
  - destruct (by_key y x); intros He; rewrite (IH _ _ _ _ He); cbn; [|by rewrite Permutation_middle].
    rewrite <- Permutation_middle. by rewrite Permutation_swap.
Qed.

Lemma exchange_max rest : forall x before m r,
  Forall (descending x) before -> exchange by_key x before rest = (m, r) -> Forall (descending m) r.
Proof.
  induction rest as [|y rest IH]; intros x before m r Hb; cbn [exchange].
  - intros [= <- <-]. by apply Forall_reverse.
  - unfold by_key at 1. destruct (Z.ltb_spec (key x) (key y)); apply IH.
    + constructor; [unfold descending; lia|]. eapply Forall_impl; [exact Hb|]. unfold descending. lia.
    + constructor; [unfold descending; lia|done].
Qed.

Lemma exchange_sort_spec fuel : forall l, (length l <= fuel)%nat ->
  exchange_sort fuel by_key l ≡ₚ l /\ StronglySorted descending (exchange_sort fuel by_key l).
Proof.
  induction fuel as [|fuel IH]; intros [|x rest] Hl; cbn in Hl |- *; try (by split; constructor); [lia|].
  destruct (exchange by_key x [] rest) as [m r] eqn:He. pose proof (exchange_perm _ _ _ _ _ He) as Hp.
  pose proof (exchange_max _ _ [] _ _ (Forall_nil_2 _) He) as Hm.
  destruct (IH r) as [Hr Hs]; [apply Permutation_length in Hp; cbn in Hp; lia|]. split; [by rewrite Hr, Hp|].
  constructor; [done|]. by rewrite Hr.
Qed.

(** Whatever the order of the list, the loops sort it. *)
Lemma sort_by_spec l : sort_by by_key l ≡ₚ l /\ StronglySorted descending (sort_by by_key l).
Proof. by apply exchange_sort_spec. Qed.

Lemma sorted_take n l a b : StronglySorted descending l -> a ∈ take n l -> b ∈ drop n l -> descending a b.
Proof.
  intros Hs Ha Hb. rewrite <- (take_drop n l) in Hs. by apply (StronglySorted_app_1_elem_of _ _ _ a b Hs).
Qed.

Lemma sorted_prefix n l : StronglySorted descending l -> StronglySorted descending (take n l).
Proof. intros Hs. rewrite <- (take_drop n l) in Hs. by eapply StronglySorted_app_1_l. Qed.

(** A ranking of the pairs of a map: sorted, its rows are rows of the map, each
    once, and no row that is left out beats one that is there. *)
Definition ranks (m : list A) (rows : list A) : Prop :=
  StronglySorted descending rows /\ exists rest, rows ++ rest ≡ₚ m /\ forall a b, a ∈ rows -> b ∈ rest -> descending a b.

Lemma top_ranks limit m m' :
  m' ≡ₚ m ->
  (top limit (sort_by by_key m') = Panics <-> limit < 0)
  /\ (forall rows, top limit (sort_by by_key m') = Returns rows ->
      ranks m rows /\ len rows = Z.min limit (len m)).
Proof.
  intros Hm. destruct (sort_by_spec m') as [Hp Hs]. apply (Permutation_trans Hp) in Hm as Hp'. clear Hp. rename Hp' into Hp.
  assert (len (sort_by by_key m') = len m) as Hlen by (unfold len; by rewrite Hp). unfold top, slice. rewrite Hlen.
  pose proof (len_nonneg m). destruct (Z.ltb_spec limit (len m)) as [Hl|Hl].
  - destruct (Z.leb_spec 0 limit); cbn [andb]; [|split; [|done]; by split; [intros _; lia|]].
    rewrite (proj2 (Z.leb_le limit (len m))) by lia. cbn [andb Z.leb Z.compare]. split; [split; [done|lia]|]. intros rows [= <-]. rewrite drop_0.
    split; [split; [by apply sorted_prefix|]|].
    + exists (drop (Z.to_nat limit) (sort_by by_key m')). rewrite take_drop. split; [done|]. intros a b. by apply sorted_take.
    + unfold len in *. rewrite length_take. lia.
  - split; [split; [done|lia]|]. intros rows [= <-]. split; [split; [done|]|lia].
    exists []. rewrite app_nil_r. split; [done|]. intros a b _ Hb. by apply elem_of_nil in Hb.
Qed.
End sort.

(** ** Rankings of a map *)

(** The rows are entries of the map, sorted by [f]; with fewer rows than the limit they are
    all entries, and no entry left out beats a row. *)
Definition ranking {V} (f : V -> Z) (limit : Z) (m : gmap string V) (rows : list (string * V)) : Prop :=
  StronglySorted (descending (fun row => f (snd row))) rows /\ NoDup rows.*1
  /\ (forall k v, (k, v) ∈ rows -> m !! k = Some v)
  /\ (forall k v, m !! k = Some v -> (k, v) ∈ rows \/ (len rows = limit /\ forall row, row ∈ rows -> f v <= f (snd row))).

Lemma map_ranking {V} `{MapRange V} (f : V -> Z) limit (m : gmap string V) :
  let result := top limit (sort_by (by_key (fun row => f (snd row))) (map_range m)) in
  (result = Panics <-> limit < 0) /\ forall rows, result = Returns rows -> ranking f limit m rows.
Proof.
  intros result. destruct (top_ranks (fun row => f (snd row)) limit (map_to_list m) (map_range m) (map_range_perm m)) as [Hpanic Hrows].
  split; [exact Hpanic|]. intros rows Hr. destruct (Hrows rows Hr) as [(Hs & rest & Hp & Hle) Hlen].
  assert (NoDup (rows ++ rest)%list.*1) as Hnd by (rewrite Hp; apply NoDup_fst_map_to_list). rewrite fmap_app in Hnd.
  split; [done|]. split; [by apply NoDup_app in Hnd as [? _]|]. split.
  - intros k v Hin. apply elem_of_map_to_list. rewrite <- Hp. apply elem_of_app. by left.
  - intros k v Hm. apply elem_of_map_to_list in Hm as Hin. rewrite <- Hp in Hin. apply elem_of_app in Hin as [?|Hin]; [by left|].
    right. split; [|by intros row Hrow; apply (Hle row (k, v))].
    assert (len rest <> 0) by (unfold len; destruct rest; [by apply elem_of_nil in Hin|cbn; lia]).
    assert (len (map_to_list m) = len rows + len rest) by (rewrite <- len_app; unfold len; by rewrite Hp). pose proof (len_nonneg rest). lia.
Qed.

(** ** Counting *)

Definition is_block (e : logEntry) : bool := String.eqb (Action e) "block".

Section counting.
Context (at_ : logEntry -> string).
Definition here (k : string) (e : logEntry) : bool := String.eqb (at_ e) k.
Definition total (k : string) (l : list logEntry) : Z := count_of (here k) l.
Definition blocks (k : string) (l : list logEntry) : Z := count_of (fun e => here k e && is_block e) l.

Lemma total_snoc k l e : total k (l ++ [e])%list = total k l + (if here k e then 1 else 0).
Proof. unfold total. by rewrite count_of_app, count_of_one. Qed.
Lemma blocks_snoc k l e : blocks k (l ++ [e])%list = blocks k l + (if here k e && is_block e then 1 else 0).
Proof. unfold blocks. by rewrite count_of_app, count_of_one. Qed.
Lemma blocks_total k l : 0 <= blocks k l <= total k l.
Proof.
  unfold blocks, total. induction l as [|e l IH]; [done|]. rewrite !count_of_cons. destruct (here k e), (is_block e); cbn; lia.
Qed.
Lemma total_pos k l : 0 < total k l <-> exists e, e ∈ l /\ at_ e = k.
Proof.
  unfold total. induction l as [|e l IH]; [split; [done|by intros (? & ?%elem_of_nil & _)]|].
  rewrite count_of_cons. pose proof (count_of_le (here k) l). unfold here at 1. destruct (String.eqb_spec (at_ e) k) as [Hk|Hk].
  - split; [intros _; exists e; split; [left|done]|lia].
  - rewrite Z.add_0_l, IH. split; intros (d & Hd & Hat); exists d; (split; [|done]); [by right|].
    apply elem_of_cons in Hd as [->|Hd]; [by contradict Hk|done].
Qed.
End counting.

Lemma total_le at_ k l : 0 <= total at_ k l <= len l.
Proof. apply count_of_le. Qed.

Definition endpoint_stats (l : list logEntry) : gmap string (Z * Z) := fold_left endpoint_step l ∅.

Lemma endpoint_stats_lookup l k : len l <= max64 ->
  endpoint_stats l !! k = if 0 <? total Path k l then Some (total Path k l, blocks Path k l) else None.
Proof.
  unfold endpoint_stats. revert k. induction l as [|e l IH] using rev_ind; intros k Hl; [cbn [fold_left]; by rewrite lookup_empty|].
  rewrite len_app, len_cons, len_nil in Hl. rewrite fold_left_app, total_snoc, blocks_snoc. cbn [fold_left]. unfold endpoint_step at 1.
  pose proof (total_le Path (Path e) l). pose proof (blocks_total Path (Path e) l). pose proof (total_le Path k l).
  destruct (default (0, 0) _) as [t b] eqn:Hd. rewrite IH in Hd by lia. unfold here. destruct (String.eqb_spec (Path e) k) as [<-|Hne].
  - rewrite lookup_insert_eq, (proj2 (Z.ltb_lt _ _)) by lia. cbn [andb]. unfold is_block, min64, max64 in *.
    destruct (Z.ltb_spec 0 (total Path (Path e) l)); cbn in Hd; injection Hd as <- <-;
      destruct (String.eqb (Action e) "block"); rewrite !incr_small by (unfold min64, max64; lia); do 2 f_equal; lia.
  - rewrite lookup_insert_ne, IH by (done || lia). cbn [andb]. by rewrite !Z.add_0_r.
Qed.

(** [C25] The ranking of paths. It panics exactly on a negative limit; otherwise it
    lists, sorted by their blocked requests, as many paths of the window as the limit
    allows, each once with its exact figures, and no path left out has more blocked
    requests than one that is listed - in whatever order the map is ranged over. *)
Theorem top_endpoints `{MapRange (Z * Z)} now query logStore :
  let l := recent now (Api.getQueryInt query "window" 60) logStore in
  let limit := Api.getQueryInt query "limit" 20 in
  len logStore <= max64 ->
  (TopEndpoints now query logStore = Panics <-> limit < 0)
  /\ forall rows, TopEndpoints now query logStore = Returns rows ->
       StronglySorted (descending (fun row => snd (snd row))) rows /\ NoDup rows.*1
       /\ (forall path t b, (path, (t, b)) ∈ rows -> 0 < t /\ t = total Path path l /\ b = blocks Path path l)
       /\ (forall e, e ∈ l -> Path e ∈ rows.*1 \/ (len rows = limit /\ forall row, row ∈ rows -> blocks Path (Path e) l <= snd (snd row))).
Proof.
  intros l limit Hlen. assert (len l <= max64) as Hl.
  { unfold l, recent, len in *. pose proof (length_filter (fun e => time_before (Timestamp e) (since now (Api.getQueryInt query "window" 60)) = false) logStore). lia. }
  destruct (map_ranking snd limit (endpoint_stats l)) as [Hp Hr]. split; [exact Hp|]. intros rows Hrows.
  destruct (Hr rows Hrows) as (Hs & Hnd & Hin & Hall). split_and!; [done..| |].
  - intros path t b Hrow. apply Hin in Hrow. rewrite endpoint_stats_lookup in Hrow by done.
    destruct (Z.ltb_spec 0 (total Path path l)); [|done]. by injection Hrow as <- <-.
  - intros e He. assert (0 < total Path (Path e) l) as Ht by (apply total_pos; by exists e).
    destruct (Hall (Path e) (total Path (Path e) l, blocks Path (Path e) l)) as [Hrow|[Hn Hb]].
    + by rewrite endpoint_stats_lookup, (proj2 (Z.ltb_lt _ _)) by done.
    + left. apply list_elem_of_fmap. eexists. by split; [|exact Hrow].
    + by right.
Qed.

Definition ip_stats (l : list logEntry) : gmap string ipStat := fold_left ip_step l ∅.
Definition newest (k : string) (l : list logEntry) : Z :=
  fold_left (fun t e => if here IP k e && time_after (Timestamp e) t then Timestamp e else t) l zero_time.

(** What the map holds for an address. *)
Definition ip_row (k : string) (l : list logEntry) (s : ipStat) : Prop :=
  Total s = total IP k l /\ Blocked s = blocks IP k l /\ LastSeen s = newest k l
  /\ forall c, c ∈ Countries s <-> c <> "" /\ exists e, e ∈ l /\ IP e = k /\ Country e = c.

Lemma ip_stats_lookup l k : len l <= max64 ->
  match ip_stats l !! k with Some s => 0 < total IP k l /\ ip_row k l s | None => total IP k l = 0 end.
Proof.
  unfold ip_stats. revert k. induction l as [|e l IH] using rev_ind; intros k Hl; [cbn [fold_left]; by rewrite lookup_empty|].
  rewrite len_app, len_cons, len_nil in Hl. specialize (IH k). rewrite fold_left_app. cbn [fold_left]. unfold ip_step at 1.
  set (m := fold_left ip_step l ∅) in *. pose proof (total_le IP k l). pose proof (blocks_total IP k l).
  unfold ip_row, newest. rewrite total_snoc, blocks_snoc, fold_left_app. cbn [fold_left]. fold (newest k l).
  assert (Hex : forall c, (c <> "" /\ (exists d, d ∈ (l ++ [e])%list /\ IP d = k /\ Country d = c))
    <-> (c <> "" /\ exists d, d ∈ l /\ IP d = k /\ Country d = c) \/ (c <> "" /\ IP e = k /\ Country e = c)).
  { intros c. setoid_rewrite elem_of_app. setoid_rewrite list_elem_of_singleton. naive_solver. }
  unfold here at 1 2 3 4. destruct (String.eqb_spec (IP e) k) as [Hk|Hne]; cbn [andb].
  - subst k. rewrite lookup_insert_eq. split; [lia|]. destruct (m !! IP e) as [s|] eqn:Hm; cbn [default from_option id].
    + destruct IH as (Ht & -> & -> & -> & Hc); [lia|]. cbn [Total Blocked LastSeen Countries]. split_and!.
      * apply incr_small. unfold min64, max64 in *. lia.
      * unfold is_block. destruct (String.eqb (Action e) "block"); [apply incr_small; unfold min64, max64 in *|]; lia.
      * done.
      * intros c. rewrite (Hex c), <- Hc. destruct (String.eqb_spec (Country e) ""); set_solver.
    + assert (total IP (IP e) l = 0) as Ht by (apply IH; lia). rewrite Ht. cbn [Total Blocked LastSeen Countries].
      assert (blocks IP (IP e) l = 0) as -> by lia.
      assert (Hnone : forall d, d ∈ l -> IP d <> IP e) by (intros d Hd Hi; assert (0 < total IP (IP e) l) by (apply total_pos; by exists d); lia).
      split_and!; [done|by unfold is_block; destruct (String.eqb (Action e) "block")| |].
      * assert (newest (IP e) l = zero_time) as ->; [|done]. clear -Hnone. unfold newest. generalize zero_time. induction l as [|d l IH]; intros t; [done|].
        cbn [fold_left]. unfold here at 2. rewrite (proj2 (String.eqb_neq _ _)) by (apply Hnone; left). cbn [andb]. apply IH. intros d' Hd'. apply Hnone. by right.
      * intros c. rewrite (Hex c). destruct (String.eqb_spec (Country e) ""); set_solver.
  - rewrite lookup_insert_ne by done. rewrite !Z.add_0_r. destruct (m !! k) as [s|]; [|unfold here; rewrite (proj2 (String.eqb_neq _ _) Hne), Z.add_0_r; apply IH; lia].
    destruct IH as (Ht & ? & ? & ? & Hc); [lia|]. split_and!; try done. intros c. rewrite (Hex c), Hc. naive_solver.
Qed.

(** The ranking of addresses: as for paths, with the time an address was last
    seen and the countries it was seen in. *)
Theorem top_ips `{MapRange ipStat} now query logStore :
  let l := recent now (Api.getQueryInt query "window" 60) logStore in
  let limit := Api.getQueryInt query "limit" 20 in
  len logStore <= max64 ->
  (TopIPs now query logStore = Panics <-> limit < 0)
  /\ forall rows, TopIPs now query logStore = Returns rows ->
       StronglySorted (descending (fun row => Blocked (snd row))) rows /\ NoDup rows.*1
       /\ (forall ip s, (ip, s) ∈ rows -> 0 < Total s /\ ip_row ip l s)
       /\ (forall e, e ∈ l -> IP e ∈ rows.*1 \/ (len rows = limit /\ forall row, row ∈ rows -> blocks IP (IP e) l <= Blocked (snd row))).
Proof.
  intros l limit Hlen. assert (len l <= max64) as Hl.
  { unfold l, recent, len in *. pose proof (length_filter (fun e => time_before (Timestamp e) (since now (Api.getQueryInt query "window" 60)) = false) logStore). lia. }
  destruct (map_ranking Blocked limit (ip_stats l)) as [Hp Hr]. split; [exact Hp|]. intros rows Hrows.
  destruct (Hr rows Hrows) as (Hs & Hnd & Hin & Hall). split_and!; [done..| |].
  - intros ip s Hrow. apply Hin in Hrow. pose proof (ip_stats_lookup l ip Hl) as Hi. rewrite Hrow in Hi. destruct Hi as [Ht Hi].
    split; [|done]. destruct Hi as [-> _]. lia.
  - intros e He. assert (0 < total IP (IP e) l) as Ht by (apply total_pos; by exists e).
    pose proof (ip_stats_lookup l (IP e) Hl) as Hi. destruct (ip_stats l !! IP e) as [s|] eqn:Hm; [|lia].
    destruct (Hall (IP e) s Hm) as [Hrow|[Hn Hb]].
    + left. apply list_elem_of_fmap. eexists. by split; [|exact Hrow].
    + right. split; [done|]. destruct Hi as (_ & _ & <- & _). done.
Qed.

(** ** Witnesses *)

Definition on_path (path action : string) : logEntry := mkEntry 0 "" "shop" action "high" "" "" "10.0.0.1" "GET" path 403 1 "" "DE".
Definition day : list logEntry := [on_path "/a" "allow"; on_path "/b" "block"; on_path "/a" "allow"].

Lemma top_endpoints_witness : TopEndpoints 0 (params [("limit", "1")]) day = Panics <-> 1 < 0.
Proof. apply (top_endpoints 0 (params [("limit", "1")]) day). vm_compute. discriminate. Defined.
Example busiest : TopEndpoints 0 (params [("limit", "1")]) day = Returns [("/b", (1, 1))].
Proof. vm_compute. reflexivity. Qed.

Lemma top_ips_witness : TopIPs 0 (params [("limit", "-1")]) day = Panics <-> -1 < 0.
Proof. apply (top_ips 0 (params [("limit", "-1")]) day). vm_compute. discriminate. Defined.
