(* ===== verification/Tenant.v ===== *)
(** * Tenants: [internal/tenant]

    [tenant.go]: the manager. [isolation.go]: schemas, name spaces, access
    between tenants, the scope of API keys. [mssp.go]: metrics and bulk
    deployment. The manager's map holds pointers it shares with its callers;
    what a caller writes through them behind the manager's back is left out.
    The clock is an argument, and the decimal text of a reading. *)

From S2P Require Import Prelude Float64 GoStr Types.

#[local] Open Scope string_scope.
#[local] Open Scope Z_scope.

(** ** The manager *)

Record TenantSettings : Type := mkSettings {
  Timezone : string; Language : string; DateFormat : string; LogRetentionDays : Z; MaxLogAge : Z; SIEMExport : bool;
  TwoFactorAuth : bool; SessionTimeoutMins : Z
}.
Record Quotas_t : Type := mkQuotas {
  MaxSites : Z; MaxRules : Z; MaxUsers : Z; MaxAPIKeys : Z; MaxAPICallsPerDay : Z; MaxStorageGB : Z
}.
Record Branding_t : Type := mkBranding {
  ProductName : string; LogoURL : string; FaviconURL : string; PrimaryColor : string; SecondaryColor : string;
  DashboardDomain : string; CustomEmailFrom : string; SupportEmail : string; SupportURL : string; HidePoweredBy : bool;
  TermsURL : string; PrivacyURL : string
}.
Record Tenant : Type := mkTenant {
  ID : string; Name : string; Org : string; Status : string; Tier : string; Plan : string; CreatedAt : Z; UpdatedAt : Z;
  Settings : TenantSettings; Quotas : Quotas_t; Branding : Branding_t; ParentID : string; Tags : list string
}.

Definition TenantManager : Type := gmap string Tenant.
Definition NewTenantManager : TenantManager := ∅.

Definition stamp (id status : string) (created updated : Z) (t : Tenant) : Tenant :=
  mkTenant id (Name t) (Org t) status (Tier t) (Plan t) created updated (Settings t) (Quotas t) (Branding t) (ParentID t) (Tags t).

(** [now 0] names a tenant without an id; [itoa] is its decimal text. *)
Definition Create (itoa : Z -> string) (now : nat -> Z) (t : Tenant) (tm : TenantManager) : Tenant * TenantManager :=
  let id := if String.eqb (ID t) "" then "tenant-" ++ itoa (now 0%nat) else ID t in
  let t := stamp id "active" (now 1%nat) (now 2%nat) t in
  (t, <[id := t]> tm).

Definition Get (id : string) (tm : TenantManager) : result text Tenant :=
  match tm !! id with Some t => Ok t | None => Err (Sprintf "tenant not found: %s" [AStr id]) end.

Definition listed (parentID : string) (t : Tenant) : bool :=
  (String.eqb parentID "" && String.eqb (ParentID t) "") || String.eqb (ParentID t) parentID.
Definition List `{MapRange Tenant} (parentID : string) (tm : TenantManager) : list Tenant :=
  filter (fun t => listed parentID t = true) (snd <$> map_range tm).

Definition Update (now : Z) (t : Tenant) (tm : TenantManager) : option text * TenantManager :=
  match tm !! ID t with
  | None => (Some (Sprintf "tenant not found: %s" [AStr (ID t)]), tm)
  | Some _ => (None, <[ID t := stamp (ID t) (Status t) (CreatedAt t) now t]> tm)
  end.

Definition Delete (id : string) (tm : TenantManager) : option text * TenantManager :=
  match tm !! id with
  | None => (Some (Sprintf "tenant not found: %s" [AStr id]), tm)
  | Some _ => (None, delete id tm)
  end.

Definition Suspend (now : Z) (id : string) (tm : TenantManager) : option text * TenantManager :=
  match tm !! id with
  | Some t => (None, <[id := stamp (ID t) "suspended" (CreatedAt t) now t]> tm)
  | None => (Some (Sprintf "tenant not found: %s" [AStr id]), tm)
  end.

Definition over (what : string) (current max : Z) : option text :=
  if (max <=? current) && negb (max =? -1)
  then Some (Sprintf "%s quota exceeded: %d/%d" [AStr what; AInt current; AInt max]) else None.
Definition ValidateQuota (tenantID resource : string) (current limit : Z) (tm : TenantManager) : option text :=
  match tm !! tenantID with
  | None => Some (lit "tenant not found")
  | Some t =>
      if String.eqb resource "sites" then over "site" current (MaxSites (Quotas t))
      else if String.eqb resource "rules" then over "rule" current (MaxRules (Quotas t))
      else if String.eqb resource "users" then over "user" current (MaxUsers (Quotas t))
      else None
  end.

Definition GetBranding (tenantID : string) (tm : TenantManager) : option Branding_t := Branding <$> (tm !! tenantID).

(** ** Isolation *)

(** [result.WriteRune] of each rune, or an underscore. *)
Definition legal_rune (c : Z) : bool :=
  (97 <=? c) && (c <=? 122) || (65 <=? c) && (c <=? 90) || (48 <=? c) && (c <=? 57) || (c =? 95).
Definition sanitizeIdentifier (id : string) : string :=
  of_runes (map (fun c => if legal_rune c then c else 95) (runes_of id)).

Definition GetPostgresSchema (tenantID : string) : string := "tenant_" ++ sanitizeIdentifier tenantID.
Definition GetRedisNamespace (tenantID : string) : string := "tenant:" ++ tenantID ++ ":".
Definition GetS3Bucket (tenantID : string) : string := "fortresswaf-logs-" ++ tenantID.

Definition ValidateTenantAccess (requestingTenantID resourceTenantID : string) (tm : TenantManager) : option text :=
  if String.eqb requestingTenantID resourceTenantID then None
  else match Get requestingTenantID tm with
       | Err e => Some e
       | Ok req =>
           let denied := Some (Sprintf "access denied: tenant %s cannot access tenant %s resources"
                                 [AStr requestingTenantID; AStr resourceTenantID]) in
           if String.eqb (Tier req) "enterprise" && negb (String.eqb (ProductName (Branding req)) "FortressWAF")
           then match Get resourceTenantID tm with
                | Err e => Some e
                | Ok res => if String.eqb (ParentID res) requestingTenantID then None else denied
                end
           else denied
       end.

Definition BuildScopedQuery (tenantID baseQuery : string) : string :=
  "SET search_path TO " ++ GetPostgresSchema tenantID ++ "; " ++ baseQuery.

Definition GetAPIKeyScope (apiKey : string) : result text string :=
  match Split apiKey "-" with
  | p0 :: p1 :: _ => if String.eqb p0 "fw" then Ok p1 else Err (lit "invalid API key format")
  | _ => Err (lit "invalid API key format")
  end.

(** ** Partners *)

Record PartnerMetrics : Type := mkMetrics { TotalTenants : Z; ActiveTenants : Z; SuspendedTenants : Z }.

(** The remaining figures stay zero. *)
Definition GetPartnerMetrics `{MapRange Tenant} (partnerID : string) (tm : TenantManager) : PartnerMetrics :=
  let children := List partnerID tm in
  mkMetrics (len children) (count_of (fun t => String.eqb (Status t) "active") children)
    (count_of (fun t => String.eqb (Status t) "suspended") children).

Record BulkRuleDeploy : Type := mkDeploy { RuleID : string; TenantIDs : list string; Action : string }.

(** The result is all there is: nothing is deployed. *)
Definition BulkDeployRule (deploy : BulkRuleDeploy) (tm : TenantManager) : gmap string (option text) :=
  fold_left (fun m id => <[id := ValidateQuota id "rules" 0 1 tm]> m) (TenantIDs deploy) ∅.

(** ** Lemmas *)

(** *** What PostgreSQL makes of a schema's name *)

(** An identifier that needs no quoting: ASCII letters, digits and underscores,
    the first not a digit. *)
Definition letters : string := "abcdefghijklmnopqrstuvwxyzABCDEFGHIJKLMNOPQRSTUVWXYZ_".
Definition digits : string := "0123456789".
Definition one_of (alphabet : string) (b : Z) : bool := existsb (Z.eqb b) (bytes_of alphabet).
Definition plain_identifier (s : string) : bool :=
  match bytes_of s with
  | [] => false
  | b :: rest => one_of letters b && forallb (one_of (letters ++ digits)) rest
  end.

(** The server folds an unquoted identifier to lower case and cuts it after 63
    bytes. *)
Definition lower_byte (b : Z) : Z := if (65 <=? b) && (b <=? 90) then b + 32 else b.
Definition folded (s : string) : string := of_bytes (take 63 (map lower_byte (bytes_of s))).
Class Postgres : Type := {
  schema_named : string -> string;
  schema_named_plain : forall s, plain_identifier s = true -> schema_named s = folded s
}.

(** What is left of a character of an id in the name of a schema. *)
Definition fold_rune (c : Z) : Z :=
  if (65 <=? c) && (c <=? 90) then c + 32
  else if (97 <=? c) && (c <=? 122) || (48 <=? c) && (c <=? 57) then c
  else 95.

(** What sanitising keeps of an id: each rune's own value when it is legal. *)
Definition rune_class (c : Z) : Z := if legal_rune c then c else 95.

Lemma legal_rune_class c : legal_rune (rune_class c) = true.
Proof. unfold rune_class. by destruct (legal_rune c) eqn:E. Qed.
Lemma legal_rune_ascii c : legal_rune c = true -> 48 <= c <= 122.
Proof. unfold legal_rune. rewrite !orb_true_iff, !andb_true_iff, !Z.leb_le, Z.eqb_eq. lia. Qed.

Lemma legal_encode c : legal_rune c = true -> encode_rune c = [c].
Proof.
  intros Hc%legal_rune_ascii. unfold encode_rune.
  by rewrite (proj2 (Z.leb_le 0 c)), (proj2 (Z.ltb_lt c 128)) by lia.
Qed.

Lemma flat_map_classes l : flat_map encode_rune (map rune_class l) = map rune_class l.
Proof. induction l as [|c l IH]; [done|]. cbn [map flat_map]. by rewrite IH, legal_encode by apply legal_rune_class. Qed.

Lemma bytes_of_of l : Forall (fun b => 0 <= b < 256) l -> bytes_of (of_bytes l) = l.
Proof. induction 1 as [|b l Hb Hl IH]; [done|]. cbn [of_bytes bytes_of]. by rewrite IH, byte_of_chr. Qed.

Lemma sanitize_bytes id : bytes_of (sanitizeIdentifier id) = map rune_class (runes_of id).
Proof.
  unfold sanitizeIdentifier, of_runes. change (map (fun c => if legal_rune c then c else 95)) with (map rune_class).
  rewrite flat_map_classes. apply bytes_of_of. apply Forall_forall. intros c (x & <- & _)%list_elem_of_In%in_map_iff.
  pose proof (legal_rune_ascii _ (legal_rune_class x)). lia.
Qed.

Lemma sall_bytes f s : sall (fun c => f (byte_of c)) s = forallb f (bytes_of s).
Proof. induction s as [|c s IH]; [done|]. cbn [sall bytes_of forallb]. by rewrite IH. Qed.

Lemma length_bytes s : length (bytes_of s) = String.length s.
Proof. induction s as [|c s IH]; [done|]. cbn. by rewrite IH. Qed.

Lemma legal_plain c : legal_rune c = true -> one_of (letters ++ digits) c = true.
Proof.
  intros Hl. pose proof (legal_rune_ascii c Hl) as Hc.
  assert (forallb (fun z => negb (legal_rune z) || one_of (letters ++ digits) z) (seqZ 48 75) = true) as Hall by by vm_compute.
  rewrite forallb_forall in Hall. specialize (Hall c). rewrite Hl in Hall. apply Hall, list_elem_of_In, elem_of_seqZ. lia.
Qed.

Lemma fold_rune_class c : lower_byte (rune_class c) = fold_rune c.
Proof.
  unfold lower_byte, rune_class, fold_rune, legal_rune.
  repeat case_match; b2p; repeat match goal with H : _ || _ = _ |- _ => apply orb_true_iff in H as [] || apply orb_false_iff in H as [] end;
    b2p; lia.
Qed.

Lemma schema_bytes id : bytes_of (GetPostgresSchema id) = (bytes_of "tenant_" ++ map rune_class (runes_of id))%list.
Proof. unfold GetPostgresSchema. by rewrite bytes_of_app, sanitize_bytes. Qed.

Lemma folded_bytes id :
  bytes_of (folded (GetPostgresSchema id)) = (bytes_of "tenant_" ++ take 56 (map fold_rune (runes_of id)))%list.
Proof.
  assert (Forall (fun b => 0 <= b < 256) (take 63 (map lower_byte (bytes_of (GetPostgresSchema id))))) as Hb.
  { apply Forall_take. apply Forall_forall. rewrite schema_bytes, map_app, map_map. intros b [Hb|Hb]%elem_of_app.
    - revert b Hb. apply Forall_forall. repeat constructor; done.
    - apply list_elem_of_In, in_map_iff in Hb as (x & <- & _). pose proof (legal_rune_ascii _ (legal_rune_class x)).
      unfold lower_byte. case_match; b2p; lia. }
  unfold folded. rewrite bytes_of_of by done. rewrite schema_bytes, map_app, map_map. cbn. do 7 f_equal.
  f_equal. apply map_ext. apply fold_rune_class.
Qed.

(** [C36] A tenant's schema is an SQL identifier that needs no quoting, whatever the
    id holds, so that the scoped query sets one schema and nothing else. PostgreSQL
    takes two tenants to the same schema exactly when the first 56 characters of
    their ids agree, letters being taken in lower case and every character that is
    no ASCII letter or digit as an underscore. *)
Theorem schema_is_identifier `{Postgres} id id' :
  plain_identifier (GetPostgresSchema id) = true
  /\ String.length (GetPostgresSchema id) = (7 + length (runes_of id))%nat
  /\ (schema_named (GetPostgresSchema id) = schema_named (GetPostgresSchema id') <->
      take 56 (map fold_rune (runes_of id)) = take 56 (map fold_rune (runes_of id'))).
Proof.
  assert (forall id, plain_identifier (GetPostgresSchema id) = true) as Hp.
  { intros i. unfold plain_identifier. rewrite schema_bytes. cbn [bytes_of app].
    apply andb_true_iff. split; [by vm_compute|].
    apply forallb_forall. intros b Hb. apply (legal_plain b).
    apply list_elem_of_In in Hb. rewrite !elem_of_cons in Hb. destruct Hb as [->|[->|[->|[->|[->|[->|Hb]]]]]]; try done.
    apply list_elem_of_In, in_map_iff in Hb as (x & <- & _). apply legal_rune_class. }
  split_and!; [done|by rewrite <- length_bytes, schema_bytes, length_app, length_map|].
  rewrite !schema_named_plain by done. split.
  - intros E. apply (f_equal bytes_of) in E. rewrite !folded_bytes in E. by apply app_inv_head in E.
  - intros E. rewrite <- (of_bytes_of (folded (GetPostgresSchema id))), <- (of_bytes_of (folded (GetPostgresSchema id'))).
    by rewrite !folded_bytes, E.
Qed.

(** The server as its documentation describes it. *)
#[local] Instance documented_postgres : Postgres := {| schema_named := folded; schema_named_plain := fun _ _ => eq_refl |}.
Lemma schema_is_identifier_witness : schema_named (GetPostgresSchema "ACME; drop") = schema_named (GetPostgresSchema "acme--DROP").
Proof. apply (proj2 (proj2 (schema_is_identifier "ACME; drop" "acme--DROP"))). vm_compute. reflexivity. Defined.

(** Two ids that differ in punctuation share a schema. *)
Example shared_schema : GetPostgresSchema "acme-eu" = GetPostgresSchema "acme.eu".
Proof. vm_compute. reflexivity. Qed.

Lemma split_dash a b acc :
  sall (fun c => negb (Ascii.eqb c "-")) a = true ->
  split_from 0 None acc (a ++ "-" ++ b) "-" = (String.rev acc ++ a) :: split_from 0 None "" b "-".
Proof.
  revert acc. induction a as [|c a IH]; intros acc Ha.
  - rewrite sapp_nil_r. cbn -[split_from]. cbn [split_from String.prefix]. destruct b; done.
  - cbn [sall] in Ha. apply andb_true_iff in Ha as [Hc Ha]. rewrite sapp_cons. cbn [split_from String.prefix].
    destruct (ascii_dec "-" c) as [<-|Hn]; [done|]. cbn [andb]. rewrite IH by done. by rewrite srev_cons, sapp_assoc.
Qed.

(** The scope of an API key "fw-<tenant>-<secret>" is the tenant only when
    its id has no hyphen; otherwise it is the part of the id before the first
    hyphen, so that all tenants with generated ids, "tenant-<number>", have the
    scope "tenant". *)
Theorem api_key_scope a b secret :
  sall (fun c => negb (Ascii.eqb c "-")) a = true ->
  GetAPIKeyScope ("fw-" ++ a ++ "-" ++ secret) = Ok a
  /\ GetAPIKeyScope ("fw-" ++ (a ++ "-" ++ b) ++ "-" ++ secret) = Ok a
  /\ (forall itoa now t tm, ID t = "" ->
      GetAPIKeyScope ("fw-" ++ ID (fst (Create itoa now t tm)) ++ "-" ++ secret) = Ok "tenant").
Proof.
  intros Ha.
  assert (forall a r, sall (fun c => negb (Ascii.eqb c "-")) a = true -> GetAPIKeyScope ("fw-" ++ a ++ "-" ++ r) = Ok a) as Hg.
  { clear a Ha. intros a r Ha. unfold GetAPIKeyScope, Split. change ("fw-" ++ a ++ "-" ++ r) with ("fw" ++ "-" ++ (a ++ "-" ++ r)).
    rewrite (split_dash "fw") by done. by rewrite split_dash. }
  split_and!; [by apply Hg|rewrite sapp_assoc, (sapp_assoc "-"); by apply Hg|].
  intros itoa now t tm Ht. unfold Create. rewrite Ht. cbn [String.eqb fst ID stamp].
  change ("tenant-" ++ itoa (now 0%nat)) with ("tenant" ++ "-" ++ itoa (now 0%nat)).
  rewrite sapp_assoc, (sapp_assoc "-"). by apply Hg.
Qed.

Lemma api_key_scope_witness : GetAPIKeyScope "fw-tenant-17-secret" = Ok "tenant".
Proof. exact (proj1 (proj2 (api_key_scope "tenant" "17" "secret" eq_refl))). Defined.

(** A tenant may use its own resources, and those of a tenant it is the
    parent of when it is of the enterprise tier with a product name of its own;
    nothing else. Suspending a tenant changes neither its access nor its
    quotas. *)
Theorem access_between_tenants a b tm :
  (ValidateTenantAccess a b tm = None <->
   a = b \/ exists ta tb, tm !! a = Some ta /\ tm !! b = Some tb /\ Tier ta = "enterprise"
                          /\ ProductName (Branding ta) <> "FortressWAF" /\ ParentID tb = a)
  /\ (forall now id resource current limit,
      ValidateTenantAccess a b (snd (Suspend now id tm)) = ValidateTenantAccess a b tm
      /\ ValidateQuota a resource current limit (snd (Suspend now id tm)) = ValidateQuota a resource current limit tm).
Proof.
  split.
  - unfold ValidateTenantAccess, Get. destruct (String.eqb_spec a b) as [->|Hab]; [split; [by left|done]|].
    destruct (tm !! a) as [ta|]; [|split; [done|]; naive_solver].
    destruct (String.eqb_spec (Tier ta) "enterprise") as [Ht|Ht]; cbn [andb]; [|split; [done|]; naive_solver].
    destruct (String.eqb_spec (ProductName (Branding ta)) "FortressWAF") as [Hp|Hp]; cbn [negb]; [split; [done|]; naive_solver|].
    destruct (tm !! b) as [tb|]; [|split; [done|]; naive_solver].
    destruct (String.eqb_spec (ParentID tb) a); split; try done; naive_solver.
  - intros now id resource current limit. unfold Suspend. destruct (tm !! id) as [t|] eqn:E; [|done]. cbn [snd].
    unfold ValidateTenantAccess, ValidateQuota, Get.
    assert (forall k, <[id := stamp (ID t) "suspended" (CreatedAt t) now t]> tm !! k
                      = (if decide (k = id) then Some (stamp (ID t) "suspended" (CreatedAt t) now t) else tm !! k)) as Hl.
    { intros k. case_decide; [subst; apply lookup_insert_eq|by apply lookup_insert_ne]. }
    rewrite !Hl. split.
    + destruct (decide (a = id)) as [->|]; destruct (decide (b = id)) as [->|]; rewrite ?E; try done.
    + destruct (decide (a = id)) as [->|]; rewrite ?E; done.
Qed.
