(* ===== verification/Session.v ===== *)
(** * Sessions: [internal/session/session.go]

    The store with its indexes by user and by address. The store hands out
    pointers; a caller changes a session only through [Update] here. Random
    bytes and clock readings are arguments; the JSON form of a session is the
    class [SessionCodec]. *)

From S2P Require Import Prelude Float64 GoStr Crypto Json.

#[local] Open Scope string_scope.
#[local] Open Scope Z_scope.

Record sessionDecision : Type := mkDecision { RuleID : string; Action : string; d_Score : f64; Timestamp : Z }.
Record Session : Type := mkSession {
  ID : string; UserID : string; RealIP : string; UserAgent : string; Country : string; ASN : Z; CreatedAt : Z;
  LastSeen : Z; RequestCount : Z; RiskScore : f64; Tags : list string; Metadata : gmap string json; Blocked : bool;
  Decisions : list sessionDecision; Fingerprint : string
}.
Record Store : Type := mkStore {
  sessions : gmap string Session; byUser : gmap string string; byIP : gmap string (list string); ttl : Z
}.

(** [json.Marshal] and [json.Unmarshal] of the map of sessions, where null
    stands for a nil pointer, of a document that is not null itself (null would
    leave a nil map, and the next creation panic). *)
Class SessionCodec : Type := {
  marshal : gmap string Session -> option string;
  unmarshal : string -> option (gmap string (option Session))
}.

Definition NewStore (ttl : Z) : Store := mkStore ∅ ∅ ∅ ttl.

(** [rnd] are the sixteen bytes read. *)
Definition generateID (rnd : list Z) : string := hex rnd.

Definition ids (ip : string) (s : Store) : list string := default [] (byIP s !! ip).

Definition Create (rnd : list Z) (now1 now2 : Z) (ip userAgent : string) (s : Store) : Session * Store :=
  let id := generateID rnd in
  let x := mkSession id "" ip userAgent "" 0 now1 now2 0 f0 [] ∅ false [] "" in
  (x, mkStore (<[id := x]> (sessions s)) (byUser s) (<[ip := (ids ip s ++ [id])%list]> (byIP s)) (ttl s)).

Definition Get (id : string) (s : Store) : option Session := sessions s !! id.

Definition set_session (id : string) (x : Session) (s : Store) : Store :=
  mkStore (<[id := x]> (sessions s)) (byUser s) (byIP s) (ttl s).
Definition seen (now count : Z) (x : Session) : Session :=
  mkSession (ID x) (UserID x) (RealIP x) (UserAgent x) (Country x) (ASN x) (CreatedAt x) now count (RiskScore x)
    (Tags x) (Metadata x) (Blocked x) (Decisions x) (Fingerprint x).
Definition updateLastSeen (now : Z) (x : Session) : Session := seen now (incr (RequestCount x)) x.

Definition GetOrCreate (rnd : list Z) (now1 now2 : Z) (id ip userAgent : string) (s : Store) : Session * Store :=
  match (if String.eqb id "" then None else Get id s) with
  | Some x => let x := updateLastSeen now1 x in (x, set_session id x s)
  | None => Create rnd now1 now2 ip userAgent s
  end.

Definition Update (now : Z) (id : string) (fn : Session -> Session) (s : Store) : Store :=
  match sessions s !! id with
  | None => s
  | Some x => let x := fn x in set_session id (seen now (RequestCount x) x) s
  end.

(** What [Delete] and the cleanup do to the session of an id. *)
Definition remove (id : string) (x : Session) (s : Store) : Store :=
  let byUser' := if bool_decide (byUser s !! UserID x = Some id) then delete (UserID x) (byUser s) else byUser s in
  let byIP' := match byIP s !! RealIP x with
               | None => byIP s
               | Some l =>
                   let filtered := filter (fun sid => sid <> id) l in
                   match filtered with [] => delete (RealIP x) (byIP s) | _ => <[RealIP x := filtered]> (byIP s) end
               end in
  mkStore (delete id (sessions s)) byUser' byIP' (ttl s).
Definition Delete (id : string) (s : Store) : Store :=
  match sessions s !! id with Some x => remove id x s | None => s end.

Definition GetByUser (userID : string) (s : Store) : option Session :=
  id ← byUser s !! userID; sessions s !! id.
Definition GetByIP (ip : string) (s : Store) : list Session := omap (fun id => sessions s !! id) (ids ip s).

Definition add_risk (now : Z) (score : f64) (ruleID action : string) (x : Session) : Session :=
  let risk := fadd (RiskScore x) score in
  mkSession (ID x) (UserID x) (RealIP x) (UserAgent x) (Country x) (ASN x) (CreatedAt x) (LastSeen x) (RequestCount x)
    (if fgt risk (of_int 100) then of_int 100 else risk) (Tags x) (Metadata x) (Blocked x)
    (Decisions x ++ [mkDecision ruleID action score now])%list (Fingerprint x).
Definition AddRiskScore (now : Z) (id : string) (score : f64) (ruleID action : string) (s : Store) : Store :=
  match sessions s !! id with None => s | Some x => set_session id (add_risk now score ruleID action x) s end.

Definition DetectSessionFixation (now : Z) (newSessionID oldSessionID : string) (s : Store) : bool :=
  if String.eqb oldSessionID "" || String.eqb newSessionID "" then false
  else match Get oldSessionID s with Some x => time_sub now (CreatedAt x) <? Minute | None => false end.

Section codec.
Context `{SessionCodec} `{MapRange (option Session)}.

Definition Serialize (s : Store) : option string := marshal (sessions s).

(** The loop over the decoded sessions, in the order of the map; a nil session
    panics. The indexes are added to, not made anew. *)
Fixpoint reindex (l : list (string * option Session)) (s : Store) : outcome Store :=
  match l with
  | [] => Returns s
  | (_, None) :: _ => Panics
  | (id, Some x) :: l =>
      reindex l (mkStore (sessions s) (if String.eqb (UserID x) "" then byUser s else <[UserID x := id]> (byUser s))
                   (<[RealIP x := (ids (RealIP x) s ++ [id])%list]> (byIP s)) (ttl s))
  end.
Definition Deserialize (data : string) (s : Store) : outcome (bool * Store) :=
  match unmarshal data with
  | None => Returns (false, s)
  | Some m =>
      let! s := reindex (map_range m) (mkStore (omap id m) (byUser s) (byIP s) (ttl s)) in Returns (true, s)
  end.
End codec.

(** One tick: the expired sessions, in the order of the map. *)
Definition expired (now : Z) (s : Store) (x : Session) : bool := ttl s <? time_sub now (LastSeen x).
Definition cleanup `{MapRange Session} (now : Z) (s : Store) : Store :=
  fold_left (fun s p => if expired now s (snd p) then remove (fst p) (snd p) s else s) (map_range (sessions s)) s.

Definition Count (s : Store) : Z := Z.of_nat (size (sessions s)).
Definition ActiveUsers (s : Store) : Z := Z.of_nat (size (byUser s)).

(** ** Histories *)

Section histories.
Context `{MapRange Session}.

(** [Update] with a function that keeps the address. *)
Inductive op : Type :=
| OCreate (rnd : list Z) (now1 now2 : Z) (ip ua : string)
| OGetOrCreate (rnd : list Z) (now1 now2 : Z) (id ip ua : string)
| OUpdate (now : Z) (id : string) (fn : Session -> Session)
| ODelete (id : string)
| ORisk (now : Z) (id : string) (score : f64) (rule action : string)
| OCleanup (now : Z).

Definition step (s : Store) (o : op) : Store :=
  match o with
  | OCreate rnd n1 n2 ip ua => snd (Create rnd n1 n2 ip ua s)
  | OGetOrCreate rnd n1 n2 id ip ua => snd (GetOrCreate rnd n1 n2 id ip ua s)
  | OUpdate now id fn => Update now id fn s
  | ODelete id => Delete id s
  | ORisk now id score rule action => AddRiskScore now id score rule action s
  | OCleanup now => cleanup now s
  end.
Definition run (ops : list op) (s : Store) : Store := fold_left step ops s.

(** The drawn ids are new and an update keeps the address. *)
Definition fair (s : Store) (o : op) : Prop :=
  match o with
  | OCreate rnd _ _ _ _ | OGetOrCreate rnd _ _ _ _ _ => sessions s !! generateID rnd = None
  | OUpdate _ _ fn => forall x, RealIP (fn x) = RealIP x
  | _ => True
  end.
Fixpoint fair_run (ops : list op) (s : Store) : Prop :=
  match ops with [] => True | o :: ops => fair s o /\ fair_run ops (step s o) end.

(** The index by address holds each session once, under its address, and
    nothing else; the index by user is empty. *)
Definition indexed (s : Store) : Prop :=
  (forall ip, NoDup (ids ip s))
  /\ (forall ip id, id ∈ ids ip s <-> exists x, sessions s !! id = Some x /\ RealIP x = ip)
  /\ byUser s = ∅.

Lemma indexed_new t : indexed (NewStore t).
Proof.
  unfold indexed, ids, NewStore. cbn. split_and!; [intros; constructor| |done]. intros ip id. rewrite lookup_empty. cbn.
  split; [by intros ?%elem_of_nil|]. intros (x & Hx & _). by rewrite lookup_empty in Hx.
Qed.

Lemma indexed_set id x y s :
  indexed s -> sessions s !! id = Some x -> RealIP y = RealIP x -> indexed (set_session id y s).
Proof.
  intros (Hn & Hi & Hu) Hx Hy. split_and!; [exact Hn| |done]. intros ip k. rewrite (Hi ip k). cbn [sessions set_session].
  destruct (decide (k = id)) as [->|Hne]; [rewrite lookup_insert_eq|by rewrite lookup_insert_ne].
  split; intros (z & Hz & Hip); simplify_eq; eauto.
Qed.

Lemma indexed_create rnd n1 n2 ip ua s :
  indexed s -> sessions s !! generateID rnd = None -> indexed (snd (Create rnd n1 n2 ip ua s)).
Proof.
  intros (Hn & Hi & Hu) Hf. unfold Create. cbn [snd]. set (x := mkSession _ _ _ _ _ _ _ _ _ _ _ _ _ _ _). set (id := generateID rnd) in *.
  assert (forall ip', ids ip' (mkStore (<[id := x]> (sessions s)) (byUser s) (<[ip := (ids ip s ++ [id])%list]> (byIP s)) (ttl s))
                      = if decide (ip' = ip) then (ids ip s ++ [id])%list else ids ip' s) as He.
  { intros ip'. unfold ids at 1. cbn [byIP]. case_decide; [subst; by rewrite lookup_insert_eq|by rewrite lookup_insert_ne]. }
  assert (forall ip', id ∉ ids ip' s) as Hnew. { intros ip' (y & Hy & _)%Hi. by rewrite Hf in Hy. }
  split_and!; [| |done].
  - intros ip'. rewrite He. case_decide; [|done]. subst. apply NoDup_app. split_and!; [done| |by apply NoDup_singleton].
    intros k Hk ->%list_elem_of_singleton. by apply (Hnew ip).
  - intros ip' k. rewrite He. cbn [sessions]. destruct (decide (k = id)) as [->|Hne].
    + rewrite lookup_insert_eq. case_decide as Hd; [subst|].
      * split; [intros _; by exists x|intros _]. apply elem_of_app. right. by apply list_elem_of_singleton.
      * split; [by intros ?%Hnew|]. intros (y & [= <-] & Hy). by rewrite <- Hy in Hd.
    + rewrite lookup_insert_ne by done. case_decide; [subst|]; [|apply Hi].
      rewrite elem_of_app, list_elem_of_singleton, Hi. naive_solver.
Qed.

Lemma filter_absent (id : string) (l : list string) : id ∉ l -> filter (fun k => k <> id) l = l.
Proof.
  induction l as [|k l IH]; [done|]. intros [Hk Hl]%not_elem_of_cons. rewrite filter_cons_True by done. by rewrite IH.
Qed.

Lemma indexed_remove id x s : indexed s -> sessions s !! id = Some x -> indexed (remove id x s).
Proof.
  intros (Hn & Hi & Hu) Hx.
  assert (forall ip, ids ip (remove id x s) = filter (fun k => k <> id) (ids ip s)) as He.
  { intros ip. unfold remove, ids. cbn [byIP]. destruct (decide (ip = RealIP x)) as [->|Hne].
    - destruct (byIP s !! RealIP x) as [l|] eqn:E; [|by rewrite E]. cbn [default].
      destruct (filter _ l) eqn:Ef; [by rewrite lookup_delete_eq|by rewrite lookup_insert_eq].
    - assert (filter (fun k => k <> id) (default [] (byIP s !! ip)) = default [] (byIP s !! ip)) as ->.
      { apply filter_absent. intros (y & Hy & <-)%Hi. by simplify_eq. }
      destruct (byIP s !! RealIP x) as [l|]; [|done].
      destruct (filter _ l); [by rewrite lookup_delete_ne|by rewrite lookup_insert_ne]. }
  split_and!.
  - intros ip. rewrite He. by apply NoDup_filter.
  - intros ip k. rewrite He, list_elem_of_filter, Hi. cbn [sessions remove]. split.
    + intros [Hk (y & Hy & Hip)]. exists y. by rewrite lookup_delete_ne.
    + intros (y & [Hk Hy]%lookup_delete_Some & Hip). split; [done|eauto].
  - cbn [byUser remove]. rewrite Hu. by rewrite bool_decide_false.
Qed.


(** Removing some of the sessions that are there. *)
Lemma indexed_cleanup now (l : list (string * Session)) s :
  indexed s -> NoDup (fst <$> l) -> Forall (fun p => sessions s !! fst p = Some (snd p)) l ->
  indexed (fold_left (fun s p => if expired now s (snd p) then remove (fst p) (snd p) s else s) l s).
Proof.
  revert s. induction l as [|[id x] l IH]; intros s Hs Hnd Hall; [done|]. cbn [fold_left].
  apply Forall_cons in Hall as [Hx Hall]. cbn [fst snd fmap list_fmap] in *. apply NoDup_cons in Hnd as [Hni Hnd].
  destruct (expired now s x); [|by apply IH]. apply IH; [by apply indexed_remove|done|].
  apply Forall_forall. intros [k y] Hk. rewrite Forall_forall in Hall. specialize (Hall _ Hk). cbn in *.
  rewrite lookup_delete_ne; [done|]. intros <-. apply Hni. apply list_elem_of_fmap. by exists (id, y).
Qed.

Lemma indexed_step s o : indexed s -> fair s o -> indexed (step s o).
Proof.
  intros Hs Hf. destruct o; cbn [step fair] in *.
  - by apply indexed_create.
  - unfold GetOrCreate. destruct (if String.eqb id "" then None else Get id s) as [x|] eqn:E; [|by apply indexed_create].
    destruct (String.eqb id ""); [done|]. by eapply indexed_set.
  - unfold Update. destruct (sessions s !! id) as [x|] eqn:E; [|done]. eapply indexed_set; [done|exact E|exact (Hf x)].
  - unfold Delete. destruct (sessions s !! id) as [x|] eqn:E; [|done]. by apply indexed_remove.
  - unfold AddRiskScore. destruct (sessions s !! id) as [x|] eqn:E; [|done]. by eapply indexed_set.
  - unfold cleanup. apply indexed_cleanup; [done| |].
    + rewrite map_range_perm. apply NoDup_fst_map_to_list.
    + apply Forall_forall. intros [k x] Hk. rewrite map_range_perm in Hk. by apply elem_of_map_to_list in Hk.
Qed.

Lemma indexed_run ops s : indexed s -> fair_run ops s -> indexed (run ops s).
Proof.
  revert s. induction ops as [|o ops IH]; intros s Hs Hf; [done|]. destruct Hf as [Hf Hr]. apply (IH (step s o)); [|done].
  by apply indexed_step.
Qed.

Lemma elem_of_GetByIP ip s x : x ∈ GetByIP ip s <-> exists id, id ∈ ids ip s /\ sessions s !! id = Some x.
Proof. unfold GetByIP. by rewrite list_elem_of_omap. Qed.

(** Through any history of creations, updates that keep the address,
    deletions, risk scores and cleanups, each new id being fresh, the index by
    address is exact: the sessions of an address are those stored with it, each
    once. The index by user stays empty, so that no session is ever found by its
    user and no user is counted as active, whatever user an update names. *)
Theorem session_indexes ops t :
  fair_run ops (NewStore t) ->
  let s := run ops (NewStore t) in
  (forall ip x, x ∈ GetByIP ip s <-> exists id, sessions s !! id = Some x /\ RealIP x = ip)
  /\ (forall ip, NoDup (ids ip s)) /\ (forall user, GetByUser user s = None) /\ ActiveUsers s = 0.
Proof.
  intros Hf s. destruct (indexed_run ops (NewStore t) (indexed_new t) Hf) as (Hn & Hi & Hu). fold s in Hn, Hi, Hu.
  split_and!.
  - intros ip x. rewrite elem_of_GetByIP. split.
    + intros (id & (y & Hy & Hip)%Hi & Hx). simplify_eq. eauto.
    + intros (id & Hx & Hip). exists id. split; [apply Hi; eauto|done].
  - exact Hn.
  - intros user. unfold GetByUser. by rewrite Hu, lookup_empty.
  - unfold ActiveUsers. by rewrite Hu, map_size_empty.
Qed.

End histories.

(** A user is named by an update and not found. *)
Definition named (x : Session) : Session :=
  mkSession (ID x) "alice" (RealIP x) (UserAgent x) (Country x) (ASN x) (CreatedAt x) (LastSeen x) (RequestCount x)
    (RiskScore x) (Tags x) (Metadata x) (Blocked x) (Decisions x) (Fingerprint x).
Definition example_history : list op := [OCreate [1] 0 0 "10.0.0.1" "ua"; OUpdate 1 "01" named; OCreate [2] 2 2 "10.0.0.1" "ua"; ODelete "02"].

Lemma session_indexes_witness : GetByUser "alice" (run example_history (NewStore Hour)) = None.
Proof.
  refine (proj1 (proj2 (proj2 (session_indexes example_history Hour _))) "alice").
  cbn [fair_run example_history fair]. split_and!; done.
Defined.
