(* ===== verification/Compliance.v ===== *)
(** * Compliance: [internal/compliance]

    [Audit]: the audit log ([audit.go]). [Assessment]: controls and their
    assessment ([engine.go], [pci.go], [gdpr.go], [soc2.go], [hipaa.go]); an
    assessment uses one reading of the clock. [Pii]: the masking of personal
    data ([pii.go]), whose patterns are ranged over in the order of their
    [MapRange] instance. *)

From S2P Require Import Prelude Float64 GoStr Crypto Encoding Regexp Types.

#[local] Open Scope string_scope.
#[local] Open Scope Z_scope.

(** ** The audit log *)

Module Audit.

Record AuditEntry : Type := mkEntry {
  ID : string; Timestamp : Z; ActorID : string; ActorType : string; ActorIP : string; Action : string; Resource : string;
  ResourceID : string; Result : string; Metadata : string; Hash : string; PrevHash : string
}.
Record AuditLog : Type := mkLog { entries : list AuditEntry; lastHash : string; immutable : bool }.
Definition NewAuditLog : AuditLog := mkLog [] "" true.

(** [format] is [Format(time.RFC3339Nano)]. *)
Definition entry_data (format : Z -> string) (e : AuditEntry) : string :=
  ID e ++ "|" ++ format (Timestamp e) ++ "|" ++ ActorID e ++ "|" ++ ActorType e ++ "|" ++ ActorIP e ++ "|" ++ Action e ++ "|"
  ++ Resource e ++ "|" ++ ResourceID e ++ "|" ++ Result e.

Definition stamped (id : string) (now : Z) (prev : string) (e : AuditEntry) : AuditEntry :=
  mkEntry id now (ActorID e) (ActorType e) (ActorIP e) (Action e) (Resource e) (ResourceID e) (Result e) (Metadata e) (Hash e) prev.
Definition hashed (h : string) (e : AuditEntry) : AuditEntry :=
  mkEntry (ID e) (Timestamp e) (ActorID e) (ActorType e) (ActorIP e) (Action e) (Resource e) (ResourceID e) (Result e)
    (Metadata e) h (PrevHash e).

Definition Append (format : Z -> string) (now : Z) (entry : AuditEntry) (al : AuditLog) : option text * AuditLog :=
  if immutable al then (Some (lit "audit log is immutable"), al)
  else
    let entry := stamped ("audit-" ++ Itoa (len (entries al) + 1)) now (lastHash al) entry in
    let h := sha256_hex (lastHash al ++ entry_data format entry) in
    let entry := hashed h entry in
    (None, mkLog (entries al ++ [entry]) h (immutable al)).

Record AuditFilter : Type := mkFilter { f_ActorID : string; f_Action : string; f_Resource : string; From : Z; To : Z }.

Definition selected (f : AuditFilter) (e : AuditEntry) : bool :=
  (String.eqb (f_ActorID f) "" || String.eqb (ActorID e) (f_ActorID f))
  && (String.eqb (f_Action f) "" || String.eqb (Action e) (f_Action f))
  && (String.eqb (f_Resource f) "" || String.eqb (Resource e) (f_Resource f))
  && negb (time_after (From f) (Timestamp e) || time_before (To f) (Timestamp e)).
Definition Query (f : AuditFilter) (al : AuditLog) : list AuditEntry := filter (fun e => selected f e = true) (entries al).

(** The loop with its index; [None] when the chain holds. *)
Fixpoint verify (i : Z) (prevHash : string) (l : list AuditEntry) : option text :=
  match l with
  | [] => None
  | e :: l =>
      if (i =? 0) && negb (String.eqb (PrevHash e) "")
      then Some (Sprintf "chain broken at entry %d: first entry has prev_hash" [AInt i])
      else if negb (String.eqb (PrevHash e) prevHash)
      then Some (Sprintf "chain broken at entry %d: expected %s, got %s" [AInt i; AStr prevHash; AStr (PrevHash e)])
      else verify (i + 1) (Hash e) l
  end.
Definition VerifyIntegrity (al : AuditLog) : bool * option text :=
  match verify 0 "" (entries al) with Some e => (false, Some e) | None => (true, None) end.

Definition append_all (format : Z -> string) (l : list (Z * AuditEntry)) (al : AuditLog) : AuditLog :=
  fold_left (fun al p => snd (Append format (fst p) (snd p) al)) l al.

(** The log the package makes is marked immutable and nothing unmarks it:
    every append is refused, so that it never holds an entry; and in any log, a
    query that sets no end of its period finds nothing younger than the zero
    time. *)
Theorem audit_log_stays_empty format l now e f al :
  let log := append_all format l NewAuditLog in
  log = NewAuditLog /\ fst (Append format now e log) = Some (lit "audit log is immutable") /\ Query f log = []
  /\ (To f = zero_time -> Forall (fun e => zero_time < Timestamp e) (entries al) -> Query f al = []).
Proof.
  assert (append_all format l NewAuditLog = NewAuditLog) as E by (induction l; [done|exact IHl]).
  cbn zeta. rewrite E. split_and!; [done..|]. intros Ht Hy. unfold Query. induction Hy as [|x k Hx _ IH]; [done|].
  rewrite filter_cons. case_decide as Hs; [|exact IH]. exfalso. unfold selected, time_before in Hs.
  rewrite Ht, (proj2 (Z.ltb_lt _ _) Hx), orb_true_r, andb_false_r in Hs. done.
Qed.

Lemma verify_links i prev l l' :
  (fun e => (PrevHash e, Hash e)) <$> l = (fun e => (PrevHash e, Hash e)) <$> l' -> verify i prev l = verify i prev l'.
Proof.
  revert i prev l'. induction l as [|e l IH]; intros i prev [|e' l'] E; try done. cbn in E.
  injection E as Ep Eh E. cbn [verify]. rewrite Ep, Eh. by rewrite (IH _ _ l').
Qed.

Lemma verify_app i prev l k :
  verify i prev (l ++ k) = match verify i prev l with
                           | Some e => Some e
                           | None => verify (i + len l) (match last l with Some e => Hash e | None => prev end) k
                           end.
Proof.
  revert i prev. induction l as [|e l IH]; intros i prev.
  - cbn [app verify last]. by rewrite len_nil, Z.add_0_r.
  - cbn [app verify]. destruct ((i =? 0) && _); [done|]. destruct (negb (String.eqb (PrevHash e) prev)); [done|]. rewrite IH, len_cons.
    destruct (verify (i + 1) (Hash e) l); [done|]. rewrite Z.add_assoc. f_equal.
    destruct l as [|x l]; [done|]. change (last (e :: x :: l)) with (last (x :: l)).
    destruct (last (x :: l)) eqn:El; [done|]. by apply last_None in El.
Qed.

(** The chain holds and ends in the last hash. *)
Definition chained (al : AuditLog) : Prop :=
  verify 0 "" (entries al) = None /\ lastHash al = match last (entries al) with Some e => Hash e | None => "" end.

Lemma chained_append format now e al : chained al -> chained (snd (Append format now e al)).
Proof.
  intros [Hv Hl]. unfold Append. destruct (immutable al); [done|]. cbn [snd]. unfold chained. cbn [entries lastHash].
  rewrite verify_app, Hv, last_snoc. split; [|done]. cbn [verify]. rewrite <- Hl. unfold hashed at 1 2 3. unfold stamped at 1 2 3. cbn [PrevHash Hash].
  rewrite String.eqb_refl, Z.add_0_l. cbn [negb]. destruct (Z.eqb_spec (len (entries al)) 0) as [E|]; [|done].
  apply len_zero_inv in E. rewrite E in Hl. rewrite Hl. done.
Qed.

(** [C35] What verification proves. In a log that may be written (one not made by
    the package's constructor) every history of appends verifies; but it looks at
    the links alone: a verified log still verifies after any rewriting of its
    entries that keeps their hashes, as if the hashes were of other text, and
    after the loss of its last entries. *)
Theorem verification_sees_links_only format l al edit n :
  chained al -> (forall e, PrevHash (edit e) = PrevHash e /\ Hash (edit e) = Hash e) ->
  let log := append_all format l al in
  VerifyIntegrity log = (true, None)
  /\ VerifyIntegrity (mkLog (edit <$> entries log) (lastHash log) (immutable log)) = (true, None)
  /\ VerifyIntegrity (mkLog (take n (entries log)) (lastHash log) (immutable log)) = (true, None).
Proof.
  intros Hc He log.
  assert (chained log) as [Hv _].
  { unfold log. clear He log n. revert al Hc. induction l as [|p l IH]; intros al Hc; [done|]. apply IH. by apply chained_append. }
  unfold VerifyIntegrity. cbn [entries]. split_and!.
  - by rewrite Hv.
  - rewrite (verify_links 0 "" (edit <$> entries log) (entries log)); [by rewrite Hv|]. rewrite <- list_fmap_compose.
    apply list_fmap_ext. intros i e _. unfold compose. by destruct (He e) as [-> ->].
  - rewrite <- (take_drop n (entries log)), verify_app in Hv. by destruct (verify 0 "" (take n (entries log))).
Qed.

Definition login_entry (actor : string) : AuditEntry := mkEntry "" 0 actor "user" "203.0.113.9" "login" "session" "1" "failure" "" "" "".
Definition forge (e : AuditEntry) : AuditEntry :=
  mkEntry (ID e) (Timestamp e) "mallory" (ActorType e) (ActorIP e) (Action e) (Resource e) (ResourceID e) "success" (Metadata e)
    (Hash e) (PrevHash e).

Lemma verification_sees_links_only_witness :
  let log := append_all Itoa [(1, login_entry "alice"); (2, login_entry "bob")] (mkLog [] "" false) in
  VerifyIntegrity (mkLog (forge <$> entries log) (lastHash log) (immutable log)) = (true, None).
Proof.
  refine (proj1 (proj2 (verification_sees_links_only Itoa [(1, login_entry "alice"); (2, login_entry "bob")] (mkLog [] "" false) forge 0 _ _))).
  - done.
  - done.
Defined.
Lemma audit_log_stays_empty_witness :
  Query (mkFilter "" "" "" 0 zero_time) (append_all Itoa [(1, login_entry "alice")] (mkLog [] "" false)) = [].
Proof.
  refine (proj2 (proj2 (proj2 (audit_log_stays_empty Itoa [] 0 (login_entry "alice") (mkFilter "" "" "" 0 zero_time) _))) eq_refl _).
  apply Forall_singleton. done.
Defined.

End Audit.

(** ** Controls and assessments *)

Module Assessment.

Definition FrameworkPCI : string := "pci-dss".
Definition FrameworkGDPR : string := "gdpr".
Definition FrameworkHIPAA : string := "hipaa".
Definition FrameworkSOC2 : string := "soc2".
Definition FrameworkISO27K : string := "iso-27001".

Record Evidence_t : Type := mkEvidence { Type_ : string; e_Description : string; CollectedAt : Z; Source : string; Data : string }.
Record Control : Type := mkControl {
  ID : string; Framework : string; Name : string; Description : string; Status : string; LastChecked : Z;
  Evidence : list Evidence_t; Remediation : string
}.
Record ComplianceConfig : Type := mkConfig {
  EnabledFrameworks : list string; LogRetentionDays : Z; PIIMasking : bool; DataResidency : string; AuditImmutable : bool;
  EncryptionAtRest : bool; EncryptionInTransit : bool; MFAEnforced : bool; SessionTimeoutMins : Z
}.
Record ComplianceEngine : Type := mkCompliance { controls : gmap string (list Control); config : ComplianceConfig }.

(** A control as the lists write it. *)
Definition control (framework : string) (c : string * string * string) : Control :=
  mkControl (fst (fst c)) framework (snd (fst c)) (snd c) "" zero_time [] "".

Definition getPCIControls : list Control :=
  control FrameworkPCI <$>
    [("PCI-6.3.3", "Security Vulnerabilities", "Protect against newly discovered vulnerabilities within 7 days");
     ("PCI-6.4", "WAF Deployment", "Ensure all public-facing web applications are protected by a WAF");
     ("PCI-6.5", "Injection Flaws", "Protect against injection flaws including SQLi");
     ("PCI-6.5.1", "SQLi Protection", "Block SQL injection attacks");
     ("PCI-6.5.2", "XSS Protection", "Block cross-site scripting attacks");
     ("PCI-6.5.3", "Authentication", "Broken authentication and session management");
     ("PCI-6.5.4", "IDOR Protection", "Protect against insecure direct object references");
     ("PCI-6.5.5", "CSRF Protection", "Protect against cross-site request forgery");
     ("PCI-6.5.6", "Session Timeout", "Inactive session timeout");
     ("PCI-6.5.7", "URL Redirects", "Protect against open redirects");
     ("PCI-6.5.8", "File Uploads", "Validate all uploaded files");
     ("PCI-6.5.9", "Encoding", "Protect against OS command injection");
     ("PCI-6.5.10", "Buffer Overflows", "Protect against buffer overflows");
     ("PCI-6.6", "App-layer Firewall", "Address all threats to public-facing web apps");
     ("PCI-8.2", "User Auth", "Authenticate all access to system components");
     ("PCI-8.3", "MFA", "Incorporate multi-factor authentication");
     ("PCI-10.1", "Audit Logging", "Implement audit trails for all system components");
     ("PCI-10.2", "User Identification", "All individual user access to cardholder data");
     ("PCI-10.3", "Audit Timing", "Record audit trail entries for all system components");
     ("PCI-10.4", "Time Synchronization", "Synchronize internal time clocks");
     ("PCI-10.5", "Log Retention", "Retain audit trail history for at least 1 year");
     ("PCI-10.6", "Log Review", "Review audit logs and security events daily");
     ("PCI-10.7", "Log Integrity", "Protect audit trail files from unauthorized modifications");
     ("PCI-32", "Data Retention", "Limit data storage amount and retention time");
     ("PCI-3.4", "Encryption at Rest", "Render PAN unreadable anywhere it is stored")].

Definition getGDPRControls : list Control :=
  control FrameworkGDPR <$>
    [("GDPR-Art5-1-C", "Purpose Limitation", "Data collected for specified, explicit purposes");
     ("GDPR-Art5-1-D", "Data Minimisation", "Data adequate, relevant, limited to what is necessary");
     ("GDPR-Art5-1-E", "Storage Limitation", "Data kept in identifiable form no longer than necessary");
     ("GDPR-Art5-1-F", "Integrity & Confidentiality", "Data processed securely using appropriate technical measures");
     ("GDPR-Art6-1", "Lawfulness", "Processing has lawful basis");
     ("GDPR-Art7-1", "Consent", "Consent is freely given, specific, informed, and unambiguous");
     ("GDPR-Art12", "Transparency", "Provide privacy notices in clear, plain language");
     ("GDPR-Art15", "Access", "Data subjects can access their personal data");
     ("GDPR-Art16", "Rectification", "Data subjects can rectify inaccurate personal data");
     ("GDPR-Art17", "Erasure", "Data subjects can request erasure of their data");
     ("GDPR-Art20", "Portability", "Data provided in structured, machine-readable format");
     ("GDPR-Art25", "Privacy by Design", "Data protection by design and by default");
     ("GDPR-Art28", "Processors", "Data Processing Agreements with all processors");
     ("GDPR-Art30-1", "ROPA", "Maintain records of processing activities");
     ("GDPR-Art32", "Security", "Implement appropriate technical and organisational measures");
     ("GDPR-Art32-1-C", "Encryption", "AES-256 encryption at rest, TLS 1.2+ in transit");
     ("GDPR-Art32-2", "Pseudonymisation", "Use pseudonymisation where appropriate");
     ("GDPR-Art33", "Breach Notification", "Notify supervisory authority within 72 hours of breach");
     ("GDPR-Art34", "Data Subject Notification", "Notify data subjects of high-risk breaches");
     ("GDPR-Art35", "DPIA", "Conduct Data Protection Impact Assessments");
     ("GDPR-Art36", "Consultation", "Consult supervisory authority before processing if required");
     ("GDPR-Art37", "DPO", "Designate Data Protection Officer if required")].

Definition getSOC2Controls : list Control :=
  control FrameworkSOC2 <$>
    [("SOC2-CC1.1", "Control Environment", "Entity demonstrates commitment to integrity and ethical values");
     ("SOC2-CC2.1", "Information & Communication", "Entity obtains relevant quality information");
     ("SOC2-CC2.2", "Internal Communication", "Entity internally communicates information including objectives and responsibilities");
     ("SOC2-CC3.1", "Risk Assessment", "Entity specifies objectives with sufficient clarity");
     ("SOC2-CC4.1", "Monitoring", "Entity selects and develops ongoing evaluations");
     ("SOC2-CC5.1", "Control Activities", "Entity selects and develops control activities");
     ("SOC2-CC5.2", "Technology Controls", "Entity deploys control activities through technology");
     ("SOC2-CC6.1", "Logical Access", "Logical access controls prevent unauthorized access");
     ("SOC2-CC6.2", "MFA", "Multi-factor authentication is implemented");
     ("SOC2-CC6.3", "Unique IDs", "New access requires unique user IDs");
     ("SOC2-CC6.4", "Access Removal", "Access is removed upon termination");
     ("SOC2-CC6.6", "Security Events", "Security events are logged and monitored");
     ("SOC2-CC7.1", "Vulnerability Management", "System vulnerabilities are identified and remediated");
     ("SOC2-CC7.2", "Security Monitoring", "System monitoring processes detect security events");
     ("SOC2-CC7.3", "Incident Response", "Security incidents are identified and responded to");
     ("SOC2-CC7.4", "Disaster Recovery", "Availability commitments and requirements are established");
     ("SOC2-CC8.1", "Change Management", "Changes are authorized, tested, and approved");
     ("SOC2-CC9.1", "Data Transmission", "Data transmitted to/from third parties is encrypted");
     ("SOC2-A1.1", "Availability", "Availability commitments and system requirements are established")].

Definition getHIPAAControls : list Control :=
  control FrameworkHIPAA <$>
    [("HIPAA-164.308(a)(1)", "Security Management Process", "Risk analysis and risk management implemented");
     ("HIPAA-164.308(a)(3)", "Workforce Security", "Implement access authorization and management");
     ("HIPAA-164.308(a)(4)", "Information Access", "Implement access authorization for ePHI");
     ("HIPAA-164.308(a)(5)", "Security Awareness", "Implement security awareness and training program");
     ("HIPAA-164.308(a)(6)", "Security Incident", "Implement security incident procedures");
     ("HIPAA-164.308(a)(7)", "Contingency", "Establish data backup and disaster recovery plans");
     ("HIPAA-164.310(a)", "Access Control", "Implement access control measures");
     ("HIPAA-164.310(b)", "Audit Controls", "Implement hardware, software, procedures for audit trails");
     ("HIPAA-164.310(c)", "Integrity Controls", "Implement electronic mechanisms to authenticate ePHI");
     ("HIPAA-164.310(d)", "Transmission Security", "Implement encryption and integrity controls for ePHI transmission");
     ("HIPAA-164.312(a)", "Technical Safeguards", "Implement technical policies for ePHI access");
     ("HIPAA-164.312(b)", "Audit Trail", "Record and examine activity in systems containing ePHI");
     ("HIPAA-164.312(c)", "Integrity", "Implement mechanisms to authenticate ePHI and protect from improper alteration");
     ("HIPAA-164.312(e)", "Transmission Security", "Implement encryption and access controls for ePHI transmission")].

Definition initControls : gmap string (list Control) :=
  <[FrameworkHIPAA := getHIPAAControls]> (<[FrameworkSOC2 := getSOC2Controls]>
    (<[FrameworkGDPR := getGDPRControls]> {[ FrameworkPCI := getPCIControls ]})).
Definition NewComplianceEngine (config : ComplianceConfig) : ComplianceEngine := mkCompliance initControls config.

Definition GetControls (framework : string) (ce : ComplianceEngine) : list Control := lookup_default [] (controls ce) framework.

Definition is_compliant (c : Control) : bool := String.eqb (Status c) "compliant".
Definition GetComplianceStatus (framework : string) (ce : ComplianceEngine) : Z * Z :=
  (count_of is_compliant (GetControls framework ce), len (GetControls framework ce)).

(** The evidence [checkControl] has for a control: type, description, source. *)
Definition built_in : list (string * (string * string * string)) :=
  [("PCI-6.3.3", ("configuration", "WAF signature rules updated within 7 days of new CVE publication", "fortresswaf:rules:update_check"));
   ("PCI-6.4", ("configuration", "WAF is active and in blocking mode for all cardholder data endpoints", "fortresswaf:config:active_sites"));
   ("PCI-10.1", ("audit_log", "All authentication attempts are logged with timestamp, username, and result", "fortresswaf:logs:auth"));
   ("PCI-10.2", ("audit_log", "Individual user identification is enforced via JWT + API keys", "fortresswaf:auth:jwt"));
   ("GDPR-Art30-1", ("data_mapping", "Records of processing activities maintained for all data categories", "fortresswaf:compliance:ropa"));
   ("GDPR-Art32", ("security", "AES-256-GCM encryption at rest, TLS 1.2+ in transit", "fortresswaf:config:encryption"));
   ("GDPR-Art33", ("incident", "72-hour breach notification procedure documented and tested", "fortresswaf:incident:procedure"));
   ("SOC2-CC6.1", ("access", "Logical access controls enforced via JWT with 15-min expiry", "fortresswaf:auth:jwt"));
   ("SOC2-CC7.2", ("monitoring", "System monitoring active with alerts for security events", "fortresswaf:monitoring:alerts"))].
Definition evidence_for (id : string) : option (string * string * string) :=
  snd <$> List.find (fun p => String.eqb (fst p) id) built_in.

Definition manual : string :=
  "Manual evidence collection required. Review control requirements and upload supporting documentation.".

(** [LastChecked], then [checkControl]. *)
Definition checkControl (now : Z) (c : Control) : Control :=
  match evidence_for (ID c) with
  | Some (ty, descr, src) =>
      mkControl (ID c) (Framework c) (Name c) (Description c) "compliant" now (Evidence c ++ [mkEvidence ty descr now src ""])%list
        (Remediation c)
  | None => mkControl (ID c) (Framework c) (Name c) (Description c) "evidence_needed" now (Evidence c) manual
  end.

Record AssessmentResult : Type := mkResult {
  r_Framework : string; AssessedAt : Z; CompliantCount : Z; TotalCount : Z; CompliancePercent : f64; Controls : list Control
}.

(** A framework without controls has none afterwards either: [range] over a
    missing entry writes nothing. *)
Definition RunAssessment (now : Z) (framework : string) (ce : ComplianceEngine) : AssessmentResult * ComplianceEngine :=
  let checked := checkControl now <$> GetControls framework ce in
  let compliant := count_of is_compliant checked in
  (mkResult framework now compliant (len checked) (fmul (fdiv (of_int compliant) (of_int (len checked))) (of_int 100)) checked,
   match controls ce !! framework with
   | Some _ => mkCompliance (<[framework := checked]> (controls ce)) (config ce)
   | None => ce
   end).

(** The three formats, escapes as in the source. *)
Definition exportJSON (r : AssessmentResult) : text :=
  Sprintf (ReplaceAll "{'framework':'%s','assessed_at':'%s','compliant':%d,'total':%d,'percent':%.2f}" "'" dq)
    [AStr (r_Framework r); ATime (AssessedAt r); AInt (CompliantCount r); AInt (TotalCount r); AFloat (CompliancePercent r)].
Definition exportPDF (r : AssessmentResult) : text :=
  Sprintf "Compliance Report: %s\nAssessed: %s\nCompliant: %d/%d (%.1f%%)"
    [AStr (r_Framework r); ATime (AssessedAt r); AInt (CompliantCount r); AInt (TotalCount r); AFloat (CompliancePercent r)].
Definition exportCSV (r : AssessmentResult) : text := lit "ControlID,Framework,Status,LastChecked\n".
Definition ExportReport (now : Z) (framework format : string) (ce : ComplianceEngine) : result text text * ComplianceEngine :=
  let '(r, ce) := RunAssessment now framework ce in
  (if String.eqb format "json" then Ok (exportJSON r)
   else if String.eqb format "pdf" then Ok (exportPDF r)
   else if String.eqb format "csv" then Ok (exportCSV r)
   else Err (Sprintf "unsupported format: %s" [AStr format]), ce).

Definition assess_all (l : list (Z * string)) (ce : ComplianceEngine) : ComplianceEngine :=
  fold_left (fun ce p => snd (RunAssessment (fst p) (snd p) ce)) l ce.

(** *** Lemmas *)

Definition automatic (id : string) : bool := match evidence_for id with Some _ => true | None => false end.

Lemma checked_status now c : is_compliant (checkControl now c) = automatic (ID c).
Proof. unfold checkControl, automatic. by destruct (evidence_for (ID c)) as [[[? ?] ?]|]. Qed.

Lemma checked_id now (l : list Control) : (ID <$> (checkControl now <$> l)) = ID <$> l.
Proof.
  induction l as [|c l IH]; [done|]. cbn. rewrite <- IH. f_equal. unfold checkControl. by destruct (evidence_for (ID c)) as [[[? ?] ?]|].
Qed.

Lemma checked_count now (l : list Control) : count_of is_compliant (checkControl now <$> l) = count_of automatic (ID <$> l).
Proof.
  induction l as [|c l IH]; [done|]. cbn [fmap list_fmap]. by rewrite !count_of_cons, checked_status, <- IH.
Qed.

(** After [n] assessments of a framework. *)
Definition assessed (framework : string) (n : Z) (ce : ComplianceEngine) : Prop :=
  (ID <$> GetControls framework ce) = ID <$> lookup_default [] initControls framework
  /\ Forall (fun c => len (Evidence c) = if automatic (ID c) then n else 0) (GetControls framework ce).

Lemma checked_evidence now n c :
  len (Evidence c) = (if automatic (ID c) then n else 0) ->
  len (Evidence (checkControl now c)) = if automatic (ID (checkControl now c)) then n + 1 else 0.
Proof.
  unfold checkControl, automatic. destruct (evidence_for (ID c)) as [[[? ?] ?]|] eqn:E; cbn [ID Evidence]; rewrite E; [|done].
  intros <-. by rewrite len_app.
Qed.

Lemma GetControls_run now fw fw' ce :
  GetControls fw (snd (RunAssessment now fw' ce))
  = if decide (fw = fw') then checkControl now <$> GetControls fw ce else GetControls fw ce.
Proof.
  unfold RunAssessment, GetControls, lookup_default. cbn [snd]. destruct (controls ce !! fw') eqn:E; cbn [controls]; case_decide; subst.
  - by rewrite lookup_insert_eq, E.
  - by rewrite lookup_insert_ne.
  - by rewrite E.
  - done.
Qed.

Lemma assessed_step now fw fw' n ce :
  assessed fw n ce -> assessed fw (n + if String.eqb fw' fw then 1 else 0) (snd (RunAssessment now fw' ce)).
Proof.
  intros [Hi He]. unfold assessed. rewrite GetControls_run. destruct (String.eqb_spec fw' fw) as [->|Hne].
  - rewrite decide_True by done. split; [by rewrite checked_id|]. apply Forall_fmap. eapply Forall_impl; [exact He|].
    intros c. apply checked_evidence.
  - rewrite decide_False by done. by rewrite Z.add_0_r.
Qed.

Lemma assessed_all l fw n ce :
  assessed fw n ce -> assessed fw (n + count_of (fun p => String.eqb (snd p) fw) l) (assess_all l ce).
Proof.
  revert n ce. induction l as [|p l IH]; intros n ce Hc; [by rewrite count_of_nil, Z.add_0_r|].
  rewrite count_of_cons, Z.add_assoc. apply IH. by apply assessed_step.
Qed.

Lemma assessed_new cfg fw : assessed fw 0 (NewComplianceEngine cfg).
Proof.
  split; [done|]. unfold GetControls, lookup_default. cbn [controls NewComplianceEngine].
  destruct (initControls !! fw) as [l|] eqn:E; [|constructor]. cbn [default from_option id].
  assert (Forall (fun c => Evidence c = []) l) as Hl.
  { unfold initControls in E. rewrite !lookup_insert_Some, lookup_singleton_Some in E.
    destruct E as [[_ <-]|[_ [[_ <-]|[_ [[_ <-]|[_ [_ <-]]]]]]]; apply Forall_fmap, Forall_true; done. }
  eapply Forall_impl; [exact Hl|]. intros c ->. by destruct (automatic (ID c)).
Qed.

Lemma framework_cases (P : list Control -> Prop) framework :
  P (lookup_default [] initControls framework) <->
  (if String.eqb framework FrameworkPCI then P getPCIControls else if String.eqb framework FrameworkGDPR then P getGDPRControls
   else if String.eqb framework FrameworkHIPAA then P getHIPAAControls
   else if String.eqb framework FrameworkSOC2 then P getSOC2Controls else P []).
Proof.
  destruct (String.eqb_spec framework FrameworkPCI) as [->|]; [done|]. destruct (String.eqb_spec framework FrameworkGDPR) as [->|]; [done|].
  destruct (String.eqb_spec framework FrameworkHIPAA) as [->|]; [done|]. destruct (String.eqb_spec framework FrameworkSOC2) as [->|]; [done|].
  unfold lookup_default, initControls. by rewrite !lookup_insert_ne, lookup_singleton_ne by done.
Qed.

(** An assessment says nothing about the system: whatever the
    configuration and the assessments before, a framework has the same controls
    in the same state, four of 25, three of 22, none of 14 and two of 19, and
    the percentage of a framework without controls is not a number. The evidence
    of an assessed control grows by one copy with each assessment. *)
Theorem assessments_fixed config l now framework :
  let r := fst (RunAssessment now framework (assess_all l (NewComplianceEngine config))) in
  (CompliantCount r, TotalCount r)
  = (if String.eqb framework FrameworkPCI then (4, 25) else if String.eqb framework FrameworkGDPR then (3, 22)
     else if String.eqb framework FrameworkHIPAA then (0, 14) else if String.eqb framework FrameworkSOC2 then (2, 19) else (0, 0))
  /\ is_nan (CompliancePercent r) = (TotalCount r =? 0)
  /\ Forall (fun c => Status c = if automatic (ID c) then "compliant" else "evidence_needed") (Controls r)
  /\ Forall (fun c => len (Evidence c) = if automatic (ID c) then 1 + count_of (fun p => String.eqb (snd p) framework) l else 0)
       (Controls r).
Proof.
  intros r. destruct (assessed_all l framework 0 _ (assessed_new config framework)) as [Hi He].
  set (ce := assess_all l (NewComplianceEngine config)) in *.
  assert (CompliantCount r = count_of automatic (ID <$> lookup_default [] initControls framework)) as Hc.
  { unfold r. cbn [RunAssessment fst CompliantCount]. by rewrite checked_count, Hi. }
  assert (TotalCount r = len (ID <$> lookup_default [] initControls framework)) as Ht.
  { unfold r. cbn [RunAssessment fst TotalCount]. rewrite <- Hi. unfold len. by rewrite !length_fmap. }
  split_and!.
  - rewrite Hc, Ht. apply (framework_cases (fun l => (count_of automatic (ID <$> l), len (ID <$> l)) = _)).
    do 4 (destruct (String.eqb framework _); [vm_compute; reflexivity|]). reflexivity.
  - change (CompliancePercent r) with (fmul (fdiv (of_int (CompliantCount r)) (of_int (TotalCount r))) (of_int 100)).
    rewrite Hc, Ht.
    apply (framework_cases (fun l => is_nan (fmul (fdiv (of_int (count_of automatic (ID <$> l))) (of_int (len (ID <$> l)))) (of_int 100))
                                     = (len (ID <$> l) =? 0))).
    do 4 (destruct (String.eqb framework _); [vm_compute; reflexivity|]). vm_compute. reflexivity.
  - apply Forall_fmap, Forall_true. intros c. unfold compose, checkControl, automatic.
    by destruct (evidence_for (ID c)) as [[[? ?] ?]|] eqn:E; cbn [Status ID]; rewrite E.
  - apply Forall_fmap. eapply Forall_impl; [exact He|]. intros c Hn. cbn. rewrite (checked_evidence _ _ _ Hn), Z.add_0_l. by rewrite Z.add_comm.
Qed.

End Assessment.

(** ** Personal data *)

Module Pii.

Definition pii_patterns : list (string * string) :=
  [("email", "[a-zA-Z0-9._%+-]+@[a-zA-Z0-9.-]+\.[a-zA-Z]{2,}");
   ("credit_card", "\b(?:\d[ -]*?){13,16}\b");
   ("ssn", "\b\d{3}[- ]?\d{2}[- ]?\d{4}\b");
   ("phone", "\b(?:\+?1[-.\s]?)?\(?\d{3}\)?[-.\s]?\d{3}[-.\s]?\d{4}\b");
   ("ip", "\b(?:\d{1,3}\.){3}\d{1,3}\b");
   ("api_key", "(?i)(?:api[_-]?key|apikey|secret[_-]?key)['" ++ dq ++ ":\s=]+[a-zA-Z0-9_\-]{20,}");
   ("password", "(?i)(?:password|passwd|pwd)['" ++ dq ++ ":\s=]+[^\s]{6,}");
   ("jwt", "eyJ[a-zA-Z0-9_-]*\.eyJ[a-zA-Z0-9_-]*\.[a-zA-Z0-9_-]*")].

Lemma pii_patterns_compile : forallb compiles pii_patterns.*2 = true.
Proof. vm_compute. reflexivity. Qed.

Record PIIMasker : Type := mkMasker { patterns : gmap string string; enabled : bool }.
Definition NewPIIMasker : PIIMasker := mkMasker (list_to_map pii_patterns) true.
Definition Enable (pm : PIIMasker) : PIIMasker := mkMasker (patterns pm) true.
Definition Disable (pm : PIIMasker) : PIIMasker := mkMasker (patterns pm) false.

(** [value[:n]], [value[len(value)-n:]] and [value[:len(value)-n]]. *)
Definition slice_to (n : nat) (s : string) : outcome string := if (String.length s <? n)%nat then Panics else Returns (take_str n s).
Definition last_bytes (n : nat) (s : string) : outcome string :=
  if (String.length s <? n)%nat then Panics else Returns (drop_str (String.length s - n) s).
Definition but_last (n : nat) (s : string) : outcome string :=
  if (String.length s <? n)%nat then Panics else Returns (take_str (String.length s - n) s).

Definition maskValue (piiType value : string) : outcome string :=
  if String.eqb piiType "email" then
    match SplitN value "@" 2 with
    | [user; host] => let! u := slice_to 1 user in Returns (u ++ "***@" ++ host)
    | _ => let! u := slice_to 1 value in Returns (u ++ "***")
    end
  else if String.eqb piiType "credit_card" then let! t := last_bytes 4 value in Returns ("****-****-****-" ++ t)
  else if String.eqb piiType "ssn" then let! t := last_bytes 4 value in Returns ("***-**-" ++ t)
  else if String.eqb piiType "phone" then let! t := last_bytes 4 value in Returns ("***-***-" ++ t)
  else if String.eqb piiType "ip" then let! t := but_last 4 value in Returns (t ++ "****")
  else if String.eqb piiType "api_key" || String.eqb piiType "password" then Returns "[REDACTED]"
  else if String.eqb piiType "jwt" then Returns "eyJ***.[REDACTED].***"
  else Returns "***".

Section pii.
Context `{Unicode} `{MapRange string}.

(** [Regexp.ReplaceAllStringFunc]: the loop of [ReplaceAllString] with the
    replacement computed from the match; at most one round per position. *)
Fixpoint replace_func (fuel : nat) (r : re) (f : string -> outcome string) (segs : list (Z * list Z)) (w : list Z) (last pos : nat)
    : outcome (list Z) :=
  match fuel with
  | O => Returns (segment_text segs last (length w))
  | S fuel =>
      match find w r pos with
      | None => Returns (segment_text segs last (length w))
      | Some (a, b) =>
          let! repl := (if (last <? b)%nat || (a =? 0)%nat then f (of_bytes (segment_text segs a b)) else Returns "") in
          let! rest := replace_func fuel r f segs w b (Nat.max (S pos) b) in
          Returns (segment_text segs last a ++ bytes_of repl ++ rest)%list
      end
  end.
Definition ReplaceAllStringFunc (p s : string) (f : string -> outcome string) : outcome string :=
  match compile p with
  | Some r =>
      let segs := rune_segments s in
      let! l := replace_func (S (length segs)) r f segs segs.*1 0 0 in Returns (of_bytes l)
  | None => Returns s
  end.

Fixpoint mask_each (l : list (string * string)) (data : string) : outcome string :=
  match l with
  | [] => Returns data
  | (name, p) :: l => let! data := ReplaceAllStringFunc p data (maskValue name) in mask_each l data
  end.
Definition Mask (pm : PIIMasker) (data : string) : outcome string :=
  if negb (enabled pm) then Returns data else mask_each (map_range (patterns pm)) data.

Definition found (p data : string) : list string :=
  let segs := rune_segments data in map (fun '(a, b) => of_bytes (segment_text segs a b)) (FindAll p data).
Definition Detect (pm : PIIMasker) (data : string) : gmap string (list string) :=
  fold_left (fun m '(name, p) => match found p data with [] => m | l => <[name := l]> m end) (map_range (patterns pm)) ∅.

(** *** Lemmas: no slice is out of range *)

(** At least as many runes as a match has. *)
Fixpoint min_len (r : re) : nat :=
  match r with
  | Eps | Look _ | Star _ _ => 0
  | Chr _ => 1
  | Cat r1 r2 => min_len r1 + min_len r2
  | Alt r1 r2 => Nat.min (min_len r1) (min_len r2)
  end.

Lemma matches_min_len w r i j : matches w r i j -> (i + min_len r <= j)%nat.
Proof.
  induction 1 as [| | | | | | |? ? i j k Hm IH1 Hs IH2]; cbn [min_len] in *; lia.
Qed.

(** No match begins with the rune, or is empty. *)
Fixpoint cannot_start (x : Z) (r : re) : bool :=
  match r with
  | Eps | Look _ | Star _ _ => false
  | Chr c => negb (cls_test c x)
  | Cat r1 _ => cannot_start x r1
  | Alt r1 r2 => cannot_start x r1 && cannot_start x r2
  end.

Lemma cannot_start_spec x w r i j : matches w r i j -> cannot_start x r = true -> w !! i <> Some x.
Proof.
  induction 1 as [|c i y Hy Ht| | | | | |]; cbn [cannot_start]; try done; try (rewrite andb_true_iff; naive_solver).
  rewrite Hy. intros Hc [= ->]. by rewrite Ht in Hc.
Qed.

(** A segment has bytes, and an ASCII byte is its own rune. *)
Definition segment_ok (p : Z * list Z) : Prop := match snd p with b :: _ => b < 128 -> fst p = b | [] => False end.
Lemma runes_from_ok skip l : Forall segment_ok (runes_from skip l).
Proof.
  revert skip. induction l as [|b t IH]; intros skip; [constructor|]. cbn [runes_from]. destruct skip as [|k]; [|apply IH].
  destruct (decode_rune (b :: t)) as [r n] eqn:E. constructor; [|apply IH]. unfold segment_ok. cbn [fst snd].
  pose proof (decode_rune_pos b t) as Hp. rewrite E in Hp. cbn [snd] in Hp. destruct n as [|n]; [lia|]. cbn [take].
  intros Hb. cbn [decode_rune] in E. rewrite (proj2 (Z.ltb_lt b 128) Hb) in E. by injection E as <- _.
Qed.

Lemma segment_text_length segs a b :
  Forall segment_ok segs -> (a <= b <= length segs)%nat -> (b - a <= length (segment_text segs a b))%nat.
Proof.
  intros Hs Hab. unfold segment_text. assert (length (take (b - a) (drop a segs)) = b - a)%nat as E.
  { rewrite length_take, length_drop. lia. }
  rewrite <- E at 1. assert (Forall segment_ok (take (b - a) (drop a segs))) as Ht by (by apply Forall_take, Forall_drop).
  clear E. induction Ht as [|[r l] k Hp _ IH]; [done|]. cbn [flat_map length]. rewrite length_app. cbn [snd] in *.
  destruct l; [done|]. cbn [length]. lia.
Qed.

Lemma segment_text_head segs a b c t :
  Forall segment_ok segs -> (a < b <= length segs)%nat -> segment_text segs a b = c :: t -> c < 128 -> segs.*1 !! a = Some c.
Proof.
  intros Hs Hab E Hc. unfold segment_text in E. destruct (lookup_lt_is_Some_2 segs a) as [p Hp]; [lia|].
  rewrite (drop_S segs p a) in E by done. destruct (b - a)%nat as [|n] eqn:D; [lia|]. cbn [take flat_map] in E.
  eapply Forall_lookup in Hs; [|exact Hp]. unfold segment_ok in Hs. destruct p as [r [|c' l]]; cbn [fst snd app] in *; [done|].
  injection E as -> _. rewrite list_lookup_fmap, Hp. cbn. f_equal. by apply Hs.
Qed.

Lemma length_of_bytes l : String.length (of_bytes l) = length l.
Proof. induction l as [|b l IH]; [done|]. cbn. by rewrite IH. Qed.

Lemma find_from_bound w r i fuel a b : find_from w r i fuel = Some (a, b) -> (a <= i + fuel)%nat.
Proof.
  revert i. induction fuel as [|fuel IH]; intros i; cbn [find_from]; destruct (ends w r i); try done; try (intros [= <- <-]; lia).
  intros Hf%IH. lia.
Qed.
Lemma find_bound w r pos a b : find w r pos = Some (a, b) -> (a <= b <= length w)%nat /\ matches w r a b.
Proof.
  intros E. pose proof (find_Some w r pos a b E) as (Hp & Hm & _). split; [|done].
  unfold find in E. destruct (Nat.leb_spec pos (length w)); [|done]. apply find_from_bound in E.
  apply (matches_range w r); [done|lia].
Qed.

(** The replacement function answers on every match. *)
Lemma replace_func_returns fuel r f segs w last pos :
  (forall a b, matches w r a b -> (a <= b <= length w)%nat -> exists o, f (of_bytes (segment_text segs a b)) = Returns o) ->
  exists l, replace_func fuel r f segs w last pos = Returns l.
Proof.
  intros Hf. revert last pos. induction fuel as [|fuel IH]; intros last pos; cbn [replace_func]; [by eexists|].
  destruct (find w r pos) as [[a b]|] eqn:E; [|by eexists].
  destruct (IH b (Nat.max (S pos) b)) as [l ->].
  assert (exists o, (if (last <? b)%nat || (a =? 0)%nat then f (of_bytes (segment_text segs a b)) else Returns "") = Returns o) as [o ->].
  { destruct (_ || _); [|by eexists]. apply find_bound in E as [? ?]. by apply Hf. }
  cbn [out_bind]. by eexists.
Qed.

(** Each pattern with what masking its matches needs: enough runes, and no
    address that begins with the separator. *)
Definition safe_pattern (p : string * string) : bool :=
  match compile (snd p) with
  | None => true
  | Some r => (if String.eqb (fst p) "email" then cannot_start 64 r && (1 <=? min_len r)%nat else true) && (4 <=? min_len r)%nat
  end.

Lemma pii_patterns_safe : forallb safe_pattern pii_patterns = true.
Proof. reflexivity. Qed.

Lemma SplitN_head c s sep :
  String.prefix sep (String c s) = false -> exists p rest, SplitN (String c s) sep 2 = String c p :: rest.
Proof.
  intros Hp. unfold SplitN. cbn [split_from pred]. rewrite Hp. cbn [andb].
  destruct (split_head s sep 0 (Some 1%nat) (String c "")) as (p & rest & ->). exists p, rest. reflexivity.
Qed.

Lemma maskValue_long name value :
  (4 <= String.length value)%nat -> (name = "email" -> String.prefix "@" value = false) -> exists o, maskValue name value = Returns o.
Proof.
  intros Hl He. unfold maskValue, last_bytes, but_last. rewrite (proj2 (Nat.ltb_ge (String.length value) 4)) by done.
  cbn [out_bind]. destruct (String.eqb_spec name "email") as [->|]; [|repeat case_match; by eexists].
  destruct value as [|c v]; [cbn in Hl; lia|]. destruct (SplitN_head c v "@" (He eq_refl)) as (p & rest & ->).
  unfold slice_to. cbn [String.length Nat.ltb Nat.leb out_bind]. destruct rest as [|h [|]]; by eexists.
Qed.

Lemma segment_bytes data a b c : c ∈ segment_text (rune_segments data) a b -> 0 <= c < 256.
Proof.
  unfold segment_text. rewrite list_elem_of_In, in_flat_map. intros (p & Hp & Hc).
  assert (In c (flat_map snd (rune_segments data))) as Hi.
  { apply in_flat_map. exists p. split; [|done]. apply list_elem_of_In. apply list_elem_of_In in Hp.
    eapply elem_of_sublist; [exact Hp|]. etrans; [apply sublist_take|apply sublist_drop]. }
  unfold rune_segments in Hi. rewrite segments_bytes, drop_0 in Hi. clear -Hi. induction data as [|x d IH]; [done|].
  destruct Hi as [<-|Hi]; [apply byte_of_range|by apply IH].
Qed.

Lemma masking_returns name p data : safe_pattern (name, p) = true -> exists o, ReplaceAllStringFunc p data (maskValue name) = Returns o.
Proof.
  unfold safe_pattern, ReplaceAllStringFunc. cbn [fst snd]. intros Hs. destruct (compile p) as [r|]; [|by eexists].
  apply andb_true_iff in Hs as [He Hm%Nat.leb_le]. set (segs := rune_segments data).
  assert (Forall segment_ok segs) as Hok by apply runes_from_ok.
  edestruct (replace_func_returns (S (length segs)) r (maskValue name) segs segs.*1 0 0) as [l ->]; [|by eexists].
  intros a b Hab Hb. rewrite length_fmap in Hb. pose proof (matches_min_len _ _ _ _ Hab) as Hlen.
  apply maskValue_long.
  - rewrite length_of_bytes. pose proof (segment_text_length segs a b Hok Hb). lia.
  - intros ->. cbn in He. apply andb_true_iff in He as [He _].
    destruct (segment_text segs a b) as [|c t] eqn:E; [done|]. cbn [of_bytes String.prefix].
    destruct (ascii_dec "@" (chr c)) as [Ec|]; [|done]. exfalso.
    assert (c = 64) as ->.
    { rewrite <- (byte_of_chr c); [by rewrite <- Ec|]. apply (segment_bytes data a b). fold segs. rewrite E. by left. }
    apply (cannot_start_spec 64 _ _ _ _ Hab He). apply (segment_text_head segs a b 64 t Hok); [lia|done|done].
Qed.

(** Masking answers for every text, in whatever order the patterns are
    taken: each cut it makes in a match is within the match. *)
Theorem masking_never_panics pm data : patterns pm = patterns NewPIIMasker -> exists out, Mask pm data = Returns out.
Proof.
  intros Hp. unfold Mask. destruct (negb (enabled pm)); [by eexists|]. rewrite Hp.
  assert (Forall (fun p => safe_pattern p = true) (map_range (patterns NewPIIMasker))) as Hs.
  { apply Forall_forall. intros [n p] Hn%elem_of_map_range. pose proof pii_patterns_safe as Hf. rewrite forallb_forall in Hf.
    apply Hf, list_elem_of_In. by apply elem_of_list_to_map_2. }
  revert data. induction Hs as [|[n p] l Hn _ IH]; intros data; [by eexists|]. cbn [mask_each].
  destruct (masking_returns n p data Hn) as [o ->]. apply IH.
Qed.

End pii.

#[local] Existing Instance unicode_ascii.

Lemma masking_never_panics_witness : exists out, Mask NewPIIMasker "alice@example.com" = Returns out.
Proof. exact (masking_never_panics NewPIIMasker "alice@example.com" eq_refl). Defined.

Example masked : mask_each [("email", "[a-zA-Z0-9._%+-]+@[a-zA-Z0-9.-]+\.[a-zA-Z]{2,}")] "to: alice@example.com!" = Returns "to: a***@example.com!".
Proof. vm_compute. reflexivity. Qed.

(** The order matters: the key is hidden, or its last digits are shown. *)
Definition key_then_card : list (string * string) :=
  filter (fun p => fst p = "api_key" \/ fst p = "credit_card") (reverse pii_patterns).
Definition card_then_key : list (string * string) := reverse key_then_card.
Example order_matters :
  mask_each key_then_card "api_key=4111-1111-1111-1111-aaaa" = Returns "[REDACTED]"
  /\ mask_each card_then_key "api_key=4111-1111-1111-1111-aaaa" = Returns "api_key=****-****-****-1111-aaaa".
Proof. split; vm_compute; reflexivity. Qed.

End Pii.
