(* ===== verification/Reputation.v ===== *)
(** * Reputation and geolocation: [internal/reputation], [internal/geo]

    [Reputation]: scores of addresses and their cache. The methods of
    [reputation.go] run one after the other; a record is not changed once it is
    cached. [Geo]: lookups of [geo.go] over the reader of databases, the class
    [GeoIP]. *)

From S2P Require Import Prelude Float64 GoStr Net Types.

#[local] Open Scope string_scope.
#[local] Open Scope Z_scope.

Module Reputation.

Record IPRecord : Type := mkRecord {
  IP_ : string; Score : f64; LastSeen : Z; AbuseReports : Z; Source : string; Categories : list string;
  IsTor : bool; IsVPN : bool; IsProxy : bool; IsDatacenter : bool
}.

Record Engine : Type := mkEngine {
  cache : gmap string IPRecord; cacheTTL : Z; allowlist : list IPNet; blocklist : list IPNet;
  allowlistASNs : gset Z; blocklistASNs : gset Z; allowlistCountries : gset string; blocklistCountries : gset string;
  torNodes : gset string; vpnRanges : list IPNet; proxyRanges : list IPNet
}.
Definition NewEngine : Engine := mkEngine ∅ (30 * Minute) [] [] ∅ ∅ ∅ ∅ ∅ [] [].

Definition set_cache (c : gmap string IPRecord) (e : Engine) : Engine :=
  mkEngine c (cacheTTL e) (allowlist e) (blocklist e) (allowlistASNs e) (blocklistASNs e) (allowlistCountries e)
    (blocklistCountries e) (torNodes e) (vpnRanges e) (proxyRanges e).
Definition set_allowlist (l : list IPNet) (e : Engine) : Engine :=
  mkEngine (cache e) (cacheTTL e) l (blocklist e) (allowlistASNs e) (blocklistASNs e) (allowlistCountries e)
    (blocklistCountries e) (torNodes e) (vpnRanges e) (proxyRanges e).
Definition set_blocklist (l : list IPNet) (e : Engine) : Engine :=
  mkEngine (cache e) (cacheTTL e) (allowlist e) l (allowlistASNs e) (blocklistASNs e) (allowlistCountries e)
    (blocklistCountries e) (torNodes e) (vpnRanges e) (proxyRanges e).
Definition set_ranges (vpn proxy : list IPNet) (e : Engine) : Engine :=
  mkEngine (cache e) (cacheTTL e) (allowlist e) (blocklist e) (allowlistASNs e) (blocklistASNs e) (allowlistCountries e)
    (blocklistCountries e) (torNodes e) vpn proxy.
Definition set_asns (allow block : gset Z) (e : Engine) : Engine :=
  mkEngine (cache e) (cacheTTL e) (allowlist e) (blocklist e) allow block (allowlistCountries e)
    (blocklistCountries e) (torNodes e) (vpnRanges e) (proxyRanges e).
Definition set_countries (allow block : gset string) (e : Engine) : Engine :=
  mkEngine (cache e) (cacheTTL e) (allowlist e) (blocklist e) (allowlistASNs e) (blocklistASNs e) allow block
    (torNodes e) (vpnRanges e) (proxyRanges e).
Definition set_tor (nodes : gset string) (e : Engine) : Engine :=
  mkEngine (cache e) (cacheTTL e) (allowlist e) (blocklist e) (allowlistASNs e) (blocklistASNs e) (allowlistCountries e)
    (blocklistCountries e) nodes (vpnRanges e) (proxyRanges e).

Definition isInRanges (ip : IP) (ranges : list IPNet) : bool := existsb (fun cidr => net_Contains cidr ip) ranges.
Definition isAllowlisted (ip : IP) (e : Engine) : bool := isInRanges ip (allowlist e).
Definition isBlocklisted (ip : IP) (e : Engine) : bool := isInRanges ip (blocklist e).

Definition datacenterRanges : list string :=
  ["13.32.0.0/15"; "13.104.0.0/14"; "15.0.0.0/8"; "35.0.0.0/8"; "52.0.0.0/8"; "54.0.0.0/8"; "63.0.0.0/8"; "64.0.0.0/8";
   "65.0.0.0/8"; "66.0.0.0/8"; "67.0.0.0/8"; "68.0.0.0/8"; "69.0.0.0/8"; "70.0.0.0/8"; "71.0.0.0/8"; "72.0.0.0/8";
   "73.0.0.0/8"; "74.0.0.0/8"; "75.0.0.0/8"; "76.0.0.0/8"; "77.0.0.0/8"; "78.0.0.0/8"; "79.0.0.0/8"; "80.0.0.0/5";
   "96.0.0.0/6"; "100.0.0.0/8"; "104.0.0.0/8"; "108.0.0.0/8"; "128.0.0.0/16"].
Definition isDatacenterIP (ip : IP) : bool :=
  existsb (fun cidr => match ParseCIDR cidr with Some n => net_Contains n ip | None => false end) datacenterRanges.

Definition setCache (ip : string) (r : IPRecord) (e : Engine) : Engine := set_cache (<[ip := r]> (cache e)) e.

(** The checks after the lists: what they add, the category and the flag. *)
Definition checks (ipStr : string) (ip : IP) (e : Engine) : list (bool * Z * string) :=
  [(bool_decide (ipStr ∈ torNodes e), 60, "tor"); (isInRanges ip (vpnRanges e), 40, "vpn");
   (isInRanges ip (proxyRanges e), 50, "proxy"); (isDatacenterIP ip, 20, "datacenter")].
Definition add_check (acc : f64 * list string) (c : bool * Z * string) : f64 * list string :=
  let '(hit, points, category) := c in
  if hit then (fadd (fst acc) (of_int points), (snd acc ++ [category])%list) else acc.

Definition assess (now : Z) (ipStr : string) (ip : IP) (e : Engine) : IPRecord :=
  if isAllowlisted ip e then mkRecord ipStr f0 now 0 "" [] false false false false
  else if isBlocklisted ip e then mkRecord ipStr (of_int 100) now 0 "" [] false false false false
  else
    let l := checks ipStr ip e in
    let '(score, categories) := fold_left add_check l (f0, []) in
    let hit i := match l !! i with Some (b, _, _) => b | None => false end in
    mkRecord ipStr score now 0 "" categories (hit 0%nat) (hit 1%nat) (hit 2%nat) (hit 3%nat).

(** [now1] dates the look into the cache, [now2] the record. *)
Definition Inspect (now1 now2 : Z) (ipStr : string) (e : Engine) : option IPRecord * f64 * Engine :=
  if String.eqb ipStr "" then (None, f0, e)
  else
    match (match cache e !! ipStr with
           | Some r => if time_sub now1 (LastSeen r) <? cacheTTL e then Some r else None
           | None => None
           end) with
    | Some r => (Some r, Score r, e)
    | None =>
        match ParseIP ipStr with
        | None => (None, f0, e)
        | Some ip => let r := assess now2 ipStr ip e in (Some r, Score r, setCache ipStr r e)
        end
    end.
Definition GetScore (now1 now2 : Z) (ipStr : string) (e : Engine) : f64 * Engine :=
  let '(_, score, e) := Inspect now1 now2 ipStr e in (score, e).

Definition AddAllowlist (cidr : string) (e : Engine) : option text * Engine :=
  match ParseCIDR cidr with
  | None => (Some (Sprintf "invalid cidr: %w" [AStr cidr]), e)
  | Some n => (None, set_allowlist (allowlist e ++ [n]) e)
  end.
Definition AddBlocklist (cidr : string) (e : Engine) : option text * Engine :=
  match ParseCIDR cidr with
  | None => (Some (Sprintf "invalid cidr: %w" [AStr cidr]), e)
  | Some n => (None, set_blocklist (blocklist e ++ [n]) e)
  end.
Definition AllowlistASN (asn : Z) (e : Engine) : Engine := set_asns ({[asn]} ∪ allowlistASNs e) (blocklistASNs e) e.
Definition BlocklistASN (asn : Z) (e : Engine) : Engine := set_asns (allowlistASNs e) ({[asn]} ∪ blocklistASNs e) e.
Definition AllowlistCountry (code : string) (e : Engine) : Engine :=
  set_countries ({[code]} ∪ allowlistCountries e) (blocklistCountries e) e.
Definition BlocklistCountry (code : string) (e : Engine) : Engine :=
  set_countries (allowlistCountries e) ({[code]} ∪ blocklistCountries e) e.
Definition LoadTorNodes (nodes : list string) (e : Engine) : Engine := set_tor (list_to_set nodes ∪ torNodes e) e.

(** The networks before the first invalid text, and that text. *)
Fixpoint load_ranges (cidrs : list string) (ranges : list IPNet) : option string * list IPNet :=
  match cidrs with
  | [] => (None, ranges)
  | c :: cidrs => match ParseCIDR c with Some n => load_ranges cidrs (ranges ++ [n]) | None => (Some c, ranges) end
  end.
Definition LoadVPNRanges (cidrs : list string) (e : Engine) : option text * Engine :=
  let '(bad, l) := load_ranges cidrs (vpnRanges e) in
  ((fun c => Sprintf "invalid vpn cidr: %w" [AStr c]) <$> bad, set_ranges l (proxyRanges e) e).
Definition LoadProxyRanges (cidrs : list string) (e : Engine) : option text * Engine :=
  let '(bad, l) := load_ranges cidrs (proxyRanges e) in
  ((fun c => Sprintf "invalid proxy cidr: %w" [AStr c]) <$> bad, set_ranges (vpnRanges e) l e).

(** One tick of [Cleanup]. *)
Definition Cleanup (now : Z) (e : Engine) : Engine :=
  set_cache (filter (fun p => (wrap64 (cacheTTL e * 2) <? time_sub now (LastSeen (snd p))) = false) (cache e)) e.

(** ** Histories *)

Inductive op : Type :=
| OInspect (now1 now2 : Z) (ip : string)
| OAllow (cidr : string) | OBlock (cidr : string)
| OAllowASN (asn : Z) | OBlockASN (asn : Z) | OAllowCountry (code : string) | OBlockCountry (code : string)
| OTor (nodes : list string) | OVPN (cidrs : list string) | OProxy (cidrs : list string)
| OCleanup (now : Z).
Definition step (e : Engine) (o : op) : Engine :=
  match o with
  | OInspect n1 n2 ip => snd (Inspect n1 n2 ip e)
  | OAllow c => snd (AddAllowlist c e)
  | OBlock c => snd (AddBlocklist c e)
  | OAllowASN a => AllowlistASN a e
  | OBlockASN a => BlocklistASN a e
  | OAllowCountry c => AllowlistCountry c e
  | OBlockCountry c => BlocklistCountry c e
  | OTor l => LoadTorNodes l e
  | OVPN l => snd (LoadVPNRanges l e)
  | OProxy l => snd (LoadProxyRanges l e)
  | OCleanup now => Cleanup now e
  end.
Definition run (l : list op) (e : Engine) : Engine := fold_left step l e.

(** The clock of an operation stays within a period. *)
Definition within (lo hi : Z) (o : op) : Prop :=
  match o with OInspect n1 n2 _ => lo <= n1 < hi /\ lo <= n2 < hi | OCleanup now => lo <= now < hi | _ => True end.

Lemma cacheTTL_step e o : cacheTTL (step e o) = cacheTTL e.
Proof.
  destruct o; cbn [step]; try done.
  - unfold Inspect. repeat case_match; done.
  - unfold AddAllowlist. by case_match.
  - unfold AddBlocklist. by case_match.
  - unfold LoadVPNRanges. by destruct (load_ranges cidrs (vpnRanges e)).
  - unfold LoadProxyRanges. by destruct (load_ranges cidrs (proxyRanges e)).
Qed.

Lemma cached_hit n1 n2 ip e r :
  ip <> "" -> cache e !! ip = Some r -> n1 - LastSeen r < cacheTTL e -> cacheTTL e = 30 * Minute ->
  Inspect n1 n2 ip e = (Some r, Score r, e).
Proof.
  intros Hne Hc Hn Ht. unfold Inspect. rewrite (proj2 (String.eqb_neq _ _) Hne), Hc.
  rewrite time_sub_lt by (rewrite Ht; unfold Minute, Second, max64, min64; lia). by rewrite (proj2 (Z.ltb_lt _ _) Hn).
Qed.

Lemma cached_step e o ip r lo :
  ip <> "" -> cacheTTL e = 30 * Minute -> within lo (LastSeen r + 30 * Minute) o ->
  cache e !! ip = Some r -> cache (step e o) !! ip = Some r.
Proof.
  intros Hne Ht Ho Hc. destruct o as [n1 n2 ip'| | | | | | | | | |now]; cbn [step]; try done.
  - destruct (decide (ip' = ip)) as [->|Hi]; cbn [within] in Ho.
    + rewrite (cached_hit n1 n2 ip e r) by (done || lia). done.
    + unfold Inspect. repeat case_match; simplify_eq; try done; cbn [snd setCache cache set_cache]; by rewrite lookup_insert_ne.
  - unfold AddAllowlist. by case_match.
  - unfold AddBlocklist. by case_match.
  - unfold LoadVPNRanges. by destruct (load_ranges cidrs (vpnRanges e)).
  - unfold LoadProxyRanges. by destruct (load_ranges cidrs (proxyRanges e)).
  - cbn [within] in Ho. unfold Cleanup. cbn [cache set_cache]. apply map_lookup_filter_Some. split; [done|]. cbn [snd].
    rewrite Ht. change (wrap64 (30 * Minute * 2)) with (60 * Minute). rewrite time_sub_gt by (unfold Minute, Second, max64, min64; lia).
    apply Z.ltb_ge. unfold Minute, Second in *. lia.
Qed.

Lemma cached_run l e ip r lo :
  ip <> "" -> cacheTTL e = 30 * Minute -> Forall (within lo (LastSeen r + 30 * Minute)) l ->
  cache e !! ip = Some r -> cache (run l e) !! ip = Some r /\ cacheTTL (run l e) = 30 * Minute.
Proof.
  intros Hne Ht Hl. revert e Ht. induction Hl as [|o l Ho _ IH]; intros e Ht Hc; [done|].
  apply (IH (step e o)); [by rewrite cacheTTL_step|by eapply cached_step].
Qed.

Lemma LastSeen_assess now s ip e : LastSeen (assess now s ip e) = now.
Proof. unfold assess. do 2 (case_match; [done|]). by destruct (fold_left add_check (checks s ip e) (f0, [])). Qed.

(** An address's first score is its score for half an hour: whatever is
    put on the lists in the meantime, its own network on the blocklist included,
    and however often it is inspected, the answer is the cached record; from
    then on the lists of the moment decide. *)
Theorem verdict_cached_half_hour e ip a now1 now2 lo l n1 n2 :
  ip <> "" -> ParseIP ip = Some a -> cacheTTL e = 30 * Minute -> cache e !! ip = None ->
  Forall (within lo (now2 + 30 * Minute)) l ->
  let e' := run l (snd (Inspect now1 now2 ip e)) in
  let r := assess now2 ip a e in
  (n1 < now2 + 30 * Minute -> Inspect n1 n2 ip e' = (Some r, Score r, e'))
  /\ (now2 + 30 * Minute <= n1 ->
      Inspect n1 n2 ip e' = (Some (assess n2 ip a e'), Score (assess n2 ip a e'), setCache ip (assess n2 ip a e') e')).
Proof.
  intros Hne Hp Ht Hc Hl e' r.
  assert (snd (Inspect now1 now2 ip e) = setCache ip r e) as E.
  { unfold Inspect. by rewrite (proj2 (String.eqb_neq _ _) Hne), Hc, Hp. }
  destruct (cached_run l (setCache ip r e) ip r lo) as [Hc' Ht']; [done|done| |by apply lookup_insert_eq|].
  { by rewrite (LastSeen_assess now2 ip a e : LastSeen r = now2). }
  pose proof (LastSeen_assess now2 ip a e : LastSeen r = now2) as Hls. unfold e'. rewrite E. split; intros Hn.
  - apply cached_hit; [done|done| |done]. rewrite Hls, Ht'. lia.
  - unfold Inspect. rewrite (proj2 (String.eqb_neq _ _) Hne), Hc', Hp. rewrite Hls, Ht'.
    rewrite time_sub_lt by (unfold Minute, Second, max64, min64; lia). by rewrite (proj2 (Z.ltb_ge _ _)) by lia.
Qed.

(** The score of an address that is not cached: 0 on the allowlist, which
    beats the blocklist's 100; otherwise 60 for a Tor node, 40 for a VPN, 50 for
    a proxy and 20 for a data centre, up to 170. The lists of autonomous systems
    and of countries are never consulted. *)
Theorem reputation_score e ip a now1 now2 asns asns' countries countries' :
  ip <> "" -> ParseIP ip = Some a -> cache e !! ip = None ->
  let points (b : bool) n := if b then n else 0 in
  snd (fst (Inspect now1 now2 ip (set_countries countries countries' (set_asns asns asns' e))))
  = (if isAllowlisted a e then f0 else if isBlocklisted a e then of_int 100
     else of_int (points (bool_decide (ip ∈ torNodes e)) 60 + points (isInRanges a (vpnRanges e)) 40
                  + points (isInRanges a (proxyRanges e)) 50 + points (isDatacenterIP a) 20)).
Proof.
  intros Hne Hp Hc points. unfold Inspect. cbn [cache set_countries set_asns]. rewrite (proj2 (String.eqb_neq _ _) Hne), Hc, Hp. cbn [fst snd].
  unfold assess, isAllowlisted, isBlocklisted, checks. cbn [allowlist blocklist torNodes vpnRanges proxyRanges set_countries set_asns].
  destruct (isInRanges a (allowlist e)); [done|]. destruct (isInRanges a (blocklist e)); [done|]. cbn [fold_left add_check].
  destruct (bool_decide (ip ∈ torNodes e)), (isInRanges a (vpnRanges e)), (isInRanges a (proxyRanges e)), (isDatacenterIP a); vm_compute; reflexivity.
Qed.

Definition home : string := "203.0.113.9".
Definition blocking : list op := [OBlock "203.0.113.0/24"; OBlockCountry "XX"; OInspect (Minute + 3) (Minute + 4) "203.0.113.9"].

Lemma verdict_cached_half_hour_witness :
  snd (fst (Inspect (2 * Minute) (2 * Minute) home (run blocking (snd (Inspect 0 1 home NewEngine))))) = f0.
Proof.
  assert (Forall (within 0 (1 + 30 * Minute)) blocking) as Hl by (repeat constructor; done).
  destruct (verdict_cached_half_hour NewEngine home (IPv4 [203; 0; 113; 9]) 0 1 0 blocking (2 * Minute) (2 * Minute)
              ltac:(done) eq_refl eq_refl eq_refl Hl) as [E _].
  rewrite E; [vm_compute; reflexivity|done].
Defined.
Lemma reputation_score_witness : snd (fst (Inspect 0 0 "84.1.2.3" NewEngine)) = of_int 20.
Proof. exact (reputation_score NewEngine "84.1.2.3" (IPv4 [84; 1; 2; 3]) 0 0 ∅ ∅ ∅ ∅ ltac:(done) eq_refl eq_refl). Defined.

(** A Tor node is known by its text only. *)
Example tor_by_text :
  snd (fst (Inspect 0 0 "::ffff:198.51.100.7" (LoadTorNodes ["198.51.100.7"] NewEngine))) = f0.
Proof. vm_compute. reflexivity. Qed.

End Reputation.

(** ** Geolocation *)

Module Geo.

Record Record_t : Type := mkRecord {
  CountryCode_ : string; CountryName : string; City_ : string; ISP : string; ASN_ : Z; ASOrg : string; Timezone : string;
  Latitude : f64; Longitude : f64; IsAnonymousProxy : bool; IsSatelliteProvider : bool
}.
Definition unknown (name : string) : Record_t := mkRecord "XX" name "" "" 0 "" "" f0 f0 false false.

(** What the package [geoip2] gives for an address. *)
Record city : Type := mkCity {
  IsoCode : string; Names : gmap string string; CityNames : option (gmap string string); TimeZone : string;
  lat : f64; long : f64; anonymous : bool; satellite : bool
}.
Class GeoIP (DB : Type) : Type := {
  City : DB -> IP -> option city;
  ASN_of : DB -> IP -> option (Z * string)
}.

Section geo.
Context {DB : Type} `{GeoIP DB}.

Record Lookup : Type := mkLookup { db : option DB; asnDB : option DB; cityDBPath : string; asnDBPath : string; available : bool }.

(** [open] with [geoip2.Open] at the moment; a failed database stays nil, the
    other one's reader is kept though it is closed. *)
Definition open (Open : string -> option DB) (l : Lookup) : option text * Lookup :=
  match (if String.eqb (cityDBPath l) "" then Some (db l) else Some <$> Open (cityDBPath l)) with
  | None => (Some (Sprintf "open city database: %w" [AStr (cityDBPath l)]), mkLookup None (asnDB l) (cityDBPath l) (asnDBPath l) (available l))
  | Some d =>
      match (if String.eqb (asnDBPath l) "" then Some (asnDB l) else Some <$> Open (asnDBPath l)) with
      | None => (Some (Sprintf "open asn database: %w" [AStr (asnDBPath l)]), mkLookup d None (cityDBPath l) (asnDBPath l) (available l))
      | Some a => (None, mkLookup d a (cityDBPath l) (asnDBPath l) true)
      end
  end.
Definition NewLookup (Open : string -> option DB) (cityDBPath asnDBPath : string) : Lookup :=
  snd (open Open (mkLookup None None cityDBPath asnDBPath false)).
Definition Close (l : Lookup) : Lookup := mkLookup (db l) (asnDB l) (cityDBPath l) (asnDBPath l) false.
Definition Reload (Open : string -> option DB) (l : Lookup) : option text * Lookup := open Open (Close l).
Definition IsAvailable (l : Lookup) : bool := available l.

Definition english (m : gmap string string) : string := lookup_default "" m "en".
Definition city_record (c : option city) (asn : option (Z * string)) : Record_t :=
  let '(n, org) := default (0, "") asn in
  match c with
  | None => mkRecord "" "" "" "" n org "" f0 f0 false false
  | Some c =>
      mkRecord (IsoCode c) (english (Names c)) (match CityNames c with Some m => english m | None => "" end) "" n org (TimeZone c)
        (lat c) (long c) (anonymous c) (satellite c)
  end.
Definition LookupIP (ipStr : string) (l : Lookup) : Record_t :=
  if negb (available l) then unknown "Unknown"
  else match ParseIP ipStr with
       | None => unknown "Invalid IP"
       | Some ip => city_record (d ← db l; City d ip) (d ← asnDB l; ASN_of d ip)
       end.

Definition CountryCode (ipStr : string) (l : Lookup) : string := CountryCode_ (LookupIP ipStr l).
Definition ASN (ipStr : string) (l : Lookup) : Z := ASN_ (LookupIP ipStr l).
Definition IsCountryAllowed (ipStr : string) (allowedCountries : list string) (l : Lookup) : bool :=
  if len allowedCountries =? 0 then true else existsb (String.eqb (CountryCode ipStr l)) allowedCountries.
Definition IsCountryBlocked (ipStr : string) (blockedCountries : list string) (l : Lookup) : bool :=
  if len blockedCountries =? 0 then false else existsb (String.eqb (CountryCode ipStr l)) blockedCountries.
Definition EnforceDataResidency (ipStr : string) (allowedRegions : list string) (l : Lookup) : bool :=
  if len allowedRegions =? 0 then true else existsb (String.eqb (CountryCode ipStr l)) allowedRegions.

(** *** Lemmas *)

Lemma listed (code : string) l : existsb (String.eqb code) l = true <-> code ∈ l.
Proof.
  rewrite existsb_exists, list_elem_of_In. split; [by intros (x & Hx & ->%String.eqb_eq)|]. intros Hi. exists code. by rewrite String.eqb_refl.
Qed.

Lemma country_allowed ip cs l : IsCountryAllowed ip cs l = true <-> cs = [] \/ CountryCode ip l ∈ cs.
Proof.
  unfold IsCountryAllowed. destruct cs as [|c cs]; [naive_solver|].
  rewrite len_cons, (proj2 (Z.eqb_neq _ 0)), listed by (pose proof (len_nonneg cs); lia). naive_solver.
Qed.
Lemma country_blocked ip cs l : IsCountryBlocked ip cs l = true <-> CountryCode ip l ∈ cs.
Proof.
  unfold IsCountryBlocked. destruct cs as [|c cs]; [by rewrite elem_of_nil|].
  by rewrite len_cons, (proj2 (Z.eqb_neq _ 0)), listed by (pose proof (len_nonneg cs); lia).
Qed.

(** What the country rules do without data. While the databases cannot be
    opened, and for addresses that do not parse, the country is "XX": lists of
    allowed countries shut everyone out and lists of blocked ones nobody. Without
    configured databases the lookup counts as available and every address is in
    the country "", with the same effect. *)
Theorem countries_without_data Open city asn ip allowed blocked :
  let l := NewLookup Open city asn in
  IsAvailable l = false \/ ParseIP ip = None \/ city = "" ->
  "XX" ∉ allowed -> "" ∉ allowed -> "XX" ∉ blocked -> "" ∉ blocked -> allowed <> [] ->
  IsCountryAllowed ip allowed l = false /\ IsCountryBlocked ip blocked l = false
  /\ EnforceDataResidency ip allowed l = false.
Proof.
  intros l Hl Ha Ha' Hb Hb' Hne.
  assert (CountryCode ip l = "XX" \/ CountryCode ip l = "") as Hc.
  { unfold CountryCode, LookupIP. destruct Hl as [Hl|[Hl| ->]].
    - unfold IsAvailable in Hl. rewrite Hl. by left.
    - rewrite Hl. destruct (negb (available l)); by left.
    - destruct (negb (available l)); [by left|]. destruct (ParseIP ip) as [a|]; [|by left]. right.
      unfold l, NewLookup, open. cbn [cityDBPath asnDBPath db String.eqb asnDB available].
      destruct (if String.eqb asn "" then _ else _); cbn [snd db asnDB mbind option_bind]; unfold city_record;
        by destruct (default _ _). }
  assert (IsCountryAllowed ip allowed l = false) as E.
  { apply not_true_is_false. rewrite country_allowed. destruct Hc as [-> | ->]; tauto. }
  split_and!; [done| |exact E]. apply not_true_is_false. rewrite country_blocked. destruct Hc as [-> | ->]; tauto.
Qed.

(** A reload either opens both databases or leaves the lookup without any
    country: an error of one takes the data of the other away, too, until the
    next successful reload. *)
Theorem reload_all_or_nothing Open l :
  let '(err, l') := Reload Open l in
  (err = None <-> IsAvailable l' = true)
  /\ (err = None <-> (cityDBPath l = "" \/ is_Some (Open (cityDBPath l))) /\ (asnDBPath l = "" \/ is_Some (Open (asnDBPath l))))
  /\ (err <> None -> forall ip, CountryCode ip l' = "XX" /\ ASN ip l' = 0).
Proof.
  unfold Reload, open. cbn [Close cityDBPath asnDBPath db asnDB available].
  destruct (String.eqb_spec (cityDBPath l) "") as [->|]; destruct (String.eqb_spec (asnDBPath l) "") as [->|].
  - split_and!; [done| |done]. naive_solver.
  - destruct (Open (asnDBPath l)); cbn; (split_and!; [done| |]); naive_solver.
  - destruct (Open (cityDBPath l)); cbn; (split_and!; [done| |]); naive_solver.
  - destruct (Open (cityDBPath l)); [destruct (Open (asnDBPath l))|]; cbn; (split_and!; [done| |]); naive_solver.
Qed.

End geo.

(** A database that knows nobody. *)
#[local] Instance empty_db : GeoIP unit := {| City := fun _ _ => None; ASN_of := fun _ _ => None |}.

Lemma countries_without_data_witness :
  IsCountryAllowed "203.0.113.9" ["DE"; "FR"] (NewLookup (fun _ => None) "city.mmdb" "") = false.
Proof.
  refine (proj1 (countries_without_data (DB := unit) (fun _ => None) "city.mmdb" "" "203.0.113.9" ["DE"; "FR"] ["RU"] _ _ _ _ _ _));
    [by left|..|done];
    (intros Hx; repeat (apply elem_of_cons in Hx as [Hx|Hx]; [done|]); by apply elem_of_nil in Hx).
Defined.

End Geo.
