(* ===== verification/Siem.v ===== *)
(** * Export of events: [internal/siem/siem.go]

    The manager buffers events; one goroutine, woken by a ticker or by a signal
    of capacity one, takes the buffer under the lock and hands it to the
    exporters outside it; [Close] does the same in its caller. [fire] gives the
    atomic steps of all these threads, so that a run is any interleaving. The
    requests of the exporters are built with their JSON values unprinted; the
    HTTP client is the class [HttpClient], the local calendar [LocalDate]. *)

From Stdlib Require Import SpecFloat.
From S2P Require Import Prelude Float64 GoStr Crypto Encoding.

#[local] Open Scope string_scope.
#[local] Open Scope Z_scope.

Record ExporterConfig : Type := mkExporterConfig {
  Type_ : string; ExporterEnabled : bool; URL : string; Token : string; Index_ : string;
  Username : string; Password : string; VerifySSL : bool
}.
Record SIEMConfig : Type := mkSIEMConfig {
  Enabled : bool; ExportInterval : Z; BatchSize : Z; Exporters : list ExporterConfig
}.
Record SIEMEvent : Type := mkEvent {
  Timestamp : Z; EventType : string; Host : string; Source : string; EventID : Z; Name : string;
  Severity : Z; SrcIP : string; DstIP : string; HttpMethod : string; HttpURI : string;
  UserAgent : string; AttackType : string; RuleID : string; ThreatScore : f64; Blocked : bool;
  Country : string; Latency : f64; RawEvent : string; Metadata : gmap string string
}.

(** ** Exporters *)

Record SplunkExporter : Type := mkSplunk { splunk_url : string; splunk_token : string; splunk_index : string; verifySSL : bool }.
Record ElasticsearchExporter : Type := mkElasticsearch {
  urls : list string; es_index : string; es_username : string; es_password : string
}.
Inductive Exporter : Type := Splunk (e : SplunkExporter) | Elasticsearch (e : ElasticsearchExporter).

Definition newSplunkExporter (cfg : ExporterConfig) : SplunkExporter :=
  mkSplunk (URL cfg) (Token cfg) (Index_ cfg) (VerifySSL cfg).
Definition newElasticsearchExporter (cfg : ExporterConfig) : ElasticsearchExporter :=
  mkElasticsearch (Split (URL cfg) ",") (Index_ cfg) (Username cfg) (Password cfg).

(** Whether [json.Marshal] prints an event: numbers must be finite and the
    year of the time stamp between 0 and 9999 (in UTC here). *)
Definition finite (x : f64) : bool := match x with S754_nan | S754_infinity _ => false | _ => true end.
Definition year_ok (t : Z) : bool := (- 62167219200 * Second <=? t) && (t <? 253402300800 * Second).
Definition encodable (e : SIEMEvent) : bool :=
  year_ok (Timestamp e) && finite (ThreatScore e) && finite (Latency e).

(** The values of a request's body, printed one a line. *)
Inductive Line : Type :=
| HecLine (event : SIEMEvent) (host index : string) (time : f64)
| MetaLine (index : string)
| EventLine (event : SIEMEvent).

Record Request : Type := mkRequest { target : string; headers : list (string * string); body : list Line }.

(** [http.NewRequest] and [client.Do]: the status and body of the answer, or an
    error. *)
Class HttpClient : Type := { Do : Request -> result string (Z * string) }.
(** [t.Format("2006.01.02")] in the local time zone. *)
Class LocalDate : Type := { date_text : Z -> string }.

Definition hec_lines (index : string) (event : SIEMEvent) : list Line :=
  if encodable event then [HecLine event (Host event) index (of_int (time_unix (Timestamp event)))] else [].

Definition splunk_request (s : SplunkExporter) (events : list SIEMEvent) : Request :=
  mkRequest (splunk_url s)
    [("Authorization", "Splunk " ++ splunk_token s); ("Content-Type", "application/json")]
    (events ≫= hec_lines (splunk_index s)).

(** [Encode(event)] fails after [Encode(meta)] has been written. *)
Definition bulk_lines (index : string) (event : SIEMEvent) : list Line :=
  MetaLine index :: (if encodable event then [EventLine event] else []).

Definition basic_auth (username password : string) : list (string * string) :=
  if String.eqb username "" then [] else [("Authorization", "Basic " ++ b64_encode false (bytes_of (username ++ ":" ++ password)))].

Definition bulk_request `{LocalDate} (now : Z) (e : ElasticsearchExporter) (events : list SIEMEvent) : outcome Request :=
  let! first := index0 (urls e) in
  Returns (mkRequest (first ++ "/_bulk")
    (("Content-Type", "application/x-ndjson") :: basic_auth (es_username e) (es_password e))%list
    (events ≫= bulk_lines (es_index e ++ "-" ++ date_text now))).

(** [ex.Send(events)]: the request that is posted, if any, and the error. *)
Definition answer `{HttpClient} (refused : Z -> string -> string) (r : Request) : option string :=
  match Do r with
  | Err e => Some e
  | Ok (status, text) => if status =? 200 then None else Some (refused status text)
  end.
Definition splunk_refused (status : Z) (text : string) : string := "splunk returned " ++ Itoa status.
Definition bulk_refused (status : Z) (text : string) : string :=
  "elasticsearch returned " ++ Itoa status ++ ": " ++ text.
Definition Exporter_Send `{HttpClient} `{LocalDate} (now : Z) (ex : Exporter) (events : list SIEMEvent) :
    outcome (option Request * option string) :=
  match events with
  | [] => Returns (None, None)
  | _ =>
    match ex with
    | Splunk s => let r := splunk_request s events in Returns (Some r, answer splunk_refused r)
    | Elasticsearch e => let! r := bulk_request now e events in Returns (Some r, answer bulk_refused r)
    end
  end.

(** ** The manager *)

Record Manager : Type := mkManager {
  config : SIEMConfig; exporters : gmap string Exporter; buffer : list SIEMEvent;
  flushCh : bool; done_ : bool
}.
Definition set_buffer (b : list SIEMEvent) (m : Manager) : Manager :=
  mkManager (config m) (exporters m) b (flushCh m) (done_ m).
Definition set_flushCh (b : bool) (m : Manager) : Manager :=
  mkManager (config m) (exporters m) (buffer m) b (done_ m).
Definition close_done (m : Manager) : Manager :=
  mkManager (config m) (exporters m) (buffer m) (flushCh m) true.

Definition newExporter (ec : ExporterConfig) : option Exporter :=
  if negb (ExporterEnabled ec) then None
  else if String.eqb (Type_ ec) "splunk" then Some (Splunk (newSplunkExporter ec))
  else if String.eqb (Type_ ec) "elasticsearch" then Some (Elasticsearch (newElasticsearchExporter ec))
  else None.
Definition add_exporter (m : gmap string Exporter) (ec : ExporterConfig) : gmap string Exporter :=
  match newExporter ec with Some ex => <[Type_ ec := ex]> m | None => m end.

(** [make([]SIEMEvent, 0, n)] panics on a negative capacity and beyond the
    address space of 2^48 bytes; an event has 280. *)
Definition make_ok (n : Z) : bool := (0 <=? n) && (280 * n <=? 2 ^ 48).

Definition NewManager (cfg : SIEMConfig) : outcome Manager :=
  if make_ok (BatchSize cfg)
  then Returns (mkManager cfg (fold_left add_exporter (Exporters cfg) ∅) [] false false)
  else Panics.

(** [Send] under the lock: the manager and whether to signal; then the
    [select] with a [default]. *)
Definition append_event (e : SIEMEvent) (m : Manager) : Manager * bool :=
  let b := (buffer m ++ [e])%list in
  (set_buffer b m, BatchSize (config m) <=? len b).
Definition signal (m : Manager) : Manager := set_flushCh true m.
Definition Send (e : SIEMEvent) (m : Manager) : Manager :=
  let '(m, shouldFlush) := append_event e m in if shouldFlush then signal m else m.
Definition SendBatch (events : list SIEMEvent) (m : Manager) : Manager := fold_left (fun m e => Send e m) events m.

(** [flush] under the lock: the events taken, [None] when there are none. *)
Definition take_buffer (m : Manager) : option (list SIEMEvent) * Manager :=
  match buffer m with [] => (None, m) | b => (Some b, set_buffer [] m) end.

Definition Stats (m : Manager) : gmap string Z :=
  {["buffer_size" := len (buffer m); "exporters" := Z.of_nat (size (exporters m))]}.

(** ** Interleavings *)

(** Where a thread that flushes is: not started, waiting in its [select], about
    to take the buffer, handing a batch to the exporters still to come, ended. *)
Inductive flusher : Type :=
| NotStarted
| Selecting
| Woken
| Handing (events : list SIEMEvent) (todo : list (string * Exporter))
| Ended.
Inductive thread : Type := Loop | Closer.

(** The manager, the calls of [Send] between their critical section and their
    signal, the loop, the call of [Close], whether the process has died; and what
    was sent and handed over so far, which no code reads. *)
Record System : Type := mkSystem {
  mgr : Manager; signalling : nat; loop : flusher; closer : flusher; crashed : bool;
  sent : list SIEMEvent; handed : list (string * list SIEMEvent)
}.
Definition start (m : Manager) : System := mkSystem m 0 NotStarted NotStarted false [] [].

Definition flusher_of (t : thread) (s : System) : flusher := match t with Loop => loop s | Closer => closer s end.
Definition set_flusher (t : thread) (f : flusher) (s : System) : System :=
  match t with
  | Loop => mkSystem (mgr s) (signalling s) f (closer s) (crashed s) (sent s) (handed s)
  | Closer => mkSystem (mgr s) (signalling s) (loop s) f (crashed s) (sent s) (handed s)
  end.
Definition set_mgr (m : Manager) (s : System) : System :=
  mkSystem m (signalling s) (loop s) (closer s) (crashed s) (sent s) (handed s).
Definition crash (s : System) : System :=
  mkSystem (mgr s) (signalling s) (loop s) (closer s) true (sent s) (handed s).
Definition hand (name : string) (events : list SIEMEvent) (s : System) : System :=
  mkSystem (mgr s) (signalling s) (loop s) (closer s) (crashed s) (sent s) (handed s ++ [(name, events)]).

(** Where a thread goes when its flush is over. *)
Definition back (t : thread) : flusher := match t with Loop => Selecting | Closer => Ended end.
Definition handing (t : thread) (events : list SIEMEvent) (todo : list (string * Exporter)) : flusher :=
  match todo with [] => back t | _ => Handing events todo end.

Inductive action : Type :=
| Append (e : SIEMEvent)   (** a [Send] up to the unlock *)
| Signal                   (** the rest of a [Send] that signals *)
| Start                    (** the loop makes its ticker *)
| Tick                     (** the loop's [select] takes the ticker, *)
| Receive                  (** the signal, *)
| Stop                     (** or the closed channel [done] *)
| Take (t : thread)        (** [flush] up to the unlock *)
| Hand (t : thread)        (** the next exporter gets the batch *)
| CallClose.               (** [close(m.done)] *)

Definition fire_select (a : action) (s : System) : option System :=
  match loop s with
  | Selecting =>
    match a with
    | Tick => Some (set_flusher Loop Woken s)
    | Receive => if flushCh (mgr s) then Some (set_flusher Loop Woken (set_mgr (set_flushCh false (mgr s)) s)) else None
    | Stop => if done_ (mgr s) then Some (set_flusher Loop Ended s) else None
    | _ => None
    end
  | _ => None
  end.

Definition fire_take `{MapRange Exporter} (t : thread) (s : System) : option System :=
  match flusher_of t s with
  | Woken =>
    Some match take_buffer (mgr s) with
         | (None, _) => set_flusher t (back t) s
         | (Some events, m) => set_flusher t (handing t events (map_range (exporters m))) (set_mgr m s)
         end
  | _ => None
  end.

Definition fire_hand (t : thread) (s : System) : option System :=
  match flusher_of t s with
  | Handing events ((name, _) :: todo) => Some (set_flusher t (handing t events todo) (hand name events s))
  | _ => None
  end.

(** One atomic step; [None] when the thread cannot take it. [NewTicker] panics
    on an interval that is not positive, [close] on a closed channel, and a panic
    in any goroutine ends the process. *)
Definition fire `{MapRange Exporter} (a : action) (s : System) : option System :=
  if crashed s then None else
  match a with
  | Append e =>
    let '(m, shouldFlush) := append_event e (mgr s) in
    Some (mkSystem m (signalling s + (if shouldFlush then 1 else 0))%nat (loop s) (closer s) false (sent s ++ [e]) (handed s))
  | Signal =>
    match signalling s with
    | S n => Some (mkSystem (signal (mgr s)) n (loop s) (closer s) false (sent s) (handed s))
    | O => None
    end
  | Start =>
    match loop s with
    | NotStarted => Some (if ExportInterval (config (mgr s)) <=? 0 then crash s else set_flusher Loop Selecting s)
    | _ => None
    end
  | Tick | Receive | Stop => fire_select a s
  | Take t => fire_take t s
  | Hand t => fire_hand t s
  | CallClose =>
    Some (if done_ (mgr s) then crash s else set_flusher Closer Woken (set_mgr (close_done (mgr s)) s))
  end.

Fixpoint run `{MapRange Exporter} (actions : list action) (s : System) : option System :=
  match actions with [] => Some s | a :: actions => fire a s ≫= run actions end.

(** ** Common Event Format *)

Definition formatCEFSeverity (level : Z) : string :=
  if 8 <=? level then "Very High"
  else if 6 <=? level then "High"
  else if 4 <=? level then "Medium"
  else if 2 <=? level then "Low"
  else "Unknown".

Definition cef_field (key value : string) : string :=
  if String.eqb value "" then "" else " " ++ key ++ "=" ++ value.
Definition FormatCEF (event : SIEMEvent) : string :=
  "CEF:" ++ Itoa 0 ++ "|" ++ Host event ++ "|" ++ "FortressWAF" ++ "|" ++ Name event ++ "|" ++ Itoa (Severity event)
  ++ "|" ++ Name event ++ "|" ++ formatCEFSeverity (Severity event)
  ++ " src=" ++ SrcIP event ++ " dst=" ++ DstIP event ++ " dpt=" ++ Host event
  ++ cef_field "requestMethod" (HttpMethod event) ++ cef_field "request" (HttpURI event)
  ++ cef_field "attackType" (AttackType event) ++ cef_field "ruleId" (RuleID event).

(** ** What the manager keeps *)

Definition appended (a : action) : list SIEMEvent := match a with Append e => [e] | _ => [] end.

(** What exporter [n] has been handed, and what a thread still has for it. *)
Definition received (n : string) (log : list (string * list SIEMEvent)) : list SIEMEvent :=
  log ≫= fun p => if String.eqb p.1 n then p.2 else [].
Definition pending (n : string) (f : flusher) : list SIEMEvent :=
  match f with Handing events todo => if decide (n ∈ todo.*1) then events else [] | _ => [] end.

Definition handing_ok (f : flusher) : Prop :=
  match f with Handing _ todo => todo <> [] /\ NoDup todo.*1 | _ => True end.

(** One step, by cases on the action and on the branches of the code. *)
Ltac fire_cases a Hf :=
  destruct a; try (match goal with t : thread |- _ => destruct t end);
  unfold fire, fire_select, fire_take, fire_hand, append_event, take_buffer, crash, flusher_of in Hf;
  cbn [mgr set_mgr set_flusher hand loop closer] in Hf; go_cases.

Section manager.
Context `{MapRange Exporter}.

Lemma map_range_names (m : gmap string Exporter) : NoDup (map_range m).*1.
Proof. rewrite map_range_perm. apply NoDup_fst_map_to_list. Qed.

Lemma in_map_range_names (m : gmap string Exporter) n : is_Some (m !! n) -> n ∈ (map_range m).*1.
Proof. intros [ex Hex]. apply list_elem_of_fmap. exists (n, ex). by rewrite elem_of_map_range. Qed.

Lemma handing_ok_handing t events todo : NoDup todo.*1 -> handing_ok (handing t events todo).
Proof. by destruct todo as [|x todo], t. Qed.

Lemma pending_handing n t events todo : pending n (handing t events todo) = if decide (n ∈ todo.*1) then events else [].
Proof. destruct todo as [|x todo]; [by destruct t|done]. Qed.

(** The account of an exporter: where the events that were sent are. *)
Definition account (n : string) (s : System) : Prop :=
  sent s ≡ₚ received n (handed s) ++ pending n (loop s) ++ pending n (closer s) ++ buffer (mgr s)
  /\ (done_ (mgr s) = false -> sent s = (received n (handed s) ++ pending n (loop s) ++ buffer (mgr s))%list).

Definition threads_ok (s : System) : Prop :=
  handing_ok (loop s) /\ handing_ok (closer s) /\ (done_ (mgr s) = false -> closer s = NotStarted).

Definition fixed (m : Manager) (s : System) : Prop :=
  config (mgr s) = config m /\ exporters (mgr s) = exporters m.

Lemma fixed_fire m a s s' : fire a s = Some s' -> fixed m s -> fixed m s'.
Proof. unfold fixed. intros Hf [<- <-]. by fire_cases a Hf. Qed.

Lemma threads_ok_fire a s s' : fire a s = Some s' -> threads_ok s -> threads_ok s'.
Proof.
  unfold threads_ok. intros Hf (Hl & Hc & Hd). pose proof (map_range_names (exporters (mgr s))).
  fire_cases a Hf; repeat split; try done; try (by apply handing_ok_handing);
    try (by apply Hl || by apply Hc); try naive_solver.
  all: try (destruct Hl as [_ [? ?]%NoDup_cons]; by apply handing_ok_handing).
  all: try (destruct Hc as [_ [? ?]%NoDup_cons]; by apply handing_ok_handing).
Qed.

Lemma account_hand n t log events name ex todo :
  NoDup ((name, ex) :: todo).*1 ->
  (received n (log ++ [(name, events)]) ++ pending n (handing t events todo))%list
  = (received n log ++ pending n (Handing events ((name, ex) :: todo)))%list.
Proof.
  intros [Hn _]%NoDup_cons. rewrite pending_handing. unfold received at 1. cbn [pending fmap list_fmap fst].
  rewrite bind_app. cbn [mbind list_bind fst snd]. rewrite app_nil_r, <- app_assoc. f_equal.
  destruct (String.eqb_spec name n) as [->|Hne].
  - rewrite decide_False by done. rewrite decide_True by set_solver. by rewrite app_nil_r.
  - simpl. erewrite decide_ext; [done|]. set_solver.
Qed.

Lemma account_fire n a s s' :
  is_Some (exporters (mgr s) !! n) -> threads_ok s -> fire a s = Some s' -> account n s -> account n s'.
Proof.
  intros Hn (Hl & Hc & Hd) Hf [Hp Ho]. pose proof (in_map_range_names _ _ Hn) as Hr. unfold account.
  assert (forall t events name ex todo, handing_ok (Handing events ((name, ex) :: todo)) ->
    (received n (handed s ++ [(name, events)]) ++ pending n (handing t events todo))%list
    = (received n (handed s) ++ pending n (Handing events ((name, ex) :: todo)))%list) as Hh
    by (intros t events name ex todo [_ ?]; by apply account_hand).
  fire_cases a Hf; try match goal with Hb : buffer _ = [] |- _ => rewrite Hb end;
    try (split; [exact Hp|first [exact Ho|intros E; congruence]]).
  { rewrite !app_assoc. split; [rewrite Hp, !app_assoc; reflexivity|intros E; rewrite (Ho E), !app_assoc; reflexivity]. }
  { rewrite pending_handing, decide_True by done. split; [|intros E; rewrite (Ho E), app_nil_r; reflexivity].
    rewrite Hp, app_nil_r. f_equiv. apply Permutation_app_comm. }
  { rewrite pending_handing, decide_True by done. split; [|intros E; discriminate (Hd E)].
    rewrite Hp, app_nil_r. reflexivity. }
  1-2: match goal with E : loop _ = Handing ?ev _ |- _ => specialize (Hh Loop ev _ _ _ Hl) end.
  3-4: match goal with E : closer _ = Handing ?ev _ |- _ => specialize (Hh Closer ev _ _ _ Hc) end.
  1-4: match goal with Hd' : decide _ = _ |- _ => rewrite Hd' in Hh end.
  1-2: split; [rewrite (app_assoc _ (pending n (handing _ _ _))), Hh, <- app_assoc; exact Hp
              |intros E; rewrite (app_assoc _ (pending n (handing _ _ _))), Hh, <- app_assoc; exact (Ho E)].
  1-2: split; [|intros E; discriminate (Hd E)]; rewrite Hp, (Permutation_app_swap_app (pending n (loop s)) (pending n (handing _ _ _))),
         (app_assoc _ (pending n (handing _ _ _))), Hh, <- app_assoc; f_equiv;
         first [apply Permutation_app_swap_app|reflexivity].
  split; [|done]. by rewrite (Hd eq_refl) in Hp.
Qed.

Lemma run_inv (P : System -> Prop) :
  (forall a s s', fire a s = Some s' -> P s -> P s') ->
  forall actions s s', run actions s = Some s' -> P s -> P s'.
Proof.
  intros Hstep actions. induction actions as [|a actions IH]; intros s s'; cbn [run]; [by intros [= ->]|].
  intros (s1 & Hf & Hr)%bind_Some Hs. eauto.
Qed.

Lemma run_fixed m actions s : run actions (start m) = Some s -> fixed m s.
Proof. intros Hr. eapply run_inv; [apply fixed_fire|exact Hr|done]. Qed.

Lemma run_sent actions s s' : run actions s = Some s' -> sent s' = (sent s ++ (actions ≫= appended))%list.
Proof.
  revert s. induction actions as [|a actions IH]; intros s; cbn [run mbind list_bind]; [intros [= ->]; by rewrite app_nil_r|].
  intros (s1 & Hf & Hr)%bind_Some. rewrite (IH _ Hr), app_assoc. f_equal.
  fire_cases a Hf; by rewrite app_nil_r.
Qed.

Lemma run_account m n actions s :
  is_Some (exporters m !! n) -> buffer m = [] -> done_ m = false -> run actions (start m) = Some s -> account n s.
Proof.
  intros Hn Hb Hd Hr.
  assert (fixed m s /\ threads_ok s /\ account n s) as (_ & _ & ?); [|done].
  eapply (run_inv (fun s => fixed m s /\ threads_ok s /\ account n s)); [|exact Hr|].
  - intros a s1 s2 Hf (Hm & Ht & Ha). split; [by eapply fixed_fire|]. split; [by eapply threads_ok_fire|].
    eapply account_fire; [|done..]. by destruct Hm as [_ ->].
  - split; [done|]. split; [done|]. unfold account. cbn. by rewrite Hb.
Qed.

(** ** Signals *)

Definition full (m : Manager) : Prop := buffer m <> [] /\ BatchSize (config m) <= len (buffer m).
Definition wakes (s : System) : Prop := flushCh (mgr s) = true \/ (0 < signalling s)%nat \/ loop s = Woken.

Lemma wakes_fire a s s' : fire a s = Some s' -> (full (mgr s) -> wakes s) -> full (mgr s') -> wakes s'.
Proof.
  unfold full, wakes. intros Hf Hw.
  fire_cases a Hf; cbn in *; intros [Hb Hl]; try done; try (by auto); try naive_solver lia.
Qed.

Lemma run_cons a actions s s1 : fire a s = Some s1 -> run (a :: actions) s = run actions s1.
Proof. intros Hf. cbn [run]. by rewrite Hf. Qed.

(** The loop finishes a batch by itself. *)
Lemma finish_handing events todo : forall s,
  loop s = Handing events todo -> todo <> [] -> crashed s = false ->
  exists s', run (replicate (length todo) (Hand Loop)) s = Some s' /\ loop s' = Selecting /\ mgr s' = mgr s
    /\ signalling s' = signalling s /\ crashed s' = false.
Proof.
  induction todo as [|[name ex] todo IH]; intros s Hl Hn Hc; [done|]. cbn [length replicate run].
  unfold fire at 1. rewrite Hc. unfold fire_hand. cbn [flusher_of]. rewrite Hl. cbn [mbind option_bind].
  destruct todo as [|x todo].
  - eexists. by split.
  - by apply (IH (set_flusher Loop (Handing events (x :: todo)) (hand name events s))).
Qed.

Lemma take_empties t s s' : fire (Take t) s = Some s' -> buffer (mgr s') = [].
Proof.
  intros Hf. destruct t; unfold fire, fire_take, take_buffer in Hf; go_cases.
Qed.

Lemma woken_takes s : loop s = Woken -> crashed s = false -> exists s', fire (Take Loop) s = Some s'.
Proof. intros Hl Hc. unfold fire, fire_take. cbn [flusher_of]. rewrite Hc, Hl. by eexists. Qed.

Lemma selecting_drains s :
  loop s = Selecting -> crashed s = false -> flushCh (mgr s) = true \/ (0 < signalling s)%nat ->
  exists actions s', Forall (fun a => a ∈ [Signal; Receive; Take Loop]) actions /\ run actions s = Some s' /\ buffer (mgr s') = [].
Proof.
  intros Hl Hc Hw.
  assert (forall s, loop s = Selecting -> crashed s = false -> flushCh (mgr s) = true ->
    exists s', run [Receive; Take Loop] s = Some s' /\ buffer (mgr s') = []) as Hr.
  { clear. intros s Hl Hc Hf.
    edestruct (woken_takes (set_flusher Loop Woken (set_mgr (set_flushCh false (mgr s)) s))) as [s' Hs]; [done..|].
    exists s'. split; [|by eapply take_empties]. erewrite run_cons; [by erewrite run_cons|].
    unfold fire, fire_select. by rewrite Hc, Hl, Hf. }
  destruct (flushCh (mgr s)) eqn:Hf.
  - destruct (Hr s Hl Hc Hf) as (s' & Hs & Hb). exists [Receive; Take Loop], s'. split; [repeat constructor; set_solver|done].
  - destruct Hw as [?|Hw]; [done|]. destruct (signalling s) as [|k] eqn:Hk; [lia|].
    destruct (Hr (mkSystem (signal (mgr s)) k (loop s) (closer s) false (sent s) (handed s))) as (s' & Hs & Hb); [done..|].
    exists [Signal; Receive; Take Loop], s'. split; [repeat constructor; set_solver|]. split; [|done].
    erewrite run_cons; [exact Hs|]. unfold fire. by rewrite Hc, Hk.
Qed.

Lemma run_app actions actions' s s' s'' : run actions s = Some s' -> run actions' s' = Some s'' -> run (actions ++ actions') s = Some s''.
Proof.
  revert s. induction actions as [|a actions IH]; intros s; cbn [run app]; [by intros [= ->]|].
  intros (s1 & -> & Hr)%bind_Some Hr'. cbn. eauto.
Qed.

(** [C9] Whatever the interleaving of sends, ticks, signals, flushes and one
    or several calls of [Close], every event sent is for each exporter in exactly
    one place: in a batch it was handed, in the batch a thread holds for it, or in
    the buffer. Until [Close] is called each exporter has got them in the order of
    sending. An exporter that refuses a batch is not handed it again. *)
Theorem events_handed_once cfg m n actions s :
  NewManager cfg = Returns m -> is_Some (exporters m !! n) -> run actions (start m) = Some s ->
  (actions ≫= appended) ≡ₚ received n (handed s) ++ pending n (loop s) ++ pending n (closer s) ++ buffer (mgr s)
  /\ (done_ (mgr s) = false ->
      (actions ≫= appended) = (received n (handed s) ++ pending n (loop s) ++ buffer (mgr s))%list).
Proof.
  intros Hm Hn Hr. replace (actions ≫= appended) with (sent s) by exact (run_sent _ _ _ Hr).
  unfold NewManager in Hm. destruct (make_ok (BatchSize cfg)); [|done]. injection Hm as <-.
  by apply (run_account _ _ _ _ Hn eq_refl eq_refl Hr).
Qed.

(** [C10] Dropping a signal when one is waiting loses nothing: in every
    reachable state with a full buffer a signal is waiting, about to be sent, or the
    loop is about to take the buffer; and from there, as long as the loop has started
    and not stopped, the signal's sender and the loop alone empty the buffer, without
    the ticker. *)
Theorem full_buffer_drains m actions s :
  buffer m = [] -> run actions (start m) = Some s -> full (mgr s) ->
  wakes s /\
  (crashed s = false -> loop s <> NotStarted -> loop s <> Ended ->
   exists actions' s', Forall (fun a => a ∈ [Signal; Receive; Take Loop; Hand Loop]) actions'
     /\ run actions' s = Some s' /\ buffer (mgr s') = []).
Proof.
  intros Hb Hr Hf.
  assert (wakes s) as Hw.
  { revert Hf. eapply (run_inv (fun s => full (mgr s) -> wakes s)); [apply wakes_fire|exact Hr|].
    intros [Hne _]. by destruct Hne. }
  assert (threads_ok s) as (Hh & _) by (eapply run_inv; [apply threads_ok_fire|exact Hr|done]).
  split; [done|]. intros Hc Hns Hne. destruct (loop s) as [| | |events todo|] eqn:Hl; [done| | | |done].
  - destruct (selecting_drains s Hl Hc) as (l & s' & Hall & Hrun & Hbuf).
    { destruct Hw as [?|[?|?]]; [tauto..|congruence]. }
    exists l, s'. split; [|done]. eapply Forall_impl; [exact Hall|]. set_solver.
  - destruct (woken_takes s Hl Hc) as [s' Hs]. exists [Take Loop], s'. split; [repeat constructor; set_solver|].
    split; [cbn [run]; by rewrite Hs|by eapply take_empties].
  - destruct Hh as [Hne' _]. destruct (finish_handing events todo s Hl Hne' Hc) as (s1 & Hr1 & Hl1 & Hm1 & Hs1 & Hc1).
    destruct (selecting_drains s1 Hl1 Hc1) as (l & s' & Hall & Hrun & Hbuf).
    { rewrite Hm1, Hs1. destruct Hw as [?|[?|?]]; [tauto..|congruence]. }
    exists (replicate (length todo) (Hand Loop) ++ l)%list, s'. split; [|split; [by eapply run_app|done]].
    apply Forall_app. split; [apply Forall_replicate; set_solver|]. eapply Forall_impl; [exact Hall|]. set_solver.
Qed.

(** After [Close] has flushed and the loop has stopped, sends still
    succeed, and what they send stays in the buffer for ever: no run from there
    hands anything to an exporter. *)
Theorem closed_manager_strands actions s s' :
  done_ (mgr s) = true -> loop s = Ended -> closer s = Ended -> run actions s = Some s' ->
  handed s' = handed s /\ buffer (mgr s') = (buffer (mgr s) ++ (actions ≫= appended))%list.
Proof.
  intros Hd Hl Hc Hr. revert s Hd Hl Hc Hr. induction actions as [|a actions IH]; intros s Hd Hl Hc; cbn [run mbind list_bind].
  - intros [= ->]. by rewrite app_nil_r.
  - intros (s1 & Hf & Hr)%bind_Some. specialize (IH s1). rewrite app_assoc.
    fire_cases a Hf; cbn in IH; destruct IH as [-> ->]; try done; by rewrite ?app_nil_r.
Qed.

(** The process dies as soon as the loop starts exactly when the export
    interval is not positive, although the manager was created without an error. *)
Theorem interval_kills_process cfg m s :
  NewManager cfg = Returns m -> run [Start] (start m) = Some s -> crashed s = true <-> ExportInterval cfg <= 0.
Proof.
  unfold NewManager. destruct (make_ok (BatchSize cfg)); [|done]. intros [= <-]. cbn.
  destruct (Z.leb_spec (ExportInterval cfg) 0); intros [= <-]; cbn; split; done || lia.
Qed.

End manager.

(** ** Exporters and formats *)

Lemma fold_add_exporter k l :
  fold_left add_exporter l ∅ !! k = last (omap (fun ec => if String.eqb (Type_ ec) k then newExporter ec else None) l).
Proof.
  induction l as [|ec l IH] using rev_ind; [done|].
  rewrite fold_left_app, omap_app. cbn [fold_left omap list_omap]. unfold add_exporter at 1.
  destruct (String.eqb_spec (Type_ ec) k) as [<-|Hne].
  - destruct (newExporter ec); [by rewrite lookup_insert_eq, last_snoc|by rewrite app_nil_r].
  - rewrite app_nil_r. destruct (newExporter ec); [by rewrite lookup_insert_ne|done].
Qed.

(** Of the configured exporters of one type only the last enabled one
    exists; types other than splunk and elasticsearch never do. *)
Theorem last_exporter_wins cfg m k :
  NewManager cfg = Returns m ->
  exporters m !! k = last (omap (fun ec => if String.eqb (Type_ ec) k then newExporter ec else None) (Exporters cfg)).
Proof. unfold NewManager. destruct (make_ok (BatchSize cfg)); [|done]. intros [= <-]. apply fold_add_exporter. Qed.

(** A bulk body is a sequence of pairs of an action and a document. *)
Fixpoint pairs (l : list Line) : bool :=
  match l with
  | [] => true
  | MetaLine _ :: EventLine _ :: l => pairs l
  | _ => false
  end.

Lemma pairs_bulk index events : pairs (events ≫= bulk_lines index) = forallb encodable events.
Proof.
  induction events as [|e events IH]; [done|]. cbn [mbind list_bind forallb]. unfold bulk_lines at 1.
  destruct (encodable e); cbn [app pairs andb]; [exact IH|].
  destruct events as [|e' events]; [done|]. cbn [mbind list_bind]. unfold bulk_lines at 1. by destruct (encodable e').
Qed.

(** The body of a bulk request pairs every action with a document exactly
    when every event of the batch can be encoded: one event with an infinite score
    shifts the pairs of the whole batch. The splunk body of the same batch leaves
    that event out. *)
Theorem bulk_pairs_iff `{LocalDate} now e s events r :
  bulk_request now e events = Returns r ->
  pairs (body r) = forallb encodable events
  /\ len (body (splunk_request s events)) = count_of encodable events.
Proof.
  unfold bulk_request. destruct (index0 (urls e)); [|done]. intros [= <-]. split; [apply pairs_bulk|].
  cbn [body splunk_request]. induction events as [|ev events IH]; [done|].
  cbn [mbind list_bind]. rewrite len_app, count_of_cons, IH. unfold hec_lines at 1. by destruct (encodable ev).
Qed.

Definition bars (s : string) : Z := count_of (Ascii.eqb "|") (String.list_ascii_of_string s).

Lemma bars_app s t : bars (s ++ t) = bars s + bars t.
Proof.
  unfold bars. induction s as [|c s IH]; [done|].
  change (String.list_ascii_of_string (String c s ++ t)) with (c :: String.list_ascii_of_string (s ++ t)).
  change (String.list_ascii_of_string (String c s)) with (c :: String.list_ascii_of_string s).
  rewrite !count_of_cons, IH. lia.
Qed.

Lemma bars_uint u : bars (DecimalString.NilEmpty.string_of_uint u) = 0.
Proof. unfold bars. induction u; [done|..]; cbn; by rewrite count_of_cons. Qed.

Lemma bars_Itoa z : bars (Itoa z) = 0.
Proof.
  assert (forall u, bars (DecimalString.NilZero.string_of_uint u) = 0) as Hu by (intros []; first [done|apply bars_uint]).
  unfold Itoa. destruct (Z.to_int z) as [u|u]; [apply Hu|].
  change (bars ("-" ++ DecimalString.NilZero.string_of_uint u) = 0). by rewrite bars_app, Hu.
Qed.

Lemma bars_severity z : bars (formatCEFSeverity z) = 0.
Proof. unfold formatCEFSeverity. go_cases. Qed.

Lemma bars_field key value : bars key = 0 -> bars (cef_field key value) = bars value.
Proof.
  intros Hk. unfold cef_field. destruct (String.eqb_spec value "") as [->|]; [done|].
  by rewrite !bars_app, Hk.
Qed.

(** A CEF line has the six bars of the code's format and those of the
    event's texts, which are not escaped: never the seven of the format's header
    unless a text has one, and then the fields move. *)
Theorem cef_bars e :
  bars (FormatCEF e)
  = 6 + 2 * bars (Host e) + 2 * bars (Name e) + bars (SrcIP e) + bars (DstIP e)
    + bars (HttpMethod e) + bars (HttpURI e) + bars (AttackType e) + bars (RuleID e).
Proof.
  unfold FormatCEF. rewrite !bars_app, !bars_Itoa, bars_severity, !bars_field by done.
  change (bars "CEF:") with 0. change (bars "|") with 1. change (bars "FortressWAF") with 0.
  change (bars " src=") with 0. change (bars " dst=") with 0. change (bars " dpt=") with 0. unfold Host. lia.
Qed.

(** Sending never panics for the exporters a manager is built with. *)
Theorem exporters_send `{HttpClient} `{LocalDate} cfg m n ex now events :
  NewManager cfg = Returns m -> exporters m !! n = Some ex -> exists r, Exporter_Send now ex events = Returns r.
Proof.
  unfold NewManager. destruct (make_ok (BatchSize cfg)); [|done]. intros [= <-]. cbn [exporters].
  rewrite fold_add_exporter. intros Hl%last_Some_elem_of. apply list_elem_of_omap in Hl as (ec & _ & Hec).
  unfold Exporter_Send. destruct events as [|e events]; [by eexists|].
  destruct (String.eqb (Type_ ec) n); [|done]. unfold newExporter in Hec.
  repeat case_match; simplify_eq; [by eexists|].
  unfold bulk_request, newElasticsearchExporter, Split. cbn [urls].
  destruct (split_head (URL ec) "," 0 None "") as (p & rest & ->). cbn. by eexists.
Qed.

(** A whole [Send] is its two steps. *)
Lemma Send_steps `{MapRange Exporter} e s :
  crashed s = false ->
  exists actions s', Forall (fun a => a ∈ [Append e; Signal]) actions /\ run actions s = Some s'
    /\ mgr s' = Send e (mgr s) /\ loop s' = loop s /\ closer s' = closer s.
Proof.
  intros Hc. unfold Send, append_event. destruct (BatchSize (config (mgr s)) <=? len (buffer (mgr s) ++ [e])) eqn:Hb.
  - exists [Append e; Signal], (mkSystem (signal (set_buffer (buffer (mgr s) ++ [e]) (mgr s))) (signalling s) (loop s) (closer s)
      false (sent s ++ [e]) (handed s)).
    split; [repeat constructor; set_solver|]. split; [|by split].
    unfold run, fire, append_event. rewrite Hc, Hb. cbn. by rewrite Nat.add_1_r.
  - exists [Append e], (mkSystem (set_buffer (buffer (mgr s) ++ [e]) (mgr s)) (signalling s + 0) (loop s) (closer s)
      false (sent s ++ [e]) (handed s)).
    split; [repeat constructor; set_solver|]. split; [|by split].
    unfold run, fire, append_event. by rewrite Hc, Hb.
Qed.

Lemma SendBatch_buffer events m : buffer (SendBatch events m) = (buffer m ++ events)%list.
Proof.
  unfold SendBatch. revert m. induction events as [|e events IH]; intros m; cbn [fold_left]; [by rewrite app_nil_r|].
  rewrite IH. replace (buffer (Send e m)) with (buffer m ++ [e])%list; [by rewrite <- app_assoc|].
  unfold Send, append_event. by case_match.
Qed.

(** ** Witnesses *)

Definition ev (name : string) (score : f64) : SIEMEvent :=
  mkEvent 0 "attack" "shop" "waf" 1 name 9 "1.2.3.4" "" "GET" "/" "" "sqli" "r1" score true "" f0 "" ∅.
Definition two_exporters : SIEMConfig :=
  mkSIEMConfig true Second 1
    [mkExporterConfig "splunk" true "http://a" "t" "i" "" "" true;
     mkExporterConfig "elasticsearch" true "http://b,http://c" "" "i" "u" "p" true;
     mkExporterConfig "splunk" true "http://d" "t" "i" "" "" true].
Definition two_manager : Manager :=
  mkManager two_exporters (fold_left add_exporter (Exporters two_exporters) ∅) [] false false.
Definition life : list action :=
  [Start; Append (ev "a" f0); Signal; Receive; Append (ev "b" f0); Take Loop; Hand Loop; CallClose; Take Closer;
   Append (ev "c" f0); Hand Loop; Stop].
Definition after (actions : list action) : System := default (start two_manager) (run actions (start two_manager)).

Lemma events_handed_once_witness :
  [ev "a" f0; ev "b" f0; ev "c" f0]
    ≡ₚ received "splunk" (handed (after life)) ++ pending "splunk" (loop (after life))
       ++ pending "splunk" (closer (after life)) ++ buffer (mgr (after life)).
Proof.
  apply (events_handed_once two_exporters two_manager "splunk" life (after life)); [reflexivity|by eexists|].
  vm_compute. reflexivity.
Defined.

Lemma full_buffer_drains_witness : wakes (after [Start; Append (ev "a" f0)]).
Proof.
  apply (full_buffer_drains two_manager [Start; Append (ev "a" f0)]); [reflexivity|vm_compute; reflexivity|].
  split; vm_compute; [discriminate|intros H; discriminate H].
Defined.

(** The loop may still hold a batch when the call of [Close] is over. *)
Definition closed_life : list action := [Start; CallClose; Take Closer; Stop].
Lemma closed_manager_strands_witness :
  handed (after (closed_life ++ [Append (ev "a" f0); Signal])) = []
  /\ buffer (mgr (after (closed_life ++ [Append (ev "a" f0); Signal]))) = [ev "a" f0].
Proof.
  apply (closed_manager_strands [Append (ev "a" f0); Signal] (after closed_life)); vm_compute; reflexivity.
Defined.

Example close_leaves_loop_handing :
  closer (after [Start; Append (ev "a" f0); Tick; Take Loop; CallClose; Take Closer]) = Ended
  /\ loop (after [Start; Append (ev "a" f0); Tick; Take Loop; CallClose; Take Closer]) <> Selecting.
Proof. split; [reflexivity|]. vm_compute. discriminate. Qed.

Example second_close_kills : crashed (after [Start; CallClose; CallClose]) = true.
Proof. reflexivity. Qed.

Lemma interval_kills_process_witness :
  crashed (crash (start (mkManager (mkSIEMConfig true 0 1 []) ∅ [] false false))) = true <-> 0 <= 0.
Proof.
  apply (interval_kills_process (mkSIEMConfig true 0 1 []) (mkManager (mkSIEMConfig true 0 1 []) ∅ [] false false));
    reflexivity.
Defined.

Lemma last_exporter_wins_witness : exporters two_manager !! "splunk" = Some (Splunk (mkSplunk "http://d" "t" "i" true)).
Proof. exact (last_exporter_wins two_exporters two_manager "splunk" eq_refl). Defined.

Definition no_date : LocalDate := {| date_text := fun _ => "1970.01.01" |}.
Definition no_network : HttpClient := {| Do := fun _ => Err "refused" |}.
Definition es : ElasticsearchExporter := mkElasticsearch ["http://b"] "i" "" "".
Definition shifted : list SIEMEvent := [ev "a" (S754_infinity false); ev "b" f0].

Lemma bulk_pairs_iff_witness :
  pairs [MetaLine "i-1970.01.01"; MetaLine "i-1970.01.01"; EventLine (ev "b" f0)] = false
  /\ len (body (splunk_request (mkSplunk "" "" "" true) shifted)) = 1.
Proof.
  exact (@bulk_pairs_iff no_date 0 es (mkSplunk "" "" "" true) shifted
    (mkRequest "http://b/_bulk" [("Content-Type", "application/x-ndjson")]
      [MetaLine "i-1970.01.01"; MetaLine "i-1970.01.01"; EventLine (ev "b" f0)]) eq_refl).
Defined.

Lemma exporters_send_witness :
  exists r, @Exporter_Send no_network no_date 0 (Splunk (mkSplunk "http://d" "t" "i" true)) shifted = Returns r.
Proof. exact (@exporters_send no_network no_date two_exporters two_manager "splunk" _ 0 shifted eq_refl eq_refl). Defined.
