(* ===== verification/Ml.v ===== *)
(** * Client of the ML service: [internal/ml/client.go]

    Requests to the service and the circuit breaker in front of them. What one
    call of the HTTP client gives is a [reply]; a method that calls several times
    takes the replies and the readings of the clock by attempt. The JSON of a
    request is the class [RequestEncoder]; responses are decoded by [Json]. *)

From S2P Require Import Prelude Float64 GoStr Json.

#[local] Open Scope string_scope.
#[local] Open Scope Z_scope.

Record InspectionResult : Type := mkInspection {
  ThreatScore : f64; IsMalicious : bool; Category : string; Confidence : f64;
  Features : gmap string f64; res_BotScore : f64; AnomalyScore : f64
}.
Record ClassificationResult : Type := mkClassification {
  Label : string; Score : f64; Probabilities : gmap string f64
}.
Record FingerprintResult : Type := mkFingerprint { Fingerprint_ : string; fp_Confidence : f64; IsKnown : bool }.
Record BotScoreResult : Type := mkBotScore { bot_Score : f64; IsBot : bool; BotType : string }.

Record InspectRequest : Type := mkInspectRequest {
  Method : string; Path : string; Headers : gmap string string; Body : string; ContentType : string;
  RealIP : string; UserAgent : string; QueryParams : gmap string (list string)
}.

(** ** Decoding *)

Definition as_bool (v : json) : option bool := match v with JBool b => Some b | _ => None end.
Definition as_float (v : json) : option f64 := match v with JNumber t => Some (number_value t) | _ => None end.
(** A [map[string]float64]: null values are 0, the last of equal keys wins. *)
Definition as_floats (v : json) : option (gmap string f64) :=
  match v with
  | JObject l =>
      fold_left (fun acc p => m ← acc; x ← (match snd p with JNull => Some f0 | v => as_float v end); Some (<[fst p := x]> m))
        l (Some ∅)
  | _ => None
  end.

Section decoding.
Context `{Unicode}.

Definition decode_inspection (v : json) : option InspectionResult :=
  l ← as_members v; threat ← member as_float "threat_score" f0 l; mal ← member as_bool "is_malicious" false l;
  cat ← member as_string "category" "" l; conf ← member as_float "confidence" f0 l;
  feat ← member as_floats "features" ∅ l; bot ← member as_float "bot_score" f0 l;
  anom ← member as_float "anomaly_score" f0 l;
  Some (mkInspection threat mal cat conf feat bot anom).
Definition decode_classification (v : json) : option ClassificationResult :=
  l ← as_members v; label ← member as_string "label" "" l; score ← member as_float "score" f0 l;
  probs ← member as_floats "probabilities" ∅ l; Some (mkClassification label score probs).
Definition decode_fingerprint (v : json) : option FingerprintResult :=
  l ← as_members v; fp ← member as_string "fingerprint" "" l; conf ← member as_float "confidence" f0 l;
  known ← member as_bool "is_known" false l; Some (mkFingerprint fp conf known).
Definition decode_bot_score (v : json) : option BotScoreResult :=
  l ← as_members v; score ← member as_float "score" f0 l; bot ← member as_bool "is_bot" false l;
  kind ← member as_string "bot_type" "" l; Some (mkBotScore score bot kind).

(** ** One call *)

Inductive reply : Type :=
| NoRequest (e : string)  (** [http.NewRequestWithContext] failed *)
| NoAnswer (e : string)   (** [httpClient.Do] failed *)
| Answered (status : Z) (text : string).

Inductive call_error : Type :=
| MarshalError (e : string)
| CreateRequest (e : string)
| HttpRequest (e : string)
| ServiceReturned (status : Z) (text : string)
| DecodeResponse.

Definition callInspect (r : reply) : result call_error InspectionResult :=
  match r with
  | NoRequest e => Err (CreateRequest e)
  | NoAnswer e => Err (HttpRequest e)
  | Answered status text =>
      if negb (status =? 200) then Err (ServiceReturned status text)
      else match v ← Decode text; decode_inspection v with Some res => Ok res | None => Err DecodeResponse end
  end.

(** [Classify], [Fingerprint] and [BotScore] are this code with a path and a
    type of result each: [marshalled] is what [json.Marshal(data)] gives. *)
Definition post_data {A} (decode : json -> option A) (marshalled : result string string) (r : reply) : result call_error A :=
  match marshalled with
  | Err e => Err (MarshalError e)
  | Ok _ =>
      match r with
      | NoRequest e => Err (CreateRequest e)
      | NoAnswer e => Err (HttpRequest e)
      | Answered _ text => match v ← Decode text; decode v with Some res => Ok res | None => Err DecodeResponse end
      end
  end.
Definition Classify := post_data decode_classification.
Definition Fingerprint := post_data decode_fingerprint.
Definition BotScore := post_data decode_bot_score.

Definition HealthCheck (r : reply) : option call_error :=
  match r with NoRequest e => Some (CreateRequest e) | NoAnswer e => Some (HttpRequest e) | Answered _ _ => None end.
End decoding.

(** ** The client *)

Record circuitBreaker : Type := mkBreaker {
  failures : Z; lastError : Z; threshold : Z; cooldown : Z; open : bool
}.
Record Client : Type := mkClient {
  baseURL : string; timeout : Z; maxRetries : Z; fallback : string; available : bool; cbState : circuitBreaker
}.
Definition set_cb (cb : circuitBreaker) (c : Client) : Client :=
  mkClient (baseURL c) (timeout c) (maxRetries c) (fallback c) (available c) cb.

Definition NewClient (endpoint : string) (timeoutSec maxRetries : Z) (fallbackMode : string) : Client :=
  mkClient endpoint (wrap64 (timeoutSec * Second)) maxRetries fallbackMode true (mkBreaker 0 zero_time 5 (30 * Second) false).

Definition SetAvailable (avail : bool) (c : Client) : Client :=
  mkClient (baseURL c) (timeout c) (maxRetries c) (fallback c) avail (cbState c).

Definition breaker_available (now : Z) (cb : circuitBreaker) : bool * circuitBreaker :=
  if open cb then
    if cooldown cb <? time_sub now (lastError cb)
    then (true, mkBreaker 0 (lastError cb) (threshold cb) (cooldown cb) false)
    else (false, cb)
  else (true, cb).
Definition isAvailable (now : Z) (c : Client) : bool * Client :=
  if negb (available c) then (false, c)
  else let '(ok, cb) := breaker_available now (cbState c) in (ok, set_cb cb c).

Definition breaker_success (cb : circuitBreaker) : circuitBreaker :=
  mkBreaker 0 (lastError cb) (threshold cb) (cooldown cb) (open cb).
Definition recordSuccess (c : Client) : Client := set_cb (breaker_success (cbState c)) c.

Definition breaker_failure (now : Z) (cb : circuitBreaker) : circuitBreaker :=
  let n := incr (failures cb) in
  if threshold cb <=? n then mkBreaker n now (threshold cb) (cooldown cb) true
  else mkBreaker n (lastError cb) (threshold cb) (cooldown cb) (open cb).
Definition recordFailure (now : Z) (c : Client) : Client := set_cb (breaker_failure now (cbState c)) c.

Definition fallbackResult (c : Client) : InspectionResult :=
  if String.eqb (fallback c) "block" then mkInspection (of_int 100) true "" f0 ∅ (of_int 100) f0
  else if String.eqb (fallback c) "monitor" then mkInspection (of_int 50) false "" f0 ∅ (of_int 50) f0
  else mkInspection f0 false "" f0 ∅ f0 f0.

Inductive inspect_error : Type :=
| ClientUnavailable
| InspectFailed (retries : Z) (last : option call_error).

Section client.
Context `{Unicode}.

(** The loop of [Inspect] with [n] rounds to go: the result or the last error,
    the number of calls made, the client. *)
Fixpoint attempts (n i : nat) (last : option call_error) (replies : nat -> reply) (clock : nat -> Z) (c : Client) :
    result (option call_error) InspectionResult * nat * Client :=
  match n with
  | O => (Err last, i, c)
  | S n =>
      match callInspect (replies i) with
      | Ok res => (Ok res, S i, recordSuccess c)
      | Err e => attempts n (S i) (Some e) replies clock (recordFailure (clock i) c)
      end
  end.

(** [i] runs from 0 to [maxRetries], which is below the largest [int]. *)
Definition rounds (c : Client) : nat := Z.to_nat (maxRetries c + 1).

Definition Inspect (now : Z) (replies : nat -> reply) (clock : nat -> Z) (c : Client) :
    InspectionResult * option inspect_error * nat * Client :=
  let '(ok, c) := isAvailable now c in
  if negb ok then (fallbackResult c, Some ClientUnavailable, O, c)
  else
    match attempts (rounds c) 0 None replies clock c with
    | (Ok res, calls, c) => (res, None, calls, c)
    | (Err last, calls, c) => (fallbackResult c, Some (InspectFailed (maxRetries c) last), calls, c)
    end.

(** ** The breaker *)

Definition fails (replies : nat -> reply) (i : nat) : Prop := exists e, callInspect (replies i) = Err e.

(** The breaker after the failures of the attempts from [i] on. *)
Fixpoint after_failures (k i : nat) (clock : nat -> Z) (cb : circuitBreaker) : circuitBreaker :=
  match k with O => cb | S k => after_failures k (S i) clock (breaker_failure (clock i) cb) end.

Lemma recordFailure_rest now c :
  maxRetries (recordFailure now c) = maxRetries c /\ fallback (recordFailure now c) = fallback c
  /\ available (recordFailure now c) = available c /\ cbState (recordFailure now c) = breaker_failure now (cbState c).
Proof. done. Qed.

Lemma attempts_fail k : forall n i last replies clock c,
  (forall j, (i <= j < i + k)%nat -> fails replies j) -> (k <= n)%nat ->
  exists last', (k = O -> last' = last) /\
  attempts n i last replies clock c
  = attempts (n - k) (i + k) last' replies clock (set_cb (after_failures k i clock (cbState c)) c).
Proof.
  induction k as [|k IH]; intros n i last replies clock c Hf Hk.
  - exists last. split; [done|]. rewrite Nat.sub_0_r, Nat.add_0_r. by destruct c.
  - destruct n as [|n]; [lia|]. cbn [attempts]. destruct (Hf i ltac:(lia)) as [e ->].
    destruct (IH n (S i) (Some e) replies clock (recordFailure (clock i) c)) as (last' & _ & ->); [|lia|].
    { intros j Hj. apply Hf. lia. }
    exists last'. split; [done|]. cbn [Nat.sub after_failures]. f_equal. lia.
Qed.

Lemma after_failures_fixed k i clock cb :
  threshold (after_failures k i clock cb) = threshold cb /\ cooldown (after_failures k i clock cb) = cooldown cb.
Proof.
  revert i cb. induction k as [|k IH]; intros i cb; [done|]. cbn [after_failures].
  destruct (IH (S i) (breaker_failure (clock i) cb)) as [-> ->]. unfold breaker_failure. by destruct (_ <=? _).
Qed.

Lemma after_failures_count k : forall i clock cb,
  0 <= failures cb -> failures cb + Z.of_nat k <= max64 ->
  failures (after_failures k i clock cb) = failures cb + Z.of_nat k
  /\ (0 < threshold cb -> open cb = false -> failures cb < threshold cb ->
      open (after_failures k i clock cb) = (threshold cb <=? failures cb + Z.of_nat k))
  /\ (threshold cb <= failures cb + Z.of_nat k -> (0 < k)%nat ->
      open (after_failures k i clock cb) = true /\ lastError (after_failures k i clock cb) = clock (i + k - 1)%nat).
Proof.
  induction k as [|k IH]; intros i clock cb Hn Hm; cbn [after_failures].
  - split; [lia|]. split; [|lia]. intros _ -> Hlt. symmetry. apply Z.leb_gt. lia.
  - assert (incr (failures cb) = failures cb + 1) as Hi by (apply incr_small; unfold min64, max64 in *; lia).
    set (cb' := breaker_failure (clock i) cb).
    assert (failures cb' = failures cb + 1 /\ threshold cb' = threshold cb) as [Hf Ht].
    { unfold cb', breaker_failure. rewrite Hi. by destruct (_ <=? _). }
    destruct (IH (S i) clock cb') as (Hc & Ho & Hl); [lia..|].
    rewrite Hc, Hf. split; [lia|]. rewrite Ht, Hf in *. split.
    + intros H0 Hop Hlt. destruct (Z.leb_spec (threshold cb) (failures cb + 1)) as [Hle|Hgt].
      * destruct k as [|k].
        -- cbn [after_failures]. unfold cb', breaker_failure. rewrite Hi.
           rewrite (proj2 (Z.leb_le _ _) Hle). cbn. symmetry. apply Z.leb_le. lia.
        -- destruct Hl as [-> _]; [lia..|]. symmetry. apply Z.leb_le. lia.
      * rewrite Ho; [f_equal; lia|done| |done]. unfold cb', breaker_failure. rewrite Hi.
        by rewrite (proj2 (Z.leb_gt _ _) Hgt).
    + intros Hle _. destruct k as [|k].
      * cbn [after_failures]. unfold cb', breaker_failure. rewrite Hi, (proj2 (Z.leb_le _ _)) by lia.
        split; [done|]. cbn. f_equal. lia.
      * destruct Hl as [-> ->]; [lia..|]. split; [done|]. f_equal. lia.
Qed.
(** An inspection whose calls all fail makes every one of them: the breaker
    it opens on the way is not looked at before the next inspection. It ends open
    exactly when the failures have reached the threshold. *)
Theorem retries_ignore_breaker now replies clock c :
  available c = true -> open (cbState c) = false -> 0 <= failures (cbState c) < threshold (cbState c) ->
  0 <= maxRetries c -> failures (cbState c) + maxRetries c < max64 ->
  (forall i, (i < rounds c)%nat -> fails replies i) ->
  exists last c', Inspect now replies clock c
    = (fallbackResult c, Some (InspectFailed (maxRetries c) last), Z.to_nat (maxRetries c + 1), c')
  /\ open (cbState c') = (threshold (cbState c) <=? failures (cbState c) + maxRetries c + 1).
Proof.
  intros Ha Ho Hn Hm Hmax Hf. unfold Inspect, isAvailable, breaker_available. rewrite Ha, Ho. cbn [negb].
  assert (set_cb (cbState c) c = c) as -> by (by destruct c).
  destruct (attempts_fail (rounds c) (rounds c) 0 None replies clock c) as (last' & _ & ->); [|lia|].
  { intros j Hj. apply Hf. lia. }
  rewrite Nat.sub_diag. cbn [attempts]. eexists last', _. split; [done|]. cbn [cbState set_cb].
  destruct (after_failures_count (rounds c) 0 clock (cbState c)) as (_ & Hop & _); unfold rounds in *; [lia..|].
  rewrite Hop; [f_equal; lia|lia|done|lia].
Qed.

Lemma open_unavailable now replies clock c :
  available c = true -> open (cbState c) = true -> min64 <= cooldown (cbState c) < max64 ->
  now - lastError (cbState c) <= cooldown (cbState c) ->
  Inspect now replies clock c = (fallbackResult c, Some ClientUnavailable, O, c).
Proof.
  intros Ha Ho Hc Ht. unfold Inspect, isAvailable, breaker_available. rewrite Ha, Ho, time_sub_gt by lia.
  rewrite (proj2 (Z.ltb_ge _ _)) by lia. by destruct c.
Qed.

(** [C30] An inspection that succeeds after enough failed attempts returns the
    service's answer and leaves the breaker open: until the cool-down after the last
    failure is over every inspection gets the fallback without a call. *)
Theorem success_leaves_breaker_open now replies clock c k res :
  available c = true -> open (cbState c) = false -> 0 <= failures (cbState c) ->
  failures (cbState c) + Z.of_nat k <= max64 -> min64 <= cooldown (cbState c) < max64 ->
  (0 < k)%nat -> Z.of_nat k <= maxRetries c -> threshold (cbState c) <= failures (cbState c) + Z.of_nat k ->
  (forall i, (i < k)%nat -> fails replies i) -> callInspect (replies k) = Ok res ->
  exists c', Inspect now replies clock c = (res, None, S k, c') /\
    forall now' replies' clock', now' - clock (k - 1)%nat <= cooldown (cbState c) ->
      Inspect now' replies' clock' c' = (fallbackResult c, Some ClientUnavailable, O, c').
Proof.
  intros Ha Ho Hn Hmax Hcd Hk Hkm Hth Hf Hres.
  unfold Inspect at 1, isAvailable, breaker_available. rewrite Ha, Ho. cbn [negb].
  assert (set_cb (cbState c) c = c) as -> by (by destruct c).
  destruct (attempts_fail k (rounds c) 0 None replies clock c) as (last' & _ & ->);
    [intros j Hj; apply Hf; lia|unfold rounds; lia|].
  replace (rounds c - k)%nat with (S (rounds c - k - 1)) by (unfold rounds; lia). cbn [attempts Nat.add]. rewrite Hres.
  eexists. split; [done|]. intros now' replies' clock' Ht.
  destruct (after_failures_count k 0 clock (cbState c)) as (_ & _ & Hl); [lia..|]. destruct Hl as [Hl1 Hl2]; [lia..|].
  destruct (after_failures_fixed k 0 clock (cbState c)) as [_ Hcool].
  set (c' := recordSuccess _). change (fallbackResult c) with (fallbackResult c').
  apply open_unavailable; [done|exact Hl1|by cbn; rewrite Hcool|]. cbn. rewrite Hcool, Hl2. exact Ht.
Qed.

(** ** Any interleaving of inspections *)

Inductive breaker_op : Type := Ask (now : Z) | Success | Failure (now : Z).
Definition op_time (o : breaker_op) : option Z := match o with Ask t | Failure t => Some t | Success => None end.
Definition breaker_step (o : breaker_op) (cb : circuitBreaker) : list bool * circuitBreaker :=
  match o with
  | Ask now => let '(ok, cb) := breaker_available now cb in ([ok], cb)
  | Success => ([], breaker_success cb)
  | Failure now => ([], breaker_failure now cb)
  end.
Fixpoint breaker_run (ops : list breaker_op) (cb : circuitBreaker) : list bool * circuitBreaker :=
  match ops with
  | [] => ([], cb)
  | o :: ops => let '(a, cb) := breaker_step o cb in let '(b, cb) := breaker_run ops cb in ((a ++ b)%list, cb)
  end.

(** A breaker open since [t0] or later. *)
Definition open_since (t0 d : Z) (cb : circuitBreaker) : Prop :=
  open cb = true /\ t0 <= lastError cb /\ cooldown cb = d.

Lemma open_since_step t0 d o cb :
  min64 <= d < max64 -> open_since t0 d cb -> (forall t, op_time o = Some t -> t0 <= t <= t0 + d) ->
  Forall (eq false) (breaker_step o cb).1 /\ open_since t0 d (breaker_step o cb).2.
Proof.
  intros Hd (Ho & Ht & Hc) Hop. destruct o as [now| |now]; cbn [breaker_step].
  - specialize (Hop now eq_refl). unfold breaker_available. rewrite Ho, time_sub_gt by lia.
    rewrite (proj2 (Z.ltb_ge _ _)) by lia. split; [by repeat constructor|done].
  - by split; [constructor|].
  - specialize (Hop now eq_refl). split; [constructor|]. unfold breaker_failure.
    destruct (threshold cb <=? incr (failures cb)); split; cbn; done || lia.
Qed.

(** While a breaker is open and within the cool-down, no inspection is let
    through, whatever successes and failures of earlier ones are recorded in between:
    a success never closes it. *)
Theorem open_breaker_rejects t0 d ops cb :
  min64 <= d < max64 -> open_since t0 d cb ->
  Forall (fun o => forall t, op_time o = Some t -> t0 <= t <= t0 + d) ops ->
  Forall (eq false) (breaker_run ops cb).1 /\ open (breaker_run ops cb).2 = true.
Proof.
  intros Hd Hcb Hops. revert cb Hcb. induction Hops as [|o ops Ho Hops IH]; intros cb Hcb; cbn [breaker_run].
  - split; [constructor|apply Hcb].
  - destruct (open_since_step t0 d o cb Hd Hcb Ho) as [Ha Hcb']. destruct (breaker_step o cb) as [a cb1].
    specialize (IH cb1 Hcb'). destruct (breaker_run ops cb1) as [b cb2]. cbn in *. split; [|apply IH].
    apply Forall_app. by split; [|apply IH].
Qed.

(** A client made with a negative number of retries never calls the service:
    every inspection gets the fallback, which lets requests pass unless the mode is
    one of the two known ones. *)
Theorem negative_retries_never_call now replies clock endpoint timeoutSec retries mode :
  min64 < retries < 0 -> String.eqb mode "block" = false -> String.eqb mode "monitor" = false ->
  let c := NewClient endpoint timeoutSec retries mode in
  Inspect now replies clock c
  = (mkInspection f0 false "" f0 ∅ f0 f0, Some (InspectFailed retries None), O, c).
Proof.
  intros Hr Hb Hm. cbn zeta. unfold Inspect, isAvailable, breaker_available. cbn [NewClient available cbState open negb].
  assert (rounds (NewClient endpoint timeoutSec retries mode) = O) as Hz by (unfold rounds; cbn; lia).
  unfold set_cb. cbn [NewClient baseURL timeout maxRetries fallback available]. unfold NewClient in Hz. rewrite Hz.
  cbn [attempts]. unfold fallbackResult. cbn [fallback]. by rewrite Hb, Hm.
Qed.

(** Only [Inspect] looks at the status of an answer: the other calls decode
    the body of an error as a result, and every answer is a healthy one. *)
Theorem statuses_ignored s s' text marshalled :
  Classify marshalled (Answered s text) = Classify marshalled (Answered s' text)
  /\ Fingerprint marshalled (Answered s text) = Fingerprint marshalled (Answered s' text)
  /\ BotScore marshalled (Answered s text) = BotScore marshalled (Answered s' text)
  /\ HealthCheck (Answered s text) = None
  /\ (s <> 200 -> callInspect (Answered s text) = Err (ServiceReturned s text)).
Proof. repeat split. intros Hs. cbn. by rewrite (proj2 (Z.eqb_neq _ _) Hs). Qed.

End client.

(** ** Witnesses *)

Definition five_down (i : nat) : reply := if (i <? 5)%nat then NoAnswer "refused" else Answered 200 "{}".
Definition clock0 (i : nat) : Z := Z.of_nat i * Second.
Definition patient : Client := NewClient "http://ml" 5 5 "block".
Definition zero_result : InspectionResult := mkInspection f0 false "" f0 ∅ f0 f0.

Lemma success_leaves_breaker_open_witness :
  exists c', @Inspect unicode_ascii 0 five_down clock0 patient = (zero_result, None, 6%nat, c') /\
    @Inspect unicode_ascii (20 * Second) (fun _ => Answered 200 "{}") clock0 c'
    = (fallbackResult patient, Some ClientUnavailable, O, c').
Proof.
  destruct (@success_leaves_breaker_open unicode_ascii 0 five_down clock0 patient 5 zero_result) as (c' & HI & Hn);
    [reflexivity|reflexivity|vm_compute; discriminate|vm_compute; discriminate|vm_compute; split; congruence|lia|vm_compute; discriminate|vm_compute; discriminate|
     |vm_compute; reflexivity|].
  - intros i Hi. exists (HttpRequest "refused"). unfold five_down.
    destruct i as [|[|[|[|[|i]]]]]; try reflexivity. exfalso. lia.
  - exists c'. split; [exact HI|]. apply Hn. vm_compute. discriminate.
Defined.

Lemma retries_ignore_breaker_witness :
  exists last c', @Inspect unicode_ascii 0 (fun _ => NoAnswer "refused") clock0 (NewClient "http://ml" 5 9 "")
    = (zero_result, Some (InspectFailed 9 last), 10%nat, c') /\ open (cbState c') = true.
Proof.
  apply (@retries_ignore_breaker unicode_ascii 0 (fun _ => NoAnswer "refused") clock0 (NewClient "http://ml" 5 9 ""));
    [reflexivity|reflexivity|vm_compute; split; congruence|vm_compute; discriminate|reflexivity|].
  intros i _. by exists (HttpRequest "refused").
Defined.

Lemma open_breaker_rejects_witness :
  Forall (eq false) (breaker_run [Success; Ask Second; Failure (2 * Second); Ask (29 * Second)] (mkBreaker 5 0 5 (30 * Second) true)).1
  /\ open (breaker_run [Success; Ask Second; Failure (2 * Second); Ask (29 * Second)] (mkBreaker 5 0 5 (30 * Second) true)).2 = true.
Proof.
  apply (open_breaker_rejects 0 (30 * Second)); [split; vm_compute; (discriminate || reflexivity)|by repeat split|].
  repeat (apply Forall_cons_2;
    [intros t Ht; cbn in Ht; try discriminate Ht; injection Ht as <-; vm_compute; split; discriminate|]).
  apply Forall_nil_2.
Defined.

Lemma negative_retries_never_call_witness :
  @Inspect unicode_ascii 0 (fun _ => Answered 200 "{}") clock0 (NewClient "http://ml" 5 (-1) "allow")
  = (zero_result, Some (InspectFailed (-1) None), O, NewClient "http://ml" 5 (-1) "allow").
Proof. apply (@negative_retries_never_call unicode_ascii); [unfold min64; lia|reflexivity..]. Defined.

Example error_page_is_classified :
  @Classify unicode_ascii (Ok "") (Answered 500 ("{" ++ quoted "error" ++ ":" ++ quoted "down" ++ "}"))
  = Ok (mkClassification "" f0 ∅).
Proof. vm_compute. reflexivity. Qed.
Example inspection_decoded :
  @callInspect unicode_ascii (Answered 200 ("{" ++ quoted "threat_score" ++ ":12.5," ++ quoted "features" ++ ":{" ++ quoted "a" ++ ":1}}"))
  = Ok (mkInspection (of_frac 25 2) false "" f0 {["a" := of_int 1]} f0 f0).
Proof. vm_compute. reflexivity. Qed.
