(* ===== verification/LogStream.v ===== *)
(** * Following and exporting logs: [internal/api/handlers.go]

    [ExportLogs] in its three formats, with the writer of encoding/csv that it uses
    written out, and [TailLogs], whose clients are served from bounded queues while
    [drainLogChannel] publishes. The log itself is in [ApiStore.Logs]. *)

From S2P Require Import Prelude GoStr Encoding.
From S2P Require ApiStore.
Import ApiStore.Logs.

#[local] Open Scope string_scope.
#[local] Open Scope Z_scope.

Definition newline : string := String (ascii_of_nat 10) "".

(** ** CSV *)

(** [csv.Writer.fieldNeedsQuotes] with the comma. *)
Definition special (c : ascii) : bool :=
  (byte_of c =? 10) || (byte_of c =? 13) || (byte_of c =? 34) || (byte_of c =? 44).
Definition fieldNeedsQuotes (field : string) : bool :=
  if String.eqb field "" then false
  else if String.eqb field "\." then true
  else negb (sall (fun c => negb (special c)) field) || match runes_of field with r :: _ => is_space r | [] => false end.

(** Quotes are doubled; the writer leaves line breaks as they are. *)
Fixpoint double_quotes (s : string) : string :=
  match s with
  | "" => ""
  | String c t => if byte_of c =? 34 then dq ++ dq ++ double_quotes t else String c (double_quotes t)
  end.
Definition csv_field (s : string) : string := if fieldNeedsQuotes s then dq ++ double_quotes s ++ dq else s.
(** [csv.Writer.Write]. *)
Fixpoint csv_tail (record : list string) : string :=
  match record with [] => newline | f :: record => "," ++ csv_field f ++ csv_tail record end.
Definition csv_record (record : list string) : string :=
  match record with [] => newline | f :: record => csv_field f ++ csv_tail record end.
Fixpoint csv_text (records : list (list string)) : string :=
  match records with [] => "" | r :: records => csv_record r ++ csv_text records end.

(** ** The export *)

(** [t.Format(time.RFC3339)] *)
Class FormatRFC3339 : Type := format_rfc3339 : Z -> string.

Definition csv_header : list string :=
  ["timestamp"; "request_id"; "site"; "action"; "severity"; "rule_id"; "ip"; "method"; "path"; "status"; "latency_ms"; "country"].
Definition csv_row `{FormatRFC3339} (e : logEntry) : list string :=
  [format_rfc3339 (Timestamp e); RequestID e; Site e; Action e; Severity e; RuleID e; IP e; Method e; Path e;
   Itoa (Status e); Itoa (LatencyMs e); Country e].
Definition csv_export `{FormatRFC3339} (l : list logEntry) : string := csv_text (csv_header :: map csv_row l).

Definition cef_severity (s : string) : Z :=
  if String.eqb s "critical" then 10 else if String.eqb s "high" then 8 else if String.eqb s "medium" then 6
  else if String.eqb s "low" then 4 else 0.
Definition cef_line (version : string) (e : logEntry) : string :=
  let severity := cef_severity (Severity e) in
  "CEF:0|FortressWAF|" ++ version ++ "|" ++ RuleID e ++ "|" ++ Itoa severity ++ "|" ++ RuleName e ++ "|" ++ Itoa severity
  ++ "|src=" ++ IP e ++ " dhost=" ++ Site e ++ " request=" ++ (Method e ++ " " ++ Path e) ++ " msg=" ++ Action e.
Fixpoint cef_export (version : string) (l : list logEntry) : string :=
  match l with [] => "" | e :: l => cef_line version e ++ newline ++ cef_export version l end.

(** A download: its content type, file name and content; the entries are
    written as JSON. *)
Inductive download : Type :=
| JsonLogs (l : list logEntry)
| TextLogs (content_type file : string) (body : string)
| UnsupportedFormat (format : string).
Definition ExportLogs `{ParseRFC3339} `{FormatRFC3339} (version : string) (query : string -> string) (logStore : list logEntry) : download :=
  let format := if String.eqb (query "format") "" then "json" else query "format" in
  let filtered := export_filter (query "from") (query "to") logStore in
  if String.eqb format "json" then JsonLogs filtered
  else if String.eqb format "csv" then TextLogs "text/csv" "logs.csv" (csv_export filtered)
  else if String.eqb format "cef" then TextLogs "text/plain" "logs.cef" (cef_export version filtered)
  else UnsupportedFormat format.

(** *** Reading CSV *)

(** A reader of RFC 4180: [None] for a text that is not CSV. *)
Inductive pos : Type := Fresh | Bare | InQuotes | AfterQuote.
Fixpoint read_csv (p : pos) (field : string) (row : list string) (rows : list (list string)) (s : string) : option (list (list string)) :=
  match s with
  | "" => match p, row with Fresh, [] => Some rows | _, _ => None end
  | String c t =>
      let more p := read_csv p (field ++ String c "") row rows t in
      let close := if byte_of c =? 44 then read_csv Fresh "" (row ++ [field])%list rows t
                   else if byte_of c =? 10 then read_csv Fresh "" [] (rows ++ [row ++ [field]])%list t
                   else None in
      match p with
      | InQuotes => if byte_of c =? 34 then read_csv AfterQuote field row rows t else more InQuotes
      | AfterQuote => if byte_of c =? 34 then more InQuotes else close
      | Fresh => if byte_of c =? 34 then read_csv InQuotes "" row rows t
                 else if (byte_of c =? 44) || (byte_of c =? 10) then close
                 else if byte_of c =? 13 then None else more Bare
      | Bare => if (byte_of c =? 44) || (byte_of c =? 10) then close
                else if (byte_of c =? 13) || (byte_of c =? 34) then None else more Bare
      end
  end.
Definition parse_csv : string -> option (list (list string)) := read_csv Fresh "" [] [].

Lemma snoc_app f c t : (f ++ String c "") ++ t = f ++ String c t.
Proof. by rewrite sapp_assoc. Qed.

Lemma read_quoted row rows t : forall s field,
  read_csv InQuotes field row rows (double_quotes s ++ dq ++ t) = read_csv AfterQuote (field ++ s) row rows t.
Proof.
  induction s as [|c s IH]; intros field; [by rewrite sapp_nil_r|].
  cbn [double_quotes]. destruct (Z.eqb_spec (byte_of c) 34) as [Hc|Hc].
  - change (dq ++ dq ++ double_quotes s) with (String (ascii_of_nat 34) (String (ascii_of_nat 34) (double_quotes s))).
    rewrite !sapp_cons. cbn [read_csv]. change (byte_of (ascii_of_nat 34) =? 34) with true. cbn iota.
    rewrite IH, snoc_app. f_equal. f_equal. f_equal. rewrite <- (chr_byte_of c), Hc. reflexivity.
  - rewrite sapp_cons. cbn [read_csv]. rewrite (proj2 (Z.eqb_neq _ _) Hc). by rewrite IH, snoc_app.
Qed.

Definition closed (c : ascii) (field : string) (row : list string) (rows : list (list string)) (t : string) : option (list (list string)) :=
  if byte_of c =? 44 then read_csv Fresh "" (row ++ [field])%list rows t else read_csv Fresh "" [] (rows ++ [row ++ [field]])%list t.
Definition separator (c : ascii) : Prop := byte_of c = 44 \/ byte_of c = 10.

Lemma read_after_quote row rows field c t : separator c -> read_csv AfterQuote field row rows (String c t) = closed c field row rows t.
Proof. intros [Hc|Hc]; cbn [read_csv]; unfold closed; by rewrite Hc. Qed.

Lemma plain_char c : negb (special c) = true -> byte_of c <> 10 /\ byte_of c <> 13 /\ byte_of c <> 34 /\ byte_of c <> 44.
Proof. unfold special. intros Hc. repeat split; intros E; by rewrite E in Hc. Qed.

Lemma read_bare row rows c t : separator c -> forall s field, sall (fun c => negb (special c)) s = true ->
  read_csv Bare field row rows (s ++ String c t) = closed c (field ++ s) row rows t.
Proof.
  intros Hs. induction s as [|d s IH]; intros field Hf.
  - rewrite sapp_nil_r. change ("" ++ String c t) with (String c t). cbn [read_csv]. unfold closed. destruct Hs as [Hc|Hc]; by rewrite Hc.
  - apply andb_true_iff in Hf as [Hd Hf]. apply plain_char in Hd as (H1 & H2 & H3 & H4).
    rewrite sapp_cons. cbn [read_csv].
    rewrite (proj2 (Z.eqb_neq _ _) H1), (proj2 (Z.eqb_neq _ _) H2), (proj2 (Z.eqb_neq _ _) H3), (proj2 (Z.eqb_neq _ _) H4). cbn [orb].
    by rewrite IH, snoc_app.
Qed.

Lemma read_field f row rows c t : separator c ->
  read_csv Fresh "" row rows (csv_field f ++ String c t) = closed c f row rows t.
Proof.
  intros Hs. unfold csv_field. destruct (fieldNeedsQuotes f) eqn:Hf.
  - rewrite !sapp_assoc. change (dq ++ double_quotes f ++ dq ++ String c t) with (String (ascii_of_nat 34) (double_quotes f ++ dq ++ String c t)).
    cbn [read_csv]. change (byte_of (ascii_of_nat 34) =? 34) with true. cbn iota. rewrite read_quoted. by apply read_after_quote.
  - destruct f as [|d f].
    + change ("" ++ String c t) with (String c t). cbn [read_csv]. unfold closed. destruct Hs as [Hc|Hc]; by rewrite Hc.
    + assert (Hp : sall (fun c => negb (special c)) (String d f) = true).
      { unfold fieldNeedsQuotes in Hf. destruct (sall _ (String d f)); [done|]. by repeat case_match. }
      assert (Hb : read_csv Fresh "" row rows (String d f ++ String c t) = read_csv Bare "" row rows (String d f ++ String c t)).
      { apply andb_true_iff in Hp as [Hd _]. apply plain_char in Hd as (H1 & H2 & H3 & H4). rewrite sapp_cons. cbn [read_csv].
        rewrite (proj2 (Z.eqb_neq _ _) H1), (proj2 (Z.eqb_neq _ _) H2), (proj2 (Z.eqb_neq _ _) H3), (proj2 (Z.eqb_neq _ _) H4). done. }
      rewrite Hb. by apply (read_bare row rows c t Hs (String d f) "").
Qed.

Lemma read_tail record : forall row rows f t,
  read_csv Fresh "" row rows (csv_field f ++ csv_tail record ++ t) = read_csv Fresh "" [] (rows ++ [row ++ f :: record])%list t.
Proof.
  induction record as [|g record IH]; intros row rows f t; cbn [csv_tail].
  - change (newline ++ t) with (String (ascii_of_nat 10) t). by rewrite read_field by (by right).
  - rewrite !sapp_assoc. change ("," ++ csv_field g ++ csv_tail record ++ t) with (String "," (csv_field g ++ csv_tail record ++ t)).
    rewrite read_field by (by left). unfold closed. change (byte_of "," =? 44) with true. cbn iota. rewrite IH. by rewrite <- app_assoc.
Qed.

Lemma read_records records : Forall (fun r => r <> []) records -> forall rows,
  read_csv Fresh "" [] rows (csv_text records) = Some (rows ++ records)%list.
Proof.
  induction 1 as [|r records Hr _ IH]; intros rows; cbn [csv_text]; [by rewrite app_nil_r|].
  destruct r as [|f r]; [done|]. cbn [csv_record]. rewrite sapp_assoc, read_tail, IH. by rewrite <- app_assoc.
Qed.

(** The cell of a row under a name in the header. *)
Fixpoint column (name : string) (header row : list string) : option string :=
  match header, row with
  | h :: header, c :: row => if String.eqb h name then Some c else column name header row
  | _, _ => None
  end.


(** *** Forging entries *)

Definition set_path (path : string) (e : logEntry) : logEntry :=
  mkEntry (Timestamp e) (RequestID e) (Site e) (Action e) (Severity e) (RuleID e) (RuleName e) (IP e) (Method e) path (Status e) (LatencyMs e)
    (UserAgent e) (Country e).
Definition set_action (a : string) (e : logEntry) : logEntry :=
  mkEntry (Timestamp e) (RequestID e) (Site e) a (Severity e) (RuleID e) (RuleName e) (IP e) (Method e) (Path e) (Status e) (LatencyMs e)
    (UserAgent e) (Country e).

(** [C26] The CEF export escapes nothing: for every request there is a path with
    which its one entry is exported as its own line followed by the line of any
    other entry with the same action, of whatever address, site and rule. *)
Theorem cef_export_forged version e forged :
  exists path, cef_export version [set_path path e] = cef_export version [e; set_action (Action e) forged].
Proof.
  exists (Path e ++ " msg=" ++ Action e ++ newline ++
    "CEF:0|FortressWAF|" ++ version ++ "|" ++ RuleID forged ++ "|" ++ Itoa (cef_severity (Severity forged)) ++ "|" ++ RuleName forged ++ "|"
    ++ Itoa (cef_severity (Severity forged)) ++ "|src=" ++ IP forged ++ " dhost=" ++ Site forged ++ " request=" ++ (Method forged ++ " " ++ Path forged)).
  cbn [cef_export]. unfold cef_line. cbn [set_path set_action Severity RuleID RuleName IP Site Method Path Action].
  by rewrite !sapp_assoc.
Qed.

(** ** Following the log *)

(** [logClients], each channel under a name of its own with the entries waiting
    in it, the log, and the events written to the clients' connections. *)
Record hub : Type := mkHub { clients : gmap nat (list logEntry); logStore : list logEntry; written : list (nat * logEntry) }.

Definition channel_size : Z := 100.
(** A send with a [default]. *)
Definition offer (entry : logEntry) (queue : list logEntry) : list logEntry :=
  if len queue <? channel_size then (queue ++ [entry])%list else queue.
(** One round of [drainLogChannel]. *)
Definition publish (entry : logEntry) (h : hub) : hub := mkHub (offer entry <$> clients h) (drain entry (logStore h)) (written h).

(** [TailLogs]: its client is registered, is written the next entry of its
    channel, or has gone; pings carry no entry. *)
Inductive event : Type := Publish (entry : logEntry) | Connect (id : nat) | Deliver (id : nat) | Ping (id : nat) | Gone (id : nat).
Definition set_clients (m : gmap nat (list logEntry)) (h : hub) : hub := mkHub m (logStore h) (written h).
Definition fire (e : event) (h : hub) : option hub :=
  match e with
  | Publish entry => Some (publish entry h)
  | Connect id => match clients h !! id with None => Some (set_clients (<[id := []]> (clients h)) h) | Some _ => None end
  | Deliver id =>
      match clients h !! id with
      | Some (entry :: queue) => Some (mkHub (<[id := queue]> (clients h)) (logStore h) (written h ++ [(id, entry)])%list)
      | _ => None
      end
  | Ping id => match clients h !! id with Some _ => Some h | None => None end
  | Gone id => match clients h !! id with Some _ => Some (set_clients (delete id (clients h)) h) | None => None end
  end.
Fixpoint run (events : list event) (h : hub) : option hub :=
  match events with [] => Some h | e :: events => match fire e h with Some h => run events h | None => None end end.

Definition published (e : event) : list logEntry := match e with Publish entry => [entry] | _ => [] end.
Definition delivered (id : nat) (e : event) : list nat := match e with Deliver i => if decide (i = id) then [i] else [] | _ => [] end.
Definition stream (id : nat) (h : hub) : list logEntry := omap (fun x => if decide (x.1 = id) then Some x.2 else None) (written h).
Definition stays (id : nat) (e : event) : Prop := e <> Connect id /\ e <> Gone id.

Lemma run_snoc events e h h' : run (events ++ [e]) h = Some h' <-> exists h1, run events h = Some h1 /\ fire e h1 = Some h'.
Proof.
  revert h. induction events as [|d events IH]; intros h; cbn [app run].
  - split; [|by intros (? & [= ->] & ->)]. destruct (fire e h) eqn:He; [|done]. intros [= ->]. by exists h.
  - destruct (fire d h); [apply IH|]. split; [done|]. by intros (? & ? & ?).
Qed.

(** What one step does to one client: the entries written to it, then those
    waiting. *)
Lemma fire_client id e h h' q :
  fire e h = Some h' -> stays id e -> clients h !! id = Some q ->
  exists q', clients h' !! id = Some q'
    /\ match e with
       | Publish entry => q' = offer entry q /\ stream id h' = stream id h
       | Deliver i => (stream id h' ++ q' = stream id h ++ q)%list /\ len (stream id h') = len (stream id h) + len (delivered id e)
       | _ => q' = q /\ stream id h' = stream id h
       end.
Proof.
  intros Hf [Hc Hg] Hq. destruct e as [entry|i|i|i|i]; cbn [fire] in Hf.
  - simplify_eq. exists (offer entry q). cbn [publish clients]. by rewrite lookup_fmap, Hq.
  - destruct (clients h !! i) eqn:Hi; simplify_eq. exists q. cbn. by rewrite lookup_insert_ne by congruence.
  - destruct (clients h !! i) as [[|entry queue]|] eqn:Hi; simplify_eq. unfold stream. cbn [clients written delivered].
    rewrite omap_app. cbn. destruct (decide (i = id)) as [->|Hne]; cbn.
    + rewrite Hq in Hi. simplify_eq. exists queue. rewrite lookup_insert_eq. split_and!; [done|by rewrite <- app_assoc|].
      unfold len. rewrite length_app. cbn. lia.
    + exists q. rewrite lookup_insert_ne, app_nil_r by done. split_and!; [done..|]. unfold len. cbn. lia.
  - destruct (clients h !! i); simplify_eq. by exists q.
  - destruct (clients h !! i); simplify_eq. exists q. cbn. by rewrite lookup_delete_ne by congruence.
Qed.

(** [C28] A client that follows the log is written entries in the order in which
    they are published and none that was not, at most a hundred wait for it, and none is
    lost unless more than a hundred have been published that it was not written
    yet: whatever other clients do and how slowly they read. *)
Theorem tail_stream id events h h' :
  clients h !! id = Some [] -> stream id h = [] -> Forall (stays id) events -> run events h = Some h' ->
  exists q, clients h' !! id = Some q /\ len q <= channel_size
    /\ (stream id h' ++ q)%list `sublist_of` (events ≫= published)
    /\ ((forall n, len (take n events ≫= published) - len (take n events ≫= delivered id) <= channel_size) ->
        (stream id h' ++ q)%list = (events ≫= published)
        /\ len (stream id h') = len (events ≫= delivered id)).
Proof.
  intros Hq Hs. revert h'. induction events as [|e events IH] using rev_ind; intros h' Hall Hr.
  { cbn in Hr. simplify_eq. exists []. rewrite Hq, Hs. by split_and!. }
  apply Forall_app in Hall as [Hall [He _]%Forall_cons].
  apply run_snoc in Hr as (h1 & Hr & Hf). destruct (IH h1 Hall Hr) as (q & Hq1 & Hl & Hsub & Hno).
  destruct (fire_client id e h1 h' q Hf He Hq1) as (q' & Hq' & Hstep). exists q'. rewrite !bind_app. cbn. rewrite !app_nil_r.
  assert (Hpre : (forall n, len (take n (events ++ [e]) ≫= published) - len (take n (events ++ [e]) ≫= delivered id) <= channel_size) ->
                 forall n, len (take n events ≫= published) - len (take n events ≫= delivered id) <= channel_size).
  { intros Hb n. destruct (decide (n <= length events)%nat).
    - specialize (Hb n). by rewrite take_app_le in Hb.
    - specialize (Hb (length events)). rewrite take_app_le, firstn_all in Hb by done. by rewrite take_ge by lia. }
  split; [done|]. destruct e as [entry|i|i|i|i]; cbn [published delivered] in *; rewrite ?app_nil_r.
  - destruct Hstep as [-> ->]. unfold offer. destruct (len q <? channel_size) eqn:Hfull.
    + split_and!; [unfold len in *; rewrite length_app; cbn; lia|rewrite app_assoc; by apply sublist_app|].
      intros Hb. destruct (Hno (Hpre Hb)) as [Heq Hd]. by rewrite app_assoc, Heq.
    + split_and!; [done|by apply sublist_inserts_r|]. intros Hb. exfalso. destruct (Hno (Hpre Hb)) as [Heq Hd].
      specialize (Hb (S (length events))). rewrite take_ge in Hb by (rewrite length_app; cbn; lia).
      rewrite !bind_app in Hb. cbn in Hb. rewrite <- Heq, app_nil_r in Hb. unfold len, channel_size in *. rewrite !length_app in Hb. cbn in Hb. lia.
  - destruct Hstep as [-> ->]. by split_and!; [| |intros Hb; apply Hno, Hpre].
  - destruct Hstep as [Heq Hd]. rewrite Heq. split_and!; [|done|].
    + apply (f_equal length) in Heq. rewrite !length_app in Heq. unfold len in *. lia.
    + intros Hb. destruct (Hno (Hpre Hb)) as [Heq' Hd']. split; [done|]. rewrite Hd, Hd'. unfold len. rewrite length_app. cbn. lia.
  - destruct Hstep as [-> ->]. by split_and!; [| |intros Hb; apply Hno, Hpre].
  - destruct Hstep as [-> ->]. by split_and!; [| |intros Hb; apply Hno, Hpre].
Qed.

(** ** Witnesses *)

#[local] Instance no_format : FormatRFC3339 := fun _ => "2026-01-01T00:00:00Z".
Example csv_quotes :
  csv_text [["a" ++ dq ++ "b"; "c,d"; " e"; ""]] = dq ++ "a" ++ dq ++ dq ++ "b" ++ dq ++ "," ++ dq ++ "c,d" ++ dq ++ "," ++ dq ++ " e" ++ dq ++ "," ++ newline.
Proof. reflexivity. Qed.
Example cef_shifts_header :
  cef_line "1.4.0" (entry 0) = "CEF:0|FortressWAF|1.4.0||8||8|src=10.0.0.1 dhost=shop request=GET / msg=block".
Proof. reflexivity. Qed.

Definition followed : hub := mkHub {[1%nat := []; 2%nat := []]} [] [].
#[local] Instance no_times : ParseRFC3339 := fun _ => None.
Definition csv_query (name : string) : string := if String.eqb name "format" then "csv" else "".
Lemma tail_stream_witness :
  exists h', run [Publish (entry 1); Publish (entry 2); Deliver 1; Gone 2] followed = Some h'
    /\ exists q, (stream 1 h' ++ q)%list = [entry 1; entry 2].
Proof.
  eexists. split; [reflexivity|].
  destruct (tail_stream 1 [Publish (entry 1); Publish (entry 2); Deliver 1; Gone 2] followed _ eq_refl eq_refl
              ltac:(repeat constructor; discriminate) eq_refl) as (q & _ & _ & _ & Hq).
  exists q. apply Hq. intros [|[|[|[|[|n]]]]]; vm_compute; discriminate.
Defined.
