(* ===== verification/Startup.v ===== *)
(** * Starting and stopping the program: [main] of [cmd/proxy/main.go]

    What [main] builds from the configuration, how the two servers listen, the
    TLS settings among it, and how the process ends. The reverse proxy, the servers
    and the signal are interleaved as steps. From the standard library it uses that
    [ListenAndServeTLS] offers HTTP/2 and HTTP/1.1 and needs a key pair unless the
    configuration gets certificates itself, that the contexts of a server's requests
    come from its base context, and that the context of a request to an upstream
    governs all of it: the wait for the header and the reading of the body. *)

From S2P Require Import Prelude GoStr Encoding Types.
From S2P Require Config Confidence Sqli ParserHardener Behavioral Bot Protocol WebSocket Upload Ja3 Mtls Wasm Auth Engine Rewrite Siem Pipeline Proxy.

#[local] Open Scope string_scope.
#[local] Open Scope Z_scope.

(** The command line. *)
Record Flags : Type := mkFlags { config_path : string; dev : bool; admin_port : Z; proxy_port : Z }.
Definition default_flags : Flags := mkFlags "config.yaml" false 8443 80.

(** ** SIEM export *)

Definition siem_exporter (e : Config.SIEMExporterConfig.t) : Siem.ExporterConfig :=
  Siem.mkExporterConfig (Config.SIEMExporterConfig.Type_ e) (Config.SIEMExporterConfig.Enabled e) (Config.SIEMExporterConfig.URL e)
    (Config.SIEMExporterConfig.Token e) (Config.SIEMExporterConfig.Index e) (Config.SIEMExporterConfig.Username e)
    (Config.SIEMExporterConfig.Password e) (Config.SIEMExporterConfig.VerifySSL e).
Definition siem_config (c : Config.SIEMConfig.t) : Siem.SIEMConfig :=
  Siem.mkSIEMConfig (Config.SIEMConfig.Enabled c) (Config.SIEMConfig.ExportInterval c) (Config.SIEMConfig.BatchSize c)
    (map siem_exporter (Config.SIEMConfig.Exporters c)).
Definition start_siem (c : Config.SIEMConfig.t) : outcome (option Siem.Manager) :=
  if Config.SIEMConfig.Enabled c then let! m := Siem.NewManager (siem_config c) in Returns (Some m) else Returns None.

(** ** TLS *)

Record AcmeManager : Type := mkAcme { acme_email : string; acme_cache : string; acme_hosts : list string }.
(** A [tls.Config]: [GetCertificate] is the one of an autocert manager, and
    [VerifyConnection] what the callback answers to every connection. *)
Record tls_Config : Type := mkTls {
  NextProtos : list string; GetCertificate : option AcmeManager; VerifyConnection : option (option string)
}.

Definition tls_config (t : Config.TLSConfig.t) : option tls_Config :=
  if Config.TLSConfig.Enabled t then
    let tlsCfg := mkTls (if Config.TLSConfig.HTTP2Enabled t then ["h2"; "http/1.1"] else []) None
                    (if Config.TLSConfig.OCSPEnabled t then Some None else None) in
    if Config.TLSConfig.ACMEEnabled t && negb (String.eqb (Config.TLSConfig.ACMEEmail t) "") then
      Some (mkTls ["h2"; "http/1.1"; "acme-tls/1"]
              (Some (mkAcme (Config.TLSConfig.ACMEEmail t) (Config.TLSConfig.ACMECacheDir t) (Config.TLSConfig.ACMEDomains t))) None)
    else if negb (String.eqb (Config.TLSConfig.CertFile t) "") && negb (String.eqb (Config.TLSConfig.KeyFile t) "") then Some tlsCfg
    else None
  else None.

(** [tls.LoadX509KeyPair]. *)
Class KeyPairs (Pair : Type) : Type := { LoadX509KeyPair : string -> string -> option Pair }.

(** How a server's connections are served; [accepts]: no callback refuses them. *)
Inductive listening (Pair : Type) : Type :=
| PlainHTTP
| HTTPS (protos : list string) (acme : option AcmeManager) (pair : option Pair) (accepts : bool)
| NotServed.
Arguments PlainHTTP {Pair}.
Arguments HTTPS {Pair}.
Arguments NotServed {Pair}.

Section tls.
Context {Pair : Type} `{KeyPairs Pair}.

Definition offer (p : string) (protos : list string) : list string :=
  if existsb (String.eqb p) protos then protos else (protos ++ [p])%list.
Definition accepts (c : tls_Config) : bool := match VerifyConnection c with Some (Some _) => false | _ => true end.

Definition ListenAndServeTLS (c : option tls_Config) (cert key : string) : listening Pair :=
  let c := default (mkTls [] None None) c in
  let serve (pair : option Pair) := HTTPS (offer "http/1.1" (offer "h2" (NextProtos c))) (GetCertificate c) pair (accepts c) in
  if match GetCertificate c with Some _ => String.eqb cert "" && String.eqb key "" | None => false end
  then serve None
  else match LoadX509KeyPair cert key with Some k => serve (Some k) | None => NotServed end.

Definition proxy_listening (t : Config.TLSConfig.t) : listening Pair :=
  if Config.TLSConfig.Enabled t && (negb (String.eqb (Config.TLSConfig.CertFile t) "") || Config.TLSConfig.ACMEEnabled t)
  then ListenAndServeTLS (tls_config t) (Config.TLSConfig.CertFile t) (Config.TLSConfig.KeyFile t)
  else PlainHTTP.

(** Certificates are fetched by ACME and no file is needed. *)
Definition acme_alone (t : Config.TLSConfig.t) : Prop :=
  Config.TLSConfig.ACMEEnabled t = true /\ Config.TLSConfig.ACMEEmail t <> ""
  /\ Config.TLSConfig.CertFile t = "" /\ Config.TLSConfig.KeyFile t = "".

(** The same settings with another minimal version and other switches for
    HTTP/2 and OCSP. *)
Definition retune (version : string) (http2 ocsp : bool) (t : Config.TLSConfig.t) : Config.TLSConfig.t :=
  Config.TLSConfig.mk (Config.TLSConfig.Enabled t) (Config.TLSConfig.CertFile t) (Config.TLSConfig.KeyFile t) version http2 ocsp
    (Config.TLSConfig.ACMEEnabled t) (Config.TLSConfig.ACMEEmail t) (Config.TLSConfig.ACMEDomains t) (Config.TLSConfig.ACMECacheDir t).

(** [C13] How the firewall listens. TLS that is enabled without a certificate file and
    without ACME means plain HTTP, not an error; the server fails exactly when a key
    pair that it needs does not load, which it needs even with ACME when no email is
    given or a file is named; and the minimal version and the switches for HTTP/2 and
    OCSP change nothing. *)
Theorem tls_listening t :
  (proxy_listening t = PlainHTTP <->
   Config.TLSConfig.Enabled t = false \/ (Config.TLSConfig.CertFile t = "" /\ Config.TLSConfig.ACMEEnabled t = false))
  /\ (proxy_listening t = NotServed <->
      Config.TLSConfig.Enabled t = true /\ (Config.TLSConfig.CertFile t <> "" \/ Config.TLSConfig.ACMEEnabled t = true)
      /\ ~ acme_alone t /\ LoadX509KeyPair (Config.TLSConfig.CertFile t) (Config.TLSConfig.KeyFile t) = None)
  /\ (forall version http2 ocsp, proxy_listening (retune version http2 ocsp t) = proxy_listening t).
Proof.
  destruct t as [en cert key ver h2 ocsp acme email domains cache].
  unfold proxy_listening, acme_alone, retune, tls_config, ListenAndServeTLS, accepts, offer. cbn.
  destruct en; cbn; [|by split_and!; [split; [by left|done]|split; [done|by intros [? _]]|done]].
  destruct acme, (String.eqb_spec cert ""), (String.eqb_spec key ""), (String.eqb_spec email ""); subst; cbn;
    split_and!; try (intros ? [] []; by destruct h2, ocsp); try destruct (LoadX509KeyPair _ _); intuition congruence.
Qed.
End tls.

(** ** Serving and stopping *)

Inductive server : Type := ProxyServer | AdminServer.

(** The contexts of [main]: the root, which nothing cancels, and the one that the
    signal cancels. *)
Inductive context : Type := Background | CancelOnSignal.
(** [BaseContext] of the servers. A request's context, and with it that of the
    request to the upstream, is derived from it. *)
Definition BaseContext : context := CancelOnSignal.

(** A request of the proxy: still inside the handler; in the transport, waiting for
    the header of the upstream's answer, with the headers already set; or with that
    header passed on and the body being copied. *)
Inductive stage : Type := Inspecting | RoundTrip (headers : list (string * string)) | Copying.
(** What a client gets: the handler's own answer, the upstream's, an upstream's
    answer that breaks off, or what the proxy's [ErrorHandler] writes. *)
Inductive reply : Type := Own | Upstream | Truncated | Error (answer : Proxy.served unit).
(** [main]: at its [select], waiting for the two [Shutdown] calls, or returned. *)
Inductive phase : Type := Waiting | Draining | Returned.

#[export] Instance stage_eq_dec : EqDecision stage. Proof. solve_decision. Defined.
#[export] Instance server_eq_dec : EqDecision server. Proof. solve_decision. Defined.

Record process : Type := mkProcess {
  serves : bool;                    (* the proxy's server got as far as accepting connections *)
  ctx_done : bool;                  (* the context that the signal cancels is cancelled *)
  errors : list server;             (* servers whose fatal error is on its channel *)
  at_phase : phase;
  requests : gmap nat stage;
  answered : list (nat * reply)
}.

Definition cancelled (c : context) (p : process) : bool :=
  match c with Background => false | CancelOnSignal => ctx_done p end.

Inductive step : Type :=
| Arrive (n : nat)
| Decide (n : nat) (forward : option (list (string * string)))
| RoundTripDone (n : nat)           (* the upstream's header has come *)
| RoundTripFails (n : nat)          (* the transport returns an error *)
| CopyDone (n : nat)
| CopyFails (n : nat)
| Fatal (s : server)                (* ListenAndServe ends with an error *)
| Signal
| Select
| Shutdown                          (* all requests have ended *)
| Timeout.                          (* thirty seconds later *)

Definition set_requests (r : gmap nat stage) (a : list (nat * reply)) (p : process) : process :=
  mkProcess (serves p) (ctx_done p) (errors p) (at_phase p) r a.
Definition set_phase (ph : phase) (p : process) : process :=
  mkProcess (serves p) (ctx_done p) (errors p) ph (requests p) (answered p).
Definition move (n : nat) (s : stage) (p : process) : process := set_requests (<[n := s]> (requests p)) (answered p) p.
Definition finish (n : nat) (a : reply) (p : process) : process :=
  set_requests (delete n (requests p)) (answered p ++ [(n, a)]) p.
Definition cancel (p : process) : process :=
  mkProcess (serves p) true (errors p) (at_phase p) (requests p) (answered p).

(** A step of the open request [n]. An upstream's answer reaches the proxy only
    while the request's context is not cancelled; an error of the transport, that of
    the context or another, can come at any time. *)
Definition progress (a : step) (s : stage) (p : process) : option process :=
  let live := negb (cancelled BaseContext p) in
  match a, s with
  | Decide n None, Inspecting => Some (finish n Own p)
  | Decide n (Some hs), Inspecting => Some (move n (RoundTrip hs) p)
  | RoundTripDone n, RoundTrip _ => if live then Some (move n Copying p) else None
  | RoundTripFails n, RoundTrip hs => Some (finish n (Error (Proxy.ErrorHandler hs)) p)
  | CopyDone n, Copying => if live then Some (finish n Upstream p) else None
  | CopyFails n, Copying => Some (finish n Truncated p)
  | _, _ => None
  end.
Definition request_of (a : step) : option nat :=
  match a with
  | Decide n _ | RoundTripDone n | RoundTripFails n | CopyDone n | CopyFails n => Some n
  | _ => None
  end.

Definition fire (a : step) (p : process) : option process :=
  match a with
  | Arrive n =>
      match at_phase p, requests p !! n with
      | Waiting, None =>
          if serves p && bool_decide (ProxyServer ∉ errors p) && bool_decide (n ∉ (answered p).*1)
          then Some (move n Inspecting p) else None
      | _, _ => None
      end
  | Fatal s =>
      match at_phase p with
      | Waiting => if decide (s ∈ errors p) then None
                   else Some (mkProcess (serves p) (ctx_done p) (errors p ++ [s]) Waiting (requests p) (answered p))
      | _ => None
      end
  | Signal => if ctx_done p then None else match at_phase p with Returned => None | _ => Some (cancel p) end
  | Select =>
      match at_phase p with
      | Waiting => if ctx_done p || negb (bool_decide (errors p = [])) then Some (set_phase Draining p) else None
      | _ => None
      end
  | Shutdown =>
      match at_phase p with
      | Draining => if decide (requests p = ∅) then Some (set_phase Returned p) else None
      | _ => None
      end
  | Timeout => match at_phase p with Draining => Some (set_phase Returned p) | _ => None end
  | _ =>
      match at_phase p, (n ← request_of a; requests p !! n) with
      | Returned, _ => None
      | _, Some s => progress a s p
      | _, None => None
      end
  end.
Fixpoint run (steps : list step) (p : process) : option process :=
  match steps with [] => Some p | a :: steps => match fire a p with Some p => run steps p | None => None end end.

(** The process when both servers are about to listen. *)
Definition begin (serves : bool) : process := mkProcess serves false [] Waiting ∅ [].
(** [main] returns normally, whatever made it stop. *)
Definition exit_status (p : process) : option Z := match at_phase p with Returned => Some 0 | _ => None end.

(** *** Every request is answered once *)

Definition arrived (a : step) : list nat := match a with Arrive n => [n] | _ => [] end.
Definition open_requests (p : process) : list nat := (map_to_list (requests p)).*1.

Lemma process_inv (P : process -> Prop) :
  (forall a p p', fire a p = Some p' -> P p -> P p') -> forall steps p p', run steps p = Some p' -> P p -> P p'.
Proof.
  intros HP steps. induction steps as [|a steps IH]; intros p p'; cbn [run]; [by intros [= ->]|].
  destruct (fire a p) as [q|] eqn:Hf; [|done]. eauto.
Qed.

(** What a step is: a request arrives, one moves on or ends, or the requests stay. *)
Variant fired (a : step) (p : process) : process -> Prop :=
| fired_arrive n : a = Arrive n -> requests p !! n = None -> n ∉ (answered p).*1 -> fired a p (move n Inspecting p)
| fired_move n s s' : arrived a = [] -> requests p !! n = Some s -> (s' = Copying -> cancelled BaseContext p = false) ->
    (s <> Inspecting -> s' = Copying) -> fired a p (move n s' p)
| fired_finish n s r : arrived a = [] -> requests p !! n = Some s ->
    match s with
    | Inspecting => r = Own
    | RoundTrip hs => r = Error (Proxy.ErrorHandler hs)
    | Copying => r = Upstream /\ cancelled BaseContext p = false \/ r = Truncated
    end -> fired a p (finish n r p)
| fired_stay p' : arrived a = [] -> requests p' = requests p -> answered p' = answered p ->
    (ctx_done p = true -> ctx_done p' = true) -> fired a p p'.

Lemma fire_fired a p p' : fire a p = Some p' -> fired a p p'.
Proof.
  assert (forall n, request_of a = Some n ->
    match at_phase p, requests p !! n with Returned, _ | _, None => None | _, Some s => progress a s p end = Some p' -> fired a p p') as Hp.
  { intros n Hn. destruct (at_phase p), (requests p !! n) as [s|] eqn:Hs; try done;
      (destruct a as [m|m [hs|]|m|m|m|m| | | | |]; try done; injection Hn as ->; destruct s as [|hs'|]; try done; cbn [progress];
       try destruct (cancelled BaseContext p) eqn:Hc; try done; intros [= <-];
       first [ solve [eapply fired_move; [done|exact Hs|done|done]]
             | solve [eapply fired_finish; [done|exact Hs|cbn; auto]] ]). }
  destruct a; cbn [fire request_of mbind option_bind]; try (by apply (Hp n)).
  - repeat case_match; try done. intros [= <-]. b2p. apply (fired_arrive _ _ n); try done; by eapply bool_decide_unpack, Is_true_true.
  - repeat case_match; try done. intros [= <-]. by apply fired_stay.
  - repeat case_match; try done; intros [= <-]; by apply fired_stay.
  - repeat case_match; try done; intros [= <-]; by apply fired_stay.
  - repeat case_match; try done; intros [= <-]; by apply fired_stay.
  - repeat case_match; try done; intros [= <-]; by apply fired_stay.
Qed.

Lemma open_insert n s p : requests p !! n = None -> open_requests (move n s p) ≡ₚ n :: open_requests p.
Proof. intros Hn. unfold open_requests. cbn. by rewrite map_to_list_insert. Qed.

Lemma open_update n s s' p : requests p !! n = Some s -> open_requests (move n s' p) ≡ₚ open_requests p.
Proof.
  intros Hn. unfold open_requests. cbn. rewrite <- (insert_delete_id (requests p) n s Hn) at 2.
  rewrite <- (insert_delete_eq (requests p) n s'). by rewrite !map_to_list_insert by apply lookup_delete_eq.
Qed.

Lemma open_finish n s a p : requests p !! n = Some s -> open_requests p ≡ₚ n :: open_requests (finish n a p).
Proof.
  intros Hn. unfold open_requests. cbn. rewrite <- (insert_delete_id (requests p) n s Hn) at 1.
  by rewrite map_to_list_insert by apply lookup_delete_eq.
Qed.

(** Each request that arrives is answered once or still open: no interleaving
    answers twice or forgets one. *)
Lemma fire_accounts a p p' :
  fire a p = Some p' -> open_requests p ++ (answered p).*1 ++ arrived a ≡ₚ open_requests p' ++ (answered p').*1.
Proof.
  intros [n -> Hn _|n s s' -> Hn _ _|n s r -> Hn _|q -> Hr Ha _]%fire_fired; rewrite ?app_nil_r.
  - rewrite (open_insert n Inspecting p Hn). cbn. solve_Permutation.
  - by rewrite (open_update n s s' p Hn).
  - rewrite (open_finish n s r p Hn). cbn. rewrite fmap_app. cbn. solve_Permutation.
  - unfold open_requests. by rewrite Hr, Ha.
Qed.

Lemma run_accounts steps : forall p p', run steps p = Some p' ->
  open_requests p ++ (answered p).*1 ++ (steps ≫= arrived) ≡ₚ open_requests p' ++ (answered p').*1.
Proof.
  induction steps as [|a steps IH]; intros p p'; cbn [run].
  - intros [= ->]. cbn. by rewrite app_nil_r.
  - destruct (fire a p) as [q|] eqn:Hf; [|done]. intros Hr. rewrite <- (IH q p' Hr), bind_cons, !app_assoc.
    f_equiv. rewrite <- !app_assoc. by apply fire_accounts.
Qed.

(** Whatever the interleaving of requests, failures and the signal, every
    request that arrived is answered exactly once or still open, and when [main]
    returns because the servers are drained all are answered: only the timeout
    loses requests. *)
Theorem requests_answered_once serves_ steps p :
  run steps (begin serves_) = Some p ->
  (steps ≫= arrived) ≡ₚ open_requests p ++ (answered p).*1
  /\ (forall p', fire Shutdown p = Some p' -> exit_status p' = Some 0 /\ (steps ≫= arrived) ≡ₚ (answered p').*1).
Proof.
  intros Hr. pose proof (run_accounts _ _ _ Hr) as Ha. cbn in Ha. split; [done|].
  intros p' Hf. cbn [fire] in Hf. repeat case_match; simplify_eq. split; [done|]. rewrite Ha. unfold open_requests.
  cbn. match goal with E : requests p = ∅ |- _ => by rewrite E, map_to_list_empty end.
Qed.

(** *** The signal *)

(** An answer that a request which was at [s] when the context was cancelled can
    still get. *)
Definition after_cancel (s : option stage) (r : reply) : Prop :=
  r <> Upstream /\
  match s with
  | Some (RoundTrip hs) => r = Error (Proxy.ErrorHandler hs)
  | Some Copying => r = Truncated
  | _ => True
  end.

(** Cancelled at [p0]: what was at the upstream then is there still, or answered. *)
Definition cut (p0 p : process) : Prop :=
  cancelled BaseContext p = true /\
  forall n s, requests p0 !! n = Some s -> s <> Inspecting ->
    requests p !! n = Some s \/ requests p !! n = None /\ n ∈ (answered p).*1.

Lemma fire_cut p0 a p p' :
  fire a p = Some p' -> cut p0 p ->
  cut p0 p' /\ exists l, answered p' = (answered p ++ l)%list /\ Forall (fun x => after_cancel (requests p0 !! x.1) x.2) l.
Proof.
  intros Hf [Hc Hn]. apply fire_fired in Hf as [n -> Hm Ha|n s s' _ Hm Hl Hs|n s r _ Hm Hr|q _ Hr Ha Hd].
  - split; [split; [done|]|by exists []; rewrite app_nil_r]. intros k s Hk Hi. cbn.
    destruct (decide (k = n)) as [->|Hne]; [|rewrite lookup_insert_ne by done; by apply Hn].
    destruct (Hn n s Hk Hi) as [?|[_ ?]]; [congruence|done].
  - split; [split; [done|]|by exists []; rewrite app_nil_r]. intros k t Hk Hi. cbn.
    destruct (decide (k = n)) as [->|Hne]; [|rewrite lookup_insert_ne by done; by apply Hn].
    destruct (Hn n t Hk Hi) as [Ht|[? _]]; [|congruence]. rewrite Hm in Ht. injection Ht as <-.
    by rewrite (Hl (Hs Hi)) in Hc.
  - split.
    + split; [done|]. intros k t Hk Hi. cbn. rewrite fmap_app. destruct (decide (k = n)) as [->|Hne].
      * right. rewrite lookup_delete_eq. split; [done|]. apply elem_of_app. right. by left.
      * rewrite lookup_delete_ne by done. destruct (Hn k t Hk Hi) as [?|[? ?]]; [by left|right].
        split; [done|]. apply elem_of_app. by left.
    + exists [(n, r)]. split; [done|]. constructor; [|constructor]. unfold after_cancel. cbn.
      assert (r <> Upstream) as Hu by (destruct s; [by subst|by subst|]; destruct Hr as [[_ Hl]|Hr]; congruence).
      split; [done|]. destruct (requests p0 !! n) as [t|] eqn:Hk; [|done]. destruct (decide (t = Inspecting)) as [->|Hi]; [done|].
      destruct (Hn n t Hk Hi) as [Ht|[? _]]; [|congruence]. rewrite Hm in Ht. injection Ht as <-.
      destruct s; [done|done|]. by destruct Hr as [[_ Hl]|Hr]; [congruence|].
  - split; [|exists []; by rewrite app_nil_r]. split; [by apply Hd|]. intros k s Hk Hi. rewrite Hr, Ha. by apply Hn.
Qed.

Lemma run_cut p0 steps : forall p p', run steps p = Some p' -> cut p0 p ->
  exists l, answered p' = (answered p ++ l)%list /\ Forall (fun x => after_cancel (requests p0 !! x.1) x.2) l.
Proof.
  induction steps as [|a steps IH]; intros p p'; cbn [run].
  - intros [= ->] _. exists []. by rewrite app_nil_r.
  - destruct (fire a p) as [q|] eqn:Hf; [|done]. intros Hr Hc.
    destruct (fire_cut p0 a p q Hf Hc) as (Hq & l & Hl & Hu). destruct (IH q p' Hr Hq) as (l' & Hl' & Hu').
    exists (l ++ l')%list. rewrite Hl', Hl, app_assoc. split; [done|]. by apply Forall_app.
Qed.

(** [C14] The signal does not drain the proxy, it cuts it off. Whatever happens
    after it, no upstream's answer is given to a client in full any more: a
    request that was waiting for its upstream gets the error handler's 502, one
    whose answer was being copied gets it broken off. Without the signal - also
    while [main] drains because a server failed - the same requests get their
    upstreams' answers. *)
Theorem signal_cuts_requests p q steps p' :
  fire Signal p = Some q -> run steps q = Some p' ->
  (exists l, answered p' = (answered p ++ l)%list /\
     forall n r, (n, r) ∈ l -> r <> Upstream /\
       match requests p !! n with
       | Some (RoundTrip hs) => exists body, r = Error (Proxy.Reply 502 hs body)
       | Some Copying => r = Truncated
       | _ => True
       end)
  /\ (forall n s, requests p !! n = Some s -> s <> Inspecting ->
      exists p2, run (if decide (s = Copying) then [CopyDone n] else [RoundTripDone n; CopyDone n]) p = Some p2
        /\ answered p2 = (answered p ++ [(n, Upstream)])%list).
Proof.
  intros Hf Hr. assert (q = cancel p /\ ctx_done p = false /\ at_phase p <> Returned) as (-> & Hd & Hp).
  { cbn [fire] in Hf. by repeat case_match; simplify_eq. }
  split.
  - destruct (run_cut p steps (cancel p) p' Hr) as (l & -> & Hl); [split; [done|intros n s Hn _; by left]|].
    exists l. split; [done|]. intros n r Hin. rewrite Forall_forall in Hl. destruct (Hl _ Hin) as [Hu Ha]. split; [done|].
    cbn [fst snd] in Ha. destruct (requests p !! n) as [[|hs|]|]; [done| |done|done]. rewrite Ha. by eexists.
  - intros n s Hn Hs. destruct s as [|hs|]; [done|rewrite decide_False by done|rewrite decide_True by done];
      cbn [run fire request_of mbind option_bind]; rewrite Hn.
    + unfold progress, cancelled, BaseContext. rewrite Hd. cbn [negb].
      destruct (at_phase p) eqn:Hph; try done; cbn; rewrite Hph, lookup_insert_eq; cbn; rewrite Hd; cbn; by eexists.
    + unfold progress, cancelled, BaseContext. rewrite Hd. cbn [negb].
      destruct (at_phase p) eqn:Hph; try done; cbn; by eexists.
Qed.

(** ** [main] up to its servers *)

(** What holds [initDatabase]'s connection: the function that nobody reads the
    connection from, for ever. [sql_open], [ping] and [exec] are the errors of the
    driver's calls. *)
Inductive database : Type := NoDatabase | DatabaseFailed | DatabaseHeld (tables : bool).
Definition initDatabase (driver : string) (sql_open ping exec : option string) : database :=
  match sql_open, ping with
  | None, None =>
      if String.eqb driver "postgres" then match exec with None => DatabaseHeld true | Some _ => DatabaseFailed end
      else DatabaseHeld false
  | _, _ => DatabaseFailed
  end.
Definition start_database (c : Config.DBConfig.t) (sql_open ping exec : option string) : database :=
  if String.eqb (Config.DBConfig.Driver c) "postgres" && negb (String.eqb (Config.DBConfig.DSN c) "")
  then initDatabase (Config.DBConfig.Driver c) sql_open ping exec else NoDatabase.

(** The listener of the Prometheus library's handler: its port and path. *)
Definition metrics_listener (c : Config.PrometheusConfig.t) : option (Z * string) :=
  if Config.PrometheusConfig.Enabled c then Some (Config.PrometheusConfig.Port c, Config.PrometheusConfig.Path c) else None.

Section main.
Context {Spec Mod Pair : Type} `{KeyPairs Pair} `{Proxy.UrlParse} `{Confidence.TextLen}.
Context `{Unicode} `{RuneClasses} `{Sqli.RuneCap} `{ParserHardener.UnicodeC} `{Behavioral.Log2} `{Behavioral.RuneOrder}.
Context `{Bot.ReverseDns} `{Protocol.Captcha.SiteVerify} `{WebSocket.MessageTypes}.
Context `{Upload.MultipartReader} `{Ja3.TlsState} {Pool : Type} `{Mtls.CaFiles Pool}.
Context `{Wasm.Wasm.WasmRuntime Mod} `{Auth.JWT.SignatureVerifiers} `{MapRange (Wasm.Wasm.wasmInspectorDef Mod)}.
Context `{MapRange string} `{MapRange (list string)} `{MapRange Z} `{Config.Files}.

Record program : Type := mkProgram {
  handler : @Proxy.wafHandler Spec Mod _;
  rewriteMgr : Rewrite.RewriteManager;
  siemMgr : option Siem.Manager;
  database_of : database;
  metrics : option (Z * string);
  proxy_at : Z * listening Pair;
  admin_at : Z * listening Pair;
  main_process : process
}.

Inductive begun : Type := Exit (status : Z) | Died | Started (s : program).

(** The administration server has no TLS, whatever the section on it says, and
    its port is the flag's. *)
Definition start (flags : Flags) (procs : Z) (sql_open ping exec : option string) (w : Pipeline.World Spec Mod) : begun :=
  match Config.Load (config_path flags) with
  | Err _ => Exit 1
  | Ok cfg =>
      match Config.NewManager (config_path flags) with
      | Err _ => Exit 1
      | Ok cfgMgr =>
          let e := Engine.New procs (Pipeline.buildEngineConfig cfg (dev flags)) in
          match start_siem (Config.Config.SIEM cfg) with
          | Panics => Died
          | Returns siem =>
              let cfgMgr := Config.OnChange (fun _ proxies => proxies) cfgMgr in
              let l := proxy_listening (Config.Config.TLS cfg) in
              Started
                (mkProgram (Proxy.newWAFHandler cfgMgr e w (dev flags)) (Rewrite.load cfg) siem
                   (start_database (Config.Config.DB cfg) sql_open ping exec)
                   (metrics_listener (Config.Config.Prometheus cfg)) (proxy_port flags, l) (admin_port flags, PlainHTTP)
                   (begin match l with NotServed => false | _ => true end))
          end
      end
  end.

Lemma unserved_rests a p p' :
  fire a p = Some p' -> serves p = false /\ requests p = ∅ /\ answered p = [] ->
  serves p' = false /\ requests p' = ∅ /\ answered p' = [].
Proof.
  intros Hf (Hs & Hr & Ha). destruct a; cbn [fire] in Hf; rewrite ?Hs, ?Hr, ?lookup_empty in Hf;
    repeat case_match; simplify_eq/=; try done.
  all: unfold waiting; by rewrite Hr, Ha, ?map_filter_empty, ?map_to_list_empty.
Qed.

(** When the key pair of the proxy does not load, the program serves no request
    of the proxy, and the failure takes the administration server down with it: the
    program ends, with status 0 as after a normal stop. *)
Theorem unserved_proxy_ends_with_success flags procs sql_open ping exec w s steps p :
  start flags procs sql_open ping exec w = Started s -> snd (proxy_at s) = NotServed -> run steps (main_process s) = Some p ->
  answered p = []
  /\ (at_phase p = Waiting ->
      exists p', run ((if decide (ProxyServer ∈ errors p) then [] else [Fatal ProxyServer]) ++ [Select; Shutdown]) p = Some p'
        /\ exit_status p' = Some 0).
Proof.
  intros Hs Hl Hr. assert (Hp : main_process s = begin false).
  { unfold start in Hs. repeat case_match; simplify_eq; cbn in *; congruence. }
  rewrite Hp in Hr. pose proof (process_inv (fun p => serves p = false /\ requests p = ∅ /\ answered p = []) unserved_rests _ _ _ Hr) as Hi.
  destruct Hi as (_ & Hq & Ha); [done|]. split; [done|]. intros Hw. exists (set_phase Returned
    (if decide (ProxyServer ∈ errors p) then p else mkProcess (serves p) (ctx_done p) (errors p ++ [ProxyServer]) Waiting (requests p) (answered p))).
  destruct (decide (ProxyServer ∈ errors p)) as [Hin|Hin]; cbn [app run fire]; rewrite Hw.
  - destruct (errors p) eqn:He; [by apply elem_of_nil in Hin|]. rewrite bool_decide_false, orb_true_r by done. cbn.
    by rewrite Hq, decide_True by done.
  - rewrite decide_False by done. cbn. rewrite bool_decide_false, orb_true_r by (by destruct (errors p)). cbn.
    by rewrite Hq, decide_True by done.
Qed.
End main.

(** ** Witnesses *)

#[local] Existing Instance unicode_ascii.
#[local] Existing Instance rune_classes_ascii.
#[local] Existing Instance Sqli.cap_32.
#[local] Existing Instance ParserHardener.no_category.
#[local] Existing Instance Behavioral.log2_zero.
#[local] Existing Instance Behavioral.runes_canonical.
#[local] Existing Instance Bot.attacker_dns.
#[local] Existing Instance WebSocket.rfc6455.
#[local] Existing Instance Confidence.format_len.
#[local] Existing Instance Proxy.no_captcha.
#[local] Existing Instance Proxy.no_parts.
#[local] Existing Instance Proxy.no_tls.
#[local] Existing Instance Proxy.no_files.
#[local] Existing Instance Proxy.no_wasm.
#[local] Existing Instance Proxy.no_keys.
#[local] Existing Instance Proxy.text_url.

(** No file holds a key pair, and the configuration asks for ACME without an
    email. *)
#[local] Instance no_pairs : KeyPairs unit := {| LoadX509KeyPair := fun _ _ => None |}.
Definition acme_config (c : Config.Config.t) : Config.Config.t :=
  Config.Config.mk (Config.Config.filePath c) (Config.Config.Sites c) (Config.Config.Rules c) (Config.Config.ML c) (Config.Config.Redis c)
    (Config.Config.DB c) (Config.Config.Logging c)
    (Config.TLSConfig.mk true "" "" "1.2" true false true "" ["shop.example"] "/var/acme")
    (Config.Config.Admin c) (Config.Config.JWT c) (Config.Config.OAuth c) (Config.Config.GraphQL c)
    (Config.Config.MTLS c) (Config.Config.WebSocket c) (Config.Config.SIEM c) (Config.Config.RewriteRules c) (Config.Config.SQLI c)
    (Config.Config.XSS c) (Config.Config.RCE c) (Config.Config.DDoS c) (Config.Config.Protocol c) (Config.Config.Bot c) (Config.Config.APIProtect c)
    (Config.Config.Upload c) (Config.Config.Credential c) (Config.Config.Geo c) (Config.Config.RateLimit c) (Config.Config.Session c)
    (Config.Config.Reputation c) (Config.Config.RulesCfg c) (Config.Config.CAPTCHA c) (Config.Config.RespInspect c) (Config.Config.SOAP c)
    (Config.Config.GRPC c) (Config.Config.Prometheus c) (Config.Config.JA3 c) (Config.Config.Behavioral c) (Config.Config.WASM c)
    (Config.Config.Desync c) (Config.Config.Adaptive c) (Config.Config.EBPF c) (Config.Config.ParserHardening c) (Config.Config.ShadowMode c)
    (Config.Config.LearningMode c) (Config.Config.Performance c).
#[local] Instance acme_files : Config.Files :=
  {| Config.read_file := fun _ => Ok ""; Config.getenv := fun _ => "";
     Config.yaml_unmarshal := fun _ c => Ok (acme_config (Config.example_config [Proxy.shop] false c)); Config.yaml_text := fun _ => Ok "";
     Config.write_file := fun _ _ => None |}.

Lemma unserved_proxy_ends_with_success_witness :
  exists s : @program unit unit unit _,
    start (Pool := unit) default_flags 1 None None None Proxy.shop_world = Started s /\ answered (begin false) = [].
Proof.
  eexists. split; [reflexivity|].
  eapply (unserved_proxy_ends_with_success (Pair := unit) (Pool := unit) default_flags 1 None None None Proxy.shop_world _ []);
    [reflexivity..].
Defined.

(** The file gives the shop another upstream after the start. *)
Definition moved_shop : Config.SiteConfig.t :=
  Config.SiteConfig.mk "shop" ["shop.example"] "http://10.9.9.9" 0 false "" "" None true ∅.


Definition two_requests : list step := [Arrive 1; Arrive 2; Decide 1 (Some []); Decide 2 None].
Definition serving : process := default (begin true) (run two_requests (begin true)).

Lemma requests_answered_once_witness :
  exists p, run (two_requests ++ [Fatal AdminServer; Select; RoundTripDone 1; CopyDone 1]) (begin true) = Some p
    /\ (two_requests ≫= arrived) ≡ₚ open_requests p ++ (answered p).*1.
Proof.
  eexists. split; [reflexivity|].
  apply (proj1 (requests_answered_once true (two_requests ++ [Fatal AdminServer; Select; RoundTripDone 1; CopyDone 1]) _ eq_refl)).
Defined.

Definition after_signal : list step := [Select; RoundTripFails 1; Shutdown].
Lemma signal_cuts_requests_witness :
  exists p', run after_signal (cancel serving) = Some p' /\ exit_status p' = Some 0 /\
    exists l, answered p' = (answered serving ++ l)%list /\
      forall n r, (n, r) ∈ l -> r <> Upstream /\
        match requests serving !! n with
        | Some (RoundTrip hs) => exists body, r = Error (Proxy.Reply 502 hs body)
        | Some Copying => r = Truncated
        | _ => True
        end.
Proof.
  eexists. split; [reflexivity|]. split; [reflexivity|].
  apply (proj1 (signal_cuts_requests serving (cancel serving) after_signal _ eq_refl eq_refl)).
Defined.

(** After the signal the answer of the upstream is not passed on; without it, it is. *)
Example answer_refused : run [Select; RoundTripDone 1] (cancel serving) = None.
Proof. reflexivity. Qed.
