(* ===== verification/ApiServer.v ===== *)
(** * The control API's server: [internal/api/server.go]

    The server's life, and a whole request to it: the routes of [Admin], the
    middleware of [ApiStore.Access] and the handlers of [Api], [ApiStore] and
    [LogStream] over one state, with the handlers on the state of the program. The
    middlewares after the authentication pass everything on or log. *)

From S2P Require Import Prelude Float64 GoStr Types.
From S2P Require Json Config Confidence Rules Mtls Admin Api Ctl ApiStore LogStream Startup.

#[local] Open Scope string_scope.
#[local] Open Scope Z_scope.

Record ServerConfig : Type := mkServerConfig {
  Port : Z; AdminPort : Z; AdminEnabled : bool; MTLSEnabled : bool; CACertFile : string; CertFile : string; KeyFile : string;
  APIKeys : list string; JWTSecret : string; DevMode : bool
}.

(** ** The server's life *)

(** How a listener serves: [pool] is the pool of certificates that clients are
    checked against, [None] when no certificate could be read. *)
Inductive serving (Pool Pair : Type) : Type :=
| Plain
| MutualTLS (pool : option Pool) (own : Pair)
| Failed (why : text).
Arguments Plain {Pool Pair}.
Arguments MutualTLS {Pool Pair}.
Arguments Failed {Pool Pair}.

(** [s.cancel], [s.srv] and [s.adminSrv]: what [Start] made last; and whether
    [s.done] is closed. *)
Record Server (Pool Pair : Type) : Type := mkServer {
  config : ServerConfig; srv : option (Z * serving Pool Pair); adminSrv : option (Z * serving Pool Pair); cancelled : bool; done_ : bool
}.
Arguments mkServer {Pool Pair}.
Arguments config {Pool Pair}.
Arguments srv {Pool Pair}.
Arguments adminSrv {Pool Pair}.
Arguments cancelled {Pool Pair}.
Arguments done_ {Pool Pair}.

Section life.
Context {Pool Pair : Type} `{Mtls.CaFiles Pool} `{Startup.KeyPairs Pair}.

Definition NewServer (cfg : ServerConfig) : Server Pool Pair := mkServer cfg None None false false.

(** The error of the certificate's file is returned; certificates that cannot
    be read from it are not noticed. *)
Definition startMTLSServer (cfg : ServerConfig) : serving Pool Pair :=
  match Mtls.ReadFile (CACertFile cfg) with
  | None => Failed (Sprintf "read ca cert: %w" [])
  | Some caCert =>
      match Startup.LoadX509KeyPair (CertFile cfg) (KeyFile cfg) with
      | None => Failed (lit "key pair")
      | Some own => MutualTLS (Mtls.AppendCertsFromPEM caCert) own
      end
  end.

(** [Start] answers nil; errors of the listeners are logged. *)
Definition Start (s : Server Pool Pair) : option text * Server Pool Pair :=
  let cfg := config s in
  (None,
   mkServer cfg (Some (Port cfg, Plain))
     (if AdminEnabled cfg then Some (AdminPort cfg, if MTLSEnabled cfg then startMTLSServer cfg else Plain) else adminSrv s)
     false (done_ s)).

(** [stop] is the result of a server's own [Shutdown]. *)
Definition Shutdown (stop : Z -> option string) (s : Server Pool Pair) : outcome (option text * Server Pool Pair) :=
  let stopping (what : string) (l : option (Z * serving Pool Pair)) : list text :=
    match l with
    | Some (port, _) => match stop port with Some e => [Sprintf (what ++ " shutdown: %w") [AStr e]] | None => [] end
    | None => []
    end in
  let errs := (stopping "api server" (srv s) ++ stopping "admin server" (adminSrv s))%list in
  if done_ s then Panics
  else Returns (head errs, mkServer (config s) (srv s) (adminSrv s) (match srv s with Some _ => true | None => cancelled s end) true).

(** A client with a certificate passes an empty pool as little as one
    without. *)
Definition admits_clients (l : serving Pool Pair) : bool :=
  match l with Plain => true | MutualTLS pool _ => match pool with Some _ => true | None => false end | Failed _ => false end.

(** [Start] reports success whatever becomes of its listeners: with mutual TLS
    the administration server admits clients exactly when the certificate file can be
    read and holds certificates and the key pair loads; a second [Shutdown] panics,
    started or not. *)
Theorem start_never_fails stop cfg s1 s2 r :
  Start (NewServer cfg) = (r, s1) -> AdminEnabled cfg = true -> MTLSEnabled cfg = true -> Shutdown stop s1 = Returns (None, s2) ->
  r = None
  /\ (match adminSrv s1 with Some (_, l) => admits_clients l | None => false end = true <->
      exists data pool own, Mtls.ReadFile (CACertFile cfg) = Some data /\ Mtls.AppendCertsFromPEM (Pool := Pool) data = Some pool
        /\ Startup.LoadX509KeyPair (CertFile cfg) (KeyFile cfg) = Some own)
  /\ Shutdown stop s2 = Panics /\ Shutdown stop (snd (Start s2)) = Panics.
Proof.
  unfold Start. cbn. intros [= <- <-] -> -> Hs. unfold Shutdown in Hs. cbn in Hs. injection Hs as _ <-. split; [done|]. split; [|done].
  cbn. unfold startMTLSServer.
  destruct (Mtls.ReadFile (CACertFile cfg)) as [data|]; [|naive_solver].
  destruct (Startup.LoadX509KeyPair (CertFile cfg) (KeyFile cfg)) as [own|]; [|naive_solver]. cbn.
  destruct (Mtls.AppendCertsFromPEM data) as [pool|] eqn:Ha; naive_solver.
Qed.
End life.

(** ** The socket *)

(** [handleWebSocket]: messages until reading or writing fails; each is sent
    back as a text message. [upgraded] is whether the upgrade worked, which no
    origin prevents. *)
Inductive message : Type := TextMessage (s : string) | BinaryMessage (s : string).
Definition payload_of (m : message) : string := match m with TextMessage s | BinaryMessage s => s end.
Fixpoint echo (incoming : list message) (writes_ok : nat -> bool) (i : nat) : list message :=
  match incoming with
  | [] => []
  | m :: incoming => if writes_ok i then TextMessage (payload_of m) :: echo incoming writes_ok (S i) else []
  end.
Definition CheckOrigin (r : http_Request) : bool := true.
Definition handleWebSocket (upgraded : bool) (incoming : list message) (writes_ok : nat -> bool) : list message :=
  if upgraded then echo incoming writes_ok 0 else [].

(** ** A request *)

(** The stores behind the handlers. *)
Record state (S : Type) : Type := mkState {
  handlers : Api.Handlers S;
  logStore : list ApiStore.Logs.logEntry;
  tenants : list ApiStore.Tenants.tenantRecord;
  alerts : list ApiStore.Alerts.alertRecord;
  access : ApiStore.Access.Server
}.
Arguments mkState {S}.
Arguments handlers {S}.
Arguments logStore {S}.
Arguments tenants {S}.
Arguments alerts {S}.
Arguments access {S}.

(** What is written, by the type of the data. *)
Inductive reply : Type :=
| Conf (r : Api.response)
| LogPage (l : list ApiStore.Logs.logEntry) (total page : Z)
| Following
| Download (d : LogStream.download)
| Traffic (t : Z * ApiStore.Logs.traffic * f64 * f64)
| Attacks (t : Z * gmap string Z * gmap string Z * gmap string Z)
| TenantList (l : list ApiStore.Tenants.tenantRecord * Z)
| Tenant (a : ApiStore.answer ApiStore.Tenants.tenantRecord)
| Deleted (a : ApiStore.answer unit)
| AlertList (l : list ApiStore.Alerts.alertRecord * Z)
| Alert (a : ApiStore.answer ApiStore.Alerts.alertRecord)
| Echo
| Unauthorized
| Unrouted
| Crashed.

(** What a handler reads besides the request: the clock, in order, and a fresh
    UUID; [h.version] and [h.startTime]. *)
Record env : Type := mkEnv { now1 : Z; now2 : Z; uuid : string }.
Record About : Type := mkAbout { version : string; startTime : Z }.

Definition query (r : http_Request) (name : string) : string :=
  match req_Query r !! name with Some (v :: _) => v | _ => "" end.
Definition body (r : http_Request) : string := match req_Body r with Some b => content b | None => "" end.
Definition whole_body (r : http_Request) : option string :=
  match req_Body r with Some b => if read_fails b then None else Some (content b) | None => Some "" end.

Section server.
Context `{Unicode} `{Config.Files} `{Api.ConfigCodec} `{Rules.Oracles} `{Rules.Runtime} `{MapRange string} {S : Type}.
Context `{ApiStore.Logs.ParseRFC3339} `{LogStream.FormatRFC3339}.
Context (about : About).
Implicit Types st : state S.

Definition set_handlers (h : Api.Handlers S) st : state S := mkState h (logStore st) (tenants st) (alerts st) (access st).
Definition set_tenants (l : list ApiStore.Tenants.tenantRecord) st : state S :=
  mkState (handlers st) (logStore st) l (alerts st) (access st).
Definition set_alerts (l : list ApiStore.Alerts.alertRecord) st : state S :=
  mkState (handlers st) (logStore st) (tenants st) l (access st).

Definition conf (p : Api.response * Api.Handlers S) st : reply * state S := (Conf (fst p), set_handlers (snd p) st).
Definition look (r : Api.response) st : reply * state S := (Conf r, st).

(** *** The handlers on the program *)

Definition Health (e : env) : Api.response :=
  Api.writeOK (Api.Fields [("status", lit "healthy"); ("timestamp", Sprintf "RFC3339" [ATime (now1 e)])]).
Definition uptime (e : env) : Z := time_sub (now1 e) (startTime about).
Definition counts (cfg : Config.Config.t) : list (string * text) :=
  [("sites", Sprintf "%d" [AInt (len (Config.Config.Sites cfg))]); ("rules", Sprintf "%d" [AInt (len (Config.Config.Rules cfg))])].
Definition SystemStatus (e : env) st : Api.response :=
  Api.writeOK (Api.Fields
    ([("status", lit "running"); ("version", lit (version about)); ("uptime", Sprintf "%v" [ADur (uptime e)]);
      ("uptime_sec", Sprintf "%d" [AInt (to_int (Seconds (uptime e)))])]
     ++ counts (Api.cfg (handlers st))
     ++ [("logs", Sprintf "%d" [AInt (len (logStore st))]); ("alerts", Sprintf "%d" [AInt (len (alerts st))]);
         ("goroutines", lit "0"); ("started_at", Sprintf "RFC3339" [ATime (startTime about)])])%list).
Definition Version : Api.response := Api.writeOK (Api.Fields [("version", lit (version about))]).
(** The fields and the masked configuration, without the [data] around them. *)
Definition AdminStatus (e : env) st : list (string * text) * Api.maskedConfig :=
  (([("status", lit "running"); ("version", lit (version about)); ("uptime", Sprintf "%v" [ADur (uptime e)])]
    ++ counts (Api.cfg (handlers st)))%list, Api.maskSecrets (Api.cfg (handlers st))).

(** *** Serving *)

Definition run_handler (e : env) (a : Admin.api_handler) (vars : list string) (r : http_Request) st : reply * state S :=
  let id := default "" (head vars) in
  let h := handlers st in
  match a with
  | Admin.ListSites => look (Api.ListSites h) st
  | Admin.CreateSite => conf (Api.CreateSite (body r) h) st
  | Admin.GetSite => look (Api.GetSite id h) st
  | Admin.UpdateSite => conf (Api.UpdateSite id (body r) h) st
  | Admin.DeleteSite => conf (Api.DeleteSite id h) st
  | Admin.ListRules => look (Api.ListRules (query r) h) st
  | Admin.CreateRule => conf (Api.CreateRule (body r) h) st
  | Admin.GetRule => look (Api.GetRule id h) st
  | Admin.UpdateRule => conf (Api.UpdateRule id (body r) h) st
  | Admin.DeleteRule => conf (Api.DeleteRule id h) st
  | Admin.TestRule => look (Api.TestRule (body r) h) st
  | Admin.ReorderRule => conf (Api.ReorderRule id (body r) h) st
  | Admin.QueryLogs =>
      match ApiStore.Logs.QueryLogs (query r) (logStore st) with
      | Returns (l, total, page) => (LogPage l total page, st)
      | Panics => (Crashed, st)
      end
  | Admin.TailLogs => (Following, st)
  | Admin.ExportLogs => (Download (LogStream.ExportLogs (version about) (query r) (logStore st)), st)
  | Admin.TrafficStats => (Traffic (ApiStore.Logs.TrafficStats (now1 e) (query r) (logStore st)), st)
  | Admin.AttackStats => (Attacks (ApiStore.Logs.AttackStats (now1 e) (query r) (logStore st)), st)
  | Admin.ListPatches => look (Api.ListPatches (query r "status") h) st
  | Admin.CreatePatch => conf (Api.CreatePatch (uuid e) (now1 e) (body r) h) st
  | Admin.ApplyPatch => conf (Api.ApplyPatch (now1 e) id h) st
  | Admin.RevokePatch => conf (Api.RevokePatch id h) st
  | Admin.ExportConfig => look (Api.ExportConfig h) st
  | Admin.ImportConfig => conf (Api.ImportConfig (whole_body r) h) st
  | Admin.ValidateConfig => look (Api.ValidateConfig (body r)) st
  | Admin.DiffConfig => look (Api.DiffConfig (body r) h) st
  | Admin.Health => look (Health e) st
  | Admin.ListAlerts =>
      match ApiStore.Alerts.ListAlerts (query r) (alerts st) with Returns l => (AlertList l, st) | Panics => (Crashed, st) end
  | Admin.CreateAlert =>
      let '(a, l) := ApiStore.Alerts.CreateAlert (uuid e) (now1 e) (body r) (alerts st) in (Alert a, set_alerts l st)
  | Admin.UpdateAlert => let '(a, l) := ApiStore.Alerts.UpdateAlert id (body r) (alerts st) in (Alert a, set_alerts l st)
  | Admin.ListTenants => (TenantList (ApiStore.Tenants.ListTenants (tenants st)), st)
  | Admin.CreateTenant =>
      let '(a, l) := ApiStore.Tenants.CreateTenant (uuid e) (now1 e) (now2 e) (body r) (tenants st) in (Tenant a, set_tenants l st)
  | Admin.GetTenant => (Tenant (ApiStore.Tenants.GetTenant id (tenants st)), st)
  | Admin.UpdateTenant =>
      let '(a, l) := ApiStore.Tenants.UpdateTenant (now1 e) id (body r) (tenants st) in (Tenant a, set_tenants l st)
  | Admin.DeleteTenant => let '(a, l) := ApiStore.Tenants.DeleteTenant id (tenants st) in (Deleted a, set_tenants l st)
  | Admin.HandleWebSocket => (Echo, st)
  end.

Context `{Admin.Mux}.

Definition serve (now : Z) (e : env) (r : http_Request) st : reply * state S :=
  match Admin.Route Admin.api_table (req_Method r) (req_URL_Path r) with
  | Admin.Found a vars =>
      if Admin.authenticated a && negb (ApiStore.Access.authMiddleware now r (access st)) then (Unauthorized, st)
      else run_handler e a vars r st
  | _ => (Unrouted, st)
  end.
Fixpoint serve_all (rs : list (Z * env * http_Request)) st : list reply * state S :=
  match rs with
  | [] => ([], st)
  | (now, e, r) :: rs => let '(a, st) := serve now e r st in let '(l, st) := serve_all rs st in (a :: l, st)
  end.
End server.

(** ** Who can do what *)

Section admission.
Context `{Unicode} `{Config.Files} `{Api.ConfigCodec} `{Rules.Oracles} `{Rules.Runtime} `{MapRange string} {S : Type}.
Context `{ApiStore.Logs.ParseRFC3339} `{LogStream.FormatRFC3339} `{Admin.Mux}.
Context (about : About).
Implicit Types st : state S.

Lemma run_handler_access e a vars r st : access (snd (run_handler about e a vars r st)) = access st.
Proof. destruct a; cbn [run_handler]; unfold conf, look; repeat case_match; done. Qed.

Lemma serve_access now e r st : access (snd (serve about now e r st)) = access st.
Proof. unfold serve. repeat case_match; [done|apply run_handler_access|done..]. Qed.

Lemma serve_all_access rs : forall st l st', serve_all about rs st = (l, st') -> access st' = access st.
Proof.
  induction rs as [|[[now e] r] rs IH]; intros st l st'; cbn [serve_all]; [by intros [= <- <-]|].
  pose proof (serve_access now e r st) as Ha. destruct (serve about now e r st) as [a st1]. cbn in Ha.
  destruct (serve_all about rs st1) as [l1 st2] eqn:E. intros [= <- <-]. rewrite <- Ha. by eapply IH.
Qed.

(** A request with a key that the server was started with. *)
Definition holds_key (r : http_Request) (s : ApiStore.Access.Server) : Prop :=
  exists key, key ∈ ApiStore.Access.APIKeys s /\ key <> "" /\ Get (Header r) "X-API-Key" = key.

Lemma admitted_by_key now r s :
  ApiStore.Access.sessions s = ∅ -> ApiStore.Access.authMiddleware now r s = true ->
  ApiStore.Access.DevMode s = true \/ holds_key r s.
Proof.
  intros Hs. unfold ApiStore.Access.authMiddleware. rewrite Hs, lookup_empty, andb_false_r, orb_false_r.
  intros [[Hk (key & Hin & Heq%String.eqb_eq)%existsb_exists]%andb_true_iff|Hd]%orb_true_iff; [right|by left].
  exists key. split; [by apply list_elem_of_In|]. subst key. split; [|done]. by apply negb_true_iff, String.eqb_neq in Hk.
Qed.

(** [C12] Who can read or change anything. The server has no route that logs in or
    makes a key, so through every history of requests no bearer of a token is let
    in: outside development mode a request without a key of the server's settings is
    answered 401, or by the router, or by the echo on the socket, and changes nothing. *)
Theorem api_open_to_key_holders rs st l st' now e r :
  ApiStore.Access.sessions (access st) = ∅ -> serve_all about rs st = (l, st') ->
  ApiStore.Access.DevMode (access st) = true \/ holds_key r (access st)
  \/ exists a, serve about now e r st' = (a, st') /\ (a = Unauthorized \/ a = Unrouted \/ a = Echo).
Proof.
  intros Hs Hr. apply serve_all_access in Hr as Ha. rewrite <- Ha in Hs |- *. unfold serve.
  destruct (Admin.Route _ _ _) as [a vars| | |]; [|right; right; eauto..].
  destruct (ApiStore.Access.authMiddleware now r (access st')) eqn:Hm.
  - destruct (admitted_by_key now r _ Hs Hm) as [?|?]; auto.
  - right. right. destruct a; cbn; eauto.
Qed.

Lemma socket_no_api m meth p a : Admin.match_route m ["ws"] (Admin.api_route meth p a) = None.
Proof. unfold Admin.match_route. by destruct (match Admin.methods _ with [] => _ | _ => _ end). Qed.

(** The socket is open to everyone: whatever the method, the keys and the
    origin, a request to /ws is upgraded and gets its messages back as text. *)
Theorem socket_echoes `{!Admin.MuxLaws} now e r st incoming :
  req_URL_Path r = "/ws" ->
  serve about now e r st = (Echo, st) /\ CheckOrigin r = true
  /\ handleWebSocket true incoming (fun _ => true) = map (fun m => TextMessage (payload_of m)) incoming.
Proof.
  intros Hp. split_and!; [|done|].
  - unfold serve. pose proof (Admin.route_first _ Admin.api_table (req_Method r) ["ws"] ltac:(done)) as Hr. rewrite Hp.
    assert (Forall Admin.clean_segment ["ws"]) as Hc by (by repeat constructor). specialize (Hr Hc).
    assert (first_some (Admin.match_route (req_Method r) ["ws"]) Admin.api_table = Some (Admin.HandleWebSocket, [])) as Hf.
    { unfold Admin.api_table. cbn [first_some]. by rewrite !socket_no_api. }
    rewrite Hf in Hr. change (Admin.path_of ["ws"]) with "/ws" in Hr. by rewrite Hr.
  - unfold handleWebSocket. generalize 0%nat. induction incoming as [|m l IH]; intros i; [done|]. cbn. by rewrite IH.
Qed.
End admission.

(** ** fortressctl against the control API *)

(** [C29] With a key of the server's settings each command of fortressctl but the
    status is let in and answered by the handler of its name, whatever has been
    served before; for the status the server has no route. The server that the
    firewall starts lets no command with a key in ([Ctl.ctl_against_waf]). *)
Theorem ctl_served_by_api `{Unicode} `{Config.Files} `{Api.ConfigCodec} `{Rules.Oracles} `{Rules.Runtime} `{MapRange string} {S : Type}
    `{ApiStore.Logs.ParseRFC3339} `{LogStream.FormatRFC3339} `{Admin.MuxLaws} `{Ctl.Disk}
    about now e g c q r rs l (st st' : state S) :
  Ctl.prepare g c = Ok (Some q) -> Ctl.plain c -> Ctl.delivered c q r ->
  Ctl.apiKey g ∈ ApiStore.Access.APIKeys (access st) -> Ctl.apiKey g <> "" -> serve_all about rs st = (l, st') ->
  match Ctl.api_handler_of c with
  | Some a => exists vars, serve about now e r st' = run_handler about e a vars r st'
  | None => serve about now e r st' = (Unrouted, st')
  end.
Proof.
  intros Hp Hpl Hd Hin Hne Hr. apply serve_all_access in Hr. rewrite <- Hr in Hin.
  pose proof (Ctl.api_route_of g c q r Hp Hpl Hd) as Hroute. unfold serve.
  destruct (Ctl.api_handler_of c) as [a|]; [|by destruct Hroute as [_ [-> | ->]]].
  destruct Hroute as [vars ->]. exists vars.
  assert (ApiStore.Access.authMiddleware now r (access st') = true) as ->; [|by rewrite andb_false_r].
  destruct Hd as (_ & Hh & _). destruct (Ctl.prepare_request g c q Hp) as (_ & _ & _ & Hk).
  unfold ApiStore.Access.authMiddleware, Get, Values. rewrite Hh. change (CanonicalHeaderKey "X-API-Key") with "X-Api-Key".
  rewrite (Hk Hne). change (default [] (Some [Ctl.apiKey g])) with [Ctl.apiKey g]. cbn iota. rewrite (proj2 (String.eqb_neq _ _) Hne). cbn [negb andb].
  rewrite (proj2 (existsb_exists _ _)); [done|]. exists (Ctl.apiKey g). split; [by apply list_elem_of_In|apply String.eqb_refl].
Qed.

(** ** Witnesses *)

#[local] Existing Instance unicode_ascii.
#[local] Existing Instance Confidence.format_len.
#[local] Existing Instance Config.no_files.
#[local] Existing Instance Admin.first_mux.
#[local] Existing Instance Admin.first_mux_laws.
#[local] Existing Instance Rules.example_oracles.
#[local] Existing Instance Rules.example_runtime.
#[local] Existing Instance Api.plain_codec.
#[local] Existing Instance Ctl.no_disk.
#[local] Existing Instance LogStream.no_format.
#[local] Instance no_times : ApiStore.Logs.ParseRFC3339 := fun _ => None.
#[local] Instance any_file : Mtls.CaFiles unit := {| Mtls.ReadFile := fun _ => Some "junk"; Mtls.AppendCertsFromPEM := fun _ => None |}.
#[local] Instance any_pair : Startup.KeyPairs unit := {| Startup.LoadX509KeyPair := fun _ _ => Some tt |}.

Definition program : About := mkAbout "v1.4.0" 0.
Definition fresh : state unit :=
  mkState (Api.example_handlers [Api.rule_a] []) [] [] [] (ApiStore.Access.mkServer ["secret"] false ∅ ∅).
Definition at_noon : env := mkEnv 0 0 "11112222-3333".
Definition deletion : Ctl.Req := Ctl.newRequest Ctl.keyed "DELETE" "/rules/a" Ctl.NoPayload.
Definition deletes_a : http_Request := Ctl.as_received (Ctl.Rule (Ctl.RuleDelete "a")) deletion.
Definition mutual : ServerConfig := mkServerConfig 8080 8081 true true "ca.pem" "c.pem" "k.pem" ["secret"] "" false.

Lemma start_never_fails_witness :
  Shutdown (fun _ => None) (snd (Start (mkServer mutual (Some (8080, @Plain unit unit)) None true true))) = Panics.
Proof.
  pose proof (start_never_fails (Pool := unit) (Pair := unit) (fun _ => None) mutual (snd (Start (NewServer mutual)))
    (mkServer mutual (Some (8080, Plain)) (Some (8081, MutualTLS None tt)) true true) None eq_refl eq_refl eq_refl eq_refl) as (_ & _ & _ & Hs).
  exact Hs.
Defined.

Lemma api_open_to_key_holders_witness :
  exists a, serve program 0 at_noon (mkRequest {["Authorization" := ["Bearer x"]]} "GET" "/api/v1/sites" "" "" "HTTP/1.1" 0 [] ∅ None)
    (snd (serve_all program [(0, at_noon, deletes_a)] fresh)) = (a, snd (serve_all program [(0, at_noon, deletes_a)] fresh)).
Proof.
  destruct (api_open_to_key_holders program [(0, at_noon, deletes_a)] fresh _ _ 0 at_noon
    (mkRequest {["Authorization" := ["Bearer x"]]} "GET" "/api/v1/sites" "" "" "HTTP/1.1" 0 [] ∅ None) eq_refl (surjective_pairing _))
    as [Hd|[(key & Hin & Hne & Hk)|(a & Ha & _)]]; [discriminate Hd| |by exists a].
  exfalso. apply Hne. symmetry. exact Hk.
Defined.

Lemma socket_echoes_witness :
  serve program 0 at_noon (mkRequest ∅ "GET" "/ws" "" "" "HTTP/1.1" 0 [] ∅ None) fresh = (Echo, fresh).
Proof. exact (proj1 (socket_echoes program 0 at_noon (mkRequest ∅ "GET" "/ws" "" "" "HTTP/1.1" 0 [] ∅ None) fresh [] eq_refl)). Defined.

Lemma ctl_served_by_api_witness :
  exists vars, serve program 0 at_noon deletes_a fresh = run_handler program at_noon Admin.DeleteRule vars deletes_a fresh.
Proof.
  apply (ctl_served_by_api program 0 at_noon Ctl.keyed (Ctl.Rule (Ctl.RuleDelete "a")) deletion deletes_a [] [] fresh fresh);
    [reflexivity|apply Admin.clean_by; reflexivity|by repeat split|by left|discriminate|reflexivity].
Defined.
